(* ===== verification/_CoqProject ===== *)
-Q . S2P
Prelude.v
CMem.v
CStr.v
CText.v
CPrint.v
MdApi.v
CpussData.v
RegDump.v
RegDumpSpec.v
RegDumpProofs.v
RegShow.v
SprDump.v
SprProofs.v
SprShow.v
DumpTable.v
DumpTableProofs.v
MemDumpAlloc.v
MemDumpAllocProofs.v
CpussSystem.v
Demo.v
RegDumpProps.v
SprProps.v
DumpProps.v
KaslrStore.v
XblLog.v
MdElf.v
MdElfRep.v
MdElfClear.v
MdElfRegions.v
MdElfInit.v
MdElfUpdate.v
MdElfRequests.v
MdState.v
MdToc.v
MdRm.v
MdDriver.v
MdTocProofs.v
MdDriverProofs.v
MdClient.v
MdMemDump.v
MdMemDumpProofs.v
MdPageOwner.v
MdPageOwnerProofs.v
MdMemInfo.v
MdSlabOwner.v
MdSlabOwnerProofs.v
MdDmaBuf.v
MdDmaBufProofs.v
MdFtrace.v
MdRunqueue.v
MdRunqueueProofs.v
MdCpuContext.v
MdLogReg.v
MdLogRegProofs.v
MdModules.v
MdStack.v
MdStackProofs.v
MdStackReg.v
MdKmsg.v
MdPanic.v
MdPanicProofs.v
MdLogInit.v
MdLogInitProofs.v
MdProbe.v
MdRmProofs.v
MdRmSystem.v
MdDemo.v
MdMemProps.v
MdProps.v
MdRmProps.v
MdLogProps.v
MdPanicProps.v
