(* ===== verification/Prelude.v ===== *)
(** * Safelinux debug modules: a verification library

    The modules under src/ collect what is needed to debug a crash.  Each is a
    kernel driver; this library models their code as functions on explicit
    states and proves what the functions do.

    ** The program

    - src/memory_dump_v2/memory_dump_v2.c reserves a block of memory for the
      dumps of CPUs and peripherals, describes it to the firmware in a base
      table and an apps table, and lets user space fill the tables of
      registers to dump through sysfs files.
    - src/minidump/msm_minidump.c keeps the regions of kernel memory that go
      into a minidump: in its own table, in a table the boot loader reads (or
      with the resource manager of the hypervisor), and in an ELF header that
      makes the dump a core file.  Other drivers add, update and remove
      regions; memory_dump_v2.c is one of them.
    - src/minidump/minidump_log.c and minidump_memory.c register regions of
      their own - stacks, the kernel log, the data of modules, buffers for run
      queues, registers and memory statistics, dumps of memory owners - and
      fill them on a panic.
    - src/xbl_log/dump_boot_log.c copies the log of the boot loader into a
      buffer of debugfs; src/kaslr_store/kaslr_store.c stores the KASLR offset
      where the boot loader finds it.

    ** The model

    Handlers are functions to an option: [None] is undefined behaviour of the
    C code - an access outside a buffer or an array, a null pointer, a lock
    taken twice - and [let*] passes it on.  They take the state and return the
    C return value with the new state.  Integers are Z with the wrap-around
    of their C type written out ([u8], [u16], [u32], [u64], [s32]).  What the
    kernel, the device tree, the firmware or user space answer is an argument:
    parsed input of sysfs files, allocations, addresses, the answers of the
    resource manager.

    - Prelude.v (this file): integers, arrays with checked indices, the option
      monad, tactics.  CMem.v: a block of memory byte by byte, loads and
      stores of each width, frame lemmas.  CStr.v, CText.v: C strings, the
      printf family, strings in memory.
    - CpussData.v, RegDump.v, RegShow.v, SprDump.v, SprShow.v, CpussSystem.v:
      the register tables and their sysfs files (memory_dump_v2.c, lines
      20-730).  RegDumpSpec.v is the specification of a table as two lists of
      commands; RegDumpProofs.v and SprProofs.v show that the handlers refine
      it and CpussSystem.v that this survives every interleaving of writers,
      with core_reg_num_store split where it drops its checks.
    - DumpTable.v, DumpTableProofs.v: the base and apps tables (lines
      780-935).  MemDumpAlloc.v, MemDumpAllocProofs.v: the probe, the layout of
      the memory and the creation of the sysfs files.
    - MdApi.v: the interface between the minidump driver and its clients, a
      class with the contract of [msm_minidump_add_region]; the dump tables
      are proved against it and MdDriverProofs.v implements it.
    - MdElf*.v: the ELF header (msm_minidump.c, lines 187-299 and 825-942).
      MdElf.v is the code on bytes; MdElfRep.v reads the buffer as lists of
      section headers, program headers and names; MdElfRegions.v as the list
      of regions, on which adding, removing (MdElfClear.v) and updating
      (MdElfUpdate.v) act.  MdElfRequests.v is about descriptors that are out
      of date, MdElfInit.v about the creation of the header.
    - MdState.v: the driver's variables, its locks included.  MdToc.v: the
      tables in shared memory; MdRm.v: the work queue of the resource-manager
      mode; MdDriver.v: the functions other drivers call, and the probe.
      MdTocProofs.v, MdDriverProofs.v, MdProbe.v: the state in shared-memory
      mode represents the list of the regions registered before the probe and
      after it.  MdRmProofs.v, MdRmSystem.v: in resource-manager mode it
      represents the registered and the waiting regions; API calls and the two
      halves of each request interleave freely.
    - MdClient.v: the driver as its regions' owners see it, the class
      [MdRegionApi] with the laws of adding, removing, updating and counting
      regions; the shared-memory mode is its instance.  CPrint.v: printing to
      a buffer in memory and sequence buffers.  MdMemDump.v,
      MdMemDumpProofs.v: dumps of variable size in blocks of the contiguous
      memory allocator (minidump_memory.c, lines 227-345 and the size files).
    - MdPageOwner.v, MdPageOwnerProofs.v: the page owner dump (lines 340-732);
      MdSlabOwner.v, MdSlabOwnerProofs.v: the slab owner dump (753-1041);
      MdDmaBuf.v, MdDmaBufProofs.v: the dma-buf dumps (1044-1315); MdMemInfo.v:
      memory and slab statistics (46-236).  The pages, caches, buffers and
      processes the kernel knows are arguments.
    - minidump_log.c, in the order of the file: MdStack.v, the stacks (lines
      63-514), with MdStackReg.v on their registration and MdStackProofs.v on
      their updates; MdFtrace.v, the trace buffer (517-599); MdRunqueue.v and
      MdRunqueueProofs.v, the run queues (603-827), as the lines of an outline;
      MdCpuContext.v, registers and the memory around them (829-985);
      MdPanic.v, MdPanicProofs.v, [md_dump_process] (987-1038), which calls the
      text and dump functions of both files; MdLogReg.v, MdLogRegProofs.v, the
      registration of buffers, modules' memory and pstore (1040-1148,
      1250-1335), with [joined], the relation of the states before and after
      the registration of a list of regions; MdModules.v (1150-1248);
      MdKmsg.v, the kernel log (1337-1382); MdLogInit.v, MdLogInitProofs.v,
      [msm_minidump_log_init] (1384-1417) and the variables of the file.
      These parts see the driver through [MdRegionApi] only; MdLogProps.v puts
      the initialisation behind the probe of the driver itself.
    - KaslrStore.v and XblLog.v: the two small modules.
    - RegDumpProps.v, SprProps.v, DumpProps.v, MdProps.v, MdRmProps.v,
      MdMemProps.v, MdLogProps.v, MdPanicProps.v
      and the ends of KaslrStore.v and XblLog.v hold the properties, each with
      an instance on concrete states (Demo.v for the tables).

    ** Loops and bounds

    Loops over arrays are structural on a count taken from the state.  The
    loop of register_config_show has fuel; [register_config_show_bounded]
    shows that it ends on every table with the fuel given.  [cstr_len] reads
    up to the end of its buffer.  The printing of numbers is structural on a
    bound of the number of digits of a 64-bit word.  [vmap_loop] has two turns
    more than the memory has full pages, [rt_loop] one for each of the 100
    priorities; [register_vmap_mem_tiles] and [md_dump_runqueues_correct] show
    that both end.

    ** Where the guarantees end

    Some inputs the code accepts break what it keeps otherwise; theorems on
    the rest say so in their hypotheses, and others say what happens:
    numbers written to core_reg_num from 2^31 on ([core_reg_num_wraps],
    [core_reg_num_faults]); reads of several words at offset 0 in the listing
    ([show_skips_offset_zero]); a 198th region with an ELF header
    ([elf_capacity]; [toc_rep_any] goes on to 200), regions at the same
    physical address ([alone]); SPR blocks of less than 24 bytes
    ([spr_sizes_ok]); dump sizes from 2048 MB on ([update_wraps]); a dump made
    smaller than its table of stacks ([page_owner_handles_before_dump]); the
    filter for unaccounted pages, whose scratch space is the dump
    ([flags_filter]); the slab owner dump, which is written over its end
    ([slab_owner_dump_overruns]).

    ** Not modelled

    The creation of debugfs files, and the lookup of kernel symbols that says
    whether page owner and slub debug are enabled (an argument).  Handlers on
    other CPUs (the inter-processor calls of minidump_log.c, the stop of the
    other CPUs in a panic) run one after the other.  The theorems on the
    initialisation of the log are, with CONFIG_QCOM_DYN_MINIDUMP_STACK, for
    vmapped stacks and idle other CPUs; [register_current_stack_ok] has busy
    ones.  The theorem on the panic handler is for a slab owner dump that is
    off, which has its own property.  The assembly that saves the registers of
    the panicking CPU is an argument.
    Driver structures, match tables and init and exit functions only register
    the drivers with the kernel; the build files configure the build. *)

From stdpp Require Export base list numbers strings relations tactics.
From Stdlib Require Export ZArith Lia.

#[export] Set Default Goal Selector "!".

Open Scope Z_scope.

(** ** Machine integers

    The C types of the modules are [u8], [u16], [u32] ([unsigned int],
    [uint32_t]), [u64] ([size_t], [unsigned long], addresses) and the signed
    32-bit [int].  A value of such a type is a [Z]; the functions below are
    the conversions the compiler inserts after an arithmetic operation. *)

Definition u8 (z : Z) : Z := z mod 256.
Definition u16 (z : Z) : Z := z mod 65536.
Definition u32 (z : Z) : Z := z mod 4294967296.
Definition u64 (z : Z) : Z := z mod 18446744073709551616.
Definition s32 (z : Z) : Z := (z + 2147483648) mod 4294967296 - 2147483648.

Lemma u32_range z : 0 <= u32 z < 4294967296.
Proof. unfold u32. apply Z.mod_pos_bound. lia. Qed.

Lemma u64_range z : 0 <= u64 z < 18446744073709551616.
Proof. unfold u64. apply Z.mod_pos_bound. lia. Qed.

Lemma u16_range z : 0 <= u16 z < 65536.
Proof. unfold u16. apply Z.mod_pos_bound. lia. Qed.

Lemma u32_small z : 0 <= z < 4294967296 -> u32 z = z.
Proof. apply Z.mod_small. Qed.

Lemma u64_small z : 0 <= z < 18446744073709551616 -> u64 z = z.
Proof. apply Z.mod_small. Qed.

Lemma u16_small z : 0 <= z < 65536 -> u16 z = z.
Proof. apply Z.mod_small. Qed.

Lemma s32_small z : -2147483648 <= z < 2147483648 -> s32 z = z.
Proof. intros H. unfold s32. rewrite Z.mod_small; lia. Qed.

Lemma u32_u32 z : u32 (u32 z) = u32 z.
Proof. apply u32_small, u32_range. Qed.

(** An unsigned sum that wrapped around is smaller than its operand, which
    is the overflow test the register dump tables use. *)
Lemma u32_add_wrap a b :
  0 <= a < 4294967296 -> 0 <= b < 4294967296 ->
  u32 (a + b) = a + b \/ (u32 (a + b) < a /\ 4294967296 <= a + b).
Proof.
  intros Ha Hb. unfold u32.
  destruct (decide (a + b < 4294967296)).
  - left. apply Z.mod_small. lia.
  - right. rewrite (Z.mod_eq (a + b)) by lia.
    assert ((a + b) / 4294967296 = 1) as -> by
      (symmetry; apply (Z.div_unique_pos _ _ 1 (a + b - 4294967296)); lia).
    lia.
Qed.

(** ... and a product that wrapped around no longer divides back. *)
Lemma u32_mul_wrap a n :
  0 <= a < 4294967296 -> 0 < n ->
  (u32 (a * n) / n <? a) = (4294967296 <=? a * n).
Proof.
  intros Ha Hn. unfold u32.
  destruct (Z.leb_spec 4294967296 (a * n)).
  - apply Z.ltb_lt, Z.div_lt_upper_bound; [lia|].
    pose proof (Z.mod_pos_bound (a * n) 4294967296 ltac:(lia)). nia.
  - rewrite Z.mod_small by nia. rewrite Z.div_mul by lia. lia.
Qed.

(** ** Errors

    The numbers of [<linux/errno.h>] the modules return (negated). *)

Definition EPERM : Z := 1.
Definition ENOENT : Z := 2.
Definition EIO : Z := 5.
Definition ENOMEM : Z := 12.
Definition EFAULT : Z := 14.
Definition EBUSY : Z := 16.
Definition EEXIST : Z := 17.
Definition ENODEV : Z := 19.
Definition EINVAL : Z := 22.
Definition E2BIG : Z := 7.
Definition ENOSPC : Z := 28.

(** ** Faulting computations

    [None] is an undefined or fatal C behaviour: the dereference of a null
    pointer, an access outside the memory the code owns, an index outside an
    array, taking a mutex twice.  A C function that returns an [int] and works
    on a state [S] is a function to [option (Z * S)]. *)

Declare Scope c_scope.
Delimit Scope c_scope with c.

Notation "'let*' x := e 'in' k" :=
  (match e with Some x => k | None => None end)
  (at level 10, x pattern, e at level 200, k at level 200,
   format "'[v' 'let*'  x  :=  e  'in' '/' k ']'") : c_scope.

Open Scope c_scope.

(** [assert_c b] faults unless [b]. *)
Definition assert_c (b : bool) : option () := if b then Some tt else None.

(** ** Arrays

    A C array of structures is a list; an access out of its bounds faults. *)

Definition getZ {A} (l : list A) (i : Z) : option A :=
  if 0 <=? i then l !! Z.to_nat i else None.

Definition setZ {A} (l : list A) (i : Z) (x : A) : option (list A) :=
  if (0 <=? i) && (i <? Z.of_nat (length l)) then Some (<[Z.to_nat i := x]> l) else None.

Section Arrays.
Context {A : Type}.
Implicit Types (l : list A) (i : Z).

Lemma getZ_Some_range l i x : getZ l i = Some x -> 0 <= i < Z.of_nat (length l).
Proof.
  unfold getZ. destruct (Z.leb_spec 0 i); [|done].
  intros ?%lookup_lt_Some. lia.
Qed.

Lemma getZ_of_nat l (n : nat) : getZ l (Z.of_nat n) = l !! n.
Proof.
  unfold getZ. destruct (Z.leb_spec 0 (Z.of_nat n)); [|lia].
  by rewrite Nat2Z.id.
Qed.

Lemma getZ_is_Some l i : 0 <= i < Z.of_nat (length l) -> is_Some (getZ l i).
Proof.
  intros. unfold getZ. destruct (Z.leb_spec 0 i); [|lia].
  apply lookup_lt_is_Some. lia.
Qed.

Lemma setZ_Some l i x :
  0 <= i < Z.of_nat (length l) -> setZ l i x = Some (<[Z.to_nat i := x]> l).
Proof.
  intros. unfold setZ.
  destruct (Z.leb_spec 0 i), (Z.ltb_spec i (Z.of_nat (length l))); simpl; lia || done.
Qed.

Lemma setZ_of_nat l (n : nat) x :
  (n < length l)%nat -> setZ l (Z.of_nat n) x = Some (<[n := x]> l).
Proof. intros. rewrite setZ_Some, Nat2Z.id by lia. done. Qed.

Lemma setZ_length l i x l' : setZ l i x = Some l' -> length l' = length l.
Proof.
  unfold setZ. destruct (_ && _); [|done].
  intros [= <-]. apply length_insert.
Qed.
End Arrays.

(** ** Automation *)

(** Reduce boolean tests on integers that appear in hypotheses to
    propositions. *)
Ltac bool_to_Prop :=
  repeat match goal with
  | H : (_ && _)%bool = true |- _ => apply andb_true_iff in H as [? ?]
  | H : (_ || _)%bool = false |- _ => apply orb_false_iff in H as [? ?]
  | H : negb _ = true |- _ => apply negb_true_iff in H
  | H : negb _ = false |- _ => apply negb_false_iff in H
  | H : (_ =? _) = true |- _ => apply Z.eqb_eq in H
  | H : (_ =? _) = false |- _ => apply Z.eqb_neq in H
  | H : (_ <? _) = true |- _ => apply Z.ltb_lt in H
  | H : (_ <? _) = false |- _ => apply Z.ltb_ge in H
  | H : (_ <=? _) = true |- _ => apply Z.leb_le in H
  | H : (_ <=? _) = false |- _ => apply Z.leb_gt in H
  end.

(** Case analysis on the first test or option the goal is stuck on. *)
Ltac step_if :=
  match goal with
  | |- context [if ?b then _ else _] =>
      lazymatch type of b with
      | bool => let E := fresh "E" in destruct b eqn:E
      end
  end.

(** Case analysis on the tests of a hypothesis, in the goal as well. *)
Ltac tests_in H :=
  repeat match type of H with
  | context [if ?b then _ else _] =>
      let E := fresh "E" in destruct b eqn:E; try discriminate H
  end.

(** Decide an integer test by [lia] and reduce it. *)
Ltac decide_test :=
  match goal with
  | |- context [?a <=? ?b] =>
      first [ replace (a <=? b) with true by (symmetry; apply Z.leb_le; lia)
            | replace (a <=? b) with false by (symmetry; apply Z.leb_gt; lia) ]
  | |- context [?a <? ?b] =>
      first [ replace (a <? b) with true by (symmetry; apply Z.ltb_lt; lia)
            | replace (a <? b) with false by (symmetry; apply Z.ltb_ge; lia) ]
  | |- context [?a =? ?b] =>
      first [ replace (a =? b) with true by (symmetry; apply Z.eqb_eq; lia)
            | replace (a =? b) with false by (symmetry; apply Z.eqb_neq; lia) ]
  end.

Ltac decide_tests := repeat (decide_test; cbn [andb orb negb]; cbv beta match).

(** Split a hypothesis that a faulting computation returned. *)
Ltac bind_inv H :=
  repeat match type of H with
  | match ?e with Some _ => _ | None => None end = Some _ =>
      let x := fresh "x" in let E := fresh "E" in
      destruct e as [x|] eqn:E; [|discriminate H]
  end.

Create HintDb cint discriminated.
#[export] Hint Resolve u32_range u64_range u16_range : cint.

(** ** Invariants of step relations *)

Lemma rtc_invariant {S : Type} (R : relation S) (P : S -> Prop) :
  (forall x y, R x y -> P x -> P y) ->
  forall x y, rtc R x y -> P x -> P y.
Proof. intros Hstep x y Hxy. induction Hxy; eauto. Qed.
