(* ===== verification/CMem.v ===== *)
(** * Byte-addressed memory

    The drivers write tables straight into a block of memory they allocated
    (the DMA-coherent block of memory_dump_v2.c, the ELF header buffer of
    msm_minidump.c) through pointers cast to C types.  A [mem] is one such
    block: its bounds and the byte at every address.  A load or store outside
    the bounds faults; inside them, structures may overlap, as in C.  Integers
    are little-endian (arm64). *)

From S2P Require Import Prelude.

Record mem := Mem { m_lo : Z; m_hi : Z; m_byte : Z -> Z }.

Definition in_range (m : mem) (a n : Z) : bool := (m_lo m <=? a) && (a + n <=? m_hi m).

(** ** Total accessors *)

Definition byte (m : mem) (a : Z) : Z := m_byte m a mod 256.

Fixpoint ld (m : mem) (a : Z) (n : nat) : Z :=
  match n with
  | O => 0
  | S n' => byte m a + 256 * ld m (a + 1) n'
  end.

Definition with_bytes (m : mem) (f : Z -> Z) : mem := Mem (m_lo m) (m_hi m) f.

Definition st (m : mem) (a : Z) (n : nat) (v : Z) : mem :=
  with_bytes m (fun x =>
    if (a <=? x) && (x <? a + Z.of_nat n) then v / 256 ^ (x - a) else m_byte m x).

Definition fill (m : mem) (a c n : Z) : mem :=
  with_bytes m (fun x => if (a <=? x) && (x <? a + n) then c else m_byte m x).

Definition blit (m : mem) (dst src n : Z) : mem :=
  with_bytes m (fun x =>
    if (dst <=? x) && (x <? dst + n) then m_byte m (src + (x - dst)) else m_byte m x).

(** ** The C operations: [*(u32 * )a], [memset], [memcpy]/[memmove] *)

Definition load8 (m : mem) (a : Z) : option Z :=
  if in_range m a 1 then Some (ld m a 1) else None.
Definition load16 (m : mem) (a : Z) : option Z :=
  if in_range m a 2 then Some (ld m a 2) else None.
Definition load32 (m : mem) (a : Z) : option Z :=
  if in_range m a 4 then Some (ld m a 4) else None.
Definition load64 (m : mem) (a : Z) : option Z :=
  if in_range m a 8 then Some (ld m a 8) else None.

Definition store8 (m : mem) (a v : Z) : option mem :=
  if in_range m a 1 then Some (st m a 1 v) else None.
Definition store16 (m : mem) (a v : Z) : option mem :=
  if in_range m a 2 then Some (st m a 2 v) else None.
Definition store32 (m : mem) (a v : Z) : option mem :=
  if in_range m a 4 then Some (st m a 4 v) else None.
Definition store64 (m : mem) (a v : Z) : option mem :=
  if in_range m a 8 then Some (st m a 8 v) else None.

Definition memset (m : mem) (a c n : Z) : option mem :=
  if in_range m a n then Some (fill m a c n) else None.

Definition memmove (m : mem) (dst src n : Z) : option mem :=
  if in_range m dst n && in_range m src n then Some (blit m dst src n) else None.

(** ** Equality of memories and frames

    Two memories are equal when they have the same bounds and the same bytes;
    [mod_only lo hi m m'] says that [m'] differs from [m] inside [lo, hi)
    at most. *)

Definition mem_eqv (m m' : mem) : Prop :=
  m_lo m = m_lo m' /\ m_hi m = m_hi m' /\ forall a, byte m a = byte m' a.

Definition mod_only (lo hi : Z) (m m' : mem) : Prop :=
  m_lo m = m_lo m' /\ m_hi m = m_hi m' /\
  forall a, a < lo \/ hi <= a -> byte m a = byte m' a.

#[export] Instance mem_eqv_equiv : Equivalence mem_eqv.
Proof.
  split.
  - intros m. split_and!; auto.
  - intros m m' (? & ? & ?). split_and!; auto.
  - intros m1 m2 m3 (? & ? & H12) (? & ? & H23). split_and!; [congruence..|].
    intros a. by rewrite H12.
Qed.

#[export] Instance in_range_proper : Proper (mem_eqv ==> eq ==> eq ==> eq) in_range.
Proof. intros m m' (Hl & Hh & _) a ? <- n ? <-. unfold in_range. by rewrite Hl, Hh. Qed.

#[export] Instance ld_proper : Proper (mem_eqv ==> eq ==> eq ==> eq) ld.
Proof.
  intros m m' (_ & _ & Hb) a ? <- n ? <-. revert a.
  induction n as [|n IH]; intros a; simpl; [done|]. by rewrite Hb, IH.
Qed.

#[export] Instance load32_proper : Proper (mem_eqv ==> eq ==> eq) load32.
Proof.
  intros m m' Hm a ? <-. unfold load32.
  by rewrite (in_range_proper m m' Hm a a eq_refl 4 4 eq_refl), (ld_proper m m' Hm a a eq_refl 4%nat 4%nat eq_refl).
Qed.

Lemma mod_only_refl lo hi m : mod_only lo hi m m.
Proof. split_and!; auto. Qed.

Lemma mod_only_trans lo hi m1 m2 m3 :
  mod_only lo hi m1 m2 -> mod_only lo hi m2 m3 -> mod_only lo hi m1 m3.
Proof.
  intros (? & ? & H12) (? & ? & H23). split_and!; [congruence..|].
  intros a Ha. rewrite H12 by done. by apply H23.
Qed.

Lemma mod_only_weaken lo hi lo' hi' m m' :
  lo' <= lo -> hi <= hi' -> mod_only lo hi m m' -> mod_only lo' hi' m m'.
Proof. intros ?? (? & ? & H). split_and!; [done..|]. intros; apply H; lia. Qed.

Lemma mod_only_st m a n v : mod_only a (a + Z.of_nat n) m (st m a n v).
Proof.
  split_and!; [done..|]. intros x Hx. unfold byte; simpl.
  by replace ((a <=? x) && (x <? a + Z.of_nat n)) with false by lia.
Qed.

Lemma mod_only_fill m a c n : mod_only a (a + n) m (fill m a c n).
Proof.
  split_and!; [done..|]. intros x Hx. unfold byte; simpl.
  by replace ((a <=? x) && (x <? a + n)) with false by lia.
Qed.

Lemma mod_only_blit m d s n : mod_only d (d + n) m (blit m d s n).
Proof.
  split_and!; [done..|]. intros x Hx. unfold byte; simpl.
  by replace ((d <=? x) && (x <? d + n)) with false by lia.
Qed.

(** ** Loads after stores *)

Lemma byte_range m a : 0 <= byte m a < 256.
Proof. apply Z.mod_pos_bound. lia. Qed.

Lemma ld_range m a n : 0 <= ld m a n < 256 ^ Z.of_nat n.
Proof.
  revert a. induction n as [|n IH]; intros a; simpl ld; [done|].
  pose proof (byte_range m a). pose proof (IH (a + 1)).
  rewrite Nat2Z.inj_succ, Z.pow_succ_r by lia. lia.
Qed.

Lemma ld_ext m m' a n :
  (forall x, a <= x < a + Z.of_nat n -> byte m x = byte m' x) -> ld m a n = ld m' a n.
Proof.
  revert a. induction n as [|n IH]; intros a H; simpl; [done|].
  rewrite H by lia. rewrite (IH (a + 1)); [done|]. intros; apply H; lia.
Qed.

Lemma ld_digits m a n v :
  (forall i, 0 <= i < Z.of_nat n -> byte m (a + i) = (v / 256 ^ i) mod 256) ->
  ld m a n = v mod 256 ^ Z.of_nat n.
Proof.
  revert a v. induction n as [|n IH]; intros a v H; simpl ld.
  - by rewrite Z.mod_1_r.
  - rewrite (IH (a + 1) (v / 256)).
    + pose proof (H 0 ltac:(lia)) as H0. rewrite Z.add_0_r, Z.div_1_r in H0.
      rewrite H0, Nat2Z.inj_succ, Z.pow_succ_r by lia.
      rewrite Z.rem_mul_r by lia. done.
    + intros i Hi. replace (a + 1 + i) with (a + (i + 1)) by lia.
      rewrite H by lia. rewrite Z.pow_add_r, Z.pow_1_r by lia.
      by rewrite Z.mul_comm, Z.div_div by lia.
Qed.

Lemma ld_st m a n v : ld (st m a n v) a n = v mod 256 ^ Z.of_nat n.
Proof.
  apply ld_digits. intros i Hi. unfold byte; simpl.
  replace ((a <=? a + i) && (a + i <? a + Z.of_nat n)) with true by lia.
  by replace (a + i - a) with i by lia.
Qed.

Lemma ld32_st32 m a v : 0 <= v < 4294967296 -> ld (st m a 4 v) a 4 = v.
Proof. intros. rewrite ld_st. by apply Z.mod_small. Qed.

Lemma ld64_st64 m a v : 0 <= v < 18446744073709551616 -> ld (st m a 8 v) a 8 = v.
Proof. intros. rewrite ld_st. by apply Z.mod_small. Qed.

Lemma ld16_st16 m a v : 0 <= v < 65536 -> ld (st m a 2 v) a 2 = v.
Proof. intros. rewrite ld_st. by apply Z.mod_small. Qed.

Lemma ld32_st32_at m a b v : a = b -> 0 <= v < 4294967296 -> ld (st m a 4 v) b 4 = v.
Proof. intros <-. apply ld32_st32. Qed.

Lemma ld64_st64_at m a b v :
  a = b -> 0 <= v < 18446744073709551616 -> ld (st m a 8 v) b 8 = v.
Proof. intros <-. apply ld64_st64. Qed.

Lemma ld16_st16_at m a b v : a = b -> 0 <= v < 65536 -> ld (st m a 2 v) b 2 = v.
Proof. intros <-. apply ld16_st16. Qed.

Lemma ld32_range m a : 0 <= ld m a 4 < 4294967296.
Proof. apply (ld_range m a 4). Qed.

Lemma ld_mod_only lo hi m m' b k :
  mod_only lo hi m m' -> b + Z.of_nat k <= lo \/ hi <= b -> ld m' b k = ld m b k.
Proof. intros (_ & _ & H) Hd. apply ld_ext. intros x Hx. symmetry. apply H. lia. Qed.

Lemma ld_st_ne m a n v b k :
  b + Z.of_nat k <= a \/ a + Z.of_nat n <= b -> ld (st m a n v) b k = ld m b k.
Proof. apply ld_mod_only, mod_only_st. Qed.

Lemma ld_fill_ne m a c n b k :
  b + Z.of_nat k <= a \/ a + n <= b -> ld (fill m a c n) b k = ld m b k.
Proof. apply ld_mod_only, mod_only_fill. Qed.

Lemma ld_fill0 m a n b k :
  a <= b -> b + Z.of_nat k <= a + n -> ld (fill m a 0 n) b k = 0.
Proof.
  intros. rewrite (ld_digits _ b k 0); [by rewrite Z.mod_0_l by lia|].
  intros i Hi. unfold byte; simpl.
  replace ((a <=? b + i) && (b + i <? a + n)) with true by lia.
  by rewrite Z.div_0_l by lia.
Qed.

Lemma ld_blit m d s n b k :
  d <= b -> b + Z.of_nat k <= d + n -> ld (blit m d s n) b k = ld m (s + (b - d)) k.
Proof.
  revert b. induction k as [|k IH]; intros b Hlo Hhi; [done|].
  cbn [ld]. rewrite IH by lia. f_equal; [|f_equal; f_equal; lia].
  unfold byte; simpl.
  by replace ((d <=? b) && (b <? d + n)) with true by lia.
Qed.

Lemma ld_blit_ne m d s n b k :
  b + Z.of_nat k <= d \/ d + n <= b -> ld (blit m d s n) b k = ld m b k.
Proof. apply ld_mod_only, mod_only_blit. Qed.

(** ** The faulting operations succeed inside the bounds *)

Section Bounds.
Context (m : mem) (a : Z).

Lemma load32_ok : m_lo m <= a -> a + 4 <= m_hi m -> load32 m a = Some (ld m a 4).
Proof. intros. unfold load32, in_range. by decide_tests. Qed.

Lemma store32_ok v : m_lo m <= a -> a + 4 <= m_hi m -> store32 m a v = Some (st m a 4 v).
Proof. intros. unfold store32, in_range. by decide_tests. Qed.

Lemma load64_ok : m_lo m <= a -> a + 8 <= m_hi m -> load64 m a = Some (ld m a 8).
Proof. intros. unfold load64, in_range. by decide_tests. Qed.

Lemma store64_ok v : m_lo m <= a -> a + 8 <= m_hi m -> store64 m a v = Some (st m a 8 v).
Proof. intros. unfold store64, in_range. by decide_tests. Qed.

Lemma memset_ok c n : m_lo m <= a -> a + n <= m_hi m -> memset m a c n = Some (fill m a c n).
Proof. intros. unfold memset, in_range. by decide_tests. Qed.

Lemma store32_inv v m' :
  store32 m a v = Some m' -> m_lo m <= a /\ a + 4 <= m_hi m /\ m' = st m a 4 v.
Proof.
  unfold store32, in_range. destruct (_ && _) eqn:E; [|done].
  intros [= <-]. bool_to_Prop. repeat split; lia.
Qed.
End Bounds.

#[global] Arguments ld : simpl never.
#[global] Arguments st : simpl never.
#[global] Arguments fill : simpl never.
#[global] Arguments blit : simpl never.

(** ** Automation: [mem_simpl] evaluates loads of a memory built from stores
    when [lia] can tell the addresses apart, [frame] proves [mod_only]. *)

Lemma m_lo_st m a n v : m_lo (st m a n v) = m_lo m. Proof. done. Qed.
Lemma m_hi_st m a n v : m_hi (st m a n v) = m_hi m. Proof. done. Qed.
Lemma m_lo_fill m a c n : m_lo (fill m a c n) = m_lo m. Proof. done. Qed.
Lemma m_hi_fill m a c n : m_hi (fill m a c n) = m_hi m. Proof. done. Qed.
Lemma m_lo_blit m a c n : m_lo (blit m a c n) = m_lo m. Proof. done. Qed.
Lemma m_hi_blit m a c n : m_hi (blit m a c n) = m_hi m. Proof. done. Qed.

Create Rewrite HintDb mem_bounds.
#[export] Hint Rewrite m_lo_st m_hi_st m_lo_fill m_hi_fill m_lo_blit m_hi_blit : mem_bounds.

Ltac unfold_bounds := autorewrite with mem_bounds.

Ltac mem_simpl :=
  unfold_bounds;
  repeat first
    [ rewrite ld32_st32_at by lia
    | rewrite ld64_st64_at by lia
    | rewrite ld16_st16_at by lia
    | rewrite ld_st_ne by lia
    | rewrite ld_fill0 by lia
    | rewrite ld_fill_ne by lia
    | rewrite ld_blit by lia
    | rewrite ld_blit_ne by lia ].

Create HintDb mem discriminated.
#[export] Hint Resolve mod_only_refl mod_only_st mod_only_fill mod_only_blit : mem.

Ltac frame1 :=
  first
    [ apply mod_only_refl
    | eapply mod_only_weaken; [| |solve [eauto with mem nocore]]; lia ].

Ltac frame :=
  repeat lazymatch goal with
  | |- mod_only ?lo ?hi ?m (st ?m' _ _ _) =>
      apply (mod_only_trans lo hi m m'); [|solve [frame1]]
  | |- mod_only ?lo ?hi ?m (fill ?m' _ _ _) =>
      apply (mod_only_trans lo hi m m'); [|solve [frame1]]
  | |- mod_only ?lo ?hi ?m (blit ?m' _ _ _) =>
      apply (mod_only_trans lo hi m m'); [|solve [frame1]]
  end; try solve [frame1].
