(* ===== verification/CStr.v ===== *)
(** * C strings and the printf family

    A [char *] that the code treats as text is the [string] up to its
    terminating NUL.  [scnprintf], [snprintf], [strlcat] and [strscpy] are the
    kernel's: the definitions follow their documented contracts, so
    [scnprintf] returns the number of characters stored, [strscpy] never
    leaves its destination unterminated, and [strlcat] on a destination that
    is already full is a BUG. *)

From S2P Require Import Prelude.
From Stdlib Require Import Ascii.

#[local] Open Scope string_scope.
#[local] Open Scope Z_scope.

#[local] Arguments String.append : simpl nomatch.

Definition slen (s : string) : Z := Z.of_nat (String.length s).

(** The first [n] characters. *)
Fixpoint stake (n : nat) (s : string) : string :=
  match n, s with
  | S n', String c s' => String c (stake n' s')
  | _, _ => EmptyString
  end.

(** ** Numbers: [%u], [%d], [%x], [%X] *)

Definition digit_char (upper : bool) (d : Z) : ascii :=
  ascii_of_nat (Z.to_nat (if d <? 10 then 48 + d else if upper then 55 + d else 87 + d)).

Fixpoint digits (fuel : nat) (upper : bool) (b z : Z) (acc : string) : string :=
  match fuel with
  | O => acc
  | S fuel' =>
      let acc := String (digit_char upper (z mod b)) acc in
      if z <? b then acc else digits fuel' upper b (z / b) acc
  end.

(** Twenty digits are enough for a 64-bit value in any base used. *)
Definition fmt_u (z : Z) : string := digits 20 false 10 z EmptyString.
Definition fmt_x (z : Z) : string := digits 20 false 16 z EmptyString.
Definition fmt_X (z : Z) : string := digits 20 true 16 z EmptyString.
Definition fmt_d (z : Z) : string :=
  let z := s32 z in if z <? 0 then "-" +:+ fmt_u (- z) else fmt_u z.

Definition nl : string := String "010" EmptyString.

(** ** Buffers *)

(** [scnprintf(buf, n, ...)] of the expansion [s]: what it stores; its length
    is the value returned. *)
Definition scnprintf (n : Z) (s : string) : string := stake (Z.to_nat (n - 1)) s.

(** [snprintf(buf, n, ...)] stores the same and returns the length of the
    whole expansion. *)
Definition snprintf (n : Z) (s : string) : string * Z := (scnprintf n s, slen s).

(** [strscpy(dst, src, n)]: the string stored and the value returned. *)
Definition strscpy (src : string) (n : Z) : string * Z :=
  if n =? 0 then (EmptyString, - E2BIG)
  else if slen src <? n then (src, slen src)
  else (stake (Z.to_nat (n - 1)) src, - E2BIG).

(** [strlcat(dst, src, n)]. *)
Definition strlcat (dst src : string) (n : Z) : option string :=
  let* _ := assert_c (slen dst <? n) in
  Some (dst +:+ stake (Z.to_nat (n - 1 - slen dst)) src).

(** ** Facts *)

Lemma slen_nonneg s : 0 <= slen s.
Proof. unfold slen. lia. Qed.

Lemma slen_app s t : slen (s +:+ t) = slen s + slen t.
Proof. unfold slen. induction s as [|c s IH]; simpl; lia. Qed.

Lemma sapp_assoc (s t u : string) : s +:+ (t +:+ u) = (s +:+ t) +:+ u.
Proof. induction s as [|c s IH]; simpl; [done|]. by rewrite IH. Qed.

Lemma sapp_nil_r (s : string) : s +:+ EmptyString = s.
Proof. induction s as [|c s IH]; simpl; [done|]. by rewrite IH. Qed.

Lemma stake_all n s : slen s <= Z.of_nat n -> stake n s = s.
Proof.
  unfold slen. revert n. induction s as [|c s IH]; intros [|n] H; simpl in *; try done; try lia.
  rewrite IH; [done|lia].
Qed.

Lemma slen_stake n s : slen (stake n s) = Z.min (Z.of_nat n) (slen s).
Proof.
  unfold slen. revert n. induction s as [|c s IH]; intros [|n]; simpl; try lia.
  specialize (IH n). lia.
Qed.

Lemma stake_app n s t :
  stake n (s +:+ t) = if (Z.of_nat n <=? slen s) then stake n s else s +:+ stake (n - Z.to_nat (slen s)) t.
Proof.
  revert n. unfold slen. induction s as [|c s IH]; intros [|n]; simpl; try done.
  rewrite IH. destruct (Z.leb_spec (Z.of_nat n) (Z.of_nat (String.length s)));
    destruct (Z.leb_spec (Z.of_nat (S n)) (Z.of_nat (S (String.length s)))); try lia; [done|].
  do 3 f_equal. lia.
Qed.

Lemma stake_app_le n s t : Z.of_nat n <= slen s -> stake n (s +:+ t) = stake n s.
Proof. intros H. rewrite stake_app. by destruct (Z.leb_spec (Z.of_nat n) (slen s)); [|lia]. Qed.

Lemma stake_app_ge n s t :
  slen s <= Z.of_nat n -> stake n (s +:+ t) = s +:+ stake (n - Z.to_nat (slen s)) t.
Proof.
  intros H. rewrite stake_app. destruct (Z.leb_spec (Z.of_nat n) (slen s)); [|done].
  replace (n - Z.to_nat (slen s))%nat with O by lia. rewrite stake_all by lia.
  by rewrite sapp_nil_r.
Qed.

Lemma scnprintf_fits n s : slen s < n -> scnprintf n s = s.
Proof. intros. pose proof (slen_nonneg s). apply stake_all. lia. Qed.

Lemma slen_scnprintf n s : 0 < n -> slen (scnprintf n s) = Z.min (n - 1) (slen s).
Proof. intros. unfold scnprintf. rewrite slen_stake. lia. Qed.

Lemma strlcat_fits dst src n :
  slen dst + slen src < n -> strlcat dst src n = Some (dst +:+ src).
Proof.
  intros. unfold strlcat, assert_c.
  pose proof (slen_nonneg src). pose proof (slen_nonneg dst).
  decide_tests. by rewrite stake_all by lia.
Qed.

Lemma strlcat_spec dst src n r :
  strlcat dst src n = Some r -> slen r = Z.min (n - 1) (slen dst + slen src).
Proof.
  unfold strlcat, assert_c. destruct (Z.ltb_spec (slen dst) n); [|done].
  intros [= <-]. pose proof (slen_nonneg src). pose proof (slen_nonneg dst).
  rewrite slen_app, slen_stake. lia.
Qed.

Lemma strlcat_ok dst src n : slen dst < n -> is_Some (strlcat dst src n).
Proof. intros. unfold strlcat, assert_c. decide_tests. by eexists. Qed.

Lemma slen_digits fuel up b z acc k :
  1 < b -> (0 < k)%nat -> 0 <= z < b ^ Z.of_nat k ->
  slen (digits fuel up b z acc) <= Z.of_nat k + slen acc.
Proof.
  intros Hb. revert z acc k.
  induction fuel as [|fuel IH]; intros z acc k Hk Hz; simpl; [lia|].
  destruct (Z.ltb_spec z b).
  - unfold slen; simpl. lia.
  - destruct k as [|[|k]]; [lia|simpl in Hz; lia|].
    rewrite Nat2Z.inj_succ, Z.pow_succ_r in Hz by lia.
    assert (0 <= z / b < b ^ Z.of_nat (S k)) as Hd.
    { split; [apply Z.div_pos; lia|apply Z.div_lt_upper_bound; lia]. }
    pose proof (IH (z / b) (String (digit_char up (z mod b)) acc) (S k) ltac:(lia) Hd).
    unfold slen in *; simpl in *; lia.
Qed.

(** The printed length of a 32-bit value. *)
Ltac fmt_len k :=
  intros; etransitivity; [apply (slen_digits _ _ _ _ _ k); lia|unfold slen; simpl; lia].

Lemma slen_fmt_x z : 0 <= z < 4294967296 -> slen (fmt_x z) <= 8.
Proof. unfold fmt_x. fmt_len 8%nat. Qed.

Lemma slen_fmt_X z : 0 <= z < 4294967296 -> slen (fmt_X z) <= 8.
Proof. unfold fmt_X. fmt_len 8%nat. Qed.

Lemma slen_fmt_u z : 0 <= z < 4294967296 -> slen (fmt_u z) <= 10.
Proof. unfold fmt_u. fmt_len 10%nat. Qed.

Lemma slen_fmt_d z : slen (fmt_d z) <= 11.
Proof.
  unfold fmt_d. assert (-2147483648 <= s32 z < 2147483648).
  { unfold s32. pose proof (Z.mod_pos_bound (z + 2147483648) 4294967296 ltac:(lia)). lia. }
  destruct (Z.ltb_spec (s32 z) 0).
  - rewrite slen_app. pose proof (slen_fmt_u (- s32 z) ltac:(lia)). unfold slen at 1; simpl. lia.
  - pose proof (slen_fmt_u (s32 z) ltac:(lia)). lia.
Qed.

Create Rewrite HintDb cstr.
#[export] Hint Rewrite slen_app : cstr.
