(* ===== verification/CText.v ===== *)
(** * Strings in memory

    A C string in a character array: its characters and a NUL byte.
    [load_cstr m a n] reads it, looking at [n] bytes at most; [store_cstr]
    writes one.  [strscpy_to] is [strscpy] with a destination in memory. *)

From S2P Require Import Prelude CMem CStr.
From Stdlib Require Import Ascii.

#[local] Arguments String.append : simpl nomatch.

Definition char_code (c : ascii) : Z := Z.of_N (N_of_ascii c).
Definition code_char (b : Z) : ascii := ascii_of_N (Z.to_N b).

Fixpoint load_cstr (m : mem) (a : Z) (n : nat) : option string :=
  match n with
  | O => Some EmptyString
  | S n' =>
      let* b := load8 m a in
      if b =? 0 then Some EmptyString
      else
        let* s := load_cstr m (a + 1) n' in
        Some (String (code_char b) s)
  end.

Fixpoint store_cstr (m : mem) (a : Z) (s : string) : option mem :=
  match s with
  | EmptyString => store8 m a 0
  | String c s' =>
      let* m := store8 m a (char_code c) in
      store_cstr m (a + 1) s'
  end.

(** [strscpy(dst, src, n)] of the string [src]: the value returned and the
    memory. *)
Definition strscpy_to (m : mem) (dst : Z) (src : string) (n : Z) : option (Z * mem) :=
  let '(s, ret) := strscpy src n in
  if n =? 0 then Some (ret, m)
  else
    let* m := store_cstr m dst s in
    Some (ret, m).

(** A string without NUL characters: what a C string can hold. *)
Fixpoint no_nul (s : string) : bool :=
  match s with
  | EmptyString => true
  | String c s' => negb (char_code c =? 0) && no_nul s'
  end.

(** The string [s], terminated, is at address [a]. *)
Fixpoint cstr_at (m : mem) (a : Z) (s : string) : Prop :=
  match s with
  | EmptyString => ld m a 1 = 0
  | String c s' => ld m a 1 = char_code c /\ cstr_at m (a + 1) s'
  end.

(** ** Facts *)

Lemma char_code_range c : 0 <= char_code c < 256.
Proof. unfold char_code. pose proof (N_ascii_bounded c). lia. Qed.

Lemma code_char_code c : code_char (char_code c) = c.
Proof. unfold code_char, char_code. by rewrite N2Z.id, ascii_N_embedding. Qed.

Lemma no_nul_stake n s : no_nul s = true -> no_nul (stake n s) = true.
Proof.
  revert n. induction s as [|c s IH]; intros [|n]; simpl; try done.
  intros [? ?]%andb_true_iff. apply andb_true_iff. auto.
Qed.

Lemma cstr_at_frame lo hi m m' a s :
  mod_only lo hi m m' -> a + slen s < lo \/ hi <= a -> cstr_at m a s -> cstr_at m' a s.
Proof.
  unfold slen. intros Hm. revert a.
  induction s as [|c s IH]; intros a Hd; simpl in *.
  - by rewrite (ld_mod_only lo hi m m' a 1 Hm) by lia.
  - intros [Hc Hs]. rewrite (ld_mod_only lo hi m m' a 1 Hm) by lia.
    split; [done|]. apply IH; [lia|done].
Qed.

Lemma cstr_at_bytes m m' a s :
  (forall x, a <= x < a + slen s + 1 -> byte m' x = byte m x) -> cstr_at m a s -> cstr_at m' a s.
Proof.
  unfold slen. revert a. induction s as [|c s IH]; intros a Hb; simpl in *.
  - intros <-. apply ld_ext. intros; apply Hb. lia.
  - intros [Hc Hs]. split.
    + rewrite <- Hc. apply ld_ext. intros; apply Hb. lia.
    + apply IH; [|done]. intros; apply Hb. lia.
Qed.

Lemma store_cstr_ok m a s :
  m_lo m <= a -> a + slen s + 1 <= m_hi m ->
  exists m', store_cstr m a s = Some m' /\ mod_only a (a + slen s + 1) m m' /\ cstr_at m' a s.
Proof.
  unfold slen. revert m a. induction s as [|c s IH]; intros m a Hlo Hhi; simpl in *.
  - unfold store8, in_range. decide_tests. eexists. split_and!; [done|frame|].
    rewrite ld_st. done.
  - unfold store8, in_range. decide_tests.
    pose proof (char_code_range c).
    destruct (IH (st m a 1 (char_code c)) (a + 1)) as (m' & -> & Hm & Hs);
      [by unfold_bounds; lia..|].
    eexists. split_and!; [done| | |done].
    + eapply mod_only_trans; [|eapply mod_only_weaken; [| |exact Hm]; lia]. frame.
    + rewrite (ld_mod_only _ _ _ _ a 1 Hm), ld_st by lia. by apply Z.mod_small.
Qed.

Lemma load_cstr_at m a s n :
  cstr_at m a s -> no_nul s = true -> slen s < Z.of_nat n ->
  m_lo m <= a -> a + slen s + 1 <= m_hi m ->
  load_cstr m a n = Some s.
Proof.
  unfold slen. revert a n. induction s as [|c s IH]; intros a [|n]; simpl; intros Hs Hn Hl Hlo Hhi;
    try lia; unfold load8, in_range; decide_tests.
  - done.
  - destruct Hs as [Hc Hs]. apply andb_true_iff in Hn as [Hz Hn].
    rewrite IH by (done || lia). by rewrite Hc, code_char_code.
Qed.

Lemma load_cstr_total m a n :
  m_lo m <= a -> a + Z.of_nat n <= m_hi m -> is_Some (load_cstr m a n).
Proof.
  revert a. induction n as [|n IH]; intros a Hlo Hhi; simpl; [by eexists|].
  unfold load8, in_range. decide_test. decide_test. simpl.
  case_match; [by eexists|]. destruct (IH (a + 1)) as [s ->]; [lia..|]. by eexists.
Qed.

Lemma slen_strscpy s n : 0 < n -> slen (strscpy s n).1 < n.
Proof.
  intros. unfold strscpy. decide_test. destruct (Z.ltb_spec (slen s) n); simpl; [done|].
  rewrite slen_stake. lia.
Qed.

Lemma strscpy_fits s n : slen s < n -> strscpy s n = (s, slen s).
Proof. intros. pose proof (slen_nonneg s). unfold strscpy. by decide_tests. Qed.

Lemma strscpy_to_ok m dst s n :
  0 < n -> m_lo m <= dst -> dst + n <= m_hi m ->
  exists m', strscpy_to m dst s n = Some ((strscpy s n).2, m') /\
    mod_only dst (dst + n) m m' /\ cstr_at m' dst (strscpy s n).1.
Proof.
  intros Hn Hlo Hhi. unfold strscpy_to. pose proof (slen_strscpy s n Hn) as Hl.
  destruct (strscpy s n) as [t ret]; simpl in *. decide_test.
  destruct (store_cstr_ok m dst t) as (m' & -> & Hm & Hs); [lia..|].
  eexists. split_and!; [done| |done]. eapply mod_only_weaken; [| |done]; lia.
Qed.

(** ** Texts without NUL *)

Lemma no_nul_app s t : no_nul (s +:+ t) = no_nul s && no_nul t.
Proof. induction s as [|c s IH]; simpl; [done|]. by rewrite IH, andb_assoc. Qed.

Lemma digit_char_nul up d : 0 <= d < 16 -> char_code (digit_char up d) <> 0.
Proof.
  intros Hd. assert (forallb (fun k => negb (char_code (digit_char up (Z.of_nat k)) =? 0)) (seq 0 16) = true) as H
    by (destruct up; vm_compute; reflexivity).
  rewrite forallb_forall in H. specialize (H (Z.to_nat d)).
  rewrite Z2Nat.id in H by lia. apply Z.eqb_neq, negb_true_iff, H. apply in_seq. lia.
Qed.

Lemma no_nul_digits fuel up b z acc :
  1 < b <= 16 -> 0 <= z -> no_nul acc = true -> no_nul (digits fuel up b z acc) = true.
Proof.
  intros Hb. revert z acc. induction fuel as [|fuel IH]; intros z acc Hz Ha; simpl; [done|].
  assert (no_nul (String (digit_char up (z mod b)) acc) = true) as Hacc.
  { simpl. rewrite Ha, andb_true_r. apply negb_true_iff, Z.eqb_neq, digit_char_nul.
    pose proof (Z.mod_pos_bound z b ltac:(lia)). lia. }
  destruct (z <? b); [done|]. apply IH; [apply Z.div_pos; lia|done].
Qed.

Lemma no_nul_fmt_X z : 0 <= z -> no_nul (fmt_X z) = true.
Proof. intros. by apply no_nul_digits. Qed.

Lemma no_nul_strscpy s n : no_nul s = true -> no_nul (strscpy s n).1 = true.
Proof. intros H. unfold strscpy. repeat case_match; simpl; auto using no_nul_stake. Qed.

(** What [load_cstr] returns ends before the first NUL. *)
Lemma no_nul_load_cstr m a n s : load_cstr m a n = Some s -> no_nul s = true.
Proof.
  revert a s. induction n as [|n IH]; intros a s; simpl; [by intros [= <-]|].
  unfold load8. destruct (in_range m a 1); [|done].
  destruct (Z.eqb_spec (ld m a 1) 0); [by intros [= <-]|].
  destruct (load_cstr m (a + 1) n) as [t|] eqn:Ht; [|done]. intros [= <-]. simpl.
  rewrite (IH _ _ Ht), andb_true_r. apply negb_true_iff, Z.eqb_neq.
  unfold char_code, code_char. rewrite N_ascii_embedding.
  - rewrite Z2N.id; [done|]. apply ld_range.
  - pose proof (ld_range m a 1). simpl in H. apply N2Z.inj_lt. rewrite Z2N.id by lia. simpl. lia.
Qed.
