(* ===== verification/CPrint.v ===== *)
(** * Printing into memory and into sequence buffers

    [scnprintf_to] is [scnprintf] with a destination in memory; a size above
    INT_MAX prints nothing (lib/vsprintf.c).  A [seq_buf] is the kernel's:
    text that does not fit is cut off and the buffer then takes no more. *)

From S2P Require Import Prelude CMem CStr CText.
From Stdlib Require Import Ascii.

#[local] Open Scope string_scope.
#[local] Open Scope Z_scope.

#[local] Arguments String.append : simpl nomatch.

Definition tab : string := String "009" EmptyString.

(** ** Field widths *)

Definition spaces (n : Z) : string := String.concat "" (repeat " " (Z.to_nat n)).
Definition zeros (n : Z) : string := String.concat "" (repeat "0" (Z.to_nat n)).

(** [%<w>...], [%-<w>...] and [%0<w>...] (for a number without sign). *)
Definition pad_left (w : Z) (s : string) : string := spaces (w - slen s) +:+ s.
Definition pad_right (w : Z) (s : string) : string := s +:+ spaces (w - slen s).
Definition pad_zero (w : Z) (s : string) : string := zeros (w - slen s) +:+ s.

(** [%ld], [%lld] of a 64-bit word. *)
Definition s64 (z : Z) : Z :=
  (z + 9223372036854775808) mod 18446744073709551616 - 9223372036854775808.
Definition fmt_ld (z : Z) : string :=
  let z := s64 z in if z <? 0 then "-" +:+ fmt_u (- z) else fmt_u z.

(** ** [scnprintf] to memory *)

Definition INT_MAX_SIZE : Z := 2147483647.

(** The characters stored by [scnprintf(buf, n, ...)] of [s]. *)
Definition printed (n : Z) (s : string) : string :=
  if INT_MAX_SIZE <? n then EmptyString else scnprintf n s.

Definition scnprintf_to (m : mem) (a n : Z) (s : string) : option (Z * mem) :=
  if (INT_MAX_SIZE <? n) || (n =? 0) then Some (0, m)
  else
    let* m := store_cstr m a (scnprintf n s) in
    Some (slen (scnprintf n s), m).

(** ** Sequence buffers *)

Record seq_buf := SeqBuf { sb_text : string; sb_size : Z; sb_len : Z }.

Definition seq_buf_init (size : Z) : seq_buf := SeqBuf "" size 0.

(** [seq_buf_vprintf]: an overflow is recorded as a length above the size. *)
Definition seq_buf_printf (b : seq_buf) (s : string) : seq_buf :=
  if sb_len b <? sb_size b then
    let room := sb_size b - sb_len b in
    let text := sb_text b +:+ scnprintf room s in
    if slen s <? room then SeqBuf text (sb_size b) (sb_len b + slen s)
    else SeqBuf text (sb_size b) (sb_size b + 1)
  else SeqBuf (sb_text b) (sb_size b) (sb_size b + 1).

(** ** Facts *)

Lemma slen_stake_le n s : slen (stake n s) <= slen s.
Proof. rewrite slen_stake. lia. Qed.

Lemma printed_len n s : 0 < n -> slen (printed n s) < n.
Proof.
  intros Hn. unfold printed. destruct (INT_MAX_SIZE <? n); [done|]. rewrite slen_scnprintf by done. lia.
Qed.

Lemma printed_fits n s : slen s < n <= INT_MAX_SIZE -> printed n s = s.
Proof. intros [? ?]. unfold printed. decide_tests. by apply scnprintf_fits. Qed.

(** Inside the buffer nothing faults, the result is below the size, and the
    text is there. *)
Lemma scnprintf_to_ok m a n s :
  0 < n -> m_lo m <= a -> a + n <= m_hi m ->
  exists m', scnprintf_to m a n s = Some (slen (printed n s), m') /\
    mod_only a (a + n) m m' /\ (n <= INT_MAX_SIZE -> cstr_at m' a (printed n s)).
Proof.
  intros Hn Hlo Hhi. pose proof (printed_len n s Hn) as Hl. unfold scnprintf_to, printed in *.
  destruct (Z.ltb_spec INT_MAX_SIZE n).
  { exists m. split; [done|]. split; [apply mod_only_refl|lia]. }
  destruct (Z.eqb_spec n 0); [lia|]. simpl.
  destruct (store_cstr_ok m a (scnprintf n s)) as (m' & -> & Hm & Hs); [lia..|].
  exists m'. split; [done|]. split; [|done]. eapply mod_only_weaken; [| |done]; lia.
Qed.

Lemma seq_buf_printf_fits b s :
  sb_len b + slen s < sb_size b ->
  seq_buf_printf b s = SeqBuf (sb_text b +:+ s) (sb_size b) (sb_len b + slen s).
Proof.
  intros H. pose proof (slen_nonneg s). unfold seq_buf_printf. decide_tests.
  by rewrite scnprintf_fits by lia.
Qed.

Lemma seq_buf_printf_full b s : sb_len b = sb_size b + 1 -> seq_buf_printf b s = b.
Proof. destruct b as [t n l]. cbn. intros ->. unfold seq_buf_printf. cbn. by decide_tests. Qed.

(** Well-formed: the text is shorter than the buffer, and its length is
    recorded unless the buffer overflowed. *)
Definition seq_buf_wf (b : seq_buf) : Prop :=
  0 < sb_size b /\
  ((sb_len b < sb_size b /\ slen (sb_text b) = sb_len b) \/
   (sb_len b = sb_size b + 1 /\ slen (sb_text b) = sb_size b - 1)).

Lemma seq_buf_init_wf size : 0 < size -> seq_buf_wf (seq_buf_init size).
Proof. intros H. split; [done|]. left. split; [done|]. done. Qed.

Lemma seq_buf_printf_wf b s : seq_buf_wf b -> seq_buf_wf (seq_buf_printf b s).
Proof.
  intros [Hs Hw]. unfold seq_buf_printf. destruct (Z.ltb_spec (sb_len b) (sb_size b)); cycle 1.
  { split; [done|]. right. cbn. lia. }
  destruct Hw as [[Hl Ht]|]; [|lia].
  destruct (Z.ltb_spec (slen s) (sb_size b - sb_len b)); split; cbn; try done.
  - left. rewrite slen_app, scnprintf_fits by lia. lia.
  - right. rewrite slen_app, slen_scnprintf by lia. lia.
Qed.

(** What a buffer of size [n] shows of the texts printed into it. *)
Definition seq_view (n : Z) (s : string) : seq_buf :=
  if slen s <? n then SeqBuf s n (slen s) else SeqBuf (stake (Z.to_nat (n - 1)) s) n (n + 1).

(** Printing is concatenation, cut off at the size: a sequence of prints shows
    what one print of the concatenation shows. *)
Lemma seq_view_printf n s t : 0 < n -> seq_buf_printf (seq_view n s) t = seq_view n (s +:+ t).
Proof.
  intros Hn. pose proof (slen_nonneg t). pose proof (slen_nonneg s). unfold seq_view.
  rewrite slen_app. destruct (Z.ltb_spec (slen s) n) as [Hlt|Hge].
  - unfold seq_buf_printf. cbn [sb_len sb_size sb_text]. decide_test. cbv beta match.
    destruct (Z.ltb_spec (slen t) (n - slen s)), (Z.ltb_spec (slen s + slen t) n); try lia.
    + by rewrite scnprintf_fits by lia.
    + rewrite stake_app. f_equal. destruct (Z.leb_spec (Z.of_nat (Z.to_nat (n - 1))) (slen s)).
      * rewrite (stake_all _ s) by lia. unfold scnprintf.
        replace (Z.to_nat (n - slen s - 1)) with 0%nat by lia. by rewrite sapp_nil_r.
      * unfold scnprintf. do 2 f_equal. lia.
  - destruct (Z.ltb_spec (slen s + slen t) n); [lia|]. rewrite seq_buf_printf_full by (cbn; lia).
    rewrite stake_app. by destruct (Z.leb_spec (Z.of_nat (Z.to_nat (n - 1))) (slen s)); [|lia].
Qed.

Lemma seq_view_init n : 0 < n -> seq_buf_init n = seq_view n "".
Proof. intros Hn. unfold seq_view. by destruct (Z.ltb_spec (slen "") n); [|unfold slen in *; simpl in *; lia]. Qed.

(** A list of prints. *)
Definition seq_buf_prints (b : seq_buf) (l : list string) : seq_buf := fold_left seq_buf_printf l b.

Lemma seq_view_prints n s l :
  0 < n -> seq_buf_prints (seq_view n s) l = seq_view n (s +:+ String.concat "" l).
Proof.
  intros Hn. unfold seq_buf_prints. revert s. induction l as [|t l IH]; intros s.
  { simpl. by rewrite sapp_nil_r. }
  simpl fold_left. rewrite seq_view_printf, IH by done. f_equal. rewrite <- sapp_assoc. f_equal.
  destruct l; simpl; [by rewrite sapp_nil_r|done].
Qed.
