(* ===== verification/MdApi.v ===== *)
(** * The minidump interface (minidump.h; msm_minidump.c, lines 563-575)

    What a driver needs to know of msm_minidump.c to register a region: the
    descriptor, its validation, and the contract of
    [msm_minidump_add_region].  The clients are proved against [MdApi]; the
    SMEM mode implements it in MdDriverProofs.v. *)

From S2P Require Import Prelude CMem CStr CText.

Definition CONFIG_MINIDUMP_MAX_ENTRIES : Z := 200.
Definition MAX_NAME_LENGTH : Z := 12.

(** [struct md_region]; [md_name] is the C string in its name array. *)
Record md_region := MdRegion {
  md_name : string;
  md_id : Z;
  virt_addr : Z;
  phys_addr : Z;
  md_size : Z;
}.

(** [IS_ALIGNED(x, a)] for a power of two [a]. *)
Definition IS_ALIGNED (x a : Z) : bool := Z.land x (a - 1) =? 0.

(** [ALIGN(x, a)] on a [size_t]. *)
Definition ALIGN (x a : Z) : Z := Z.ldiff (u64 (x + (a - 1))) (a - 1).

(** A null entry is [None]. *)
Definition validate_region (entry : option md_region) : Z :=
  match entry with
  | None => - EINVAL
  | Some e =>
      if (MAX_NAME_LENGTH <? slen (md_name e)) || (virt_addr e =? 0) ||
         negb (IS_ALIGNED (md_size e) 4)
      then - EINVAL
      else 0
  end.

(** A descriptor that a C caller can pass: its name is a C string and its
    numbers are 64-bit words. *)
Record region_wf (e : md_region) : Prop := {
  rw_name : no_nul (md_name e) = true;
  rw_virt : 0 <= virt_addr e < 18446744073709551616;
  rw_phys : 0 <= phys_addr e < 18446744073709551616;
  rw_size : 0 <= md_size e < 18446744073709551616;
}.

(** A registration neither faults nor breaks the registry's invariant; what it
    returns is a negative error, and then an invalid entry or a registry that
    is as it was, or the number of regions registered before. *)
Class MdApi (S : Type) := {
  msm_minidump_add_region : md_region -> S -> option (Z * S);
  md_inv : S -> Prop;
  md_regions_count : S -> Z;
  add_region_contract e s :
    md_inv s -> region_wf e ->
    exists ret s', msm_minidump_add_region e s = Some (ret, s') /\ md_inv s' /\
      ((ret < 0 /\ s' = s) \/
       (ret = md_regions_count s /\ 0 <= ret /\ validate_region (Some e) = 0 /\
        md_regions_count s' = ret + 1));
}.

(** ** The reference registry

    The regions registered so far, in order, with names that differ. *)

Definition named (n : string) (l : list md_region) : bool :=
  existsb (fun r => bool_decide (md_name r = n)) l.

Definition registry_add (e : md_region) (l : list md_region) : Z * list md_region :=
  if negb (validate_region (Some e) =? 0) then (- EINVAL, l)
  else if CONFIG_MINIDUMP_MAX_ENTRIES <=? Z.of_nat (length l) then (- ENOMEM, l)
  else if named (md_name e) l then (- EEXIST, l)
  else (Z.of_nat (length l), l ++ [e]).

#[program] Definition registry_api : MdApi (list md_region) := {|
  msm_minidump_add_region e l := Some (registry_add e l);
  md_inv l := True;
  md_regions_count l := Z.of_nat (length l);
|}.
Next Obligation.
  intros e l _ _. unfold registry_add.
  destruct (Z.eqb_spec (validate_region (Some e)) 0) as [Hv|]; simpl.
  2:{ eexists _, _. split_and!; [done..|]. by left. }
  destruct (_ <=? _); [eexists _, _; split_and!; [done..|]; by left|].
  destruct (named _ _); [eexists _, _; split_and!; [done..|]; by left|].
  eexists _, _. split_and!; [done..|]. right. rewrite length_app. simpl. split_and!; done || lia.
Qed.
