(* ===== verification/CpussData.v ===== *)
(** * State of the cpuss dump driver (memory_dump_v2.c, lines 20-113)

    The driver data of the platform device ([struct cpuss_dump_data]), the two
    kinds of dump tables it points to, and the DMA memory the tables live in.
    All pointers are addresses into that memory.  [drvdata = None] is a null
    driver-data pointer and a [None] table a null table pointer. *)

From S2P Require Import Prelude CMem.

(** ** Constants *)

Definition CPUSS_REGDUMP : Z := 0xEF.
Definition SPR_DUMP_CPU0 : Z := 0x1F0.
Definition SPR_DUMP_CPU7 : Z := 0x1F7.
Definition SPR_DATA_HEADER_SIZE : Z := 5.
Definition SPR_DATA_HEADER_TAIL_SIZE : Z := 1.
Definition SPR_INPUT_DATA_TAIL_SIZE : Z := 1.
Definition SPR_INPUT_DATA_SIZE : Z := 1.
Definition SPR_OUTPUT_DATA_SIZE : Z := 2.
Definition MAX_CORE_NUM : Z := 8.
Definition INPUT_DATA_BY_HLOS : Z := 0x00C0FFEE.
Definition FORMAT_VERSION_1 : Z := 0x1.
Definition FORMAT_VERSION_2 : Z := 0x2.
Definition CORE_REG_NUM_DEFAULT : Z := 0x1.
Definition SYS_REG_INPUT_INDEX : Z := 2.
Definition OUTPUT_DUMP_INDEX : Z := 3.
Definition PERCORE_INDEX : Z := 4.
Definition SYSTEM_REGS_INPUT_INDEX : Z := 5.
Definition CMD_REPEAT_READ : Z := 0x2000000.
Definition CMD_DELAY : Z := 0x1000000.
Definition CMD_READ : Z := 0x0.
Definition CMD_READ_WORD : Z := 0x1.
Definition CMD_WRITE : Z := 0x2.
Definition CMD_EXTRA : Z := 0x3.
Definition CMD_MASK : Z := 0x3.
Definition OFFSET_MASK : Z := 0xFFFFFFFC.
Definition EXTRA_CMD_MASK : Z := 0xFF000000.
Definition EXTRA_VALUE_MASK : Z := 0x00FFFFFF.
Definition MAX_EXTRA_VALUE : Z := 0xffffff.

(** [sizeof(uint32_t)] *)
Definition sizeof_u32 : Z := 4.

(** ** Data *)

Record sprs_dump_data := SprsDumpData {
  spr_dump_vaddr : Z;
  spr_size : Z;
  sprs_data_index : Z;
  spr_used_memory : Z;
}.

Record cpuss_regdump_data := CpussRegdumpData {
  dump_vaddr : Z;
  size : Z;
  core_reg_num : Z;
  core_reg_used_num : Z;
  core_reg_end_index : Z;
  sys_reg_size : Z;
  used_memory : Z;
}.

Record cpuss_dump_data := CpussDumpData {
  mutex : bool;
  cpussregdata : option cpuss_regdump_data;
  sprdata : list (option sprs_dump_data);
}.

Record device := Device {
  dma : mem;
  drvdata : option cpuss_dump_data;
}.

(** Field offsets of [struct reg_dump_data]. *)
Definition off_magic : Z := 0.
Definition off_version : Z := 4.
Definition off_system_regs_input_index : Z := 8.
Definition off_regdump_output_byte_offset : Z := 12.

(** [p + i] for a [uint32_t *p]. *)
Definition wptr (p i : Z) : Z := p + sizeof_u32 * i.

(** ** Access to the state *)

Definition set_dma (d : device) (m : mem) : device := Device m (drvdata d).

Definition set_drvdata (d : device) (c : cpuss_dump_data) : device := Device (dma d) (Some c).

Definition set_mutex (c : cpuss_dump_data) (b : bool) : cpuss_dump_data :=
  CpussDumpData b (cpussregdata c) (sprdata c).

(** [mutex_lock(&cpudata->mutex)]: faults on a null driver-data pointer and on
    a mutex the caller already holds. *)
Definition mutex_lock (d : device) : option device :=
  let* c := drvdata d in
  let* _ := assert_c (negb (mutex c)) in
  Some (set_drvdata d (set_mutex c true)).

Definition mutex_unlock (d : device) : option device :=
  let* c := drvdata d in
  let* _ := assert_c (mutex c) in
  Some (set_drvdata d (set_mutex c false)).

(** [cpudata->cpussregdata->...] *)
Definition regdata (d : device) : option cpuss_regdump_data :=
  let* c := drvdata d in cpussregdata c.

Definition set_regdata (d : device) (r : cpuss_regdump_data) : option device :=
  let* c := drvdata d in
  Some (set_drvdata d (CpussDumpData (mutex c) (Some r) (sprdata c))).

(** [cpudata->sprdata[i]]: an index outside the array faults, a null entry is
    [Some None]. *)
Definition sprs (d : device) (i : Z) : option (option sprs_dump_data) :=
  let* c := drvdata d in getZ (sprdata c) i.

Definition set_sprs (d : device) (i : Z) (s : sprs_dump_data) : option device :=
  let* c := drvdata d in
  let* l := setZ (sprdata c) i (Some s) in
  Some (set_drvdata d (CpussDumpData (mutex c) (cpussregdata c) l)).
