(* ===== verification/RegDump.v ===== *)
(** * The register dump table (memory_dump_v2.c, lines 160-571)

    The sysfs handlers that fill the cpuss register dump table, as written:
    each handler takes the device state and returns the C return value with
    the new state.  What the kernel parses for the handler ([sscanf],
    [kstrtouint]) is an argument, the number of possible CPUs is [ncpus]. *)

From S2P Require Import Prelude CMem CStr CpussData.

(** [kstrtouint(buf, 16, &val)]: [None] is a parse error. *)
Abbreviation kuint := (option Z).

(** [nval = sscanf(buf, "%x %x %c %u", ...)] with the values it stored. *)
Record scan_config := ScanConfig {
  sc_nval : Z;
  sc_offset : Z;
  sc_val : Z;
  sc_cmd : Z;
  sc_per_core : Z;
}.

(** The command characters. *)
Definition ch_r : Z := 114.
Definition ch_R : Z := 82.
Definition ch_d : Z := 100.
Definition ch_w : Z := 119.

(** ** Resetting the table *)

Definition update_reg_dump_table (d : device) (n : Z) : option (Z * device) :=
  let system_regs_input_index := u32 (SYSTEM_REGS_INPUT_INDEX + u32 (n * 2)) in
  let regdump_output_byte_offset := u32 (u32 (system_regs_input_index + 1) * sizeof_u32) in
  let* d := mutex_lock d in
  let* r := regdata d in
  if (size r <=? regdump_output_byte_offset) ||
     (regdump_output_byte_offset / sizeof_u32 <? u32 (system_regs_input_index + 1))
  then
    let* d := mutex_unlock d in
    Some (- ENOMEM, d)
  else
    let* d := set_regdata d
      (CpussRegdumpData (dump_vaddr r) (size r) n 0 PERCORE_INDEX 0
         regdump_output_byte_offset) in
    let p := dump_vaddr r in
    let* m := memset (dma d) p 0xDE (size r) in
    let* m := store32 m (p + off_magic) INPUT_DATA_BY_HLOS in
    let* m := store32 m (p + off_version) FORMAT_VERSION_2 in
    let* m := store32 m (p + off_system_regs_input_index) system_regs_input_index in
    let* m := store32 m (p + off_regdump_output_byte_offset) regdump_output_byte_offset in
    let* m := memset m (wptr p PERCORE_INDEX) 0x0
                (u32 (system_regs_input_index - PERCORE_INDEX + 1) * sizeof_u32) in
    let* d := mutex_unlock (set_dma d m) in
    Some (0, d).

(** ** core_reg_num *)

Definition core_reg_num_show (PAGE_SIZE : Z) (d : device) : option (Z * string * device) :=
  match drvdata d with
  | None => Some (- EFAULT, EmptyString, d)
  | Some _ =>
      let* d := mutex_lock d in
      let* r := regdata d in
      let buf := scnprintf PAGE_SIZE (fmt_u (core_reg_num r) +:+ nl) in
      let* d := mutex_unlock d in
      Some (slen buf, buf, d)
  end.

(** [core_reg_num_store] takes the mutex twice: once to check that the table
    is empty, and once more inside [update_reg_dump_table].  Between the two
    another writer can run, so the two critical sections are two steps. *)
Inductive store_phase :=
| Return (ret : Z)
| Update (val : Z).

Definition core_reg_num_check (d : device) (buf : kuint) (count : Z)
  : option (store_phase * device) :=
  match buf with
  | None => Some (Return (- EINVAL), d)
  | Some val =>
      let* d := mutex_lock d in
      let* r := regdata d in
      if negb (core_reg_used_num r =? 0) || negb (sys_reg_size r =? 0) then
        let* d := mutex_unlock d in Some (Return (- EPERM), d)
      else if val =? core_reg_num r then
        let* d := mutex_unlock d in Some (Return count, d)
      else
        let* d := mutex_unlock d in Some (Update val, d)
  end.

Definition core_reg_num_update (d : device) (val count : Z) : option (Z * device) :=
  let* (ret, d) := update_reg_dump_table d val in
  if ret =? 0 then Some (count, d) else Some (ret, d).

Definition core_reg_num_store (d : device) (buf : kuint) (count : Z) : option (Z * device) :=
  let* (ph, d) := core_reg_num_check d buf count in
  match ph with
  | Return ret => Some (ret, d)
  | Update val => core_reg_num_update d val count
  end.

(** ** register_config *)

Definition config_cpuss_register (m : mem) (p index cmd register_offset val : Z)
  : option (Z * mem) :=
  if cmd =? ch_r then
    if 4 <? val then
      let* m := store32 m (wptr p index) register_offset in
      let* m := store32 m (wptr p index + sizeof_u32) val in
      Some (0, m)
    else
      let* m := store32 m (wptr p index) (Z.lor register_offset CMD_READ_WORD) in
      Some (0, m)
  else if cmd =? ch_R then
    if MAX_EXTRA_VALUE <? val then Some (- EINVAL, m)
    else
      let* m := store32 m (wptr p index) (Z.lor register_offset CMD_EXTRA) in
      let* m := store32 m (wptr p index + sizeof_u32) (Z.lor val CMD_REPEAT_READ) in
      Some (0, m)
  else if cmd =? ch_d then
    if MAX_EXTRA_VALUE <? val then Some (- EINVAL, m)
    else
      let* m := store32 m (wptr p index) CMD_EXTRA in
      let* m := store32 m (wptr p index + sizeof_u32) (Z.lor val CMD_DELAY) in
      Some (0, m)
  else if cmd =? ch_w then
    let* m := store32 m (wptr p index) (Z.lor register_offset CMD_WRITE) in
    let* m := store32 m (wptr p index + sizeof_u32) val in
    Some (0, m)
  else Some (- EINVAL, m).

(** The locked part for a per-core register (lines 459-489). *)
Definition store_percore (ncpus : Z) (d : device) (register_offset val cmd reserve_size : Z)
  : option (Z * device) :=
  let* r := regdata d in
  let p := dump_vaddr r in
  if core_reg_used_num r =? core_reg_num r then Some (- EINVAL, d)
  else
    let extra_memory := u32 (reserve_size * ncpus) in
    let used := u32 (used_memory r + extra_memory) in
    if (extra_memory / ncpus <? reserve_size) || (size r <? used) || (used <? used_memory r)
    then Some (- ENOMEM, d)
    else
      let* (ret, m) := config_cpuss_register (dma d) p (core_reg_end_index r)
                         cmd register_offset val in
      let d := set_dma d m in
      if negb (ret =? 0) then Some (ret, d)
      else
        let end_index :=
          if (cmd =? ch_r) && (val =? 4) then u32 (core_reg_end_index r + 1)
          else u32 (core_reg_end_index r + 2) in
        let* d := set_regdata d
          (CpussRegdumpData p (size r) (core_reg_num r) (u32 (core_reg_used_num r + 1))
             end_index (sys_reg_size r) used) in
        Some (0, d).

(** The locked part for a system register (lines 490-525). *)
Definition store_system (d : device) (register_offset val cmd reserve_size : Z)
  : option (Z * device) :=
  let* r := regdata d in
  let p := dump_vaddr r in
  let* sysidx := load32 (dma d) (wptr p SYS_REG_INPUT_INDEX) in
  let end0 := u32 (sysidx + sys_reg_size r / sizeof_u32) in
  let extra_memory :=
    if (cmd =? ch_r) && (reserve_size =? 4) then u32 (sizeof_u32 + reserve_size)
    else u32 (sizeof_u32 * 2 + reserve_size) in
  let used := u32 (used_memory r + extra_memory) in
  if (extra_memory <? reserve_size) || (size r <? used) || (used <? used_memory r)
  then Some (- ENOMEM, d)
  else
    let* (ret, m) := config_cpuss_register (dma d) p end0 cmd register_offset val in
    let d := set_dma d m in
    if negb (ret =? 0) then Some (ret, d)
    else
      let '(end1, sys) :=
        if (cmd =? ch_r) && (val =? 4)
        then (u32 (end0 + 1), u32 (sys_reg_size r + sizeof_u32))
        else (u32 (end0 + 2), u32 (sys_reg_size r + sizeof_u32 * 2)) in
      let* d := set_regdata d
        (CpussRegdumpData p (size r) (core_reg_num r) (core_reg_used_num r)
           (core_reg_end_index r) sys used) in
      let* m := store32 m (wptr p end1) 0x0 in
      let* m := store32 m (wptr p OUTPUT_DUMP_INDEX) (u32 (u32 (end1 + 1) * sizeof_u32)) in
      Some (0, set_dma d m).

(** The checks before the lock is taken: [inl] is the error returned, [inr] is
    [(cmd, per_core, reserve_size)]. *)
Definition config_checks (s : scan_config) : Z + Z * Z * Z :=
  if sc_nval s <? 2 then inl (- EINVAL)
  else
    let cmd := if sc_nval s =? 2 then ch_r else sc_cmd s in
    let per_core := if 4 <=? sc_nval s then sc_per_core s else 0 in
    if 1 <? per_core then inl (- EINVAL)
    else if negb (Z.land (sc_offset s) 0x3 =? 0) then inl (- EINVAL)
    else if (cmd =? ch_r) || (cmd =? ch_R) then
      if sc_val s =? 0 then inl (- EINVAL)
      else if (cmd =? ch_r) && negb (Z.land (sc_val s) 0x3 =? 0) then inl (- EINVAL)
      else inr (cmd, per_core,
                if cmd =? ch_R then u32 (sc_val s * 4) else sc_val s)
    else inr (cmd, per_core, 4).

Definition register_config_store (ncpus : Z) (d : device) (s : scan_config) (count : Z)
  : option (Z * device) :=
  match config_checks s with
  | inl err => Some (err, d)
  | inr (cmd, per_core, reserve_size) =>
      let* d := mutex_lock d in
      let* (ret, d) :=
        if negb (per_core =? 0)
        then store_percore ncpus d (sc_offset s) (sc_val s) cmd reserve_size
        else store_system d (sc_offset s) (sc_val s) cmd reserve_size in
      let* d := mutex_unlock d in
      Some (if ret =? 0 then count else ret, d)
  end.

(** ** format_version and register_reset *)

Definition format_version_show (PAGE_SIZE : Z) (d : device) : option (Z * string * device) :=
  match drvdata d with
  | None => Some (- EFAULT, EmptyString, d)
  | Some _ =>
      let* d := mutex_lock d in
      let* r := regdata d in
      let* v := load32 (dma d) (dump_vaddr r + off_version) in
      let buf := scnprintf PAGE_SIZE (fmt_u v +:+ nl) in
      let* d := mutex_unlock d in
      Some (slen buf, buf, d)
  end.

(** The result of [update_reg_dump_table] is dropped. *)
Definition register_reset_store (d : device) (buf : kuint) (count : Z) : option (Z * device) :=
  match buf with
  | None => Some (- EINVAL, d)
  | Some val =>
      if negb (val =? 1) then Some (- EINVAL, d)
      else
        let* (_, d) := update_reg_dump_table d CORE_REG_NUM_DEFAULT in
        Some (count, d)
  end.
