(* ===== verification/RegDumpSpec.v ===== *)
(** * What the register dump table promises

    A table is, abstractly, a capacity and two lists of accepted commands.
    [config_table] says what one write to register_config does to it, in
    unbounded arithmetic.  [rep] relates a table to the driver's fields and
    the words in the dump memory; the handlers of RegDump.v refine
    [config_table] and [reset_table] through it. *)

From S2P Require Import Prelude CMem CStr CpussData RegDump.

(** ** Bit masks *)

Section Masks.
Implicit Types (a b x k n : Z).

Lemma lor_range n a b :
  0 <= n -> 0 <= a < 2 ^ n -> 0 <= b < 2 ^ n -> 0 <= Z.lor a b < 2 ^ n.
Proof.
  intros Hn Ha Hb.
  assert (0 <= Z.lor a b) by (apply Z.lor_nonneg; lia).
  split; [done|].
  rewrite <- (Z.mod_small a (2 ^ n)), <- (Z.mod_small b (2 ^ n)) by done.
  rewrite <- !Z.land_ones, <- Z.land_lor_distr_l, Z.land_ones by done.
  apply Z.mod_pos_bound. lia.
Qed.

Lemma lor_disjoint a b : Z.land a b = 0 -> Z.lor a b = a + b.
Proof. intros H. by rewrite <- Z.lxor_lor, Z.add_nocarry_lxor. Qed.

Lemma land_low k x : 0 <= k -> Z.land x (Z.ones k) = x mod 2 ^ k.
Proof. apply Z.land_ones. Qed.

Lemma land_high n k x :
  0 <= k <= n -> 0 <= x < 2 ^ n ->
  Z.land x (Z.ldiff (Z.ones n) (Z.ones k)) = x - x mod 2 ^ k.
Proof.
  intros Hk Hx.
  assert (Z.land x (Z.ldiff (Z.ones n) (Z.ones k)) = Z.ldiff x (Z.ones k)) as ->.
  { rewrite <- (Z.mod_small x (2 ^ n)) at 2 by done.
    rewrite <- Z.land_ones by lia.
    apply Z.bits_inj'. intros i _.
    rewrite ?Z.land_spec, ?Z.ldiff_spec, ?Z.land_spec. by rewrite andb_assoc. }
  rewrite Z.ldiff_ones_r by lia.
  rewrite Z.shiftl_mul_pow2, Z.shiftr_div_pow2 by lia.
  pose proof (Z.div_mod x (2 ^ k) ltac:(lia)). lia.
Qed.

Lemma land3 x : Z.land x 3 = x mod 4.
Proof. apply (land_low 2 x). lia. Qed.

Lemma land_offset_mask x :
  0 <= x < 4294967296 -> Z.land x OFFSET_MASK = x - x mod 4.
Proof. apply (land_high 32 2). lia. Qed.

Lemma land_extra_cmd_mask x :
  0 <= x < 4294967296 -> Z.land x EXTRA_CMD_MASK = x - x mod 16777216.
Proof. apply (land_high 32 24). lia. Qed.

Lemma land_extra_value_mask x : Z.land x EXTRA_VALUE_MASK = x mod 16777216.
Proof. apply (land_low 24 x). lia. Qed.

(** A command in the two low bits of an aligned offset. *)
Lemma lor_cmd x c : x mod 4 = 0 -> 0 <= c < 4 -> Z.lor x c = x + c.
Proof.
  intros Hx Hc. apply lor_disjoint.
  rewrite <- (Z.mod_small c 4) by done. rewrite <- (land3 c).
  by rewrite Z.land_assoc, (Z.land_comm x c), <- Z.land_assoc, land3, Hx, Z.land_0_r.
Qed.

(** An extra command above a 24-bit value. *)
Lemma lor_extra v c : 0 <= v < 16777216 -> Z.lor v (c * 16777216) = v + c * 16777216.
Proof.
  intros Hv. apply lor_disjoint.
  rewrite <- (Z.mod_small v 16777216) by done. change 16777216 with (2 ^ 24).
  rewrite <- (land_low 24 v), <- Z.land_assoc, (Z.land_comm (Z.ones 24)), land_low by lia.
  by rewrite Z.mod_mul, Z.land_0_r by lia.
Qed.
End Masks.

(** ** Words in memory *)

Fixpoint words_at (m : mem) (a : Z) (ws : list Z) : Prop :=
  match ws with
  | [] => True
  | w :: ws' => ld m a 4 = w /\ words_at m (a + 4) ws'
  end.

Definition wlen (ws : list Z) : Z := Z.of_nat (length ws).

Section Words.
Implicit Types (m : mem) (a : Z) (ws : list Z).

Lemma wlen_app ws ws' : wlen (ws ++ ws') = wlen ws + wlen ws'.
Proof. unfold wlen. rewrite length_app. lia. Qed.

Lemma wlen_nonneg ws : 0 <= wlen ws.
Proof. unfold wlen. lia. Qed.

Lemma words_at_app m a ws ws' :
  words_at m a (ws ++ ws') <-> words_at m a ws /\ words_at m (a + 4 * wlen ws) ws'.
Proof.
  unfold wlen. revert a. induction ws as [|w ws IH]; intros a; simpl.
  - replace (a + 4 * Z.of_nat 0) with a by lia. tauto.
  - rewrite IH. replace (a + 4 + 4 * Z.of_nat (length ws))
      with (a + 4 * Z.of_nat (S (length ws))) by lia. tauto.
Qed.

Lemma words_at_frame lo hi m m' a ws :
  mod_only lo hi m m' -> a + 4 * wlen ws <= lo \/ hi <= a ->
  words_at m a ws -> words_at m' a ws.
Proof.
  unfold wlen. intros Hm. revert a.
  induction ws as [|w ws IH]; intros a Hd; simpl; [done|].
  simpl length in Hd. intros [Hw Hws]. split.
  - rewrite (ld_mod_only lo hi m m' a 4 Hm) by lia. done.
  - apply IH; [lia|done].
Qed.

Lemma words_at_zero_fill m a n b k :
  a <= b -> b + 4 * Z.of_nat k <= a + n ->
  words_at (fill m a 0 n) b (replicate k 0).
Proof.
  revert b. induction k as [|k IH]; intros b Hlo Hhi; simpl; [done|].
  split; [apply ld_fill0; lia|apply IH; lia].
Qed.
End Words.

(** ** Commands *)

Inductive reg_cmd :=
| Read (offset len : Z)
| ReadWord (offset : Z)
| Repeat (offset times : Z)
| Delay (time : Z)
| Write (offset val : Z).

(** The words a command takes in the input tables. *)
Definition enc (c : reg_cmd) : list Z :=
  match c with
  | Read off len => [off; len]
  | ReadWord off => [off + CMD_READ_WORD]
  | Repeat off n => [off + CMD_EXTRA; n + CMD_REPEAT_READ]
  | Delay n => [CMD_EXTRA; n + CMD_DELAY]
  | Write off v => [off + CMD_WRITE; v]
  end.

(** The bytes of dump output it reserves. *)
Definition reserve (c : reg_cmd) : Z :=
  match c with
  | Read _ len => len
  | Repeat _ n => n * 4
  | ReadWord _ | Delay _ | Write _ _ => 4
  end.

(** The commands the handlers build: aligned 32-bit offsets, and a positive
    amount to read. *)
Definition cmd_ok (c : reg_cmd) : Prop :=
  0 < reserve c /\
  match c with
  | Read off len => 0 <= off < 4294967296 /\ off mod 4 = 0 /\ 4 < len < 4294967296
  | ReadWord off => 0 <= off < 4294967296 /\ off mod 4 = 0
  | Repeat off n =>
      0 <= off < 4294967296 /\ off mod 4 = 0 /\ 0 <= n <= MAX_EXTRA_VALUE
  | Delay n => 0 <= n <= MAX_EXTRA_VALUE
  | Write off v => 0 <= off < 4294967296 /\ off mod 4 = 0 /\ 0 <= v < 4294967296
  end.

(** The command a checked input denotes. *)
Definition mk_cmd (cmd off val : Z) : option reg_cmd :=
  if cmd =? ch_r then Some (if 4 <? val then Read off val else ReadWord off)
  else if cmd =? ch_R then if MAX_EXTRA_VALUE <? val then None else Some (Repeat off val)
  else if cmd =? ch_d then if MAX_EXTRA_VALUE <? val then None else Some (Delay val)
  else if cmd =? ch_w then Some (Write off val)
  else None.

Definition encs (l : list reg_cmd) : list Z := concat (map enc l).
Definition reserves (l : list reg_cmd) : Z := foldr Z.add 0 (map reserve l).

(** ** Tables *)

Record table := Table {
  t_size : Z;
  t_num : Z;
  t_core : list reg_cmd;
  t_sys : list reg_cmd;
}.

Definition t_sysidx (t : table) : Z := SYSTEM_REGS_INPUT_INDEX + 2 * t_num t.

(** Input tables up to and including the terminator, in bytes: where the
    output starts. *)
Definition t_output (t : table) : Z := 4 * (t_sysidx t + wlen (encs (t_sys t)) + 1).

Definition t_used (ncpus : Z) (t : table) : Z :=
  t_output t + ncpus * reserves (t_core t) + reserves (t_sys t).

Definition reset_table (t : table) (n : Z) : Z * table :=
  if t_size t <=? 4 * (SYSTEM_REGS_INPUT_INDEX + 2 * n + 1) then (- ENOMEM, t)
  else (0, Table (t_size t) n [] []).

(** One accepted command takes its input words at once and its output bytes,
    once per CPU for a per-core register. *)
Definition percore_table (ncpus : Z) (t : table) (cmd off val rs : Z) : Z * table :=
  if Z.of_nat (length (t_core t)) =? t_num t then (- EINVAL, t)
  else if t_size t <? t_used ncpus t + ncpus * rs then (- ENOMEM, t)
  else match mk_cmd cmd off val with
       | None => (- EINVAL, t)
       | Some c => (0, Table (t_size t) (t_num t) (t_core t ++ [c]) (t_sys t))
       end.

Definition system_table (ncpus : Z) (t : table) (cmd off val rs : Z) : Z * table :=
  let input := if (cmd =? ch_r) && (rs =? 4) then 4 else 8 in
  if t_size t <? t_used ncpus t + input + rs then (- ENOMEM, t)
  else match mk_cmd cmd off val with
       | None => (- EINVAL, t)
       | Some c => (0, Table (t_size t) (t_num t) (t_core t) (t_sys t ++ [c]))
       end.

Definition config_table (ncpus : Z) (t : table) (s : scan_config) : Z * table :=
  match config_checks s with
  | inl err => (err, t)
  | inr (cmd, per_core, rs) =>
      if negb (per_core =? 0)
      then percore_table ncpus t cmd (sc_offset s) (sc_val s) rs
      else system_table ncpus t cmd (sc_offset s) (sc_val s) rs
  end.

(** The driver doubles the number of registers in 32 bits, so that the table it
    lays out is the one for the number modulo [2^31]. *)
Definition half_word : Z := 2147483648.
Definition low31 (n : Z) : Z := n mod half_word.

(** The numbers whose words can be counted in 32 bits once doubled: the three
    last residues make [SYSTEM_REGS_INPUT_INDEX + 2 * n + 1] itself wrap. *)
Definition num_ok (n : Z) : Prop := 0 <= n < 4294967296 /\ low31 n <= 2147483644.

(** A change of the capacity is only accepted by an empty table. *)
Definition core_num_table (t : table) (n : Z) : Z * table :=
  match t_core t, t_sys t with
  | [], [] => if n =? t_num t then (0, t) else reset_table t (low31 n)
  | _, _ => (- EPERM, t)
  end.

(** ** Representation *)

(** The 32-bit words the table is in memory. *)
Definition t_image (t : table) : list Z :=
  [INPUT_DATA_BY_HLOS; FORMAT_VERSION_2; t_sysidx t; t_output t]
  ++ encs (t_core t)
  ++ replicate (Z.to_nat (t_sysidx t - PERCORE_INDEX - wlen (encs (t_core t)))) 0
  ++ encs (t_sys t) ++ [0].

Definition reg_fields (ncpus p : Z) (t : table) : cpuss_regdump_data :=
  CpussRegdumpData p (t_size t) (t_num t) (Z.of_nat (length (t_core t)))
    (PERCORE_INDEX + wlen (encs (t_core t))) (4 * wlen (encs (t_sys t))) (t_used ncpus t).

Record table_ok (ncpus : Z) (t : table) : Prop := {
  ok_num : 0 <= t_num t;
  ok_core : Z.of_nat (length (t_core t)) <= t_num t;
  ok_cmds : Forall cmd_ok (t_core t ++ t_sys t);
  ok_used : t_used ncpus t <= t_size t;
  ok_size : t_size t < 4294967296;
}.

Record rep_at (ncpus : Z) (m : mem) (r : cpuss_regdump_data) (t : table) : Prop := {
  rep_ok : table_ok ncpus t;
  rep_fields : r = reg_fields ncpus (dump_vaddr r) t;
  rep_lo : m_lo m <= dump_vaddr r;
  rep_hi : dump_vaddr r + t_size t <= m_hi m;
  rep_image : words_at m (dump_vaddr r) (t_image t);
}.

(** The driver, its mutex free, holds table [t] at address [p]. *)
Definition rep (ncpus p : Z) (d : device) (t : table) : Prop :=
  exists c r, drvdata d = Some c /\ mutex c = false /\ cpussregdata c = Some r /\
    dump_vaddr r = p /\ rep_at ncpus (dma d) r t.

(** The same driver with another number of per-core registers in its data. *)
Definition with_core_num (n : Z) (d : device) : device :=
  match drvdata d with
  | Some (CpussDumpData mx (Some r) sp) =>
      set_drvdata d (CpussDumpData mx
        (Some (CpussRegdumpData (dump_vaddr r) (size r) n (core_reg_used_num r)
                 (core_reg_end_index r) (sys_reg_size r) (used_memory r))) sp)
  | _ => d
  end.
