(* ===== verification/RegDumpProofs.v ===== *)
(** * The register dump handlers refine the table specification

    For every handler of RegDump.v: on a driver that represents a table it
    does not fault, it returns what the specification returns, it leaves a
    driver that represents the specification's table, and it writes no byte
    outside the dump region. *)

From S2P Require Import Prelude CMem CStr CpussData RegDump RegDumpSpec.

(** ** Encodings *)

Lemma enc_wlen c : 1 <= wlen (enc c) <= 2.
Proof. destruct c; unfold wlen; simpl; lia. Qed.

Lemma encs_snoc l c : encs (l ++ [c]) = encs l ++ enc c.
Proof. unfold encs. rewrite map_app, concat_app. simpl. by rewrite app_nil_r. Qed.

Lemma encs_cons c l : encs (c :: l) = enc c ++ encs l.
Proof. done. Qed.

Lemma reserves_snoc l c : reserves (l ++ [c]) = reserves l + reserve c.
Proof.
  unfold reserves. induction l as [|c' l IH]; simpl; [lia|]. rewrite IH. lia.
Qed.

Lemma encs_wlen l : Z.of_nat (length l) <= wlen (encs l) <= 2 * Z.of_nat (length l).
Proof.
  induction l as [|c l IH]; [done|].
  rewrite encs_cons, wlen_app. pose proof (enc_wlen c). simpl length. lia.
Qed.

Lemma reserves_nonneg l : Forall cmd_ok l -> 0 <= reserves l.
Proof.
  induction 1 as [|c l [Hc _] _ IH]; unfold reserves in *; simpl; lia.
Qed.

(** ** The command encoder *)

(** What [config_checks] guarantees of an input that passed. *)
Record checked (cmd off val : Z) : Prop := {
  chk_off : 0 <= off < 4294967296;
  chk_align : off mod 4 = 0;
  chk_val : 0 <= val < 4294967296;
  chk_r : cmd = ch_r -> 0 < val /\ val mod 4 = 0;
}.

Ltac store_words :=
  rewrite ?store32_ok by (autorewrite with mem_bounds; unfold wptr, sizeof_u32 in *; lia);
  eexists; split; [reflexivity|]; split;
  [ unfold wptr, sizeof_u32 in *; frame
  | repeat split; unfold wptr, sizeof_u32 in *; mem_simpl; try reflexivity; try lia ].

Lemma config_cpuss_register_none m p index cmd off val :
  checked cmd off val -> mk_cmd cmd off val = None ->
  config_cpuss_register m p index cmd off val = Some (- EINVAL, m).
Proof.
  intros _. unfold mk_cmd, config_cpuss_register.
  repeat (case_match; try done).
Qed.

Lemma config_cpuss_register_some m p index cmd off val c :
  checked cmd off val -> mk_cmd cmd off val = Some c ->
  m_lo m <= wptr p index -> wptr p index + 4 * wlen (enc c) <= m_hi m ->
  exists m', config_cpuss_register m p index cmd off val = Some (0, m') /\
    mod_only (wptr p index) (wptr p index + 4 * wlen (enc c)) m m' /\
    words_at m' (wptr p index) (enc c).
Proof.
  intros [Hoff Hal Hval Hr] Hmk Hlo Hhi.
  unfold mk_cmd, config_cpuss_register, MAX_EXTRA_VALUE, CMD_READ_WORD, CMD_EXTRA,
    CMD_WRITE, CMD_REPEAT_READ, CMD_DELAY in *.
  assert (off < 4294967293) by (pose proof (Z.div_mod off 4 ltac:(lia)); lia).
  tests_in Hmk; simplify_eq; bool_to_Prop; unfold wlen in *; simpl in Hhi |- *;
    rewrite ?(lor_cmd off) by lia.
  - store_words.
  - store_words.
  - rewrite (lor_extra val 2 : _ -> Z.lor val 33554432 = val + 33554432) by lia. store_words.
  - rewrite (lor_extra val 1 : _ -> Z.lor val 16777216 = val + 16777216) by lia. store_words.
  - store_words.
Qed.

(** What the encoder writes agrees with what the handler reserves. *)
Definition handler_reserve (cmd val : Z) : Z :=
  if cmd =? ch_R then u32 (val * 4) else if cmd =? ch_r then val else 4.

Lemma mk_cmd_facts cmd off val c :
  checked cmd off val -> mk_cmd cmd off val = Some c -> (cmd = ch_R -> val <> 0) ->
  reserve c = handler_reserve cmd val /\ cmd_ok c /\
  wlen (enc c) = if (cmd =? ch_r) && (val =? 4) then 1 else 2.
Proof.
  intros [Hoff Hal Hval Hr] Hmk HR. unfold mk_cmd, handler_reserve, cmd_ok, MAX_EXTRA_VALUE in *.
  tests_in Hmk; simplify_eq; bool_to_Prop; subst; simpl; unfold wlen; simpl.
  all: try (specialize (Hr eq_refl)); try (specialize (HR eq_refl)).
  all: try (assert (val = 4) by (pose proof (Z.div_mod val 4 ltac:(lia)); lia)).
  all: rewrite ?u32_small by lia; split_and!; try lia.
  all: by decide_tests.
Qed.

Section MemoryTests.
Context (ncpus used size rs : Z).
Context (Hn : 0 < ncpus) (Hused : 0 <= used <= size) (Hsize : size < 4294967296).
Context (Hrs : 0 <= rs < 4294967296).

Lemma percore_mem_test :
  (u32 (rs * ncpus) / ncpus <? rs) || (size <? u32 (used + u32 (rs * ncpus)))
    || (u32 (used + u32 (rs * ncpus)) <? used)
  = (size <? used + ncpus * rs) /\
  (used + ncpus * rs <= size -> u32 (used + u32 (rs * ncpus)) = used + ncpus * rs).
Proof.
  rewrite u32_mul_wrap by lia.
  destruct (Z.leb_spec 4294967296 (rs * ncpus)); simpl.
  - split; [symmetry; apply Z.ltb_lt; lia|lia].
  - rewrite (u32_small (rs * ncpus)) by nia.
    destruct (u32_add_wrap used (rs * ncpus)) as [Hw|[Hw ?]]; [lia|nia|..];
      [rewrite Hw|]; split; lia || nia.
Qed.

Lemma system_mem_test k :
  k = 4 \/ k = 8 ->
  (u32 (k + rs) <? rs) || (size <? u32 (used + u32 (k + rs)))
    || (u32 (used + u32 (k + rs)) <? used)
  = (size <? used + k + rs) /\
  (used + k + rs <= size -> u32 (used + u32 (k + rs)) = used + k + rs).
Proof.
  intros Hk. pose proof (u32_range (k + rs)).
  destruct (u32_add_wrap rs k) as [Hk'|[Hk' ?]]; [lia|lia| |]; rewrite Z.add_comm in Hk'.
  - rewrite Hk'. destruct (u32_add_wrap used (k + rs)) as [Hw|[Hw ?]]; [lia|lia|..];
      [rewrite Hw|]; split; lia.
  - split; [|lia]. replace (u32 (k + rs) <? rs) with true by lia. simpl. lia.
Qed.
End MemoryTests.

(** ** The image in memory *)

Record image_parts (m : mem) (p : Z) (t : table) : Prop := {
  im_magic : ld m p 4 = INPUT_DATA_BY_HLOS;
  im_version : ld m (p + 4) 4 = FORMAT_VERSION_2;
  im_sysidx : ld m (p + 8) 4 = t_sysidx t;
  im_output : ld m (p + 12) 4 = t_output t;
  im_core : words_at m (p + 16) (encs (t_core t));
  im_zero : words_at m (p + 16 + 4 * wlen (encs (t_core t)))
              (replicate (Z.to_nat (t_sysidx t - PERCORE_INDEX - wlen (encs (t_core t)))) 0);
  im_sys : words_at m (p + 4 * t_sysidx t) (encs (t_sys t));
  im_term : ld m (p + 4 * (t_sysidx t + wlen (encs (t_sys t)))) 4 = 0;
}.

Lemma image_split m p t :
  wlen (encs (t_core t)) <= t_sysidx t - PERCORE_INDEX ->
  words_at m p (t_image t) <-> image_parts m p t.
Proof.
  intros Hle. unfold t_image. rewrite !words_at_app.
  change (4 * wlen [INPUT_DATA_BY_HLOS; FORMAT_VERSION_2; t_sysidx t; t_output t]) with 16.
  assert (4 * wlen (replicate (Z.to_nat (t_sysidx t - PERCORE_INDEX - wlen (encs (t_core t)))) 0)
          = 4 * (t_sysidx t - PERCORE_INDEX - wlen (encs (t_core t)))) as ->
    by (unfold wlen in *; rewrite length_replicate; lia).
  set (a := p + 16 + 4 * wlen (encs (t_core t)) + _).
  assert (a = p + 4 * t_sysidx t) as -> by (subst a; unfold PERCORE_INDEX; lia).
  replace (p + 4 * t_sysidx t + 4 * wlen (encs (t_sys t)))
    with (p + 4 * (t_sysidx t + wlen (encs (t_sys t)))) by lia.
  simpl words_at.
  replace (p + 4 + 4) with (p + 8) by lia. replace (p + 8 + 4) with (p + 12) by lia.
  split; [intros; destruct_and!; by constructor|intros []; by split_and!].
Qed.

Lemma table_bounds ncpus t :
  0 < ncpus -> table_ok ncpus t ->
  0 <= wlen (encs (t_core t)) <= 2 * Z.of_nat (length (t_core t)) /\
  0 <= wlen (encs (t_sys t)) /\
  t_output t = 4 * (SYSTEM_REGS_INPUT_INDEX + 2 * t_num t + wlen (encs (t_sys t)) + 1) /\
  t_output t <= t_used ncpus t <= t_size t /\ t_size t < 4294967296 /\ 0 <= t_num t.
Proof.
  intros Hn [Hnum Hcore Hres Hused Hsize]. apply Forall_app in Hres as [Hc Hs].
  pose proof (encs_wlen (t_core t)). pose proof (wlen_nonneg (encs (t_sys t))).
  pose proof (reserves_nonneg _ Hc). pose proof (reserves_nonneg _ Hs).
  assert (0 <= ncpus * reserves (t_core t)) by nia.
  unfold t_used, t_output, t_sysidx in *. split_and!; lia.
Qed.

(** ** Per-core registers *)

Section Percore.
Context (ncpus : Z) (m : mem) (r : cpuss_regdump_data) (t : table).
Context (b : bool) (sp : list (option sprs_dump_data)).
Context (Hn : 0 < ncpus) (Hrep : rep_at ncpus m r t).

Local Abbreviation dev m r := (Device m (Some (CpussDumpData b (Some r) sp))).

(** The memory after a command was added at the end of the per-core list. *)
Lemma image_add_core m' c :
  Z.of_nat (length (t_core t)) < t_num t ->
  mod_only (dump_vaddr r + 16 + 4 * wlen (encs (t_core t)))
    (dump_vaddr r + 16 + 4 * wlen (encs (t_core t)) + 4 * wlen (enc c)) m m' ->
  words_at m' (dump_vaddr r + 16 + 4 * wlen (encs (t_core t))) (enc c) ->
  image_parts m' (dump_vaddr r) (Table (t_size t) (t_num t) (t_core t ++ [c]) (t_sys t)).
Proof.
  intros Hlt Hmod Hws. destruct Hrep as [Hok _ Hlo Hhi Him].
  destruct (table_bounds _ _ Hn Hok) as (? & ? & ? & ? & ? & ?).
  pose proof (enc_wlen c) as Hc.
  unfold t_output, t_sysidx, SYSTEM_REGS_INPUT_INDEX, PERCORE_INDEX in *.
  apply image_split in Him as [];
    [|unfold t_sysidx, PERCORE_INDEX, SYSTEM_REGS_INPUT_INDEX; lia].
  unfold t_output, t_sysidx, SYSTEM_REGS_INPUT_INDEX, PERCORE_INDEX in *.
  split; unfold t_output, t_sysidx, SYSTEM_REGS_INPUT_INDEX, PERCORE_INDEX; simpl;
    rewrite ?(ld_mod_only _ _ _ _ _ _ Hmod) by lia; try done.
  - rewrite encs_snoc, words_at_app. split; [|done].
    eapply words_at_frame; [done| |done]. lia.
  - rewrite encs_snoc, wlen_app.
    set (k := Z.to_nat (5 + 2 * t_num t - 4 - wlen (encs (t_core t)))) in *.
    replace k with (length (enc c) + Z.to_nat
      (5 + 2 * t_num t - 4 - (wlen (encs (t_core t)) + wlen (enc c))))%nat in im_zero0
      by (subst k; unfold wlen in *; lia).
    rewrite replicate_add in im_zero0. apply words_at_app in im_zero0 as [_ Hz].
    eapply words_at_frame; [done| |].
    + right. unfold wlen. lia.
    + replace (dump_vaddr r + 16 + 4 * (wlen (encs (t_core t)) + wlen (enc c)))
        with (dump_vaddr r + 16 + 4 * wlen (encs (t_core t)) +
              4 * wlen (replicate (length (enc c)) 0)); [done|].
      unfold wlen at 2 4. rewrite length_replicate. lia.
  - eapply words_at_frame; [done| |done]. lia.
Qed.

Lemma store_percore_refines cmd off val rs :
  checked cmd off val -> (cmd = ch_R -> val <> 0) -> rs = handler_reserve cmd val ->
  let '(ret, t') := percore_table ncpus t cmd off val rs in
  exists m' r',
    store_percore ncpus (dev m r) off val cmd rs = Some (ret, dev m' r') /\
    dump_vaddr r' = dump_vaddr r /\ rep_at ncpus m' r' t' /\
    mod_only (dump_vaddr r) (dump_vaddr r + t_size t) m m'.
Proof.
  intros Hchk HR Hrs. pose proof Hrep as [Hok Hf Hlo Hhi Him].
  destruct (table_bounds _ _ Hn Hok) as (Hwc & Hws & Hout & Hused & Hsize & Hnum).
  unfold SYSTEM_REGS_INPUT_INDEX in Hout.
  assert (0 <= rs < 4294967296) as Hrsr.
  { subst rs. unfold handler_reserve. pose proof (u32_range (val * 4)). destruct Hchk.
    repeat case_match; lia. }
  unfold percore_table, store_percore; simpl. rewrite Hf; simpl.
  assert (forall x, x = t -> rep_at ncpus m (reg_fields ncpus (dump_vaddr r) x) x) as Hsame.
  { intros x ->. by rewrite <- Hf. }
  destruct (Z.eqb_spec (Z.of_nat (length (t_core t))) (t_num t)) as [|Hlt].
  { eexists m, _. split_and!; eauto using mod_only_refl. }
  destruct (percore_mem_test ncpus (t_used ncpus t) (t_size t) rs) as [-> Hu];
    [lia..|].
  destruct (Z.ltb_spec (t_size t) (t_used ncpus t + ncpus * rs)) as [|Hfit].
  { eexists m, _. split_and!; eauto using mod_only_refl. }
  specialize (Hu Hfit). rewrite Hu.
  destruct (mk_cmd cmd off val) as [c|] eqn:Hmk.
  2:{ rewrite config_cpuss_register_none by done. simpl.
      eexists m, _. split_and!; eauto using mod_only_refl. }
  destruct (mk_cmd_facts _ _ _ _ Hchk Hmk HR) as (Hres & Hpos & Hlen).
  pose proof (ok_core _ _ Hok). pose proof (enc_wlen c) as Hc.
  destruct (config_cpuss_register_some m (dump_vaddr r)
    (PERCORE_INDEX + wlen (encs (t_core t))) cmd off val c)
    as (m' & -> & Hmod & Hw); [done|done|unfold wptr, sizeof_u32, PERCORE_INDEX; lia..|].
  simpl. unfold wptr, sizeof_u32, PERCORE_INDEX in Hmod, Hw.
  rewrite Z.mul_add_distr_l, Z.add_assoc in Hmod, Hw.
  eexists m', _. split_and!; [reflexivity|done| |eapply mod_only_weaken; [| |done]; lia].
  split.
  - pose proof (ok_cmds _ _ Hok) as Hall. apply Forall_app in Hall as [? ?].
    split; simpl; try done.
    + rewrite length_app; simpl. lia.
    + rewrite !Forall_app, Forall_singleton. by split_and!.
    + unfold t_used, t_output, t_sysidx in *; simpl. rewrite reserves_snoc. lia.
  - unfold reg_fields; simpl. rewrite encs_snoc, wlen_app, length_app, Hlen; simpl.
    f_equal.
    + rewrite u32_small by lia. lia.
    + unfold PERCORE_INDEX. case_match; rewrite u32_small by lia; lia.
    + unfold t_used, t_output, t_sysidx; simpl. rewrite reserves_snoc. lia.
  - simpl. destruct Hmod as (<- & _). lia.
  - simpl. destruct Hmod as (_ & <- & _). lia.
  - apply image_split; [|by apply image_add_core; [lia|..]].
    simpl. rewrite encs_snoc, wlen_app. unfold t_sysidx, PERCORE_INDEX, SYSTEM_REGS_INPUT_INDEX; simpl. lia.
Qed.
End Percore.

Lemma words_at_st m a ws b v :
  a + 4 * wlen ws <= b \/ b + 4 <= a -> words_at m a ws -> words_at (st m b 4 v) a ws.
Proof. intros H. eapply words_at_frame; [apply mod_only_st|lia]. Qed.

(** ** System registers *)

Section System.
Context (ncpus : Z) (m : mem) (r : cpuss_regdump_data) (t : table).
Context (b : bool) (sp : list (option sprs_dump_data)).
Context (Hn : 0 < ncpus) (Hrep : rep_at ncpus m r t).

Local Abbreviation dev m r := (Device m (Some (CpussDumpData b (Some r) sp))).
Local Abbreviation p := (dump_vaddr r).

(** The memory after a command was added at the end of the system list, the
    terminator moved behind it and the output offset updated. *)
Lemma image_add_sys m' c :
  mod_only (p + 4 * (t_sysidx t + wlen (encs (t_sys t))))
    (p + 4 * (t_sysidx t + wlen (encs (t_sys t))) + 4 * wlen (enc c)) m m' ->
  words_at m' (p + 4 * (t_sysidx t + wlen (encs (t_sys t)))) (enc c) ->
  t_output t + 4 * wlen (enc c) < 4294967296 ->
  image_parts
    (st (st m' (p + 4 * (t_sysidx t + wlen (encs (t_sys t)) + wlen (enc c))) 4 0)
        (p + 12) 4 (t_output t + 4 * wlen (enc c)))
    p (Table (t_size t) (t_num t) (t_core t) (t_sys t ++ [c])).
Proof.
  intros Hmod Hw Hlt. destruct Hrep as [Hok _ Hlo Hhi Him].
  destruct (table_bounds _ _ Hn Hok) as (? & ? & ? & ? & ? & ?).
  pose proof (enc_wlen c) as Hc. pose proof (ok_core _ _ Hok).
  assert (t_sysidx t = 5 + 2 * t_num t) as Hi by done.
  unfold SYSTEM_REGS_INPUT_INDEX in *.
  apply image_split in Him as [I1 I2 I3 I4 I5 I6 I7 I8]; [|unfold PERCORE_INDEX; lia].
  split; unfold t_output, t_sysidx, SYSTEM_REGS_INPUT_INDEX, PERCORE_INDEX in *; simpl in *;
    rewrite ?encs_snoc, ?wlen_app, ?words_at_app.
  1,2,3: mem_simpl; rewrite (ld_mod_only _ _ _ _ _ _ Hmod) by lia; done.
  - mem_simpl. lia.
  - apply words_at_st, words_at_st; [lia..|]. eapply words_at_frame; [done|lia|done].
  - apply words_at_st, words_at_st;
      [unfold wlen; rewrite length_replicate; unfold wlen in *; lia..|].
    eapply words_at_frame; [done| |done].
    unfold wlen; rewrite length_replicate; unfold wlen in *; lia.
  - split.
    + apply words_at_st, words_at_st; [lia..|]. eapply words_at_frame; [done|lia|done].
    + replace (p + 4 * (5 + 2 * t_num t) + 4 * wlen (encs (t_sys t)))
        with (p + 4 * (5 + 2 * t_num t + wlen (encs (t_sys t)))) by lia.
      by apply words_at_st, words_at_st; [lia..|].
  - rewrite Z.add_assoc. by mem_simpl.
Qed.

Lemma store_system_refines cmd off val rs :
  checked cmd off val -> (cmd = ch_R -> val <> 0) -> rs = handler_reserve cmd val ->
  let '(ret, t') := system_table ncpus t cmd off val rs in
  exists m' r',
    store_system (dev m r) off val cmd rs = Some (ret, dev m' r') /\
    dump_vaddr r' = dump_vaddr r /\ rep_at ncpus m' r' t' /\
    mod_only (dump_vaddr r) (dump_vaddr r + t_size t) m m'.
Proof.
  intros Hchk HR Hrs. pose proof Hrep as [Hok Hf Hlo Hhi Him].
  destruct (table_bounds _ _ Hn Hok) as (Hwc & Hws & Hout & Hused & Hsize & Hnum).
  pose proof (ok_core _ _ Hok).
  assert (t_sysidx t = 5 + 2 * t_num t) as Hi by done.
  unfold SYSTEM_REGS_INPUT_INDEX in Hout.
  assert (0 <= rs < 4294967296) as Hrsr.
  { subst rs. unfold handler_reserve. pose proof (u32_range (val * 4)). destruct Hchk.
    repeat case_match; lia. }
  pose proof Him as Hp. apply image_split in Hp as [_ _ Hsi _ _ _ _ _];
    [|unfold PERCORE_INDEX; lia].
  unfold system_table, store_system; simpl. rewrite Hf; simpl.
  rewrite load32_ok by (unfold wptr, sizeof_u32, SYS_REG_INPUT_INDEX; lia).
  change (wptr p SYS_REG_INPUT_INDEX) with (p + 8). rewrite Hsi; cbv beta match.
  replace (4 * wlen (encs (t_sys t)) / sizeof_u32) with (wlen (encs (t_sys t)))
    by (unfold sizeof_u32; rewrite Z.mul_comm, Z.div_mul; lia).
  rewrite (u32_small (t_sysidx t + wlen (encs (t_sys t)))) by lia.
  set (k := if (cmd =? ch_r) && (rs =? 4) then 4 else 8).
  replace (if (cmd =? ch_r) && (rs =? 4) then u32 (sizeof_u32 + rs)
           else u32 (sizeof_u32 * 2 + rs)) with (u32 (k + rs))
    by (subst k; by case_match).
  destruct (system_mem_test (t_used ncpus t) (t_size t) rs ltac:(lia) Hsize Hrsr k) as [-> Hu];
    [subst k; case_match; lia|].
  destruct (Z.ltb_spec (t_size t) (t_used ncpus t + k + rs)) as [|Hfit].
  { eexists m, _. split_and!; eauto using mod_only_refl. by rewrite <- Hf. }
  specialize (Hu Hfit). rewrite Hu.
  destruct (mk_cmd cmd off val) as [c|] eqn:Hmk.
  2:{ rewrite config_cpuss_register_none by done. simpl.
      eexists m, _. split_and!; eauto using mod_only_refl. by rewrite <- Hf. }
  destruct (mk_cmd_facts _ _ _ _ Hchk Hmk HR) as (Hres & Hpos & Hlen).
  assert (k = 4 * wlen (enc c)) as Hk.
  { subst k rs. rewrite Hlen. unfold handler_reserve, ch_r, ch_R.
    repeat case_match; bool_to_Prop; subst; simpl in *; lia || done. }
  clearbody k.
  pose proof (enc_wlen c) as Hc.
  destruct (config_cpuss_register_some m p (t_sysidx t + wlen (encs (t_sys t))) cmd off val c)
    as (m' & -> & Hmod & Hw); [done|done|unfold wptr, sizeof_u32; lia..|].
  cbv beta match. rewrite Z.eqb_refl. cbn [negb set_dma dma drvdata].
  set (e1 := t_sysidx t + wlen (encs (t_sys t)) + wlen (enc c)).
  replace (if (cmd =? ch_r) && (val =? 4) then _ else _)
    with (e1, 4 * wlen (encs (t_sys t)) + 4 * wlen (enc c))
    by (subst e1; rewrite Hlen; case_match; unfold sizeof_u32; rewrite !u32_small by lia; f_equal; lia).
  cbv beta match. unfold set_regdata, set_drvdata; simpl.
  assert (m_lo m' = m_lo m /\ m_hi m' = m_hi m) as [Hml Hmh] by (by destruct Hmod as (-> & -> & _)).
  rewrite store32_ok by (subst e1; unfold wptr, sizeof_u32; lia). cbv beta match.
  rewrite store32_ok by (autorewrite with mem_bounds; unfold wptr, sizeof_u32, OUTPUT_DUMP_INDEX; lia).
  rewrite (u32_small (e1 + 1)), u32_small by (subst e1; unfold sizeof_u32; lia).
  unfold wptr, sizeof_u32 in *. change (p + 4 * OUTPUT_DUMP_INDEX) with (p + 12).
  replace ((e1 + 1) * 4) with (t_output t + 4 * wlen (enc c)) by (subst e1; lia).
  eexists _, _. split_and!; [reflexivity|done| |].
  2:{ subst e1. frame. }
  split.
  - pose proof (ok_cmds _ _ Hok) as Hall. apply Forall_app in Hall as [? ?].
    split; simpl; try done.
    + rewrite !Forall_app, Forall_singleton. by split_and!.
    + unfold t_used, t_output, t_sysidx in *; simpl.
      rewrite reserves_snoc, encs_snoc, wlen_app. lia.
  - unfold reg_fields; simpl. rewrite encs_snoc, wlen_app. f_equal; [lia|].
    unfold t_used, t_output, t_sysidx in *; simpl.
    rewrite reserves_snoc, encs_snoc, wlen_app. lia.
  - simpl. autorewrite with mem_bounds. lia.
  - simpl. autorewrite with mem_bounds. lia.
  - apply image_split; [unfold t_sysidx, PERCORE_INDEX, SYSTEM_REGS_INPUT_INDEX; simpl; lia|].
    apply image_add_sys; [done|done|]. simpl. lia.
Qed.
End System.

(** ** Whole handlers *)

(** A device whose register table lies at [p] and has [sz] bytes, whatever
    they contain; its mutex is free. *)
Definition region (p sz : Z) (d : device) : Prop :=
  exists c r, drvdata d = Some c /\ mutex c = false /\ cpussregdata c = Some r /\
    dump_vaddr r = p /\ size r = sz /\ 0 <= sz < 4294967296 /\
    m_lo (dma d) <= p /\ p + sz <= m_hi (dma d).

(** The SPR tables of the device are those of the other. *)
Definition same_sprs (d d' : device) : Prop :=
  sprdata <$> drvdata d = sprdata <$> drvdata d'.

Lemma rep_region ncpus p d t : 0 < ncpus -> rep ncpus p d t -> region p (t_size t) d.
Proof.
  intros Hn (c & r & Hd & Hm & Hr & Hp & [Hok Hf Hlo Hhi _]).
  exists c, r. destruct (table_bounds _ _ Hn Hok) as (? & ? & Ho & ? & ? & ?).
  unfold SYSTEM_REGS_INPUT_INDEX in *. subst p.
  split_and!; try done; try lia. by rewrite Hf.
Qed.

(** What [update_reg_dump_table] leaves in memory. *)
Lemma reset_image m p sz n :
  0 <= n -> 4 * (6 + 2 * n) < sz < 4294967296 ->
  image_parts
    (fill (st (st (st (st (fill m p 222 sz) (p + 0) 4 12648430) (p + 4) 4 2)
              (p + 8) 4 (5 + 2 * n)) (p + 12) 4 ((5 + 2 * n + 1) * 4))
          (p + 16) 0 ((2 * n + 2) * 4))
    p (Table sz n [] []).
Proof.
  intros Hn Hsz. split; unfold t_output, t_sysidx, SYSTEM_REGS_INPUT_INDEX, PERCORE_INDEX,
    INPUT_DATA_BY_HLOS, FORMAT_VERSION_2; simpl; change (wlen (encs [])) with 0; try done.
  all: try (mem_simpl; lia).
  apply words_at_zero_fill; lia.
Qed.

(** The table right after a reset. *)
Lemma empty_table_used ncpus sz n : t_used ncpus (Table sz n [] []) = 4 * (6 + 2 * n).
Proof.
  unfold t_used, t_output, t_sysidx, SYSTEM_REGS_INPUT_INDEX, reserves; simpl.
  change (wlen (encs [])) with 0. lia.
Qed.

Lemma empty_table_fits sz n :
  0 <= n ->
  wlen (encs (t_core (Table sz n [] []))) <= t_sysidx (Table sz n [] []) - PERCORE_INDEX.
Proof.
  unfold t_sysidx, PERCORE_INDEX, SYSTEM_REGS_INPUT_INDEX; simpl.
  change (wlen (encs [])) with 0. lia.
Qed.

Lemma empty_table_ok ncpus sz n :
  0 <= n -> 4 * (6 + 2 * n) < sz < 4294967296 -> table_ok ncpus (Table sz n [] []).
Proof. intros. split; try constructor; rewrite ?empty_table_used; simpl; lia. Qed.

(** The words of an empty table, in full. *)
Lemma empty_image ncpus p d sz n :
  0 <= n -> rep ncpus p d (Table sz n [] []) ->
  words_at (dma d) p
    ([0xC0FFEE; 2; 5 + 2 * n; 4 * (6 + 2 * n)] ++ replicate (Z.to_nat (1 + 2 * n)) 0 ++ [0]).
Proof.
  intros Hn (c & r & _ & _ & _ & <- & [_ _ _ _ Him]).
  unfold t_image, t_sysidx, t_output, SYSTEM_REGS_INPUT_INDEX, PERCORE_INDEX in Him.
  cbn [t_core t_sys t_num] in Him. change (encs []) with (@nil Z) in Him.
  change (wlen []) with 0 in Him. rewrite !app_nil_l in Him.
  unfold t_sysidx, SYSTEM_REGS_INPUT_INDEX in Him. cbn [t_num] in Him.
  replace (5 + 2 * n - 4 - 0) with (1 + 2 * n) in Him by lia.
  replace (4 * (5 + 2 * n + 0 + 1)) with (4 * (6 + 2 * n)) in Him by lia. exact Him.
Qed.

Lemma update_reg_dump_table_refines ncpus p sz d n :
  0 <= n <= 2147483644 -> region p sz d ->
  let '(ret, t') := reset_table (Table sz n [] []) n in
  exists d', update_reg_dump_table d n = Some (ret, d') /\
    (ret = 0 -> rep ncpus p d' t') /\ (ret <> 0 -> d' = d) /\
    mod_only p (p + sz) (dma d) (dma d') /\ same_sprs d d'.
Proof.
  intros Hn (c & r & Hd & Hmx & Hr & <- & <- & Hsz & Hlo & Hhi).
  destruct d as [m dd]; simpl in *. subst dd. destruct c as [b rr sp]; simpl in *. subst b rr.
  unfold reset_table, update_reg_dump_table, SYSTEM_REGS_INPUT_INDEX, sizeof_u32,
    mutex_lock, mutex_unlock, regdata; simpl.
  rewrite (u32_small (n * 2)), (u32_small (5 + n * 2)), (u32_small (5 + n * 2 + 1)) by lia.
  replace (5 + n * 2) with (5 + 2 * n) by lia.
  assert ((size r <=? u32 ((5 + 2 * n + 1) * 4)) || (u32 ((5 + 2 * n + 1) * 4) / 4 <? 5 + 2 * n + 1)
          = (size r <=? 4 * (5 + 2 * n + 1))) as ->.
  { rewrite (u32_mul_wrap (5 + 2 * n + 1) 4) by lia.
    destruct (Z.leb_spec 4294967296 ((5 + 2 * n + 1) * 4)).
    - rewrite orb_true_r. symmetry. apply Z.leb_le. lia.
    - rewrite orb_false_r, u32_small by lia. f_equal. lia. }
  destruct (Z.leb_spec (size r) (4 * (5 + 2 * n + 1))) as [|Hfit].
  { eexists. split_and!; [reflexivity|discriminate|done|apply mod_only_refl|done]. }
  rewrite (u32_small ((5 + 2 * n + 1) * 4)) by lia.
  rewrite (u32_small (5 + 2 * n - PERCORE_INDEX + 1)) by (unfold PERCORE_INDEX; lia).
  rewrite memset_ok by lia. cbv beta match.
  unfold off_magic, off_version, off_system_regs_input_index, off_regdump_output_byte_offset,
    wptr, PERCORE_INDEX, sizeof_u32, INPUT_DATA_BY_HLOS, FORMAT_VERSION_2.
  do 4 (rewrite store32_ok by (autorewrite with mem_bounds; lia); cbv beta match).
  rewrite memset_ok by (autorewrite with mem_bounds; lia). simpl.
  replace (5 + 2 * n - 4 + 1) with (2 * n + 2) by lia. change (dump_vaddr r + 4 * 4) with (dump_vaddr r + 16).
  eexists. split_and!; [reflexivity| |done| |done].
  - intros _. eexists _, _. split_and!; try reflexivity. cbn [dma set_dma set_drvdata].
    split; cbn [dump_vaddr t_size]; autorewrite with mem_bounds; try lia.
    + by apply empty_table_ok; lia.
    + unfold reg_fields. rewrite empty_table_used. simpl. f_equal; lia.
    + apply image_split; [apply empty_table_fits; lia|]. by apply reset_image; lia.
  - simpl. frame.
Qed.

(** *** Numbers of registers from [2^31] on *)

Lemma low31_range n : 0 <= low31 n < 2147483648.
Proof. apply Z.mod_pos_bound. done. Qed.

Lemma low31_small n : 0 <= n < 2147483648 -> low31 n = n.
Proof. apply Z.mod_small. Qed.

Lemma low31_double n : u32 (n * 2) = u32 (low31 n * 2).
Proof.
  unfold u32, low31, half_word.
  rewrite <- (Z.mul_mod_distr_r n 2147483648 2) by lia. by rewrite Z.mod_mod.
Qed.

Lemma with_core_num_dma n d : dma (with_core_num n d) = dma d.
Proof. destruct d as [m [[? [] ?]|]]; done. Qed.

Lemma with_core_num_sprs n d : same_sprs (with_core_num n d) d.
Proof. destruct d as [m [[? [] ?]|]]; done. Qed.

Lemma with_core_num_twice k n d : with_core_num k (with_core_num n d) = with_core_num k d.
Proof. destruct d as [m [[? [] ?]|]]; done. Qed.

Lemma with_core_num_same ncpus p d t : rep ncpus p d t -> with_core_num (t_num t) d = d.
Proof.
  intros ([b rr sp] & r & Hd & _ & Hr & _ & [_ Hf _ _ _]). destruct d as [m dd].
  simpl in *. subst. rewrite Hf. done.
Qed.

(** Every number is treated as its residue, but stored as it is. *)
Lemma update_reg_dump_table_low31 d n :
  update_reg_dump_table d n
  = match update_reg_dump_table d (low31 n) with
    | Some (0, d') => Some (0, with_core_num n d')
    | r => r
    end.
Proof.
  unfold update_reg_dump_table. rewrite <- (low31_double n).
  destruct d as [m [[mx [r|] sp]|]]; [|by destruct mx|done].
  destruct mx; [done|]. unfold mutex_lock, mutex_unlock, set_regdata, regdata. simpl.
  case_match; [done|].
  destruct (memset m _ _ _); [|done]. simpl.
  do 4 (destruct (store32 _ _ _); [|done]; simpl).
  by destruct (memset _ _ _ _).
Qed.

Lemma update_reg_dump_table_wraps ncpus p sz d n :
  num_ok n -> region p sz d ->
  let '(ret, t') := reset_table (Table sz n [] []) (low31 n) in
  exists d', update_reg_dump_table d n = Some (ret, d') /\
    (ret = 0 -> with_core_num n d' = d' /\ rep ncpus p (with_core_num (low31 n) d') t') /\
    (ret <> 0 -> d' = d) /\ mod_only p (p + sz) (dma d) (dma d') /\ same_sprs d d'.
Proof.
  intros [_ Hk] Hreg. pose proof (low31_range n).
  pose proof (update_reg_dump_table_refines ncpus p sz d (low31 n) ltac:(lia) Hreg) as H1.
  rewrite update_reg_dump_table_low31. unfold reset_table in *; cbn [t_size] in *.
  destruct (sz <=? _); destruct H1 as (d' & -> & Hok & Herr & Hmod & Hs); [by exists d'|].
  exists (with_core_num n d'). rewrite !with_core_num_dma, !with_core_num_twice.
  split_and!; [done| |done|done|].
  - intros H0. specialize (Hok H0). rewrite (with_core_num_same _ _ _ _ Hok : with_core_num (low31 n) d' = d').
    done.
  - pose proof (with_core_num_sprs n d'). unfold same_sprs in *. congruence.
Qed.

(** The values [sscanf] stores are 32-bit. *)
Record scan_ok (s : scan_config) : Prop := {
  scan_offset : 0 <= sc_offset s < 4294967296;
  scan_val : 0 <= sc_val s < 4294967296;
  scan_per_core : 0 <= sc_per_core s < 4294967296;
}.

Lemma config_checks_ok s cmd pc rs :
  scan_ok s -> config_checks s = inr (cmd, pc, rs) ->
  checked cmd (sc_offset s) (sc_val s) /\ (cmd = ch_R -> sc_val s <> 0) /\
  rs = handler_reserve cmd (sc_val s) /\ 0 <= pc <= 1.
Proof.
  intros [Ho Hv Hpc] Hc. unfold config_checks in Hc.
  set (pc' := if 4 <=? sc_nval s then sc_per_core s else 0) in *.
  set (cmd' := if sc_nval s =? 2 then ch_r else sc_cmd s) in *. clearbody cmd'.
  assert (0 <= pc') by (subst pc'; destruct (4 <=? sc_nval s); lia). clearbody pc'.
  unfold handler_reserve. rewrite !land3 in Hc.
  destruct (sc_nval s <? 2); [done|].
  destruct (Z.ltb_spec 1 pc'); [done|].
  destruct (Z.eqb_spec (sc_offset s mod 4) 0); [|done]. simpl in Hc.
  destruct (Z.eqb_spec cmd' ch_r), (Z.eqb_spec cmd' ch_R); simpl in Hc; subst; try done.
  - destruct (Z.eqb_spec (sc_val s) 0); [done|].
    destruct (Z.eqb_spec (sc_val s mod 4) 0); [|done]. simplify_eq/=.
    split_and!; [constructor|..]; done || lia.
  - destruct (Z.eqb_spec (sc_val s) 0); [done|]. simplify_eq/=.
    split_and!; [constructor|..]; done || lia.
  - simplify_eq.
    rewrite (proj2 (Z.eqb_neq cmd ch_R)), (proj2 (Z.eqb_neq cmd ch_r)) by done.
    split_and!; [constructor|..]; done || lia.
Qed.

(** [rep] with its fields exposed. *)
Lemma rep_inv ncpus p d t :
  rep ncpus p d t ->
  exists m r sp, d = Device m (Some (CpussDumpData false (Some r) sp)) /\
    dump_vaddr r = p /\ rep_at ncpus m r t.
Proof.
  intros ([b rr sp] & r & Hd & Hb & Hr & Hp & Hrep). destruct d as [m dd].
  simpl in *. subst. by eexists _, _, _.
Qed.

Lemma rep_intro ncpus m r sp t :
  rep_at ncpus m r t ->
  rep ncpus (dump_vaddr r) (Device m (Some (CpussDumpData false (Some r) sp))) t.
Proof. intros. by eexists _, _. Qed.

Lemma register_config_store_refines ncpus p d t s count :
  0 < ncpus -> scan_ok s -> rep ncpus p d t ->
  let '(ret, t') := config_table ncpus t s in
  exists d', register_config_store ncpus d s count = Some (if ret =? 0 then count else ret, d') /\
    rep ncpus p d' t' /\ t_size t' = t_size t /\
    mod_only p (p + t_size t) (dma d) (dma d') /\ same_sprs d d'.
Proof.
  intros Hn Hs (m & r & sp & -> & <- & Hrep)%rep_inv.
  unfold config_table, register_config_store.
  destruct (config_checks s) as [err|[[cmd pc] rs]] eqn:Hc.
  { assert (err <> 0) as He by (unfold config_checks in Hc; tests_in Hc; by simplify_eq).
    apply Z.eqb_neq in He. rewrite He. eexists. split_and!; [done|by apply rep_intro|done..]. }
  destruct (config_checks_ok _ _ _ _ Hs Hc) as (Hchk & HR & Hrs & _).
  unfold mutex_lock, mutex_unlock, set_drvdata, set_mutex; simpl.
  destruct (negb (pc =? 0)).
  - pose proof (store_percore_refines ncpus m r t true sp Hn Hrep _ _ _ _ Hchk HR Hrs) as H.
    destruct (percore_table _ _ _ _ _ _) as [ret t'] eqn:Ht.
    destruct H as (m' & r' & -> & <- & Hrep' & Hmod). simpl.
    eexists. split_and!; [done|by apply rep_intro| |done..].
    unfold percore_table in Ht. by repeat case_match; simplify_eq.
  - pose proof (store_system_refines ncpus m r t true sp Hn Hrep _ _ _ _ Hchk HR Hrs) as H.
    destruct (system_table _ _ _ _ _ _) as [ret t'] eqn:Ht.
    destruct H as (m' & r' & -> & <- & Hrep' & Hmod). simpl.
    eexists. split_and!; [done|by apply rep_intro| |done..].
    unfold system_table in Ht. by repeat case_match; simplify_eq.
Qed.

(** [update_reg_dump_table] on a device that already holds a table. *)
Lemma reset_rep ncpus p d t n :
  0 < ncpus -> 0 <= n <= 2147483644 -> rep ncpus p d t ->
  let '(ret, t') := reset_table t n in
  exists d', update_reg_dump_table d n = Some (ret, d') /\ rep ncpus p d' t' /\
    t_size t' = t_size t /\ mod_only p (p + t_size t) (dma d) (dma d') /\ same_sprs d d'.
Proof.
  intros Hcpu Hn Hrep. pose proof (rep_region _ _ _ _ Hcpu Hrep) as Hreg.
  pose proof (update_reg_dump_table_refines ncpus p (t_size t) d n Hn Hreg) as H.
  unfold reset_table in *; simpl in H.
  destruct (t_size t <=? _); destruct H as (d' & Hd & Hok & Herr & Hmod & Hs); exists d'.
  - rewrite (Herr ltac:(done)) in *. by split_and!.
  - split_and!; auto.
Qed.

(** The check of [core_reg_num_store]: an error or a success without effect
    when the table decides it, a pending update otherwise. *)
Definition check_table (t : table) (buf : kuint) (count : Z) : store_phase :=
  match buf with
  | None => Return (- EINVAL)
  | Some val =>
      match t_core t, t_sys t with
      | [], [] => if val =? t_num t then Return count else Update val
      | _, _ => Return (- EPERM)
      end
  end.

Lemma core_reg_num_check_refines ncpus p d t buf count :
  rep ncpus p d t ->
  exists d', core_reg_num_check d buf count = Some (check_table t buf count, d') /\
    rep ncpus p d' t /\ dma d' = dma d /\ same_sprs d d'.
Proof.
  intros Hrep. unfold check_table, core_reg_num_check.
  destruct buf as [val|]; [|by eexists].
  apply rep_inv in Hrep as (m & r & sp & -> & <- & Hrep).
  unfold mutex_lock, mutex_unlock, regdata, set_drvdata, set_mutex; simpl.
  pose proof (rep_fields _ _ _ _ Hrep) as Hf. rewrite Hf; simpl. rewrite <- Hf.
  pose proof (encs_wlen (t_sys t)).
  assert (negb (Z.of_nat (length (t_core t)) =? 0) || negb (4 * wlen (encs (t_sys t)) =? 0)
          = match t_core t, t_sys t with [], [] => false | _, _ => true end) as ->.
  { destruct (t_core t); simpl; [|by destruct (t_sys t)].
    destruct (t_sys t); simpl in *; [done|].
    apply negb_true_iff, Z.eqb_neq. lia. }
  destruct (t_core t) eqn:Hc, (t_sys t) eqn:Hs; simpl;
    try (eexists; split_and!; [done|by apply rep_intro|done..]).
  case_match; eexists; (split_and!; [done|by apply rep_intro|done..]).
Qed.

(** A write of any number to core_reg_num.  What is left of an accepted number
    from [2^31] on is the table of its residue and the number itself in
    [core_reg_num]: no table is represented any more. *)
Definition core_num_rep (ncpus p : Z) (d : device) (t : table) (n : Z) : Prop :=
  with_core_num n d = d /\ rep ncpus p (with_core_num (low31 n) d) t.

Lemma core_num_rep_small ncpus p d t n :
  0 <= n < 2147483648 -> core_num_rep ncpus p d t n -> rep ncpus p d t.
Proof. intros Hn [Hd Hr]. rewrite low31_small in Hr by done. by rewrite Hd in Hr. Qed.

(** The capacity of a table is far below [2^31]. *)
Lemma rep_num_small ncpus p d t : 0 < ncpus -> rep ncpus p d t -> 0 <= t_num t < 2147483648.
Proof.
  intros Hcpu (c & r & _ & _ & _ & _ & [[Hnum _ Hcmds Hused Hsz] _ _ _ _]).
  unfold t_used, t_output, t_sysidx, SYSTEM_REGS_INPUT_INDEX in Hused.
  apply Forall_app in Hcmds as [Hc1 Hc2].
  pose proof (wlen_nonneg (encs (t_sys t))).
  pose proof (reserves_nonneg _ Hc1). pose proof (reserves_nonneg _ Hc2). nia.
Qed.

Lemma core_reg_num_store_refines ncpus p d t buf count :
  0 < ncpus -> (forall n, buf = Some n -> num_ok n) -> rep ncpus p d t ->
  let '(ret, t') := match buf with None => (- EINVAL, t) | Some n => core_num_table t n end in
  exists d', core_reg_num_store d buf count = Some (if ret =? 0 then count else ret, d') /\
    match buf with
    | Some n => if ret =? 0 then core_num_rep ncpus p d' t' n else rep ncpus p d' t'
    | None => rep ncpus p d' t'
    end /\
    mod_only p (p + t_size t) (dma d) (dma d') /\ same_sprs d d'.
Proof.
  intros Hcpu Hn Hrep. unfold core_reg_num_store.
  destruct (core_reg_num_check_refines _ _ _ _ buf count Hrep) as (d1 & -> & Hrep1 & Hm & Hs).
  unfold check_table, core_num_table. rewrite <- Hm. unfold same_sprs in *; rewrite Hs.
  destruct buf as [n|]; [|eexists; split_and!; eauto using mod_only_refl].
  destruct (t_core t); [|eexists; split_and!; eauto using mod_only_refl].
  destruct (t_sys t); [|eexists; split_and!; eauto using mod_only_refl].
  destruct (Z.eqb_spec n (t_num t)) as [->|].
  { eexists; split_and!; eauto using mod_only_refl. simpl.
    pose proof (rep_num_small _ _ _ _ Hcpu Hrep1). unfold core_num_rep.
    by rewrite low31_small, (with_core_num_same _ _ _ _ Hrep1) by done. }
  pose proof (update_reg_dump_table_wraps ncpus _ _ _ n (Hn n eq_refl) (rep_region _ _ _ _ Hcpu Hrep1)) as H1.
  unfold core_reg_num_update, reset_table in *. cbn [t_size] in H1.
  destruct (t_size t <=? _); destruct H1 as (d2 & -> & Hok & Herr & Hmod & Hs2); exists d2; simpl.
  - rewrite (Herr ltac:(done)) in *. by split_and!.
  - by destruct (Hok eq_refl).
Qed.

Lemma register_reset_store_refines ncpus p d t count :
  0 < ncpus -> rep ncpus p d t ->
  exists d', register_reset_store d (Some 1) count = Some (count, d') /\
    rep ncpus p d' (reset_table t 1).2 /\ t_size (reset_table t 1).2 = t_size t /\
    mod_only p (p + t_size t) (dma d) (dma d') /\ same_sprs d d'.
Proof.
  intros Hcpu Hrep. pose proof (reset_rep _ _ _ _ 1 Hcpu ltac:(lia) Hrep) as H.
  unfold register_reset_store, CORE_REG_NUM_DEFAULT; simpl.
  destruct (reset_table t 1) as [ret t']. destruct H as (d' & -> & ? & ? & ? & ?).
  exists d'. by split_and!.
Qed.

(** ** Interleavings

    [core_reg_num_store] is two critical sections; everything else is one.
    [pending] are the writers between them. *)
Inductive reg_step (ncpus count : Z) : device * list Z -> device * list Z -> Prop :=
| step_config d pend s ret d' :
    scan_ok s -> register_config_store ncpus d s count = Some (ret, d') ->
    reg_step ncpus count (d, pend) (d', pend)
| step_check_done d pend buf ret d' :
    core_reg_num_check d buf count = Some (Return ret, d') ->
    reg_step ncpus count (d, pend) (d', pend)
| step_check_update d pend buf n d' :
    (forall v, buf = Some v -> 0 <= v <= 2147483644) ->
    core_reg_num_check d buf count = Some (Update n, d') ->
    reg_step ncpus count (d, pend) (d', n :: pend)
| step_update d pend1 n pend2 ret d' :
    core_reg_num_update d n count = Some (ret, d') ->
    reg_step ncpus count (d, pend1 ++ n :: pend2) (d', pend1 ++ pend2)
| step_reset d pend buf ret d' :
    register_reset_store d buf count = Some (ret, d') ->
    reg_step ncpus count (d, pend) (d', pend).

(** Every reachable state holds a well-formed table of the same size, and the
    bytes outside the region and the SPR tables are those of the start. *)
Definition reg_inv (ncpus p sz : Z) (d0 : device) (s : device * list Z) : Prop :=
  (exists t, rep ncpus p s.1 t /\ t_size t = sz) /\
  Forall (fun n => 0 <= n <= 2147483644) s.2 /\
  mod_only p (p + sz) (dma d0) (dma s.1) /\ same_sprs d0 s.1.

Lemma reg_inv_step ncpus p sz d0 count s s' :
  0 < ncpus -> reg_step ncpus count s s' -> reg_inv ncpus p sz d0 s -> reg_inv ncpus p sz d0 s'.
Proof.
  intros Hcpu Hstep ((t & Hrep & <-) & Hpend & Hmod & Hs).
  destruct Hstep as [d pend sc ret d' Hsc H|d pend buf ret d' H|d pend buf n d' Hv H
                    |d pend1 n pend2 ret d' H|d pend buf ret d' H]; simpl in *.
  - pose proof (register_config_store_refines _ _ _ _ sc count Hcpu Hsc Hrep) as Hr.
    destruct (config_table ncpus t sc) as [rt t'].
    destruct Hr as (d2 & Hr & ? & ? & ? & ?). simplify_eq. split_and!; simpl; eauto.
    + eapply mod_only_trans; eauto.
    + unfold same_sprs in *. congruence.
  - destruct (core_reg_num_check_refines _ _ _ _ buf count Hrep) as (d2 & Hr & ? & Hm & ?).
    simplify_eq. split_and!; simpl; eauto; [by rewrite Hm|]. unfold same_sprs in *. congruence.
  - destruct (core_reg_num_check_refines _ _ _ _ buf count Hrep) as (d2 & Hr & ? & Hm & ?).
    unfold check_table in Hr. destruct buf as [v|]; [|done].
    assert (v = n) as -> by (repeat case_match; by simplify_eq).
    simplify_eq. split_and!; simpl; eauto; [by rewrite Hm|]. unfold same_sprs in *. congruence.
  - apply Forall_app in Hpend as [Hp1 Hp2]. apply Forall_cons_1 in Hp2 as [Hn Hp2].
    pose proof (reset_rep _ _ _ _ n Hcpu Hn Hrep) as Hr. unfold core_reg_num_update in H.
    destruct (reset_table t n) as [rt t']. destruct Hr as (d2 & Hr & ? & ? & ? & ?).
    rewrite Hr in H. assert (d2 = d') as -> by (case_match; by simplify_eq).
    split_and!; simpl; eauto; [by apply Forall_app|by eapply mod_only_trans; eauto|].
    unfold same_sprs in *. congruence.
  - unfold register_reset_store in H.
    destruct buf as [v|]; [|simplify_eq; split_and!; eauto].
    destruct (negb (v =? 1)) eqn:Hv; [simplify_eq; split_and!; eauto|].
    bool_to_Prop. subst v.
    destruct (register_reset_store_refines _ _ _ _ count Hcpu Hrep) as (d2 & Hr & ? & ? & ? & ?).
    unfold register_reset_store in Hr; simpl in Hr. rewrite Hr in H. simplify_eq.
    split_and!; simpl; eauto; [by eapply mod_only_trans; eauto|]. unfold same_sprs in *. congruence.
Qed.

(** No handler faults on a device that holds a table. *)
Lemma reg_handlers_total ncpus p d t count :
  0 < ncpus -> rep ncpus p d t ->
  (forall s, scan_ok s -> is_Some (register_config_store ncpus d s count)) /\
  (forall buf, is_Some (core_reg_num_check d buf count)) /\
  (forall n, 0 <= n <= 2147483644 -> is_Some (core_reg_num_update d n count)) /\
  (forall buf, is_Some (register_reset_store d buf count)).
Proof.
  intros Hcpu Hrep. split_and!.
  - intros s Hs. pose proof (register_config_store_refines _ _ _ _ s count Hcpu Hs Hrep) as H.
    destruct (config_table ncpus t s). destruct H as (? & -> & _). by eexists.
  - intros buf. destruct (core_reg_num_check_refines _ _ _ _ buf count Hrep) as (? & -> & _).
    by eexists.
  - intros n Hn. pose proof (reset_rep _ _ _ _ n Hcpu Hn Hrep) as H.
    unfold core_reg_num_update. destruct (reset_table t n). destruct H as (? & -> & _).
    case_match; by eexists.
  - intros [v|]; unfold register_reset_store; [|by eexists].
    destruct (negb (v =? 1)); [by eexists|].
    pose proof (reset_rep _ _ _ _ 1 Hcpu ltac:(lia) Hrep) as Hr. unfold CORE_REG_NUM_DEFAULT.
    destruct (reset_table t 1). destruct Hr as (? & -> & _). by eexists.
Qed.
