(* ===== verification/RegShow.v ===== *)
(** * Reading the register dump table back (memory_dump_v2.c, lines 266-365)

    [register_config_show] parses the words of the dump memory and prints
    them.  The loop is a function with fuel; [register_config_show_ok] shows
    that the fuel given is enough on every table, and
    [register_config_show_text] that the parse is the inverse of the encoding
    the store handler does. *)

From S2P Require Import Prelude CMem CStr CpussData RegDump RegDumpSpec RegDumpProofs.

#[local] Open Scope string_scope.
#[local] Open Scope Z_scope.

(** ** The handler *)

Definition percore_title : string := "per-core registers:" +:+ nl.
Definition system_title : string := "system registers:" +:+ nl.

(** [scnprintf(local_buf, 64, "0x%x, 0x%x, <cmd>\n", off, val)] before
    truncation. *)
Definition show_line (off val : Z) (cmd : string) : string :=
  "0x" +:+ fmt_x off +:+ ", 0x" +:+ fmt_x val +:+ ", " +:+ cmd +:+ nl.

Section Show.
Context (PAGE_SIZE : Z).

(** Append a line if the page has room for it: [None] in the result means
    the [break] that ends the listing. *)
Definition show_append (buf : string) (count : Z) (line : string)
  : option (option (string * Z)) :=
  let local_buf := scnprintf 64 line in
  let len := slen local_buf in
  if PAGE_SIZE <? count + len then Some None
  else
    let* buf := strlcat buf local_buf PAGE_SIZE in
    Some (Some (buf, count + len)).

(** The title printed when the index reaches the system registers. *)
Definition show_header (sysidx index : Z) (buf : string) (count : Z)
  : option (option (string * Z)) :=
  if index =? sysidx then show_append buf count system_title
  else Some (Some (buf, count)).

(** One command: its line and the index after it. *)
Definition show_entry (m : mem) (p index w : Z) : option (string * Z) :=
  let cmd := Z.land w CMD_MASK in
  let off := Z.land w OFFSET_MASK in
  if cmd =? CMD_READ then
    let* val := load32 m (wptr p index + sizeof_u32) in
    Some (show_line off val "r", s32 (index + 2))
  else if cmd =? CMD_READ_WORD then Some (show_line off 0x4 "r", s32 (index + 1))
  else if cmd =? CMD_WRITE then
    let* val := load32 m (wptr p index + sizeof_u32) in
    Some (show_line off val "w", s32 (index + 2))
  else
    let* val := load32 m (wptr p index + sizeof_u32) in
    Some (show_line off (Z.land val EXTRA_VALUE_MASK)
            (if Z.land val EXTRA_CMD_MASK =? CMD_DELAY then "d" else "R"), s32 (index + 2)).

Fixpoint show_loop (fuel : nat) (m : mem) (p sysidx index_end index : Z)
  (buf : string) (count : Z) : option (string * Z) :=
  match fuel with
  | O => None
  | S fuel' =>
      if index <? index_end then
        let* h := show_header sysidx index buf count in
        match h with
        | None => Some (buf, count)
        | Some (buf, count) =>
            let* w := load32 m (wptr p index) in
            if w =? 0 then show_loop fuel' m p sysidx index_end (s32 (index + 1)) buf count
            else
              let* (line, next) := show_entry m p index w in
              let* a := show_append buf count line in
              match a with
              | None => Some (buf, count)
              | Some (buf, count) => show_loop fuel' m p sysidx index_end next buf count
              end
        end
      else Some (buf, count)
  end.

Definition register_config_show (d : device) : option (Z * string * device) :=
  match drvdata d with
  | None => Some (- EFAULT, EmptyString, d)
  | Some _ =>
      let* d := mutex_lock d in
      let* r := regdata d in
      let p := dump_vaddr r in
      let local_buf := scnprintf 64 percore_title in
      let* buf := strlcat EmptyString local_buf PAGE_SIZE in
      let count := slen local_buf in
      let* w := load32 (dma d) (wptr p SYS_REG_INPUT_INDEX) in
      let system_index_start := s32 w in
      let index_end := s32 (system_index_start + sys_reg_size r / sizeof_u32 + 1) in
      let* (buf, count) :=
        show_loop (S (Z.to_nat (index_end - PERCORE_INDEX))) (dma d) p
          system_index_start index_end PERCORE_INDEX buf count in
      let* d := mutex_unlock d in
      Some (count, buf, d)
  end.
End Show.

(** ** The text of a table *)

Definition show_cmd (c : reg_cmd) : string :=
  match c with
  | Read off len => show_line off len "r"
  | ReadWord off => show_line off 4 "r"
  | Repeat off n => show_line off n "R"
  | Delay n => show_line 0 n "d"
  | Write off v => show_line off v "w"
  end.

Definition show_cmds (l : list reg_cmd) : string :=
  foldr (fun c s => show_cmd c +:+ s) EmptyString l.

Definition table_text (t : table) : string :=
  percore_title +:+ show_cmds (t_core t) +:+ system_title +:+ show_cmds (t_sys t).

(** A command whose first word is not zero: all but the read of more than one
    word at offset zero, which the listing takes for an empty slot. *)
Definition visible (c : reg_cmd) : bool :=
  match c with Read off _ => negb (off =? 0) | _ => true end.

(** ** Facts *)

Lemma show_line_len off val cmd :
  0 <= off < 4294967296 -> 0 <= val < 4294967296 -> slen cmd <= 1 ->
  slen (show_line off val cmd) < 64.
Proof.
  intros. unfold show_line. rewrite !slen_app.
  pose proof (slen_fmt_x off). pose proof (slen_fmt_x val).
  change (slen "0x") with 2. change (slen ", 0x") with 4.
  change (slen ", ") with 2. change (slen nl) with 1. lia.
Qed.

Lemma show_cmd_len c : cmd_ok c -> slen (show_cmd c) < 64.
Proof.
  intros [_ Hc]. unfold MAX_EXTRA_VALUE in Hc.
  destruct c; simpl; apply show_line_len; try lia; done.
Qed.

Lemma aligned_cmd off k :
  0 <= off < 4294967296 -> off mod 4 = 0 -> 0 <= k < 4 ->
  Z.land (off + k) CMD_MASK = k /\ Z.land (off + k) OFFSET_MASK = off.
Proof.
  intros Ho Ha Hk. unfold CMD_MASK.
  assert ((off + k) mod 4 = k) as Hm.
  { rewrite Z.add_mod, Ha, Z.add_0_l, Z.mod_mod by lia. by apply Z.mod_small. }
  assert (off + k < 4294967296) by (pose proof (Z.div_mod off 4 ltac:(lia)); lia).
  rewrite land3, land_offset_mask, Hm by lia. lia.
Qed.

Lemma extra_word n k :
  0 <= n <= MAX_EXTRA_VALUE -> 0 <= k < 256 ->
  Z.land (n + k * 16777216) EXTRA_VALUE_MASK = n /\
  Z.land (n + k * 16777216) EXTRA_CMD_MASK = k * 16777216.
Proof.
  unfold MAX_EXTRA_VALUE. intros Hn Hk.
  assert ((n + k * 16777216) mod 16777216 = n) as Hm
    by (rewrite Z.mod_add by lia; apply Z.mod_small; lia).
  rewrite land_extra_value_mask, land_extra_cmd_mask, Hm by lia. lia.
Qed.

(** The entry parsed back is the one encoded. *)
Lemma show_entry_enc m p i c :
  cmd_ok c -> words_at m (wptr p i) (enc c) ->
  0 <= i -> i + 2 < 2147483648 ->
  m_lo m <= wptr p i -> wptr p i + 4 * wlen (enc c) <= m_hi m ->
  show_entry m p i (ld m (wptr p i) 4) = Some (show_cmd c, i + wlen (enc c)).
Proof.
  intros [_ Hc] Hw Hi Hi2 Hlo Hhi. unfold show_entry.
  rewrite !s32_small by lia. unfold sizeof_u32.
  destruct c as [off len|off|off n|n|off v]; unfold wlen in *; simpl in Hw, Hhi |- *.
  all: try (rewrite load32_ok by lia).
  all: destruct_and!; repeat match goal with H : ld _ _ _ = _ |- _ => rewrite H; clear H end.
  - destruct (aligned_cmd off 0) as [E1 E2]; [lia..|]. rewrite Z.add_0_r in E1, E2.
    by rewrite E1, E2.
  - by destruct (aligned_cmd off CMD_READ_WORD) as [-> ->].
  - destruct (aligned_cmd off CMD_EXTRA) as [-> ->]; [done..|]. simpl.
    destruct (extra_word n 2) as [E1 E2]; [done..|].
    change (2 * 16777216) with CMD_REPEAT_READ in E1, E2. by rewrite E1, E2.
  - destruct (extra_word n 1) as [E1 E2]; [done..|].
    change (1 * 16777216) with CMD_DELAY in E1, E2. simpl. by rewrite E1, E2.
  - by destruct (aligned_cmd off CMD_WRITE) as [-> ->].
Qed.

Lemma enc_first_nonzero m p i c :
  cmd_ok c -> visible c = true -> words_at m (wptr p i) (enc c) ->
  ld m (wptr p i) 4 <> 0.
Proof.
  unfold cmd_ok, CMD_READ_WORD, CMD_EXTRA, CMD_WRITE.
  destruct c; simpl; intros; destruct_and!; bool_to_Prop;
    repeat match goal with H : ld _ _ _ = _ |- _ => rewrite H; clear H end;
    unfold CMD_READ_WORD, CMD_EXTRA, CMD_WRITE; try lia.
Qed.

(** ** The listing never overruns the page and always ends *)

(** [count] is what was counted, [buf] what the page holds of it. *)
Definition page_inv (PAGE_SIZE : Z) (buf : string) (count : Z) : Prop :=
  0 <= count <= PAGE_SIZE /\ slen buf = Z.min count (PAGE_SIZE - 1).

Lemma show_append_inv P buf count line :
  0 < P -> page_inv P buf count ->
  exists r, show_append P buf count line = Some r /\
    match r with None => True | Some (buf', count') => page_inv P buf' count' end.
Proof.
  intros HP [Hc Hb]. unfold show_append.
  pose proof (slen_nonneg (scnprintf 64 line)).
  destruct (Z.ltb_spec P (count + slen (scnprintf 64 line))); [by eexists|].
  destruct (strlcat_ok buf (scnprintf 64 line) P) as [b' Hb']; [lia|].
  rewrite Hb'. eexists. split; [done|]. apply strlcat_spec in Hb'. split; lia.
Qed.

Lemma show_append_fits P buf count line :
  slen line < 64 -> count = slen buf -> count + slen line < P ->
  show_append P buf count line = Some (Some (buf +:+ line, count + slen line)).
Proof.
  intros Hl -> HP. unfold show_append. rewrite scnprintf_fits by done.
  decide_tests. by rewrite strlcat_fits by done.
Qed.

Section Loop.
Context (P : Z) (m : mem) (p sysidx index_end : Z).
Context (HP : 64 <= P).
Context (Hend : index_end < 2147483644).
Context (Hlo : m_lo m <= p) (Hhi : p + 4 * index_end <= m_hi m).

Local Abbreviation loop f i := (show_loop P f m p sysidx index_end i).

Lemma show_entry_next i w :
  0 <= i -> i + 1 < index_end ->
  exists line k, show_entry m p i w = Some (line, i + k) /\ 1 <= k <= 2.
Proof.
  intros. unfold show_entry.
  rewrite !load32_ok by (unfold wptr, sizeof_u32; lia). rewrite !s32_small by lia.
  repeat case_match; eexists _, _; (split; [reflexivity|lia]).
Qed.

Lemma show_loop_total fuel i buf count :
  ld m (wptr p (index_end - 1)) 4 = 0 ->
  0 <= i <= index_end -> index_end - i < Z.of_nat fuel -> page_inv P buf count ->
  exists buf' count', loop fuel i buf count = Some (buf', count') /\ page_inv P buf' count'.
Proof.
  intros Hterm. revert i buf count.
  induction fuel as [|fuel IH]; intros i buf count Hi Hf Hinv; simpl.
  { lia. }
  destruct (Z.ltb_spec i index_end); [|by eexists _, _].
  assert (exists r, show_header P sysidx i buf count = Some r /\
    match r with None => True | Some (buf', count') => page_inv P buf' count' end)
    as ([[b1 c1]|] & -> & Hinv1).
  { unfold show_header. case_match; [apply show_append_inv; [lia|done]|by eexists]. }
  2:{ by eexists _, _. }
  rewrite load32_ok by (unfold wptr, sizeof_u32; lia).
  destruct (Z.eqb_spec (ld m (wptr p i) 4) 0) as [|Hw].
  { rewrite s32_small by lia. apply IH; [lia|lia|done]. }
  assert (i <> index_end - 1) by (intros ->; done).
  destruct (show_entry_next i (ld m (wptr p i) 4)) as (line & k & -> & Hk); [lia..|].
  destruct (show_append_inv P b1 c1 line) as ([[b2 c2]|] & -> & Hinv2); [lia|done| |].
  - apply IH; [lia|lia|done].
  - by eexists _, _.
Qed.

Lemma show_loop_fuel f f' i buf count r :
  (f <= f')%nat -> loop f i buf count = Some r -> loop f' i buf count = Some r.
Proof.
  revert f' i buf count. induction f as [|f IH]; intros f' i buf count Hf; simpl; [done|].
  destruct f' as [|f']; [lia|]. simpl.
  destruct (i <? index_end); [|done].
  destruct (show_header _ _ _ _ _) as [[[b1 c1]|]|]; try done.
  destruct (load32 _ _); [|done]. destruct (_ =? 0); [apply IH; lia|].
  destruct (show_entry _ _ _ _) as [[line k]|]; [|done].
  destruct (show_append _ _ _ _) as [[[b2 c2]|]|]; try done. apply IH; lia.
Qed.

Lemma show_loop_zeros k fuel i buf count :
  0 <= i -> i + Z.of_nat k <= sysidx -> i + Z.of_nat k <= index_end ->
  words_at m (wptr p i) (replicate k 0) ->
  loop (k + fuel) i buf count = loop fuel (i + Z.of_nat k) buf count.
Proof.
  revert i. induction k as [|k IH]; intros i Hi Hs He Hw; simpl.
  { by rewrite Z.add_0_r. }
  destruct Hw as [Hw Hws]. unfold show_header. decide_tests.
  rewrite load32_ok by (unfold wptr, sizeof_u32; lia). rewrite Hw. simpl.
  rewrite s32_small by lia. rewrite IH; [f_equal; lia|lia..|].
  replace (wptr p (i + 1)) with (wptr p i + 4) by (unfold wptr, sizeof_u32; lia). done.
Qed.

(** One command is listed, after the title if the index calls for it. *)
Lemma show_loop_cmd fuel i buf count buf1 c :
  cmd_ok c -> visible c = true -> words_at m (wptr p i) (enc c) ->
  0 <= i -> i + wlen (enc c) <= index_end ->
  show_header P sysidx i buf count = Some (Some (buf1, slen buf1)) ->
  slen buf1 + slen (show_cmd c) < P ->
  loop (S fuel) i buf count =
  loop fuel (i + wlen (enc c)) (buf1 +:+ show_cmd c) (slen (buf1 +:+ show_cmd c)).
Proof.
  intros Hc Hv Hw Hi He Hh HPc. simpl. pose proof (enc_wlen c).
  decide_test. rewrite Hh. rewrite load32_ok by (unfold wptr, sizeof_u32; lia).
  pose proof (enc_first_nonzero _ _ _ _ Hc Hv Hw) as Hnz. apply Z.eqb_neq in Hnz. rewrite Hnz.
  rewrite (show_entry_enc m p i c) by (done || lia || (unfold wptr, sizeof_u32; lia)).
  rewrite show_append_fits by (done || by apply show_cmd_len). by rewrite slen_app.
Qed.

Lemma show_loop_cmds l fuel i buf :
  Forall cmd_ok l -> Forall (fun c => visible c = true) l ->
  words_at m (wptr p i) (encs l) ->
  0 <= i -> i + wlen (encs l) <= index_end ->
  i + wlen (encs l) <= sysidx \/ sysidx < i ->
  slen buf + slen (show_cmds l) < P ->
  loop (length l + fuel) i buf (slen buf) =
  loop fuel (i + wlen (encs l)) (buf +:+ show_cmds l) (slen (buf +:+ show_cmds l)).
Proof.
  revert i buf. induction l as [|c l IH]; intros i buf Hok Hv Hw Hi He Hs Hlen.
  { simpl. by rewrite sapp_nil_r, Z.add_0_r. }
  apply Forall_cons_1 in Hok as [Hc Hok]. apply Forall_cons_1 in Hv as [Hvc Hv].
  rewrite encs_cons, wlen_app in He, Hs. simpl in Hlen. rewrite slen_app in Hlen.
  rewrite encs_cons, words_at_app in Hw. destruct Hw as [Hwc Hw].
  pose proof (enc_wlen c). pose proof (wlen_nonneg (encs l)). pose proof (slen_nonneg (show_cmds l)).
  simpl length. rewrite Nat.add_succ_l, (show_loop_cmd _ _ _ _ buf c); try done; try lia.
  2:{ unfold show_header. by decide_tests. }
  rewrite IH; try done; try lia.
  - rewrite encs_cons, wlen_app. simpl show_cmds. rewrite sapp_assoc. f_equal. lia.
  - replace (wptr p (i + wlen (enc c))) with (wptr p i + 4 * wlen (enc c))
      by (unfold wptr, sizeof_u32; lia). done.
  - rewrite slen_app. lia.
Qed.

Lemma show_loop_end fuel i buf count :
  0 <= i -> i + 1 = index_end -> i <> sysidx -> ld m (wptr p i) 4 = 0 ->
  loop (S (S fuel)) i buf count = Some (buf, count).
Proof.
  intros Hi He Hs Hw. simpl. unfold show_header. decide_tests.
  rewrite load32_ok by (unfold wptr, sizeof_u32; lia). rewrite Hw. simpl.
  rewrite s32_small by lia. by decide_test.
Qed.

(** The system registers: title, commands, terminator. *)
Lemma show_loop_sys l fuel buf :
  Forall cmd_ok l -> Forall (fun c => visible c = true) l ->
  words_at m (wptr p sysidx) (encs l) ->
  ld m (wptr p (sysidx + wlen (encs l))) 4 = 0 ->
  0 <= sysidx -> index_end = sysidx + wlen (encs l) + 1 ->
  slen buf + slen system_title + slen (show_cmds l) < P ->
  loop (length l + 2 + fuel) sysidx buf (slen buf) =
  Some (buf +:+ system_title +:+ show_cmds l,
        slen (buf +:+ system_title +:+ show_cmds l)).
Proof.
  intros Hok Hv Hw Hterm Hi He Hlen. pose proof (slen_nonneg (show_cmds l)).
  assert (show_header P sysidx sysidx buf (slen buf)
    = Some (Some (buf +:+ system_title, slen (buf +:+ system_title)))) as Hh.
  { unfold show_header. by rewrite Z.eqb_refl, show_append_fits, slen_app by (done || lia). }
  destruct l as [|c l].
  { simpl in *. change (wlen (encs [])) with 0 in *. rewrite Hh. decide_test.
    rewrite load32_ok by (unfold wptr, sizeof_u32; lia).
    replace (sysidx + 0) with sysidx in Hterm by lia. rewrite Hterm. simpl.
    rewrite s32_small by lia. decide_test. by rewrite sapp_nil_r. }
  apply Forall_cons_1 in Hok as [Hc Hok]. apply Forall_cons_1 in Hv as [Hvc Hv].
  rewrite encs_cons, wlen_app in *. rewrite words_at_app in Hw. destruct Hw as [Hwc Hw].
  simpl in Hlen. rewrite slen_app in Hlen.
  pose proof (enc_wlen c). pose proof (wlen_nonneg (encs l)). pose proof (slen_nonneg (show_cmds l)).
  simpl length. rewrite !Nat.add_succ_l, (show_loop_cmd _ _ _ _ (buf +:+ system_title) c);
    try done; try lia; [|by rewrite slen_app; lia].
  rewrite <- Nat.add_assoc, show_loop_cmds; try done; try lia.
  - replace (2 + fuel)%nat with (S (S fuel)) by lia. rewrite show_loop_end; [|lia..|].
    + simpl show_cmds. by rewrite !sapp_assoc.
    + rewrite <- Hterm. f_equal. unfold wptr, sizeof_u32. lia.
  - replace (wptr p (sysidx + wlen (enc c))) with (wptr p sysidx + 4 * wlen (enc c))
      by (unfold wptr, sizeof_u32; lia). done.
  - rewrite !slen_app. lia.
Qed.
End Loop.

(** ** The handler on a table *)

Section Handler.
Context (PAGE_SIZE ncpus : Z) (HP : 64 <= PAGE_SIZE) (Hn : 0 < ncpus).

(** The bounds every represented table gives the listing. *)
Lemma show_setup m r t :
  rep_at ncpus m r t ->
  let p := dump_vaddr r in
  let e := t_sysidx t + wlen (encs (t_sys t)) + 1 in
  PERCORE_INDEX + 1 <= t_sysidx t /\ 0 <= wlen (encs (t_sys t)) /\ e < 2147483644 /\
  m_lo m <= p /\ p + 4 * e <= m_hi m /\ image_parts m p t /\
  wlen (encs (t_core t)) + 1 <= t_sysidx t - PERCORE_INDEX.
Proof.
  intros [Hok Hf Hlo Hhi Him].
  destruct (table_bounds _ _ Hn Hok) as (? & ? & Ho & ? & ? & ?).
  pose proof (ok_core _ _ Hok).
  assert (t_sysidx t = 5 + 2 * t_num t) as Hs by done.
  unfold SYSTEM_REGS_INPUT_INDEX in *.
  apply image_split in Him; [|unfold PERCORE_INDEX; lia].
  unfold PERCORE_INDEX. split_and!; done || lia.
Qed.

Lemma register_config_show_unfold m r sp t :
  rep_at ncpus m r t ->
  let e := t_sysidx t + wlen (encs (t_sys t)) + 1 in
  let d := Device m (Some (CpussDumpData false (Some r) sp)) in
  register_config_show PAGE_SIZE d =
  (let* (buf, count) := show_loop PAGE_SIZE (S (Z.to_nat (e - PERCORE_INDEX))) m (dump_vaddr r)
      (t_sysidx t) e PERCORE_INDEX percore_title (slen percore_title) in
   Some (count, buf, d)).
Proof.
  intros Hrep e d. pose proof (show_setup _ _ _ Hrep) as (? & ? & He & ? & ? & Him & ?).
  unfold register_config_show, mutex_lock, mutex_unlock, regdata, set_drvdata, set_mutex.
  cbn -[scnprintf strlcat percore_title show_loop].
  rewrite scnprintf_fits by done. rewrite strlcat_fits by (unfold slen; simpl; lia).
  cbn -[show_loop percore_title].
  rewrite load32_ok by (unfold wptr, sizeof_u32, SYS_REG_INPUT_INDEX, PERCORE_INDEX in *; lia).
  change (wptr (dump_vaddr r) SYS_REG_INPUT_INDEX) with (dump_vaddr r + 8).
  rewrite (im_sysidx _ _ _ Him).
  assert (sys_reg_size r = 4 * wlen (encs (t_sys t))) as ->
    by (by rewrite (rep_fields _ _ _ _ Hrep)).
  replace (4 * wlen (encs (t_sys t)) / sizeof_u32) with (wlen (encs (t_sys t)))
    by (unfold sizeof_u32; rewrite Z.mul_comm, Z.div_mul; lia).
  unfold PERCORE_INDEX in *. rewrite (s32_small (t_sysidx t)), s32_small by lia. done.
Qed.

Lemma register_config_show_total p d t :
  rep ncpus p d t ->
  exists count buf, register_config_show PAGE_SIZE d = Some (count, buf, d) /\
    page_inv PAGE_SIZE buf count.
Proof.
  intros (m & r & sp & -> & <- & Hrep)%rep_inv.
  rewrite register_config_show_unfold with (t := t) by done. cbv zeta.
  pose proof (show_setup _ _ _ Hrep) as (? & ? & He & ? & ? & Him & ?).
  unfold PERCORE_INDEX in *.
  destruct (show_loop_total PAGE_SIZE m (dump_vaddr r) (t_sysidx t)
    (t_sysidx t + wlen (encs (t_sys t)) + 1) HP He ltac:(done) ltac:(done)
    (S (Z.to_nat (t_sysidx t + wlen (encs (t_sys t)) + 1 - 4))) 4 percore_title (slen percore_title))
    as (buf & count & -> & Hinv); [|lia|lia| |by eauto].
  - replace (t_sysidx t + wlen (encs (t_sys t)) + 1 - 1)
      with (t_sysidx t + wlen (encs (t_sys t))) by lia. apply (im_term _ _ _ Him).
  - split; [split; [apply slen_nonneg|]|]; unfold slen; simpl; lia.
Qed.

Lemma table_ok_split t :
  table_ok ncpus t -> Forall cmd_ok (t_core t) /\ Forall cmd_ok (t_sys t).
Proof. intros Hok. apply Forall_app, (ok_cmds _ _ Hok). Qed.

Lemma register_config_show_prints p d t :
  rep ncpus p d t ->
  Forall (fun c => visible c = true) (t_core t ++ t_sys t) ->
  slen (table_text t) < PAGE_SIZE ->
  register_config_show PAGE_SIZE d = Some (slen (table_text t), table_text t, d).
Proof.
  intros (m & r & sp & -> & <- & Hrep)%rep_inv [Hv1 Hv2]%Forall_app Hlen.
  rewrite register_config_show_unfold with (t := t) by done. cbv zeta.
  pose proof (show_setup _ _ _ Hrep) as (? & ? & He & ? & ? & Him & ?).
  destruct (table_ok_split _ (rep_ok _ _ _ _ Hrep)) as [Ho1 Ho2].
  pose proof (encs_wlen (t_core t)). pose proof (encs_wlen (t_sys t)).
  unfold table_text in *. rewrite !slen_app in Hlen. unfold PERCORE_INDEX in *.
  pose proof (slen_nonneg (show_cmds (t_core t))). pose proof (slen_nonneg (show_cmds (t_sys t))).
  set (e := t_sysidx t + wlen (encs (t_sys t)) + 1) in *.
  set (nz := Z.to_nat (t_sysidx t - 4 - wlen (encs (t_core t)))).
  pose proof (slen_nonneg system_title).
  enough (show_loop PAGE_SIZE (length (t_core t) + (nz + (length (t_sys t) + 2 + 0))) m
    (dump_vaddr r) (t_sysidx t) e 4 percore_title (slen percore_title)
    = Some (percore_title +:+ show_cmds (t_core t) +:+ system_title +:+ show_cmds (t_sys t),
        slen (percore_title +:+ show_cmds (t_core t) +:+ system_title +:+ show_cmds (t_sys t))))
    as Hl.
  { apply (show_loop_fuel PAGE_SIZE m (dump_vaddr r) (t_sysidx t) e _
      (S (Z.to_nat (e - 4)))) in Hl; [by rewrite Hl|lia]. }
  rewrite (show_loop_cmds PAGE_SIZE m (dump_vaddr r) (t_sysidx t) e); try done; try lia.
  2:{ pose proof (im_core _ _ _ Him) as Hw. by unfold wptr, sizeof_u32. }
  rewrite show_loop_zeros; try done; try lia.
  2:{ pose proof (im_zero _ _ _ Him) as Hw. unfold PERCORE_INDEX in Hw. subst nz.
      replace (wptr (dump_vaddr r) (4 + wlen (encs (t_core t))))
        with (dump_vaddr r + 16 + 4 * wlen (encs (t_core t)))
        by (unfold wptr, sizeof_u32; lia). done. }
  replace (4 + wlen (encs (t_core t)) + Z.of_nat nz) with (t_sysidx t) by lia.
  rewrite show_loop_sys; try done; try lia.
  - apply (im_sys _ _ _ Him).
  - apply (im_term _ _ _ Him).
  - rewrite slen_app. lia.
Qed.
End Handler.
