(* ===== verification/SprDump.v ===== *)
(** * The SPR dump tables (memory_dump_v2.c, lines 115-157 and 573-730)

    One table per CPU for the special purpose registers to dump.  All tables
    lie in the same DMA memory, so the handlers work on it by address. *)

From S2P Require Import Prelude CMem CStr CpussData RegDump.

#[local] Open Scope string_scope.
#[local] Open Scope Z_scope.

(** ** Resetting the tables *)

(** The body of the loop for a table that exists (lines 138-151). *)
Definition reset_sprs_one (d : device) (i : Z) (s : sprs_dump_data) : option device :=
  let header := (SPR_DATA_HEADER_SIZE + SPR_INPUT_DATA_TAIL_SIZE) * sizeof_u32 in
  let p := spr_dump_vaddr s in
  let* d := set_sprs d i (SprsDumpData p (spr_size s) 0 header) in
  let* m := memset (dma d) p 0xDE (spr_size s) in
  let* m := store32 m (p + off_magic) INPUT_DATA_BY_HLOS in
  let* m := store32 m (p + off_version) FORMAT_VERSION_1 in
  let* m := store32 m (p + off_system_regs_input_index) SYSTEM_REGS_INPUT_INDEX in
  let* m := store32 m (p + off_regdump_output_byte_offset) header in
  let* m := memset m (wptr p PERCORE_INDEX) 0x0
              ((SPR_DATA_HEADER_TAIL_SIZE + SPR_INPUT_DATA_TAIL_SIZE) * sizeof_u32) in
  Some (set_dma d m).

(** [for (i = 0; i < MAX_CORE_NUM; i++)], [n] iterations from [i]. *)
Fixpoint reset_sprs_loop (n : nat) (i : Z) (d : device) : option device :=
  match n with
  | O => Some d
  | S n' =>
      let* s := sprs d i in
      let* d := match s with None => Some d | Some s => reset_sprs_one d i s end in
      reset_sprs_loop n' (i + 1) d
  end.

Definition reset_sprs_dump_table (d : device) : option (Z * device) :=
  match drvdata d with
  | None => Some (- EFAULT, d)
  | Some _ =>
      let* d := mutex_lock d in
      let* d := reset_sprs_loop (Z.to_nat MAX_CORE_NUM) 0 d in
      let* d := mutex_unlock d in
      Some (0, d)
  end.

(** The result of [reset_sprs_dump_table] is dropped. *)
Definition sprs_register_reset_store (d : device) (buf : kuint) (count : Z)
  : option (Z * device) :=
  match buf with
  | None => Some (- EINVAL, d)
  | Some val =>
      if negb (val =? 1) then Some (- EINVAL, d)
      else
        let* (_, d) := reset_sprs_dump_table d in
        Some (count, d)
  end.

(** ** spr_config *)

(** [nval = sscanf(buf, "%d %d", &spr_data, &cpu_num)]. *)
Record scan_spr := ScanSpr { ss_nval : Z; ss_data : Z; ss_cpu : Z }.

Definition spr_config_store (d : device) (s : scan_spr) (count : Z) : option (Z * device) :=
  let spr_data := ss_data s in
  let cpu_num := ss_cpu s in
  if negb (ss_nval s =? 2) then Some (- EINVAL, d)
  else
    match drvdata d with
    | None => Some (- EFAULT, d)
    | Some _ =>
        if MAX_CORE_NUM <=? cpu_num then Some (- EINVAL, d)
        else
          let reserved := (SPR_INPUT_DATA_SIZE + SPR_OUTPUT_DATA_SIZE) * sizeof_u32 in
          let* d := mutex_lock d in
          let* e := sprs d cpu_num in
          match e with
          | None => let* d := mutex_unlock d in Some (count, d)
          | Some e =>
              let p := spr_dump_vaddr e in
              let index := sprs_data_index e in
              if u32 (spr_used_memory e + reserved) <? spr_size e then
                let* m := store32 (dma d) (wptr p OUTPUT_DUMP_INDEX)
                  (u32 (u32 (SPR_DATA_HEADER_SIZE + index + SPR_INPUT_DATA_TAIL_SIZE + 1)
                        * sizeof_u32)) in
                let* m := store32 m (wptr p (SPR_DATA_HEADER_SIZE + index)) spr_data in
                let* m := store32 m (wptr p (SPR_DATA_HEADER_SIZE + index + 1)) 0 in
                let* d := set_sprs (set_dma d m) cpu_num
                  (SprsDumpData p (spr_size e) (u32 (index + 1))
                     (u32 (spr_used_memory e + reserved))) in
                let* d := mutex_unlock d in
                Some (count, d)
              else
                let* d := mutex_unlock d in
                Some (- ENOMEM, d)
          end
    end.

(** ** Listings *)

Section SprShow.
Context (PAGE_SIZE : Z).

Definition spr_title : string := "spr data list below:" +:+ nl.
Definition spr_cpu_title (i : Z) : string := "spr data for CPU[" +:+ fmt_d i +:+ "] below:" +:+ nl.

(** [strlcat(buf, local_buf, PAGE_SIZE); count += len;] *)
Definition spr_append (buf : string) (count : Z) (line : string) : option (string * Z) :=
  let local_buf := scnprintf 64 line in
  let* buf := strlcat buf local_buf PAGE_SIZE in
  Some (buf, count + slen local_buf).

(** The inner [while]: [n] entries from [index]. *)
Fixpoint spr_show_data (n : nat) (m : mem) (p index : Z) (buf : string) (count : Z)
  : option (string * Z) :=
  match n with
  | O => Some (buf, count)
  | S n' =>
      if PAGE_SIZE <? count then Some (buf, count)
      else
        let* v := load32 m (wptr p (SPR_DATA_HEADER_SIZE + index)) in
        let* (buf, count) := spr_append buf count (fmt_d v +:+ nl) in
        spr_show_data n' m p (index + 1) buf count
  end.

(** The outer [for]: [n] CPUs from [i]. *)
Fixpoint spr_show_cpus (n : nat) (d : device) (i : Z) (buf : string) (count : Z)
  : option (string * Z) :=
  match n with
  | O => Some (buf, count)
  | S n' =>
      if PAGE_SIZE <? count then Some (buf, count)
      else
        let* s := sprs d i in
        match s with
        | None => spr_show_cpus n' d (i + 1) buf count
        | Some s =>
            let* (buf, count) := spr_append buf count (spr_cpu_title i) in
            let* (buf, count) :=
              spr_show_data (Z.to_nat (sprs_data_index s)) (dma d) (spr_dump_vaddr s) 0 buf count in
            spr_show_cpus n' d (i + 1) buf count
        end
  end.

Definition spr_config_show (d : device) : option (Z * string * device) :=
  match drvdata d with
  | None => Some (- EFAULT, EmptyString, d)
  | Some _ =>
      let* d := mutex_lock d in
      let* (buf, count) := spr_append EmptyString 0 spr_title in
      let* (buf, count) := spr_show_cpus (Z.to_nat MAX_CORE_NUM) d 0 buf count in
      let* d := mutex_unlock d in
      Some (count, buf, d)
  end.

Definition spr_version_line (i v : Z) : string :=
  "SPR data format version for cpu" +:+ fmt_d i +:+ " is " +:+ fmt_d v +:+ nl.

Fixpoint spr_version_loop (n : nat) (d : device) (i : Z) (buf : string) (count : Z)
  : option (string * Z) :=
  match n with
  | O => Some (buf, count)
  | S n' =>
      let* s := sprs d i in
      match s with
      | None => spr_version_loop n' d (i + 1) buf count
      | Some s =>
          let* v := load32 (dma d) (spr_dump_vaddr s + off_version) in
          let* (buf, count) := spr_append buf count (spr_version_line i v) in
          spr_version_loop n' d (i + 1) buf count
      end
  end.

Definition sprs_format_version_show (d : device) : option (Z * string * device) :=
  match drvdata d with
  | None => Some (- EFAULT, EmptyString, d)
  | Some _ =>
      let* d := mutex_lock d in
      let* (buf, count) := spr_version_loop (Z.to_nat MAX_CORE_NUM) d 0 EmptyString 0 in
      let* d := mutex_unlock d in
      Some (count, buf, d)
  end.
End SprShow.
