(* ===== verification/SprProofs.v ===== *)
(** * The SPR dump tables: specification and refinement

    Abstractly a per-CPU table is its size and the list of the register
    numbers it was given.  [sprs_rep] relates eight optional tables to the
    driver's array of table pointers and to the dump memory, where the tables
    occupy disjoint regions; [spr_config_store] and [reset_sprs_dump_table]
    refine an insertion and a reset of those lists. *)

From S2P Require Import Prelude CMem CStr CpussData RegDump RegDumpSpec RegDumpProofs SprDump.

(** ** Specification *)

Record spr_table := SprTable { s_size : Z; s_regs : list Z }.

Definition s_used (t : spr_table) : Z := 24 + 12 * wlen (s_regs t).

Definition s_image (t : spr_table) : list Z :=
  [INPUT_DATA_BY_HLOS; FORMAT_VERSION_1; SYSTEM_REGS_INPUT_INDEX; 4 * (6 + wlen (s_regs t)); 0]
  ++ s_regs t ++ [0].

Definition store_table (ts : list (option spr_table)) (s : scan_spr) (count : Z)
  : Z * list (option spr_table) :=
  if negb (ss_nval s =? 2) || (MAX_CORE_NUM <=? ss_cpu s) then (- EINVAL, ts)
  else match ts !! Z.to_nat (ss_cpu s) with
       | Some (Some t) =>
           if s_used t + 12 <? s_size t
           then (count, <[Z.to_nat (ss_cpu s) :=
                           Some (SprTable (s_size t) (s_regs t ++ [ss_data s]))]> ts)
           else (- ENOMEM, ts)
       | _ => (count, ts)
       end.

Definition empty_spr (t : spr_table) : spr_table := SprTable (s_size t) [].

(** ** Representation *)

Definition spr_fields (p : Z) (t : spr_table) : sprs_dump_data :=
  SprsDumpData p (s_size t) (wlen (s_regs t)) (s_used t).

(** The region a table may occupy. *)
Record spr_room (m : mem) (s : sprs_dump_data) : Prop := {
  room_min : 24 <= spr_size s < 4294967284;
  room_lo : m_lo m <= spr_dump_vaddr s;
  room_hi : spr_dump_vaddr s + spr_size s <= m_hi m;
}.

Record spr_rep_at (m : mem) (s : sprs_dump_data) (t : spr_table) : Prop := {
  spr_rep_room : spr_room m s;
  spr_rep_fields : s = spr_fields (spr_dump_vaddr s) t;
  spr_rep_used : s_used t <= s_size t;
  spr_rep_regs : Forall (fun v => 0 <= v < 4294967296) (s_regs t);
  spr_rep_image : words_at m (spr_dump_vaddr s) (s_image t);
}.

Definition apart (s s' : sprs_dump_data) : Prop :=
  spr_dump_vaddr s + spr_size s <= spr_dump_vaddr s' \/
  spr_dump_vaddr s' + spr_size s' <= spr_dump_vaddr s.

Definition disjoint_sprs (l : list (option sprs_dump_data)) : Prop :=
  forall i j s s', i <> j -> l !! i = Some (Some s) -> l !! j = Some (Some s') -> apart s s'.

(** A driver whose mutex is free, with room for eight tables or less. *)
Record sprs_room (d : device) (c : cpuss_dump_data) : Prop := {
  rm_data : drvdata d = Some c;
  rm_mutex : mutex c = false;
  rm_len : Z.of_nat (length (sprdata c)) = MAX_CORE_NUM;
  rm_room : forall i s, sprdata c !! i = Some (Some s) -> spr_room (dma d) s;
  rm_disj : disjoint_sprs (sprdata c);
}.

Definition sprs_rep (d : device) (ts : list (option spr_table)) : Prop :=
  exists c, sprs_room d c /\ length ts = length (sprdata c) /\
    forall i, match sprdata c !! i, ts !! i with
              | Some (Some s), Some (Some t) => spr_rep_at (dma d) s t
              | Some None, Some None | None, None => True
              | _, _ => False
              end.

(** Where the tables lie. *)
Definition spr_region (s : sprs_dump_data) : Z * Z := (spr_dump_vaddr s, spr_size s).
Definition spr_regions (d : device) : list (option (Z * Z)) :=
  match drvdata d with
  | Some c => fmap (M:=option) spr_region <$> sprdata c
  | None => []
  end.

(** Nothing but the bytes of the SPR tables and the counts of the SPR fields
    changed. *)
Definition sprs_frame (d d' : device) : Prop :=
  regdata d' = regdata d /\ spr_regions d' = spr_regions d /\ m_lo (dma d') = m_lo (dma d) /\ m_hi (dma d') = m_hi (dma d) /\
  forall c a, drvdata d = Some c ->
    (forall i s, sprdata c !! i = Some (Some s) ->
       a < spr_dump_vaddr s \/ spr_dump_vaddr s + spr_size s <= a) ->
    byte (dma d') a = byte (dma d) a.

Lemma sprs_frame_refl d : sprs_frame d d.
Proof. by split_and!. Qed.

(** ** The image of a table *)

Record spr_parts (m : mem) (p : Z) (t : spr_table) : Prop := {
  si_magic : ld m p 4 = INPUT_DATA_BY_HLOS;
  si_version : ld m (p + 4) 4 = FORMAT_VERSION_1;
  si_sysidx : ld m (p + 8) 4 = SYSTEM_REGS_INPUT_INDEX;
  si_output : ld m (p + 12) 4 = 4 * (6 + wlen (s_regs t));
  si_tail : ld m (p + 16) 4 = 0;
  si_regs : words_at m (p + 20) (s_regs t);
  si_term : ld m (p + 20 + 4 * wlen (s_regs t)) 4 = 0;
}.

Lemma s_image_split m p t : words_at m p (s_image t) <-> spr_parts m p t.
Proof.
  unfold s_image. rewrite !words_at_app. simpl words_at.
  change (4 * wlen [_; _; _; _; _]) with 20.
  replace (p + 4 + 4) with (p + 8) by lia. replace (p + 8 + 4) with (p + 12) by lia.
  replace (p + 12 + 4) with (p + 16) by lia.
  split; [intros; destruct_and!; by constructor|intros []; by split_and!].
Qed.

Lemma s_image_len t : 4 * wlen (s_image t) = 4 * (6 + wlen (s_regs t)).
Proof. unfold s_image, wlen. rewrite !length_app. simpl. lia. Qed.

Lemma spr_room_bounds m m' s :
  m_lo m = m_lo m' -> m_hi m = m_hi m' -> spr_room m s -> spr_room m' s.
Proof. intros ? ? []. constructor; lia. Qed.

(** A write to the region of another table leaves a table alone. *)
Lemma spr_rep_frame m m' s s' t :
  mod_only (spr_dump_vaddr s) (spr_dump_vaddr s + spr_size s) m m' ->
  apart s' s -> spr_rep_at m s' t -> spr_rep_at m' s' t.
Proof.
  intros Hm Ha [Hroom Hf Hu Hr Him]. split; try done.
  - destruct Hm as (? & ? & _). by eapply spr_room_bounds.
  - eapply words_at_frame; [done| |done]. rewrite s_image_len.
    assert (spr_size s' = s_size t) by (by rewrite Hf).
    unfold apart, s_used in *. pose proof (wlen_nonneg (s_regs t)). lia.
Qed.

(** ** spr_config_store *)

Section StoreOne.
Context (m : mem) (s : sprs_dump_data) (t : spr_table) (v : Z).
Context (Hrep : spr_rep_at m s t) (Hv : 0 <= v < 4294967296).
Context (Hfit : s_used t + 12 < s_size t).

Local Abbreviation p := (spr_dump_vaddr s).
Local Abbreviation n := (wlen (s_regs t)).

(** The three stores of the handler. *)
Definition spr_stored : mem :=
  st (st (st m (p + 12) 4 (4 * (7 + n))) (p + 20 + 4 * n) 4 v) (p + 24 + 4 * n) 4 0.

Lemma spr_stored_rep :
  spr_rep_at spr_stored (spr_fields p (SprTable (s_size t) (s_regs t ++ [v])))
    (SprTable (s_size t) (s_regs t ++ [v])).
Proof.
  destruct Hrep as [[Hmin Hlo Hhi] Hf Hu Hr Him].
  assert (spr_size s = s_size t) as Hsz by (by rewrite Hf).
  pose proof (wlen_nonneg (s_regs t)). rewrite Hsz in *. unfold s_used in *.
  assert (wlen (s_regs t ++ [v]) = n + 1) as Hlen by (rewrite wlen_app; done).
  split; try done.
  - unfold s_used; simpl. rewrite Hlen. lia.
  - apply Forall_app. split; [done|]. by apply Forall_singleton.
  - apply s_image_split in Him as [I1 I2 I3 I4 I5 I6 I7]. apply s_image_split.
    unfold spr_stored. split; simpl; rewrite ?Hlen.
    1,2,3,5: by mem_simpl.
    + mem_simpl. lia.
    + apply words_at_app. split; [by do 3 (apply words_at_st; [lia|])|].
      split; [|done]. by mem_simpl.
    + replace (p + 20 + 4 * (n + 1)) with (p + 24 + 4 * n) by lia. by mem_simpl.
Qed.

Lemma spr_stored_frame : mod_only p (p + spr_size s) m spr_stored.
Proof.
  destruct Hrep as [_ Hf Hu _ _]. assert (spr_size s = s_size t) as -> by (by rewrite Hf).
  unfold s_used in *. pose proof (wlen_nonneg (s_regs t)). unfold spr_stored. frame.
Qed.
End StoreOne.

(** Replacing one table and writing its region only. *)
Lemma sprs_rep_insert d c m' i s s' t t' ts :
  sprs_room d c -> sprs_rep d ts ->
  sprdata c !! i = Some (Some s) -> ts !! i = Some (Some t) ->
  spr_dump_vaddr s' = spr_dump_vaddr s -> spr_size s' = spr_size s ->
  mod_only (spr_dump_vaddr s) (spr_dump_vaddr s + spr_size s) (dma d) m' ->
  spr_rep_at m' s' t' ->
  sprs_rep (Device m' (Some (CpussDumpData false (cpussregdata c) (<[i := Some s']> (sprdata c)))))
    (<[i := Some t']> ts).
Proof.
  intros [Hd Hmx Hlen Hroom Hdis] (c2 & [Hd2 _ _ _ _] & Hlts & Hrep) Hs Ht Hva Hsz Hm Hrep'.
  rewrite Hd in Hd2. simplify_eq.
  assert (i < length (sprdata c2))%nat by (by eapply lookup_lt_Some).
  eexists. split_and!; [split; try done; simpl|by simpl; rewrite !length_insert|].
  - by rewrite length_insert.
  - intros j x Hx. destruct (decide (i = j)) as [<-|Hne].
    + rewrite list_lookup_insert_eq in Hx by lia. simplify_eq. apply Hrep'.
    + rewrite list_lookup_insert_ne in Hx by done. destruct Hm as (? & ? & _).
      eapply spr_room_bounds; [done..|by eapply Hroom].
  - intros j k x y Hjk Hx Hy. unfold apart.
    destruct (decide (i = j)) as [<-|], (decide (i = k)) as [<-|]; [done|..];
      rewrite ?list_lookup_insert_eq in Hx by lia; rewrite ?list_lookup_insert_eq in Hy by lia;
      rewrite ?list_lookup_insert_ne in Hx by done; rewrite ?list_lookup_insert_ne in Hy by done;
      simplify_eq; rewrite ?Hva, ?Hsz.
    + by apply (Hdis i k).
    + by apply (Hdis j i).
    + by apply (Hdis j k).
  - intros j. simpl. destruct (decide (i = j)) as [<-|Hne].
    + by rewrite (list_lookup_insert_eq (sprdata c2)), (list_lookup_insert_eq ts) by lia.
    + rewrite !list_lookup_insert_ne by done. specialize (Hrep j).
      destruct (sprdata c2 !! j) as [[x|]|] eqn:Hx, (ts !! j) as [[y|]|] eqn:Hy; try done.
      eapply spr_rep_frame; [done| |done]. by apply (Hdis j i).
Qed.

Lemma spr_config_store_refines d ts s count :
  0 <= ss_data s < 4294967296 -> 0 <= ss_cpu s -> sprs_rep d ts ->
  let '(ret, ts') := store_table ts s count in
  exists d', spr_config_store d s count = Some (ret, d') /\ sprs_rep d' ts' /\ sprs_frame d d'.
Proof.
  intros Hv Hcpu Hr. pose proof Hr as (c & Hroom & Hlts & Hrep).
  pose proof Hroom as [Hd Hmx Hlen _ _]. destruct d as [m dd], c as [b r l].
  simpl in *. subst dd b. unfold store_table, spr_config_store; simpl.
  destruct (negb (ss_nval s =? 2)); simpl; [eauto using sprs_frame_refl|].
  destruct (Z.leb_spec MAX_CORE_NUM (ss_cpu s)) as [|Hlt]; [eauto using sprs_frame_refl|].
  unfold mutex_lock, mutex_unlock, sprs, set_drvdata, set_mutex; simpl.
  assert (exists i, ss_cpu s = Z.of_nat i) as [i Hi] by (exists (Z.to_nat (ss_cpu s)); lia).
  rewrite Hi, Nat2Z.id, getZ_of_nat. specialize (Hrep i).
  destruct (l !! i) as [[e|]|] eqn:Hl.
  2:{ destruct (ts !! i) as [[?|]|]; try done; eexists; by split_and!. }
  2:{ apply lookup_ge_None in Hl. lia. }
  destruct (ts !! i) as [[t|]|] eqn:Ht; try done.
  pose proof Hrep as [[Hmin Hlo Hhi] Hf Hu _ _].
  assert (spr_size e = s_size t /\ spr_used_memory e = s_used t /\
    sprs_data_index e = wlen (s_regs t)) as (Hsz & Hum & Hix) by (by rewrite Hf).
  rewrite Hum, Hsz, Hix. change ((SPR_INPUT_DATA_SIZE + SPR_OUTPUT_DATA_SIZE) * sizeof_u32) with 12.
  pose proof (wlen_nonneg (s_regs t)). unfold s_used in Hu.
  assert (u32 (s_used t + 12) = s_used t + 12) as Hused by (apply u32_small; unfold s_used; lia).
  rewrite Hused. destruct (Z.ltb_spec (s_used t + 12) (s_size t)) as [Hfit|];
    [|eexists; by split_and!].
  unfold wptr, sizeof_u32, OUTPUT_DUMP_INDEX, SPR_DATA_HEADER_SIZE, SPR_INPUT_DATA_TAIL_SIZE.
  unfold s_used in Hfit.
  do 3 (rewrite store32_ok by (autorewrite with mem_bounds; lia); cbv beta match).
  unfold set_sprs; simpl. rewrite setZ_of_nat by (by eapply lookup_lt_Some). simpl.
  eexists. split; [reflexivity|].
  rewrite !(u32_small (5 + _ + 1 + 1)), !u32_small by lia.
  pose proof (sprs_rep_insert _ _ (spr_stored m e t (ss_data s)) i e
    (spr_fields (spr_dump_vaddr e) (SprTable (s_size t) (s_regs t ++ [ss_data s])))
    t (SprTable (s_size t) (s_regs t ++ [ss_data s])) ts Hroom Hr Hl Ht) as Hins.
  assert (wlen (s_regs t ++ [ss_data s]) = wlen (s_regs t) + 1) as Hlen1 by (rewrite wlen_app; done).
  unfold spr_fields, s_used in Hins; simpl in Hins. rewrite Hlen1 in Hins.
  unfold s_used, spr_stored in *.
  replace ((5 + wlen (s_regs t) + 1 + 1) * 4) with (4 * (7 + wlen (s_regs t))) by lia.
  replace (spr_dump_vaddr e + 4 * 3) with (spr_dump_vaddr e + 12) by lia.
  replace (spr_dump_vaddr e + 4 * (5 + wlen (s_regs t))) with (spr_dump_vaddr e + 20 + 4 * wlen (s_regs t)) by lia.
  replace (spr_dump_vaddr e + 4 * (5 + wlen (s_regs t) + 1)) with (spr_dump_vaddr e + 24 + 4 * wlen (s_regs t)) by lia.
  replace (24 + 12 * wlen (s_regs t) + 12) with (24 + 12 * (wlen (s_regs t) + 1)) by lia.
  pose proof (spr_stored_frame m e t (ss_data s) Hrep Hfit) as Hframe.
  split.
  2:{ split_and!; try done; [|intros c a [= <-] Ha; symmetry; apply Hframe, (Ha _ _ Hl)].
      unfold spr_regions; simpl. rewrite list_fmap_insert. apply list_insert_id.
      rewrite list_lookup_fmap, Hl. simpl. unfold spr_region; simpl. by rewrite Hsz. }
  apply Hins; [done|by rewrite Hsz|done|].
  pose proof (spr_stored_rep m e t (ss_data s) Hrep Hv Hfit) as Hst.
  unfold spr_fields, s_used in Hst; simpl in Hst. by rewrite Hlen1 in Hst.
Qed.

(** ** reset_sprs_dump_table *)

Definition reset_field (s : sprs_dump_data) : sprs_dump_data :=
  SprsDumpData (spr_dump_vaddr s) (spr_size s) 0 24.

Lemma reset_sprs_one_ok m b r l i s :
  l !! i = Some (Some s) -> spr_room m s ->
  exists m', reset_sprs_one (Device m (Some (CpussDumpData b r l))) (Z.of_nat i) s
      = Some (Device m' (Some (CpussDumpData b r (<[i := Some (reset_field s)]> l)))) /\
    mod_only (spr_dump_vaddr s) (spr_dump_vaddr s + spr_size s) m m' /\
    words_at m' (spr_dump_vaddr s) (s_image (SprTable (spr_size s) [])).
Proof.
  intros Hl [Hmin Hlo Hhi]. unfold reset_sprs_one, set_sprs; simpl.
  rewrite setZ_of_nat by (by eapply lookup_lt_Some). cbv beta match. cbn [set_drvdata dma].
  change ((SPR_DATA_HEADER_SIZE + SPR_INPUT_DATA_TAIL_SIZE) * sizeof_u32) with 24.
  change ((SPR_DATA_HEADER_TAIL_SIZE + SPR_INPUT_DATA_TAIL_SIZE) * sizeof_u32) with 8.
  unfold off_magic, off_version, off_system_regs_input_index, off_regdump_output_byte_offset,
    wptr, PERCORE_INDEX, sizeof_u32, INPUT_DATA_BY_HLOS, FORMAT_VERSION_1, SYSTEM_REGS_INPUT_INDEX.
  rewrite memset_ok by lia. cbv beta match.
  do 4 (rewrite store32_ok by (autorewrite with mem_bounds; lia); cbv beta match).
  rewrite memset_ok by (autorewrite with mem_bounds; lia). cbv beta match.
  eexists. split; [reflexivity|split; [frame|]].
  split_and!; try done; by mem_simpl.
Qed.

Lemma disjoint_reset l i s :
  disjoint_sprs l -> l !! i = Some (Some s) ->
  disjoint_sprs (<[i := Some (reset_field s)]> l).
Proof.
  intros Hdis Hs j k x y Hjk Hx Hy. pose proof (lookup_lt_Some _ _ _ Hs).
  destruct (decide (i = j)) as [<-|], (decide (i = k)) as [<-|]; [done|..];
    rewrite ?list_lookup_insert_eq in Hx by lia; rewrite ?list_lookup_insert_eq in Hy by lia;
    rewrite ?list_lookup_insert_ne in Hx by done; rewrite ?list_lookup_insert_ne in Hy by done;
    simplify_eq; unfold apart; simpl.
  - by apply (Hdis i k).
  - by apply (Hdis j i).
  - by apply (Hdis j k).
Qed.

(** The tables from index [i] on are reset; memory outside them is kept. *)
Record reset_from (i : nat) (m m' : mem) (l l' : list (option sprs_dump_data)) : Prop := {
  rf_len : length l' = length l;
  rf_lo : m_lo m' = m_lo m;
  rf_hi : m_hi m' = m_hi m;
  rf_fields j : l' !! j = if decide (j < i)%nat then l !! j else fmap (M:=option) reset_field <$> l !! j;
  rf_image j s : (i <= j)%nat -> l !! j = Some (Some s) ->
    words_at m' (spr_dump_vaddr s) (s_image (SprTable (spr_size s) []));
  rf_frame a :
    (forall j s, (i <= j)%nat -> l !! j = Some (Some s) ->
       a < spr_dump_vaddr s \/ spr_dump_vaddr s + spr_size s <= a) ->
    byte m' a = byte m a;
}.

Lemma words_at_bytes m m' a ws :
  (forall x, a <= x < a + 4 * wlen ws -> byte m' x = byte m x) ->
  words_at m a ws -> words_at m' a ws.
Proof.
  unfold wlen. revert a. induction ws as [|w ws IH]; intros a Hb; simpl; [done|].
  simpl length in Hb. intros [Hw Hws]. split.
  - rewrite <- Hw. apply ld_ext. intros; apply Hb. lia.
  - apply IH; [|done]. intros; apply Hb. lia.
Qed.

Lemma reset_from_step i m m1 m' l l' s :
  l !! i = Some (Some s) -> spr_room m s -> disjoint_sprs l ->
  mod_only (spr_dump_vaddr s) (spr_dump_vaddr s + spr_size s) m m1 ->
  words_at m1 (spr_dump_vaddr s) (s_image (SprTable (spr_size s) [])) ->
  reset_from (S i) m1 m' (<[i := Some (reset_field s)]> l) l' -> reset_from i m m' l l'.
Proof.
  intros Hs [Hmin _ _] Hdis Hmod Him [Hlen Hlo Hhi Hf Hi Hfr].
  pose proof (lookup_lt_Some _ _ _ Hs). destruct Hmod as (Hml & Hmh & Hmb).
  assert (forall j x, (S i <= j)%nat -> <[i := Some (reset_field s)]> l !! j = Some (Some x) ->
    l !! j = Some (Some x)) as Hrest.
  { intros j x ?. by rewrite list_lookup_insert_ne by lia. }
  split; try congruence.
  - by rewrite Hlen, length_insert.
  - intros j. rewrite Hf. destruct (decide (i = j)) as [<-|].
    + rewrite list_lookup_insert_eq, Hs by lia. by do 2 case_decide; try lia.
    + rewrite list_lookup_insert_ne by done. do 2 case_decide; done || lia.
  - intros j x Hj Hx. destruct (decide (i = j)) as [<-|].
    + simplify_eq. eapply words_at_bytes; [|exact Him]. rewrite s_image_len. unfold wlen; simpl.
      intros a Ha. apply Hfr. intros k y Hk Hy%Hrest; [|done].
      pose proof (Hdis i k s y ltac:(lia) Hs Hy) as Hap. unfold apart in Hap. lia.
    + apply (Hi j); [lia|]. by rewrite list_lookup_insert_ne.
  - intros a Ha. rewrite Hfr.
    + symmetry. apply Hmb. specialize (Ha i s ltac:(lia) Hs). lia.
    + intros k y Hk Hy%Hrest; [|done]. apply (Ha k); [lia|done].
Qed.

Lemma reset_from_skip i m m' l l' :
  l !! i = Some None -> reset_from (S i) m m' l l' -> reset_from i m m' l l'.
Proof.
  intros Hi [Hlen Hlo Hhi Hf Him Hfr]. split; try done.
  - intros j. rewrite Hf. destruct (decide (i = j)) as [<-|];
      [rewrite Hi|]; do 2 case_decide; done || lia.
  - intros j s Hj Hs. destruct (decide (i = j)) as [<-|]; [congruence|]. apply (Him j); [lia|done].
  - intros a Ha. apply Hfr. intros j s Hj. apply (Ha j). lia.
Qed.

Lemma reset_sprs_loop_ok n i m b r l :
  (i + n = length l)%nat -> disjoint_sprs l ->
  (forall j s, l !! j = Some (Some s) -> spr_room m s) ->
  exists m' l',
    reset_sprs_loop n (Z.of_nat i) (Device m (Some (CpussDumpData b r l)))
      = Some (Device m' (Some (CpussDumpData b r l'))) /\ reset_from i m m' l l'.
Proof.
  revert i m l. induction n as [|n IH]; intros i m l Hn Hdis Hroom; simpl.
  { eexists _, _. split; [done|]. split; try done.
    - intros j. case_decide; [done|]. by rewrite lookup_ge_None_2 by lia.
    - intros j s Hj Hs%lookup_lt_Some. lia. }
  unfold sprs at 1; simpl. rewrite getZ_of_nat.
  replace (Z.of_nat i + 1) with (Z.of_nat (S i)) by lia.
  destruct (l !! i) as [[s|]|] eqn:Hs.
  - destruct (reset_sprs_one_ok m b r l i s Hs (Hroom _ _ Hs)) as (m1 & -> & Hmod & Him).
    destruct (IH (S i) m1 (<[i := Some (reset_field s)]> l)) as (m' & l' & -> & Hrf).
    + rewrite length_insert. lia.
    + by apply disjoint_reset.
    + destruct Hmod as (? & ? & _). pose proof (lookup_lt_Some _ _ _ Hs).
      intros j x Hx. destruct (decide (i = j)) as [<-|].
      * rewrite list_lookup_insert_eq in Hx by lia. simplify_eq.
        destruct (Hroom _ _ Hs). constructor; simpl; lia.
      * rewrite list_lookup_insert_ne in Hx by done. eapply spr_room_bounds; eauto.
    + eexists _, _. split; [done|]. eapply reset_from_step; eauto.
  - destruct (IH (S i) m l) as (m' & l' & -> & Hrf); [lia|done|done|].
    eexists _, _. split; [done|]. by apply reset_from_skip.
  - apply lookup_ge_None in Hs. lia.
Qed.

Definition fresh_tables (c : cpuss_dump_data) : list (option spr_table) :=
  fmap (M:=option) (fun s => SprTable (spr_size s) []) <$> sprdata c.

Lemma reset_sprs_dump_table_ok d c :
  sprs_room d c ->
  exists d', reset_sprs_dump_table d = Some (0, d') /\ sprs_rep d' (fresh_tables c) /\
    sprs_frame d d'.
Proof.
  intros [Hd Hmx Hlen Hroom Hdis]. destruct d as [m dd], c as [b r l]. simpl in *. subst dd b.
  unfold reset_sprs_dump_table, mutex_lock, mutex_unlock, set_drvdata, set_mutex.
  cbn -[reset_sprs_loop].
  assert (length l = 8)%nat as Hl8 by (unfold MAX_CORE_NUM in Hlen; lia).
  destruct (reset_sprs_loop_ok 8 0 m true r l) as (m' & l' & Hloop & [Hlen' Hlo Hhi Hf Him Hfr]);
    [done..|].
  change (Z.of_nat 0) with 0 in Hloop. change (Z.to_nat MAX_CORE_NUM) with 8%nat.
  rewrite Hloop. simpl.
  eexists. split; [reflexivity|]. split.
  - eexists. split_and!; [split; try done; simpl| |].
    + by rewrite Hlen'.
    + intros i s Hs. rewrite Hf in Hs. case_decide; [lia|].
      destruct (l !! i) as [[x|]|] eqn:Hx; simplify_eq/=.
      destruct (Hroom _ _ Hx). constructor; simpl; lia.
    + intros i j x y Hij Hx Hy. rewrite Hf in Hx, Hy. case_decide; [lia|].
      case_decide; [lia|]. destruct (l !! i) as [[s|]|] eqn:Hs; simplify_eq/=.
      destruct (l !! j) as [[s'|]|] eqn:Hs'; simplify_eq/=.
      unfold apart; simpl. by apply (Hdis i j).
    + simpl. unfold fresh_tables. by rewrite length_fmap.
    + intros i. simpl. unfold fresh_tables. simpl. rewrite Hf, list_lookup_fmap.
      case_decide; [lia|]. destruct (l !! i) as [[s|]|] eqn:Hs; simpl; try done.
      pose proof (Hroom _ _ Hs) as [Hmin Hslo Hshi].
      split; simpl; try done; [constructor; simpl; lia|unfold s_used, wlen; simpl; lia|].
      apply (Him i); [lia|done].
  - split_and!; [done| |done..|intros c a [= <-] Ha; simpl; apply Hfr; intros j s _; apply Ha].
    unfold spr_regions; simpl. apply list_eq. intros i. rewrite !list_lookup_fmap, Hf.
    case_decide; [lia|]. by destruct (l !! i) as [[s|]|].
Qed.

Lemma fresh_tables_rep d ts c :
  sprs_rep d ts -> drvdata d = Some c -> fresh_tables c = fmap (M:=option) empty_spr <$> ts.
Proof.
  intros (c' & [Hd _ _ _ _] & Hlen & Hrep) Hc.
  rewrite Hd in Hc. injection Hc as ->. apply list_eq. intros i.
  unfold fresh_tables. rewrite !list_lookup_fmap. specialize (Hrep i).
  destruct (sprdata c !! i) as [[s|]|], (ts !! i) as [[t|]|]; try done.
  destruct Hrep as [_ Hf _ _ _]. simpl. unfold empty_spr. by rewrite Hf.
Qed.

Lemma sprs_register_reset_store_refines d ts count :
  sprs_rep d ts ->
  exists d', sprs_register_reset_store d (Some 1) count = Some (count, d') /\
    sprs_rep d' (fmap (M:=option) empty_spr <$> ts) /\ sprs_frame d d'.
Proof.
  intros Hrep. pose proof Hrep as (c & Hroom & _).
  destruct (reset_sprs_dump_table_ok d c Hroom) as (d' & Hr & Hrep' & Hfr).
  unfold sprs_register_reset_store; simpl. rewrite Hr.
  rewrite (fresh_tables_rep _ _ _ Hrep (rm_data _ _ Hroom)) in Hrep'. eauto.
Qed.
