(* ===== verification/SprShow.v ===== *)
(** * Reading the SPR dump tables back (memory_dump_v2.c, lines 573-624, 702-729)

    [spr_config_show] stops once the count is past the page, after the line
    that took it there; the page itself never holds more than [PAGE_SIZE - 1]
    characters.  The text it prints is a prefix of the listing of the tables,
    the whole listing when that fits. *)

From S2P Require Import Prelude CMem CStr CpussData RegDump RegDumpSpec SprDump SprProofs.

#[local] Open Scope string_scope.
#[local] Open Scope list_scope.
#[local] Open Scope Z_scope.

(** ** The text of the tables *)

Definition join (l : list string) : string := foldr String.append EmptyString l.

Definition spr_line (v : Z) : string := fmt_d v +:+ nl.

Fixpoint spr_lines (i : Z) (ts : list (option spr_table)) : list string :=
  match ts with
  | [] => []
  | None :: ts => spr_lines (i + 1) ts
  | Some t :: ts => (spr_cpu_title i :: map spr_line (s_regs t)) ++ spr_lines (i + 1) ts
  end.

Definition sprs_text (ts : list (option spr_table)) : string :=
  join (spr_title :: spr_lines 0 ts).

Fixpoint version_lines (i : Z) (ts : list (option spr_table)) : list string :=
  match ts with
  | [] => []
  | None :: ts => version_lines (i + 1) ts
  | Some _ :: ts => spr_version_line i FORMAT_VERSION_1 :: version_lines (i + 1) ts
  end.

(** ** Facts *)

Lemma join_app l l' : join (l ++ l') = join l +:+ join l'.
Proof. induction l as [|s l IH]; simpl; [done|]. unfold join in *; simpl. by rewrite IH, sapp_assoc. Qed.

Lemma strlcat_stake s t P :
  1 <= P -> strlcat (scnprintf P s) t P = Some (scnprintf P (s +:+ t)).
Proof.
  intros HP. unfold strlcat, assert_c. pose proof (slen_scnprintf P s ltac:(lia)) as Hl.
  pose proof (slen_nonneg s). rewrite Hl. decide_tests. f_equal. unfold scnprintf.
  destruct (decide (slen s <= P - 1)).
  - rewrite stake_all by lia. rewrite stake_app_ge by lia. do 2 f_equal. unfold slen in *. lia.
  - rewrite (stake_app_le _ s t) by lia. replace (Z.to_nat (P - 1 - Z.min (P - 1) (slen s))) with 0%nat by lia.
    simpl. by destruct t; rewrite sapp_nil_r.
Qed.

Lemma spr_line_len v : slen (spr_line v) < 64.
Proof. unfold spr_line. rewrite slen_app. pose proof (slen_fmt_d v). change (slen nl) with 1. lia. Qed.

Lemma spr_cpu_title_len i : slen (spr_cpu_title i) < 64.
Proof.
  unfold spr_cpu_title. rewrite !slen_app. pose proof (slen_fmt_d i).
  change (slen nl) with 1. change (slen "spr data for CPU[") with 17. change (slen "] below:") with 8. lia.
Qed.

Lemma spr_version_line_len i v : slen (spr_version_line i v) <= 58.
Proof.
  unfold spr_version_line. rewrite !slen_app. pose proof (slen_fmt_d i). pose proof (slen_fmt_d v).
  change (slen nl) with 1. change (slen "SPR data format version for cpu") with 31.
  change (slen " is ") with 4. lia.
Qed.

Section Show.
Context (P : Z) (HP : 64 <= P).

(** The page shows the lines [L]. *)
Definition shown (buf : string) (count : Z) (L : list string) : Prop :=
  buf = scnprintf P (join L) /\ count = slen (join L).

Lemma spr_append_shown buf count L line :
  shown buf count L -> slen line < 64 ->
  exists buf', spr_append P buf count line = Some (buf', count + slen line) /\
    shown buf' (count + slen line) (L ++ [line]).
Proof.
  intros [-> ->] Hl. unfold spr_append. rewrite (scnprintf_fits 64) by done.
  rewrite strlcat_stake by lia. eexists. split; [done|]. unfold shown.
  rewrite join_app, slen_app. unfold join at 3 5; simpl. by rewrite sapp_nil_r.
Qed.

(** After some of the lines [rest]: all of them, or the page overflowed. *)
Definition outcome (L rest : list string) (buf : string) (count : Z) : Prop :=
  exists l1 l2, rest = l1 ++ l2 /\ shown buf count (L ++ l1) /\
    (l2 = [] \/ P < count) /\ count <= P + 63.

Lemma outcome_stop L rest buf count :
  shown buf count L -> P < count <= P + 63 -> outcome L rest buf count.
Proof. intros ??. exists [], rest. rewrite app_nil_r. split_and!; auto; lia. Qed.

Lemma outcome_cons L line rest buf count :
  outcome (L ++ [line]) rest buf count -> outcome L (line :: rest) buf count.
Proof.
  intros (l1 & l2 & -> & Hs & ?). exists (line :: l1), l2. by rewrite <- app_assoc in Hs.
Qed.

Lemma spr_show_data_ok m p regs i buf count L :
  words_at m (p + 20 + 4 * i) regs -> m_lo m <= p + 20 + 4 * i ->
  p + 20 + 4 * i + 4 * wlen regs <= m_hi m ->
  shown buf count L -> count <= P + 63 ->
  exists buf' count', spr_show_data P (length regs) m p i buf count = Some (buf', count') /\
    outcome L (map spr_line regs) buf' count'.
Proof.
  revert i buf count L. induction regs as [|v regs IH]; intros i buf count L Hw Hlo Hhi Hs Hc; simpl.
  { eexists _, _. split; [done|]. exists [], []. rewrite !app_nil_r. split_and!; auto. }
  unfold wlen in *; simpl in Hw, Hhi. destruct Hw as [Hv Hw].
  destruct (Z.ltb_spec P count).
  { eexists _, _. split; [done|]. apply outcome_stop; [done|lia]. }
  unfold wptr, sizeof_u32, SPR_DATA_HEADER_SIZE.
  replace (p + 4 * (5 + i)) with (p + 20 + 4 * i) by lia.
  rewrite load32_ok by lia. rewrite Hv.
  destruct (spr_append_shown buf count L (spr_line v) Hs (spr_line_len v)) as (b1 & Ha & Hs1).
  unfold spr_line in Ha. rewrite Ha. pose proof (spr_line_len v).
  destruct (IH (i + 1) b1 (count + slen (spr_line v)) (L ++ [spr_line v])) as (b2 & c2 & Hl & Ho);
    [by replace (p + 20 + 4 * (i + 1)) with (p + 20 + 4 * i + 4) by lia|lia..|done|lia|].
  unfold spr_line in Hl. rewrite Hl. eexists _, _. split; [done|]. by apply outcome_cons.
Qed.

(** The outcome of one part of the listing, seen from the whole. *)
Lemma outcome_split L r1 buf count :
  outcome L r1 buf count ->
  (P < count /\ forall r2, outcome L (r1 ++ r2) buf count) \/
  (count <= P /\ shown buf count (L ++ r1)).
Proof.
  intros (l1 & l2 & -> & Hs & Hd & Hc). destruct (Z.ltb_spec P count).
  - left. split; [done|]. intros r2. exists l1, (l2 ++ r2). rewrite <- app_assoc. split_and!; auto.
  - right. split; [done|]. destruct Hd as [->|?]; [by rewrite app_nil_r|lia].
Qed.

Lemma spr_show_cpus_full n d i buf count :
  P < count -> spr_show_cpus P n d i buf count = Some (buf, count).
Proof. intros H. destruct n; simpl; [done|]. by decide_test. Qed.

Lemma spr_show_cpus_ok d c ts k buf count L :
  drvdata d = Some c ->
  (forall i t, ts !! i = Some (Some t) -> exists s,
     sprdata c !! (k + i)%nat = Some (Some s) /\ spr_rep_at (dma d) s t) ->
  (forall i, ts !! i = Some None -> sprdata c !! (k + i)%nat = Some None) ->
  shown buf count L -> count <= P + 63 ->
  exists buf' count', spr_show_cpus P (length ts) d (Z.of_nat k) buf count = Some (buf', count') /\
    outcome L (spr_lines (Z.of_nat k) ts) buf' count'.
Proof.
  intros Hd. revert k buf count L. induction ts as [|x ts IH]; intros k buf count L HS HN Hs Hc.
  { eexists _, _. split; [done|]. exists [], []. rewrite !app_nil_r. split_and!; auto. }
  simpl. destruct (Z.ltb_spec P count).
  { eexists _, _. split; [done|]. apply outcome_stop; [done|lia]. }
  replace (Z.of_nat k + 1) with (Z.of_nat (S k)) by lia.
  unfold sprs at 1. rewrite Hd, getZ_of_nat.
  specialize (IH (S k)).
  assert (forall b n L', shown b n L' -> n <= P + 63 -> exists buf' count',
    spr_show_cpus P (length ts) d (Z.of_nat (S k)) b n = Some (buf', count') /\
    outcome L' (spr_lines (Z.of_nat (S k)) ts) buf' count') as IH'.
  { intros b n L'. apply IH; intros i; replace (S k + i)%nat with (k + S i)%nat by lia;
      [apply (HS (S i))|apply (HN (S i))]. }
  destruct x as [t|].
  2:{ specialize (HN 0%nat eq_refl). rewrite Nat.add_0_r in HN. rewrite HN. by apply IH'. }
  destruct (HS 0%nat t eq_refl) as (s & Hl & Hrep). rewrite Nat.add_0_r in Hl. rewrite Hl.
  pose proof (spr_cpu_title_len (Z.of_nat k)).
  destruct (spr_append_shown buf count L _ Hs (spr_cpu_title_len (Z.of_nat k))) as (b1 & -> & Hs1).
  destruct Hrep as [[Hmin Hlo Hhi] Hf Hu _ Him].
  assert (spr_size s = s_size t /\ sprs_data_index s = wlen (s_regs t)) as [Hsz Hix] by (by rewrite Hf).
  apply s_image_split in Him. pose proof (si_regs _ _ _ Him) as Hw.
  unfold s_used in Hu. pose proof (wlen_nonneg (s_regs t)).
  rewrite Hix. unfold wlen at 1. rewrite Nat2Z.id.
  destruct (spr_show_data_ok (dma d) (spr_dump_vaddr s) (s_regs t) 0 b1
    (count + slen (spr_cpu_title (Z.of_nat k))) (L ++ [spr_cpu_title (Z.of_nat k)]))
    as (b2 & c2 & -> & Ho); [by replace (spr_dump_vaddr s + 20 + 4 * 0) with (spr_dump_vaddr s + 20) by lia|lia..|done|lia|].
  apply outcome_split in Ho as [[Hfull Ho]|[Hc2 Hs2]].
  - rewrite spr_show_cpus_full by done. eexists _, _. split; [done|].
    apply outcome_cons, Ho.
  - destruct (IH' b2 c2 _ Hs2 ltac:(lia)) as (b3 & c3 & -> & l1 & l2 & He & Hs3 & Hd3 & Hc3).
    eexists _, _. split; [done|]. apply outcome_cons. simpl in He. rewrite He.
    exists (map spr_line (s_regs t) ++ l1), l2. rewrite !app_assoc in *. split_and!; try done.
Qed.

Lemma version_loop_ok d c ts k buf count L :
  drvdata d = Some c ->
  (forall i t, ts !! i = Some (Some t) -> exists s,
     sprdata c !! (k + i)%nat = Some (Some s) /\ spr_rep_at (dma d) s t) ->
  (forall i, ts !! i = Some None -> sprdata c !! (k + i)%nat = Some None) ->
  shown buf count L ->
  exists buf' count',
    spr_version_loop P (length ts) d (Z.of_nat k) buf count = Some (buf', count') /\
    shown buf' count' (L ++ version_lines (Z.of_nat k) ts).
Proof.
  intros Hd. revert k buf count L. induction ts as [|x ts IH]; intros k buf count L HS HN Hs; simpl.
  { eexists _, _. split; [done|]. by rewrite app_nil_r. }
  replace (Z.of_nat k + 1) with (Z.of_nat (S k)) by lia.
  unfold sprs at 1. rewrite Hd, getZ_of_nat.
  assert (forall b n L', shown b n L' -> exists buf' count',
    spr_version_loop P (length ts) d (Z.of_nat (S k)) b n = Some (buf', count') /\
    shown buf' count' (L' ++ version_lines (Z.of_nat (S k)) ts)) as IH'.
  { intros b n L'. apply IH; intros i; replace (S k + i)%nat with (k + S i)%nat by lia;
      [apply (HS (S i))|apply (HN (S i))]. }
  destruct x as [t|].
  2:{ specialize (HN 0%nat eq_refl). rewrite Nat.add_0_r in HN. rewrite HN. by apply IH'. }
  destruct (HS 0%nat t eq_refl) as (s & Hl & [[Hmin Hlo Hhi] _ _ _ Him]).
  rewrite Nat.add_0_r in Hl. rewrite Hl. apply s_image_split in Him.
  unfold off_version. rewrite load32_ok by lia. rewrite (si_version _ _ _ Him).
  pose proof (spr_version_line_len (Z.of_nat k) FORMAT_VERSION_1).
  destruct (spr_append_shown buf count L (spr_version_line (Z.of_nat k) FORMAT_VERSION_1) Hs ltac:(lia))
    as (b1 & -> & Hs1).
  destruct (IH' _ _ _ Hs1) as (b2 & c2 & -> & Hs2). rewrite <- app_assoc in Hs2. by eexists _, _.
Qed.
End Show.

(** ** The handlers *)

Section Handlers.
Context (P : Z) (HP : 64 <= P) (d : device) (ts : list (option spr_table)) (Hrep : sprs_rep d ts).

Lemma sprs_rep_lookup :
  exists c, drvdata d = Some c /\ mutex c = false /\ length ts = 8%nat /\
  (forall i t, ts !! i = Some (Some t) -> exists s,
     sprdata c !! (0 + i)%nat = Some (Some s) /\ spr_rep_at (dma d) s t) /\
  (forall i, ts !! i = Some None -> sprdata c !! (0 + i)%nat = Some None).
Proof.
  destruct Hrep as (c & [Hd Hmx Hlen _ _] & Hlts & Hr). exists c. simpl.
  unfold MAX_CORE_NUM in Hlen. split_and!; [done..|lia| |]; intros i; specialize (Hr i).
  - intros t Ht. rewrite Ht in Hr. destruct (sprdata c !! i) as [[s|]|]; try done. eauto.
  - intros Ht. rewrite Ht in Hr. by destruct (sprdata c !! i) as [[s|]|].
Qed.

Lemma spr_config_show_ok :
  exists count, spr_config_show P d = Some (count, scnprintf P (sprs_text ts), d) /\
    (count = slen (sprs_text ts) \/ P < count < slen (sprs_text ts)) /\ count <= P + 63.
Proof.
  remember (sprs_text ts) as T eqn:HT.
  destruct sprs_rep_lookup as (c & Hd & Hmx & Hlen & HS & HN).
  destruct d as [m dd], c as [b r l]. simpl in *. subst dd b.
  unfold spr_config_show, mutex_lock, mutex_unlock, set_drvdata, set_mutex.
  cbn -[spr_append spr_show_cpus spr_title].
  destruct (spr_append_shown P HP EmptyString 0 [] spr_title) as (b1 & -> & Hs1);
    [split; [by unfold scnprintf; destruct (Z.to_nat _)|done]|done|].
  change (Z.to_nat MAX_CORE_NUM) with 8%nat. rewrite <- Hlen.
  destruct (spr_show_cpus_ok P HP (Device m (Some (CpussDumpData true r l))) _ ts 0 b1
    (0 + slen spr_title) ([] ++ [spr_title]) eq_refl HS HN Hs1)
    as (b2 & c2 & Hl & l1 & l2 & He & [-> ->] & Hd & Hc2); [change (slen spr_title) with 21; lia|].
  change (Z.of_nat 0) with 0 in *. rewrite Hl.
  change (([] ++ [spr_title]) ++ l1) with (spr_title :: l1) in *.
  assert (T = join (spr_title :: l1) +:+ join l2) as Ht
    by (unfold sprs_text in HT; by rewrite HT, He, <- join_app).
  generalize dependent (join (spr_title :: l1)). intros J Hl Hd Hc2 Ht. simpl.
  eexists. split.
  - do 2 f_equal. f_equal. rewrite Ht. unfold scnprintf. destruct Hd as [->|Hd]; [by rewrite sapp_nil_r|].
    symmetry. apply stake_app_le. lia.
  - split; [|done]. rewrite Ht, slen_app. pose proof (slen_nonneg (join l2)). destruct Hd as [->|Hd].
    + left. change (slen (join [])) with 0. lia.
    + destruct (decide (slen (join l2) = 0)); [left; lia|right; lia].
Qed.

Lemma version_lines_len i l : slen (join (version_lines i l)) <= 58 * Z.of_nat (length l).
Proof.
  revert i. induction l as [|[t|] l IH]; intros i; [done|..]; simpl version_lines; simpl length.
  - change (join (?x :: ?l)) with (x +:+ join l). rewrite slen_app.
    pose proof (spr_version_line_len i FORMAT_VERSION_1). specialize (IH (i + 1)). lia.
  - specialize (IH (i + 1)). lia.
Qed.

Lemma sprs_format_version_show_ok :
  512 <= P ->
  sprs_format_version_show P d
  = Some (slen (join (version_lines 0 ts)), join (version_lines 0 ts), d).
Proof.
  intros HP2. destruct sprs_rep_lookup as (c & Hd & Hmx & Hlen & HS & HN).
  destruct d as [m dd], c as [b r l]. simpl in *. subst dd b.
  unfold sprs_format_version_show, mutex_lock, mutex_unlock, set_drvdata, set_mutex.
  cbn -[spr_version_loop].
  change (Z.to_nat MAX_CORE_NUM) with 8%nat. rewrite <- Hlen.
  destruct (version_loop_ok P HP (Device m (Some (CpussDumpData true r l))) _ ts 0 EmptyString 0 []
    eq_refl HS HN) as (b2 & c2 & Hl & [-> ->]);
    [split; [by unfold scnprintf; destruct (Z.to_nat _)|done]|].
  change (Z.of_nat 0) with 0 in *. rewrite Hl. simpl.
  pose proof (version_lines_len 0 ts). rewrite Hlen in *.
  rewrite scnprintf_fits by lia. done.
Qed.
End Handlers.
