(* ===== verification/DumpTable.v ===== *)
(** * The dump tables (memory_dump_v2.c, lines 780-935)

    The base table and the apps table in the dump memory, and the entries the
    drivers register in them. *)

From S2P Require Import Prelude CMem CStr CText MdApi.

#[local] Open Scope string_scope.
#[local] Open Scope Z_scope.

(** ** Data *)

Definition MSM_DUMP_MAKE_VERSION (ma mi : Z) : Z := Z.lor (Z.shiftl ma 20) mi.
Definition MSM_DUMP_TABLE_VERSION : Z := MSM_DUMP_MAKE_VERSION 2 0.
Definition MAX_NUM_ENTRIES : Z := 0x150.
Definition MSM_DUMP_TABLE_APPS : Z := 0.
Definition MSM_DUMP_TYPE_DATA : Z := 0.
Definition MSM_DUMP_TYPE_TABLE : Z := 1.

(** What the functions below read of a [struct msm_dump_entry] argument. *)
Record msm_dump_entry := MsmDumpEntry { de_id : Z; de_addr : Z }.

(** [struct msm_dump_entry] in memory: [id], [name], [type], [addr]. *)
Definition sizeof_dump_entry : Z := 48.
Definition off_e_id : Z := 0.
Definition off_e_type : Z := 36.
Definition off_e_addr : Z := 40.

(** [struct msm_dump_table]: [version], [num_entries], [entries]. *)
Definition off_t_version : Z := 0.
Definition off_t_num_entries : Z := 4.
Definition off_t_entries : Z := 8.
Definition sizeof_dump_table : Z := off_t_entries + sizeof_dump_entry * MAX_NUM_ENTRIES.

(** [struct msm_dump_data]: [version], [magic], [name], [addr], [len]. *)
Definition off_d_name : Z := 8.
Definition off_d_addr : Z := 40.
Definition off_d_len : Z := 48.
Definition MSM_DUMP_DATA_SIZE : Z := 64.

(** [static struct msm_memory_dump memdump]; the table pointer may be null. *)
Record msm_memory_dump := MsmMemoryDump {
  table_phys : Z;
  mtable : option Z;
}.

(** [&table->entries[i]] *)
Definition entry_ptr (table i : Z) : Z := table + off_t_entries + sizeof_dump_entry * i.

Definition msm_dump_table_version : Z := MSM_DUMP_TABLE_VERSION.

(** ** Registration *)

(** Append an entry of type [ty] to a table that has room. *)
Definition append_entry (m : mem) (table num : Z) (entry : msm_dump_entry) (ty : Z)
  : option mem :=
  let e := entry_ptr table num in
  let* m := store32 m (e + off_e_id) (de_id entry) in
  let* m := store32 m (e + off_e_type) ty in
  let* m := store64 m (e + off_e_addr) (de_addr entry) in
  let* n := load32 m (table + off_t_num_entries) in
  store32 m (table + off_t_num_entries) (u32 (n + 1)).

Definition msm_dump_table_register (m : mem) (memdump : msm_memory_dump)
  (entry : msm_dump_entry) : option (Z * mem) :=
  match mtable memdump with
  | None => Some (- EINVAL, m)
  | Some table =>
      let* num := load32 m (table + off_t_num_entries) in
      if MAX_NUM_ENTRIES <=? num then Some (- EINVAL, m)
      else
        let* m := append_entry m table num entry MSM_DUMP_TYPE_TABLE in
        Some (0, m)
  end.

(** The search loop of [msm_dump_get_table]: [n] entries from [i]; the result
    is the index it stops at. *)
Fixpoint find_table_entry (n : nat) (m : mem) (table id i : Z) : option Z :=
  match n with
  | O => Some i
  | S n' =>
      let* eid := load32 m (entry_ptr table i + off_e_id) in
      if eid =? id then Some i else find_table_entry n' m table id (i + 1)
  end.

(** [inl err] is [ERR_PTR(err)]. *)
Definition msm_dump_get_table (m : mem) (memdump : msm_memory_dump) (id : Z)
  : option (Z + Z) :=
  match mtable memdump with
  | None => Some (inl (- EINVAL))
  | Some table =>
      let* i := find_table_entry (Z.to_nat MAX_NUM_ENTRIES) m table id 0 in
      if i =? MAX_NUM_ENTRIES then Some (inl (- EINVAL))
      else
        let* addr := load64 m (entry_ptr table i + off_e_addr) in
        if addr =? 0 then Some (inl (- EINVAL))
        else
          let offset := u64 (addr - table_phys memdump) in
          Some (inr (u64 (table + offset)))
  end.

Definition register_dump_table_entry (m : mem) (memdump : msm_memory_dump) (id : Z)
  (entry : msm_dump_entry) : option (Z * mem) :=
  let* t := msm_dump_get_table m memdump id in
  match t with
  | inl err => Some (err, m)
  | inr table =>
      if table =? 0 then Some (- EINVAL, m)
      else
        let* num := load32 m (table + off_t_num_entries) in
        if MAX_NUM_ENTRIES <=? num then Some (- EINVAL, m)
        else
          let* m := append_entry m table num entry MSM_DUMP_TYPE_DATA in
          Some (0, m)
  end.

(** ** Minidump registration of a data entry *)

Section Clients.
Context {S : Type} `{MdApi S} (phys_to_virt : Z -> Z).

(** [km] is the memory that holds the entry's [struct msm_dump_data]. *)
Definition msm_dump_data_add_minidump (km : mem) (entry : msm_dump_entry) (s : S)
  : option (Z * S) :=
  let data := phys_to_virt (de_addr entry) in
  let* addr := load64 km (data + off_d_addr) in
  let* len := load64 km (data + off_d_len) in
  if (addr =? 0) || (len =? 0) then Some (- EINVAL, s)
  else
    let* c := load8 km (data + off_d_name) in
    let* name :=
      if c =? 0
      then Some (snprintf (MAX_NAME_LENGTH + 1) ("KMDT0x" +:+ fmt_X (de_id entry))).1
      else
        let* src := load_cstr km (data + off_d_name) (Z.to_nat (MAX_NAME_LENGTH + 1)) in
        Some (strscpy src (MAX_NAME_LENGTH + 1)).1 in
    msm_minidump_add_region
      (MdRegion name (de_id entry) (phys_to_virt addr) addr len) s.

(** The minidump result is only logged. *)
Definition msm_dump_data_register (m : mem) (memdump : msm_memory_dump) (km : mem)
  (id : Z) (entry : msm_dump_entry) (s : S) : option (Z * mem * S) :=
  let* (ret, m) := register_dump_table_entry m memdump id entry in
  if ret =? 0 then
    let* (_, s) := msm_dump_data_add_minidump km entry s in
    Some (ret, m, s)
  else Some (ret, m, s).

Definition msm_dump_data_register_nominidump (m : mem) (memdump : msm_memory_dump)
  (id : Z) (entry : msm_dump_entry) : option (Z * mem) :=
  register_dump_table_entry m memdump id entry.
End Clients.

(** ** init_memory_dump *)

Definition init_memory_dump (m : mem) (dump_vaddr phys : Z)
  : option (Z * mem * msm_memory_dump) :=
  let memdump := MsmMemoryDump phys (Some dump_vaddr) in
  let* m := store32 m (dump_vaddr + off_t_version) MSM_DUMP_TABLE_VERSION in
  let table := dump_vaddr + sizeof_dump_table in
  let phys := u64 (phys + sizeof_dump_table) in
  let* m := store32 m (table + off_t_version) MSM_DUMP_TABLE_VERSION in
  let* (ret, m) := msm_dump_table_register m memdump
                     (MsmDumpEntry MSM_DUMP_TABLE_APPS phys) in
  Some (ret, m, memdump).
