(* ===== verification/DumpTableProofs.v ===== *)
(** * The dump tables: specification and refinement

    [dtable m a es] says that the table at [a] holds the entries [es];
    [dump_inv] that the base table names the apps table behind it.
    Registration appends to the apps table or fails and changes nothing. *)

From S2P Require Import Prelude CMem CStr CText MdApi DumpTable.

#[local] Open Scope Z_scope.

(** ** Representation *)

Record dentry := Dentry { d_id : Z; d_type : Z; d_addr : Z }.

Record entry_at (m : mem) (p : Z) (e : dentry) : Prop := {
  ea_id : ld m (p + off_e_id) 4 = d_id e;
  ea_type : ld m (p + off_e_type) 4 = d_type e;
  ea_addr : ld m (p + off_e_addr) 8 = d_addr e;
}.

Record dtable (m : mem) (a : Z) (es : list dentry) : Prop := {
  dt_len : Z.of_nat (length es) <= MAX_NUM_ENTRIES;
  dt_num : ld m (a + off_t_num_entries) 4 = Z.of_nat (length es);
  dt_entries i e : es !! i = Some e -> entry_at m (entry_ptr a (Z.of_nat i)) e;
  dt_lo : m_lo m <= a;
  dt_hi : a + sizeof_dump_table <= m_hi m;
}.

Definition apps_entry (phys : Z) : dentry :=
  Dentry MSM_DUMP_TABLE_APPS MSM_DUMP_TYPE_TABLE (phys + sizeof_dump_table).

(** The dump tables at [base], physical address [phys], with the apps entries
    [es]. *)
Record dump_inv (m : mem) (md : msm_memory_dump) (base phys : Z) (es : list dentry) : Prop := {
  di_md : md = MsmMemoryDump phys (Some base);
  di_base : dtable m base [apps_entry phys];
  di_free i : 1 <= i < MAX_NUM_ENTRIES -> ld m (entry_ptr base i + off_e_id) 4 = 0;
  di_apps : dtable m (base + sizeof_dump_table) es;
  di_phys : 0 <= phys /\ phys + sizeof_dump_table < 18446744073709551616;
  di_addr : 0 < base /\ base + 2 * sizeof_dump_table <= 18446744073709551616;
}.

Record entry_ok (e : msm_dump_entry) : Prop := {
  eo_id : 0 <= de_id e < 4294967296;
  eo_addr : 0 <= de_addr e < 18446744073709551616;
}.

Definition data_entry (e : msm_dump_entry) (ty : Z) : dentry := Dentry (de_id e) ty (de_addr e).

(** What registration means. *)
Definition register_entry (es : list dentry) (id : Z) (e : msm_dump_entry) : Z * list dentry :=
  if negb (id =? MSM_DUMP_TABLE_APPS) then (- EINVAL, es)
  else if MAX_NUM_ENTRIES <=? Z.of_nat (length es) then (- EINVAL, es)
  else (0, es ++ [data_entry e MSM_DUMP_TYPE_DATA]).

#[local] Ltac unfold_layout :=
  unfold entry_ptr, sizeof_dump_table, off_t_entries, sizeof_dump_entry, off_t_num_entries,
    off_t_version, off_e_id, off_e_type, off_e_addr, MAX_NUM_ENTRIES in *.

(** ** Frames *)

Lemma entry_at_frame lo hi m m' p e :
  mod_only lo hi m m' -> p + sizeof_dump_entry <= lo \/ hi <= p ->
  entry_at m p e -> entry_at m' p e.
Proof.
  intros Hm Hd [H1 H2 H3]. unfold_layout.
  split; unfold_layout; rewrite (ld_mod_only lo hi m m') by (done || lia); done.
Qed.

Lemma dtable_frame lo hi m m' a es :
  mod_only lo hi m m' -> a + sizeof_dump_table <= lo \/ hi <= a -> dtable m a es -> dtable m' a es.
Proof.
  intros Hm Hd [H1 H2 H3 H4 H5]. pose proof Hm as (El & Eh & _).
  split; try done; try lia.
  - rewrite (ld_mod_only lo hi m m' _ _ Hm); [done|]. unfold_layout. lia.
  - intros i e He. pose proof (lookup_lt_Some _ _ _ He).
    eapply entry_at_frame; [done| |by apply H3]. unfold_layout. lia.
Qed.

(** ** Appending *)

Lemma append_entry_ok m a es e ty :
  dtable m a es -> Z.of_nat (length es) < MAX_NUM_ENTRIES -> entry_ok e -> 0 <= ty < 4294967296 ->
  exists m', append_entry m a (Z.of_nat (length es)) e ty = Some m' /\
    dtable m' a (es ++ [data_entry e ty]) /\
    mod_only a (entry_ptr a (Z.of_nat (length es)) + sizeof_dump_entry) m m'.
Proof.
  intros [Hlen Hnum Hes Hlo Hhi] Hlt [Hid Had] Hty. unfold append_entry. unfold_layout.
  do 2 (rewrite store32_ok by (autorewrite with mem_bounds; lia); cbv beta match).
  rewrite store64_ok by (autorewrite with mem_bounds; lia). cbv beta match.
  rewrite load32_ok by (autorewrite with mem_bounds; lia). cbv beta match.
  mem_simpl. rewrite Hnum, u32_small by lia.
  rewrite store32_ok by (autorewrite with mem_bounds; lia).
  eexists. split_and!; [reflexivity| |frame].
  split; unfold_layout; rewrite ?length_app; simpl length; autorewrite with mem_bounds; try lia.
  - mem_simpl. lia.
  - intros i x [Hx|[Hx Hy]]%lookup_app_Some.
    + pose proof (lookup_lt_Some _ _ _ Hx). destruct (Hes _ _ Hx).
      split; unfold_layout; by mem_simpl.
    + apply list_lookup_singleton_Some in Hy as [Hi <-].
      assert (i = length es) as -> by lia. split; unfold_layout; simpl; by mem_simpl.
Qed.

(** ** Finding a table *)

Lemma find_table_entry_none n m a id i :
  m_lo m <= a -> a + sizeof_dump_table <= m_hi m ->
  0 <= i -> i + Z.of_nat n <= MAX_NUM_ENTRIES ->
  (forall j, i <= j < i + Z.of_nat n -> ld m (entry_ptr a j + off_e_id) 4 <> id) ->
  find_table_entry n m a id i = Some (i + Z.of_nat n).
Proof.
  intros Hlo Hhi. revert i. induction n as [|n IH]; intros i Hi Hn Hne; simpl.
  { f_equal. lia. }
  rewrite load32_ok by (unfold_layout; lia).
  pose proof (Hne i ltac:(lia)) as Hx. apply Z.eqb_neq in Hx. rewrite Hx.
  rewrite IH by (try lia; intros; apply Hne; lia). f_equal. lia.
Qed.

Section Inv.
Context (m : mem) (md : msm_memory_dump) (base phys : Z) (es : list dentry).
Context (Hinv : dump_inv m md base phys es).

Lemma msm_dump_get_table_apps :
  msm_dump_get_table m md MSM_DUMP_TABLE_APPS = Some (inr (base + sizeof_dump_table)).
Proof.
  destruct Hinv as [-> [_ _ He Hlo Hhi] _ _ [Hp1 Hp2] [Ha1 Ha2]].
  destruct (He 0%nat _ eq_refl) as [Hid _ Had].
  unfold msm_dump_get_table. cbn [mtable table_phys].
  change (Z.to_nat MAX_NUM_ENTRIES) with (S 335). cbn [find_table_entry].
  change (Z.of_nat 0) with 0 in *.
  rewrite load32_ok by (unfold_layout; lia). rewrite Hid. simpl Z.eqb. cbv beta match.
  rewrite load64_ok by (unfold_layout; lia). rewrite Had. unfold apps_entry, d_addr. cbv beta match.
  change (0 =? MAX_NUM_ENTRIES) with false. cbv beta match.
  unfold_layout. decide_tests.
  rewrite (u64_small (phys + _ - phys)), u64_small by lia. do 2 f_equal. lia.
Qed.

Lemma msm_dump_get_table_other id :
  id <> MSM_DUMP_TABLE_APPS -> msm_dump_get_table m md id = Some (inl (- EINVAL)).
Proof.
  intros Hne. destruct Hinv as [-> [_ _ He Hlo Hhi] Hfree _ _ _].
  destruct (He 0%nat _ eq_refl) as [Hid _ _].
  unfold msm_dump_get_table. cbn [mtable].
  change (Z.of_nat 0) with 0 in *.
  rewrite (find_table_entry_none (Z.to_nat MAX_NUM_ENTRIES)); try done.
  intros j Hj. destruct (decide (j = 0)) as [->|].
  - rewrite Hid. by intros <-.
  - rewrite Hfree by (unfold MAX_NUM_ENTRIES in *; lia). by intros <-.
Qed.

Lemma register_dump_table_entry_refines id e :
  entry_ok e ->
  let '(ret, es') := register_entry es id e in
  exists m', register_dump_table_entry m md id e = Some (ret, m') /\
    dump_inv m' md base phys es' /\ (ret <> 0 -> m' = m) /\
    mod_only (base + sizeof_dump_table) (base + 2 * sizeof_dump_table) m m'.
Proof.
  intros He. unfold register_entry, register_dump_table_entry.
  destruct (Z.eqb_spec id MSM_DUMP_TABLE_APPS) as [->|Hne]; simpl.
  2:{ rewrite msm_dump_get_table_other by done. eexists. eauto using mod_only_refl. }
  rewrite msm_dump_get_table_apps. pose proof Hinv as [Hmd Hbase Hfree Happs Hp Ha].
  pose proof Happs as [Hlen Hnum _ Hlo Hhi].
  assert (base + sizeof_dump_table <> 0) as Hnz%Z.eqb_neq by (unfold_layout; lia). rewrite Hnz.
  rewrite load32_ok by (unfold_layout; lia). rewrite Hnum.
  destruct (Z.leb_spec MAX_NUM_ENTRIES (Z.of_nat (length es))) as [|Hlt].
  { eexists. eauto using mod_only_refl. }
  destruct (append_entry_ok _ _ _ e MSM_DUMP_TYPE_DATA Happs Hlt He) as (m' & -> & Happs' & Hmod);
    [done|].
  apply (mod_only_weaken _ _ (base + sizeof_dump_table) (base + sizeof_dump_table + sizeof_dump_table))
    in Hmod; [|lia|unfold_layout; lia].
  replace (base + 2 * sizeof_dump_table) with (base + sizeof_dump_table + sizeof_dump_table) by lia.
  eexists. split_and!; [done| |done|done].
  split; try done.
  - eapply dtable_frame; [done|lia|done].
  - intros i Hi. rewrite (ld_mod_only _ _ _ _ _ _ Hmod); [by apply Hfree|]. unfold_layout. lia.
Qed.
End Inv.

(** ** Registration of data with its minidump entry *)

Section Register.
Context {S : Type} `{MdApi S} (phys_to_virt : Z -> Z).

(** The header of a data block lies in the memory. *)
Definition data_in (km : mem) (e : msm_dump_entry) : Prop :=
  m_lo km <= phys_to_virt (de_addr e) /\
  phys_to_virt (de_addr e) + MSM_DUMP_DATA_SIZE <= m_hi km.

(** Translation gives an address. *)
Definition translates : Prop :=
  forall a, 0 <= a < 18446744073709551616 -> 0 <= phys_to_virt a < 18446744073709551616.

Lemma msm_dump_data_add_minidump_total km e s :
  translates -> 0 <= de_id e -> data_in km e -> md_inv s ->
  exists ret s', msm_dump_data_add_minidump phys_to_virt km e s = Some (ret, s') /\ md_inv s' /\
    ((ret < 0 /\ s' = s) \/ (ret = md_regions_count s /\ md_regions_count s' = ret + 1)).
Proof.
  intros Htr Hid [Hlo Hhi] Hs. unfold msm_dump_data_add_minidump, MSM_DUMP_DATA_SIZE in *.
  rewrite !load64_ok by (unfold off_d_addr, off_d_len; lia).
  case_match; [eexists _, _; split_and!; eauto; left; done|].
  unfold load8 at 1, in_range.
  replace ((m_lo km <=? phys_to_virt (de_addr e) + off_d_name) &&
     (phys_to_virt (de_addr e) + off_d_name + 1 <=? m_hi km)) with true
    by (unfold off_d_name; symmetry; apply andb_true_iff; lia).
  set (name := if _ =? 0 then _ else _).
  assert (exists nm, name = Some nm /\ no_nul nm = true) as (nm & -> & Hnm).
  { subst name. case_match.
    - eexists. split; [reflexivity|]. apply no_nul_stake. rewrite no_nul_app.
      by apply no_nul_fmt_X.
    - edestruct load_cstr_total as [src Hsrc]; [| |rewrite Hsrc];
        [unfold off_d_name, MAX_NAME_LENGTH; lia..|].
      eexists. split; [reflexivity|]. by eapply no_nul_strscpy, no_nul_load_cstr. }
  destruct (add_region_contract (MdRegion nm (de_id e)
    (phys_to_virt (ld km (phys_to_virt (de_addr e) + off_d_addr) 8))
    (ld km (phys_to_virt (de_addr e) + off_d_addr) 8)
    (ld km (phys_to_virt (de_addr e) + off_d_len) 8)) s Hs)
    as (ret & s' & -> & Hs' & Hc).
  { split; simpl; [done|apply Htr| |]; apply (ld_range km _ 8). }
  eexists _, _. split_and!; [done..|]. destruct Hc as [?|(? & ? & _ & ?)]; auto.
Qed.

Lemma msm_dump_data_register_refines m md base phys es km id e s :
  translates -> dump_inv m md base phys es -> entry_ok e -> data_in km e -> md_inv s ->
  let '(ret, es') := register_entry es id e in
  exists m' s', msm_dump_data_register phys_to_virt m md km id e s = Some (ret, m', s') /\
    dump_inv m' md base phys es' /\ md_inv s' /\
    (ret <> 0 -> m' = m /\ s' = s) /\
    (s' = s \/ md_regions_count s' = md_regions_count s + 1).
Proof.
  intros Htr Hinv He Hd Hs. unfold msm_dump_data_register.
  pose proof (register_dump_table_entry_refines _ _ _ _ _ Hinv id e He) as Hr.
  destruct (register_entry es id e) as [ret es'].
  destruct Hr as (m' & -> & Hinv' & Herr & _).
  destruct (Z.eqb_spec ret 0) as [->|Hne].
  - destruct (msm_dump_data_add_minidump_total km e s Htr (proj1 (eo_id _ He)) Hd Hs) as (r2 & s' & -> & Hs' & Hc).
    eexists _, _. split_and!; [done..|]. destruct Hc as [[_ ->]|[-> ->]]; auto.
  - eexists _, _. split_and!; [done..|by auto|by left].
Qed.
End Register.

(** ** Setting the tables up *)

Lemma init_memory_dump_ok m base phys :
  m_lo m <= base -> base + 2 * sizeof_dump_table <= m_hi m ->
  (forall a, base <= a < base + 2 * sizeof_dump_table -> byte m a = 0) ->
  0 <= phys /\ phys + sizeof_dump_table < 18446744073709551616 ->
  0 < base /\ base + 2 * sizeof_dump_table <= 18446744073709551616 ->
  exists m' md, init_memory_dump m base phys = Some (0, m', md) /\ dump_inv m' md base phys [] /\
    mod_only base (base + 2 * sizeof_dump_table) m m'.
Proof.
  intros Hlo Hhi Hz Hp Ha. unfold init_memory_dump.
  assert (forall b k, base <= b -> b + Z.of_nat k <= base + 2 * sizeof_dump_table -> ld m b k = 0) as Hld.
  { intros b k ??. rewrite (ld_digits m b k 0); [by rewrite Z.mod_0_l by lia|].
    intros i Hi. rewrite Hz by lia. by rewrite Z.div_0_l by lia. }
  assert (sizeof_dump_table = 16136) as Hsz by done.
  rewrite !store32_ok by (autorewrite with mem_bounds; unfold off_t_version; lia). cbv beta match.
  rewrite (u64_small (phys + _)) by lia.
  set (m1 := st (st m _ 4 _) _ 4 _).
  assert (mod_only base (base + 2 * sizeof_dump_table) m m1) as Hm1
    by (subst m1; unfold off_t_version; frame).
  assert (dtable m1 base []) as Hb.
  { subst m1. split; unfold_layout; autorewrite with mem_bounds; simpl; try lia; try done.
    mem_simpl. apply Hld; unfold_layout; lia. }
  cbv beta match. unfold msm_dump_table_register; cbn [mtable].
  rewrite load32_ok by (destruct Hb; unfold_layout; lia). rewrite (dt_num _ _ _ Hb).
  change (MAX_NUM_ENTRIES <=? Z.of_nat (length [])) with false. cbv beta match.
  destruct (append_entry_ok _ _ _ (MsmDumpEntry MSM_DUMP_TABLE_APPS (phys + sizeof_dump_table))
    MSM_DUMP_TYPE_TABLE Hb) as (m' & -> & Hb' & Hmod); [done|split; unfold MSM_DUMP_TABLE_APPS; simpl; lia|done|].
  eexists _, _. split_and!; [done| |].
  2:{ eapply mod_only_trans; [done|]. eapply mod_only_weaken; [| |done]; unfold_layout; simpl; lia. }
  unfold_layout. simpl in Hmod. split; unfold_layout; try done; try lia.
  - intros i Hi. rewrite (ld_mod_only _ _ _ _ _ _ Hmod) by lia. subst m1.
    unfold off_t_version. mem_simpl. apply Hld; lia.
  - subst m1. eapply dtable_frame; [exact Hmod|unfold_layout; lia|].
    split; unfold_layout; autorewrite with mem_bounds; simpl; try lia; try done.
    mem_simpl. apply Hld; lia.
Qed.
