(* ===== verification/MemDumpAlloc.v ===== *)
(** * Probing the memory dump driver (memory_dump_v2.c, lines 733-778, 937-1135)

    The driver computes the size of its dump memory from the device tree,
    sets up the dump tables in it and gives every child node a block: a
    [struct msm_dump_data] header and the data.  The CPU subsystem nodes also
    become the tables the sysfs handlers work on.

    What the kernel answers is an argument: the device-tree properties and
    the allocations of a node ([child]), the reserved memory, the coherent
    block, the outcome of [device_create_file] ([env]). *)

From S2P Require Import Prelude CMem CStr CText MdApi CpussData RegDump SprDump DumpTable.

#[local] Open Scope string_scope.
#[local] Open Scope list_scope.
#[local] Open Scope Z_scope.

(** ** Data *)

Definition PERCORE_REG_INITIALIZED : Z := 1.
Definition SPRS_INITIALIZED : Z := 2.
Definition SZ_4K : Z := 4096.

(** A child node: [of_property_read_u32] returns an error ([inl]) or the value;
    [cn_alloc_data] and [cn_alloc_table] say whether the allocation of the
    driver data and of the table for this node succeed. *)
Record child := Child {
  cn_name : string;
  cn_size : Z + Z;
  cn_id : Z + Z;
  cn_alloc_data : bool;
  cn_alloc_table : bool;
}.

Record env := Env {
  (** [None]: no memory-region phandle; otherwise the result of
      [of_reserved_mem_device_init_by_idx] *)
  reserved_mem : option Z;
  (** [dmam_alloc_coherent]: the block and its physical address *)
  alloc_coherent : Z -> option (mem * Z);
  (** [device_create_file] *)
  create_file : string -> Z;
  (** the stack word [md_entry.id] is left with *)
  stack_id : Z;
}.

(** ** sysfs files *)

Definition register_dump_attrs : list string :=
  ["core_reg_num"; "register_config"; "register_reset"; "format_version"].

Definition spr_dump_attrs : list string :=
  ["spr_config"; "sprs_register_reset"; "sprs_format_version"].

Section Files.
Context (create_file : string -> Z).

Definition device_remove_file (files : list string) (attr : string) : list string :=
  filter (fun f => f <> attr) files.

(** The loop from index [i]; [done] are the attributes created so far. *)
Fixpoint create_files_loop (attrs done files : list string) : Z * list string :=
  match attrs with
  | [] => (0, files)
  | a :: attrs' =>
      let ret := create_file a in
      if negb (ret =? 0) then (ret, foldl device_remove_file files done)
      else create_files_loop attrs' (done ++ [a]) (files ++ [a])
  end.

Definition memory_dump_create_files (attrs files : list string) : Z * list string :=
  create_files_loop attrs [] files.

Definition cpuss_create_nodes (initialized : Z) (files : list string) : list string :=
  let files :=
    if negb (Z.land initialized PERCORE_REG_INITIALIZED =? 0)
    then (memory_dump_create_files register_dump_attrs files).2 else files in
  if negb (Z.land initialized SPRS_INITIALIZED =? 0)
  then (memory_dump_create_files spr_dump_attrs files).2 else files.
End Files.

(** ** The CPU subsystem tables *)

Definition cpuss_regdump_init (d : device) (vaddr size : Z) (alloc : bool) : option (Z * device) :=
  let* c := drvdata d in
  let r := if alloc then Some (CpussRegdumpData vaddr size 0 0 0 0 0) else None in
  Some (if alloc then 0 else - ENOMEM,
        set_drvdata d (CpussDumpData (mutex c) r (sprdata c))).

Definition sprs_dump_init (d : device) (vaddr size id : Z) (alloc : bool) : option (Z * device) :=
  let* c := drvdata d in
  let core_num := id - SPR_DUMP_CPU0 in
  let s := if alloc then Some (SprsDumpData vaddr size 0 0) else None in
  let* l := setZ (sprdata c) core_num s in
  Some (if alloc then 0 else - ENOMEM,
        set_drvdata d (CpussDumpData (mutex c) (cpussregdata c) l)).

(** A fresh [struct cpuss_dump_data] after [mutex_init]. *)
Definition new_cpudata : cpuss_dump_data :=
  CpussDumpData false None (replicate (Z.to_nat MAX_CORE_NUM) None).

(** [initialized] is the function's static variable. *)
Definition cpuss_dump_init (d : device) (initialized vaddr size id : Z) (c : child)
  : option (Z * device) :=
  let d1 :=
    match drvdata d with
    | Some _ => Some d
    | None => if cn_alloc_data c then Some (set_drvdata d new_cpudata) else None
    end in
  match d1 with
  | None => Some (initialized, d)
  | Some d =>
      if id =? CPUSS_REGDUMP then
        let* (ret, d) := cpuss_regdump_init d vaddr size (cn_alloc_table c) in
        Some (if ret =? 0 then Z.lor initialized PERCORE_REG_INITIALIZED else initialized, d)
      else
        let* (ret, d) := sprs_dump_init d vaddr size id (cn_alloc_table c) in
        Some (if ret =? 0 then Z.lor initialized SPRS_INITIALIZED else initialized, d)
  end.

(** ** mem_dump_alloc *)

Definition mem_dump_reserve_mem (e : env) : Z :=
  match reserved_mem e with
  | Some ret => if negb (ret =? 0) then ret else 0
  | None => 0
  end.

(** The first loop: the total size and the number of nodes with a size. *)
Fixpoint sum_sizes (nodes : list child) (total n : Z) : Z * Z :=
  match nodes with
  | [] => (total, n)
  | c :: nodes' =>
      match cn_size c with
      | inl _ => sum_sizes nodes' total n
      | inr size => sum_sizes nodes' (u64 (total + size)) (n + 1)
      end
  end.

Definition total_size (nodes : list child) : Z :=
  let '(total, n) := sum_sizes nodes (sizeof_dump_table * 2) 0 in
  ALIGN (u64 (total + MSM_DUMP_DATA_SIZE * n)) SZ_4K.

(** The locals of the second loop, the device and the static variable. *)
Record alloc_state := AllocState {
  as_dev : device;
  as_static : Z;
  as_vaddr : Z;
  as_phys : Z;
  as_ret : Z;
  as_init : Z;
}.

(** [id == CPUSS_REGDUMP || (id >= SPR_DUMP_CPU0 && id <= SPR_DUMP_CPU7)] *)
Definition is_cpuss_id (id : Z) : bool :=
  (id =? CPUSS_REGDUMP) || ((SPR_DUMP_CPU0 <=? id) && (id <=? SPR_DUMP_CPU7)).

Definition set_ret (st : alloc_state) (ret : Z) : alloc_state :=
  AllocState (as_dev st) (as_static st) (as_vaddr st) (as_phys st) ret (as_init st).

(** The body of the second loop. *)
Definition alloc_node (memdump : msm_memory_dump) (st : alloc_state) (c : child)
  : option alloc_state :=
  match cn_size c with
  | inl err => Some (set_ret st err)
  | inr size =>
      match cn_id c with
      | inl err => Some (set_ret st err)
      | inr id =>
          let vaddr := as_vaddr st in
          let phys := as_phys st in
          let* m := store64 (dma (as_dev st)) (vaddr + off_d_addr) (u64 (phys + MSM_DUMP_DATA_SIZE)) in
          let* m := store64 m (vaddr + off_d_len) size in
          let* (_, m) := strscpy_to m (vaddr + off_d_name) (cn_name c) 32 in
          let* (ret, m) := msm_dump_data_register_nominidump m memdump MSM_DUMP_TABLE_APPS
                             (MsmDumpEntry id phys) in
          let d := set_dma (as_dev st) m in
          let* (static, init, d) :=
            if is_cpuss_id id then
              let* (i, d) := cpuss_dump_init d (as_static st) (vaddr + MSM_DUMP_DATA_SIZE) size id c in
              Some (i, i, d)
            else Some (as_static st, as_init st, d) in
          Some (AllocState d static (vaddr + (size + MSM_DUMP_DATA_SIZE))
                  (u64 (phys + (size + MSM_DUMP_DATA_SIZE))) ret init)
      end
  end.

Fixpoint alloc_nodes (memdump : msm_memory_dump) (st : alloc_state) (nodes : list child)
  : option alloc_state :=
  match nodes with
  | [] => Some st
  | c :: nodes' =>
      let* st := alloc_node memdump st c in
      alloc_nodes memdump st nodes'
  end.

Section Probe.
Context {S : Type} `{MdApi S}.

(** The driver's globals, the device, its sysfs files and the minidump
    registry. *)
Record driver := Driver {
  drv_dev : device;
  drv_memdump : msm_memory_dump;
  drv_static : Z;
  drv_files : list string;
  drv_md : S;
}.

Definition mem_dump_alloc (e : env) (nodes : list child) (g : driver) : option (Z * driver) :=
  if negb (mem_dump_reserve_mem e =? 0) then Some (- ENOMEM, g)
  else
    let total := total_size nodes in
    match alloc_coherent e total with
    | None => Some (- ENOMEM, g)
    | Some (m, phys) =>
        let vaddr := m_lo m in
        let* m := memset m vaddr 0x0 total in
        let* (ret, m, memdump) := init_memory_dump m vaddr phys in
        let d := Device m (drvdata (drv_dev g)) in
        if negb (ret =? 0) then
          Some (ret, Driver d memdump (drv_static g) (drv_files g) (drv_md g))
        else
          let* st := alloc_nodes memdump
            (AllocState d (drv_static g) (vaddr + sizeof_dump_table * 2)
               (u64 (phys + sizeof_dump_table * 2)) ret 0) nodes in
          let* (_, md) := msm_minidump_add_region
            (MdRegion (strscpy "MEMDUMP" (MAX_NAME_LENGTH + 1)).1 (stack_id e) vaddr phys total)
            (drv_md g) in
          let files := cpuss_create_nodes (create_file e) (as_init st) (drv_files g) in
          let* d :=
            if negb (Z.land (as_init st) SPRS_INITIALIZED =? 0) then
              let* (_, d) := reset_sprs_dump_table (as_dev st) in Some d
            else Some (as_dev st) in
          Some (as_ret st, Driver d memdump (as_static st) files md)
    end.

(** [mask] is the result of [dma_set_mask_and_coherent]. *)
Definition mem_dump_probe (e : env) (mask : Z) (nodes : list child) (g : driver)
  : option (Z * driver) :=
  if mask <? 0 then Some (mask, g) else mem_dump_alloc e nodes g.
End Probe.
Arguments driver : clear implicits.
