(* ===== verification/MemDumpAllocProofs.v ===== *)
(** * The layout of the dump memory

    [mem_dump_alloc] gives every complete node one block; the blocks follow
    the two dump tables, in node order, without overlap and inside the
    allocation.  The apps table names the block headers, and the tables of
    the sysfs handlers are the data areas of the blocks with their ids:
    [cpuss_exact] says which, when the allocations for them are granted. *)

From S2P Require Import Prelude CMem CStr CText MdApi CpussData RegDump RegDumpSpec RegDumpProofs.
From S2P Require Import SprDump SprProofs DumpTable DumpTableProofs MemDumpAlloc.

#[local] Open Scope list_scope.
#[local] Open Scope Z_scope.

(** ** Blocks *)

(** A block lies [b_off] bytes behind the start of the dump memory. *)
Record block := Block { b_off : Z; b_size : Z; b_id : Z; b_name : string }.

Definition b_end (b : block) : Z := b_off b + MSM_DUMP_DATA_SIZE + b_size b.

(** The block of a node, if its properties could be read. *)
Definition node_block (off : Z) (c : child) : option block :=
  match cn_size c, cn_id c with
  | inr size, inr id => Some (Block off size id (cn_name c))
  | _, _ => None
  end.

Fixpoint layout (off : Z) (nodes : list child) : list block :=
  match nodes with
  | [] => []
  | c :: nodes' =>
      match node_block off c with
      | Some b => b :: layout (b_end b) nodes'
      | None => layout off nodes'
      end
  end.

(** The bytes the nodes are counted with. *)
Fixpoint span (nodes : list child) : Z :=
  match nodes with
  | [] => 0
  | c :: nodes' =>
      match cn_size c with
      | inr size => MSM_DUMP_DATA_SIZE + size + span nodes'
      | inl _ => span nodes'
      end
  end.

Definition child_ok (c : child) : Prop :=
  (forall size, cn_size c = inr size -> 0 <= size < 4294967296) /\
  (forall id, cn_id c = inr id -> 0 <= id < 4294967296).

Definition block_apart (b b' : block) : Prop := b_end b <= b_off b' \/ b_end b' <= b_off b.

(** The header the driver writes in front of the data. *)
Record header_at (m : mem) (base phys : Z) (b : block) : Prop := {
  h_addr : ld m (base + b_off b + off_d_addr) 8 = phys + b_off b + MSM_DUMP_DATA_SIZE;
  h_len : ld m (base + b_off b + off_d_len) 8 = b_size b;
  h_name : cstr_at m (base + b_off b + off_d_name) (strscpy (b_name b) 32).1;
}.

Definition block_entry (phys : Z) (b : block) : dentry :=
  Dentry (b_id b) MSM_DUMP_TYPE_DATA (phys + b_off b).

(** The entries that fit in the apps table. *)
Definition block_entries (phys : Z) (bs : list block) : list dentry :=
  take (Z.to_nat MAX_NUM_ENTRIES) (map (block_entry phys) bs).

Lemma child_ok_span nodes : Forall child_ok nodes -> 0 <= span nodes.
Proof.
  induction 1 as [|c nodes [Hs _] _ IH]; simpl; [lia|].
  destruct (cn_size c) as [|size] eqn:E; [done|]. specialize (Hs size eq_refl).
  unfold MSM_DUMP_DATA_SIZE. lia.
Qed.

Lemma sum_sizes_span nodes total n :
  Forall child_ok nodes -> 0 <= total -> 0 <= n ->
  total + span nodes + MSM_DUMP_DATA_SIZE * n < 18446744073709551616 ->
  let '(t, k) := sum_sizes nodes total n in
  t + MSM_DUMP_DATA_SIZE * k = total + MSM_DUMP_DATA_SIZE * n + span nodes.
Proof.
  intros Hok. revert total n. induction Hok as [|c nodes [Hs _] Hok IH]; intros total n Ht Hn Hlt;
    simpl; [lia|]. unfold MSM_DUMP_DATA_SIZE in *. pose proof (child_ok_span _ Hok) as Hsp.
  unfold MSM_DUMP_DATA_SIZE in *. simpl in Hlt.
  destruct (cn_size c) as [|size] eqn:E; rewrite ?E in Hlt; [by apply IH|].
  unfold MSM_DUMP_DATA_SIZE in Hlt. specialize (Hs size eq_refl).
  rewrite u64_small by lia. specialize (IH (total + size) (n + 1)).
  destruct (sum_sizes _ _ _). rewrite IH; lia.
Qed.

Lemma ALIGN_4K x :
  0 <= x -> x + 4095 < 18446744073709551616 ->
  x <= ALIGN x SZ_4K < x + 4096 /\ ALIGN x SZ_4K mod 4096 = 0.
Proof.
  intros Hx Hlt.
  assert (ALIGN x SZ_4K = (x + 4095) / 4096 * 4096) as ->.
  { unfold ALIGN, SZ_4K. change (4096 - 1) with (Z.ones 12).
    rewrite u64_small by (change (Z.ones 12) with 4095; lia).
    rewrite Z.ldiff_ones_r, Z.shiftl_mul_pow2, Z.shiftr_div_pow2 by lia. done. }
  rewrite Z.mod_mul by lia. pose proof (Z.div_mod (x + 4095) 4096 ltac:(lia)).
  pose proof (Z.mod_pos_bound (x + 4095) 4096 ltac:(lia)). lia.
Qed.

(** The allocation holds the tables and every counted node, in whole pages. *)
Lemma total_size_ok nodes :
  Forall child_ok nodes -> 2 * sizeof_dump_table + span nodes < 1152921504606846976 ->
  2 * sizeof_dump_table + span nodes <= total_size nodes
    < 2 * sizeof_dump_table + span nodes + 4096 /\
  total_size nodes mod 4096 = 0.
Proof.
  intros Hok Hlt. pose proof (child_ok_span _ Hok). unfold total_size.
  assert (sizeof_dump_table = 16136) as Hs by done.
  pose proof (sum_sizes_span nodes (sizeof_dump_table * 2) 0 Hok) as Hsum.
  destruct (sum_sizes _ _ _) as [t k].
  rewrite Hsum by (unfold MSM_DUMP_DATA_SIZE; lia). rewrite u64_small by (unfold MSM_DUMP_DATA_SIZE; lia).
  pose proof (ALIGN_4K (sizeof_dump_table * 2 + MSM_DUMP_DATA_SIZE * 0 + span nodes)).
  unfold MSM_DUMP_DATA_SIZE in *. lia.
Qed.

(** ** The second loop *)

(** The CPU subsystem tables are data areas of blocks. *)
Record tables_of (base : Z) (bs : list block) (c : cpuss_dump_data) : Prop := {
  to_mutex : mutex c = false;
  to_len : Z.of_nat (length (sprdata c)) = MAX_CORE_NUM;
  to_reg r : cpussregdata c = Some r ->
    exists b, b ∈ bs /\ b_id b = CPUSS_REGDUMP /\
      r = CpussRegdumpData (base + b_off b + MSM_DUMP_DATA_SIZE) (b_size b) 0 0 0 0 0;
  to_spr i s : sprdata c !! i = Some (Some s) ->
    exists b, b ∈ bs /\ b_id b = SPR_DUMP_CPU0 + Z.of_nat i /\
      s = SprsDumpData (base + b_off b + MSM_DUMP_DATA_SIZE) (b_size b) 0 0;
}.

Definition device_ok (base : Z) (bs : list block) (init : Z) (dd : option cpuss_dump_data) : Prop :=
  match dd with
  | None => True
  | Some c =>
      tables_of base bs c /\
      (Z.land init SPRS_INITIALIZED = 0 -> forall i s, sprdata c !! i <> Some (Some s))
  end.

(** Blocks in the dump memory, behind the tables and up to [off]. *)
Record blocks_ok (off : Z) (bs : list block) : Prop := {
  bk_range b : b ∈ bs -> 2 * sizeof_dump_table <= b_off b /\ b_end b <= off /\
    0 <= b_size b < 4294967296;
  bk_apart b b' : b ∈ bs -> b' ∈ bs -> b = b' \/ block_apart b b';
}.

Record loop_inv (md : msm_memory_dump) (base phys hi : Z) (bs : list block) (off : Z)
  (st : alloc_state) : Prop := {
  li_vaddr : as_vaddr st = base + off;
  li_phys : as_phys st = phys + off;
  li_off : 2 * sizeof_dump_table <= off <= hi;
  li_lo : m_lo (dma (as_dev st)) <= base;
  li_hi : base + hi <= m_hi (dma (as_dev st));
  li_tables : dump_inv (dma (as_dev st)) md base phys (block_entries phys bs);
  li_blocks : blocks_ok off bs;
  li_headers b : b ∈ bs -> header_at (dma (as_dev st)) base phys b;
  li_static : as_init st = as_static st;
  li_device : device_ok base bs (as_init st) (drvdata (as_dev st));
}.

Lemma header_frame lo hi m m' base phys b :
  mod_only lo hi m m' ->
  base + b_off b + MSM_DUMP_DATA_SIZE <= lo \/ hi <= base + b_off b ->
  header_at m base phys b -> header_at m' base phys b.
Proof.
  intros Hm Hd [H1 H2 H3]. pose proof (slen_strscpy (b_name b) 32 ltac:(lia)).
  unfold off_d_addr, off_d_len, off_d_name, MSM_DUMP_DATA_SIZE in *.
  split; unfold off_d_addr, off_d_len, off_d_name, MSM_DUMP_DATA_SIZE;
    rewrite ?(ld_mod_only lo hi m m' _ _ Hm) by lia; try done.
  eapply cstr_at_frame; [done| |done]. lia.
Qed.

Lemma take_snoc {A} (n : nat) (l : list A) (x : A) :
  take n (l ++ [x]) = if decide (n <= length (take n l))%nat then take n l else take n l ++ [x].
Proof.
  rewrite length_take. case_decide.
  - rewrite take_app_le by lia. done.
  - rewrite !take_ge by (rewrite ?length_app; simpl; lia). done.
Qed.

Lemma block_entries_snoc phys bs b :
  register_entry (block_entries phys bs) MSM_DUMP_TABLE_APPS (MsmDumpEntry (b_id b) (phys + b_off b))
  = (if MAX_NUM_ENTRIES <=? Z.of_nat (length (block_entries phys bs)) then - EINVAL else 0,
     block_entries phys (bs ++ [b])).
Proof.
  unfold register_entry. rewrite Z.eqb_refl. simpl. unfold block_entries at 5.
  rewrite map_app. simpl. rewrite take_snoc. fold (block_entries phys bs).
  destruct (Z.leb_spec MAX_NUM_ENTRIES (Z.of_nat (length (block_entries phys bs)))); case_decide;
    try done; unfold MAX_NUM_ENTRIES in *; lia.
Qed.

(** The header of a new block. *)
Lemma write_header m base phys b :
  m_lo m <= base + b_off b -> base + b_off b + MSM_DUMP_DATA_SIZE <= m_hi m ->
  0 <= phys + b_off b -> phys + b_off b + MSM_DUMP_DATA_SIZE < 18446744073709551616 ->
  0 <= b_size b < 4294967296 ->
  exists m1 m2 m3 r,
    store64 m (base + b_off b + off_d_addr) (u64 (phys + b_off b + MSM_DUMP_DATA_SIZE)) = Some m1 /\
    store64 m1 (base + b_off b + off_d_len) (b_size b) = Some m2 /\
    strscpy_to m2 (base + b_off b + off_d_name) (b_name b) 32 = Some (r, m3) /\
    mod_only (base + b_off b) (base + b_off b + MSM_DUMP_DATA_SIZE) m m3 /\
    header_at m3 base phys b.
Proof.
  unfold MSM_DUMP_DATA_SIZE, off_d_addr, off_d_len, off_d_name. intros Hlo Hhi Hp Hpe Hsz.
  rewrite u64_small, store64_ok by lia.
  set (m2 := st (st m (base + b_off b + 40) 8 (phys + b_off b + 64)) (base + b_off b + 48) 8 (b_size b)).
  destruct (strscpy_to_ok m2 (base + b_off b + 8) (b_name b) 32) as (m3 & Hs & Hm & Hc);
    [lia|subst m2; unfold_bounds; lia..|].
  eexists _, m2, m3, _. split_and!; [done| |done| |].
  - rewrite store64_ok by (unfold_bounds; lia). done.
  - eapply mod_only_trans; [|eapply mod_only_weaken; [| |exact Hm]; lia]. subst m2. frame.
  - split; unfold off_d_addr, off_d_len, off_d_name, MSM_DUMP_DATA_SIZE;
      rewrite ?(ld_mod_only _ _ _ _ _ _ Hm) by lia; try done; subst m2; by mem_simpl.
Qed.

Lemma land_init_reg init :
  Z.land (Z.lor init PERCORE_REG_INITIALIZED) SPRS_INITIALIZED = Z.land init SPRS_INITIALIZED.
Proof. rewrite Z.land_lor_distr_l. apply Z.lor_0_r. Qed.

Lemma land_init_spr init : Z.land (Z.lor init SPRS_INITIALIZED) SPRS_INITIALIZED <> 0.
Proof.
  rewrite Z.land_lor_distr_l. change (Z.land SPRS_INITIALIZED SPRS_INITIALIZED) with 2.
  intros [_ H]%Z.lor_eq_0_iff. done.
Qed.

Lemma tables_of_weaken base bs b c : tables_of base bs c -> tables_of base (bs ++ [b]) c.
Proof.
  intros [H1 H2 H3 H4]. split; try done.
  - intros r Hr. destruct (H3 r Hr) as (x & ? & ?). exists x. rewrite elem_of_app. auto.
  - intros i s Hs. destruct (H4 i s Hs) as (x & ? & ?). exists x. rewrite elem_of_app. auto.
Qed.

Lemma device_ok_weaken base bs b init dd :
  device_ok base bs init dd -> device_ok base (bs ++ [b]) init dd.
Proof. destruct dd; simpl; [|done]. intros [? ?]. split; auto using tables_of_weaken. Qed.

Lemma new_cpudata_ok base bs init : device_ok base bs init (Some new_cpudata).
Proof.
  assert (forall i s, sprdata new_cpudata !! i <> Some (Some s)) as Hnone.
  { intros i s Hs. unfold new_cpudata in Hs. cbn [sprdata] in Hs.
    by apply lookup_replicate in Hs as [? _]. }
  split; [|auto]. split; try done. intros i s Hs. by apply Hnone in Hs.
Qed.

Lemma is_cpuss_id_cases id :
  is_cpuss_id id = true -> id = CPUSS_REGDUMP \/ (id <> CPUSS_REGDUMP /\ 0 <= id - SPR_DUMP_CPU0 < MAX_CORE_NUM).
Proof.
  unfold is_cpuss_id, CPUSS_REGDUMP, SPR_DUMP_CPU0, SPR_DUMP_CPU7, MAX_CORE_NUM. lia.
Qed.

Lemma cpuss_dump_init_some m base bs init b c ch :
  device_ok base bs init (Some c) -> is_cpuss_id (b_id b) = true ->
  exists init' c',
    cpuss_dump_init (Device m (Some c)) init (base + b_off b + MSM_DUMP_DATA_SIZE) (b_size b)
      (b_id b) ch = Some (init', Device m (Some c')) /\
    device_ok base (bs ++ [b]) init' (Some c').
Proof.
  intros [Ht Hi] Hid. pose proof (tables_of_weaken base bs b c Ht) as [W1 W2 W3 W4].
  assert (b ∈ bs ++ [b]) as Hb by (rewrite elem_of_app, list_elem_of_singleton; auto).
  unfold cpuss_dump_init. cbn [drvdata].
  apply is_cpuss_id_cases in Hid as [Hid|[Hid Hr]].
  - rewrite Hid, Z.eqb_refl. unfold cpuss_regdump_init; cbn [drvdata set_drvdata dma].
    eexists _, _. split; [reflexivity|]. split.
    + split; simpl; try done. intros r Hr. destruct (cn_alloc_table ch); [|done].
      injection Hr as <-. exists b. auto.
    + intros Hz. apply Hi. destruct (cn_alloc_table ch); [|done]. by rewrite <- land_init_reg.
  - apply Z.eqb_neq in Hid. rewrite Hid. unfold sprs_dump_init; cbn [drvdata set_drvdata dma].
    rewrite setZ_Some by (rewrite W2; done).
    eexists _, _. split; [reflexivity|]. split.
    + split; simpl; try done; [by rewrite length_insert|]. intros i s Hs.
      apply list_lookup_insert_Some in Hs as [(Hix & Hs & _)|[_ Hs]]; [|by apply W4].
      destruct (cn_alloc_table ch); [|done]. injection Hs as <-.
      exists b. split_and!; [done| |done]. unfold MAX_CORE_NUM in Hr. lia.
    + simpl. destruct (cn_alloc_table ch); intros Hz.
      * by apply land_init_spr in Hz.
      * intros i s Hs. apply list_lookup_insert_Some in Hs as [(_ & Hs & _)|[_ Hs]]; [done|].
        by eapply Hi.
Qed.

Lemma cpuss_dump_init_ok m base bs init b dd ch :
  device_ok base bs init dd -> is_cpuss_id (b_id b) = true ->
  exists init' dd',
    cpuss_dump_init (Device m dd) init (base + b_off b + MSM_DUMP_DATA_SIZE) (b_size b)
      (b_id b) ch = Some (init', Device m dd') /\
    device_ok base (bs ++ [b]) init' dd'.
Proof.
  intros Hok Hid. destruct dd as [c|].
  - destruct (cpuss_dump_init_some m base bs init b c ch Hok Hid) as (i & c' & ? & ?). eauto.
  - destruct (cn_alloc_data ch) eqn:Ha.
    + destruct (cpuss_dump_init_some m base bs init b new_cpudata ch (new_cpudata_ok _ _ _) Hid)
        as (i & c' & Hc & ?).
      unfold cpuss_dump_init in *. cbn [drvdata] in *. rewrite Ha. eauto.
    + unfold cpuss_dump_init. cbn [drvdata]. rewrite Ha. by eexists _, _.
Qed.

Lemma blocks_ok_snoc off bs b :
  blocks_ok off bs -> b_off b = off -> 2 * sizeof_dump_table <= off ->
  0 <= b_size b < 4294967296 -> blocks_ok (b_end b) (bs ++ [b]).
Proof.
  intros [Hr Ha] Ho Hoff Hs. unfold block_apart, b_end, MSM_DUMP_DATA_SIZE in *.
  split; unfold block_apart, b_end, MSM_DUMP_DATA_SIZE.
  - intros x [Hx| ->%list_elem_of_singleton]%elem_of_app; [destruct (Hr x Hx)|]; lia.
  - intros x y [Hx| ->%list_elem_of_singleton]%elem_of_app
      [Hy| ->%list_elem_of_singleton]%elem_of_app; auto.
    + destruct (Hr x Hx). right. lia.
    + destruct (Hr y Hy). right. lia.
Qed.

Section Loop.
Context (md : msm_memory_dump) (base phys hi : Z).
Context (Hphys : 0 <= phys) (Hphi : phys + hi < 18446744073709551616).

(** A node without a size or an id is skipped. *)
Lemma alloc_node_skip bs off st err :
  loop_inv md base phys hi bs off st -> loop_inv md base phys hi bs off (set_ret st err).
Proof. intros []. by split. Qed.

Lemma alloc_node_block bs off st c b :
  loop_inv md base phys hi bs off st -> child_ok c -> node_block off c = Some b ->
  b_end b <= hi ->
  exists st', alloc_node md st c = Some st' /\
    loop_inv md base phys hi (bs ++ [b]) (b_end b) st'.
Proof.
  intros [Hv Hp Hoff Hlo Hhi Htab Hbk Hhd Hst Hdev] [Hcs Hci] Hb Hend.
  unfold node_block in Hb. unfold alloc_node.
  destruct (cn_size c) as [|size] eqn:Es; [done|]. destruct (cn_id c) as [|id] eqn:Ei; [done|].
  injection Hb as <-. specialize (Hcs _ eq_refl). specialize (Hci _ eq_refl).
  set (b := Block off size id (cn_name c)) in *. change (b_end b) with (off + MSM_DUMP_DATA_SIZE + size) in *.
  rewrite Hv, Hp. assert (sizeof_dump_table = 16136) as Hsz by done.
  assert (MSM_DUMP_DATA_SIZE = 64) as H64 by done.
  destruct (write_header (dma (as_dev st)) base phys b) as (m1 & m2 & m3 & r & E1 & E2 & E3 & Hm & Hh);
    [simpl; lia..|].
  simpl in E1, E2, E3, Hm. rewrite E1, E2, E3. cbv beta match.
  pose proof Hm as (Hml & Hmh & _).
  assert (dump_inv m3 md base phys (block_entries phys bs)) as Htab3.
  { destruct Htab as [? Hb1 Hf Ha ? ?]. split; try done.
    - eapply dtable_frame; [done|lia|done].
    - intros i Hi. rewrite (ld_mod_only _ _ _ _ _ _ Hm); [by apply Hf|].
      unfold entry_ptr, off_t_entries, sizeof_dump_entry, off_e_id, MAX_NUM_ENTRIES in *. lia.
    - eapply dtable_frame; [done|lia|done]. }
  pose proof (register_dump_table_entry_refines _ _ _ _ _ Htab3 MSM_DUMP_TABLE_APPS
    (MsmDumpEntry id (phys + off)) ltac:(split; simpl; lia)) as Hreg.
  change id with (b_id b) in Hreg. change off with (b_off b) in Hreg at 1.
  change (phys + off) with (phys + b_off b) in Hreg.
  rewrite (block_entries_snoc phys bs b) in Hreg. destruct Hreg as (m4 & Hreg & Htab4 & _ & Hm4).
  unfold msm_dump_data_register_nominidump. simpl in Hreg. rewrite Hreg. cbv beta match.
  pose proof Hm4 as (Hml4 & Hmh4 & _).
  assert (forall x, x ∈ bs ++ [b] -> header_at m4 base phys x) as Hhd4.
  { intros x Hx. destruct (bk_range _ _ (blocks_ok_snoc _ _ b Hbk eq_refl (proj1 Hoff) Hcs) _ Hx).
    apply (header_frame _ _ _ _ _ _ _ Hm4); [lia|].
    apply elem_of_app in Hx as [Hx| ->%list_elem_of_singleton]; [|done].
    apply (header_frame _ _ _ _ _ _ _ Hm); [|by apply Hhd].
    destruct (bk_range _ _ Hbk _ Hx). unfold b_end in *. lia. }
  assert (forall dd' static,
    device_ok base (bs ++ [b]) static dd' ->
    loop_inv md base phys hi (bs ++ [b]) (off + MSM_DUMP_DATA_SIZE + size)
      (AllocState (Device m4 dd') static (base + off + (size + MSM_DUMP_DATA_SIZE))
         (u64 (phys + off + (size + MSM_DUMP_DATA_SIZE)))
         (if MAX_NUM_ENTRIES <=? Z.of_nat (length (block_entries phys bs)) then - EINVAL else 0) static)) as loop_inv_rest.
  { intros dd' static Hdd. split; simpl; try done; try lia.
    - rewrite u64_small; lia.
    - apply (blocks_ok_snoc off bs b); done || lia. }
  destruct (is_cpuss_id id) eqn:Hid.
  - destruct (cpuss_dump_init_ok m4 base bs (as_init st) b (drvdata (as_dev st)) c Hdev Hid)
      as (init' & dd' & Hc & Hdd). unfold set_dma. rewrite <- Hst. simpl in Hc. rewrite Hc.
    eexists. split; [done|]. by apply loop_inv_rest.
  - eexists. split; [done|]. rewrite <- Hst. apply loop_inv_rest, device_ok_weaken, Hdev.
Qed.

Lemma node_block_end off c b : node_block off c = Some b -> b_end b + span [] = off + span [c].
Proof.
  unfold node_block, b_end. simpl.
  destruct (cn_size c), (cn_id c); intros; simplify_eq/=; lia.
Qed.

Lemma alloc_nodes_ok nodes bs off st :
  loop_inv md base phys hi bs off st -> Forall child_ok nodes -> off + span nodes <= hi ->
  exists st' off', alloc_nodes md st nodes = Some st' /\
    loop_inv md base phys hi (bs ++ layout off nodes) off' st'.
Proof.
  intros Hinv Hok. revert bs off st Hinv. induction Hok as [|c nodes Hc Hok IH]; intros bs off st Hinv Hsp.
  { simpl. rewrite app_nil_r. eauto. }
  pose proof (child_ok_span _ Hok) as Hsn.
  assert (off + span [c] + span nodes <= hi /\ 0 <= span [c]) as [Hsp' Hsc].
  { pose proof (child_ok_span [c] (Forall_cons _ c [] Hc (Forall_nil _))). simpl in *.
    destruct (cn_size c); lia. }
  simpl alloc_nodes. simpl layout. destruct (node_block off c) as [b|] eqn:Hb.
  - pose proof (node_block_end _ _ _ Hb) as He. simpl (span []) in He.
    destruct (alloc_node_block bs off st c b Hinv Hc Hb) as (st1 & -> & Hinv1); [lia|].
    destruct (IH (bs ++ [b]) (b_end b) st1 Hinv1) as (st2 & off2 & Hst2 & Hinv2); [lia|].
    exists st2, off2. rewrite <- app_assoc in Hinv2. done.
  - assert (exists err, alloc_node md st c = Some (set_ret st err)) as [err ->].
    { unfold node_block in Hb. unfold alloc_node. destruct (cn_size c); [by eexists|].
      destruct (cn_id c); [by eexists|done]. }
    apply IH; [by apply alloc_node_skip|lia].
Qed.
End Loop.

(** ** The whole allocation *)

Lemma header_bytes m m' base phys b :
  (forall a, base + b_off b <= a < base + b_off b + MSM_DUMP_DATA_SIZE -> byte m' a = byte m a) ->
  header_at m base phys b -> header_at m' base phys b.
Proof.
  intros Hb [H1 H2 H3]. pose proof (slen_strscpy (b_name b) 32 ltac:(lia)).
  unfold off_d_addr, off_d_len, off_d_name, MSM_DUMP_DATA_SIZE in *.
  split; unfold off_d_addr, off_d_len, off_d_name, MSM_DUMP_DATA_SIZE.
  - rewrite <- H1. apply ld_ext. intros; apply Hb. lia.
  - rewrite <- H2. apply ld_ext. intros; apply Hb. lia.
  - eapply cstr_at_bytes; [|done]. intros; apply Hb. lia.
Qed.

(** What the SPR nodes need: room for the header a reset writes. *)
Definition spr_sizes_ok (bs : list block) : Prop :=
  forall b, b ∈ bs -> SPR_DUMP_CPU0 <= b_id b <= SPR_DUMP_CPU7 -> 24 <= b_size b < 4294967284.

Section Ready.
Context (base off : Z) (bs : list block) (m : mem) (c : cpuss_dump_data).
Context (Ht : tables_of base bs c) (Hbk : blocks_ok off bs) (Hsz : spr_sizes_ok bs).
Context (Hlo : m_lo m <= base) (Hhi : base + off <= m_hi m).

Lemma spr_block i s :
  sprdata c !! i = Some (Some s) ->
  exists b, b ∈ bs /\ b_id b = SPR_DUMP_CPU0 + Z.of_nat i /\ 24 <= b_size b < 4294967284 /\
    s = SprsDumpData (base + b_off b + MSM_DUMP_DATA_SIZE) (b_size b) 0 0.
Proof.
  intros Hs. destruct (to_spr _ _ _ Ht i s Hs) as (b & Hb & Hid & ->).
  pose proof (to_len _ _ _ Ht). pose proof (lookup_lt_Some _ _ _ Hs).
  exists b. split_and!; try done; apply Hsz; try done;
    unfold SPR_DUMP_CPU0, SPR_DUMP_CPU7, MAX_CORE_NUM in *; lia.
Qed.

Lemma tables_room : sprs_room (Device m (Some c)) c.
Proof.
  destruct Ht as [Hmx Hlen _ _]. split; try done; simpl.
  - intros i s Hs. destruct (spr_block i s Hs) as (b & Hb & _ & Hsz' & ->).
    destruct (bk_range _ _ Hbk b Hb) as (? & ? & ?). unfold b_end, MSM_DUMP_DATA_SIZE in *.
    assert (sizeof_dump_table = 16136) by done.
    constructor; simpl; lia.
  - intros i j s s' Hij Hs Hs'.
    destruct (spr_block i s Hs) as (b & Hb & Hid & _ & ->).
    destruct (spr_block j s' Hs') as (b' & Hb' & Hid' & _ & ->).
    destruct (bk_apart _ _ Hbk b b' Hb Hb') as [->|Hap]; [lia|].
    unfold apart, block_apart, b_end, MSM_DUMP_DATA_SIZE in *; simpl. lia.
Qed.

(** Outside every SPR table: the dump tables and the block headers. *)
Lemma outside_tables a :
  a < base + 2 * sizeof_dump_table \/ base + off <= a ->
  forall i s, sprdata c !! i = Some (Some s) ->
    a < spr_dump_vaddr s \/ spr_dump_vaddr s + spr_size s <= a.
Proof.
  intros Ha i s Hs. destruct (spr_block i s Hs) as (b & Hb & _ & _ & ->).
  destruct (bk_range _ _ Hbk b Hb) as (? & ? & ?). unfold b_end, MSM_DUMP_DATA_SIZE in *. simpl. lia.
Qed.

Lemma outside_headers b a :
  b ∈ bs -> base + b_off b <= a < base + b_off b + MSM_DUMP_DATA_SIZE ->
  forall i s, sprdata c !! i = Some (Some s) ->
    a < spr_dump_vaddr s \/ spr_dump_vaddr s + spr_size s <= a.
Proof.
  intros Hb Ha i s Hs. destruct (spr_block i s Hs) as (b' & Hb' & _ & ? & ->).
  pose proof (bk_range _ _ Hbk b Hb). pose proof (bk_range _ _ Hbk b' Hb').
  destruct (bk_apart _ _ Hbk b b' Hb Hb') as [->|Hap];
    unfold block_apart, b_end, MSM_DUMP_DATA_SIZE in *; simpl; lia.
Qed.
End Ready.

Lemma dump_inv_frame lo hi m m' md base phys es :
  mod_only lo hi m m' -> base + 2 * sizeof_dump_table <= lo -> dump_inv m md base phys es ->
  dump_inv m' md base phys es.
Proof.
  intros Hm Hd [? Hb Hf Ha ? ?]. assert (sizeof_dump_table = 16136) by done. split; try done.
  - eapply dtable_frame; [done|lia|done].
  - intros i Hi. rewrite (ld_mod_only _ _ _ _ _ _ Hm); [by apply Hf|].
    unfold entry_ptr, off_t_entries, sizeof_dump_entry, off_e_id, MAX_NUM_ENTRIES in *. lia.
  - eapply dtable_frame; [done|lia|done].
Qed.

(** The finished driver: tables, headers and handlers' tables. *)
Record dump_ready (base phys : Z) (bs : list block) (d : device) (md : msm_memory_dump) : Prop := {
  dr_tables : dump_inv (dma d) md base phys (block_entries phys bs);
  dr_headers b : b ∈ bs -> header_at (dma d) base phys b;
  dr_regs r : regdata d = Some r -> exists b, b ∈ bs /\ b_id b = CPUSS_REGDUMP /\
    r = CpussRegdumpData (base + b_off b + MSM_DUMP_DATA_SIZE) (b_size b) 0 0 0 0 0;
  dr_sprs : drvdata d <> None -> exists ts, sprs_rep d ts /\
    forall i t, ts !! i = Some (Some t) -> s_regs t = [] /\
      exists b, b ∈ bs /\ b_id b = SPR_DUMP_CPU0 + Z.of_nat i /\ s_size t = b_size b;
}.

Lemma fresh_tables_block base bs c i t :
  tables_of base bs c -> fresh_tables c !! i = Some (Some t) ->
  s_regs t = [] /\ exists b, b ∈ bs /\ b_id b = SPR_DUMP_CPU0 + Z.of_nat i /\ s_size t = b_size b.
Proof.
  intros Ht Hi. unfold fresh_tables in Hi. rewrite list_lookup_fmap in Hi.
  destruct (sprdata c !! i) as [[s|]|] eqn:Hs; simplify_eq/=. split; [done|].
  destruct (to_spr _ _ _ Ht i s Hs) as (b & ? & ? & ->). by exists b.
Qed.

(** Without SPR tables nothing has to be reset. *)
Lemma no_sprs_rep d c :
  sprs_room d c -> (forall i s, sprdata c !! i <> Some (Some s)) -> sprs_rep d (fresh_tables c).
Proof.
  intros Hroom Hno. exists c. split_and!; [done|by unfold fresh_tables; rewrite length_fmap|].
  intros i. unfold fresh_tables. rewrite list_lookup_fmap.
  destruct (sprdata c !! i) as [[s|]|] eqn:Hs; try done. by apply Hno in Hs.
Qed.

(** The last step of [mem_dump_alloc]: the SPR tables are reset if any exists. *)
Lemma finish_ready md base phys hi bs off st :
  loop_inv md base phys hi bs off st -> spr_sizes_ok bs ->
  exists d,
    (if negb (Z.land (as_init st) SPRS_INITIALIZED =? 0) then
       let* (_, d) := reset_sprs_dump_table (as_dev st) in Some d
     else Some (as_dev st)) = Some d /\ dump_ready base phys bs d md /\
    regdata d = regdata (as_dev st) /\ spr_regions d = spr_regions (as_dev st) /\
    (drvdata d = None <-> drvdata (as_dev st) = None).
Proof.
  intros [Hv Hp Hoff Hlo Hhi Htab Hbk Hhd Hst Hdev] Hsz.
  destruct (as_dev st) as [m [c|]] eqn:Ed; simpl in *.
  2:{ exists (Device m None). split; [by destruct (negb _)|]. split; [by split|done]. }
  destruct Hdev as [Ht Hno]. assert (base + off <= m_hi m) as Hhi' by lia.
  pose proof (tables_room base off bs m c Ht Hbk Hsz Hlo Hhi') as Hroom.
  destruct (Z.eqb_spec (Z.land (as_init st) SPRS_INITIALIZED) 0) as [Hz|Hz]; simpl.
  - eexists. split; [done|]. split; [split; try done|done].
    + apply (to_reg _ _ _ Ht).
    + intros _. exists (fresh_tables c). split; [by apply no_sprs_rep, Hno|].
      intros i t. by apply (fresh_tables_block base).
  - destruct (reset_sprs_dump_table_ok _ c Hroom) as (d' & -> & Hrep & Hreg & Hrgn & Hl & Hh & Hfr).
    exists d'. split; [done|]. split; [|split; [done|split; [done|]]].
    2:{ destruct Hrep as (c' & [Hd' _ _ _ _] & _). by rewrite Hd'. }
    simpl in Hl, Hh, Hfr. specialize (Hfr c).
    assert (mod_only (base + 2 * sizeof_dump_table) (base + off) m (dma d')) as Hm.
    { split_and!; [done..|]. intros a Ha. symmetry. apply Hfr; [done|].
      eapply outside_tables; eauto. }
    split.
    + eapply dump_inv_frame; [done|lia|done].
    + intros b Hb. eapply header_bytes; [|by apply Hhd]. intros a Ha.
      apply Hfr; [done|]. eapply outside_headers; eauto.
    + rewrite Hreg. apply (to_reg _ _ _ Ht).
    + intros _. exists (fresh_tables c). split; [done|]. intros i t. by apply (fresh_tables_block base).
Qed.

(** ** Which blocks become tables

    When the allocations for the CPU subsystem nodes are granted, the tables
    of the sysfs handlers are exactly the data areas of the last blocks with
    their ids; without such a node there is no driver data. *)

Definition granted (c : child) : Prop :=
  forall id, cn_id c = inr id -> is_cpuss_id id = true ->
    cn_alloc_data c = true /\ cn_alloc_table c = true.

Definition last_block (id : Z) (bs : list block) : option block :=
  list.last (filter (fun b => b_id b = id) bs).

Definition has_cpuss (bs : list block) : bool := existsb (fun b => is_cpuss_id (b_id b)) bs.

Definition block_area (base : Z) (b : block) : Z * Z :=
  (base + b_off b + MSM_DUMP_DATA_SIZE, b_size b).

Definition reg_area (base : Z) (bs : list block) : option cpuss_regdump_data :=
  (fun b => CpussRegdumpData (block_area base b).1 (block_area base b).2 0 0 0 0 0)
    <$> last_block CPUSS_REGDUMP bs.

Definition spr_areas (base : Z) (bs : list block) : list (option (Z * Z)) :=
  (fun i => block_area base <$> last_block (SPR_DUMP_CPU0 + Z.of_nat i) bs) <$> seq 0 8.

Definition cpuss_exact (base : Z) (bs : list block) (d : device) : Prop :=
  if has_cpuss bs
  then drvdata d <> None /\ regdata d = reg_area base bs /\ spr_regions d = spr_areas base bs
  else drvdata d = None.

Lemma last_block_snoc id bs b :
  last_block id (bs ++ [b]) = if decide (b_id b = id) then Some b else last_block id bs.
Proof.
  unfold last_block. rewrite list.filter_app, filter_cons. simpl.
  case_decide; [apply last_snoc|]. by rewrite app_nil_r.
Qed.

Lemma has_cpuss_snoc bs b : has_cpuss (bs ++ [b]) = has_cpuss bs || is_cpuss_id (b_id b).
Proof. unfold has_cpuss. rewrite existsb_app. simpl. by rewrite orb_false_r. Qed.

Lemma has_cpuss_false id bs : has_cpuss bs = false -> is_cpuss_id id = true -> last_block id bs = None.
Proof.
  induction bs as [|b bs IH] using rev_ind; intros Hb Hid; [done|].
  rewrite has_cpuss_snoc in Hb. apply orb_false_iff in Hb as [Hb1 Hb2].
  rewrite last_block_snoc. case_decide; [congruence|auto].
Qed.

Lemma spr_id_cpuss i : (i < 8)%nat -> is_cpuss_id (SPR_DUMP_CPU0 + Z.of_nat i) = true.
Proof. intros. unfold is_cpuss_id, CPUSS_REGDUMP, SPR_DUMP_CPU0, SPR_DUMP_CPU7. lia. Qed.

Lemma spr_areas_lookup base bs i :
  (i < 8)%nat ->
  spr_areas base bs !! i = Some (block_area base <$> last_block (SPR_DUMP_CPU0 + Z.of_nat i) bs).
Proof.
  intros Hi. unfold spr_areas. rewrite list_lookup_fmap, (lookup_seq_lt 0 8 i Hi). done.
Qed.

Lemma spr_areas_snoc base bs b i :
  (i < 8)%nat -> b_id b = SPR_DUMP_CPU0 + Z.of_nat i ->
  spr_areas base (bs ++ [b]) = <[i := Some (block_area base b)]> (spr_areas base bs).
Proof.
  intros Hi Hb. apply list_eq. intros j. destruct (decide (j < 8)%nat) as [Hj|Hj].
  - rewrite spr_areas_lookup, last_block_snoc by done. destruct (decide (i = j)) as [<-|Hij].
    + rewrite list_lookup_insert_eq by done. by case_decide.
    + rewrite list_lookup_insert_ne, spr_areas_lookup by done.
      case_decide; [|done]. rewrite Hb in *. lia.
  - rewrite !lookup_ge_None_2; [done|rewrite length_insert|]; simpl; lia.
Qed.

Lemma spr_areas_other base bs b :
  (forall i, (i < 8)%nat -> b_id b <> SPR_DUMP_CPU0 + Z.of_nat i) ->
  spr_areas base (bs ++ [b]) = spr_areas base bs.
Proof.
  intros Hb. apply list_eq. intros j. destruct (decide (j < 8)%nat) as [Hj|Hj].
  - rewrite !spr_areas_lookup, last_block_snoc by done. case_decide; [|done]. by destruct (Hb j Hj).
  - rewrite !lookup_ge_None_2; [done|simpl; lia..].
Qed.

(** A block that is none of the CPU subsystem changes no table. *)
Lemma cpuss_exact_other base bs b d d' :
  is_cpuss_id (b_id b) = false -> drvdata d' = drvdata d ->
  cpuss_exact base bs d -> cpuss_exact base (bs ++ [b]) d'.
Proof.
  unfold cpuss_exact, regdata, spr_regions. intros Hb ->.
  rewrite has_cpuss_snoc, Hb, orb_false_r. destruct (has_cpuss bs); [|done]. intros (H1 & H2 & H3).
  split; [done|]. split.
  - rewrite H2. unfold reg_area. rewrite last_block_snoc. case_decide as Hx; [|done]. by rewrite Hx in Hb.
  - rewrite H3. rewrite spr_areas_other; [done|]. intros i Hi Hx. rewrite Hx, spr_id_cpuss in Hb; done.
Qed.

(** The driver data before the block: new when this is the first one. *)
Lemma cpuss_exact_data base bs d :
  cpuss_exact base bs d ->
  exists c, (drvdata d = Some c \/ drvdata d = None /\ c = new_cpudata) /\
    cpussregdata c = reg_area base bs /\ fmap (M:=option) spr_region <$> sprdata c = spr_areas base bs.
Proof.
  unfold cpuss_exact, regdata, spr_regions. destruct (has_cpuss bs) eqn:Hb.
  - intros (H1 & H2 & H3). destruct (drvdata d) as [c|]; [|done]. exists c. auto.
  - intros ->. exists new_cpudata. split; [by right|]. split.
    + unfold reg_area. by rewrite has_cpuss_false.
    + apply list_eq. intros i. destruct (decide (i < 8)%nat) as [Hi|Hi].
      * rewrite spr_areas_lookup, has_cpuss_false by (done || by apply spr_id_cpuss).
        cbn [sprdata new_cpudata]. rewrite list_lookup_fmap, lookup_replicate_2; [done|]. by simpl.
      * rewrite !lookup_ge_None_2; [done|simpl; lia..].
Qed.

Lemma cpuss_dump_init_exact base bs b d static ch i d' :
  cpuss_exact base bs d -> is_cpuss_id (b_id b) = true ->
  cn_alloc_data ch = true -> cn_alloc_table ch = true ->
  cpuss_dump_init d static (base + b_off b + MSM_DUMP_DATA_SIZE) (b_size b) (b_id b) ch = Some (i, d') ->
  cpuss_exact base (bs ++ [b]) d'.
Proof.
  intros (c & Hc & Hreg & Hspr)%cpuss_exact_data Hid Ha Hb Hinit.
  unfold cpuss_dump_init in Hinit. rewrite Ha in Hinit.
  assert (match drvdata d with Some _ => Some d | None => Some (set_drvdata d new_cpudata) end
    = Some (Device (dma d) (Some c))) as Hd.
  { destruct d as [m dd]. destruct Hc as [Hc|[Hc ->]]; simpl in *; by rewrite Hc. }
  rewrite Hd in Hinit. clear Hd Hc.
  unfold cpuss_exact. rewrite has_cpuss_snoc, Hid, orb_true_r.
  destruct (is_cpuss_id_cases _ Hid) as [Hx|[Hx Hr]].
  - rewrite Hx, Z.eqb_refl in Hinit. unfold cpuss_regdump_init in Hinit. rewrite Hb in Hinit.
    cbn in Hinit. simplify_eq. split; [done|]. unfold regdata, spr_regions. cbn [drvdata set_drvdata cpussregdata sprdata].
    split.
    + unfold reg_area. rewrite last_block_snoc. by case_decide.
    + rewrite Hspr, spr_areas_other; [done|]. intros j Hj. rewrite Hx.
      unfold CPUSS_REGDUMP, SPR_DUMP_CPU0. lia.
  - apply Z.eqb_neq in Hx as Hx'. rewrite Hx' in Hinit. unfold sprs_dump_init in Hinit. rewrite Hb in Hinit.
    cbn [drvdata set_drvdata] in Hinit.
    destruct (setZ (sprdata c) _ _) as [l|] eqn:Hl; [|done]. simpl in Hinit. simplify_eq.
    split; [done|]. unfold regdata, spr_regions. cbn [drvdata set_drvdata cpussregdata sprdata].
    unfold MAX_CORE_NUM in Hr. split.
    + rewrite Hreg. unfold reg_area. rewrite last_block_snoc. by case_decide.
    + assert (length (sprdata c) = 8%nat) as H8
        by (rewrite <- (length_fmap (fmap (M:=option) spr_region)), Hspr; done).
      rewrite setZ_Some in Hl by lia. simplify_eq.
      rewrite list_fmap_insert, Hspr. symmetry. apply spr_areas_snoc; lia.
Qed.

Lemma alloc_node_exact md base bs off st c st' :
  as_vaddr st = base + off -> granted c -> cpuss_exact base bs (as_dev st) ->
  alloc_node md st c = Some st' ->
  match node_block off c with
  | Some b => as_vaddr st' = base + b_end b /\ cpuss_exact base (bs ++ [b]) (as_dev st')
  | None => as_vaddr st' = base + off /\ cpuss_exact base bs (as_dev st')
  end.
Proof.
  intros Hv Hg Hex Hn. unfold alloc_node in Hn. unfold node_block.
  destruct (cn_size c) as [|size]; [by simplify_eq|].
  destruct (cn_id c) as [|id] eqn:Hid; [by simplify_eq|].
  set (b := Block off size id (cn_name c)).
  bind_inv Hn. repeat case_match; simplify_eq; cbn [as_vaddr as_dev].
  all: split; [unfold b_end; subst b; cbn [b_off b_size]; lia|].
  - destruct (Hg id) as [Ha Hb]; [done..|]. rewrite Hv in *.
    eapply (cpuss_dump_init_exact base bs b (set_dma (as_dev st) _)); [|done..]. exact Hex.
  - by eapply cpuss_exact_other.
Qed.

Lemma alloc_nodes_exact md base nodes bs off st st' :
  as_vaddr st = base + off -> Forall granted nodes -> cpuss_exact base bs (as_dev st) ->
  alloc_nodes md st nodes = Some st' -> cpuss_exact base (bs ++ layout off nodes) (as_dev st').
Proof.
  intros Hv Hg. revert bs off st Hv. induction Hg as [|c nodes Hc _ IH]; intros bs off st Hv Hex Hn; simpl in *.
  { simplify_eq. by rewrite app_nil_r. }
  destruct (alloc_node md st c) as [st1|] eqn:H1; [|done].
  pose proof (alloc_node_exact md base bs off st c st1 Hv Hc Hex H1) as H2.
  destruct (node_block off c) as [b|]; destruct H2 as [Hv1 Hex1]; [|by apply (IH bs off st1)].
  change (b :: layout (b_end b) nodes) with ([b] ++ layout (b_end b) nodes).
  rewrite app_assoc. by apply (IH (bs ++ [b]) (b_end b) st1).
Qed.

Section Alloc.
Context {S : Type} `{MdApi S}.

(** What the kernel answers a probe that goes through. *)
Record env_ok (e : env) (total : Z) (m : mem) (phys : Z) : Prop := {
  en_reserved : mem_dump_reserve_mem e = 0;
  en_alloc : alloc_coherent e total = Some (m, phys);
  en_size : m_hi m = m_lo m + total;
  en_addr : 0 < m_lo m /\ m_hi m <= 18446744073709551616;
  en_phys : 0 <= phys /\ phys + total < 18446744073709551616;
}.

Lemma mem_dump_alloc_ok e nodes (g : driver S) m phys :
  Forall child_ok nodes -> 2 * sizeof_dump_table + span nodes < 1152921504606846976 ->
  env_ok e (total_size nodes) m phys ->
  spr_sizes_ok (layout (2 * sizeof_dump_table) nodes) ->
  drvdata (drv_dev g) = None -> drv_static g = 0 -> md_inv (drv_md g) ->
  exists ret g', mem_dump_alloc e nodes g = Some (ret, g') /\
    dump_ready (m_lo m) phys (layout (2 * sizeof_dump_table) nodes) (drv_dev g') (drv_memdump g') /\
    blocks_ok (total_size nodes) (layout (2 * sizeof_dump_table) nodes) /\
    (Forall granted nodes ->
       cpuss_exact (m_lo m) (layout (2 * sizeof_dump_table) nodes) (drv_dev g')) /\
    md_inv (drv_md g').
Proof.
  intros Hok Hlt [Hres Hal Hsize [Ha1 Ha2] [Hp1 Hp2]] Hspr Hd Hs Hmd.
  destruct (total_size_ok nodes Hok Hlt) as [[Ht1 Ht2] Ht3].
  pose proof (child_ok_span _ Hok). assert (sizeof_dump_table = 16136) as Hsz by done.
  unfold mem_dump_alloc. rewrite Hres. simpl. rewrite Hal, memset_ok by lia.
  destruct (init_memory_dump_ok (fill m (m_lo m) 0 (total_size nodes)) (m_lo m) phys)
    as (m1 & md & -> & Hinv & Hm1); [unfold_bounds; lia..| |lia|lia|].
  { intros a Ha. unfold byte; simpl.
    by replace ((m_lo m <=? a) && (a <? m_lo m + total_size nodes)) with true by lia. }
  simpl negb. cbv beta match. rewrite Hd.
  assert (loop_inv md (m_lo m) phys (total_size nodes) [] (2 * sizeof_dump_table)
    (AllocState (Device m1 None) (drv_static g) (m_lo m + sizeof_dump_table * 2)
       (u64 (phys + sizeof_dump_table * 2)) 0 0)) as Hloop.
  { destruct Hm1 as (Hl1 & Hh1 & _). simpl in Hl1, Hh1.
    split; simpl; try done; try lia.
    - rewrite u64_small; lia.
    - split; [intros b Hb|intros b b' Hb]; by apply elem_of_nil in Hb.
    - intros b Hb. by apply elem_of_nil in Hb. }
  destruct (alloc_nodes_ok md (m_lo m) phys (total_size nodes) Hp1 Hp2 nodes _ _ _ Hloop Hok)
    as (st & off & Hnodes & Hfin); [lia|]. simpl app in Hfin. rewrite Hnodes.
  match goal with |- context [msm_minidump_add_region ?r (drv_md g)] =>
    destruct (add_region_contract r (drv_md g) Hmd) as (r' & md' & -> & Hmd' & _) end.
  { split; simpl; [done|lia..]. }
  destruct (finish_ready _ _ _ _ _ _ _ Hfin Hspr) as (d & -> & Hready & Hreg & Hrgn & Hnone).
  eexists _, _. split; [done|]. split; [done|]. split; [|split; [|done]].
  2:{ intros Hg. apply (alloc_nodes_exact md (m_lo m) nodes [] (2 * sizeof_dump_table) _ st) in Hnodes;
        [|simpl; lia|done|done]. cbn [drv_dev]. simpl app in Hnodes.
      unfold cpuss_exact in *. rewrite Hreg, Hrgn. destruct (has_cpuss _); [|by apply Hnone].
      destruct Hnodes as (Hd1 & ? & ?). split_and!; try done. by rewrite Hnone. }
  destruct (li_blocks _ _ _ _ _ _ _ Hfin) as [Hbr Hba].
  pose proof (li_off _ _ _ _ _ _ _ Hfin).
  split; [|done]. intros b Hb. destruct (Hbr b Hb) as (? & ? & ?). split_and!; lia.
Qed.
End Alloc.

(** ** sysfs files *)

Section Files.
Context (create_file : string -> Z).

Lemma remove_created files done :
  Forall (fun a => a ∉ files) done -> NoDup done ->
  foldl device_remove_file (files ++ done) done = files.
Proof.
  revert files. induction done as [|a done IH]; intros files Hf Hnd; simpl; [by rewrite app_nil_r|].
  apply Forall_cons_1 in Hf as [Ha Hf]. inversion Hnd as [|? ? Hna Hnd']; subst.
  assert (forall l : list string, a ∉ l -> filter (fun f => f <> a) l = l) as Hid.
  { intros l. induction l as [|x l IHl]; intros Hx; [done|].
    apply not_elem_of_cons in Hx as [Hx Hl]. rewrite filter_cons. case_decide; [by rewrite IHl|].
    by destruct Hx. }
  unfold device_remove_file at 2. rewrite list.filter_app, filter_cons.
  case_decide; [done|]. rewrite !Hid by done. by apply IH.
Qed.

Lemma create_files_loop_ok attrs done files :
  NoDup (done ++ attrs) -> Forall (fun a => a ∉ files) (done ++ attrs) ->
  create_files_loop create_file attrs done (files ++ done) =
  match find (fun a => negb (create_file a =? 0)) attrs with
  | Some a => (create_file a, files)
  | None => (0, files ++ done ++ attrs)
  end.
Proof.
  revert done. induction attrs as [|a attrs IH]; intros done Hnd Hf; simpl.
  { by rewrite app_nil_r. }
  destruct (negb (create_file a =? 0)) eqn:E.
  - f_equal. apply Forall_app in Hf as [Hf _]. apply remove_created; [done|].
    by apply list.NoDup_app in Hnd as [? _].
  - rewrite <- app_assoc. replace (done ++ a :: attrs) with ((done ++ [a]) ++ attrs) in *
      by (by rewrite <- app_assoc). rewrite (IH (done ++ [a])) by done. done.
Qed.
End Files.
