(* ===== verification/CpussSystem.v ===== *)
(** * The CPU subsystem tables together

    The register table and the SPR tables share the device, its mutex and the
    dump memory.  Every interleaving of their sysfs writers keeps both
    specifications: a handler of one side leaves the tables of the other as
    they are. *)

From S2P Require Import Prelude CMem CStr CpussData RegDump RegDumpSpec RegDumpProofs SprDump.
From S2P Require Import SprProofs.

(** The register table at [p, p + sz) lies apart from every SPR table. *)
Definition separate (p sz : Z) (l : list (option (Z * Z))) : Prop :=
  forall i a n, l !! i = Some (Some (a, n)) -> p + sz <= a \/ a + n <= p.

(** ** Frames *)

Lemma words_at_region lo hi m m' a ws :
  (forall x, lo <= x < hi -> byte m' x = byte m x) -> lo <= a -> a + 4 * wlen ws <= hi ->
  words_at m a ws -> words_at m' a ws.
Proof. intros Hb ??. apply words_at_bytes. intros; apply Hb. lia. Qed.

Lemma t_image_len ncpus t :
  0 < ncpus -> table_ok ncpus t -> 4 * wlen (t_image t) <= t_size t.
Proof.
  intros Hn Hok. destruct (table_bounds _ _ Hn Hok) as (? & ? & Ho & ? & ? & ?).
  pose proof (ok_core _ _ Hok). unfold t_image.
  rewrite !wlen_app. change (wlen [_; _; _; _]) with 4. change (wlen [0]) with 1.
  assert (forall k, wlen (replicate k 0) = Z.of_nat k) as -> by
    (intros; unfold wlen; by rewrite length_replicate).
  unfold t_sysidx, SYSTEM_REGS_INPUT_INDEX, PERCORE_INDEX in *. lia.
Qed.

(** The SPR handlers leave the register table alone. *)
Lemma rep_frame ncpus p d d' t :
  0 < ncpus -> rep ncpus p d t -> sprs_frame d d' ->
  (exists c, drvdata d' = Some c /\ mutex c = false) ->
  separate p (t_size t) (spr_regions d) -> rep ncpus p d' t.
Proof.
  intros Hn Hrep (Hreg & _ & Hlo & Hhi & Hb) (c' & Hd' & Hm') Hsep.
  destruct Hrep as (c & r & Hd & Hm & Hr & Hp & [Hok Hf Hl Hh Him]).
  exists c', r. split_and!; try done.
  - unfold regdata in Hreg. by rewrite Hd, Hd', Hr in Hreg.
  - split; try done; [lia|lia|]. pose proof (t_image_len _ _ Hn Hok).
    eapply (words_at_region p (p + t_size t)); [|lia|lia|done]. intros x Hx.
    apply (Hb c); [done|]. intros i s Hs.
    destruct (Hsep i (spr_dump_vaddr s) (spr_size s)); [|lia..].
    unfold spr_regions. rewrite Hd, list_lookup_fmap, Hs. done.
Qed.

(** The register handlers leave the SPR tables alone. *)
Lemma sprs_rep_frame p sz d d' ts :
  sprs_rep d ts -> same_sprs d d' -> mod_only p (p + sz) (dma d) (dma d') ->
  (exists c, drvdata d' = Some c /\ mutex c = false) ->
  separate p sz (spr_regions d) -> sprs_rep d' ts.
Proof.
  intros (c & [Hd Hm Hlen Hroom Hdis] & Hl & Hrep) Hsame Hmod (c' & Hd' & Hm') Hsep.
  unfold same_sprs in Hsame. rewrite Hd, Hd' in Hsame. injection Hsame as Hs.
  pose proof Hmod as (Hlo & Hhi & _).
  exists c'. rewrite <- Hs. split_and!; [split; rewrite <- ?Hs; try done| |]; try done.
  - intros i s Hi. eapply spr_room_bounds; eauto.
  - intros i. specialize (Hrep i).
    destruct (sprdata c !! i) as [[s|]|] eqn:Hi, (ts !! i) as [[t|]|]; try done.
    destruct (Hsep i (spr_dump_vaddr s) (spr_size s)) as [Ha|Ha];
      [unfold spr_regions; by rewrite Hd, list_lookup_fmap, Hi|..];
      destruct Hrep as [Hr Hf Hu Hg Him]; pose proof (wlen_nonneg (s_regs t));
      assert (spr_size s = s_size t) by (by rewrite Hf); unfold s_used in Hu;
      (split; try done; [eapply spr_room_bounds; eauto|]);
      (eapply words_at_frame; [exact Hmod| |done]); rewrite s_image_len; lia.
Qed.

Lemma same_sprs_regions d d' : same_sprs d d' -> spr_regions d' = spr_regions d.
Proof.
  unfold same_sprs, spr_regions. destruct (drvdata d), (drvdata d'); simpl; congruence.
Qed.

Lemma rep_unlocked ncpus p d t : rep ncpus p d t -> exists c, drvdata d = Some c /\ mutex c = false.
Proof. intros (c & ? & ? & ? & _). eauto. Qed.

Lemma sprs_rep_unlocked d ts : sprs_rep d ts -> exists c, drvdata d = Some c /\ mutex c = false.
Proof. intros (c & [] & _). eauto. Qed.

(** ** The transition system of all writers *)

Inductive cpuss_step (ncpus count : Z) : device * list Z -> device * list Z -> Prop :=
| step_register s s' : reg_step ncpus count s s' -> cpuss_step ncpus count s s'
| step_spr_config d pend sc ret d' :
    0 <= ss_data sc < 4294967296 -> 0 <= ss_cpu sc ->
    spr_config_store d sc count = Some (ret, d') ->
    cpuss_step ncpus count (d, pend) (d', pend)
| step_spr_reset d pend buf ret d' :
    sprs_register_reset_store d buf count = Some (ret, d') ->
    cpuss_step ncpus count (d, pend) (d', pend).

(** Both tables, apart from each other, and writers that were checked. *)
Definition cpuss_inv (ncpus p sz : Z) (regions : list (option (Z * Z)))
  (s : device * list Z) : Prop :=
  (exists t, rep ncpus p s.1 t /\ t_size t = sz) /\
  (exists ts, sprs_rep s.1 ts) /\
  spr_regions s.1 = regions /\
  Forall (fun n => 0 <= n <= 2147483644) s.2.

Section Invariant.
Context (ncpus p sz count : Z) (regions : list (option (Z * Z))).
Context (Hn : 0 < ncpus) (Hsep : separate p sz regions).

Lemma cpuss_inv_step s s' :
  cpuss_step ncpus count s s' -> cpuss_inv ncpus p sz regions s -> cpuss_inv ncpus p sz regions s'.
Proof.
  intros Hstep ((t & Hrep & Hsz) & (ts & Hsprs) & Hreg & Hpend).
  destruct Hstep as [s s' Hs|d pend sc ret d' Hd Hc Hs|d pend buf ret d' Hs]; simpl in *.
  - destruct (reg_inv_step ncpus p sz s.1 count s s' Hn Hs) as ((t' & Hrep' & Hsz') & Hp' & Hmod & Hss).
    { split_and!; eauto using mod_only_refl. done. }
    split_and!; eauto; [|by rewrite (same_sprs_regions _ _ Hss)].
    exists ts. eapply sprs_rep_frame; eauto using rep_unlocked. by rewrite Hreg.
  - pose proof (spr_config_store_refines d ts sc count Hd Hc Hsprs) as Hr.
    destruct (store_table ts sc count) as [r ts']. destruct Hr as (d2 & Hr & Hsprs' & Hfr).
    simplify_eq. split_and!; eauto.
    + exists t. split; [|done]. eapply rep_frame; eauto using sprs_rep_unlocked.
    + simpl. by destruct Hfr as (_ & -> & _).
  - unfold sprs_register_reset_store in Hs. destruct buf as [v|]; [|simplify_eq; split_and!; eauto].
    destruct (negb (v =? 1)) eqn:Hv; [simplify_eq; split_and!; eauto|]. bool_to_Prop. subst v.
    destruct (sprs_register_reset_store_refines d ts count Hsprs) as (d2 & Hr & Hsprs' & Hfr).
    unfold sprs_register_reset_store in Hr. simpl in Hr. rewrite Hr in Hs. simplify_eq.
    split_and!; eauto.
    + exists t. split; [|done]. eapply rep_frame; eauto using sprs_rep_unlocked.
    + simpl. by destruct Hfr as (_ & -> & _).
Qed.

Lemma cpuss_inv_reachable s s' :
  rtc (cpuss_step ncpus count) s s' -> cpuss_inv ncpus p sz regions s ->
  cpuss_inv ncpus p sz regions s'.
Proof. apply rtc_invariant, cpuss_inv_step. Qed.

(** In such a state no writer faults. *)
Lemma cpuss_handlers_total d pend :
  cpuss_inv ncpus p sz regions (d, pend) ->
  (forall s, scan_ok s -> is_Some (register_config_store ncpus d s count)) /\
  (forall buf, is_Some (core_reg_num_check d buf count)) /\
  (forall n, 0 <= n <= 2147483644 -> is_Some (core_reg_num_update d n count)) /\
  (forall buf, is_Some (register_reset_store d buf count)) /\
  (forall s, 0 <= ss_data s < 4294967296 -> 0 <= ss_cpu s ->
     is_Some (spr_config_store d s count)) /\
  (forall buf, is_Some (sprs_register_reset_store d buf count)).
Proof.
  intros ((t & Hrep & _) & (ts & Hsprs) & _). simpl in *.
  destruct (reg_handlers_total ncpus p d t count Hn Hrep) as (H1 & H2 & H3 & H4).
  split_and!; try done.
  - intros s Hd Hc. pose proof (spr_config_store_refines d ts s count Hd Hc Hsprs) as Hr.
    destruct (store_table ts s count). destruct Hr as (? & -> & _). by eexists.
  - intros [v|]; unfold sprs_register_reset_store; [|by eexists].
    destruct (negb (v =? 1)) eqn:Hv; [by eexists|].
    destruct Hsprs as (c & Hroom & _).
    destruct (reset_sprs_dump_table_ok d c Hroom) as (? & -> & _). by eexists.
Qed.
End Invariant.
