(* ===== verification/Demo.v ===== *)
(** * Concrete states

    A small dump memory with a register table and two SPR tables, on which the
    properties of the following files are instantiated. *)

From S2P Require Import Prelude CMem CStr CpussData RegDump RegDumpSpec RegDumpProofs SprDump.
From S2P Require Import SprProofs.

(** Three pages at 4096: the register table, then the tables of CPUs 0 and 3. *)
Definition demo_mem : mem := Mem 4096 16384 (fun _ => 0).

Definition demo_sprs : list (option sprs_dump_data) :=
  [Some (SprsDumpData 8192 512 0 0); None; None; Some (SprsDumpData 8704 512 0 0);
   None; None; None; None].

Definition demo_cpudata : cpuss_dump_data :=
  CpussDumpData false (Some (CpussRegdumpData 4096 1024 0 0 0 0 0)) demo_sprs.

(** As the probe leaves it: nothing was reset yet. *)
Definition demo_dev : device := Device demo_mem (Some demo_cpudata).

Definition result_dev (r : option (Z * device)) : device :=
  match r with Some (_, d) => d | None => demo_dev end.

(** With room for four per-core registers. *)
Definition demo_reg_dev : device := result_dev (update_reg_dump_table demo_dev 4).
Definition demo_table : table := Table 1024 4 [] [].

(** Reset SPR tables. *)
Definition demo_spr_dev : device := result_dev (reset_sprs_dump_table demo_dev).
Definition demo_spr_tables : list (option spr_table) :=
  [Some (SprTable 512 []); None; None; Some (SprTable 512 []); None; None; None; None].

Lemma demo_region : region 4096 1024 demo_dev.
Proof. by eexists _, _. Qed.

Lemma demo_reg_rep : rep 8 4096 demo_reg_dev demo_table.
Proof.
  destruct (update_reg_dump_table_refines 8 4096 1024 demo_dev 4 ltac:(lia) demo_region)
    as (d' & He & Hrep & _).
  unfold demo_reg_dev. rewrite He. by apply Hrep.
Qed.

Lemma demo_sprs_room : sprs_room demo_dev demo_cpudata.
Proof.
  assert (forall i s, demo_sprs !! i = Some (Some s) ->
    (i = 0%nat /\ s = SprsDumpData 8192 512 0 0) \/ (i = 3%nat /\ s = SprsDumpData 8704 512 0 0)) as Hs.
  { intros i s. do 8 (destruct i as [|i]; [simpl; intros; simplify_eq; auto|]). done. }
  split; try done.
  - intros i s [[_ ->]|[_ ->]]%Hs; by constructor.
  - intros i j s s' Hij [[-> ->]|[-> ->]]%Hs [[-> ->]|[-> ->]]%Hs; unfold apart; simpl; lia || done.
Qed.

Lemma demo_spr_rep : sprs_rep demo_spr_dev demo_spr_tables.
Proof.
  destruct (reset_sprs_dump_table_ok demo_dev demo_cpudata demo_sprs_room) as (d' & He & Hrep & _).
  unfold demo_spr_dev. by rewrite He.
Qed.
