(* ===== verification/RegDumpProps.v ===== *)
(** * Properties of the register dump table

    Each theorem is a property of the sysfs handlers of memory_dump_v2.c,
    followed by an instance on the states of Demo.v. *)

From S2P Require Import Prelude CMem CStr CpussData RegDump RegDumpSpec RegDumpProofs RegShow.
From S2P Require Import SprDump SprProofs CpussSystem Demo.

#[local] Open Scope string_scope.
#[local] Open Scope list_scope.
#[local] Open Scope Z_scope.

(** ** Writers *)

(** C1.  Whatever order the sysfs writers of the register table and of the SPR
    tables run in, including a core_reg_num writer that is between its check
    and its update, a device that holds a well-formed register table and
    well-formed SPR tables in separate regions keeps holding them, at the same
    places and with the same sizes, its mutex is free between handlers, and
    no handler faults (no access outside the dump memory, no null pointer, no
    mutex taken twice).  This is for writers whose numbers to core_reg_num are
    at most 2147483644, which is [2^31 - 4]: larger ones are accepted as well,
    and do not keep the table well formed (see
    [core_reg_num_wraps]).  The numbers the other files are written with are
    any that [sscanf] stores in 32 bits. *)
Theorem cpuss_writers_safe ncpus count p sz regions s s' :
  0 < ncpus -> separate p sz regions -> cpuss_inv ncpus p sz regions s ->
  rtc (cpuss_step ncpus count) s s' ->
  cpuss_inv ncpus p sz regions s' /\
  (forall sc, scan_ok sc -> is_Some (register_config_store ncpus s'.1 sc count)) /\
  (forall buf, is_Some (core_reg_num_check s'.1 buf count)) /\
  (forall n, 0 <= n <= 2147483644 -> is_Some (core_reg_num_update s'.1 n count)) /\
  (forall buf, is_Some (register_reset_store s'.1 buf count)) /\
  (forall sc, 0 <= ss_data sc < 4294967296 -> 0 <= ss_cpu sc ->
     is_Some (spr_config_store s'.1 sc count)) /\
  (forall buf, is_Some (sprs_register_reset_store s'.1 buf count)).
Proof.
  intros Hn Hsep Hinv Hsteps.
  pose proof (cpuss_inv_reachable _ _ _ _ _ Hn Hsep _ _ Hsteps Hinv) as Hinv'.
  split; [done|]. destruct s' as [d' pend']. by eapply cpuss_handlers_total.
Qed.

(** The demo device with its register table reset, then its SPR tables. *)
Definition demo_both : device := result_dev (reset_sprs_dump_table demo_reg_dev).
Definition demo_regions : list (option (Z * Z)) :=
  [Some (8192, 512); None; None; Some (8704, 512); None; None; None; None].

Lemma demo_separate : separate 4096 1024 demo_regions.
Proof. intros i a n. do 8 (destruct i as [|i]; [simpl; intros; simplify_eq; lia|]). done. Qed.

Lemma demo_reg_dev_data :
  drvdata demo_reg_dev
  = Some (CpussDumpData false (Some (CpussRegdumpData 4096 1024 4 0 4 0 56)) demo_sprs).
Proof. by vm_compute. Qed.

Lemma demo_both_reps :
  rep 8 4096 demo_both demo_table /\ (exists ts, sprs_rep demo_both ts) /\
  spr_regions demo_both = demo_regions.
Proof.
  assert (sprs_room demo_reg_dev (CpussDumpData false (Some (CpussRegdumpData 4096 1024 4 0 4 0 56)) demo_sprs))
    as Hroom.
  { pose proof demo_sprs_room as [_ _ Hl Hr Hd]. split; try done.
    intros i s Hs. eapply spr_room_bounds; [| |by eapply Hr]; by vm_compute. }
  destruct (reset_sprs_dump_table_ok _ _ Hroom) as (d' & He & Hrep & Hfr).
  assert (demo_both = d') as Hd by (unfold demo_both; by rewrite He).
  assert (spr_regions demo_reg_dev = demo_regions) as Hreg
    by (unfold spr_regions; by rewrite demo_reg_dev_data).
  rewrite Hd. split_and!.
  - eapply rep_frame; [done|apply demo_reg_rep|done| |].
    + by eapply sprs_rep_unlocked.
    + rewrite Hreg. apply demo_separate.
  - by eexists.
  - destruct Hfr as (_ & -> & _). done.
Qed.

Lemma demo_both_inv : cpuss_inv 8 4096 1024 demo_regions (demo_both, []).
Proof.
  destruct demo_both_reps as (H1 & H2 & H3). split_and!; simpl; try done. by exists demo_table.
Qed.

(** A per-core read while another writer waits to set core_reg_num. *)
Lemma cpuss_writers_safe_witness :
  exists d', cpuss_inv 8 4096 1024 demo_regions (d', [7]) /\
    is_Some (core_reg_num_update d' 7 10).
Proof.
  set (sc := ScanConfig 4 0x100 8 ch_r 1).
  destruct (core_reg_num_check_refines 8 4096 demo_both demo_table (Some 7) 10 (proj1 demo_both_reps))
    as (d1 & H1 & _).
  assert (cpuss_step 8 10 (demo_both, []) (d1, [7])) as S1.
  { constructor. apply (step_check_update _ _ _ _ (Some 7)); [|exact H1]. intros v [= <-]. lia. }
  destruct (cpuss_writers_safe 8 10 4096 1024 demo_regions (demo_both, []) (d1, [7])
    ltac:(lia) demo_separate demo_both_inv (rtc_once _ _ S1)) as (Hinv & Hc & _).
  assert (scan_ok sc) as Hsc by (constructor; unfold sc; simpl; lia).
  destruct (Hc sc Hsc) as [[ret d2] H2]. simpl in H2.
  assert (cpuss_step 8 10 (d1, [7]) (d2, [7])) as S2
    by (constructor; by eapply step_config).
  destruct (cpuss_writers_safe 8 10 4096 1024 demo_regions (demo_both, []) (d2, [7])
    ltac:(lia) demo_separate demo_both_inv (rtc_l _ _ _ _ S1 (rtc_once _ _ S2)))
    as (Hinv2 & _ & _ & Hu & _).
  exists d2. split; [exact Hinv2|]. apply Hu. lia.
Defined.

(** C4.  A write to register_config does to the table what [config_table]
    says: it returns the error or the count, appends exactly the command the
    line denotes to the per-core or the system list when there is room for
    its input words and its output bytes on every CPU, leaves the table alone
    otherwise, and writes no byte outside the dump region.  The 32-bit
    overflow checks of the handler decide the same as unbounded arithmetic. *)
Theorem register_config_store_correct ncpus p d t s count :
  0 < ncpus -> scan_ok s -> rep ncpus p d t ->
  exists d',
    register_config_store ncpus d s count
      = Some (if (config_table ncpus t s).1 =? 0 then count else (config_table ncpus t s).1, d') /\
    rep ncpus p d' (config_table ncpus t s).2 /\
    mod_only p (p + t_size t) (dma d) (dma d') /\ same_sprs d d'.
Proof.
  intros Hn Hs Hrep. pose proof (register_config_store_refines ncpus p d t s count Hn Hs Hrep) as H.
  destruct (config_table ncpus t s) as [ret t']. destruct H as (d' & ? & ? & _ & ? & ?). eauto.
Qed.

(** Two registers of eight bytes on eight CPUs take 64 bytes of output. *)
Lemma register_config_store_correct_witness :
  exists d', register_config_store 8 demo_reg_dev (ScanConfig 4 0x100 8 ch_r 1) 10 = Some (10, d') /\
    rep 8 4096 d' (Table 1024 4 [Read 0x100 8] []).
Proof.
  destruct (register_config_store_correct 8 4096 demo_reg_dev demo_table
    (ScanConfig 4 0x100 8 ch_r 1) 10) as (d' & H1 & H2 & _);
    [lia|constructor; simpl; lia|apply demo_reg_rep|].
  exists d'. split; [exact H1|exact H2].
Defined.

(** C12.  A write to core_reg_num (uninterrupted) is refused with -EINVAL if it
    is not a number, with -EPERM if the table has commands, with -ENOMEM if a
    table of that capacity does not fit, does nothing if the capacity is the
    present one, and otherwise leaves the empty table of the new capacity.
    The capacity that has to fit and that is laid out is the number modulo
    [2^31], the number that is stored is the written one: up to [2^31] the
    outcome is a table again, from there on it is the table of the residue but
    for the [core_reg_num] the driver believes in.  [num_ok] excludes the
    numbers whose residue is one of the last three below [2^31] (see
    [core_reg_num_faults]). *)
Theorem core_reg_num_store_correct ncpus p d t buf count :
  0 < ncpus -> (forall n, buf = Some n -> num_ok n) -> rep ncpus p d t ->
  let '(ret, t') := match buf with None => (- EINVAL, t) | Some n => core_num_table t n end in
  exists d', core_reg_num_store d buf count = Some (if ret =? 0 then count else ret, d') /\
    (ret <> 0 -> rep ncpus p d' t) /\
    (forall n, buf = Some n -> ret = 0 -> n < 2147483648 -> rep ncpus p d' t') /\
    (forall n, buf = Some n -> ret = 0 ->
       with_core_num n d' = d' /\ rep ncpus p (with_core_num (low31 n) d') t') /\
    mod_only p (p + t_size t) (dma d) (dma d') /\ same_sprs d d'.
Proof.
  intros Hn Hb Hrep. pose proof (core_reg_num_store_refines ncpus p d t buf count Hn Hb Hrep) as H.
  destruct (match buf with None => _ | Some n => _ end) as [ret t'] eqn:Ht.
  destruct H as (d' & Hs & Hr & Hm & Hsp). exists d'. split; [exact Hs|].
  assert (ret <> 0 -> t' = t) as Herr.
  { destruct buf; [|by simplify_eq]. unfold core_num_table, reset_table in Ht.
    repeat case_match; by simplify_eq. }
  split_and!; try done; destruct buf as [n|]; try done; destruct (Z.eqb_spec ret 0); try done.
  - intros Hne. by rewrite <- (Herr Hne).
  - intros Hne. by rewrite <- (Herr Hne).
  - intros n' [= <-] _ Hlt. apply (core_num_rep_small _ _ _ _ n); [|done].
    destruct (Hb n eq_refl). lia.
  - by intros n' [= <-] _.
Qed.

Lemma core_reg_num_store_correct_witness :
  (exists d', core_reg_num_store demo_reg_dev (Some 7) 2 = Some (2, d') /\
     rep 8 4096 d' (Table 1024 7 [] [])) /\
  (exists d', core_reg_num_store demo_reg_dev (Some 126) 4 = Some (- ENOMEM, d')) /\
  (exists d', core_reg_num_store demo_reg_dev (Some 2147483655) 9 = Some (9, d') /\
     with_core_num 2147483655 d' = d' /\ rep 8 4096 (with_core_num 7 d') (Table 1024 7 [] [])).
Proof.
  assert (forall n, 0 <= n < 4294967296 -> low31 n <= 2147483644 ->
            forall n', Some n = Some n' -> num_ok n') as Hok
    by (intros n H1 H2 n' [= <-]; done).
  split_and!.
  - destruct (core_reg_num_store_correct 8 4096 demo_reg_dev demo_table (Some 7) 2)
      as (d' & H1 & _ & H2 & _); [lia|by apply Hok|apply demo_reg_rep|].
    exists d'. split; [exact H1|by apply (H2 7)].
  - destruct (core_reg_num_store_correct 8 4096 demo_reg_dev demo_table (Some 126) 4)
      as (d' & H1 & _); [lia|by apply Hok|apply demo_reg_rep|].
    exists d'. exact H1.
  - destruct (core_reg_num_store_correct 8 4096 demo_reg_dev demo_table (Some 2147483655) 9)
      as (d' & H1 & _ & _ & H2 & _); [lia|by apply Hok|apply demo_reg_rep|].
    exists d'. split; [exact H1|by apply (H2 2147483655)].
Defined.

(** C13.  [update_reg_dump_table] on any device whose table region is inside
    the dump memory: with a capacity that fits it returns 0 and the memory
    holds the image of the empty table of that capacity, header, zeroed input
    area and output offset; otherwise it returns -ENOMEM and changes nothing.
    No byte outside the region is written.  The capacity is the number asked
    for modulo [2^31], the double of which is counted in 32 bits, while the
    driver data keeps the number itself; up to [2^31] the two are the same
    and the result is a table.  [num_ok] excludes the residues from [2^31 - 3]
    on (see [core_reg_num_faults]). *)
Theorem update_reg_dump_table_correct ncpus p sz d n :
  num_ok n -> region p sz d ->
  (sz <= 4 * (6 + 2 * low31 n) -> update_reg_dump_table d n = Some (- ENOMEM, d)) /\
  (4 * (6 + 2 * low31 n) < sz ->
   exists d', update_reg_dump_table d n = Some (0, d') /\
     (n < 2147483648 -> low31 n = n /\ rep ncpus p d' (Table sz n [] [])) /\
     with_core_num n d' = d' /\
     rep ncpus p (with_core_num (low31 n) d') (Table sz (low31 n) [] []) /\
     words_at (dma d') p
       ([0xC0FFEE; 2; 5 + 2 * low31 n; 4 * (6 + 2 * low31 n)]
        ++ replicate (Z.to_nat (1 + 2 * low31 n)) 0 ++ [0]) /\
     mod_only p (p + sz) (dma d) (dma d')).
Proof.
  intros Hn Hreg. pose proof (update_reg_dump_table_wraps ncpus p sz d n Hn Hreg) as H.
  pose proof (low31_range n) as Hk.
  unfold reset_table, SYSTEM_REGS_INPUT_INDEX in H; simpl in H.
  destruct (Z.leb_spec sz (4 * (5 + 2 * low31 n + 1))) as [Hle|Hlt];
    destruct H as (d' & Hd & Hok & Herr & Hmod & _); (split; [intros|intros]); try lia.
  - rewrite Hd. by rewrite Herr.
  - exists d'. destruct (Hok eq_refl) as [Hsame Hrep].
    split; [done|split; [|split; [done|split; [done|split; [|done]]]]].
    + intros Hlt2. destruct Hn. assert (low31 n = n) as Hl by (apply low31_small; lia).
      split; [exact Hl|]. rewrite Hl in Hrep. by rewrite Hsame in Hrep.
    + rewrite <- (with_core_num_dma (low31 n) d').
      apply (empty_image ncpus p _ sz); [lia|exact Hrep].
Qed.

Lemma update_reg_dump_table_correct_witness :
  update_reg_dump_table demo_dev 126 = Some (- ENOMEM, demo_dev) /\
  (exists d', update_reg_dump_table demo_dev 4 = Some (0, d') /\
     rep 8 4096 d' (Table 1024 4 [] [])) /\
  (exists d', update_reg_dump_table demo_dev 2147483652 = Some (0, d') /\
     with_core_num 2147483652 d' = d').
Proof.
  split_and!.
  - apply (update_reg_dump_table_correct 8 4096 1024 demo_dev 126 ltac:(done) demo_region). done.
  - destruct (update_reg_dump_table_correct 8 4096 1024 demo_dev 4 ltac:(done) demo_region) as [_ H].
    destruct (H ltac:(done)) as (d' & Hd & Hr & _). exists d'. split; [exact Hd|by apply Hr].
  - destruct (update_reg_dump_table_correct 8 4096 1024 demo_dev 2147483652 ltac:(done) demo_region)
      as [_ H].
    destruct (H ltac:(done)) as (d' & Hd & _ & Hs & _). exists d'. split; [exact Hd|exact Hs].
Defined.

(** A write of 1 to register_reset leaves the empty table with one
    per-core register; when even that does not fit the region the failure of
    [update_reg_dump_table] is dropped: the table is unchanged and the write
    still reports success.  Any other input is -EINVAL without effect. *)
Theorem register_reset_store_correct ncpus p d t buf count :
  0 < ncpus -> rep ncpus p d t ->
  (buf <> Some 1 -> register_reset_store d buf count = Some (- EINVAL, d)) /\
  (buf = Some 1 ->
   exists d', register_reset_store d buf count = Some (count, d') /\
     (if t_size t <=? 32 then rep ncpus p d' t
      else rep ncpus p d' (Table (t_size t) 1 [] [])) /\
     mod_only p (p + t_size t) (dma d) (dma d')).
Proof.
  intros Hn Hrep. split.
  - intros Hb. unfold register_reset_store. destruct buf as [v|]; [|done].
    destruct (Z.eqb_spec v 1) as [->|]; [done|]. done.
  - intros ->. destruct (register_reset_store_refines ncpus p d t count Hn Hrep)
      as (d' & Hs & Hr & _ & Hm & _).
    exists d'. split_and!; try done. unfold reset_table, SYSTEM_REGS_INPUT_INDEX in Hr.
    change (4 * (5 + 2 * 1 + 1)) with 32 in Hr. by destruct (t_size t <=? 32).
Qed.

Lemma register_reset_store_correct_witness :
  exists d', register_reset_store demo_reg_dev (Some 1) 2 = Some (2, d') /\
    rep 8 4096 d' (Table 1024 1 [] []).
Proof.
  destruct (register_reset_store_correct 8 4096 demo_reg_dev demo_table (Some 1) 2
    ltac:(lia) demo_reg_rep) as [_ H].
  destruct (H eq_refl) as (d' & H1 & H2 & _). exists d'. split; [exact H1|exact H2].
Defined.

(** ** The listing *)

(** C10.  register_config reads back what was stored: when the listing fits the
    page, and no command is a read of more than one word at offset zero, it
    is the title, every per-core command, the second title and every system
    command, each printed with its letter, its value and its offset; a delay
    has no offset of its own and is printed with offset zero, whatever offset
    it was written with.  (A read of more than one word at offset zero starts
    with a zero word, which the listing skips as an empty slot: see
    [show_skips_offset_zero].) *)
Theorem register_config_show_roundtrip PAGE_SIZE ncpus p d t :
  64 <= PAGE_SIZE -> 0 < ncpus -> rep ncpus p d t ->
  Forall (fun c => visible c = true) (t_core t ++ t_sys t) ->
  slen (table_text t) < PAGE_SIZE ->
  register_config_show PAGE_SIZE d = Some (slen (table_text t), table_text t, d).
Proof. intros HP Hn Hrep Hv Hlen. by eapply register_config_show_prints. Qed.

(** Lines written to register_config one after the other, all accepted. *)
Fixpoint config_lines (ncpus : Z) (d : device) (l : list scan_config) : option device :=
  match l with
  | [] => Some d
  | s :: l =>
      let* (ret, d) := register_config_store ncpus d s 1 in
      let* _ := assert_c (ret =? 1) in
      config_lines ncpus d l
  end.

Fixpoint lines_table (ncpus : Z) (t : table) (l : list scan_config) : option table :=
  match l with
  | [] => Some t
  | s :: l =>
      let '(ret, t) := config_table ncpus t s in
      let* _ := assert_c (ret =? 0) in
      lines_table ncpus t l
  end.

Lemma config_lines_rep ncpus p l d t t' :
  0 < ncpus -> Forall scan_ok l -> rep ncpus p d t -> lines_table ncpus t l = Some t' ->
  exists d', config_lines ncpus d l = Some d' /\ rep ncpus p d' t'.
Proof.
  intros Hn Hs. revert d t. induction Hs as [|s l Hs _ IH]; intros d t Hrep Hl; simpl in *.
  { simplify_eq. by exists d. }
  pose proof (register_config_store_refines ncpus p d t s 1 Hn Hs Hrep) as H.
  destruct (config_table ncpus t s) as [ret t1]. destruct H as (d' & -> & Hrep' & _). simpl in *.
  destruct (Z.eqb_spec ret 0) as [->|Hne]; [by apply (IH d' t1)|done].
Qed.

(** A per-core read of two words and of one; a delay, a write and a read of one
    word three times over as system registers. *)
Definition demo_lines : list scan_config :=
  [ScanConfig 4 0x100 8 ch_r 1; ScanConfig 4 0x200 4 ch_r 1;
   ScanConfig 3 0x300 5 ch_d 0; ScanConfig 3 0x40 7 ch_w 0; ScanConfig 3 0x80 3 ch_R 0].

Definition demo_lines_table : table :=
  Table 1024 4 [Read 0x100 8; ReadWord 0x200] [Delay 5; Write 0x40 7; Repeat 0x80 3].

Lemma register_config_show_roundtrip_witness :
  exists d', config_lines 8 demo_reg_dev demo_lines = Some d' /\
    register_config_show 4096 d'
    = Some (104, "per-core registers:" +:+ nl +:+ "0x100, 0x8, r" +:+ nl +:+ "0x200, 0x4, r" +:+ nl
                 +:+ "system registers:" +:+ nl +:+ "0x0, 0x5, d" +:+ nl +:+ "0x40, 0x7, w" +:+ nl
                 +:+ "0x80, 0x3, R" +:+ nl, d').
Proof.
  destruct (config_lines_rep 8 4096 demo_lines demo_reg_dev demo_table demo_lines_table ltac:(lia)
    ltac:(repeat constructor; simpl; lia) demo_reg_rep eq_refl) as (d' & Hd & Hrep).
  exists d'. split; [exact Hd|].
  apply (register_config_show_roundtrip 4096 8 4096 d' demo_lines_table ltac:(lia) ltac:(lia) Hrep);
    [repeat constructor|reflexivity].
Defined.

(** One read of two words at offset zero is listed as something else: the
    listing takes its zero word for an empty slot and its length for an
    offset. *)
Lemma show_skips_offset_zero :
  option_map (fun r => r.1.2) (let* d := config_lines 8 demo_reg_dev [ScanConfig 4 0 8 ch_r 1] in
                               register_config_show 4096 d)
  = Some ("per-core registers:" +:+ nl +:+ "0x8, 0x0, r" +:+ nl +:+ "system registers:" +:+ nl).
Proof. vm_compute. reflexivity. Qed.

(** C33.  On every table, with any words in it, register_config_show ends (its
    loop runs at most once per word of the input tables, and ends there), does
    not fault, returns at most [PAGE_SIZE], and the page holds exactly the
    characters counted (less the terminator when the page is full). *)
Theorem register_config_show_bounded PAGE_SIZE ncpus p d t :
  64 <= PAGE_SIZE -> 0 < ncpus -> rep ncpus p d t ->
  exists count buf, register_config_show PAGE_SIZE d = Some (count, buf, d) /\
    0 <= count <= PAGE_SIZE /\ slen buf = Z.min count (PAGE_SIZE - 1).
Proof.
  intros HP Hn Hrep.
  destruct (register_config_show_total PAGE_SIZE ncpus HP Hn p d t Hrep) as (count & buf & Hs & Hi).
  exists count, buf. split; [exact Hs|exact Hi].
Qed.

Lemma register_config_show_bounded_witness :
  exists count buf, register_config_show 4096 demo_reg_dev = Some (count, buf, demo_reg_dev) /\
    0 <= count <= 4096.
Proof.
  destruct (register_config_show_bounded 4096 8 4096 demo_reg_dev demo_table ltac:(lia) ltac:(lia)
    demo_reg_rep) as (count & buf & H1 & H2 & _).
  exists count, buf. split; [exact H1|exact H2].
Defined.

(** ** Where the handlers are not guarded *)

(** The capacity written to core_reg_num is doubled without an overflow
    check: [2147483648 + k] is accepted wherever [k] is, the header reserves
    the input words of [k] registers only, and the driver then believes in
    the full number. *)
Theorem core_reg_num_wraps p sz d k :
  0 <= k <= 2147483644 -> region p sz d -> 4 * (6 + 2 * k) < sz ->
  exists d' r, update_reg_dump_table d (2147483648 + k) = Some (0, d') /\
    regdata d' = Some r /\ core_reg_num r = 2147483648 + k /\
    ld (dma d') (p + 8) 4 = 5 + 2 * k /\ ld (dma d') (p + 12) 4 = 4 * (6 + 2 * k).
Proof.
  intros Hk Hreg Hfit.
  assert (low31 (2147483648 + k) = k) as Hl.
  { unfold low31, half_word. rewrite <- (Z.mod_small k 2147483648) at 2 by lia.
    replace (2147483648 + k) with (k + 1 * 2147483648) by lia. by rewrite Z.mod_add. }
  pose proof (update_reg_dump_table_wraps 1 p sz d (2147483648 + k)
    ltac:(unfold num_ok; rewrite Hl; lia) Hreg) as H.
  rewrite Hl in H. unfold reset_table, SYSTEM_REGS_INPUT_INDEX in H; simpl in H.
  replace (sz <=? 4 * (5 + 2 * k + 1)) with false in H by (symmetry; apply Z.leb_gt; lia).
  destruct H as (d' & Hd & Hok & _). destruct (Hok eq_refl) as [Hsame Hrep].
  apply empty_image in Hrep as Him; [|lia]. rewrite with_core_num_dma in Him.
  destruct Him as (_ & _ & Hs & Ho & _).
  destruct Hrep as (c1 & r1 & Hd1 & _ & Hr1 & _).
  destruct d' as [m [[mx [r|] sp]|]]; simpl in *; simplify_eq.
  injection Hsame as Hr. eexists _, r. split_and!; [done|done|by rewrite <- Hr| |].
  - by rewrite <- Hs; f_equal; lia.
  - by rewrite <- Ho; f_equal; lia.
Qed.

Lemma core_reg_num_wraps_witness :
  exists d' r, update_reg_dump_table demo_dev 2147483648 = Some (0, d') /\
    regdata d' = Some r /\ core_reg_num r = 2147483648 /\ ld (dma d') (4096 + 8) 4 = 5.
Proof.
  destruct (core_reg_num_wraps 4096 1024 demo_dev 0 ltac:(lia) demo_region ltac:(lia))
    as (d' & r & H1 & H2 & H3 & H4 & _).
  exists d', r. split; [exact H1|split; [exact H2|split; [exact H3|exact H4]]].
Defined.

(** For the residues [2^31 - 3] and [2^31 - 2] the words of the table wrap to
    less than a header, so that the number passes the check of the size; the
    input area, cleared next, then counts 16 GiB, and the memset runs off any
    memory that does not have them behind the table. *)
Theorem core_reg_num_faults p sz d n :
  low31 n = 2147483645 \/ low31 n = 2147483646 ->
  region p sz d -> 8 < sz -> m_hi (dma d) < p + 17179869184 ->
  update_reg_dump_table d n = None.
Proof.
  intros Hn (c & r & Hd & Hmx & Hr & <- & <- & Hsz & Hlo & Hhi) Hfit Hmem.
  rewrite update_reg_dump_table_low31.
  destruct d as [m dd], c as [b rr sp]. simpl in *. subst.
  unfold update_reg_dump_table, mutex_lock, mutex_unlock, regdata, sizeof_u32. simpl.
  assert (forall m', m_hi m' = m_hi m -> forall k, 17179869168 <= k ->
            memset m' (wptr (dump_vaddr r) PERCORE_INDEX) 0 k = None) as Hover.
  { intros m' Hhi' k Hk. unfold memset, in_range, wptr, sizeof_u32, PERCORE_INDEX.
    destruct (Z.leb_spec (dump_vaddr r + 4 * 4 + k) (m_hi m')); [lia|by rewrite andb_false_r]. }
  destruct Hn as [-> | ->]; cbv beta zeta.
  1: change (u32 (SYSTEM_REGS_INPUT_INDEX + u32 (2147483645 * 2))) with 4294967295;
    change (u32 (4294967295 + 1)) with 0; change (u32 (0 * 4)) with 0.
  2: change (u32 (SYSTEM_REGS_INPUT_INDEX + u32 (2147483646 * 2))) with 1;
    change (u32 (1 + 1)) with 2; change (u32 (2 * 4)) with 8.
  all: rewrite (proj2 (Z.leb_gt (size r) _)) by lia; simpl.
  all: rewrite memset_ok by lia; simpl.
  all: do 4 match goal with |- context [store32 ?m' ?a ?v] =>
         let Hs := fresh in destruct (store32 m' a v) eqn:Hs; [|done]; simpl end.
  all: repeat match goal with Hs : store32 _ _ _ = Some _ |- _ =>
         apply store32_inv in Hs as (_ & _ & ->) end.
  all: by rewrite Hover by (by vm_compute || by simpl).
Qed.

(** Between the probe and the first reset the register table has no
    header, and register_config does not check for one: the first accepted
    system register is written over the header's magic word (index 0). *)
Theorem config_before_reset ncpus p sz d s count :
  scan_ok s -> region p sz d -> 16 <= sz ->
  regdata d = Some (CpussRegdumpData p sz 0 0 0 0 0) -> ld (dma d) (p + 8) 4 = 0 ->
  sc_nval s = 3 -> sc_cmd s = ch_w -> Z.land (sc_offset s) 3 = 0 ->
  exists d', register_config_store ncpus d s count = Some (count, d') /\
    ld (dma d') p 4 = sc_offset s + CMD_WRITE.
Proof.
  intros Hs Hreg Hsz Hrd Hz Hnv Hcmd Hoff.
  destruct Hreg as (c & r & Hd & Hmx & Hr & _ & _ & Hlt & Hlo & Hhi).
  unfold regdata in Hrd. rewrite Hd in Hrd. rewrite Hr in Hrd. injection Hrd as ->.
  destruct d as [m dd], c as [b rr sp]. simpl in *. subst.
  unfold register_config_store, config_checks. rewrite Hnv, Hcmd, Hoff. simpl.
  unfold mutex_lock, mutex_unlock, set_drvdata, set_mutex; simpl.
  unfold store_system, regdata; simpl.
  rewrite load32_ok by (unfold wptr, sizeof_u32, SYS_REG_INPUT_INDEX; lia).
  change (wptr p SYS_REG_INPUT_INDEX) with (p + 8). rewrite Hz. simpl.
  unfold sizeof_u32. change (u32 (4 * 2 + 4)) with 12. change (u32 (0 + 12)) with 12.
  change (u32 (0 + 0 / 4)) with 0. simpl. decide_tests.
  pose proof (scan_offset _ Hs). pose proof (scan_val _ Hs). rewrite land3 in Hoff.
  assert (sc_offset s < 4294967293) by (pose proof (Z.div_mod (sc_offset s) 4 ltac:(lia)); lia).
  unfold config_cpuss_register, wptr, sizeof_u32, OUTPUT_DUMP_INDEX. simpl.
  rewrite lor_cmd by (unfold CMD_WRITE; lia). unfold CMD_WRITE.
  replace (p + 0) with p by lia.
  do 2 (rewrite store32_ok by (autorewrite with mem_bounds; lia); cbv beta match). simpl.
  change (u32 (0 + 2)) with 2. change (u32 (u32 (2 + 1) * 4)) with 12.
  do 2 (rewrite store32_ok by (autorewrite with mem_bounds; lia); cbv beta match). simpl.
  eexists. split; [reflexivity|]. simpl. by mem_simpl.
Qed.

Lemma config_before_reset_witness :
  exists d', register_config_store 8 demo_dev (ScanConfig 3 0x40 5 ch_w 0) 9 = Some (9, d') /\
    ld (dma d') 4096 4 = 0x42.
Proof.
  destruct (config_before_reset 8 4096 1024 demo_dev (ScanConfig 3 0x40 5 ch_w 0) 9)
    as (d' & H1 & H2); [constructor; simpl; lia|apply demo_region|lia|reflexivity..|].
  exists d'. split; [exact H1|exact H2].
Defined.
