(* ===== verification/SprProps.v ===== *)
(** * Properties of the SPR dump tables *)

From S2P Require Import Prelude CMem CStr CpussData RegDump RegDumpSpec SprDump SprProofs SprShow.
From S2P Require Import Demo.

#[local] Open Scope string_scope.
#[local] Open Scope list_scope.
#[local] Open Scope Z_scope.

(** C30.  A write to spr_config appends the register to the table of its CPU
    when the table has room for one more input word and two more output
    words, returns -ENOMEM when it has not, -EINVAL for a bad line or a CPU
    above 7, and succeeds without effect when the CPU has no table.  Tables of
    other CPUs and all bytes outside the SPR tables are unchanged. *)
Theorem spr_config_store_correct d ts s count :
  0 <= ss_data s < 4294967296 -> 0 <= ss_cpu s -> sprs_rep d ts ->
  exists d', spr_config_store d s count = Some ((store_table ts s count).1, d') /\
    sprs_rep d' (store_table ts s count).2 /\ sprs_frame d d'.
Proof.
  intros Hv Hc Hrep. pose proof (spr_config_store_refines d ts s count Hv Hc Hrep) as H.
  by destruct (store_table ts s count).
Qed.

Lemma spr_config_store_correct_witness :
  exists d', spr_config_store demo_spr_dev (ScanSpr 2 77 3) 5 = Some (5, d') /\
    sprs_rep d' [Some (SprTable 512 []); None; None; Some (SprTable 512 [77]);
                 None; None; None; None].
Proof.
  destruct (spr_config_store_correct demo_spr_dev demo_spr_tables (ScanSpr 2 77 3) 5)
    as (d' & H1 & H2 & _); [simpl; lia|simpl; lia|apply demo_spr_rep|].
  exists d'. split; [exact H1|exact H2].
Defined.

(** When every SPR table has at least the 24 bytes of its header,
    reset_sprs_dump_table turns whatever the tables contain into well-formed
    empty tables and changes no byte outside them; a device without driver
    data is refused with -EFAULT. *)
Theorem reset_sprs_dump_table_correct d :
  (drvdata d = None -> reset_sprs_dump_table d = Some (- EFAULT, d)) /\
  (forall c, sprs_room d c ->
   exists d', reset_sprs_dump_table d = Some (0, d') /\ sprs_rep d' (fresh_tables c) /\
     sprs_frame d d').
Proof.
  split; [intros Hd; unfold reset_sprs_dump_table; by rewrite Hd|].
  intros c Hroom. by apply reset_sprs_dump_table_ok.
Qed.

Lemma reset_sprs_dump_table_correct_witness :
  exists d', reset_sprs_dump_table demo_dev = Some (0, d') /\ sprs_rep d' demo_spr_tables.
Proof.
  destruct (reset_sprs_dump_table_correct demo_dev) as [_ H].
  destruct (H _ demo_sprs_room) as (d' & H1 & H2 & _). exists d'. split; [exact H1|exact H2].
Defined.

(** spr_config prints the listing of all tables, truncated to the page.
    It returns the length of the listing when that is at most [PAGE_SIZE]; on
    a longer one it stops at the first line that takes the count past the
    page and returns that count, which is above [PAGE_SIZE] by at most 63. *)
Theorem spr_config_show_correct PAGE_SIZE d ts :
  64 <= PAGE_SIZE -> sprs_rep d ts ->
  exists count, spr_config_show PAGE_SIZE d = Some (count, scnprintf PAGE_SIZE (sprs_text ts), d) /\
    (slen (sprs_text ts) <= PAGE_SIZE -> count = slen (sprs_text ts)) /\
    (PAGE_SIZE < slen (sprs_text ts) -> PAGE_SIZE < count <= PAGE_SIZE + 63).
Proof.
  intros HP Hrep. destruct (spr_config_show_ok PAGE_SIZE HP d ts Hrep) as (count & Hs & Hc & Hb).
  exists count. split_and!; [done|lia|lia].
Qed.

Lemma spr_config_show_correct_witness :
  exists count, spr_config_show 64 demo_spr_dev
    = Some (count, scnprintf 64 (sprs_text demo_spr_tables), demo_spr_dev) /\ 64 < count <= 127.
Proof.
  destruct (spr_config_show_correct 64 demo_spr_dev demo_spr_tables ltac:(lia) demo_spr_rep)
    as (count & H1 & _ & H3).
  exists count. split; [exact H1|apply H3; vm_compute; reflexivity].
Defined.

(** sprs_format_version prints one line with version 1 per CPU that has a
    table, in CPU order, and nothing else; the page always has room. *)
Theorem sprs_format_version_show_correct PAGE_SIZE d ts :
  512 <= PAGE_SIZE -> sprs_rep d ts ->
  sprs_format_version_show PAGE_SIZE d
  = Some (slen (join (version_lines 0 ts)), join (version_lines 0 ts), d).
Proof. intros HP Hrep. apply sprs_format_version_show_ok; [lia|done|done]. Qed.

Lemma sprs_format_version_show_correct_witness :
  sprs_format_version_show 4096 demo_spr_dev
  = Some (76, "SPR data format version for cpu0 is 1" +:+ nl +:+
              "SPR data format version for cpu3 is 1" +:+ nl, demo_spr_dev).
Proof.
  exact (sprs_format_version_show_correct 4096 demo_spr_dev demo_spr_tables ltac:(lia) demo_spr_rep).
Defined.
