(* ===== verification/DumpProps.v ===== *)
(** * Properties of the dump tables and of the probe *)

From S2P Require Import Prelude CMem CStr CText MdApi CpussData RegDump RegDumpSpec RegDumpProofs.
From S2P Require Import SprDump SprProofs DumpTable DumpTableProofs MemDumpAlloc MemDumpAllocProofs.

#[local] Open Scope string_scope.
#[local] Open Scope list_scope.
#[local] Open Scope Z_scope.

(** ** A concrete probe *)

(** Three complete nodes, one without an id, one without a size. *)
Definition demo_nodes : list child :=
  [Child "rpm" (inr 100) (inr 0xEA) true true;
   Child "cpuss" (inr 1024) (inr CPUSS_REGDUMP) true true;
   Child "noid" (inr 64) (inl (- EINVAL)) true true;
   Child "spr3" (inr 512) (inr 0x1F3) true true;
   Child "nosize" (inl (- EINVAL)) (inr 5) true true].

Definition demo_total : Z := 36864.

Definition demo_env : env :=
  Env (Some 0) (fun n => Some (Mem 1048576 (1048576 + n) (fun _ => 7), 2147483648))
      (fun _ => 0) 99.

#[local] Existing Instance registry_api.

Definition demo_driver : driver (list md_region) :=
  Driver (Device (Mem 0 0 (fun _ => 0)) None) (MsmMemoryDump 0 None) 0 [] [].

Lemma demo_nodes_ok : Forall child_ok demo_nodes.
Proof.
  unfold demo_nodes, CPUSS_REGDUMP.
  do 5 (constructor; [split; simpl; intros; simplify_eq; lia|]). constructor.
Qed.

Lemma demo_env_ok :
  env_ok demo_env (total_size demo_nodes) (Mem 1048576 (1048576 + demo_total) (fun _ => 7)) 2147483648.
Proof. by split. Qed.

(** ** Layout *)

(** C5.  A first probe whose reserved memory and dump memory the kernel grants never
    touches memory outside the dump memory and lays it out as follows: the
    base table and the apps table, then for every node with a size and an id,
    in order, a block of header and data; blocks lie inside the allocation and
    do not overlap.  The apps table lists the physical addresses of the block
    headers (the first 336 of them), every header holds the physical address
    and the size of its data and the node's name, and the SPR tables are
    well formed and empty.  When the allocations of the driver data and of the
    tables of the CPU subsystem nodes are granted too, the register table of
    the sysfs handlers is the data of the last block with id 0xEF, the SPR
    table of each of the eight CPUs is the data of the last block with the id
    of that CPU, tables without a block do not exist, and there is driver data
    exactly when there is a block of the CPU subsystem.  (When some fail, the
    tables there are still are data of blocks with their ids.)

    For 32-bit sizes and ids, less than 2^60 bytes in all, and SPR nodes of
    24 bytes up to 12 less than 2^32: the reset at the end of the probe writes
    the header of an SPR table without looking at its size. *)
Theorem mem_dump_alloc_layout {S : Type} `{!MdApi S} e nodes (g : driver S) m phys :
  Forall child_ok nodes -> 2 * sizeof_dump_table + span nodes < 1152921504606846976 ->
  env_ok e (total_size nodes) m phys ->
  spr_sizes_ok (layout (2 * sizeof_dump_table) nodes) ->
  drvdata (drv_dev g) = None -> drv_static g = 0 -> md_inv (drv_md g) ->
  exists ret g', mem_dump_alloc e nodes g = Some (ret, g') /\
    dump_ready (m_lo m) phys (layout (2 * sizeof_dump_table) nodes) (drv_dev g') (drv_memdump g') /\
    blocks_ok (total_size nodes) (layout (2 * sizeof_dump_table) nodes) /\
    (Forall granted nodes ->
       cpuss_exact (m_lo m) (layout (2 * sizeof_dump_table) nodes) (drv_dev g')) /\
    md_inv (drv_md g').
Proof. intros. by apply mem_dump_alloc_ok. Qed.

Lemma mem_dump_alloc_layout_witness :
  exists ret g', mem_dump_alloc demo_env demo_nodes demo_driver = Some (ret, g') /\
    dump_ready 1048576 2147483648
      [Block 32272 100 0xEA "rpm"; Block 32436 1024 0xEF "cpuss"; Block 33524 512 0x1F3 "spr3"]
      (drv_dev g') (drv_memdump g') /\
    regdata (drv_dev g') = Some (CpussRegdumpData 1081076 1024 0 0 0 0 0) /\
    spr_regions (drv_dev g') = [None; None; None; Some (1082164, 512); None; None; None; None].
Proof.
  destruct (mem_dump_alloc_layout demo_env demo_nodes demo_driver
    (Mem 1048576 (1048576 + demo_total) (fun _ => 7)) 2147483648 demo_nodes_ok)
    as (ret & g' & H1 & H2 & _ & H3 & _); [by vm_compute|apply demo_env_ok| |reflexivity..|exact I|].
  - assert (spr_sizes_ok
      [Block 32272 100 0xEA "rpm"; Block 32436 1024 0xEF "cpuss"; Block 33524 512 0x1F3 "spr3"]) as Hs.
    { intros b Hb. repeat (apply elem_of_cons in Hb as [->|Hb]; [simpl; unfold SPR_DUMP_CPU0, SPR_DUMP_CPU7; lia|]).
      by apply elem_of_nil in Hb. }
    exact Hs.
  - destruct H3 as (_ & H4 & H5); [repeat constructor|].
    exists ret, g'. split; [exact H1|split; [exact H2|split; [exact H4|exact H5]]].
Defined.

(** The size allocated is a whole number of pages, at least what the two
    tables and all counted nodes with their headers need, and less than a page
    more; the size_t arithmetic does not wrap. *)
Theorem total_size_correct nodes :
  Forall child_ok nodes -> 2 * sizeof_dump_table + span nodes < 1152921504606846976 ->
  2 * sizeof_dump_table + span nodes <= total_size nodes
    < 2 * sizeof_dump_table + span nodes + 4096 /\
  total_size nodes mod 4096 = 0.
Proof. apply total_size_ok. Qed.

Lemma total_size_correct_witness : 34164 <= total_size demo_nodes < 38260.
Proof. apply (total_size_correct demo_nodes demo_nodes_ok). by vm_compute. Defined.

(** ** Registration *)

(** C32.  Registering an entry appends it, with the data type, to the apps table
    and returns 0, or returns -EINVAL and changes nothing: when the table id
    is not that of the apps table or 336 entries are registered.  Only bytes
    of the apps table are written. *)
Theorem register_dump_table_entry_correct m md base phys es id e :
  dump_inv m md base phys es -> entry_ok e ->
  exists m',
    register_dump_table_entry m md id e = Some ((register_entry es id e).1, m') /\
    dump_inv m' md base phys (register_entry es id e).2 /\
    ((register_entry es id e).1 <> 0 -> m' = m) /\
    mod_only (base + sizeof_dump_table) (base + 2 * sizeof_dump_table) m m'.
Proof.
  intros Hinv He. pose proof (register_dump_table_entry_refines _ _ _ _ _ Hinv id e He) as H.
  by destruct (register_entry es id e).
Qed.

(** init_memory_dump on a zeroed block makes the base table with the one
    entry that names the apps table, and an empty apps table; both carry
    version 2.0. *)
Theorem init_memory_dump_correct m base phys :
  m_lo m <= base -> base + 2 * sizeof_dump_table <= m_hi m ->
  (forall a, base <= a < base + 2 * sizeof_dump_table -> byte m a = 0) ->
  0 <= phys /\ phys + sizeof_dump_table < 18446744073709551616 ->
  0 < base /\ base + 2 * sizeof_dump_table <= 18446744073709551616 ->
  exists m' md, init_memory_dump m base phys = Some (0, m', md) /\ dump_inv m' md base phys [].
Proof.
  intros H1 H2 H3 H4 H5. destruct (init_memory_dump_ok m base phys H1 H2 H3 H4 H5)
    as (m' & md & ? & ? & _). eauto.
Qed.

Definition demo_table_mem : mem := Mem 1048576 1114112 (fun _ => 0).

Lemma init_memory_dump_correct_witness :
  exists m' md, init_memory_dump demo_table_mem 1048576 2147483648 = Some (0, m', md) /\
    dump_inv m' md 1048576 2147483648 [].
Proof.
  apply (init_memory_dump_correct demo_table_mem 1048576 2147483648);
    [by vm_compute|by vm_compute|done|by split|by split].
Defined.

Lemma demo_dump_inv :
  exists m md, dump_inv m md 1048576 2147483648 [].
Proof.
  destruct (init_memory_dump_ok demo_table_mem 1048576 2147483648) as (m' & md & _ & H & _);
    [by vm_compute|by vm_compute|done|by split|by split|]. eauto.
Qed.

Lemma register_dump_table_entry_correct_witness :
  exists m md m',
    register_dump_table_entry m md MSM_DUMP_TABLE_APPS (MsmDumpEntry 0xEA 0x80001000) = Some (0, m') /\
    dump_inv m' md 1048576 2147483648 [Dentry 0xEA MSM_DUMP_TYPE_DATA 0x80001000].
Proof.
  destruct demo_dump_inv as (m & md & Hinv).
  destruct (register_dump_table_entry_correct m md 1048576 2147483648 [] MSM_DUMP_TABLE_APPS
    (MsmDumpEntry 0xEA 0x80001000) Hinv) as (m' & H1 & H2 & _); [split; simpl; lia|].
  exists m, md, m'. split; [exact H1|exact H2].
Defined.

(** msm_dump_data_register returns what the registration in the dump table
    returned: when that failed nothing at all changed, when it succeeded the
    data is also offered to minidump, whose refusal is not reported; the
    minidump registry gains at most one region and keeps its invariant. *)
Theorem msm_dump_data_register_correct {S : Type} `{!MdApi S} p2v m md base phys es km id e (s : S) :
  translates p2v -> dump_inv m md base phys es -> entry_ok e -> data_in p2v km e -> md_inv s ->
  exists m' s',
    msm_dump_data_register p2v m md km id e s = Some ((register_entry es id e).1, m', s') /\
    dump_inv m' md base phys (register_entry es id e).2 /\ md_inv s' /\
    ((register_entry es id e).1 <> 0 -> m' = m /\ s' = s) /\
    (s' = s \/ md_regions_count s' = md_regions_count s + 1).
Proof.
  intros Htr H1 H2 H3 H4.
  pose proof (msm_dump_data_register_refines p2v m md base phys es km id e s Htr H1 H2 H3 H4) as H.
  by destruct (register_entry es id e).
Qed.

(** The data block at 4096 describes 256 bytes and has no name. *)
Definition demo_data_mem : mem :=
  st (st (Mem 4096 8192 (fun _ => 0)) (4096 + off_d_addr) 8 8192) (4096 + off_d_len) 8 256.

Lemma msm_dump_data_register_correct_witness :
  exists m md m' s',
    msm_dump_data_register (fun x => x) m md demo_data_mem MSM_DUMP_TABLE_APPS
      (MsmDumpEntry 0xEA 4096) ([] : list md_region) = Some (0, m', s') /\
    dump_inv m' md 1048576 2147483648 [Dentry 0xEA MSM_DUMP_TYPE_DATA 4096].
Proof.
  destruct demo_dump_inv as (m & md & Hinv).
  destruct (msm_dump_data_register_correct (fun x => x) m md 1048576 2147483648 [] demo_data_mem
    MSM_DUMP_TABLE_APPS (MsmDumpEntry 0xEA 4096) ([] : list md_region) ltac:(by intros a Ha) Hinv)
    as (m' & s' & H1 & H2 & _); [split; simpl; lia|by split|exact I|].
  exists m, md, m', s'. split; [exact H1|exact H2].
Defined.

(** ** sysfs files *)

(** memory_dump_create_files creates all attributes and returns 0, or
    returns the error of the first attribute that could not be created with
    the files as they were before the call. *)
Theorem memory_dump_create_files_correct create_file attrs files :
  NoDup attrs -> Forall (fun a => a ∉ files) attrs ->
  memory_dump_create_files create_file attrs files =
  match find (fun a => negb (create_file a =? 0)) attrs with
  | Some a => (create_file a, files)
  | None => (0, files ++ attrs)
  end.
Proof.
  intros Hnd Hf. unfold memory_dump_create_files.
  pose proof (create_files_loop_ok create_file attrs [] files Hnd Hf) as H.
  by rewrite app_nil_r in H.
Qed.

Lemma memory_dump_create_files_correct_witness :
  memory_dump_create_files (fun a => if decide (a = "register_reset") then - EEXIST else 0)
    register_dump_attrs ["uevent"] = (- EEXIST, ["uevent"]).
Proof.
  rewrite (memory_dump_create_files_correct _ register_dump_attrs ["uevent"]);
    [reflexivity| |]; apply (bool_decide_unpack _); by vm_compute.
Defined.
