(* ===== verification/KaslrStore.v ===== *)
(** * The KASLR offset store (kaslr_store.c)

    The probe writes the kernel's KASLR offset, behind a magic word, to a
    device memory the boot loader reads after a crash. *)

From S2P Require Import Prelude CMem.

Definition KASLR_OFFSET_BIT_MASK : Z := 0x00000000FFFFFFFF.
Definition KASLR_MAGIC : Z := 0xdead4ead.

(** [base] is the result of [devm_platform_ioremap_resource]: an error or the
    mapped block. *)
Definition kaslr_off_store_probe (kaslr_offset : Z) (base : Z + mem) : option (Z * option mem) :=
  let kaslr_off := kaslr_offset in
  match base with
  | inl err => Some (err, None)
  | inr m =>
      let* m' := store32 m (m_lo m) KASLR_MAGIC in
      let* m' := store32 m' (m_lo m + 4) (Z.land kaslr_off KASLR_OFFSET_BIT_MASK) in
      let* m' := store32 m' (m_lo m + 8) (Z.land (Z.shiftr kaslr_off 32) KASLR_OFFSET_BIT_MASK) in
      Some (0, Some m')
  end.

(** ** Properties *)

Lemma kaslr_mask x : Z.land x KASLR_OFFSET_BIT_MASK = x mod 4294967296.
Proof. change KASLR_OFFSET_BIT_MASK with (Z.ones 32). by rewrite Z.land_ones. Qed.

(** C36.  The probe writes twelve bytes: the magic word, then a little-endian
    64-bit word from which the offset is read back exactly; other bytes of
    the device memory keep their values. *)
Theorem kaslr_probe_roundtrip off m :
  0 <= off < 18446744073709551616 -> m_lo m + 12 <= m_hi m ->
  exists m', kaslr_off_store_probe off (inr m) = Some (0, Some m') /\
    ld m' (m_lo m) 4 = KASLR_MAGIC /\
    ld m' (m_lo m + 4) 4 + 4294967296 * ld m' (m_lo m + 8) 4 = off /\
    mod_only (m_lo m) (m_lo m + 12) m m'.
Proof.
  intros Hoff Hm. unfold kaslr_off_store_probe. rewrite !kaslr_mask, Z.shiftr_div_pow2 by lia.
  change (2 ^ 32) with 4294967296.
  pose proof (Z.div_mod off 4294967296 ltac:(lia)) as Hdm.
  pose proof (Z.mod_pos_bound off 4294967296 ltac:(lia)).
  rewrite (Z.mod_small (off / 4294967296))
    by (split; [apply Z.div_pos; lia|apply Z.div_lt_upper_bound; lia]).
  assert (0 <= off / 4294967296 < 4294967296)
    by (split; [apply Z.div_pos; lia|apply Z.div_lt_upper_bound; lia]).
  do 3 (rewrite store32_ok by (autorewrite with mem_bounds; lia); cbv beta match).
  eexists. split_and!; [reflexivity|unfold KASLR_MAGIC; by mem_simpl| |frame].
  mem_simpl. lia.
Qed.

Lemma kaslr_probe_roundtrip_witness :
  exists m', kaslr_off_store_probe 0x1234567800 (inr (Mem 64 128 (fun _ => 0))) = Some (0, Some m') /\
    ld m' (64 + 4) 4 + 4294967296 * ld m' (64 + 8) 4 = 0x1234567800.
Proof.
  destruct (kaslr_probe_roundtrip 0x1234567800 (Mem 64 128 (fun _ => 0)) ltac:(lia) ltac:(simpl; lia))
    as (m' & H1 & _ & H2 & _).
  exists m'. split; [exact H1|exact H2].
Defined.
