(* ===== verification/XblLog.v ===== *)
(** * The boot log collector (xbl_log/dump_boot_log.c)

    The probe concatenates the UEFI log and two TrustZone counters in a buffer
    and publishes it in debugfs.  The device tree, the mappings and the
    allocator are arguments: [node] is what they answer for one name. *)

From S2P Require Import Prelude CMem CStr CText.

#[local] Open Scope string_scope.
#[local] Open Scope Z_scope.

(** ** Data *)

Definition CHAR_WIDTH : Z := 8.
Definition TZ_STR_LEN : Z := 12.
Definition TZ_SIZE : Z := (CHAR_WIDTH * 4 - 1) / 3 + 1.

Inductive mem_type := RES_MEM | IO_MEM.

(** [xbl_buf] is the buffer, its bytes from address 0; [None] a null pointer. *)
Record xbl_log_data := XblLogData { xbl_buf : option mem; buf_size : Z }.

(** For one name: whether the node exists, its resource (an error or start and
    size), the mapping of the resource, and whether the allocation of the
    buffer for it succeeds; bytes [krealloc] adds hold [nd_junk]. *)
Record node := Node {
  nd_found : bool;
  nd_res : Z + Z * Z;
  nd_map : option mem;
  nd_alloc : bool;
  nd_junk : Z -> Z;
}.

(** ** Operations *)

(** [devm_kzalloc(dev, n)] and [devm_krealloc(dev, old, n)]. *)
Definition kzalloc (nd : node) (n : Z) : option mem :=
  if nd_alloc nd then Some (Mem 0 n (fun _ => 0)) else None.

Definition krealloc (nd : node) (old : mem) (n : Z) : option mem :=
  if nd_alloc nd
  then Some (Mem 0 n (fun x => if x <? m_hi old then m_byte old x else nd_junk nd x))
  else None.

(** [memcpy] from another block. *)
Definition copy_in (m : mem) (dst : Z) (src : mem) (a n : Z) : option mem :=
  if in_range m dst n && in_range src a n
  then Some (with_bytes m (fun x =>
         if (dst <=? x) && (x <? dst + n) then m_byte src (a + (x - dst)) else m_byte m x))
  else None.

Definition tz_text (name : string) (v : Z) : string :=
  if bool_decide (stake 14 name = "tz-start-count")
  then "TZ Start [" +:+ fmt_u v +:+ "]" +:+ nl
  else "TZ End   [" +:+ fmt_u v +:+ "]" +:+ nl.

(** A null buffer faults at the copy. *)
Definition append_buf_data (x : xbl_log_data) (nd : node) (name : string) (buf : mem) (sz : Z)
  (ty : mem_type) : option xbl_log_data :=
  let b := match xbl_buf x with
           | None => kzalloc nd (buf_size x)
           | Some old => krealloc nd old (buf_size x)
           end in
  let pos := u32 (u64 (buf_size x - sz)) in
  let* m := b in
  let* m :=
    match ty with
    | RES_MEM => copy_in m pos buf (m_lo buf) sz
    | IO_MEM =>
        let* v := load32 buf (m_lo buf) in
        store_cstr m pos (scnprintf sz (tz_text name v))
    end in
  Some (XblLogData (Some m) (buf_size x)).

Definition map_addr_range (nd : node) (name : string) (x : xbl_log_data) (ty : mem_type)
  : option (Z * xbl_log_data) :=
  if negb (nd_found nd) then Some (- ENODEV, x)
  else match nd_res nd with
  | inl err => Some (err, x)
  | inr (_, rsize) =>
      if rsize =? 0 then Some (- ENODEV, x)
      else match nd_map nd with
      | None => Some (- ENOMEM, x)
      | Some tmp_buf =>
          let tmp_sz := match ty with RES_MEM => u64 (rsize - 1) | IO_MEM => TZ_SIZE + TZ_STR_LEN end in
          let x := XblLogData (xbl_buf x) (u64 (buf_size x + tmp_sz)) in
          let* x := append_buf_data x nd name tmp_buf tmp_sz ty in
          Some (0, x)
      end
  end.

(** What the probe is answered; [pb_file] is [debugfs_create_blob]. *)
Record probe_env := ProbeEnv {
  pb_alloc : bool;
  pb_parent : bool;
  pb_uefi : node;
  pb_start : node;
  pb_end : node;
  pb_file : Z;
}.

(** The return value and the blob published in debugfs, if any. *)
Definition xbl_log_probe (e : probe_env) : option (Z * option (mem * Z)) :=
  if negb (pb_alloc e) then Some (- ENOMEM, None)
  else if negb (pb_parent e) then Some (- ENODEV, None)
  else
    let x := XblLogData None 0 in
    let* (ret, x) := map_addr_range (pb_uefi e) "uefi-log" x RES_MEM in
    if negb (ret =? 0) then Some (ret, None)
    else
      let* (ret, x) := map_addr_range (pb_start e) "tz-start-count" x IO_MEM in
      if negb (ret =? 0) then Some (ret, None)
      else
        let* (ret, x) := map_addr_range (pb_end e) "tz-end-count" x IO_MEM in
        if negb (ret =? 0) then Some (ret, None)
        else
          let* b := xbl_buf x in
          if pb_file e <? 0 then Some (pb_file e, None)
          else Some (ret, Some (b, buf_size x)).

(** ** Facts *)

(** A node whose resource of [sz] bytes is mapped by [m]. *)
Record node_ok (nd : node) (sz : Z) (m : mem) : Prop := {
  no_found : nd_found nd = true;
  no_res : exists a, nd_res nd = inr (a, sz);
  no_size : 0 < sz < 4294967200;
  no_map : nd_map nd = Some m;
  no_alloc : nd_alloc nd = true;
}.

Lemma tz_text_len name v : 0 <= v < 4294967296 -> slen (tz_text name v) < 23.
Proof.
  intros Hv. unfold tz_text. pose proof (slen_fmt_u v Hv).
  case_match; rewrite !slen_app; change (slen nl) with 1; change (slen "]") with 1;
    change (slen "TZ Start [") with 10; change (slen "TZ End   [") with 10; lia.
Qed.

(** The UEFI log: all bytes of the resource but the last. *)
Lemma map_uefi nd sz m :
  node_ok nd sz m -> m_lo m + (sz - 1) <= m_hi m ->
  exists b, map_addr_range nd "uefi-log" (XblLogData None 0) RES_MEM
      = Some (0, XblLogData (Some b) (sz - 1)) /\
    m_lo b = 0 /\ m_hi b = sz - 1 /\
    forall i, 0 <= i < sz - 1 -> byte b i = byte m (m_lo m + i).
Proof.
  intros [Hf [a Hr] Hsz Hm Ha] Hhi. unfold map_addr_range. rewrite Hf, Hr, Hm. simpl.
  decide_test. rewrite !(u64_small (sz - 1)) by lia. rewrite Z.add_0_l, (u64_small (sz - 1)) by lia.
  unfold append_buf_data, kzalloc; simpl. rewrite Ha, Z.sub_diag.
  change (u32 (u64 0)) with 0. unfold copy_in, in_range; simpl. decide_tests.
  eexists. split_and!; [reflexivity|done..|]. intros i Hi. unfold byte; simpl. decide_tests.
  by replace (m_lo m + (i - 0)) with (m_lo m + i) by lia.
Qed.

(** A counter: its text behind what the buffer held. *)
Lemma map_tz nd sz m name b n :
  node_ok nd sz m -> m_lo m + 4 <= m_hi m -> 0 <= n -> n + 23 < 4294967296 ->
  m_lo b = 0 -> m_hi b = n ->
  exists b', map_addr_range nd name (XblLogData (Some b) n) IO_MEM
      = Some (0, XblLogData (Some b') (n + 23)) /\
    m_lo b' = 0 /\ m_hi b' = n + 23 /\
    cstr_at b' n (tz_text name (ld m (m_lo m) 4)) /\
    forall i, 0 <= i < n -> byte b' i = byte b i.
Proof.
  intros [Hf [a Hr] Hsz Hm Ha] Hhi Hn Hlt Hl Hh. unfold map_addr_range. rewrite Hf, Hr, Hm. simpl.
  decide_test. change (TZ_SIZE + TZ_STR_LEN) with 23. rewrite (u64_small (n + 23)) by lia.
  unfold append_buf_data, krealloc; simpl. rewrite Ha.
  replace (n + 23 - 23) with n by lia. rewrite u64_small, u32_small by lia.
  rewrite load32_ok by lia. pose proof (ld32_range m (m_lo m)).
  rewrite scnprintf_fits by (by apply tz_text_len).
  pose proof (tz_text_len name (ld m (m_lo m) 4) ltac:(done)).
  match goal with |- context [store_cstr ?b0 n ?s] =>
    destruct (store_cstr_ok b0 n s) as (b' & -> & (Hl' & Hh' & Hb) & Hs); [simpl; lia..|] end.
  eexists. split_and!; [reflexivity|by rewrite <- Hl'|by rewrite <- Hh'|done|].
  intros i Hi. rewrite <- Hb by lia. unfold byte; simpl. rewrite Hh. by decide_test.
Qed.

(** ** Properties *)

(** C35.  A probe that finds its three nodes and whose allocations succeed stays
    inside its buffer and publishes exactly the UEFI log without its last
    byte, followed by the two counter lines, each in a field of 23 bytes that
    is never too short for it. *)
Theorem xbl_log_probe_correct e su ss se mu ms me :
  pb_alloc e = true -> pb_parent e = true -> 0 <= pb_file e ->
  node_ok (pb_uefi e) su mu -> m_lo mu + (su - 1) <= m_hi mu ->
  node_ok (pb_start e) ss ms -> m_lo ms + 4 <= m_hi ms ->
  node_ok (pb_end e) se me -> m_lo me + 4 <= m_hi me ->
  exists b, xbl_log_probe e = Some (0, Some (b, su - 1 + 46)) /\
    m_lo b = 0 /\ m_hi b = su - 1 + 46 /\
    (forall i, 0 <= i < su - 1 -> byte b i = byte mu (m_lo mu + i)) /\
    cstr_at b (su - 1) ("TZ Start [" +:+ fmt_u (ld ms (m_lo ms) 4) +:+ "]" +:+ nl) /\
    cstr_at b (su - 1 + 23) ("TZ End   [" +:+ fmt_u (ld me (m_lo me) 4) +:+ "]" +:+ nl).
Proof.
  intros Ha Hp Hf Hu Hmu Hs Hms He Hme. unfold xbl_log_probe. rewrite Ha, Hp. simpl.
  pose proof (no_size _ _ _ Hu).
  destruct (map_uefi _ _ _ Hu Hmu) as (b1 & -> & Hl1 & Hh1 & Hb1). simpl.
  destruct (map_tz _ _ _ "tz-start-count" b1 (su - 1) Hs Hms) as (b2 & -> & Hl2 & Hh2 & Hc2 & Hb2);
    [lia..|]. simpl.
  destruct (map_tz _ _ _ "tz-end-count" b2 (su - 1 + 23) He Hme) as (b3 & -> & Hl3 & Hh3 & Hc3 & Hb3);
    [lia..|]. simpl. replace (su - 1 + 23 + 23) with (su - 1 + 46) in * by lia. decide_test.
  eexists. split; [reflexivity|split; [done|split; [done|split; [|split; [|exact Hc3]]]]].
  - intros i Hi. rewrite Hb3, Hb2, Hb1 by lia. done.
  - pose proof (tz_text_len "tz-start-count" (ld ms (m_lo ms) 4) (ld32_range _ _)) as Hlen.
    change (cstr_at b3 (su - 1) (tz_text "tz-start-count" (ld ms (m_lo ms) 4))).
    eapply cstr_at_bytes; [|exact Hc2]. intros x Hx. apply Hb3. lia.
Qed.

Definition demo_node (m : mem) : node := Node true (inr (0, m_hi m - m_lo m)) (Some m) true (fun _ => 90).

Definition demo_probe : probe_env :=
  ProbeEnv true true (demo_node (Mem 100 165 (fun x => x)))
    (demo_node (Mem 0 8 (fun x => if x =? 0 then 7 else 0)))
    (demo_node (Mem 0 8 (fun x => if x =? 0 then 9 else 0))) 0.

Lemma xbl_log_probe_correct_witness :
  exists b, xbl_log_probe demo_probe = Some (0, Some (b, 110)) /\ byte b 63 = 163 /\
    cstr_at b 64 ("TZ Start [7]" +:+ nl) /\ cstr_at b 87 ("TZ End   [9]" +:+ nl).
Proof.
  destruct (xbl_log_probe_correct demo_probe 65 8 8 (Mem 100 165 (fun x => x))
    (Mem 0 8 (fun x => if x =? 0 then 7 else 0)) (Mem 0 8 (fun x => if x =? 0 then 9 else 0)))
    as (b & H1 & _ & _ & H2 & H3 & H4);
    [reflexivity|reflexivity|reflexivity
    |constructor; [reflexivity|eexists; reflexivity|lia|reflexivity|reflexivity]|reflexivity || (simpl; lia)
    |constructor; [reflexivity|eexists; reflexivity|lia|reflexivity|reflexivity]|simpl; lia
    |constructor; [reflexivity|eexists; reflexivity|lia|reflexivity|reflexivity]|simpl; lia|].
  exists b. split; [exact H1|split; [exact (H2 63 ltac:(lia))|split; [exact H3|exact H4]]].
Defined.

(** The results of the allocations are not checked: when the buffer cannot
    be allocated, or grown for a counter, the copy into it dereferences a null
    pointer. *)
Theorem xbl_log_alloc_unchecked nd name x ty m sz :
  nd_found nd = true -> nd_res nd = inr (0, sz) -> 0 < sz -> nd_map nd = Some m ->
  nd_alloc nd = false -> map_addr_range nd name x ty = None.
Proof.
  intros Hf Hr Hsz Hm Ha. unfold map_addr_range. rewrite Hf, Hr, Hm. simpl. decide_test.
  unfold append_buf_data, kzalloc, krealloc. rewrite Ha. simpl. by destruct (xbl_buf x).
Qed.

Lemma xbl_log_alloc_unchecked_witness :
  map_addr_range (Node true (inr (0, 65)) (Some (Mem 100 165 (fun x => x))) false (fun _ => 0))
    "uefi-log" (XblLogData None 0) RES_MEM = None.
Proof.
  apply (xbl_log_alloc_unchecked _ _ _ _ (Mem 100 165 (fun x => x)) 65); reflexivity.
Defined.
