(* ===== verification/MdElf.v ===== *)
(** * The ELF header of the minidump (elf.h; msm_minidump.c, lines 80-103,
    187-299 and 825-942)

    The driver keeps a core-file header in one buffer: the ELF header, the
    section and program headers, the string table and the banner.  The
    functions find their way in it through the offsets stored in it, so the
    buffer is modelled byte by byte. *)

From S2P Require Import Prelude CMem CStr CText MdApi.
From Stdlib Require Import Ascii.

#[local] Open Scope string_scope.
#[local] Open Scope Z_scope.

(** ** Layout *)

Definition MAX_NUM_ENTRIES : Z := CONFIG_MINIDUMP_MAX_ENTRIES + 1.
Definition MAX_REGION_NAME_LENGTH : Z := 16.
Definition MAX_STRTBL_SIZE : Z := MAX_NUM_ENTRIES * MAX_REGION_NAME_LENGTH.

(** [Elf64_Ehdr] *)
Definition sizeof_ehdr : Z := 64.
Definition EI_CLASS : Z := 4.
Definition EI_DATA : Z := 5.
Definition EI_VERSION : Z := 6.
Definition EI_OSABI : Z := 7.
Definition off_e_type : Z := 16.
Definition off_e_machine : Z := 18.
Definition off_e_version : Z := 20.
Definition off_e_phoff : Z := 32.
Definition off_e_shoff : Z := 40.
Definition off_e_ehsize : Z := 52.
Definition off_e_phentsize : Z := 54.
Definition off_e_phnum : Z := 56.
Definition off_e_shentsize : Z := 58.
Definition off_e_shnum : Z := 60.
Definition off_e_shstrndx : Z := 62.

(** [Elf64_Shdr] *)
Definition sizeof_shdr : Z := 64.
Definition off_sh_name : Z := 0.
Definition off_sh_type : Z := 4.
Definition off_sh_flags : Z := 8.
Definition off_sh_addr : Z := 16.
Definition off_sh_offset : Z := 24.
Definition off_sh_size : Z := 32.
Definition off_sh_entsize : Z := 56.

(** [Elf64_Phdr] *)
Definition sizeof_phdr : Z := 56.
Definition off_p_type : Z := 0.
Definition off_p_flags : Z := 4.
Definition off_p_offset : Z := 8.
Definition off_p_vaddr : Z := 16.
Definition off_p_paddr : Z := 24.
Definition off_p_filesz : Z := 32.
Definition off_p_memsz : Z := 40.

(** [<linux/elf.h>], arm64 *)
Definition SHT_PROGBITS : Z := 1.
Definition SHT_STRTAB : Z := 3.
Definition SHF_WRITE : Z := 1.
Definition PT_LOAD : Z := 1.
Definition PF_RW : Z := 6.
Definition ELF_CLASS : Z := 2.
Definition ELF_DATA : Z := 1.
Definition EV_CURRENT : Z := 1.
Definition ELF_OSABI : Z := 0.
Definition ET_CORE : Z := 4.
Definition EM_AARCH64 : Z := 183.

(** [struct md_elfhdr]; [ehdr] is the address of the buffer. *)
Record md_elfhdr := MdElfhdr {
  ehdr : Z;
  shdr : Z;
  phdr : Z;
  elf_offset : Z;
  strtable_idx : Z;
}.

Definition set_strtable_idx (h : md_elfhdr) (i : Z) : md_elfhdr :=
  MdElfhdr (ehdr h) (shdr h) (phdr h) (elf_offset h) i.
Definition set_elf_offset (h : md_elfhdr) (o : Z) : md_elfhdr :=
  MdElfhdr (ehdr h) (shdr h) (phdr h) o (strtable_idx h).

(** ** Navigation *)

Definition elf_section (m : mem) (hdr idx : Z) : option Z :=
  let* shoff := load64 m (hdr + off_e_shoff) in
  Some (hdr + shoff + sizeof_shdr * idx).

Definition elf_program (m : mem) (hdr idx : Z) : option Z :=
  let* phoff := load64 m (hdr + off_e_phoff) in
  Some (hdr + phoff + sizeof_phdr * idx).

(** [Some None] is the null pointer. *)
Definition elf_str_table (m : mem) (hdr : Z) : option (option Z) :=
  let* ndx := load16 m (hdr + off_e_shstrndx) in
  if ndx =? 0 then Some None
  else
    let* s := elf_section m hdr ndx in
    let* off := load64 m (s + off_sh_offset) in
    Some (Some (hdr + off)).

Definition elf_lookup_string (m : mem) (h : md_elfhdr) (offset : Z) : option (option Z) :=
  let* strtab := elf_str_table m (ehdr h) in
  match strtab with
  | None => Some None
  | Some strtab =>
      if strtable_idx h <? u64 offset then Some None else Some (Some (strtab + offset))
  end.

Definition set_section_name (m : mem) (h : md_elfhdr) (name : string)
  : option (Z * mem * md_elfhdr) :=
  let* strtab := elf_str_table m (ehdr h) in
  match strtab with
  | None => Some (0, m, h)
  | Some strtab =>
      let idx := s32 (strtable_idx h) in
      let* (len, m) := strscpy_to m (strtab + idx) name MAX_REGION_NAME_LENGTH in
      Some (u32 idx, m, set_strtable_idx h (u64 (s32 (idx + len) + 1)))
  end.

(** ** Adding and updating a region *)

Definition md_add_elf_header (m : mem) (h : md_elfhdr) (entry : md_region)
  : option (mem * md_elfhdr) :=
  let hdr := ehdr h in
  let* shnum := load16 m (hdr + off_e_shnum) in
  let* sh := elf_section m hdr shnum in
  let* m := store16 m (hdr + off_e_shnum) (u16 (shnum + 1)) in
  let* phnum := load16 m (hdr + off_e_phnum) in
  let* ph := elf_program m hdr phnum in
  let* m := store16 m (hdr + off_e_phnum) (u16 (phnum + 1)) in
  let* m := store32 m (sh + off_sh_type) SHT_PROGBITS in
  let* (name, m, h) := set_section_name m h (md_name entry) in
  let* m := store32 m (sh + off_sh_name) name in
  let* m := store64 m (sh + off_sh_addr) (virt_addr entry) in
  let* m := store64 m (sh + off_sh_size) (md_size entry) in
  let* m := store64 m (sh + off_sh_flags) SHF_WRITE in
  let* m := store64 m (sh + off_sh_offset) (elf_offset h) in
  let* m := store64 m (sh + off_sh_entsize) 0 in
  let* m := store32 m (ph + off_p_type) PT_LOAD in
  let* m := store64 m (ph + off_p_offset) (elf_offset h) in
  let* m := store64 m (ph + off_p_vaddr) (virt_addr entry) in
  let* m := store64 m (ph + off_p_paddr) (phys_addr entry) in
  let* m := store64 m (ph + off_p_memsz) (md_size entry) in
  let* m := store64 m (ph + off_p_filesz) (md_size entry) in
  let* m := store32 m (ph + off_p_flags) PF_RW in
  let* size := load64 m (sh + off_sh_size) in
  Some (m, set_elf_offset h (u64 (elf_offset h + size))).

Definition md_update_elf_header (m : mem) (h : md_elfhdr) (entryno : Z) (entry : md_region)
  : option mem :=
  let hdr := ehdr h in
  let* sh := elf_section m hdr (entryno + 4) in
  let* ph := elf_program m hdr (entryno + 1) in
  let* m := store64 m (sh + off_sh_addr) (virt_addr entry) in
  let* m := store64 m (ph + off_p_vaddr) (virt_addr entry) in
  store64 m (ph + off_p_paddr) (phys_addr entry).

(** ** Removing a region *)

(** [!strcmp(a, s)], reading as far as [strcmp] reads. *)
Fixpoint cstr_eq (m : mem) (a : Z) (s : string) : option bool :=
  let* b := load8 m a in
  match s with
  | EmptyString => Some (b =? 0)
  | String c s' => if b =? char_code c then cstr_eq m (a + 1) s' else Some false
  end.

(** [strlen(a)], looking at [n] bytes at most. *)
Fixpoint cstr_len (n : nat) (m : mem) (a : Z) : option Z :=
  match n with
  | O => None
  | S n' =>
      let* b := load8 m a in
      if b =? 0 then Some 0
      else let* k := cstr_len n' m (a + 1) in Some (1 + k)
  end.

Section Clear.
Context (hdr : Z) (entry : md_region).

(** The first search loop: [n] headers from [i]; the index it stops at. *)
Fixpoint find_program (n : nat) (m : mem) (i : Z) : option Z :=
  match n with
  | O => Some i
  | S n' =>
      let* ph := elf_program m hdr i in
      let* paddr := load64 m (ph + off_p_paddr) in
      let* memsz := load64 m (ph + off_p_memsz) in
      if (paddr =? phys_addr entry) && (memsz =? md_size entry) then Some i
      else find_program n' m (i + 1)
  end.

Definition section_matches (m : mem) (h : md_elfhdr) (sh : Z) : option bool :=
  let* name := load32 m (sh + off_sh_name) in
  let* shname := elf_lookup_string m h (s32 name) in
  match shname with
  | None => Some false
  | Some a =>
      let* same := cstr_eq m a (md_name entry) in
      if same then
        let* addr := load64 m (sh + off_sh_addr) in
        let* sz := load64 m (sh + off_sh_size) in
        Some ((addr =? virt_addr entry) && (sz =? md_size entry))
      else Some false
  end.

Fixpoint find_section (n : nat) (m : mem) (h : md_elfhdr) (i : Z) : option Z :=
  match n with
  | O => Some i
  | S n' =>
      let* sh := elf_section m hdr i in
      let* b := section_matches m h sh in
      if b then Some i else find_section n' m h (i + 1)
  end.

(** The shifting loops, [n] headers from [i]. *)
Fixpoint shift_programs (n : nat) (m : mem) (i : Z) : option mem :=
  match n with
  | O => Some m
  | S n' =>
      let* tp := elf_program m hdr (i + 1) in
      let* p := elf_program m hdr i in
      let* m := memmove m p tp sizeof_phdr in
      let* off := load64 m (p + off_p_offset) in
      let* m := store64 m (p + off_p_offset) (u64 (off - md_size entry)) in
      shift_programs n' m (i + 1)
  end.

Fixpoint shift_sections (strln : Z) (n : nat) (m : mem) (i : Z) : option mem :=
  match n with
  | O => Some m
  | S n' =>
      let* ts := elf_section m hdr (i + 1) in
      let* s := elf_section m hdr i in
      let* m := memmove m s ts sizeof_shdr in
      let* off := load64 m (s + off_sh_offset) in
      let* m := store64 m (s + off_sh_offset) (u64 (off - md_size entry)) in
      let* name := load32 m (s + off_sh_name) in
      let* m := store32 m (s + off_sh_name) (u32 (name - strln)) in
      shift_sections strln n' m (i + 1)
  end.
End Clear.

(** Shift the headers behind index [idx] down, clear the last one. *)
Definition clear_programs (m : mem) (hdr : Z) (entry : md_region) (pidx : Z) : option mem :=
  let* n := load16 m (hdr + off_e_phnum) in
  let* m := shift_programs hdr entry (Z.to_nat (n - 1 - pidx)) m pidx in
  let* tphdr := elf_program m hdr (Z.max pidx (n - 1)) in
  let* m := memset m tphdr 0 sizeof_phdr in
  let* n := load16 m (hdr + off_e_phnum) in
  store16 m (hdr + off_e_phnum) (u16 (n - 1)).

Definition clear_sections (m : mem) (hdr : Z) (entry : md_region) (strln shidx : Z) : option mem :=
  let* n := load16 m (hdr + off_e_shnum) in
  let* m := shift_sections hdr entry strln (Z.to_nat (n - 1 - shidx)) m shidx in
  let* tshdr := elf_section m hdr (Z.max shidx (n - 1)) in
  let* m := memset m tshdr 0 sizeof_shdr in
  let* n := load16 m (hdr + off_e_shnum) in
  store16 m (hdr + off_e_shnum) (u16 (n - 1)).

Definition msm_minidump_clear_headers (m : mem) (h : md_elfhdr) (entry : md_region)
  : option (Z * mem * md_elfhdr) :=
  let hdr := ehdr h in
  let esize := md_size entry in
  let* phnum := load16 m (hdr + off_e_phnum) in
  let* pidx := find_program hdr entry (Z.to_nat phnum) m 0 in
  if pidx =? phnum then Some (- EINVAL, m, h)
  else
    let* shnum := load16 m (hdr + off_e_shnum) in
    let* shidx := find_section hdr entry (Z.to_nat shnum) m h 0 in
    if shidx =? shnum then Some (- EINVAL, m, h)
    else
      let* sh := elf_section m hdr shidx in
      let* ph := elf_program m hdr pidx in
      let* shoff := load64 m (sh + off_sh_offset) in
      let* phoff := load64 m (ph + off_p_offset) in
      if negb (shoff =? phoff) then Some (- EINVAL, m, h)
      else
        let* name := load32 m (sh + off_sh_name) in
        let* shname := elf_lookup_string m h (s32 name) in
        let* shname := shname in
        let* len := cstr_len (Z.to_nat (m_hi m - shname)) m shname in
        let strln := len + 1 in
        let* m := memmove m shname (shname + strln) (u64 (strtable_idx h - name)) in
        let h := set_strtable_idx h (u64 (strtable_idx h - strln)) in
        let* m := clear_programs m hdr entry pidx in
        let* m := clear_sections m hdr entry strln shidx in
        Some (0, m, set_elf_offset h (u64 (elf_offset h - esize))).

(** ** Creating the header *)

Definition linux_banner : string := "Linux".

Definition elfh_size : Z :=
  ALIGN (sizeof_ehdr + MAX_STRTBL_SIZE + (slen linux_banner + 1) +
         (sizeof_shdr + sizeof_phdr) * (MAX_NUM_ENTRIES + 4)) 4.

Definition strtbl_off : Z := sizeof_ehdr + (sizeof_phdr + sizeof_shdr) * MAX_NUM_ENTRIES.

(** The ELF header proper (lines 866-886). *)
Definition fill_ehdr (m : mem) (eh : Z) : option mem :=
  let* m := store8 m eh 0x7f in
  let* m := store8 m (eh + 1) 69 in
  let* m := store8 m (eh + 2) 76 in
  let* m := store8 m (eh + 3) 70 in
  let* m := store8 m (eh + EI_CLASS) ELF_CLASS in
  let* m := store8 m (eh + EI_DATA) ELF_DATA in
  let* m := store8 m (eh + EI_VERSION) EV_CURRENT in
  let* m := store8 m (eh + EI_OSABI) ELF_OSABI in
  let* m := store16 m (eh + off_e_type) ET_CORE in
  let* m := store16 m (eh + off_e_machine) EM_AARCH64 in
  let* m := store32 m (eh + off_e_version) EV_CURRENT in
  let* m := store16 m (eh + off_e_ehsize) sizeof_ehdr in
  let* m := store64 m (eh + off_e_phoff) (sizeof_ehdr + sizeof_shdr * MAX_NUM_ENTRIES) in
  let* m := store16 m (eh + off_e_phentsize) sizeof_phdr in
  let* m := store64 m (eh + off_e_shoff) sizeof_ehdr in
  let* m := store16 m (eh + off_e_shentsize) sizeof_shdr in
  store16 m (eh + off_e_shstrndx) 1.

(** The section of the string table. *)
Definition fill_strtab_section (m : mem) (h : md_elfhdr) (sh : Z) : option (mem * md_elfhdr) :=
  let* m := store32 m (sh + off_sh_type) SHT_STRTAB in
  let* m := store64 m (sh + off_sh_offset) strtbl_off in
  let* m := store64 m (sh + off_sh_size) MAX_STRTBL_SIZE in
  let* m := store64 m (sh + off_sh_entsize) 0 in
  let* m := store64 m (sh + off_sh_flags) 0 in
  let* (name, m, h) := set_section_name m h "STR_TBL" in
  let* m := store32 m (sh + off_sh_name) name in
  Some (m, h).

(** The section of the driver's table, at address [table]. *)
Definition fill_table_section (m : mem) (h : md_elfhdr) (sh table : Z) : option (mem * md_elfhdr) :=
  let* m := store32 m (sh + off_sh_type) SHT_PROGBITS in
  let* m := store64 m (sh + off_sh_entsize) 0 in
  let* m := store64 m (sh + off_sh_flags) 0 in
  let* m := store64 m (sh + off_sh_addr) table in
  let* (name, m, h) := set_section_name m h "minidump_table" in
  let* m := store32 m (sh + off_sh_name) name in
  Some (m, h).

(** The banner and its section; [banner_addr] is the address of the string. *)
Definition fill_banner_section (m : mem) (h : md_elfhdr) (sh banner_addr : Z)
  : option (mem * md_elfhdr) :=
  let banner := ehdr h + strtbl_off + MAX_STRTBL_SIZE in
  let* (_, m) := strscpy_to m banner linux_banner MAX_STRTBL_SIZE in
  let* m := store32 m (sh + off_sh_type) SHT_PROGBITS in
  let* m := store64 m (sh + off_sh_offset) (strtbl_off + MAX_STRTBL_SIZE) in
  let* m := store64 m (sh + off_sh_size) (slen linux_banner + 1) in
  let* m := store64 m (sh + off_sh_addr) banner_addr in
  let* m := store64 m (sh + off_sh_entsize) 0 in
  let* m := store64 m (sh + off_sh_flags) SHF_WRITE in
  let* (name, m, h) := set_section_name m h "linux_banner" in
  let* m := store32 m (sh + off_sh_name) name in
  Some (m, h).

(** The program header of the banner. *)
Definition fill_banner_program (m : mem) (ph banner_addr banner_phys : Z) : option mem :=
  let* m := store32 m (ph + off_p_type) PT_LOAD in
  let* m := store64 m (ph + off_p_offset) (strtbl_off + MAX_STRTBL_SIZE) in
  let* m := store64 m (ph + off_p_vaddr) banner_addr in
  let* m := store64 m (ph + off_p_paddr) banner_phys in
  let* m := store64 m (ph + off_p_memsz) (slen linux_banner + 1) in
  let* m := store64 m (ph + off_p_filesz) (slen linux_banner + 1) in
  store32 m (ph + off_p_flags) PF_RW.

(** All of it (lines 888-937). *)
Definition fill_sections (m : mem) (h : md_elfhdr) (table banner_addr banner_phys : Z)
  : option (mem * md_elfhdr) :=
  let h := set_strtable_idx (set_elf_offset h elfh_size) 1 in
  let* (m, h) := fill_strtab_section m h (shdr h + sizeof_shdr) in
  let* (m, h) := fill_table_section m h (shdr h + sizeof_shdr * 2) table in
  let* (m, h) := fill_banner_section m h (shdr h + sizeof_shdr * 3) banner_addr in
  let* m := fill_banner_program m (phdr h) banner_addr banner_phys in
  let* m := store16 m (ehdr h + off_e_phnum) 1 in
  let* m := store16 m (ehdr h + off_e_shnum) 4 in
  Some (m, h).

(** [m] is the zeroed buffer [kzalloc] returned. *)
Definition fill_header (m : mem) (table banner_addr banner_phys : Z)
  : option (mem * md_elfhdr) :=
  let eh := m_lo m in
  let sh := eh + sizeof_ehdr in
  let h := MdElfhdr eh sh (sh + sizeof_shdr * MAX_NUM_ENTRIES) 0 0 in
  let* m := fill_ehdr m eh in
  fill_sections m h table banner_addr banner_phys.
