(* ===== verification/MdElfRep.v ===== *)
(** * The ELF header as lists

    [elf_rep] reads the buffer of MdElf.v as a list of section headers, a list
    of program headers and the names in the string table.  The lemmas say
    what navigation, [set_section_name] and [md_add_elf_header] do to it. *)

From S2P Require Import Prelude CMem CStr CText MdApi MdElf.

#[local] Open Scope list_scope.
#[local] Open Scope Z_scope.

(** ** Headers and names *)

Record sec := Sec {
  s_name : Z; s_type : Z; s_flags : Z; s_addr : Z; s_off : Z; s_len : Z; s_ent : Z;
}.

Record sec_at (m : mem) (p : Z) (s : sec) : Prop := {
  sa_name : ld m (p + off_sh_name) 4 = s_name s;
  sa_type : ld m (p + off_sh_type) 4 = s_type s;
  sa_flags : ld m (p + off_sh_flags) 8 = s_flags s;
  sa_addr : ld m (p + off_sh_addr) 8 = s_addr s;
  sa_off : ld m (p + off_sh_offset) 8 = s_off s;
  sa_len : ld m (p + off_sh_size) 8 = s_len s;
  sa_ent : ld m (p + off_sh_entsize) 8 = s_ent s;
}.

Record seg := Seg {
  g_type : Z; g_flags : Z; g_off : Z; g_vaddr : Z; g_paddr : Z; g_filesz : Z; g_memsz : Z;
}.

Record seg_at (m : mem) (p : Z) (g : seg) : Prop := {
  ga_type : ld m (p + off_p_type) 4 = g_type g;
  ga_flags : ld m (p + off_p_flags) 4 = g_flags g;
  ga_off : ld m (p + off_p_offset) 8 = g_off g;
  ga_vaddr : ld m (p + off_p_vaddr) 8 = g_vaddr g;
  ga_paddr : ld m (p + off_p_paddr) 8 = g_paddr g;
  ga_filesz : ld m (p + off_p_filesz) 8 = g_filesz g;
  ga_memsz : ld m (p + off_p_memsz) 8 = g_memsz g;
}.

Fixpoint names_len (ns : list string) : Z :=
  match ns with [] => 0 | n :: ns => slen n + 1 + names_len ns end.

Fixpoint strs_at (m : mem) (a : Z) (ns : list string) : Prop :=
  match ns with
  | [] => True
  | n :: ns => cstr_at m a n /\ strs_at m (a + slen n + 1) ns
  end.

Definition sec_ptr (h : md_elfhdr) (i : Z) : Z := ehdr h + 64 + 64 * i.
Definition seg_ptr (h : md_elfhdr) (i : Z) : Z := ehdr h + 12928 + 56 * i.
Definition strtab (h : md_elfhdr) : Z := ehdr h + 24184.

(** The buffer can be navigated: its offsets are those [fill_header] sets. *)
Record elf_nav (m : mem) (h : md_elfhdr) : Prop := {
  en_lo : m_lo m <= ehdr h;
  en_hi : ehdr h + 27888 <= m_hi m;
  en_phoff : ld m (ehdr h + 32) 8 = 12928;
  en_shoff : ld m (ehdr h + 40) 8 = 64;
  en_ndx : ld m (ehdr h + 62) 2 = 1;
  en_str : ld m (sec_ptr h 1 + off_sh_offset) 8 = 24184;
}.

Record elf_rep (m : mem) (h : md_elfhdr) (names : list string) (secs : list sec)
  (segs : list seg) : Prop := {
  er_nav : elf_nav m h;
  er_phnum : ld m (ehdr h + 56) 2 = Z.of_nat (length segs);
  er_shnum : ld m (ehdr h + 60) 2 = Z.of_nat (length secs);
  er_secs i s : secs !! i = Some s -> sec_at m (sec_ptr h (Z.of_nat i)) s;
  er_segs i g : segs !! i = Some g -> seg_at m (seg_ptr h (Z.of_nat i)) g;
  er_nul : ld m (strtab h) 1 = 0;
  er_names : strs_at m (strtab h + 1) names;
  er_idx : strtable_idx h = 1 + names_len names;
  er_nsec : 2 <= Z.of_nat (length secs) <= MAX_NUM_ENTRIES;
  er_nseg : Z.of_nat (length segs) <= MAX_NUM_ENTRIES;
  er_room : 1 + names_len names <= MAX_STRTBL_SIZE;
}.

(** ** Bytes and loads *)

Lemma byte_st_ne m a n v x :
  x < a \/ a + Z.of_nat n <= x -> byte (st m a n v) x = byte m x.
Proof. intros H. symmetry. by apply mod_only_st. Qed.

Lemma byte_mod_only lo hi m m' x :
  mod_only lo hi m m' -> x < lo \/ hi <= x -> byte m' x = byte m x.
Proof. intros (_ & _ & H) Hx. symmetry. by apply H. Qed.

Lemma names_len_nonneg ns : 0 <= names_len ns.
Proof. induction ns as [|n ns IH]; simpl; [lia|]. pose proof (slen_nonneg n). lia. Qed.

Lemma names_len_app ns ns' : names_len (ns ++ ns') = names_len ns + names_len ns'.
Proof. induction ns as [|n ns IH]; simpl; lia. Qed.

Lemma strs_at_app m a ns ns' :
  strs_at m a (ns ++ ns') <-> strs_at m a ns /\ strs_at m (a + names_len ns) ns'.
Proof.
  revert a. induction ns as [|n ns IH]; intros a; simpl.
  - rewrite Z.add_0_r. tauto.
  - rewrite IH. replace (a + slen n + 1 + names_len ns) with (a + (slen n + 1 + names_len ns)) by lia.
    tauto.
Qed.

Lemma strs_at_bytes m m' a ns :
  (forall x, a <= x < a + names_len ns -> byte m' x = byte m x) -> strs_at m a ns -> strs_at m' a ns.
Proof.
  revert a. induction ns as [|n ns IH]; intros a Hb; simpl in *; [done|].
  pose proof (slen_nonneg n). pose proof (names_len_nonneg ns). intros [Hc Hs]. split.
  - eapply cstr_at_bytes; [|done]. intros; apply Hb. lia.
  - apply IH; [|done]. intros; apply Hb. lia.
Qed.

Ltac elf_layout :=
  unfold sec_ptr, seg_ptr, strtab, sizeof_shdr, sizeof_phdr, sizeof_ehdr, off_sh_name, off_sh_type,
    off_sh_flags, off_sh_addr, off_sh_offset, off_sh_size, off_sh_entsize, off_p_type, off_p_flags,
    off_p_offset, off_p_vaddr, off_p_paddr, off_p_filesz, off_p_memsz, off_e_phoff, off_e_shoff,
    off_e_phnum, off_e_shnum, off_e_shstrndx, MAX_STRTBL_SIZE, MAX_NUM_ENTRIES,
    MAX_REGION_NAME_LENGTH, CONFIG_MINIDUMP_MAX_ENTRIES in *.

Lemma sec_at_bytes m m' p s :
  (forall x, p <= x < p + sizeof_shdr -> byte m' x = byte m x) -> sec_at m p s -> sec_at m' p s.
Proof.
  intros Hb []. elf_layout. split; elf_layout;
    match goal with H : ld m ?a ?k = ?v |- ld m' ?a ?k = ?v => rewrite <- H end;
    apply ld_ext; intros; apply Hb; lia.
Qed.

Lemma seg_at_bytes m m' p g :
  (forall x, p <= x < p + sizeof_phdr -> byte m' x = byte m x) -> seg_at m p g -> seg_at m' p g.
Proof.
  intros Hb []. elf_layout. split; elf_layout;
    match goal with H : ld m ?a ?k = ?v |- ld m' ?a ?k = ?v => rewrite <- H end;
    apply ld_ext; intros; apply Hb; lia.
Qed.

(** ** Navigation *)

Lemma load16_ok m a : m_lo m <= a -> a + 2 <= m_hi m -> load16 m a = Some (ld m a 2).
Proof. intros. unfold load16, in_range. by decide_tests. Qed.

Lemma store16_ok m a v : m_lo m <= a -> a + 2 <= m_hi m -> store16 m a v = Some (st m a 2 v).
Proof. intros. unfold store16, in_range. by decide_tests. Qed.

Lemma store8_ok m a v : m_lo m <= a -> a + 1 <= m_hi m -> store8 m a v = Some (st m a 1 v).
Proof. intros. unfold store8, in_range. by decide_tests. Qed.

Lemma load8_ok m a : m_lo m <= a -> a + 1 <= m_hi m -> load8 m a = Some (ld m a 1).
Proof. intros. unfold load8, in_range. by decide_tests. Qed.

(** Bytes [elf_nav] depends on. *)
Lemma nav_bytes m m' h h' :
  ehdr h' = ehdr h -> m_lo m' = m_lo m -> m_hi m' = m_hi m ->
  (forall x, ehdr h + 32 <= x < ehdr h + 48 \/ ehdr h + 62 <= x < ehdr h + 64 \/
     sec_ptr h 1 <= x < sec_ptr h 2 -> byte m' x = byte m x) ->
  elf_nav m h -> elf_nav m' h'.
Proof.
  intros He Hl Hh Hb [H1 H2 H3 H4 H5 H6]. elf_layout.
  split; elf_layout; rewrite ?He; try lia;
    match goal with H : ld m ?a ?k = ?v |- ld m' ?a ?k = ?v => rewrite <- H end;
    apply ld_ext; intros; apply Hb; lia.
Qed.

Section Nav.
Context (m : mem) (h : md_elfhdr) (Hnav : elf_nav m h).

Lemma elf_section_nav i : elf_section m (ehdr h) i = Some (sec_ptr h i).
Proof.
  destruct Hnav. unfold elf_section. elf_layout. rewrite load64_ok by lia.
  rewrite en_shoff0. done.
Qed.

Lemma elf_program_nav i : elf_program m (ehdr h) i = Some (seg_ptr h i).
Proof.
  destruct Hnav. unfold elf_program. elf_layout. rewrite load64_ok by lia.
  rewrite en_phoff0. done.
Qed.

Lemma elf_str_table_nav : elf_str_table m (ehdr h) = Some (Some (strtab h)).
Proof.
  unfold elf_str_table. pose proof Hnav as []. elf_layout.
  rewrite load16_ok by lia. rewrite en_ndx0. simpl.
  rewrite elf_section_nav. elf_layout. rewrite load64_ok by lia. by rewrite en_str0.
Qed.

(** Writing a name of at most 15 characters at the current index. *)
Lemma set_section_name_nav name :
  slen name < 16 -> 0 <= strtable_idx h -> strtable_idx h + slen name + 1 <= 3216 ->
  exists m', set_section_name m h name
      = Some (strtable_idx h, m', set_strtable_idx h (strtable_idx h + slen name + 1)) /\
    mod_only (strtab h + strtable_idx h) (strtab h + strtable_idx h + slen name + 1) m m' /\
    cstr_at m' (strtab h + strtable_idx h) name.
Proof.
  intros Hn Hi Hr. pose proof Hnav as []. pose proof (slen_nonneg name).
  unfold set_section_name. rewrite elf_str_table_nav. rewrite s32_small by lia.
  unfold strscpy_to. rewrite strscpy_fits by (elf_layout; lia).
  change (MAX_REGION_NAME_LENGTH =? 0) with false. cbv beta match.
  destruct (store_cstr_ok m (strtab h + strtable_idx h) name) as (m' & -> & Hm & Hc);
    [elf_layout; lia..|].
  exists m'. rewrite u32_small, s32_small, u64_small by lia. done.
Qed.
End Nav.

(** ** Adding a region *)

(** The fields of a valid entry. *)
Record entry_ok (e : md_region) : Prop := {
  eo_name : slen (md_name e) <= MAX_NAME_LENGTH;
  eo_nul : no_nul (md_name e) = true;
  eo_virt : 0 < virt_addr e < 18446744073709551616;
  eo_phys : 0 <= phys_addr e < 18446744073709551616;
  eo_size : 0 <= md_size e < 18446744073709551616 /\ md_size e mod 4 = 0;
}.

Definition entry_sec (idx off : Z) (e : md_region) : sec :=
  Sec idx SHT_PROGBITS SHF_WRITE (virt_addr e) off (md_size e) 0.

Definition entry_seg (off : Z) (e : md_region) : seg :=
  Seg PT_LOAD PF_RW off (virt_addr e) (phys_addr e) (md_size e) (md_size e).

(** What an addition at section [a] and program header [b] does. *)
Record added (m m' : mem) (h h' : md_elfhdr) (a b : Z) (e : md_region) : Prop := {
  ad_h : h' = MdElfhdr (ehdr h) (shdr h) (phdr h) (u64 (elf_offset h + md_size e))
                (strtable_idx h + slen (md_name e) + 1);
  ad_lo : m_lo m' = m_lo m;
  ad_hi : m_hi m' = m_hi m;
  ad_shnum : ld m' (ehdr h + 60) 2 = a + 1;
  ad_phnum : ld m' (ehdr h + 56) 2 = b + 1;
  ad_sec : sec_at m' (sec_ptr h a) (entry_sec (strtable_idx h) (elf_offset h) e);
  ad_seg : seg_at m' (seg_ptr h b) (entry_seg (elf_offset h) e);
  ad_name : cstr_at m' (strtab h + strtable_idx h) (md_name e);
  ad_frame x :
    x < ehdr h + 56 \/ ehdr h + 58 <= x ->
    x < ehdr h + 60 \/ ehdr h + 62 <= x ->
    x < sec_ptr h a \/ sec_ptr h (a + 1) <= x ->
    x < seg_ptr h b \/ seg_ptr h (b + 1) <= x ->
    x < strtab h + strtable_idx h \/ strtab h + strtable_idx h + slen (md_name e) + 1 <= x ->
    byte m' x = byte m x;
}.

Ltac store_ok :=
  first [rewrite store16_ok by (autorewrite with mem_bounds; lia)
        |rewrite store32_ok by (autorewrite with mem_bounds; lia)
        |rewrite store64_ok by (autorewrite with mem_bounds; lia)]; cbv beta match.

(** Loads in the order of the stores, with the section (at [S]) and the
    program header (at [P]) apart. *)
Section Fields.
Context (m : mem) (S P name virt phys size off : Z).
Context (Hname : 0 <= name < 4294967296) (Hvirt : 0 <= virt < 18446744073709551616)
  (Hphys : 0 <= phys < 18446744073709551616) (Hsize : 0 <= size < 18446744073709551616)
  (Hoff : 0 <= off < 18446744073709551616).
Context (Hsep : S + 64 <= P \/ P + 56 <= S).

Definition sec_stores (m : mem) : mem :=
  st (st (st (st (st (st m (S + 0) 4 name) (S + 16) 8 virt) (S + 32) 8 size) (S + 8) 8 SHF_WRITE)
    (S + 24) 8 off) (S + 56) 8 0.

Definition seg_stores (m : mem) : mem :=
  st (st (st (st (st (st (st m (P + 0) 4 PT_LOAD) (P + 8) 8 off) (P + 16) 8 virt) (P + 24) 8 phys)
    (P + 40) 8 size) (P + 32) 8 size) (P + 4) 4 PF_RW.

Lemma sec_stores_at :
  ld m (S + 4) 4 = SHT_PROGBITS ->
  sec_at (seg_stores (sec_stores m)) S (Sec name SHT_PROGBITS SHF_WRITE virt off size 0).
Proof.
  intros Ht. unfold sec_stores, seg_stores, SHF_WRITE, PT_LOAD, PF_RW. elf_layout.
  split; elf_layout; simpl; by mem_simpl.
Qed.

Lemma seg_stores_at m' : seg_at (seg_stores m') P (Seg PT_LOAD PF_RW off virt phys size size).
Proof.
  unfold seg_stores, PT_LOAD, PF_RW. elf_layout. split; elf_layout; simpl; by mem_simpl.
Qed.

Lemma stores_frame x :
  x < S \/ S + 64 <= x -> x < P \/ P + 56 <= x ->
  byte (seg_stores (sec_stores m)) x = byte m x.
Proof. intros. unfold sec_stores, seg_stores. by rewrite !byte_st_ne by lia. Qed.
End Fields.

Lemma md_add_elf_header_added m h e a b :
  elf_nav m h -> entry_ok e ->
  ld m (ehdr h + 60) 2 = a -> ld m (ehdr h + 56) 2 = b ->
  2 <= a <= 203 -> 0 <= b <= 200 -> a <= 200 \/ 4 <= b ->
  0 < strtable_idx h -> strtable_idx h + slen (md_name e) + 1 <= 3216 ->
  0 <= elf_offset h < 18446744073709551616 ->
  exists m' h', md_add_elf_header m h e = Some (m', h') /\ added m m' h h' a b e.
Proof.
  intros Hnav [Hn Hnul Hv Hp [Hs _]] Ha Hb Hra Hrb Hab Hi1 Hi2 Ho.
  pose proof Hnav as [Hlo Hhi _ _ _ _]. pose proof (slen_nonneg (md_name e)).
  unfold MAX_NAME_LENGTH in Hn. unfold md_add_elf_header.
  rewrite load16_ok by (elf_layout; lia). replace (ld m (ehdr h + off_e_shnum) 2) with a by done.
  rewrite elf_section_nav by done. rewrite store16_ok by (elf_layout; lia). cbv beta match.
  rewrite (u16_small (a + 1)) by lia. set (m1 := st m (ehdr h + off_e_shnum) 2 _).
  assert (elf_nav m1 h) as Hnav1.
  { apply (nav_bytes m m1 h h); [done..| |exact Hnav]. intros x Hx. unfold m1. elf_layout.
    apply byte_st_ne. lia. }
  rewrite load16_ok by (unfold m1; elf_layout; autorewrite with mem_bounds; lia).
  assert (ld m1 (ehdr h + off_e_phnum) 2 = b) as -> by (unfold m1; elf_layout; by mem_simpl).
  rewrite elf_program_nav by done.
  rewrite store16_ok by (unfold m1; elf_layout; autorewrite with mem_bounds; lia). cbv beta match.
  rewrite (u16_small (b + 1)) by lia. set (m2 := st m1 (ehdr h + off_e_phnum) 2 _).
  rewrite store32_ok by (unfold m2, m1; elf_layout; autorewrite with mem_bounds; lia). cbv beta match.
  set (m3 := st m2 _ 4 _).
  assert (elf_nav m3 h) as Hnav3.
  { apply (nav_bytes m1 m3 h h); [done..| |exact Hnav1]. intros x Hx. unfold m3, m2. elf_layout.
    rewrite !byte_st_ne by lia. done. }
  destruct (set_section_name_nav m3 h Hnav3 (md_name e)) as (m4 & -> & Hm4 & Hc4); [lia..|].
  pose proof Hm4 as (El & Eh & _).
  assert (m_lo m4 = m_lo m /\ m_hi m4 = m_hi m) as [Hlo4 Hhi4].
  { rewrite <- El, <- Eh. done. }
  do 13 (first [rewrite store32_ok by (elf_layout; autorewrite with mem_bounds; lia)
               |rewrite store64_ok by (elf_layout; autorewrite with mem_bounds; lia)]; cbv beta match).
  rewrite load64_ok by (elf_layout; autorewrite with mem_bounds; lia).
  set (S := sec_ptr h a) in *. set (P := seg_ptr h b) in *.
  assert (S + 64 <= P \/ P + 56 <= S) as Hsep by (unfold S, P; elf_layout; lia).
  change (exists m' h', Some (seg_stores P (virt_addr e) (phys_addr e) (md_size e) (elf_offset h)
      (sec_stores S (strtable_idx h) (virt_addr e) (md_size e) (elf_offset h) m4), set_elf_offset
      (set_strtable_idx h (strtable_idx h + slen (md_name e) + 1)) (u64 (elf_offset h + ld
      (seg_stores P (virt_addr e) (phys_addr e) (md_size e) (elf_offset h)
      (sec_stores S (strtable_idx h) (virt_addr e) (md_size e) (elf_offset h) m4)) (S + off_sh_size) 8)))
    = Some (m', h') /\ added m m' h h' a b e).
  assert (ld m4 (S + 4) 4 = SHT_PROGBITS) as Ht.
  { rewrite (ld_mod_only _ _ _ _ _ _ Hm4) by (unfold S; elf_layout; lia).
    unfold m3, SHT_PROGBITS. elf_layout. by mem_simpl. }
  assert (sec_at (seg_stores P (virt_addr e) (phys_addr e) (md_size e) (elf_offset h)
      (sec_stores S (strtable_idx h) (virt_addr e) (md_size e) (elf_offset h) m4)) S
    (entry_sec (strtable_idx h) (elf_offset h) e)) as Hsec
    by (apply sec_stores_at; first [exact Hsep|exact Ht|lia]).
  rewrite (sa_len _ _ _ Hsec). cbn [s_len entry_sec].
  eexists _, _. split; [reflexivity|].
  set (F := seg_stores _ _ _ _ _ _) in *.
  assert (HF : forall x, x < S \/ S + 64 <= x -> x < P \/ P + 56 <= x -> byte F x = byte m4 x)
    by (intros; by apply stores_frame).
  split; try done.
  - transitivity (ld m3 (ehdr h + 60) 2).
    + apply ld_ext. intros x Hx. rewrite HF by (unfold S, P; elf_layout; lia).
      apply (byte_mod_only _ _ _ _ _ Hm4). elf_layout. lia.
    + unfold m3, m2, m1. elf_layout. by mem_simpl.
  - transitivity (ld m3 (ehdr h + 56) 2).
    + apply ld_ext. intros x Hx. rewrite HF by (unfold S, P; elf_layout; lia).
      apply (byte_mod_only _ _ _ _ _ Hm4). elf_layout. lia.
    + unfold m3, m2, m1. elf_layout. by mem_simpl.
  - by apply seg_stores_at; lia.
  - eapply cstr_at_bytes; [|exact Hc4]. intros x Hx. apply HF; unfold S, P; elf_layout; lia.
  - intros x H1 H2 H3 H4 H5. rewrite HF by (unfold S, P in *; elf_layout; lia).
    rewrite (byte_mod_only _ _ _ _ _ Hm4) by lia. unfold m3, m2, m1. elf_layout.
    by rewrite !byte_st_ne by lia.
Qed.

(** The offsets survive an addition, also one behind the section table. *)
Lemma added_nav m m' h h' a b e :
  added m m' h h' a b e -> elf_nav m h -> 2 <= a -> 0 <= b ->
  0 <= strtable_idx h -> elf_nav m' h'.
Proof.
  intros Had Hnav Ha Hb Hi. pose proof (slen_nonneg (md_name e)).
  apply (nav_bytes m m' h h'); [by rewrite (ad_h _ _ _ _ _ _ _ Had)|apply Had..| |done].
  intros x Hx. apply (ad_frame _ _ _ _ _ _ _ Had); elf_layout; lia.
Qed.

Lemma elf_rep_add m h names secs segs e :
  elf_rep m h names secs segs -> entry_ok e ->
  Z.of_nat (length secs) < MAX_NUM_ENTRIES -> Z.of_nat (length segs) < MAX_NUM_ENTRIES ->
  1 + names_len names + slen (md_name e) + 1 <= MAX_STRTBL_SIZE ->
  0 <= elf_offset h < 18446744073709551616 ->
  exists m' h', md_add_elf_header m h e = Some (m', h') /\
    elf_rep m' h' (names ++ [md_name e])
      (secs ++ [entry_sec (strtable_idx h) (elf_offset h) e])
      (segs ++ [entry_seg (elf_offset h) e]) /\
    ehdr h' = ehdr h /\ elf_offset h' = u64 (elf_offset h + md_size e) /\
    m_lo m' = m_lo m /\ m_hi m' = m_hi m.
Proof.
  intros [Hnav Hph Hsh Hsecs Hsegs Hnul Hnames Hidx Hns Hng Hroom] He Hls Hlg Hr Ho.
  pose proof (names_len_nonneg names). pose proof (slen_nonneg (md_name e)). elf_layout.
  destruct (md_add_elf_header_added m h e (Z.of_nat (length secs)) (Z.of_nat (length segs)))
    as (m' & h' & Hadd & Had); [done|done|done|done|lia..|].
  exists m', h'. split; [done|]. pose proof Had as [Hh Hl Hhi' Hsn Hpn Hsa Hga Hna Hfr]. subst h'.
  split_and!; try done. split; simpl; elf_layout; rewrite ?length_app; simpl length; try lia.
  - eapply added_nav; [done|done|lia..].
  - intros i s [Hi|[Hi Hx]]%lookup_app_Some.
    + pose proof (lookup_lt_Some _ _ _ Hi). eapply sec_at_bytes; [|by apply Hsecs].
      intros x Hx. elf_layout. cbn [ehdr] in *. apply Hfr; lia.
    + apply list_lookup_singleton_Some in Hx as [Hx <-].
      assert (i = length secs) as -> by lia. exact Hsa.
  - intros i g [Hi|[Hi Hx]]%lookup_app_Some.
    + pose proof (lookup_lt_Some _ _ _ Hi). eapply seg_at_bytes; [|by apply Hsegs].
      intros x Hx. elf_layout. cbn [ehdr] in *. apply Hfr; lia.
    + apply list_lookup_singleton_Some in Hx as [Hx <-].
      assert (i = length segs) as -> by lia. exact Hga.
  - rewrite <- Hnul. apply ld_ext. intros x Hx. elf_layout; cbn [ehdr] in *; apply Hfr; lia.
  - apply strs_at_app. split.
    + eapply strs_at_bytes; [|exact Hnames]. intros x Hx. elf_layout; cbn [ehdr] in *; apply Hfr; lia.
    + simpl. split; [|done]. rewrite Hidx in Hna.
      replace (ehdr h + 24184 + 1 + names_len names) with (ehdr h + 24184 + (1 + names_len names)) by lia.
      exact Hna.
  - rewrite names_len_app. simpl. lia.
  - rewrite names_len_app. simpl. lia.
Qed.

(** ** Safety up to the last region

    [elf_safe m h n]: the header with [n] regions can be navigated and takes
    another one without leaving the buffer.  Beyond 197 regions the section
    headers run into the program headers, so the contents are no longer
    those of [elf_rep]. *)
Record elf_safe (m : mem) (h : md_elfhdr) (n : Z) : Prop := {
  es_nav : elf_nav m h;
  es_shnum : ld m (ehdr h + 60) 2 = 4 + n;
  es_phnum : ld m (ehdr h + 56) 2 = 1 + n;
  es_idx : 0 < strtable_idx h <= 37 + 13 * n;
  es_off : 0 <= elf_offset h < 18446744073709551616;
  es_range : 0 <= n <= CONFIG_MINIDUMP_MAX_ENTRIES;
}.

Lemma elf_safe_add m h n e :
  elf_safe m h n -> entry_ok e -> n < CONFIG_MINIDUMP_MAX_ENTRIES ->
  exists m' h', md_add_elf_header m h e = Some (m', h') /\ elf_safe m' h' (n + 1) /\
    ehdr h' = ehdr h /\ m_lo m' = m_lo m /\ m_hi m' = m_hi m.
Proof.
  intros [Hnav Hsh Hph Hi Ho Hn] He Hlt. unfold CONFIG_MINIDUMP_MAX_ENTRIES in *.
  pose proof (eo_name _ He) as Hlen. unfold MAX_NAME_LENGTH in Hlen.
  pose proof (slen_nonneg (md_name e)).
  destruct (md_add_elf_header_added m h e (4 + n) (1 + n)) as (m' & h' & Hadd & Had);
    [done|done|done|done|lia..|].
  exists m', h'. split; [done|]. pose proof Had as [Hh Hl Hhi' Hsn Hpn _ _ _ _]. subst h'.
  split; [|done]. split; simpl.
  - eapply added_nav; [done|done|lia..].
  - rewrite Hsn. lia.
  - rewrite Hpn. lia.
  - lia.
  - apply u64_range.
  - unfold CONFIG_MINIDUMP_MAX_ENTRIES. lia.
Qed.
