(* ===== verification/MdElfClear.v ===== *)
(** * Removing a region from the ELF header

    [msm_minidump_clear_headers] on a header read as lists: it deletes one
    section header, one program header and one name, and moves the offsets
    and name indices behind them down. *)

From S2P Require Import Prelude CMem CStr CText MdApi MdElf MdElfRep.

#[local] Open Scope list_scope.
#[local] Open Scope Z_scope.

(** ** Reading strings *)

Lemma cstr_eq_at m a s t :
  cstr_at m a t -> no_nul t = true -> no_nul s = true ->
  m_lo m <= a -> a + slen t + 1 <= m_hi m ->
  cstr_eq m a s = Some (bool_decide (t = s)).
Proof.
  unfold slen. revert a t. induction s as [|c s IH]; intros a t Ht Hnt Hns Hlo Hhi; simpl;
    (rewrite load8_ok by (destruct t; simpl in *; lia)); destruct t as [|c' t]; simpl in *.
  - by rewrite Ht.
  - destruct Ht as [-> _]. apply andb_true_iff in Hnt as [Hc%negb_true_iff _]. by rewrite Hc.
  - rewrite Ht. apply andb_true_iff in Hns as [Hc%negb_true_iff _].
    rewrite Z.eqb_sym, Hc. done.
  - destruct Ht as [-> Ht]. apply andb_true_iff in Hnt as [_ Hnt]. apply andb_true_iff in Hns as [_ Hns].
    destruct (Z.eqb_spec (char_code c') (char_code c)) as [Hc|Hc].
    + apply (f_equal code_char) in Hc. rewrite !code_char_code in Hc. subst c'.
      rewrite (IH _ t) by (done || lia). f_equal. apply bool_decide_ext. split; congruence.
    + f_equal. symmetry. apply bool_decide_eq_false. congruence.
Qed.

Lemma cstr_len_at n m a s :
  cstr_at m a s -> no_nul s = true -> slen s < Z.of_nat n ->
  m_lo m <= a -> a + slen s + 1 <= m_hi m -> cstr_len n m a = Some (slen s).
Proof.
  unfold slen. revert a s. induction n as [|n IH]; intros a s Hs Hn Hl Hlo Hhi; [lia|].
  simpl. rewrite load8_ok by lia. destruct s as [|c s]; simpl in *.
  - by rewrite Hs.
  - destruct Hs as [-> Hs]. apply andb_true_iff in Hn as [Hc%negb_true_iff Hn]. rewrite Hc.
    rewrite (IH _ s) by (done || lia). f_equal. lia.
Qed.

(** ** Shifting headers *)

Definition shift_seg (esize : Z) (g : seg) : seg :=
  Seg (g_type g) (g_flags g) (u64 (g_off g - esize)) (g_vaddr g) (g_paddr g) (g_filesz g) (g_memsz g).

Definition shift_sec (esize strln : Z) (s : sec) : sec :=
  Sec (u32 (s_name s - strln)) (s_type s) (s_flags s) (s_addr s) (u64 (s_off s - esize)) (s_len s)
    (s_ent s).

Section Shift.
Context (h : md_elfhdr) (e : md_region).

Lemma nav_mod lo hi m m' :
  mod_only lo hi m m' -> ehdr h + 192 <= lo -> elf_nav m h -> elf_nav m' h.
Proof.
  intros Hm Hlo. pose proof Hm as (? & ? & _). apply nav_bytes; try done.
  intros x Hx. apply (byte_mod_only _ _ _ _ _ Hm). elf_layout. lia.
Qed.

Lemma shift_seg_one m i g :
  elf_nav m h -> 0 <= i <= 199 -> seg_at m (seg_ptr h (i + 1)) g ->
  exists m1, memmove m (seg_ptr h i) (seg_ptr h (i + 1)) sizeof_phdr = Some m1 /\
    load64 m1 (seg_ptr h i + off_p_offset) = Some (g_off g) /\
    exists m2, store64 m1 (seg_ptr h i + off_p_offset) (u64 (g_off g - md_size e)) = Some m2 /\
    mod_only (seg_ptr h i) (seg_ptr h (i + 1)) m m2 /\
    seg_at m2 (seg_ptr h i) (shift_seg (md_size e) g).
Proof.
  intros [Hlo Hhi _ _ _ _] Hi [G1 G2 G3 G4 G5 G6 G7]. elf_layout.
  unfold memmove, in_range. decide_tests. eexists. split; [reflexivity|].
  split.
  - rewrite load64_ok by (autorewrite with mem_bounds; lia). f_equal.
    rewrite ld_blit by lia. rewrite <- G3. f_equal. lia.
  - rewrite store64_ok by (autorewrite with mem_bounds; lia).
    eexists. split; [reflexivity|]. split; [frame|].
    pose proof (u64_range (g_off g - md_size e)).
    assert (forall k o v, 0 <= o -> o + Z.of_nat k <= 56 -> o + Z.of_nat k <= 8 \/ 16 <= o ->
      ld m (ehdr h + 12928 + 56 * (i + 1) + o) k = v ->
      ld (st (blit m (ehdr h + 12928 + 56 * i) (ehdr h + 12928 + 56 * (i + 1)) 56)
        (ehdr h + 12928 + 56 * i + 8) 8 (u64 (g_off g - md_size e))) (ehdr h + 12928 + 56 * i + o) k = v)
      as Hld.
    { intros k o v H1 H2 H3 <-. rewrite ld_st_ne, ld_blit by lia. f_equal. lia. }
    split; elf_layout; simpl; try (apply Hld; done || lia). by apply ld64_st64.
Qed.

Lemma shift_programs_ok n m i :
  elf_nav m h -> 0 <= i -> i + Z.of_nat n <= 200 ->
  (forall j, i < j <= i + Z.of_nat n -> exists g, seg_at m (seg_ptr h j) g) ->
  exists m', shift_programs (ehdr h) e n m i = Some m' /\
    mod_only (seg_ptr h i) (seg_ptr h (i + Z.of_nat n)) m m' /\
    forall j g, i <= j < i + Z.of_nat n -> seg_at m (seg_ptr h (j + 1)) g ->
      seg_at m' (seg_ptr h j) (shift_seg (md_size e) g).
Proof.
  revert m i. induction n as [|n IH]; intros m i Hnav Hi Hn Hg; simpl shift_programs.
  { eexists. split; [done|]. split; [apply mod_only_refl|intros; lia]. }
  destruct (Hg (i + 1) ltac:(lia)) as [g Hgi].
  rewrite !elf_program_nav by done.
  destruct (shift_seg_one m i g Hnav ltac:(lia) Hgi) as (m1 & -> & -> & m2 & -> & Hm & Hs).
  assert (elf_nav m2 h) as Hnav2 by (eapply nav_mod; [exact Hm|elf_layout; lia|done]).
  assert (forall j x, i + 1 < j -> seg_at m (seg_ptr h j) x -> seg_at m2 (seg_ptr h j) x) as Hkeep.
  { intros j x Hj. apply seg_at_bytes. intros y Hy. apply (byte_mod_only _ _ _ _ _ Hm).
    elf_layout. lia. }
  destruct (IH m2 (i + 1) Hnav2) as (m' & Hm' & Hmod & Hres); [lia|lia| |].
  { intros j Hj. destruct (Hg j ltac:(lia)) as [x Hx]. exists x. apply Hkeep; [lia|done]. }
  exists m'. split; [done|]. split.
  - eapply mod_only_trans; (eapply mod_only_weaken; [| |eassumption]); elf_layout; lia.
  - intros j x Hj Hx. destruct (decide (j = i)) as [->|].
    + assert (x = g) as ->.
      { destruct x, g, Hx, Hgi. simpl in *. congruence. }
      eapply seg_at_bytes; [|exact Hs]. intros y Hy. apply (byte_mod_only _ _ _ _ _ Hmod).
      elf_layout. lia.
    + apply Hres; [lia|]. apply Hkeep; [lia|done].
Qed.

Lemma shift_sec_one strln m i s :
  elf_nav m h -> 2 <= i <= 199 -> sec_at m (sec_ptr h (i + 1)) s ->
  exists m1, memmove m (sec_ptr h i) (sec_ptr h (i + 1)) sizeof_shdr = Some m1 /\
    load64 m1 (sec_ptr h i + off_sh_offset) = Some (s_off s) /\
    exists m2, store64 m1 (sec_ptr h i + off_sh_offset) (u64 (s_off s - md_size e)) = Some m2 /\
    load32 m2 (sec_ptr h i + off_sh_name) = Some (s_name s) /\
    exists m3, store32 m2 (sec_ptr h i + off_sh_name) (u32 (s_name s - strln)) = Some m3 /\
    mod_only (sec_ptr h i) (sec_ptr h (i + 1)) m m3 /\
    sec_at m3 (sec_ptr h i) (shift_sec (md_size e) strln s).
Proof.
  intros [Hlo Hhi _ _ _ _] Hi [G1 G2 G3 G4 G5 G6 G7]. elf_layout.
  unfold memmove, in_range. decide_tests. eexists. split; [reflexivity|].
  pose proof (u64_range (s_off s - md_size e)). pose proof (u32_range (s_name s - strln)).
  split.
  - rewrite load64_ok by (autorewrite with mem_bounds; lia). f_equal.
    rewrite ld_blit by lia. rewrite <- G5. f_equal. lia.
  - rewrite store64_ok by (autorewrite with mem_bounds; lia).
    eexists. split; [reflexivity|]. split.
    { rewrite load32_ok by (autorewrite with mem_bounds; lia). f_equal.
      rewrite ld_st_ne, ld_blit by lia. rewrite <- G1. f_equal. lia. }
    rewrite store32_ok by (autorewrite with mem_bounds; lia).
    eexists. split; [reflexivity|]. split; [frame|].
    assert (forall k o v, 4 <= o -> o + Z.of_nat k <= 64 -> o + Z.of_nat k <= 24 \/ 32 <= o ->
      ld m (ehdr h + 64 + 64 * (i + 1) + o) k = v ->
      ld (st (st (blit m (ehdr h + 64 + 64 * i) (ehdr h + 64 + 64 * (i + 1)) 64)
        (ehdr h + 64 + 64 * i + 24) 8 (u64 (s_off s - md_size e)))
        (ehdr h + 64 + 64 * i + 0) 4 (u32 (s_name s - strln))) (ehdr h + 64 + 64 * i + o) k = v)
      as Hld.
    { intros k o v H1 H2 H3 <-. rewrite !ld_st_ne, ld_blit by lia. f_equal. lia. }
    split; elf_layout; simpl; try (apply Hld; done || lia).
    + by apply ld32_st32.
    + rewrite ld_st_ne by lia. by apply ld64_st64.
Qed.

Lemma shift_sections_ok strln n m i :
  elf_nav m h -> 2 <= i -> i + Z.of_nat n <= 200 ->
  (forall j, i < j <= i + Z.of_nat n -> exists s, sec_at m (sec_ptr h j) s) ->
  exists m', shift_sections (ehdr h) e strln n m i = Some m' /\
    mod_only (sec_ptr h i) (sec_ptr h (i + Z.of_nat n)) m m' /\
    forall j s, i <= j < i + Z.of_nat n -> sec_at m (sec_ptr h (j + 1)) s ->
      sec_at m' (sec_ptr h j) (shift_sec (md_size e) strln s).
Proof.
  revert m i. induction n as [|n IH]; intros m i Hnav Hi Hn Hg; simpl shift_sections.
  { eexists. split; [done|]. split; [apply mod_only_refl|intros; lia]. }
  destruct (Hg (i + 1) ltac:(lia)) as [g Hgi].
  rewrite !elf_section_nav by done.
  destruct (shift_sec_one strln m i g Hnav ltac:(lia) Hgi)
    as (m1 & -> & -> & m2 & -> & -> & m3 & -> & Hm & Hs).
  assert (elf_nav m3 h) as Hnav2 by (eapply nav_mod; [exact Hm|elf_layout; lia|done]).
  assert (forall j x, i + 1 < j -> sec_at m (sec_ptr h j) x -> sec_at m3 (sec_ptr h j) x) as Hkeep.
  { intros j x Hj. apply sec_at_bytes. intros y Hy. apply (byte_mod_only _ _ _ _ _ Hm).
    elf_layout. lia. }
  destruct (IH m3 (i + 1) Hnav2) as (m' & Hm' & Hmod & Hres); [lia|lia| |].
  { intros j Hj. destruct (Hg j ltac:(lia)) as [x Hx]. exists x. apply Hkeep; [lia|done]. }
  exists m'. split; [done|]. split.
  - eapply mod_only_trans; (eapply mod_only_weaken; [| |eassumption]); elf_layout; lia.
  - intros j x Hj Hx. destruct (decide (j = i)) as [->|].
    + assert (x = g) as ->.
      { destruct x, g, Hx, Hgi. simpl in *. congruence. }
      eapply sec_at_bytes; [|exact Hs]. intros y Hy. apply (byte_mod_only _ _ _ _ _ Hmod).
      elf_layout. lia.
    + apply Hres; [lia|]. apply Hkeep; [lia|done].
Qed.
End Shift.

(** ** Searching *)

(** The first index whose element passes, or the length. *)
Fixpoint find_idx {A} (f : A -> bool) (l : list A) : nat :=
  match l with
  | [] => O
  | x :: l => if f x then O else S (find_idx f l)
  end.

Lemma find_idx_le {A} (f : A -> bool) l : (find_idx f l <= length l)%nat.
Proof. induction l as [|x l IH]; simpl; [lia|]. destruct (f x); lia. Qed.

Lemma find_idx_Some {A} (f : A -> bool) l k x :
  l !! k = Some x -> f x = true -> (forall j y, (j < k)%nat -> l !! j = Some y -> f y = false) ->
  find_idx f l = k.
Proof.
  revert k. induction l as [|y l IH]; intros [|k] Hk Hx Hlt; simplify_eq/=; [by rewrite Hx|].
  rewrite (Hlt 0%nat y) by (done || lia). f_equal. apply IH; try done.
  intros j z Hj Hz. apply (Hlt (S j) z); [lia|done].
Qed.

Lemma find_idx_none {A} (f : A -> bool) l : (forall x, x ∈ l -> f x = false) -> find_idx f l = length l.
Proof.
  induction l as [|x l IH]; intros H; simpl; [done|]. rewrite (H x) by (by left).
  rewrite IH; [done|]. intros y Hy. apply H. by right.
Qed.

Definition seg_match (e : md_region) (g : seg) : bool :=
  (g_paddr g =? phys_addr e) && (g_memsz g =? md_size e).

Definition sec_match (e : md_region) (ns : string * sec) : bool :=
  bool_decide (ns.1 = md_name e) && ((s_addr ns.2 =? virt_addr e) && (s_len ns.2 =? md_size e)).

(** The index of the name of section [i]. *)
Definition name_idx (names : list string) (i : nat) : Z :=
  match i with O => 0 | S i => 1 + names_len (take i names) end.

(** Every section but the first has its name in the table, in order. *)
Record named_secs (names : list string) (secs : list sec) : Prop := {
  ns_len : length secs = S (length names);
  ns_idx i s : secs !! i = Some s -> s_name s = name_idx names i;
  ns_nul : Forall (fun n => no_nul n = true) names;
}.

Section Find.
Context (m : mem) (h : md_elfhdr) (names : list string) (secs : list sec) (segs : list seg).
Context (e : md_region).
Context (Hrep : elf_rep m h names secs segs) (Hnm : named_secs names secs).
Context (He : no_nul (md_name e) = true).

Lemma find_program_list l i :
  (forall j g, l !! j = Some g -> seg_at m (seg_ptr h (i + Z.of_nat j)) g) ->
  0 <= i -> i + Z.of_nat (length l) <= MAX_NUM_ENTRIES ->
  find_program (ehdr h) e (length l) m i = Some (i + Z.of_nat (find_idx (seg_match e) l)).
Proof.
  pose proof (er_nav _ _ _ _ _ Hrep) as Hnav. pose proof Hnav as [Hlo Hhi _ _ _ _].
  revert i. induction l as [|g l IH]; intros i Hl Hi Hr; simpl; [f_equal; lia|].
  rewrite elf_program_nav by done. pose proof (Hl 0%nat g eq_refl) as [_ _ _ _ Hp _ Hm].
  simpl in Hr. change (Z.of_nat 0) with 0 in *. rewrite Z.add_0_r in *. elf_layout.
  rewrite !load64_ok by lia. rewrite Hp, Hm. unfold seg_match at 1.
  destruct (_ && _); [f_equal; lia|]. rewrite IH; [f_equal; lia| |lia|lia].
  intros j x Hx. pose proof (Hl (S j) x Hx) as Hx'.
  by replace (i + Z.of_nat (S j)) with (i + 1 + Z.of_nat j) in Hx' by lia.
Qed.

Lemma name_at i n :
  ("" :: names)%string !! i = Some n ->
  cstr_at m (strtab h + name_idx names i) n /\ no_nul n = true /\
  0 <= name_idx names i /\ name_idx names i + slen n + 1 <= strtable_idx h.
Proof.
  destruct Hrep as [_ _ _ _ _ Hnul Hnames Hidx _ _ Hroom]. pose proof (names_len_nonneg names).
  destruct i as [|i]; simpl.
  - intros [= <-]. rewrite Z.add_0_r. change (slen EmptyString) with 0. split_and!; [done..|lia].
  - intros Hi. pose proof (ns_nul _ _ Hnm) as Hall. rewrite Forall_lookup in Hall.
    rewrite <- (take_drop_middle _ _ _ Hi) in Hnames. apply strs_at_app in Hnames as [_ [Hc _]].
    pose proof (names_len_nonneg (take i names)). pose proof (names_len_nonneg (drop (S i) names)).
    assert (names_len names = names_len (take i names) + (slen n + 1 + names_len (drop (S i) names)))
      as Hsum by (rewrite <- (take_drop_middle _ _ _ Hi) at 1; by rewrite names_len_app).
    rewrite Z.add_assoc. split_and!; [done|by eapply Hall|lia|lia].
Qed.

Lemma section_matches_at i s n :
  secs !! i = Some s -> ("" :: names)%string !! i = Some n ->
  section_matches e m h (sec_ptr h (Z.of_nat i)) = Some (sec_match e (n, s)).
Proof.
  intros Hs Hn. pose proof (er_nav _ _ _ _ _ Hrep) as Hnav. pose proof Hnav as [Hlo Hhi _ _ _ _].
  pose proof (er_secs _ _ _ _ _ Hrep i s Hs) as [S1 _ _ S4 _ S6 _].
  pose proof (lookup_lt_Some _ _ _ Hs). pose proof (er_nsec _ _ _ _ _ Hrep) as Hns.
  pose proof (er_idx _ _ _ _ _ Hrep). pose proof (er_room _ _ _ _ _ Hrep).
  destruct (name_at i n Hn) as (Hc & Hz & Hi0 & Hi1). pose proof (slen_nonneg n).
  unfold section_matches, elf_lookup_string. elf_layout. rewrite load32_ok by lia.
  rewrite S1, (ns_idx _ _ Hnm i s Hs), elf_str_table_nav, s32_small, u64_small by (done || lia).
  decide_test. elf_layout.
  rewrite (cstr_eq_at _ _ _ n) by (done || lia). unfold sec_match; simpl.
  case_bool_decide; simpl; [|done]. rewrite !load64_ok by lia. by rewrite S4, S6.
Qed.

Lemma find_section_list l i :
  zip ("" :: names)%string secs = take (Z.to_nat i) (zip ("" :: names)%string secs) ++ l -> 0 <= i ->
  i = Z.of_nat (length (take (Z.to_nat i) (zip ("" :: names)%string secs))) ->
  find_section (ehdr h) e (length l) m h i = Some (i + Z.of_nat (find_idx (sec_match e) l)).
Proof.
  set (zs := zip ("" :: names)%string secs). pose proof (er_nav _ _ _ _ _ Hrep) as Hnav.
  revert i. induction l as [|[n s] l IH]; intros i Hl Hi Hlen; simpl; [f_equal; lia|].
  rewrite elf_section_nav by done.
  assert (zs !! Z.to_nat i = Some (n, s)) as Hz.
  { rewrite Hl, lookup_app_r by lia. replace (Z.to_nat i - _)%nat with 0%nat by lia. done. }
  unfold zs in Hz. pose proof Hz as Hz'. apply lookup_zip_Some in Hz as [Hn Hs].
  rewrite <- (Z2Nat.id i) at 1 by lia. rewrite (section_matches_at _ s n) by done.
  destruct (sec_match e (n, s)); [f_equal; lia|].
  assert (take (Z.to_nat (i + 1)) zs = take (Z.to_nat i) zs ++ [(n, s)]) as Ht.
  { replace (Z.to_nat (i + 1)) with (S (Z.to_nat i)) by lia. by apply take_S_r. }
  rewrite IH; [f_equal; lia| |lia|].
  - rewrite Ht, <- app_assoc. exact Hl.
  - rewrite Ht, length_app. simpl. lia.
Qed.
End Find.

(** ** Deleting headers *)

Definition del_seg (k : nat) (esize : Z) (segs : list seg) : list seg :=
  take k segs ++ map (shift_seg esize) (drop (S k) segs).

Definition del_sec (k : nat) (esize strln : Z) (secs : list sec) : list sec :=
  take k secs ++ map (shift_sec esize strln) (drop (S k) secs).

Lemma del_lookup {A} (k : nat) (f : A -> A) (l : list A) j :
  (k <= length l)%nat ->
  (take k l ++ map f (drop (S k) l)) !! j = if decide (j < k)%nat then l !! j else f <$> l !! S j.
Proof.
  intros Hk. case_decide.
  - rewrite lookup_app_l by (rewrite length_take; lia). by apply lookup_take_lt.
  - rewrite lookup_app_r by (rewrite length_take; lia). rewrite length_take, Nat.min_l by lia.
    change (map f (drop (S k) l)) with (f <$> drop (S k) l). rewrite list_lookup_fmap, lookup_drop. do 2 f_equal. lia.
Qed.

Lemma del_length {A} (k : nat) (f : A -> A) (l : list A) :
  (k < length l)%nat -> length (take k l ++ map f (drop (S k) l)) = (length l - 1)%nat.
Proof. intros. rewrite length_app, length_take, length_map, length_drop. lia. Qed.

(** Bytes outside the headers from [k] on and the count. *)
Lemma clear_programs_ok m h e segs k :
  elf_nav m h -> ld m (ehdr h + 56) 2 = Z.of_nat (length segs) ->
  (forall i g, segs !! i = Some g -> seg_at m (seg_ptr h (Z.of_nat i)) g) ->
  (k < length segs)%nat -> Z.of_nat (length segs) <= MAX_NUM_ENTRIES ->
  exists m', clear_programs m (ehdr h) e (Z.of_nat k) = Some m' /\
    m_lo m' = m_lo m /\ m_hi m' = m_hi m /\
    ld m' (ehdr h + 56) 2 = Z.of_nat (length segs) - 1 /\
    (forall i g, del_seg k (md_size e) segs !! i = Some g -> seg_at m' (seg_ptr h (Z.of_nat i)) g) /\
    (forall x, x < ehdr h + 56 \/ ehdr h + 58 <= x ->
       x < seg_ptr h (Z.of_nat k) \/ seg_ptr h (Z.of_nat (length segs)) <= x ->
       byte m' x = byte m x).
Proof.
  intros Hnav Hn Hsegs Hk Hmax. pose proof Hnav as [Hlo Hhi _ _ _ _]. unfold clear_programs.
  set (n := Z.of_nat (length segs)) in *.
  rewrite load16_ok by (elf_layout; lia). replace (ld m (ehdr h + off_e_phnum) 2) with n by done.
  cbv beta match.
  destruct (shift_programs_ok h e (Z.to_nat (n - 1 - Z.of_nat k)) m (Z.of_nat k) Hnav)
    as (m1 & -> & Hm1 & Hs1); [lia|elf_layout; lia| |].
  { intros j Hj. destruct (lookup_lt_is_Some_2 segs (Z.to_nat j)) as [g Hg]; [lia|].
    exists g. rewrite <- (Z2Nat.id j) by lia. by apply Hsegs. }
  replace (Z.of_nat k + Z.of_nat (Z.to_nat (n - 1 - Z.of_nat k))) with (n - 1) in * by lia.
  assert (elf_nav m1 h) as Hnav1 by (eapply nav_mod; [exact Hm1|elf_layout; lia|done]).
  pose proof Hm1 as (El & Eh & _).
  rewrite elf_program_nav by done. replace (Z.max (Z.of_nat k) (n - 1)) with (n - 1) by lia.
  rewrite memset_ok by (elf_layout; lia). cbv beta match.
  rewrite load16_ok by (elf_layout; autorewrite with mem_bounds; lia).
  assert (ld (fill m1 (seg_ptr h (n - 1)) 0 sizeof_phdr) (ehdr h + off_e_phnum) 2 = n) as ->.
  { elf_layout. rewrite ld_fill_ne by lia. by rewrite (ld_mod_only _ _ _ _ _ _ Hm1) by lia. }
  rewrite store16_ok by (elf_layout; autorewrite with mem_bounds; lia).
  eexists. split; [reflexivity|]. autorewrite with mem_bounds.
  set (m2 := st _ _ 2 _).
  assert (Hfr : forall x, x < ehdr h + 56 \/ ehdr h + 58 <= x ->
    x < seg_ptr h (n - 1) \/ seg_ptr h n <= x -> byte m2 x = byte m1 x).
  { intros x H1 H2. unfold m2. rewrite byte_st_ne by (elf_layout; lia).
    apply (byte_mod_only _ _ _ _ _ (mod_only_fill _ _ _ _)). elf_layout. lia. }
  split_and!; [done|done| | |].
  - unfold m2. elf_layout. rewrite u16_small by lia. by mem_simpl.
  - intros i g Hg. unfold del_seg in Hg. rewrite del_lookup in Hg by lia.
    assert (i < length segs - 1)%nat as Hi.
    { case_decide; [lia|]. destruct (segs !! S i) eqn:E; [|done]. apply lookup_lt_Some in E. lia. }
    eapply (seg_at_bytes m1); [intros x Hx; apply Hfr; elf_layout; lia|].
    case_decide as Hd.
    + eapply seg_at_bytes; [|by apply Hsegs]. intros x Hx. apply (byte_mod_only _ _ _ _ _ Hm1).
      elf_layout. lia.
    + destruct (segs !! S i) as [g0|] eqn:E; simplify_eq/=. apply Hs1; [lia|].
      replace (Z.of_nat i + 1) with (Z.of_nat (S i)) by lia. by apply Hsegs.
  - intros x H1 H2. rewrite Hfr by (elf_layout; lia). apply (byte_mod_only _ _ _ _ _ Hm1).
    elf_layout. lia.
Qed.

Lemma clear_sections_ok m h e strln secs k :
  elf_nav m h -> ld m (ehdr h + 60) 2 = Z.of_nat (length secs) ->
  (forall i s, secs !! i = Some s -> sec_at m (sec_ptr h (Z.of_nat i)) s) ->
  (2 <= k < length secs)%nat -> Z.of_nat (length secs) <= MAX_NUM_ENTRIES ->
  exists m', clear_sections m (ehdr h) e strln (Z.of_nat k) = Some m' /\
    m_lo m' = m_lo m /\ m_hi m' = m_hi m /\
    ld m' (ehdr h + 60) 2 = Z.of_nat (length secs) - 1 /\
    (forall i s, del_sec k (md_size e) strln secs !! i = Some s ->
       sec_at m' (sec_ptr h (Z.of_nat i)) s) /\
    (forall x, x < ehdr h + 60 \/ ehdr h + 62 <= x ->
       x < sec_ptr h (Z.of_nat k) \/ sec_ptr h (Z.of_nat (length secs)) <= x ->
       byte m' x = byte m x).
Proof.
  intros Hnav Hn Hsecs Hk Hmax. pose proof Hnav as [Hlo Hhi _ _ _ _]. unfold clear_sections.
  set (n := Z.of_nat (length secs)) in *.
  rewrite load16_ok by (elf_layout; lia). replace (ld m (ehdr h + off_e_shnum) 2) with n by done.
  cbv beta match.
  destruct (shift_sections_ok h e strln (Z.to_nat (n - 1 - Z.of_nat k)) m (Z.of_nat k) Hnav)
    as (m1 & -> & Hm1 & Hs1); [lia|elf_layout; lia| |].
  { intros j Hj. destruct (lookup_lt_is_Some_2 secs (Z.to_nat j)) as [g Hg]; [lia|].
    exists g. rewrite <- (Z2Nat.id j) by lia. by apply Hsecs. }
  replace (Z.of_nat k + Z.of_nat (Z.to_nat (n - 1 - Z.of_nat k))) with (n - 1) in * by lia.
  assert (elf_nav m1 h) as Hnav1 by (eapply nav_mod; [exact Hm1|elf_layout; lia|done]).
  pose proof Hm1 as (El & Eh & _).
  rewrite elf_section_nav by done. replace (Z.max (Z.of_nat k) (n - 1)) with (n - 1) by lia.
  rewrite memset_ok by (elf_layout; lia). cbv beta match.
  rewrite load16_ok by (elf_layout; autorewrite with mem_bounds; lia).
  assert (ld (fill m1 (sec_ptr h (n - 1)) 0 sizeof_shdr) (ehdr h + off_e_shnum) 2 = n) as ->.
  { elf_layout. rewrite ld_fill_ne by lia. by rewrite (ld_mod_only _ _ _ _ _ _ Hm1) by lia. }
  rewrite store16_ok by (elf_layout; autorewrite with mem_bounds; lia).
  eexists. split; [reflexivity|]. autorewrite with mem_bounds.
  set (m2 := st _ _ 2 _).
  assert (Hfr : forall x, x < ehdr h + 60 \/ ehdr h + 62 <= x ->
    x < sec_ptr h (n - 1) \/ sec_ptr h n <= x -> byte m2 x = byte m1 x).
  { intros x H1 H2. unfold m2. rewrite byte_st_ne by (elf_layout; lia).
    apply (byte_mod_only _ _ _ _ _ (mod_only_fill _ _ _ _)). elf_layout. lia. }
  split_and!; [done|done| | |].
  - unfold m2. elf_layout. rewrite u16_small by lia. by mem_simpl.
  - intros i g Hg. unfold del_sec in Hg. rewrite del_lookup in Hg by lia.
    assert (i < length secs - 1)%nat as Hi.
    { case_decide; [lia|]. destruct (secs !! S i) eqn:E; [|done]. apply lookup_lt_Some in E. lia. }
    eapply (sec_at_bytes m1); [intros x Hx; apply Hfr; elf_layout; lia|].
    case_decide as Hd.
    + eapply sec_at_bytes; [|by apply Hsecs]. intros x Hx. apply (byte_mod_only _ _ _ _ _ Hm1).
      elf_layout. lia.
    + destruct (secs !! S i) as [g0|] eqn:E; simplify_eq/=. apply Hs1; [lia|].
      replace (Z.of_nat i + 1) with (Z.of_nat (S i)) by lia. by apply Hsecs.
  - intros x H1 H2. rewrite Hfr by (elf_layout; lia). apply (byte_mod_only _ _ _ _ _ Hm1).
    elf_layout. lia.
Qed.

(** ** Deleting a name *)

Lemma byte_blit m d s n x : d <= x < d + n -> byte (blit m d s n) x = byte m (s + (x - d)).
Proof.
  intros H. unfold byte, blit; simpl. by replace ((d <=? x) && (x <? d + n)) with true by lia.
Qed.

Lemma ld1_byte m a : ld m a 1 = byte m a.
Proof. unfold ld. lia. Qed.

Lemma cstr_at_moved m m' a b s :
  (forall x, 0 <= x < slen s + 1 -> byte m' (b + x) = byte m (a + x)) -> cstr_at m a s -> cstr_at m' b s.
Proof.
  unfold slen. revert a b. induction s as [|c s IH]; intros a b Hb; simpl in *.
  - rewrite !ld1_byte. pose proof (Hb 0 ltac:(lia)) as H0. rewrite !Z.add_0_r in H0. by rewrite H0.
  - intros [Hc Hs]. pose proof (Hb 0 ltac:(lia)) as H0. rewrite !Z.add_0_r in H0. split.
    + rewrite ld1_byte in *. by rewrite H0.
    + apply (IH (a + 1)); [|done]. intros x Hx.
      rewrite <- !Z.add_assoc. apply (Hb (1 + x)). lia.
Qed.

Lemma strs_at_moved m m' a b ns :
  (forall x, 0 <= x < names_len ns -> byte m' (b + x) = byte m (a + x)) -> strs_at m a ns ->
  strs_at m' b ns.
Proof.
  revert a b. induction ns as [|n ns IH]; intros a b Hb; simpl in *; [done|].
  pose proof (slen_nonneg n). pose proof (names_len_nonneg ns). intros [Hc Hs]. split.
  - eapply cstr_at_moved; [|exact Hc]. intros. apply Hb. lia.
  - apply (IH (a + slen n + 1)); [|done]. intros x Hx.
    replace (b + slen n + 1 + x) with (b + (slen n + 1 + x)) by lia.
    replace (a + slen n + 1 + x) with (a + (slen n + 1 + x)) by lia. apply Hb. lia.
Qed.

Lemma strs_at_delete m a ns1 n ns2 :
  strs_at m a (ns1 ++ n :: ns2) ->
  strs_at (blit m (a + names_len ns1) (a + names_len ns1 + (slen n + 1))
             (slen n + 1 + names_len ns2)) a (ns1 ++ ns2).
Proof.
  intros [H1 [_ H2]]%strs_at_app. pose proof (slen_nonneg n). pose proof (names_len_nonneg ns2).
  apply strs_at_app. split.
  - eapply strs_at_bytes; [|exact H1]. intros x Hx.
    apply (byte_mod_only _ _ _ _ _ (mod_only_blit _ _ _ _)). lia.
  - eapply strs_at_moved; [|exact H2]. intros x Hx. rewrite byte_blit by lia. f_equal. lia.
Qed.

(** ** The whole function *)

Definition clear_indices (e : md_region) (names : list string) (secs : list sec) (segs : list seg)
  : nat * nat :=
  (find_idx (seg_match e) segs, find_idx (sec_match e) (zip (""%string :: names) secs)).

Lemma name_idx_delete names i n j :
  names !! i = Some n -> (i <= j)%nat -> (S j <= length names)%nat ->
  name_idx names (S (S j)) - (slen n + 1) = name_idx (take i names ++ drop (S i) names) (S j).
Proof.
  intros Hi Hj Hl. pose proof (lookup_lt_Some _ _ _ Hi). simpl.
  assert (take (S j) names = take i names ++ n :: take (j - i) (drop (S i) names)) as ->.
  { rewrite <- (take_drop_middle _ _ _ Hi) at 1.
    rewrite take_app_ge by (rewrite length_take; lia). rewrite length_take, Nat.min_l by lia.
    replace (S j - i)%nat with (S (j - i)) by lia. done. }
  rewrite take_app_ge by (rewrite length_take; lia). rewrite length_take, Nat.min_l by lia.
  rewrite !names_len_app. simpl. lia.
Qed.

Lemma name_idx_same names i j :
  (j <= S i)%nat -> (i <= length names)%nat ->
  name_idx (take i names ++ drop (S i) names) j = name_idx names j.
Proof.
  intros Hj Hi. destruct j as [|j]; simpl; [done|].
  rewrite take_app_le by (rewrite length_take; lia). by rewrite take_take, Nat.min_l by lia.
Qed.

Lemma named_secs_delete names secs i n esize :
  named_secs names secs -> names !! i = Some n -> names_len names < 4294967295 ->
  named_secs (take i names ++ drop (S i) names) (del_sec (S i) esize (slen n + 1) secs).
Proof.
  intros [Hl Hidx Hnul] Hi Hlen. pose proof (lookup_lt_Some _ _ _ Hi). split.
  - unfold del_sec. rewrite del_length by lia. rewrite length_app, length_take, length_drop. lia.
  - intros j s Hs. unfold del_sec in Hs. rewrite del_lookup in Hs by lia. case_decide.
    + rewrite name_idx_same by lia. by apply Hidx.
    + destruct (secs !! S j) as [s0|] eqn:E; simplify_eq/=.
      pose proof (lookup_lt_Some _ _ _ E). rewrite (Hidx _ _ E).
      destruct j as [|j]; [lia|]. rewrite (name_idx_delete names i n j) by (done || lia).
      apply u32_small. unfold name_idx. pose proof (names_len_nonneg (take j (take i names ++ drop (S i) names))).
      assert (names_len (take i names ++ drop (S i) names) <= names_len names).
      { rewrite <- (take_drop_middle _ _ _ Hi) at 3. rewrite !names_len_app. simpl.
        pose proof (slen_nonneg n). lia. }
      pose proof (take_drop j (take i names ++ drop (S i) names)) as Htd.
      apply (f_equal names_len) in Htd. rewrite names_len_app in Htd.
      pose proof (names_len_nonneg (drop j (take i names ++ drop (S i) names))). lia.
  - apply Forall_app. split; [by apply Forall_take|by apply Forall_drop].
Qed.

Section Whole.
Context (m : mem) (h : md_elfhdr) (names : list string) (secs : list sec) (segs : list seg).
Context (e : md_region).
Context (Hrep : elf_rep m h names secs segs) (Hnm : named_secs names secs).
Context (He : no_nul (md_name e) = true).

Lemma clear_search :
  let '(k, i) := clear_indices e names secs segs in
  load16 m (ehdr h + off_e_phnum) = Some (Z.of_nat (length segs)) /\
  find_program (ehdr h) e (Z.to_nat (Z.of_nat (length segs))) m 0 = Some (Z.of_nat k) /\
  load16 m (ehdr h + off_e_shnum) = Some (Z.of_nat (length secs)) /\
  find_section (ehdr h) e (Z.to_nat (Z.of_nat (length secs))) m h 0 = Some (Z.of_nat i) /\
  (k <= length segs)%nat /\ (i <= length secs)%nat.
Proof.
  unfold clear_indices. pose proof (er_nav _ _ _ _ _ Hrep) as [Hlo Hhi _ _ _ _].
  assert (length (zip (""%string :: names) secs) = length secs) as Hz.
  { rewrite length_zip_with. pose proof (ns_len _ _ Hnm) as Hl.
    change (length (""%string :: names)) with (S (length names)). lia. }
  rewrite !Nat2Z.id. split_and!.
  - rewrite load16_ok by (elf_layout; lia). f_equal. apply (er_phnum _ _ _ _ _ Hrep).
  - rewrite (find_program_list m h names secs segs e Hrep segs 0); [done| |lia|].
    + apply (er_segs _ _ _ _ _ Hrep).
    + pose proof (er_nseg _ _ _ _ _ Hrep). lia.
  - rewrite load16_ok by (elf_layout; lia). f_equal. apply (er_shnum _ _ _ _ _ Hrep).
  - pose proof (find_section_list m h names secs segs e Hrep Hnm He
      (zip (""%string :: names) secs) 0 eq_refl ltac:(lia) eq_refl) as Hfs.
    by rewrite Hz in Hfs.
  - apply find_idx_le.
  - rewrite <- Hz. apply find_idx_le.
Qed.

(** Nothing matches, or the matches are not of one region: an error, and
    nothing is changed. *)
Lemma clear_headers_error k i :
  clear_indices e names secs segs = (k, i) ->
  (k = length segs \/ i = length secs \/
   exists g s, segs !! k = Some g /\ secs !! i = Some s /\ s_off s <> g_off g) ->
  msm_minidump_clear_headers m h e = Some (- EINVAL, m, h).
Proof.
  intros Hki Hcase. pose proof clear_search as Hs. rewrite Hki in Hs.
  destruct Hs as (H1 & H2 & H3 & H4 & H5 & H6). unfold msm_minidump_clear_headers.
  rewrite H1. cbv beta match. rewrite H2. cbv beta match.
  destruct (Z.eqb_spec (Z.of_nat k) (Z.of_nat (length segs))); [done|].
  rewrite H3. cbv beta match. rewrite H4. cbv beta match.
  destruct (Z.eqb_spec (Z.of_nat i) (Z.of_nat (length secs))); [done|].
  destruct Hcase as [->|[->|(g & s & Hg & Hs & Hne)]]; [done|done|].
  pose proof (er_nav _ _ _ _ _ Hrep) as Hnav. pose proof Hnav as [Hlo Hhi _ _ _ _].
  pose proof (er_nsec _ _ _ _ _ Hrep). pose proof (er_nseg _ _ _ _ _ Hrep).
  rewrite elf_section_nav, elf_program_nav by done.
  rewrite !load64_ok by (elf_layout; lia).
  rewrite (sa_off _ _ _ (er_secs _ _ _ _ _ Hrep i s Hs)), (ga_off _ _ _ (er_segs _ _ _ _ _ Hrep k g Hg)).
  apply Z.eqb_neq in Hne. by rewrite Hne.
Qed.

Lemma clear_headers_ok k i n g s :
  clear_indices e names secs segs = (k, S i) -> segs !! k = Some g -> secs !! S i = Some s ->
  names !! i = Some n -> s_off s = g_off g -> (1 <= i)%nat -> slen n < MAX_REGION_NAME_LENGTH ->
  exists m' h', msm_minidump_clear_headers m h e = Some (0, m', h') /\
    elf_rep m' h' (take i names ++ drop (S i) names)
      (del_sec (S i) (md_size e) (slen n + 1) secs) (del_seg k (md_size e) segs) /\
    ehdr h' = ehdr h /\ elf_offset h' = u64 (elf_offset h - md_size e) /\
    m_lo m' = m_lo m /\ m_hi m' = m_hi m.
Proof.
  intros Hki Hg Hs Hn Hoff Hi1 Hn16. pose proof clear_search as Hsr. rewrite Hki in Hsr.
  destruct Hsr as (H1 & H2 & H3 & H4 & _ & _).
  pose proof (lookup_lt_Some _ _ _ Hg). pose proof (lookup_lt_Some _ _ _ Hs).
  pose proof (lookup_lt_Some _ _ _ Hn).
  pose proof Hrep as [Hnav Hph Hsh Hsecs Hsegs Hnul Hnames Hidx Hns Hng Hroom].
  pose proof Hnav as [Hlo Hhi _ _ _ _]. elf_layout.
  destruct (name_at m h names secs segs Hrep Hnm (S i) n Hn) as (Hc & Hnn & Hi0 & Hie).
  pose proof (slen_nonneg n) as Hsn. elf_layout.
  unfold msm_minidump_clear_headers. elf_layout. rewrite H1. cbv beta match.
  rewrite H2. cbv beta match.
  destruct (Z.eqb_spec (Z.of_nat k) (Z.of_nat (length segs))); [lia|].
  rewrite H3. cbv beta match. rewrite H4. cbv beta match.
  destruct (Z.eqb_spec (Z.of_nat (S i)) (Z.of_nat (length secs))); [lia|].
  rewrite elf_section_nav, elf_program_nav by done. elf_layout.
  rewrite !load64_ok by lia.
  pose proof (Hsecs _ _ Hs) as [Sn _ _ _ So _ _]. pose proof (Hsegs _ _ Hg) as [_ _ Go _ _ _ _].
  elf_layout. rewrite So, Go, Hoff, Z.eqb_refl. simpl negb. cbv beta match.
  rewrite load32_ok by lia. rewrite Sn, (ns_idx _ _ Hnm _ _ Hs).
  set (x := name_idx names (S i)) in *.
  unfold elf_lookup_string. rewrite elf_str_table_nav, s32_small, u64_small by (done || lia).
  decide_test. elf_layout.
  rewrite (cstr_len_at _ _ _ n) by (done || lia). cbv beta match.
  rewrite u64_small by lia.
  assert (x + (slen n + 1) + names_len (drop (S i) names) = strtable_idx h) as Hx.
  { subst x. simpl. rewrite Hidx. rewrite <- (take_drop_middle _ _ _ Hn) at 3.
    rewrite names_len_app. simpl. lia. }
  pose proof (names_len_nonneg (drop (S i) names)).
  unfold memmove, in_range. decide_tests.
  set (m1 := blit m _ _ _). set (h1 := set_strtable_idx h _).
  assert (Hb1 : forall y, y < ehdr h + 24184 + x \/ ehdr h + 24184 + strtable_idx h <= y ->
    byte m1 y = byte m y).
  { intros y Hy. apply (byte_mod_only _ _ _ _ _ (mod_only_blit _ _ _ _)). lia. }
  assert (elf_nav m1 h1) as Hnav1.
  { apply (nav_bytes m m1 h h1); try done. intros y Hy. apply Hb1. elf_layout. lia. }
  destruct (clear_programs_ok m1 h1 e segs k Hnav1) as (m2 & Hcp & Hl2 & Hh2 & Hn2 & Hsegs2 & Hb2);
    [|intros j y Hj; pose proof (lookup_lt_Some _ _ _ Hj); eapply (seg_at_bytes m); [|by apply Hsegs];
      intros z Hz; apply Hb1; elf_layout; simpl in *; lia|lia|elf_layout; lia|].
  { rewrite <- Hph. apply ld_ext. intros y Hy. apply Hb1. simpl in *. lia. }
  change (ehdr h1) with (ehdr h) in *. rewrite Hcp. cbv beta match. elf_layout.
  assert (elf_nav m2 h1) as Hnav2.
  { apply (nav_bytes m1 m2 h1 h1); try done. intros y Hy. apply Hb2; elf_layout; simpl in *; lia. }
  destruct (clear_sections_ok m2 h1 e (slen n + 1) secs (S i) Hnav2)
    as (m3 & Hcs & Hl3 & Hh3 & Hn3 & Hsecs3 & Hb3);
    [|intros j y Hj; pose proof (lookup_lt_Some _ _ _ Hj); eapply (sec_at_bytes m); [|by apply Hsecs];
      intros z Hz; elf_layout; simpl in *; rewrite Hb2, Hb1 by lia; done|lia|elf_layout; lia|].
  { rewrite <- Hsh. apply ld_ext. intros y Hy. simpl in *. rewrite Hb2, Hb1 by lia. done. }
  change (ehdr h1) with (ehdr h) in *. rewrite Hcs. cbv beta match. elf_layout.
  change (ehdr h1) with (ehdr h) in *.
  eexists _, _. split; [reflexivity|]. split_and!; [|done|done|by rewrite Hl3, Hl2|by rewrite Hh3, Hh2].
  assert (Hb : forall y, ehdr h + 24184 <= y -> byte m3 y = byte m1 y).
  { intros y Hy. rewrite Hb3, Hb2 by lia. done. }
  pose proof (lookup_lt_Some _ _ _ Hn). split; simpl; elf_layout; simpl.
  - apply (nav_bytes m2 m3 h1 _); try done. intros y Hy. elf_layout. simpl in *. apply Hb3; lia.
  - unfold del_seg. rewrite del_length by lia. rewrite Nat2Z.inj_sub by lia.
    change (Z.of_nat 1) with 1. rewrite <- Hn2. apply ld_ext.
    intros y Hy. apply Hb3; lia.
  - unfold del_sec. rewrite del_length by lia. rewrite Nat2Z.inj_sub by lia. exact Hn3.
  - exact Hsecs3.
  - intros j y Hj. eapply (seg_at_bytes m2); [|by apply Hsegs2]. intros z Hz. elf_layout.
    apply Hb3; [lia|]. unfold del_seg in Hj. apply lookup_lt_Some in Hj.
    rewrite del_length in Hj by lia. lia.
  - rewrite <- Hnul. apply ld_ext. intros y Hy. rewrite Hb by lia. apply Hb1. subst x. simpl in *. 
    pose proof (names_len_nonneg (take i names)). lia.
  - eapply strs_at_bytes; [intros y Hy; apply Hb; lia|].
    pose proof (strs_at_delete m (ehdr h + 24184 + 1) (take i names) n (drop (S i) names)) as Hd.
    rewrite (take_drop_middle _ _ _ Hn) in Hd. specialize (Hd Hnames). unfold m1.
    replace (ehdr h + 24184 + x) with (ehdr h + 24184 + 1 + names_len (take i names))
      by (subst x; simpl; lia).
    replace (strtable_idx h - x) with (slen n + 1 + names_len (drop (S i) names)) by lia.
    replace (ehdr h + 24184 + 1 + names_len (take i names) + (slen n + 1)) with
      (ehdr h + 24184 + 1 + names_len (take i names) + (slen n + 1)) in Hd by lia. exact Hd.
  - rewrite u64_small by lia. rewrite names_len_app. subst x. simpl in *. lia.
  - unfold del_sec. rewrite del_length by lia. lia.
  - unfold del_seg. rewrite del_length by lia. lia.
  - rewrite names_len_app. rewrite <- (take_drop_middle _ _ _ Hn) in Hroom.
    rewrite names_len_app in Hroom. simpl in Hroom. lia.
Qed.
End Whole.
