(* ===== verification/MdElfRegions.v ===== *)
(** * The ELF header of a list of regions

    [elf_regions] says that the header buffer is the image of a list of
    regions: the fixed sections and the banner, then one section header, one
    program header and one name per region, in order, with file offsets that
    follow each other.  Adding, updating and removing a region act on the
    list. *)

From S2P Require Import Prelude CMem CStr CText MdApi MdElf MdElfRep MdElfClear.

#[local] Open Scope list_scope.
#[local] Open Scope Z_scope.

(** ** The image *)

Definition fixed_names : list string := ["STR_TBL"; "minidump_table"; "linux_banner"]%string.

(** Addresses the header embeds: the driver's table, the banner string. *)
Record elf_params := ElfParams { ep_table : Z; ep_banner : Z; ep_banner_phys : Z }.

Definition fixed_secs (ep : elf_params) : list sec :=
  [Sec 0 0 0 0 0 0 0;
   Sec 1 SHT_STRTAB 0 0 24184 3216 0;
   Sec 9 SHT_PROGBITS 0 (ep_table ep) 0 0 0;
   Sec 24 SHT_PROGBITS SHF_WRITE (ep_banner ep) 27400 6 0].

Definition fixed_segs (ep : elf_params) : list seg :=
  [Seg PT_LOAD PF_RW 27400 (ep_banner ep) (ep_banner_phys ep) 6 6].

Fixpoint region_secs (idx off : Z) (rs : list md_region) : list sec :=
  match rs with
  | [] => []
  | e :: rs => entry_sec idx off e :: region_secs (idx + slen (md_name e) + 1) (off + md_size e) rs
  end.

Fixpoint region_segs (off : Z) (rs : list md_region) : list seg :=
  match rs with
  | [] => []
  | e :: rs => entry_seg off e :: region_segs (off + md_size e) rs
  end.

Definition sizes (rs : list md_region) : Z := foldr Z.add 0 (map md_size rs).

Definition region_names (rs : list md_region) : list string := fixed_names ++ map md_name rs.

Record elf_regions (ep : elf_params) (m : mem) (h : md_elfhdr) (rs : list md_region) : Prop := {
  el_rep : elf_rep m h (region_names rs) (fixed_secs ep ++ region_secs 37 27888 rs)
             (fixed_segs ep ++ region_segs 27888 rs);
  el_off : elf_offset h = 27888 + sizes rs;
  el_ok : Forall entry_ok rs;
  el_room : 27888 + sizes rs < 18446744073709551616;
  el_params : 0 <= ep_table ep < 18446744073709551616 /\ 0 <= ep_banner ep < 18446744073709551616 /\
    0 <= ep_banner_phys ep < 18446744073709551616;
}.

(** ** Facts about the lists *)

Lemma names_len_app3 rs : names_len (region_names rs) = 36 + names_len (map md_name rs).
Proof. unfold region_names. rewrite names_len_app. done. Qed.

Lemma sizes_app rs rs' : sizes (rs ++ rs') = sizes rs + sizes rs'.
Proof. unfold sizes. induction rs as [|e rs IH]; simpl; lia. Qed.

Lemma sizes_nonneg rs : Forall entry_ok rs -> 0 <= sizes rs.
Proof. induction 1 as [|e rs [_ _ _ _ [? _]] _ IH]; unfold sizes in *; simpl; lia. Qed.

Lemma names_len_bound rs :
  Forall entry_ok rs -> names_len (map md_name rs) <= 13 * Z.of_nat (length rs).
Proof.
  induction 1 as [|e rs [Hn _ _ _ _] _ IH]; simpl names_len; simpl length; [lia|].
  unfold MAX_NAME_LENGTH in Hn. lia.
Qed.

Lemma region_secs_length idx off rs : length (region_secs idx off rs) = length rs.
Proof. revert idx off. induction rs as [|e rs IH]; intros; simpl; [done|]. by rewrite IH. Qed.

Lemma region_segs_length off rs : length (region_segs off rs) = length rs.
Proof. revert off. induction rs as [|e rs IH]; intros; simpl; [done|]. by rewrite IH. Qed.

Lemma region_secs_app idx off rs rs' :
  region_secs idx off (rs ++ rs') =
  region_secs idx off rs ++ region_secs (idx + names_len (map md_name rs)) (off + sizes rs) rs'.
Proof.
  unfold sizes. revert idx off. induction rs as [|e rs IH]; intros idx off; simpl.
  - by rewrite !Z.add_0_r.
  - rewrite IH. do 3 f_equal; lia.
Qed.

Lemma region_segs_app off rs rs' :
  region_segs off (rs ++ rs') = region_segs off rs ++ region_segs (off + sizes rs) rs'.
Proof.
  unfold sizes. revert off. induction rs as [|e rs IH]; intros off; simpl.
  - by rewrite Z.add_0_r.
  - rewrite IH. do 3 f_equal; lia.
Qed.

(** Shifting the headers of the regions behind a removed one. *)
Lemma shift_region_secs idx off rs esize strln :
  Forall entry_ok rs -> 0 <= esize <= off -> 0 <= strln <= idx ->
  off + sizes rs < 18446744073709551616 -> idx + names_len (map md_name rs) < 4294967296 ->
  map (shift_sec esize strln) (region_secs idx off rs) = region_secs (idx - strln) (off - esize) rs.
Proof.
  intros Hok. revert idx off. induction Hok as [|e rs He Hok IH]; intros idx off Ho Hi Hs Hn; simpl; [done|].
  pose proof (eo_size _ He). pose proof (sizes_nonneg _ Hok). pose proof (slen_nonneg (md_name e)).
  pose proof (names_len_nonneg (map md_name rs)). unfold sizes in *. simpl in Hs, Hn.
  rewrite IH by lia. unfold shift_sec, entry_sec; simpl. rewrite u32_small, u64_small by lia.
  f_equal. f_equal; lia.
Qed.

Lemma shift_region_segs off rs esize :
  Forall entry_ok rs -> 0 <= esize <= off -> off + sizes rs < 18446744073709551616 ->
  map (shift_seg esize) (region_segs off rs) = region_segs (off - esize) rs.
Proof.
  intros Hok. revert off. induction Hok as [|e rs He Hok IH]; intros off Ho Hs; simpl; [done|].
  pose proof (eo_size _ He). pose proof (sizes_nonneg _ Hok). unfold sizes in *. simpl in Hs.
  rewrite IH by lia. unfold shift_seg, entry_seg; simpl. rewrite u64_small by lia.
  f_equal. f_equal; lia.
Qed.

Lemma region_secs_lookup idx off rs k e :
  rs !! k = Some e ->
  region_secs idx off rs !! k
  = Some (entry_sec (idx + names_len (map md_name (take k rs))) (off + sizes (take k rs)) e).
Proof.
  unfold sizes. revert idx off k. induction rs as [|x rs IH]; intros idx off [|k] Hk; simplify_eq/=.
  - by rewrite !Z.add_0_r.
  - rewrite (IH _ _ _ Hk). do 2 f_equal; lia.
Qed.

Lemma region_segs_lookup off rs k e :
  rs !! k = Some e ->
  region_segs off rs !! k = Some (entry_seg (off + sizes (take k rs)) e).
Proof.
  unfold sizes. revert off k. induction rs as [|x rs IH]; intros off [|k] Hk; simplify_eq/=.
  - by rewrite Z.add_0_r.
  - rewrite (IH _ _ Hk). do 2 f_equal; lia.
Qed.

(** ** Adding *)

(** Up to 197 regions the section headers stay in their table. *)
Lemma elf_regions_add ep m h rs e :
  elf_regions ep m h rs -> entry_ok e -> Z.of_nat (length rs) < 197 ->
  27888 + sizes rs + md_size e < 18446744073709551616 ->
  exists m' h', md_add_elf_header m h e = Some (m', h') /\ elf_regions ep m' h' (rs ++ [e]) /\
    ehdr h' = ehdr h /\ m_lo m' = m_lo m /\ m_hi m' = m_hi m.
Proof.
  intros [Hrep Hoff Hok Hroom Hep] He Hlen Hsz.
  pose proof (names_len_bound _ Hok). pose proof (eo_name _ He) as Hn. unfold MAX_NAME_LENGTH in Hn.
  pose proof (sizes_nonneg _ Hok). pose proof (eo_size _ He).
  destruct (elf_rep_add m h _ _ _ e Hrep He) as (m' & h' & Hadd & Hrep' & Hh & Ho & Hl & Hhi).
  - elf_layout. rewrite length_app, region_secs_length. simpl. lia.
  - elf_layout. rewrite length_app, region_segs_length. simpl. lia.
  - rewrite names_len_app3. elf_layout. lia.
  - lia.
  - exists m', h'. split_and!; try done. split; try done.
    + pose proof (er_idx _ _ _ _ _ Hrep) as Hidx. rewrite names_len_app3 in Hidx.
      unfold region_names in *. rewrite map_app, app_assoc, region_secs_app, region_segs_app, !app_assoc.
      rewrite Hidx, Hoff in Hrep'. simpl region_secs. simpl region_segs.
      replace (37 + names_len (map md_name rs)) with (1 + (36 + names_len (map md_name rs))) by lia.
      exact Hrep'.
    + rewrite Ho, Hoff, sizes_app, u64_small by lia. unfold sizes. simpl. lia.
    + apply Forall_app. split; [done|]. by apply Forall_singleton.
    + rewrite sizes_app. unfold sizes at 2. simpl. lia.
Qed.

(** ** Removing *)

Definition same_region (e r : md_region) : Prop :=
  md_name r = md_name e /\ virt_addr r = virt_addr e /\ phys_addr r = phys_addr e /\
  md_size r = md_size e.

Lemma named_region_secs idx off rs names0 :
  idx = 1 + names_len names0 ->
  forall i s, region_secs idx off rs !! i = Some s ->
    s_name s = name_idx (names0 ++ map md_name rs) (S (length names0 + i)).
Proof.
  intros Hidx i s Hs. destruct (lookup_lt_is_Some_2 rs i) as [e He].
  { apply lookup_lt_Some in Hs. by rewrite region_secs_length in Hs. }
  rewrite (region_secs_lookup _ _ _ _ _ He) in Hs. simplify_eq/=.
  rewrite take_app_ge by lia. replace (length names0 + i - length names0)%nat with i by lia.
  rewrite names_len_app, firstn_map. lia.
Qed.

Lemma elf_regions_named ep rs :
  Forall entry_ok rs ->
  named_secs (region_names rs) (fixed_secs ep ++ region_secs 37 27888 rs).
Proof.
  intros Hok. split.
  - unfold region_names. rewrite !length_app, region_secs_length, length_map. done.
  - intros i s Hs. apply lookup_app_Some in Hs as [Hs|[Hi Hs]].
    + unfold region_names.
      do 4 (destruct i as [|i]; [simpl in Hs; injection Hs as <-; done|]). done.
    + simpl in Hi. apply (named_region_secs 37 _ _ fixed_names) in Hs; [|done].
      rewrite Hs. unfold region_names. f_equal. simpl. lia.
  - unfold region_names. apply Forall_app. split; [repeat (constructor; [reflexivity|]); constructor|].
    apply Forall_map. clear -Hok. induction Hok as [|e rs He _ IH]; constructor; [apply He|exact IH].
Qed.

(** A region without a header: not found. *)
Lemma elf_regions_clear_unknown ep m h rs e :
  elf_regions ep m h rs -> entry_ok e -> md_name e ∉ region_names rs ->
  msm_minidump_clear_headers m h e = Some (- EINVAL, m, h).
Proof.
  intros [Hrep Hoff Hok Hroom Hep] He Hnot.
  pose proof (elf_regions_named ep rs Hok) as Hnamed.
  eapply (clear_headers_error m h _ _ _ e Hrep Hnamed (eo_nul _ He)); [reflexivity|].
  right. left. rewrite find_idx_none.
  - rewrite length_zip_with, (ns_len _ _ Hnamed). simpl. lia.
  - intros [n s] Hx. apply list_elem_of_lookup in Hx as [i [Hn Hs]%lookup_zip_Some].
    unfold sec_match. cbn [fst snd]. destruct i as [|i].
    + simpl in Hs. injection Hs as <-. cbn [s_addr s_len]. pose proof (eo_virt _ He).
      rewrite (proj2 (Z.eqb_neq 0 (virt_addr e))) by lia. apply andb_false_r.
    + apply andb_false_iff. left. apply bool_decide_eq_false. intros ->. apply Hnot.
      apply list_elem_of_lookup. by exists i.
Qed.

Section Remove.
Context (ep : elf_params) (m : mem) (h : md_elfhdr) (rs1 : list md_region) (r : md_region)
  (rs2 : list md_region) (e : md_region).

Local Abbreviation rs := (rs1 ++ r :: rs2).
Local Abbreviation k := (length rs1).

Context (Hel : elf_regions ep m h rs) (Hsame : same_region e r).
Context (Hnd : NoDup (region_names rs)).

Lemma removed_ok : entry_ok r /\ Forall entry_ok rs1 /\ Forall entry_ok rs2.
Proof.
  pose proof (el_ok _ _ _ _ Hel) as Hok. apply Forall_app in Hok as [? Hok].
  apply Forall_cons_1 in Hok as [? ?]. done.
Qed.

Lemma entry_no_nul : no_nul (md_name e) = true.
Proof. destruct Hsame as (<- & _). apply removed_ok. Qed.

(** The region's own section is the first that matches. *)
Lemma find_removed_section :
  find_idx (sec_match e) (zip (""%string :: region_names rs) (fixed_secs ep ++ region_secs 37 27888 rs))
  = S (3 + k).
Proof.
  destruct removed_ok as (Hr & _ & _). pose proof Hsame as (Hn & Hv & Hp & Hs).
  assert (region_names rs !! (3 + k)%nat = Some (md_name r)) as Hname.
  { unfold region_names. rewrite map_app, lookup_app_r by (simpl; lia).
    replace (3 + k - length fixed_names)%nat with k by (simpl; lia).
    rewrite lookup_app_r by (rewrite length_map; lia). by rewrite length_map, Nat.sub_diag. }
  assert ((fixed_secs ep ++ region_secs 37 27888 rs) !! S (3 + k)
    = Some (entry_sec (37 + names_len (map md_name rs1)) (27888 + sizes rs1) r)) as Hsec.
  { rewrite lookup_app_r by (simpl; lia). replace (S (3 + k) - length (fixed_secs ep))%nat with k by (simpl; lia).
    rewrite (region_secs_lookup _ _ _ k r) by (by rewrite lookup_app_r, Nat.sub_diag by lia).
    by rewrite take_app_length. }
  apply (find_idx_Some _ _ _ (md_name r, entry_sec (37 + names_len (map md_name rs1)) (27888 + sizes rs1) r)).
  - apply lookup_zip_Some. done.
  - unfold sec_match, entry_sec; simpl. rewrite bool_decide_true by done. lia.
  - intros j [n s] Hj [Hnj Hsj]%lookup_zip_Some. unfold sec_match; simpl.
    destruct j as [|j].
    + simpl in Hsj. injection Hsj as <-. cbn [snd fst s_addr s_len]. pose proof (eo_virt _ Hr).
      rewrite (proj2 (Z.eqb_neq 0 (virt_addr e))) by lia. apply andb_false_r.
    + apply andb_false_iff. left. apply bool_decide_eq_false. intros ->.
      simpl in Hnj. rewrite <- Hn in Hnj.
      pose proof (NoDup_lookup _ _ _ _ Hnd Hnj Hname). lia.
Qed.

(** The first program header that matches: the region's own, unless an
    earlier region has the same address and size. *)
Lemma find_removed_segment :
  (forall x, x ∈ rs1 -> phys_addr x = phys_addr e -> md_size x <> md_size e) ->
  find_idx (seg_match e) (fixed_segs ep ++ region_segs 27888 rs) = S k.
Proof.
  intros Hfirst. destruct removed_ok as (Hr & _ & _). pose proof Hsame as (Hn & Hv & Hp & Hs).
  apply (find_idx_Some _ _ _ (entry_seg (27888 + sizes rs1) r)).
  - rewrite lookup_app_r by (simpl; lia). replace (S k - length (fixed_segs ep))%nat with k by (simpl; lia).
    rewrite (region_segs_lookup _ _ k r) by (by rewrite lookup_app_r, Nat.sub_diag by lia).
    by rewrite take_app_length.
  - unfold seg_match, entry_seg; simpl. lia.
  - intros j g Hj Hg. unfold seg_match. destruct j as [|j].
    + simpl in Hg. injection Hg as <-. cbn [g_paddr g_memsz]. destruct (eo_size _ Hr) as [_ Hm]. rewrite Hs in Hm.
      destruct (Z.eqb_spec 6 (md_size e)) as [Heq|]; [by rewrite <- Heq in Hm|]. apply andb_false_r.
    + simpl in Hg. destruct (lookup_lt_is_Some_2 rs1 j ltac:(lia)) as [x Hx].
      rewrite (region_segs_lookup _ _ j x) in Hg by (by apply lookup_app_l_Some). simplify_eq/=.
      specialize (Hfirst x (list_elem_of_lookup_2 _ _ _ Hx)). lia.
Qed.

Lemma region_names_delete :
  take (3 + k) (region_names rs) ++ drop (S (3 + k)) (region_names rs) = region_names (rs1 ++ rs2).
Proof.
  unfold region_names. rewrite !map_app. simpl. f_equal. f_equal. f_equal.
  rewrite take_app_ge by (rewrite length_map; lia).
  rewrite drop_app_ge by (rewrite length_map; lia).
  rewrite length_map, Nat.sub_diag. replace (S k - k)%nat with 1%nat by lia. simpl.
  by rewrite app_nil_r, drop_0.
Qed.

Lemma region_secs_delete :
  del_sec (S (3 + k)) (md_size e) (slen (md_name r) + 1) (fixed_secs ep ++ region_secs 37 27888 rs)
  = fixed_secs ep ++ region_secs 37 27888 (rs1 ++ rs2).
Proof.
  destruct removed_ok as (Hr & H1 & H2). destruct Hsame as (_ & _ & _ & Hs).
  pose proof (el_room _ _ _ _ Hel) as Hroom. rewrite sizes_app in Hroom. unfold sizes at 2 in Hroom.
  simpl in Hroom. fold (sizes rs2) in Hroom.
  pose proof (er_room _ _ _ _ _ (el_rep _ _ _ _ Hel)) as Hnr.
  rewrite names_len_app3, map_app, names_len_app in Hnr. simpl in Hnr. elf_layout.
  pose proof (eo_size _ Hr). pose proof (sizes_nonneg _ H1). pose proof (slen_nonneg (md_name r)).
  pose proof (names_len_nonneg (map md_name rs1)).
  rewrite !region_secs_app. simpl region_secs. unfold del_sec.
  rewrite take_app_ge by (simpl; lia). rewrite drop_app_ge by (simpl; lia).
  replace (S (3 + k) - length (fixed_secs ep))%nat with k by (simpl; lia).
  replace (S (S (3 + k)) - length (fixed_secs ep))%nat with (S k) by (simpl; lia).
  rewrite take_app_ge, drop_app_ge by (rewrite region_secs_length; lia).
  rewrite region_secs_length, Nat.sub_diag. replace (S k - k)%nat with 1%nat by lia.
  simpl take. simpl drop. rewrite ?take_0, app_nil_r, ?drop_0, <- app_assoc. do 2 f_equal.
  rewrite shift_region_secs by (done || lia). f_equal; lia.
Qed.

Lemma region_segs_delete :
  del_seg (S k) (md_size e) (fixed_segs ep ++ region_segs 27888 rs)
  = fixed_segs ep ++ region_segs 27888 (rs1 ++ rs2).
Proof.
  destruct removed_ok as (Hr & H1 & H2). destruct Hsame as (_ & _ & _ & Hs).
  pose proof (el_room _ _ _ _ Hel) as Hroom. rewrite sizes_app in Hroom. unfold sizes at 2 in Hroom.
  simpl in Hroom. fold (sizes rs2) in Hroom.
  pose proof (eo_size _ Hr). pose proof (sizes_nonneg _ H1).
  rewrite !region_segs_app. simpl region_segs. unfold del_seg.
  rewrite take_app_ge by (simpl; lia). rewrite drop_app_ge by (simpl; lia).
  replace (S k - length (fixed_segs ep))%nat with k by (simpl; lia).
  replace (S (S k) - length (fixed_segs ep))%nat with (S k) by (simpl; lia).
  rewrite take_app_ge, drop_app_ge by (rewrite region_segs_length; lia).
  rewrite region_segs_length, Nat.sub_diag. replace (S k - k)%nat with 1%nat by lia.
  simpl take. simpl drop. rewrite ?take_0, app_nil_r, ?drop_0, <- app_assoc. do 2 f_equal.
  rewrite shift_region_segs by (done || lia). f_equal; lia.
Qed.

Lemma removed_section :
  (fixed_secs ep ++ region_secs 37 27888 rs) !! S (3 + k)
  = Some (entry_sec (37 + names_len (map md_name rs1)) (27888 + sizes rs1) r).
Proof.
  rewrite lookup_app_r by (simpl; lia). replace (S (3 + k) - length (fixed_secs ep))%nat with k by (simpl; lia).
  rewrite (region_secs_lookup _ _ _ k r) by (by rewrite lookup_app_r, Nat.sub_diag by lia).
  by rewrite take_app_length.
Qed.

Lemma elf_regions_clear :
  (forall x, x ∈ rs1 -> phys_addr x = phys_addr e -> md_size x <> md_size e) ->
  exists m' h', msm_minidump_clear_headers m h e = Some (0, m', h') /\
    elf_regions ep m' h' (rs1 ++ rs2) /\
    ehdr h' = ehdr h /\ m_lo m' = m_lo m /\ m_hi m' = m_hi m.
Proof.
  intros Hfirst. destruct removed_ok as (Hr & H1 & H2). pose proof Hsame as (Hn & Hv & Hp & Hs).
  pose proof Hel as [Hrep Hoff Hok Hroom Hep]. pose proof (eo_name _ Hr) as Hn12.
  unfold MAX_NAME_LENGTH in Hn12.
  destruct (clear_headers_ok m h _ _ _ e Hrep (elf_regions_named ep rs Hok) entry_no_nul
    (S k) (3 + k)%nat (md_name r) (entry_seg (27888 + sizes rs1) r)
    (entry_sec (37 + names_len (map md_name rs1)) (27888 + sizes rs1) r))
    as (m' & h' & Hc & Hrep' & Hh & Ho & Hl & Hhi).
  - unfold clear_indices. by rewrite find_removed_section, find_removed_segment.
  - rewrite lookup_app_r by (simpl; lia). replace (S k - length (fixed_segs ep))%nat with k by (simpl; lia).
    rewrite (region_segs_lookup _ _ k r) by (by rewrite lookup_app_r, Nat.sub_diag by lia).
    by rewrite take_app_length.
  - apply removed_section.
  - unfold region_names. rewrite map_app, lookup_app_r by (simpl; lia).
    replace (3 + k - length fixed_names)%nat with k by (simpl; lia).
    rewrite lookup_app_r by (rewrite length_map; lia). by rewrite length_map, Nat.sub_diag.
  - done.
  - lia.
  - elf_layout. lia.
  - rewrite region_names_delete, region_secs_delete, region_segs_delete in Hrep'.
    rewrite sizes_app in Hroom, Hoff. unfold sizes at 2 in Hroom. unfold sizes at 2 in Hoff.
    simpl in Hroom, Hoff. fold (sizes rs2) in Hroom, Hoff.
    pose proof (eo_size _ Hr). pose proof (sizes_nonneg _ H1). pose proof (sizes_nonneg _ H2).
    exists m', h'. split_and!; try done. split; try done.
    + rewrite Ho, Hoff, sizes_app, u64_small; lia.
    + by apply Forall_app.
    + rewrite sizes_app. lia.
Qed.

(** An earlier region with the same address and size shadows the region in
    the search over the program headers; the mismatch is noticed and
    nothing is removed. *)
Lemma elf_regions_clear_shadowed x :
  x ∈ rs1 -> phys_addr x = phys_addr e -> md_size x = md_size e -> 0 < md_size e ->
  msm_minidump_clear_headers m h e = Some (- EINVAL, m, h).
Proof.
  intros Hx Hpx Hsx Hpos. destruct removed_ok as (Hr & H1 & H2).
  pose proof Hel as [Hrep Hoff Hok Hroom Hep].
  set (j := find_idx (seg_match e) (fixed_segs ep ++ region_segs 27888 rs)).
  eapply (clear_headers_error m h _ _ _ e Hrep (elf_regions_named ep rs Hok) entry_no_nul j (S (3 + k))).
  { unfold clear_indices. by rewrite find_removed_section. }
  right. right.
  apply list_elem_of_lookup in Hx as [i Hi]. pose proof (lookup_lt_Some _ _ _ Hi) as Hlt.
  assert (Hfind : forall (l : list seg) g i0, l !! i0 = Some g -> seg_match e g = true ->
    exists g', l !! find_idx (seg_match e) l = Some g' /\ seg_match e g' = true /\
      (find_idx (seg_match e) l <= i0)%nat).
  { clear. induction l as [|y l IH]; intros g [|i0] Hg Hm; simplify_eq/=.
    - rewrite Hm. eauto with lia.
    - destruct (seg_match e y) eqn:Hy; [eauto with lia|].
      destruct (IH g i0 Hg Hm) as (g' & ? & ? & ?). exists g'. split_and!; try done. lia. }
  destruct (Hfind (fixed_segs ep ++ region_segs 27888 rs) (entry_seg (27888 + sizes (take i rs)) x) (S i))
    as (g & Hg & Hgm & Hji).
  { simpl. apply region_segs_lookup. by apply lookup_app_l_Some. }
  { unfold seg_match, entry_seg; simpl. lia. }
  fold j in Hg, Hji. exists g, (entry_sec (37 + names_len (map md_name rs1)) (27888 + sizes rs1) r).
  split; [done|split; [apply removed_section|]]. simpl.
  destruct j as [|j']; [|].
  - simpl in Hg. injection Hg as <-. unfold seg_match in Hgm; cbn [g_paddr g_memsz] in Hgm.
    destruct (eo_size _ Hr) as [_ Hm4]. destruct Hsame as (_ & _ & _ & Hs). rewrite Hs in Hm4.
    apply andb_true_iff in Hgm as [_ Hgm%Z.eqb_eq]. by rewrite <- Hgm in Hm4.
  - simpl in Hg. destruct (lookup_lt_is_Some_2 rs1 j' ltac:(lia)) as [y Hy].
    rewrite (region_segs_lookup _ _ j' y) in Hg by (by apply lookup_app_l_Some). simplify_eq/=.
    unfold seg_match in Hgm; simpl in Hgm.
    rewrite take_app_le by lia. rewrite <- (take_drop_middle _ _ _ Hy) at 1.
    rewrite <- (take_drop_middle _ _ _ Hy) in H1. apply Forall_app in H1 as [_ H1].
    apply Forall_cons_1 in H1 as [_ H1]. pose proof (sizes_nonneg _ H1).
    rewrite sizes_app. unfold sizes at 2. simpl. fold (sizes (drop (S j') rs1)). lia.
Qed.
End Remove.
