(* ===== verification/MdElfInit.v ===== *)
(** * Creating the ELF header

    [fill_header] turns the zeroed buffer into the header of no regions. *)

From S2P Require Import Prelude CMem CStr CText MdApi MdElf MdElfRep MdElfClear MdElfRegions.

#[local] Open Scope string_scope.
#[local] Open Scope list_scope.
#[local] Open Scope Z_scope.

Lemma ld_zero m a n : (forall x, a <= x < a + Z.of_nat n -> byte m x = 0) -> ld m a n = 0.
Proof.
  revert a. induction n as [|n IH]; intros a H; [done|].
  simpl. unfold ld. fold ld. rewrite (H a) by lia. rewrite IH; [done|]. intros; apply H. lia.
Qed.

Lemma elf_layout_size : elfh_size = 27888 /\ strtbl_off = 24184.
Proof. split; vm_compute; reflexivity. Qed.

(** What the ELF header itself contributes to the navigation. *)
Record elf_offsets (m : mem) (h : md_elfhdr) : Prop := {
  eh_lo : m_lo m <= ehdr h;
  eh_hi : ehdr h + 27888 <= m_hi m;
  eh_phoff : ld m (ehdr h + 32) 8 = 12928;
  eh_shoff : ld m (ehdr h + 40) 8 = 64;
  eh_ndx : ld m (ehdr h + 62) 2 = 1;
}.

Lemma fill_ehdr_ok m h :
  m_lo m <= ehdr h -> ehdr h + 27888 <= m_hi m ->
  exists m', fill_ehdr m (ehdr h) = Some m' /\ elf_offsets m' h /\
    mod_only (ehdr h) (ehdr h + 64) m m'.
Proof.
  intros Hlo Hhi. unfold fill_ehdr, EI_CLASS, EI_DATA, EI_VERSION, EI_OSABI, off_e_type,
    off_e_machine, off_e_version, off_e_ehsize, off_e_phentsize, off_e_shentsize. elf_layout.
  repeat (first
    [rewrite store8_ok by (autorewrite with mem_bounds; lia)
    |rewrite store16_ok by (autorewrite with mem_bounds; lia)
    |rewrite store32_ok by (autorewrite with mem_bounds; lia)
    |rewrite store64_ok by (autorewrite with mem_bounds; lia)]; cbv beta match).
  eexists. split; [reflexivity|].
  split; [|split; [done|split; [done|intros x Hx; by rewrite !byte_st_ne by lia]]].
  split; [autorewrite with mem_bounds; lia..| | |]; by mem_simpl.
Qed.

(** What filling section [i] under the name at [idx] does. *)
Record filled (m m' : mem) (h : md_elfhdr) (i idx : Z) (name : string) (s : sec) : Prop := {
  fi_lo : m_lo m' = m_lo m;
  fi_hi : m_hi m' = m_hi m;
  fi_sec : sec_at m' (sec_ptr h i) s;
  fi_name : cstr_at m' (strtab h + idx) name;
  fi_frame x :
    x < sec_ptr h i \/ sec_ptr h (i + 1) <= x ->
    x < strtab h + idx \/ strtab h + idx + slen name + 1 <= x ->
    x < ehdr h + 27400 -> byte m' x = byte m x;
}.

(** Leave a memory known only through its bounds and what was written to it. *)
Ltac init_stores :=
  repeat (first
    [rewrite store16_ok by (autorewrite with mem_bounds; lia)
    |rewrite store32_ok by (autorewrite with mem_bounds; lia)
    |rewrite store64_ok by (autorewrite with mem_bounds; lia)]; cbv beta match).

(** Naming section [i], the last step of each. *)
Definition name_section (m : mem) (h : md_elfhdr) (sh : Z) (name : string)
  : option (mem * md_elfhdr) :=
  let* (idx, m, h) := set_section_name m h name in
  let* m := store32 m (sh + off_sh_name) idx in
  Some (m, h).

Record renamed (m m' : mem) (h : md_elfhdr) (i idx : Z) (name : string) : Prop := {
  rn_lo : m_lo m' = m_lo m;
  rn_hi : m_hi m' = m_hi m;
  rn_idx : ld m' (sec_ptr h i) 4 = idx;
  rn_name : cstr_at m' (strtab h + idx) name;
  rn_frame x :
    x < sec_ptr h i \/ sec_ptr h i + 4 <= x ->
    x < strtab h + idx \/ strtab h + idx + slen name + 1 <= x -> byte m' x = byte m x;
}.

Lemma name_section_ok m h i name idx :
  elf_nav m h -> strtable_idx h = idx -> 0 <= i <= 3 -> slen name < 16 -> 0 <= idx <= 100 ->
  exists m', name_section m h (sec_ptr h i) name
      = Some (m', set_strtable_idx h (idx + slen name + 1)) /\
    renamed m m' h i idx name.
Proof.
  intros Hnav Hi Hr Hn Hx. pose proof (slen_nonneg name). pose proof Hnav as []. unfold name_section.
  destruct (set_section_name_nav m h Hnav name) as (m2 & -> & Hm & Hc); [done|lia..|].
  pose proof Hm as (El & Eh & _). rewrite Hi in *. elf_layout.
  rewrite store32_ok by (rewrite <- ?El, <- ?Eh; lia).
  eexists. split; [reflexivity|]. split; elf_layout.
  - by rewrite m_lo_st.
  - by rewrite m_hi_st.
  - by mem_simpl.
  - eapply cstr_at_bytes; [|exact Hc]. intros x H1. apply byte_st_ne. lia.
  - intros x H1 H2. rewrite byte_st_ne by lia. apply (byte_mod_only _ _ _ _ _ Hm). lia.
Qed.

(** Loads of a renamed section other than its name. *)
Lemma ld_renamed m m' h i idx name a n :
  renamed m m' h i idx name -> 0 <= idx -> 
  a + Z.of_nat n <= sec_ptr h i \/ sec_ptr h i + 4 <= a -> a + Z.of_nat n <= strtab h ->
  ld m' a n = ld m a n.
Proof. intros [_ _ _ _ Hf] Hi Ha Hs. apply ld_ext. intros x Hx. apply Hf; lia. Qed.

Ltac renamed_fields Hren :=
  split; elf_layout; cbn [s_name s_type s_flags s_addr s_off s_len s_ent];
  rewrite ?Z.add_0_r; [exact (rn_idx _ _ _ _ _ _ Hren)|..];
  rewrite (ld_renamed _ _ _ _ _ _ _ _ Hren) by (elf_layout; lia); mem_simpl; try done.

Lemma fill_strtab_section_ok m h :
  elf_offsets m h -> strtable_idx h = 1 ->
  (forall x, sec_ptr h 1 <= x < sec_ptr h 2 -> byte m x = 0) ->
  exists m', fill_strtab_section m h (sec_ptr h 1) = Some (m', set_strtable_idx h 9) /\
    elf_nav m' h /\ filled m m' h 1 1 "STR_TBL" (Sec 1 SHT_STRTAB 0 0 24184 3216 0).
Proof.
  intros [Hlo Hhi Hp Hs Hn] Hi Hz. unfold fill_strtab_section, SHT_STRTAB.
  destruct elf_layout_size as [_ ->]. elf_layout. change ((200 + 1) * 16) with 3216. init_stores.
  fold (sec_ptr h 1). set (m1 := st _ (sec_ptr h 1 + 8) 8 0).
  assert (elf_nav m1 h) as Hnav.
  { unfold m1. split; elf_layout; [autorewrite with mem_bounds; lia..| | | |]; by mem_simpl. }
  destruct (name_section_ok m1 h 1 "STR_TBL" 1 Hnav Hi) as (m2 & Hr & Hren); [done..|].
  exists m2. split; [exact Hr|]. change (slen "STR_TBL") with 7 in *.
  pose proof Hren as [El Eh _ Hc Hf]. change (slen "STR_TBL") with 7 in *.
  split; [|split; [done..| |done|]].
  - destruct Hnav. split; rewrite ?El, ?Eh; try done; rewrite (ld_renamed _ _ _ _ _ _ _ _ Hren);
      elf_layout; done || lia.
  - unfold m1 in *. renamed_fields Hren. apply ld_zero. intros; apply Hz. elf_layout. lia.
  - intros x H1 H2 H3. change (slen "STR_TBL") with 7 in *. rewrite Hf by (elf_layout; lia).
    unfold m1. elf_layout. by rewrite !byte_st_ne by lia.
Qed.

Lemma fill_table_section_ok m h table :
  elf_nav m h -> strtable_idx h = 9 -> 0 <= table < 18446744073709551616 ->
  (forall x, sec_ptr h 2 <= x < sec_ptr h 3 -> byte m x = 0) ->
  exists m', fill_table_section m h (sec_ptr h 2) table = Some (m', set_strtable_idx h 24) /\
    filled m m' h 2 9 "minidump_table" (Sec 9 SHT_PROGBITS 0 table 0 0 0).
Proof.
  intros Hnav Hi Ht Hz. pose proof Hnav as [Hlo Hhi _ _ _ _].
  unfold fill_table_section, SHT_PROGBITS. elf_layout. init_stores. fold (sec_ptr h 2).
  set (m1 := st _ (sec_ptr h 2 + 16) 8 table).
  assert (elf_nav m1 h) as Hnav1.
  { apply (nav_bytes m m1 h h); [done..| |done]. intros x Hx. unfold m1. elf_layout.
    by rewrite !byte_st_ne by lia. }
  destruct (name_section_ok m1 h 2 "minidump_table" 9 Hnav1 Hi) as (m2 & Hr & Hren); [done..|].
  exists m2. split; [exact Hr|]. pose proof Hren as [El Eh _ Hc Hf]. change (slen "minidump_table") with 14 in *.
  split; [done..| |done|].
  - unfold m1 in *. renamed_fields Hren; apply ld_zero; intros; apply Hz; lia.
  - intros x H1 H2 H3. change (slen "minidump_table") with 14 in *. rewrite Hf by (elf_layout; lia).
    unfold m1. elf_layout. by rewrite !byte_st_ne by lia.
Qed.

Lemma fill_banner_section_ok m h banner_addr :
  elf_nav m h -> strtable_idx h = 24 -> 0 <= banner_addr < 18446744073709551616 ->
  exists m', fill_banner_section m h (sec_ptr h 3) banner_addr = Some (m', set_strtable_idx h 37) /\
    filled m m' h 3 24 "linux_banner" (Sec 24 SHT_PROGBITS SHF_WRITE banner_addr 27400 6 0).
Proof.
  intros Hnav Hi Ht. pose proof Hnav as [Hlo Hhi _ _ _ _].
  unfold fill_banner_section, SHT_PROGBITS, SHF_WRITE, strscpy_to, linux_banner.
  rewrite strscpy_fits by done. destruct elf_layout_size as [_ ->].
  change (MAX_STRTBL_SIZE =? 0) with false. cbv beta match.
  change MAX_STRTBL_SIZE with 3216. change (slen "Linux") with 5. change (24184 + 3216) with 27400.
  replace (ehdr h + 24184 + 3216) with (ehdr h + 27400) by lia.
  destruct (store_cstr_ok m (ehdr h + 27400) "Linux") as (m0 & -> & Hm & _);
    [lia|change (slen "Linux") with 5; lia|]. change (slen "Linux") with 5 in Hm.
  pose proof Hm as (El0 & Eh0 & _). cbv beta match. change (5 + 1) with 6.
  elf_layout. assert (m_lo m0 <= ehdr h /\ ehdr h + 27888 <= m_hi m0) as [Hlo0 Hhi0] by lia.
  init_stores. fold (sec_ptr h 3).
  set (m1 := st _ (sec_ptr h 3 + 8) 8 1).
  assert (forall x, x < sec_ptr h 3 \/ sec_ptr h 4 <= x -> x < ehdr h + 27400 -> byte m1 x = byte m x) as Hb.
  { intros x H1 H2. unfold m1. elf_layout. rewrite !byte_st_ne by lia. apply (byte_mod_only _ _ _ _ _ Hm). lia. }
  assert (elf_nav m1 h) as Hnav1.
  { apply (nav_bytes m m1 h h); [done..| |done]. intros x Hx. apply Hb; elf_layout; lia. }
  destruct (name_section_ok m1 h 3 "linux_banner" 24 Hnav1 Hi) as (m2 & Hr & Hren); [done..|].
  exists m2. split; [exact Hr|]. pose proof Hren as [El Eh _ Hc Hf]. change (slen "linux_banner") with 12 in *.
  split; [by rewrite El|by rewrite Eh| |done|].
  - unfold m1 in *. renamed_fields Hren.
  - intros x H1 H2 H3. change (slen "linux_banner") with 12 in *. rewrite Hf by (elf_layout; lia).
    apply Hb; elf_layout; lia.
Qed.

Lemma fill_banner_program_ok m h banner_addr banner_phys :
  m_lo m <= ehdr h -> ehdr h + 27888 <= m_hi m ->
  0 <= banner_addr < 18446744073709551616 -> 0 <= banner_phys < 18446744073709551616 ->
  exists m', fill_banner_program m (seg_ptr h 0) banner_addr banner_phys = Some m' /\
    seg_at m' (seg_ptr h 0) (Seg PT_LOAD PF_RW 27400 banner_addr banner_phys 6 6) /\
    mod_only (seg_ptr h 0) (seg_ptr h 1) m m'.
Proof.
  intros Hlo Hhi Hb Hp. unfold fill_banner_program, PT_LOAD, PF_RW, linux_banner.
  destruct elf_layout_size as [_ ->]. change (slen "Linux" + 1) with 6. elf_layout.
  change (24184 + (200 + 1) * 16) with 27400. init_stores.
  eexists. split; [reflexivity|]. split.
  - split; elf_layout; cbn [g_type g_flags g_off g_vaddr g_paddr g_filesz g_memsz]; by mem_simpl.
  - split_and!; [done..|]. intros x Hx. by rewrite !byte_st_ne by lia.
Qed.

(** Facts the later steps do not touch. *)
Lemma filled_kept m m' h i idx name s j t :
  filled m m' h i idx name s -> 0 <= i -> 0 <= j -> i <> j -> sec_ptr h (j + 1) <= strtab h -> 0 <= idx ->
  sec_at m (sec_ptr h j) t -> sec_at m' (sec_ptr h j) t.
Proof.
  intros [_ _ _ _ Hf] Hi Hj Hne Hs Hx. apply sec_at_bytes. intros x Hr.
  unfold sec_ptr, strtab, sizeof_shdr in *. apply Hf; lia.
Qed.

Lemma filled_str m m' h i idx name s a n :
  filled m m' h i idx name s -> 0 <= i <= 3 -> slen n + a + 1 <= idx -> idx <= 100 -> 0 <= a ->
  cstr_at m (strtab h + a) n -> cstr_at m' (strtab h + a) n.
Proof.
  intros [_ _ _ _ Hf] Hi Ha Hx H0. apply cstr_at_bytes. intros x Hr.
  unfold sec_ptr, strtab, sizeof_shdr in *. apply Hf; lia.
Qed.

Lemma filled_nav m m' h h' i idx name s :
  filled m m' h i idx name s -> ehdr h' = ehdr h -> 2 <= i <= 3 -> 0 <= idx -> elf_nav m h -> elf_nav m' h'.
Proof.
  intros [Hl Hh _ _ Hf] He Hi Hx. apply nav_bytes; [done..|]. intros x Hr.
  unfold sec_ptr, strtab, sizeof_shdr in *. apply Hf; lia.
Qed.

(** The parts of the header of no regions. *)
Lemma elf_regions_nil table ba bp m h :
  elf_nav m h -> strtable_idx h = 37 -> elf_offset h = 27888 ->
  ld m (ehdr h + 56) 2 = 1 -> ld m (ehdr h + 60) 2 = 4 ->
  (forall x, sec_ptr h 0 <= x < sec_ptr h 1 \/ x = strtab h -> byte m x = 0) ->
  sec_at m (sec_ptr h 1) (Sec 1 SHT_STRTAB 0 0 24184 3216 0) ->
  sec_at m (sec_ptr h 2) (Sec 9 SHT_PROGBITS 0 table 0 0 0) ->
  sec_at m (sec_ptr h 3) (Sec 24 SHT_PROGBITS SHF_WRITE ba 27400 6 0) ->
  seg_at m (seg_ptr h 0) (Seg PT_LOAD PF_RW 27400 ba bp 6 6) ->
  cstr_at m (strtab h + 1) "STR_TBL" -> cstr_at m (strtab h + 9) "minidump_table" ->
  cstr_at m (strtab h + 24) "linux_banner" ->
  0 <= table < 18446744073709551616 -> 0 <= ba < 18446744073709551616 ->
  0 <= bp < 18446744073709551616 ->
  elf_regions (ElfParams table ba bp) m h [].
Proof.
  intros Hnav Hi Ho Hpn Hsn Hz H1 H2 H3 G N1 N2 N3 Ht Hba Hbp.
  split; [|done|done|done|done]. unfold region_names, fixed_names. simpl app. split; try done.
  - intros i s Hs. destruct i as [|[|[|[|i]]]]; try (injection Hs as <-); [|done..].
    split; apply ld_zero; intros x Hx; apply Hz; elf_layout; lia.
  - intros i g Hg. destruct i as [|i]; [|done]. injection Hg as <-. exact G.
  - apply ld_zero. intros x Hx. apply Hz. right. lia.
  - split; [exact N1|split; [|split; [|done]]].
    + replace (strtab h + 1 + slen "STR_TBL" + 1) with (strtab h + 9)
        by (change (slen "STR_TBL") with 7; lia). exact N2.
    + replace (strtab h + 1 + slen "STR_TBL" + 1 + slen "minidump_table" + 1) with (strtab h + 24)
        by (change (slen "STR_TBL") with 7; change (slen "minidump_table") with 14; lia). exact N3.
Qed.

Lemma fill_sections_ok m h table ba bp :
  elf_offsets m h -> shdr h = ehdr h + 64 -> phdr h = seg_ptr h 0 ->
  (forall x, ehdr h + 64 <= x < ehdr h + 27888 -> byte m x = 0) ->
  0 <= table < 18446744073709551616 -> 0 <= ba < 18446744073709551616 ->
  0 <= bp < 18446744073709551616 ->
  exists m' h', fill_sections m h table ba bp = Some (m', h') /\
    elf_regions (ElfParams table ba bp) m' h' [] /\
    ehdr h' = ehdr h /\ m_lo m' = m_lo m /\ m_hi m' = m_hi m.
Proof.
  intros Hoff Hsh Hph Hz Ht Hba Hbp. unfold fill_sections. destruct elf_layout_size as [-> _].
  set (h1 := set_strtable_idx (set_elf_offset h 27888) 1).
  assert (elf_offsets m h1) as Hoff1 by (destruct Hoff; split; done).
  replace (shdr h1 + sizeof_shdr) with (sec_ptr h1 1) by (unfold sec_ptr, sizeof_shdr; simpl; lia).
  destruct (fill_strtab_section_ok m h1 Hoff1) as (m1 & -> & Hnav1 & F1); [done| |].
  { intros x Hx. apply Hz. elf_layout. simpl in Hx. lia. }
  set (h2 := set_strtable_idx h1 9) in *.
  assert (elf_nav m1 h2) as Hnav1' by (destruct Hnav1; split; done).
  replace (shdr h2 + sizeof_shdr * 2) with (sec_ptr h2 2) by (unfold sec_ptr, sizeof_shdr; simpl; lia).
  destruct (fill_table_section_ok m1 h2 table Hnav1') as (m2 & -> & F2); [done..| |].
  { intros x Hx. rewrite (fi_frame _ _ _ _ _ _ _ F1) by (change (slen "STR_TBL") with 7; elf_layout; simpl in *; lia).
    apply Hz. elf_layout. simpl in Hx. lia. }
  set (h3 := set_strtable_idx h2 24) in *.
  assert (elf_nav m2 h3) as Hnav2 by (eapply filled_nav; [exact F2|done|lia|lia|exact Hnav1']).
  replace (shdr h3 + sizeof_shdr * 3) with (sec_ptr h3 3) by (unfold sec_ptr, sizeof_shdr; simpl; lia).
  destruct (fill_banner_section_ok m2 h3 ba Hnav2) as (m3 & -> & F3); [done..|].
  set (h4 := set_strtable_idx h3 37) in *.
  assert (elf_nav m3 h4) as Hnav3 by (eapply filled_nav; [exact F3|done|lia|lia|exact Hnav2]).
  change (phdr h4) with (phdr h). rewrite Hph. change (seg_ptr h 0) with (seg_ptr h4 0).
  pose proof Hnav3 as [Hlo3 Hhi3 _ _ _ _].
  destruct (fill_banner_program_ok m3 h4 ba bp Hlo3 Hhi3) as (m4 & -> & Hseg & Hm4); [done..|].
  pose proof Hm4 as (El & Eh & _).
  rewrite store16_ok by (unfold off_e_phnum; rewrite <- ?El, <- ?Eh; simpl in *; lia).
  rewrite store16_ok by (unfold off_e_shnum; rewrite ?m_lo_st, ?m_hi_st, <- ?El, <- ?Eh; simpl in *; lia).
  set (m5 := st _ _ 2 4).
  assert (forall x, ehdr h + 64 <= x -> x < seg_ptr h 0 \/ seg_ptr h 1 <= x -> byte m5 x = byte m3 x) as H5.
  { intros x H1 H2. unfold m5, off_e_phnum, off_e_shnum. rewrite !byte_st_ne by (simpl; lia).
    apply (byte_mod_only _ _ _ _ _ Hm4). exact H2. }
  eexists m5, h4. split; [reflexivity|].
  assert (ehdr h4 = ehdr h /\ m_lo m5 = m_lo m /\ m_hi m5 = m_hi m) as (E1 & E2 & E3).
  { split; [done|]. unfold m5. rewrite !m_lo_st, !m_hi_st, <- El, <- Eh.
    rewrite (fi_lo _ _ _ _ _ _ _ F3), (fi_hi _ _ _ _ _ _ _ F3), (fi_lo _ _ _ _ _ _ _ F2),
      (fi_hi _ _ _ _ _ _ _ F2), (fi_lo _ _ _ _ _ _ _ F1), (fi_hi _ _ _ _ _ _ _ F1). done. }
  split; [|done].
  assert (forall x, ehdr h + 64 <= x < ehdr h + 27400 -> x < sec_ptr h 1 \/ sec_ptr h 4 <= x ->
    x < seg_ptr h 0 \/ seg_ptr h 1 <= x -> x <= strtab h \/ strtab h + 37 <= x -> byte m5 x = 0) as Hz5.
  { intros x Hx1 Hx2 Hx3 Hx4. rewrite H5 by (elf_layout; simpl in *; lia).
    rewrite (fi_frame _ _ _ _ _ _ _ F3), (fi_frame _ _ _ _ _ _ _ F2), (fi_frame _ _ _ _ _ _ _ F1);
      elf_layout; simpl ehdr;
      change (slen "STR_TBL") with 7; change (slen "minidump_table") with 14;
      change (slen "linux_banner") with 12; try lia. apply Hz. lia. }
  apply elf_regions_nil; try done.
  - apply (nav_bytes m3 m5 h4 h4); [done|unfold m5; rewrite !m_lo_st; by symmetry| | |done].
    + unfold m5. rewrite !m_hi_st. by symmetry.
    + intros x Hx. destruct (decide (ehdr h + 64 <= x)); [apply H5; elf_layout; simpl in *; lia|].
      unfold m5, off_e_phnum, off_e_shnum. simpl ehdr in *. rewrite !byte_st_ne by (elf_layout; simpl in *; lia).
      apply (byte_mod_only _ _ _ _ _ Hm4). elf_layout. simpl. lia.
  - unfold m5, off_e_phnum, off_e_shnum. by mem_simpl.
  - unfold m5, off_e_phnum, off_e_shnum. by mem_simpl.
  - intros x Hx. apply Hz5; elf_layout; simpl in *; lia.
  - apply (sec_at_bytes m3); [intros; apply H5; elf_layout; simpl in *; lia|].
    eapply (filled_kept _ _ _ _ _ _ _ 1 _ F3); [lia|lia|lia|elf_layout; lia|lia|].
    eapply (filled_kept _ _ _ _ _ _ _ 1 _ F2); [lia|lia|lia|elf_layout; lia|lia|].
    exact (fi_sec _ _ _ _ _ _ _ F1).
  - apply (sec_at_bytes m3); [intros; apply H5; elf_layout; simpl in *; lia|].
    eapply (filled_kept _ _ _ _ _ _ _ 2 _ F3); [lia|lia|lia|elf_layout; lia|lia|].
    exact (fi_sec _ _ _ _ _ _ _ F2).
  - apply (sec_at_bytes m3); [intros; apply H5; elf_layout; simpl in *; lia|].
    exact (fi_sec _ _ _ _ _ _ _ F3).
  - apply (seg_at_bytes m4); [|exact Hseg]. intros x Hx. unfold m5, off_e_phnum, off_e_shnum.
    elf_layout. by rewrite !byte_st_ne by (simpl in *; lia).
  - apply (cstr_at_bytes m3); [intros x Hx; change (slen "STR_TBL") with 7 in Hx; apply H5; elf_layout; simpl in *; lia|].
    eapply (filled_str _ _ _ _ _ _ _ 1 _ F3); [lia|vm_compute; discriminate|lia|lia|].
    eapply (filled_str _ _ _ _ _ _ _ 1 _ F2); [lia|vm_compute; discriminate|lia|lia|].
    exact (fi_name _ _ _ _ _ _ _ F1).
  - apply (cstr_at_bytes m3); [intros x Hx; change (slen "minidump_table") with 14 in Hx; apply H5; elf_layout; simpl in *; lia|].
    eapply (filled_str _ _ _ _ _ _ _ 9 _ F3); [lia|vm_compute; discriminate|lia|lia|].
    exact (fi_name _ _ _ _ _ _ _ F2).
  - apply (cstr_at_bytes m3); [intros x Hx; change (slen "linux_banner") with 12 in Hx; apply H5; elf_layout; simpl in *; lia|].
    exact (fi_name _ _ _ _ _ _ _ F3).
Qed.

Lemma fill_header_ok m table ba bp :
  m_lo m + 27888 <= m_hi m -> (forall x, m_lo m <= x < m_lo m + 27888 -> byte m x = 0) ->
  0 <= table < 18446744073709551616 -> 0 <= ba < 18446744073709551616 ->
  0 <= bp < 18446744073709551616 ->
  exists m' h', fill_header m table ba bp = Some (m', h') /\
    elf_regions (ElfParams table ba bp) m' h' [] /\
    ehdr h' = m_lo m /\ m_lo m' = m_lo m /\ m_hi m' = m_hi m.
Proof.
  intros Hhi Hz Ht Hba Hbp. unfold fill_header.
  set (h := MdElfhdr _ _ _ _ _).
  destruct (fill_ehdr_ok m h) as (m1 & Hf & Hoff & Hm); [simpl; lia..|].
  change (ehdr h) with (m_lo m) in Hf. rewrite Hf. pose proof Hm as (El & Eh & _). simpl in Hm.
  destruct (fill_sections_ok m1 h table ba bp Hoff) as (m' & h' & -> & Hel & He & Hl & Hh); try done.
  - unfold h. elf_layout. simpl. lia.
  - intros x Hx. simpl in Hx. rewrite (byte_mod_only _ _ _ _ _ Hm) by lia. apply Hz. lia.
  - exists m', h'. split_and!; [done|exact Hel|exact He|congruence|congruence].
Qed.
