(* ===== verification/MdElfUpdate.v ===== *)
(** * Updating a region in the ELF header

    [md_update_elf_header] replaces the addresses of one region. *)

From S2P Require Import Prelude CMem CStr CText MdApi MdElf MdElfRep MdElfClear MdElfRegions.

#[local] Open Scope list_scope.
#[local] Open Scope Z_scope.

(** Region [r] moved to the addresses of [e]. *)
Definition moved (r e : md_region) : md_region :=
  MdRegion (md_name r) (md_id r) (virt_addr e) (phys_addr e) (md_size r).

Lemma moved_ok r e :
  entry_ok r -> 0 < virt_addr e < 18446744073709551616 -> 0 <= phys_addr e < 18446744073709551616 ->
  entry_ok (moved r e).
Proof. intros [] ? ?. by split. Qed.

Definition move_sec (e : md_region) (s : sec) : sec :=
  Sec (s_name s) (s_type s) (s_flags s) (virt_addr e) (s_off s) (s_len s) (s_ent s).

Definition move_seg (e : md_region) (g : seg) : seg :=
  Seg (g_type g) (g_flags g) (g_off g) (virt_addr e) (phys_addr e) (g_filesz g) (g_memsz g).

(** ** The lists *)

Lemma region_secs_move idx off rs k r e :
  rs !! k = Some r ->
  region_secs idx off (<[k := moved r e]> rs) = alter (move_sec e) k (region_secs idx off rs).
Proof.
  revert idx off k. induction rs as [|x rs IH]; intros idx off [|k] Hk; simplify_eq/=; [done|].
  f_equal. by apply IH.
Qed.

Lemma region_segs_move off rs k r e :
  rs !! k = Some r ->
  region_segs off (<[k := moved r e]> rs) = alter (move_seg e) k (region_segs off rs).
Proof.
  revert off k. induction rs as [|x rs IH]; intros off [|k] Hk; simplify_eq/=; [done|].
  f_equal. by apply IH.
Qed.

Lemma map_insert_same {A B} (f : A -> B) (l : list A) k x y :
  l !! k = Some x -> f y = f x -> map f (<[k := y]> l) = map f l.
Proof.
  revert k. induction l as [|z l IH]; intros [|k] Hk Hf; simplify_eq/=; [by f_equal|].
  f_equal. by apply IH.
Qed.

(** ** The header *)

Lemma elf_rep_move m h names secs segs k e s g :
  elf_rep m h names secs segs -> secs !! (4 + k)%nat = Some s -> segs !! (1 + k)%nat = Some g ->
  0 <= virt_addr e < 18446744073709551616 -> 0 <= phys_addr e < 18446744073709551616 ->
  exists m', md_update_elf_header m h (Z.of_nat k) e = Some m' /\
    elf_rep m' h names (alter (move_sec e) (4 + k)%nat secs) (alter (move_seg e) (1 + k)%nat segs) /\
    m_lo m' = m_lo m /\ m_hi m' = m_hi m.
Proof.
  intros [Hnav Hph Hsh Hsecs Hsegs Hnul Hnames Hidx Hns Hng Hroom] Hs Hg Hv Hp.
  pose proof (lookup_lt_Some _ _ _ Hs). pose proof (lookup_lt_Some _ _ _ Hg).
  pose proof Hnav as [Hlo Hhi _ _ _ _]. unfold md_update_elf_header.
  rewrite elf_section_nav, elf_program_nav by done. elf_layout.
  do 3 (rewrite store64_ok by (autorewrite with mem_bounds; lia); cbv beta match).
  eexists. split; [reflexivity|]. split; [|done]. set (m' := st _ _ 8 _).
  assert (forall x, x < ehdr h + 64 + 64 * (Z.of_nat k + 4) + 16 \/ ehdr h + 64 + 64 * (Z.of_nat k + 4) + 24 <= x ->
    x < ehdr h + 12928 + 56 * (Z.of_nat k + 1) + 16 \/ ehdr h + 12928 + 56 * (Z.of_nat k + 1) + 32 <= x ->
    byte m' x = byte m x) as Hb.
  { intros x H1 H2. unfold m'. by rewrite !byte_st_ne by lia. }
  split; elf_layout; rewrite ?length_alter; try done.
  - apply (nav_bytes m m' h h); [done..| |done]. intros x Hx. elf_layout. apply Hb; lia.
  - rewrite <- Hph. apply ld_ext. intros; apply Hb; lia.
  - rewrite <- Hsh. apply ld_ext. intros; apply Hb; lia.
  - intros i t Ht. destruct (decide (i = 4 + k)%nat) as [->|Hne].
    + rewrite list_lookup_alter_eq, Hs in Ht. injection Ht as <-. destruct (Hsecs _ _ Hs).
      unfold m', move_sec. split; elf_layout;
        cbn [s_name s_type s_flags s_addr s_off s_len s_ent]; mem_simpl; done.
    + rewrite list_lookup_alter_ne in Ht by lia. pose proof (lookup_lt_Some _ _ _ Ht).
      eapply sec_at_bytes; [|by apply Hsecs]. intros x Hx. elf_layout. apply Hb; lia.
  - intros i t Ht. destruct (decide (i = 1 + k)%nat) as [->|Hne].
    + rewrite list_lookup_alter_eq, Hg in Ht. injection Ht as <-. destruct (Hsegs _ _ Hg).
      unfold m', move_seg. split; elf_layout;
        cbn [g_type g_flags g_off g_vaddr g_paddr g_filesz g_memsz]; mem_simpl; done.
    + rewrite list_lookup_alter_ne in Ht by lia. pose proof (lookup_lt_Some _ _ _ Ht).
      eapply seg_at_bytes; [|by apply Hsegs]. intros x Hx. elf_layout. apply Hb; lia.
  - rewrite <- Hnul. apply ld_ext. intros; apply Hb; lia.
  - pose proof (names_len_nonneg names). eapply strs_at_bytes; [|exact Hnames].
    intros x Hx. apply Hb; lia.
Qed.

Lemma elf_regions_update ep m h rs k r e :
  elf_regions ep m h rs -> rs !! k = Some r ->
  0 < virt_addr e < 18446744073709551616 -> 0 <= phys_addr e < 18446744073709551616 ->
  exists m', md_update_elf_header m h (Z.of_nat k) e = Some m' /\
    elf_regions ep m' h (<[k := moved r e]> rs) /\ m_lo m' = m_lo m /\ m_hi m' = m_hi m.
Proof.
  intros [Hrep Hoff Hok Hroom Hep] Hk Hv Hp.
  destruct (elf_rep_move m h _ _ _ k e _ _ Hrep
    (region_secs_lookup 37 27888 rs k r Hk) (region_segs_lookup 27888 rs k r Hk))
    as (m' & Hu & Hrep' & Hl & Hh); [lia..|].
  assert (sizes (<[k := moved r e]> rs) = sizes rs) as Hsz.
  { unfold sizes. by rewrite (map_insert_same _ _ _ r) by done. }
  exists m'. split; [exact Hu|]. split; [|done]. split; rewrite ?Hsz; try done.
  - unfold region_names in *. rewrite (map_insert_same _ _ _ r) by done.
    rewrite region_secs_move, region_segs_move by done. exact Hrep'.
  - apply Forall_insert; [done|]. apply moved_ok; [|done..]. exact (Forall_lookup_1 _ _ _ _ Hok Hk).
Qed.
