(* ===== verification/MdElfRequests.v ===== *)
(** * The ELF header under any request

    Through the resource manager a request is carried out after other
    requests, so its descriptor may be out of date.  What
    [msm_minidump_clear_headers] and [md_update_elf_header] do then. *)

From S2P Require Import Prelude CMem CStr CText MdApi MdElf MdElfRep MdElfClear MdElfRegions.

#[local] Open Scope list_scope.
#[local] Open Scope Z_scope.

(** ** Searching *)

Lemma find_idx_before {A} (f : A -> bool) l j y :
  (j < find_idx f l)%nat -> l !! j = Some y -> f y = false.
Proof.
  revert j. induction l as [|x l IH]; intros [|j] Hj Hy; simplify_eq/=.
  - destruct (f y); [lia|done].
  - destruct (f x); [lia|]. apply (IH j); [lia|done].
Qed.

Lemma find_idx_found {A} (f : A -> bool) l :
  find_idx f l = length l \/ exists x, l !! find_idx f l = Some x /\ f x = true.
Proof.
  induction l as [|x l IH]; simpl; [by left|]. destruct (f x) eqn:Hx; [right; eauto|].
  destruct IH as [->|IH]; [by left|by right].
Qed.

(** With regions of at least one byte, different regions have different file
    offsets. *)
Lemma sizes_take_inj rs i j :
  Forall (fun r => 0 < md_size r) rs -> (i < length rs)%nat -> (j < length rs)%nat ->
  sizes (take i rs) = sizes (take j rs) -> i = j.
Proof.
  intros Hpos. revert i j. induction Hpos as [|r rs Hr Hpos IH]; intros i j Hi Hj Heq; [simpl in Hi; lia|].
  assert (forall l, Forall (fun r => 0 < md_size r) l -> 0 <= sizes l) as Hnn.
  { unfold sizes. induction 1 as [|x l Hx _ IHl]; simpl; lia. }
  unfold sizes in *. destruct i as [|i], j as [|j]; simpl in *; [done| | |].
  - pose proof (Hnn (take j rs) ltac:(by apply Forall_take)). lia.
  - pose proof (Hnn (take i rs) ltac:(by apply Forall_take)). lia.
  - f_equal. apply IH; lia.
Qed.

Section Clear.
Context (ep : elf_params) (m : mem) (h : md_elfhdr) (rs : list md_region) (e : md_region).
Context (Hel : elf_regions ep m h rs) (Hnul : no_nul (md_name e) = true).
Context (Hpos : Forall (fun r => 0 < md_size r) rs) (Hfixed : md_name e ∉ fixed_names).

Local Abbreviation secs := (fixed_secs ep ++ region_secs 37 27888 rs).
Local Abbreviation segs := (fixed_segs ep ++ region_segs 27888 rs).

(** A section that matches by name is that of a region, or the empty one. *)
Lemma matching_section i n s :
  zip (""%string :: region_names rs) secs !! i = Some (n, s) -> sec_match e (n, s) = true ->
  i = O \/ exists k r, i = S (3 + k) /\ rs !! k = Some r /\ md_name r = md_name e /\
    virt_addr r = virt_addr e /\ md_size r = md_size e /\ s_off s = 27888 + sizes (take k rs).
Proof.
  intros [Hn Hs]%lookup_zip_Some Hm. unfold sec_match in Hm. simpl in Hm.
  apply andb_true_iff in Hm as [Hne%bool_decide_eq_true Hm]. bool_to_Prop.
  destruct i as [|i]; [by left|]. right. simpl in Hn. unfold region_names in Hn.
  destruct (decide (i < 3)%nat) as [Hi|Hi].
  - exfalso. apply Hfixed. rewrite lookup_app_l in Hn by (simpl; lia).
    apply list_elem_of_lookup. exists i. by rewrite <- Hne.
  - rewrite lookup_app_r in Hn by (simpl; lia). simpl length in Hn.
    exists (i - 3)%nat. rewrite lookup_app_r in Hs by (simpl; lia). simpl length in Hs.
    replace (S i - 4)%nat with (i - 3)%nat in Hs by lia.
    apply list_lookup_fmap_Some in Hn as (r & Hn & Hr).
    rewrite (region_secs_lookup _ _ _ _ _ Hr) in Hs. injection Hs as <-.
    unfold entry_sec in *. cbn [s_addr s_len s_off] in *.
    exists r. split_and!; try done; [lia|congruence].
Qed.

Lemma matching_segment j g :
  segs !! j = Some g -> seg_match e g = true ->
  (j = O /\ g_off g = 27400) \/ exists k r, j = S k /\ rs !! k = Some r /\
    phys_addr r = phys_addr e /\ md_size r = md_size e /\ g_off g = 27888 + sizes (take k rs).
Proof.
  intros Hg Hm. destruct j as [|k]; [left; simpl in Hg; by simplify_eq|]. right. simpl in Hg.
  destruct (lookup_lt_is_Some_2 rs k) as [r Hr].
  { apply lookup_lt_Some in Hg. by rewrite region_segs_length in Hg. }
  rewrite (region_segs_lookup _ _ _ _ Hr) in Hg. injection Hg as <-.
  unfold seg_match, entry_seg in *. cbn [g_paddr g_memsz g_off] in *. bool_to_Prop.
  exists k, r. by split_and!.
Qed.

Lemma sizes_take_nonneg k : 0 <= sizes (take k rs).
Proof. apply sizes_nonneg, Forall_take, Hel. Qed.

(** Any descriptor: the region it describes is removed, or there is no such
    region and nothing changes. *)
Lemma elf_regions_clear_total :
  NoDup (region_names rs) ->
  (exists k r m' h', rs !! k = Some r /\ same_region e r /\
     msm_minidump_clear_headers m h e = Some (0, m', h') /\ elf_regions ep m' h' (delete k rs) /\
     ehdr h' = ehdr h /\ m_lo m' = m_lo m /\ m_hi m' = m_hi m) \/
  msm_minidump_clear_headers m h e = Some (- EINVAL, m, h).
Proof.
  intros Hnd. pose proof (elf_regions_named ep rs (el_ok _ _ _ _ Hel)) as Hnamed.
  set (j := find_idx (seg_match e) segs).
  set (i := find_idx (sec_match e) (zip (""%string :: region_names rs) secs)).
  assert (forall P : Prop, (j = length segs \/ i = length secs \/
    exists g s, segs !! j = Some g /\ secs !! i = Some s /\ s_off s <> g_off g) ->
    P \/ msm_minidump_clear_headers m h e = Some (- EINVAL, m, h)) as Herr.
  { intros P Hcase. right.
    by eapply (clear_headers_error m h _ _ _ e (el_rep _ _ _ _ Hel) Hnamed Hnul j i). }
  destruct (find_idx_found (seg_match e) segs) as [Hj|(g & Hg & Hgm)]; [apply Herr; by left|].
  destruct (find_idx_found (sec_match e) (zip (""%string :: region_names rs) secs)) as [Hi|([n s] & Hz & Hsm)].
  { apply Herr. right. left. unfold i. rewrite Hi, length_zip_with, (ns_len _ _ Hnamed). simpl. lia. }
  pose proof Hz as [_ Hs]%lookup_zip_Some. fold i in Hz, Hs. fold j in Hg.
  destruct (decide (s_off s = g_off g)) as [Hoff|Hne]; [|apply Herr; right; right; by exists g, s].
  destruct (matching_section i n s Hz Hsm) as [Hi0|(k & r & Hik & Hr & Hn & Hv & Hsz & Hso)];
    destruct (matching_segment j g Hg Hgm) as [[Hj0 Hgo]|(k' & r' & Hjk & Hr' & Hp & Hsz' & Hgo)].
  - rewrite Hi0 in Hs. simpl in Hs. injection Hs as <-. by rewrite Hgo in Hoff.
  - rewrite Hi0 in Hs. simpl in Hs. injection Hs as <-. pose proof (sizes_take_nonneg k').
    rewrite Hgo in Hoff. simpl in Hoff. lia.
  - pose proof (sizes_take_nonneg k). lia.
  - assert (k = k') as <-.
    { apply (sizes_take_inj rs); [done|by eapply lookup_lt_Some..|lia]. }
    rewrite Hr in Hr'. injection Hr' as <-. left.
    pose proof (take_drop_middle _ _ _ Hr) as Hrs.
    destruct (elf_regions_clear ep m h (take k rs) r (drop (S k) rs) e) as (m' & h' & Hc & Hel' & Hrest).
    + by rewrite Hrs.
    + by split.
    + by rewrite Hrs.
    + intros x [i' Hx]%list_elem_of_lookup Hpx Hsx.
      pose proof (lookup_lt_Some _ _ _ Hx) as Hlt. rewrite length_take in Hlt.
      rewrite lookup_take_lt in Hx by lia.
      assert (seg_match e (entry_seg (27888 + sizes (take i' rs)) x) = false) as Hfalse.
      { apply (find_idx_before _ segs (S i')); [fold j; lia|]. simpl. by apply region_segs_lookup. }
      unfold seg_match, entry_seg in Hfalse. simpl in Hfalse. lia.
    + exists k, r, m', h'. split_and!; try done; try apply Hrest. by rewrite delete_take_drop.
Qed.
End Clear.

(** ** Updating a header that does not exist yet *)

(** The header slot is free: what the image shows is not changed. *)
Lemma elf_regions_update_free ep m h rs k e :
  elf_regions ep m h rs -> (length rs <= k < 197)%nat ->
  0 <= virt_addr e < 18446744073709551616 -> 0 <= phys_addr e < 18446744073709551616 ->
  exists m', md_update_elf_header m h (Z.of_nat k) e = Some m' /\ elf_regions ep m' h rs /\
    m_lo m' = m_lo m /\ m_hi m' = m_hi m.
Proof.
  intros [Hrep Hoff Hok Hroom Hep] Hk Hv Hp.
  destruct Hrep as [Hnav Hph Hsh Hsecs Hsegs Hnul Hnames Hidx Hns Hng Hr].
  pose proof Hnav as [Hlo Hhi _ _ _ _].
  unfold md_update_elf_header. rewrite elf_section_nav, elf_program_nav by done. elf_layout.
  do 3 (rewrite store64_ok by (autorewrite with mem_bounds; lia); cbv beta match).
  eexists. split; [reflexivity|]. split; [|done]. set (m' := st _ _ 8 _).
  assert (forall x, x < ehdr h + 64 + 64 * (Z.of_nat k + 4) + 16 \/ ehdr h + 64 + 64 * (Z.of_nat k + 4) + 24 <= x ->
    x < ehdr h + 12928 + 56 * (Z.of_nat k + 1) + 16 \/ ehdr h + 12928 + 56 * (Z.of_nat k + 1) + 32 <= x ->
    byte m' x = byte m x) as Hb.
  { intros x H1 H2. unfold m'. by rewrite !byte_st_ne by lia. }
  split; try done. split; elf_layout; try done.
  - apply (nav_bytes m m' h h); [done..| |done]. intros x Hx. elf_layout. apply Hb; lia.
  - rewrite <- Hph. apply ld_ext. intros; apply Hb; lia.
  - rewrite <- Hsh. apply ld_ext. intros; apply Hb; lia.
  - intros i s Hs. pose proof (lookup_lt_Some _ _ _ Hs) as Hlt.
    rewrite length_app, region_secs_length in Hlt. simpl in Hlt.
    eapply sec_at_bytes; [|by apply Hsecs]. intros x Hx. elf_layout. apply Hb; lia.
  - intros i g Hg. pose proof (lookup_lt_Some _ _ _ Hg) as Hlt.
    rewrite length_app, region_segs_length in Hlt. simpl in Hlt.
    eapply seg_at_bytes; [|by apply Hsegs]. intros x Hx. elf_layout. apply Hb; lia.
  - rewrite <- Hnul. apply ld_ext. intros; apply Hb; lia.
  - pose proof (names_len_nonneg (region_names rs)). eapply strs_at_bytes; [|exact Hnames].
    intros x Hx. apply Hb; lia.
Qed.
