(* ===== verification/MdState.v ===== *)
(** * The state of the minidump driver (msm_minidump.c, lines 26-77;
    minidump.h; minidump_private.h)

    The file-scope variables of msm_minidump.c in one record.  The tables are
    lists of fixed length, a pointer that may be null is an option, the ELF
    header is the buffer of MdElf.v.  The tables hold names as the strings in
    their arrays. *)

From S2P Require Import Prelude CMem CStr CText MdApi MdElf.

#[local] Open Scope string_scope.
#[local] Open Scope list_scope.
#[local] Open Scope Z_scope.

(** ** Constants (minidump_private.h) *)

Definition MD_REGION_VALID : Z := 0x56414C49.
Definition MD_SS_ENCR_NOTREQ : Z := 0x00004E52.
Definition MD_SS_ENCR_DONE : Z := 0x444F4E45.
Definition MD_SS_ENABLED : Z := 0x454E424C.
Definition INT_MAX : Z := 2147483647.

(** [sizeof(struct md_global_toc)]: four words (one of padding) and ten
    subsystem tables of 32 bytes. *)
Definition sizeof_md_global_toc : Z := 16 + 10 * 32.

(** ** Data *)

Record md_ss_region := MdSsRegion {
  ss_name : string;
  seq_num : Z;
  md_valid : Z;
  region_base_address : Z;
  region_size : Z;
}.

Record md_ss_toc := MdSsToc {
  md_ss_toc_init : Z;
  md_ss_enable_status : Z;
  encryption_status : Z;
  encryption_required : Z;
  ss_region_count : Z;
  md_ss_smem_regions_baseptr : Z;
}.

(** The part of [struct md_global_toc] the driver reads and writes: the
    subsystem table is that of MD_SS_HLOS_ID. *)
Record md_global_toc := MdGlobalToc {
  md_toc_init : Z;
  md_revision : Z;
  hlos_toc : md_ss_toc;
}.

(** [t_ss_toc] is what [md_ss_toc] points to. *)
Record md_table := MdTable {
  revision : Z;
  t_ss_toc : option md_ss_toc;
  md_regions : option (list md_ss_region);
  entry : list md_region;
}.

Record md_rm_region := MdRmRegion { rm_name : string; slot_num : Z }.

Inductive minidump_entry_cmd := MINIDUMP_ADD | MINIDUMP_REMOVE | MINIDUMP_UPDATE | MINIDUMP_NO_CMD.

Record md_rm_request := MdRmRequest { rq_entry : md_region; work_cmd : minidump_entry_cmd }.

(** The table of the RM mode; the work queue is the list of its requests. *)
Record md_rm_table := MdRmTable {
  minidump_rm_wq : list md_rm_request;
  rm_entry : list md_rm_region;
}.

(** [mdt_remove_lock] counts its readers; -1 is a writer. *)
Record md_state := MdState {
  mdt_lock : bool;
  mdt_remove_lock : Z;
  minidump_table : option md_table;
  minidump_rm_table : option md_rm_table;
  elf_buf : mem;
  minidump_elfheader : md_elfhdr;
  first_removed_entry : Z;
  md_init_done : bool;
  num_regions : Z;
  is_rm_minidump : bool;
  pending_list : list md_region;
}.

Definition no_region : md_region := MdRegion "" 0 0 0 0.
Definition no_ss_region : md_ss_region := MdSsRegion "" 0 0 0 0.
Definition no_rm_region : md_rm_region := MdRmRegion "" 0.

(** The state of the module before it is probed: all null and zero. *)
Definition md_state_init : md_state :=
  MdState false 0 None None (Mem 0 0 (fun _ => 0)) (MdElfhdr 0 0 0 0 0) INT_MAX false 0 false [].

(** ** Updates *)

Definition set_toc (t : md_table) (toc : md_ss_toc) : md_table :=
  MdTable (revision t) (Some toc) (md_regions t) (entry t).

Definition set_md_regions (t : md_table) (l : list md_ss_region) : md_table :=
  MdTable (revision t) (t_ss_toc t) (Some l) (entry t).

Definition set_entry (t : md_table) (l : list md_region) : md_table :=
  MdTable (revision t) (t_ss_toc t) (md_regions t) l.

Definition set_ss_region_count (toc : md_ss_toc) (n : Z) : md_ss_toc :=
  MdSsToc (md_ss_toc_init toc) (md_ss_enable_status toc) (encryption_status toc)
    (encryption_required toc) n (md_ss_smem_regions_baseptr toc).

Definition set_md_ss_toc_init (toc : md_ss_toc) (n : Z) : md_ss_toc :=
  MdSsToc n (md_ss_enable_status toc) (encryption_status toc)
    (encryption_required toc) (ss_region_count toc) (md_ss_smem_regions_baseptr toc).

Definition set_table (s : md_state) (t : md_table) : md_state :=
  MdState (mdt_lock s) (mdt_remove_lock s) (Some t) (minidump_rm_table s) (elf_buf s)
    (minidump_elfheader s) (first_removed_entry s) (md_init_done s) (num_regions s)
    (is_rm_minidump s) (pending_list s).

Definition clear_tables (s : md_state) (rm : bool) : md_state :=
  MdState (mdt_lock s) (mdt_remove_lock s) (if rm then minidump_table s else None)
    (if rm then None else minidump_rm_table s) (elf_buf s)
    (minidump_elfheader s) (first_removed_entry s) (md_init_done s) (num_regions s)
    (is_rm_minidump s) (pending_list s).

Definition set_rm_table (s : md_state) (t : md_rm_table) : md_state :=
  MdState (mdt_lock s) (mdt_remove_lock s) (minidump_table s) (Some t) (elf_buf s)
    (minidump_elfheader s) (first_removed_entry s) (md_init_done s) (num_regions s)
    (is_rm_minidump s) (pending_list s).

Definition set_elf (s : md_state) (m : mem) (h : md_elfhdr) : md_state :=
  MdState (mdt_lock s) (mdt_remove_lock s) (minidump_table s) (minidump_rm_table s) m h
    (first_removed_entry s) (md_init_done s) (num_regions s) (is_rm_minidump s) (pending_list s).

Definition set_first_removed (s : md_state) (n : Z) : md_state :=
  MdState (mdt_lock s) (mdt_remove_lock s) (minidump_table s) (minidump_rm_table s) (elf_buf s)
    (minidump_elfheader s) n (md_init_done s) (num_regions s) (is_rm_minidump s) (pending_list s).

Definition set_init_done (s : md_state) (b : bool) : md_state :=
  MdState (mdt_lock s) (mdt_remove_lock s) (minidump_table s) (minidump_rm_table s) (elf_buf s)
    (minidump_elfheader s) (first_removed_entry s) b (num_regions s) (is_rm_minidump s)
    (pending_list s).

Definition set_num_regions (s : md_state) (n : Z) : md_state :=
  MdState (mdt_lock s) (mdt_remove_lock s) (minidump_table s) (minidump_rm_table s) (elf_buf s)
    (minidump_elfheader s) (first_removed_entry s) (md_init_done s) n (is_rm_minidump s)
    (pending_list s).

Definition set_is_rm (s : md_state) (b : bool) : md_state :=
  MdState (mdt_lock s) (mdt_remove_lock s) (minidump_table s) (minidump_rm_table s) (elf_buf s)
    (minidump_elfheader s) (first_removed_entry s) (md_init_done s) (num_regions s) b
    (pending_list s).

Definition set_pending (s : md_state) (l : list md_region) : md_state :=
  MdState (mdt_lock s) (mdt_remove_lock s) (minidump_table s) (minidump_rm_table s) (elf_buf s)
    (minidump_elfheader s) (first_removed_entry s) (md_init_done s) (num_regions s)
    (is_rm_minidump s) l.

Definition set_locks (s : md_state) (b : bool) (n : Z) : md_state :=
  MdState b n (minidump_table s) (minidump_rm_table s) (elf_buf s) (minidump_elfheader s)
    (first_removed_entry s) (md_init_done s) (num_regions s) (is_rm_minidump s) (pending_list s).

(** ** Locks

    One thread runs at a time, so a lock that is not free is a deadlock, and
    releasing a lock that is not held a fault. *)

Definition spin_lock (s : md_state) : option md_state :=
  let* _ := assert_c (negb (mdt_lock s)) in Some (set_locks s true (mdt_remove_lock s)).

Definition spin_unlock (s : md_state) : option md_state :=
  let* _ := assert_c (mdt_lock s) in Some (set_locks s false (mdt_remove_lock s)).

Definition read_lock (s : md_state) : option md_state :=
  let* _ := assert_c (0 <=? mdt_remove_lock s) in
  Some (set_locks s (mdt_lock s) (mdt_remove_lock s + 1)).

Definition read_unlock (s : md_state) : option md_state :=
  let* _ := assert_c (0 <? mdt_remove_lock s) in
  Some (set_locks s (mdt_lock s) (mdt_remove_lock s - 1)).

Definition write_lock (s : md_state) : option md_state :=
  let* _ := assert_c (mdt_remove_lock s =? 0) in Some (set_locks s (mdt_lock s) (-1)).

Definition write_unlock (s : md_state) : option md_state :=
  let* _ := assert_c (mdt_remove_lock s =? -1) in Some (set_locks s (mdt_lock s) 0).

(** ** Arrays *)

(** Remove element [i] of the first [cnt]: [memmove] the others down and clear
    the last one. *)
Definition remove_slot {A} (l : list A) (i cnt : Z) (zero : A) : option (list A) :=
  if (0 <=? i) && (i <? cnt) && (cnt <=? Z.of_nat (length l)) then
    Some (take (Z.to_nat i) l ++ take (Z.to_nat (cnt - i - 1)) (drop (S (Z.to_nat i)) l) ++
          [zero] ++ drop (Z.to_nat cnt) l)
  else None.

(** The search loops over the first [n] elements from index [i]. *)
Fixpoint name_num {A} (name_of : A -> string) (l : list A) (name : string) (n : nat) (i : Z)
  : option (option Z) :=
  match n with
  | O => Some None
  | S n' =>
      let* x := getZ l i in
      if bool_decide (name_of x = name) then Some (Some i)
      else name_num name_of l name n' (i + 1)
  end.

(** ** The ELF header of the state *)

Definition add_elf_header (s : md_state) (e : md_region) : option md_state :=
  let* (m, h) := md_add_elf_header (elf_buf s) (minidump_elfheader s) e in
  Some (set_elf s m h).

Definition update_elf_header (s : md_state) (entryno : Z) (e : md_region) : option md_state :=
  let* m := md_update_elf_header (elf_buf s) (minidump_elfheader s) entryno e in
  Some (set_elf s m (minidump_elfheader s)).

Definition clear_headers (s : md_state) (e : md_region) : option (Z * md_state) :=
  let* (ret, m, h) := msm_minidump_clear_headers (elf_buf s) (minidump_elfheader s) e in
  Some (ret, set_elf s m h).
