(* ===== verification/MdToc.v ===== *)
(** * The SMEM table of contents (msm_minidump.c, lines 145-172, 478-500,
    577-602 and 742-789)

    Adding, updating and removing a region in the driver's own table and in
    the table of regions the boot loader reads. *)

From S2P Require Import Prelude CMem CStr CText MdApi MdElf MdState.

#[local] Open Scope string_scope.
#[local] Open Scope list_scope.
#[local] Open Scope Z_scope.

(** ** Searching *)

(** The loop of [md_region_num]: the last region of that name, and the largest
    sequence number of that name. *)
Fixpoint region_num_loop (l : list md_ss_region) (name : string) (n : nat) (i ret seqno : Z)
  : option (Z * Z) :=
  match n with
  | O => Some (ret, seqno)
  | S n' =>
      let* mde := getZ l i in
      if bool_decide (ss_name mde = name) then
        region_num_loop l name n' (i + 1) i
          (if u32 seqno <? seq_num mde then s32 (seq_num mde) else seqno)
      else region_num_loop l name n' (i + 1) ret seqno
  end.

(** The result and the new value of [*seqno]. *)
Definition md_region_num (s : md_state) (name : string) (seqno : Z) : option (Z * Z) :=
  let* t := minidump_table s in
  let* toc := t_ss_toc t in
  let regno := s32 (ss_region_count toc) in
  if regno <=? 0 then Some (- EINVAL, seqno)
  else
    let* regions := md_regions t in
    region_num_loop regions name (Z.to_nat regno) 0 (- EINVAL) seqno.

Definition md_entry_num (s : md_state) (e : md_region) : option Z :=
  let regno := s32 (num_regions s) in
  if regno <=? 0 then Some (- ENOENT)
  else
    let* t := minidump_table s in
    let* r := name_num md_name (entry t) (md_name e) (Z.to_nat regno) 0 in
    match r with
    | None => Some (- ENOENT)
    | Some i => Some i
    end.

(** ** Adding *)

Definition md_add_ss_toc (s : md_state) (e : md_region) : option md_state :=
  let* t := minidump_table s in
  let* toc := t_ss_toc t in
  let reg_cnt := s32 (ss_region_count toc) in
  let* entries := setZ (entry t) (num_regions s)
    (MdRegion (strscpy (md_name e) (MAX_NAME_LENGTH + 1)).1 (md_id e) (virt_addr e) (phys_addr e)
       (md_size e)) in
  let s := set_table s (set_entry t entries) in
  let* regions := md_regions t in
  let* ss_mdr := getZ regions reg_cnt in
  let ss_mdr := MdSsRegion (strscpy (md_name e) MAX_REGION_NAME_LENGTH).1 (seq_num ss_mdr)
    (md_valid ss_mdr) (phys_addr e) (md_size e) in
  let* regions := setZ regions reg_cnt ss_mdr in
  let s := set_table s (set_md_regions (set_entry t entries) regions) in
  let* (num, seq) := md_region_num s (md_name e) 0 in
  let ss_mdr := MdSsRegion (ss_name ss_mdr)
    (if 0 <=? num then u32 (seq + 1) else seq_num ss_mdr)
    MD_REGION_VALID (region_base_address ss_mdr) (region_size ss_mdr) in
  let* regions := setZ regions reg_cnt ss_mdr in
  let toc := set_ss_region_count toc (u32 (ss_region_count toc + 1)) in
  Some (set_table s (set_toc (set_md_regions (set_entry t entries) regions) toc)).

(** ** Updating *)

Definition md_update_ss_toc (s : md_state) (regno : Z) (e : md_region) : option (Z * md_state) :=
  if first_removed_entry s <=? regno then Some (- EINVAL, s)
  else
    let* ret := md_entry_num s e in
    if ret <? 0 then Some (ret, s)
    else
      let* t := minidump_table s in
      let* mdr := getZ (entry t) regno in
      let* entries := setZ (entry t) regno
        (MdRegion (md_name mdr) (md_id mdr) (virt_addr e) (phys_addr e) (md_size mdr)) in
      let* regions := md_regions t in
      let* mdssr := getZ regions (regno + 1) in
      let* regions := setZ regions (regno + 1)
        (MdSsRegion (ss_name mdssr) (seq_num mdssr) (md_valid mdssr) (phys_addr e)
           (region_size mdssr)) in
      Some (0, set_table s (set_md_regions (set_entry t entries) regions)).

(** ** Removing *)

Definition md_ss_enabled (t : md_table) : bool :=
  match t_ss_toc t with
  | None => false
  | Some toc => md_ss_enable_status toc =? MD_SS_ENABLED
  end.

Definition md_remove_ss_toc (s : md_state) (e : md_region) : option (Z * md_state) :=
  let* t := minidump_table s in
  if negb (md_ss_enabled t) then Some (- EINVAL, s)
  else
    let* entryno := md_entry_num s e in
    if entryno <? 0 then Some (entryno, s)
    else
      let ecount := s32 (num_regions s) in
      let* (rgno, _) := md_region_num s (md_name e) 0 in
      if rgno <? 0 then Some (- EINVAL, s)
      else
        let* toc := t_ss_toc t in
        let rcount := s32 (ss_region_count toc) in
        let s := set_first_removed s (Z.min (first_removed_entry s) entryno) in
        let toc := set_md_ss_toc_init toc 0 in
        let* entries := remove_slot (entry t) entryno ecount no_region in
        let* regions := md_regions t in
        let* regions := remove_slot regions rgno rcount no_ss_region in
        let t := set_toc (set_md_regions (set_entry t entries) regions) toc in
        let* (ret, s) := clear_headers (set_table s t) e in
        if negb (ret =? 0) then Some (ret, s)
        else
          let toc := set_md_ss_toc_init (set_ss_region_count toc (u32 (ss_region_count toc - 1))) 1 in
          Some (0, set_num_regions (set_table s (set_toc t toc)) (u32 (num_regions s - 1))).
