(* ===== verification/MdRm.v ===== *)
(** * Minidump through the resource manager (msm_minidump.c, lines 174-185,
    301-475, 502-520, 604-624 and 720-740)

    The API functions queue a request; the work function takes the lock, drops
    it around the calls to the resource manager and takes it again.  A request
    is therefore two steps: [work_begin] up to the unlock, [work_end] with the
    answers of the resource manager.  [rm_begun] is what a begun request
    remembers in between. *)

From S2P Require Import Prelude CMem CStr CText MdApi MdElf MdState.

#[local] Open Scope string_scope.
#[local] Open Scope list_scope.
#[local] Open Scope Z_scope.

Definition md_rm_entry_num (s : md_state) (e : md_region) : option Z :=
  let regno := s32 (num_regions s) in
  if regno <=? 0 then Some (- ENOENT)
  else
    let* t := minidump_rm_table s in
    let* r := name_num rm_name (rm_entry t) (md_name e) (Z.to_nat regno) 0 in
    match r with
    | None => Some (- ENOENT)
    | Some i => Some i
    end.

(** ** Queueing requests

    [alloc] says whether [kzalloc] of the request succeeds. *)

Definition queue_work (t : md_rm_table) (cmd : minidump_entry_cmd) (e : md_region) : md_rm_table :=
  MdRmTable (minidump_rm_wq t ++ [MdRmRequest e cmd]) (rm_entry t).

Definition md_rm_add_region (alloc : bool) (s : md_state) (e : md_region) : option (Z * md_state) :=
  if negb alloc then Some (- ENOMEM, s)
  else
    let* t := minidump_rm_table s in
    let* entries := setZ (rm_entry t) (num_regions s)
      (MdRmRegion (strscpy (md_name e) (MAX_NAME_LENGTH + 1)).1 0) in
    Some (0, set_rm_table s (queue_work (MdRmTable (minidump_rm_wq t) entries) MINIDUMP_ADD e)).

Definition md_rm_queue (cmd : minidump_entry_cmd) (alloc : bool) (s : md_state) (e : md_region)
  : option (Z * md_state) :=
  let* entryno := md_rm_entry_num s e in
  if entryno <? 0 then Some (entryno, s)
  else if negb alloc then Some (- ENOMEM, s)
  else
    let* t := minidump_rm_table s in
    Some (0, set_rm_table s (queue_work t cmd e)).

Definition md_rm_update (alloc : bool) (s : md_state) (e : md_region) : option (Z * md_state) :=
  md_rm_queue MINIDUMP_UPDATE alloc s e.

Definition md_rm_remove_region (alloc : bool) (s : md_state) (e : md_region)
  : option (Z * md_state) :=
  md_rm_queue MINIDUMP_REMOVE alloc s e.

(** ** The work functions *)

(** What the work function holds while the lock is free. *)
Inductive rm_begun :=
| Adding (e : md_region) (entry_num : Z)
| Removing (e : md_region) (entryno slot : Z)
| Updating (e : md_region) (entryno slot : Z).

(** Answers of the resource manager: to [gh_rm_minidump_register_range] and to
    [gh_rm_minidump_deregister_slot]. *)
Record rm_answer := RmAnswer { ra_register : Z; ra_deregister : Z }.

Definition set_slot (t : md_rm_table) (i slot : Z) : option md_rm_table :=
  let* mdr := getZ (rm_entry t) i in
  let* entries := setZ (rm_entry t) i (MdRmRegion (rm_name mdr) slot) in
  Some (MdRmTable (minidump_rm_wq t) entries).

(** Up to the calls of the resource manager; [None] in the result is a work
    function that returned. *)
Definition md_rm_add_begin (s : md_state) (e : md_region) : option (option rm_begun * md_state) :=
  let* s := spin_lock s in
  let* entry_num := md_rm_entry_num s e in
  let* s := spin_unlock s in
  if entry_num <? 0 then Some (None, s) else Some (Some (Adding e entry_num), s).

Definition md_rm_remove_begin (s : md_state) (e : md_region)
  : option (option rm_begun * md_state) :=
  let* s := spin_lock s in
  let* entryno := md_rm_entry_num s e in
  if entryno <? 0 then let* s := spin_unlock s in Some (None, s)
  else
    let* t := minidump_rm_table s in
    let* mdr := getZ (rm_entry t) entryno in
    if slot_num mdr =? 0 then let* s := spin_unlock s in Some (None, s)
    else
      let* t := set_slot t entryno 0 in
      let* s := spin_unlock (set_rm_table s t) in
      Some (Some (Removing e entryno (s32 (slot_num mdr))), s).

Definition md_rm_update_begin (s : md_state) (e : md_region)
  : option (option rm_begun * md_state) :=
  let* s := spin_lock s in
  let* entryno := md_rm_entry_num s e in
  if entryno <? 0 then let* s := spin_unlock s in Some (None, s)
  else
    let* t := minidump_rm_table s in
    let* mdr := getZ (rm_entry t) entryno in
    let* t := set_slot t entryno 0 in
    let* s := spin_unlock (set_rm_table s t) in
    Some (Some (Updating e entryno (s32 (slot_num mdr))), s).

(** [minidump_rm_work] takes the first request of the queue. *)
Definition work_begin (s : md_state) : option (option rm_begun * md_state) :=
  let* t := minidump_rm_table s in
  match minidump_rm_wq t with
  | [] => Some (None, s)
  | rq :: q =>
      let s := set_rm_table s (MdRmTable q (rm_entry t)) in
      match work_cmd rq with
      | MINIDUMP_ADD => md_rm_add_begin s (rq_entry rq)
      | MINIDUMP_REMOVE => md_rm_remove_begin s (rq_entry rq)
      | MINIDUMP_UPDATE => md_rm_update_begin s (rq_entry rq)
      | MINIDUMP_NO_CMD => Some (None, s)
      end
  end.

(** Remove entry [i] of the table. *)
Definition remove_rm_entry (s : md_state) (i : Z) : option md_state :=
  let* t := minidump_rm_table s in
  let* entries := remove_slot (rm_entry t) i (num_regions s) no_rm_region in
  Some (set_num_regions (set_rm_table s (MdRmTable (minidump_rm_wq t) entries))
          (u32 (num_regions s - 1))).

Definition md_rm_add_end (s : md_state) (e : md_region) (entry_num : Z) (a : rm_answer)
  : option md_state :=
  let slot_num := ra_register a in
  let* s := spin_lock s in
  if slot_num <? 0 then
    let* s := remove_rm_entry s entry_num in
    spin_unlock s
  else
    let* t := minidump_rm_table s in
    let* mdr := getZ (rm_entry t) entry_num in
    let* s :=
      if negb (bool_decide (md_name e = rm_name mdr)) then spin_unlock s
      else let* t := set_slot t entry_num slot_num in Some (set_rm_table s t) in
    let* s := add_elf_header s e in
    spin_unlock s.

Definition md_rm_remove_end (s : md_state) (e : md_region) (entryno : Z) (a : rm_answer)
  : option md_state :=
  if ra_deregister a <? 0 then Some s
  else
    let* s := spin_lock s in
    let* t := minidump_rm_table s in
    let* mdr := getZ (rm_entry t) entryno in
    if negb (bool_decide (md_name e = rm_name mdr)) then spin_unlock s
    else
      let* (ret, s) := clear_headers s e in
      if negb (ret =? 0) then spin_unlock s
      else
        let* s := remove_rm_entry s entryno in
        spin_unlock s.

Definition md_rm_update_end (s : md_state) (e : md_region) (entryno : Z) (a : rm_answer)
  : option md_state :=
  if ra_deregister a <? 0 then Some s
  else if ra_register a <? 0 then Some s
  else
    let* s := spin_lock s in
    let* t := minidump_rm_table s in
    let* mdr := getZ (rm_entry t) entryno in
    if negb (bool_decide (md_name e = rm_name mdr)) then spin_unlock s
    else
      let* t := set_slot t entryno (ra_register a) in
      let* s := update_elf_header (set_rm_table s t) entryno e in
      spin_unlock s.

Definition work_end (s : md_state) (w : rm_begun) (a : rm_answer) : option md_state :=
  match w with
  | Adding e entry_num => md_rm_add_end s e entry_num a
  | Removing e entryno _ => md_rm_remove_end s e entryno a
  | Updating e entryno _ => md_rm_update_end s e entryno a
  end.
