(* ===== verification/MdDriver.v ===== *)
(** * The minidump API and probe (msm_minidump.c, lines 105-143, 522-560,
    626-717, 791-861 and 953-1074)

    The functions other drivers call, over the SMEM table (MdToc.v) or the
    resource manager (MdRm.v).  [msm_minidump_log_init] is an argument of the
    probe. *)

From S2P Require Import Prelude CMem CStr CText MdApi MdElf MdState MdToc MdRm.

#[local] Open Scope string_scope.
#[local] Open Scope list_scope.
#[local] Open Scope Z_scope.

(** ** Queries *)

(** [enabled] is [minidump_table && md_ss_toc && status == ENABLED]. *)
Definition toc_enabled (s : md_state) : bool :=
  match minidump_table s with None => false | Some t => md_ss_enabled t end.

Definition msm_minidump_enabled (s : md_state) : option (bool * md_state) :=
  if is_rm_minidump s then Some (md_init_done s, s)
  else
    let* s := spin_lock s in
    let ret := toc_enabled s in
    let* s := spin_unlock s in
    Some (ret, s).

(** [info] is the answer of [gh_rm_minidump_get_info]. *)
Definition msm_minidump_get_available_region (info : Z) (s : md_state) : option (Z * md_state) :=
  if is_rm_minidump s then Some (info, s)
  else
    let* s := spin_lock s in
    let res := s32 (MAX_NUM_ENTRIES - num_regions s) in
    let* s := spin_unlock s in
    Some (res, s).

Definition md_get_region (s : md_state) (name : string) : option md_region :=
  let regno := Z.to_nat (s32 (num_regions s)) in
  if is_rm_minidump s then
    match minidump_rm_table s with
    | None => Some no_region
    | Some t =>
        let* i := name_num rm_name (rm_entry t) name regno 0 in
        match i with
        | None => Some no_region
        | Some i =>
            let m := elf_buf s in
            let* phdr := elf_program m (ehdr (minidump_elfheader s)) (i + 1) in
            let* phys := load64 m (phdr + off_p_vaddr) in
            let* virt := load64 m (phdr + off_p_paddr) in
            let* sz := load64 m (phdr + off_p_filesz) in
            Some (MdRegion (strscpy name (MAX_NAME_LENGTH + 1)).1 0 virt phys sz)
        end
    end
  else
    match minidump_table s with
    | None => Some no_region
    | Some t =>
        let* i := name_num md_name (entry t) name regno 0 in
        match i with
        | None => Some no_region
        | Some i => getZ (entry t) i
        end
    end.

(** ** Changing regions

    [None] is a null entry. *)

Definition msm_minidump_update_region (alloc : bool) (regno : Z) (e : option md_region)
  (s : md_state) : option (Z * md_state) :=
  if negb (md_init_done s) then Some (- EINVAL, s)
  else if negb (validate_region e =? 0) || (MAX_NUM_ENTRIES <=? regno) then Some (- EINVAL, s)
  else
    let* e := e in
    let* s := read_lock s in
    let* (ret, s) :=
      if is_rm_minidump s then md_rm_update alloc s e
      else
        let* (ret, s) := md_update_ss_toc s regno e in
        let* s := update_elf_header s regno e in
        Some (ret, s) in
    let* s := read_unlock s in
    Some (ret, s).

(** The part under the lock. *)
Definition add_region_locked (alloc : bool) (e : md_region) (s : md_state)
  : option (Z * md_state) :=
  if MAX_NUM_ENTRIES <=? num_regions s then Some (- ENOMEM, s)
  else
    let toc_init := negb (is_rm_minidump s) && toc_enabled s in
    let* full :=
      if toc_init then
        let* t := minidump_table s in
        let* toc := t_ss_toc t in
        Some (MAX_NUM_ENTRIES <=? ss_region_count toc)
      else Some false in
    if full : bool then Some (- ENOMEM, s)
    else
      let* (ret, s) :=
        if toc_init then
          let* num := md_entry_num s e in
          if 0 <=? num then Some (- EEXIST, s)
          else
            let* s := md_add_ss_toc s e in
            let* s := add_elf_header s e in
            Some (0, s)
        else if is_rm_minidump s && md_init_done s then
          let* num := md_rm_entry_num s e in
          if 0 <=? num then Some (- EEXIST, s)
          else md_rm_add_region alloc s e
        else if negb alloc then Some (- ENOMEM, s)
        else Some (0, set_pending s (pending_list s ++ [e])) in
      if negb (ret =? 0) then Some (ret, s)
      else Some (s32 (num_regions s), set_num_regions s (u32 (num_regions s + 1))).

Definition msm_minidump_add_region (alloc : bool) (e : option md_region) (s : md_state)
  : option (Z * md_state) :=
  if negb (validate_region e =? 0) then Some (- EINVAL, s)
  else
    let* e := e in
    let* s := spin_lock s in
    let* (ret, s) := add_region_locked alloc e s in
    let* s := spin_unlock s in
    Some (ret, s).

Definition msm_minidump_remove_region (alloc : bool) (e : option md_region) (s : md_state)
  : option (Z * md_state) :=
  match e with
  | None => Some (- EINVAL, s)
  | Some e =>
      if negb (md_init_done s) then Some (- EINVAL, s)
      else
        let* enabled :=
          if is_rm_minidump s then Some true
          else let* t := minidump_table s in Some (md_ss_enabled t) in
        if negb enabled then Some (- EINVAL, s)
        else
          let* s := spin_lock s in
          let* s := write_lock s in
          let* (ret, s) :=
            if is_rm_minidump s then md_rm_remove_region alloc s e else md_remove_ss_toc s e in
          let* s := write_unlock s in
          let* s := spin_unlock s in
          Some (ret, s)
  end.

(** ** Probe *)

(** What the kernel and the firmware answer during the probe. *)
Record probe_env := ProbeEnv {
  (** [of_device_is_compatible(..., "qcom,minidump-rm")] *)
  pe_rm : bool;
  (** [gh_rm_minidump_get_info], and the slot of the ELF header *)
  pe_rm_info : Z;
  pe_hdr_slot : Z;
  (** the allocations of the table, the work queue and the requests *)
  pe_table : bool;
  pe_wq : bool;
  pe_request : bool;
  (** [qcom_smem_get]: [PTR_ERR] of an invalid pointer, or size and contents *)
  pe_smem : Z + Z * md_global_toc;
  (** physical address of the region array *)
  pe_regions : option Z;
  (** the header buffer and its physical address *)
  pe_hdr : option (mem * Z);
  (** addresses of the table and of the banner *)
  pe_table_addr : Z;
  pe_banner : Z;
  pe_banner_phys : Z;
}.

Definition map_region0 (s : md_state) (f : md_ss_region -> md_ss_region) : option md_state :=
  let* t := minidump_table s in
  let* regions := md_regions t in
  let* r := getZ regions 0 in
  let* regions := setZ regions 0 (f r) in
  Some (set_table s (set_md_regions t regions)).

Definition msm_minidump_add_header (pe : probe_env) (s : md_state) : option (Z * md_state) :=
  match pe_hdr pe with
  | None => Some (- ENOMEM, set_elf s (Mem 0 0 (fun _ => 0)) (MdElfhdr 0 (shdr (minidump_elfheader s))
      (phdr (minidump_elfheader s)) (elf_offset (minidump_elfheader s))
      (strtable_idx (minidump_elfheader s))))
  | Some (buf, phys) =>
      if is_rm_minidump s && (pe_hdr_slot pe <? 0) then
        Some (- EBUSY, set_elf s buf (MdElfhdr (m_lo buf) (shdr (minidump_elfheader s))
          (phdr (minidump_elfheader s)) (elf_offset (minidump_elfheader s))
          (strtable_idx (minidump_elfheader s))))
      else
        let* s :=
          if is_rm_minidump s then Some s
          else map_region0 s (fun r => MdSsRegion (strscpy "KELF_HDR" MAX_REGION_NAME_LENGTH).1
                 (seq_num r) (md_valid r) phys elfh_size) in
        let* (m, h) := fill_header buf (pe_table_addr pe) (pe_banner pe) (pe_banner_phys pe) in
        let s := set_elf s m h in
        let* s :=
          if is_rm_minidump s then Some s
          else map_region0 s (fun r => MdSsRegion (ss_name r) (seq_num r) MD_REGION_VALID
                 (region_base_address r) (region_size r)) in
        Some (0, s)
  end.

Definition entries0 {A} (z : A) : list A := replicate (Z.to_nat MAX_NUM_ENTRIES) z.

(** The tables of the two modes: an error the probe returns, or the state. *)
Definition probe_tables (pe : probe_env) (s : md_state) : (Z * md_state) + md_state :=
  if is_rm_minidump s then
    if pe_rm_info pe <? 0 then inl (pe_rm_info pe, s)
    else if negb (pe_table pe) then inl (- ENOMEM, clear_tables s (is_rm_minidump s))
    else
      let s := set_rm_table s (MdRmTable [] (entries0 no_rm_region)) in
      if negb (pe_wq pe) then inl (- EINVAL, s) else inr s
  else
    match pe_smem pe with
    | inl err => inl (err, s)
    | inr (size, gtoc) =>
        if (size <? sizeof_md_global_toc) || (md_toc_init gtoc =? 0) then inl (- ENODEV, s)
        else if negb (pe_table pe) then inl (- ENOMEM, clear_tables s (is_rm_minidump s))
        else
          let toc := hlos_toc gtoc in
          let toc := MdSsToc (md_ss_toc_init toc) (md_ss_enable_status toc) MD_SS_ENCR_DONE
            MD_SS_ENCR_NOTREQ (ss_region_count toc) (md_ss_smem_regions_baseptr toc) in
          let t := MdTable (md_revision gtoc) (Some toc) None (entries0 no_region) in
          match pe_regions pe with
          | None => inl (- ENOMEM, set_table s t)
          | Some phys =>
              let toc := MdSsToc (md_ss_toc_init toc) (md_ss_enable_status toc)
                (encryption_status toc) (encryption_required toc) 1 phys in
              inr (set_table s (set_md_regions (set_toc t toc) (entries0 no_ss_region)))
          end
    end.

(** The loop over the pending list; the result is false when a request could
    not be allocated. *)
Fixpoint add_pending (pe : probe_env) (l : list md_region) (region_number : Z) (s : md_state)
  : option (bool * md_state) :=
  match l with
  | [] => Some (true, s)
  | e :: l' =>
      if is_rm_minidump s then
        if negb (pe_request pe) then Some (false, s)
        else
          let* t := minidump_rm_table s in
          let* rm := getZ (rm_entry t) region_number in
          let* entries := setZ (rm_entry t) region_number
            (MdRmRegion (strscpy (md_name e) (MAX_NAME_LENGTH + 1)).1 (slot_num rm)) in
          let t := queue_work (MdRmTable (minidump_rm_wq t) entries) MINIDUMP_ADD e in
          add_pending pe l' (region_number + 1) (set_pending (set_rm_table s t) l')
      else
        let* t := minidump_table s in
        let* entries := setZ (entry t) region_number e in
        let s := set_table s (set_entry t entries) in
        let* s := md_add_ss_toc s e in
        add_pending pe l' (region_number + 1) (set_pending s l')
  end.

Definition enable_toc (s : md_state) : option md_state :=
  let* t := minidump_table s in
  let* toc := t_ss_toc t in
  Some (set_table s (set_toc t (MdSsToc 1 MD_SS_ENABLED (encryption_status toc)
    (encryption_required toc) (ss_region_count toc) (md_ss_smem_regions_baseptr toc)))).

(** The probe up to the release of [md_init_done]; [Some ret] is an early
    return. *)
Definition probe_init (pe : probe_env) (s : md_state) : option (option Z * md_state) :=
  match probe_tables pe (set_is_rm s (pe_rm pe)) with
  | inl (ret, s) => Some (Some ret, s)
  | inr s =>
      let* (_, s) := msm_minidump_add_header pe s in
      let* s := spin_lock s in
      let* s := if is_rm_minidump s then Some s else enable_toc s in
      let* (ok, s) := add_pending pe (pending_list s) 0 s in
      let* s := spin_unlock s in
      if negb ok then Some (Some (- ENOMEM), s) else Some (None, set_init_done s true)
  end.

Section Probe.
Context (msm_minidump_log_init : md_state -> option (Z * md_state)).

Definition msm_minidump_driver_probe (pe : probe_env) (s : md_state) : option (Z * md_state) :=
  let* (early, s) := probe_init pe s in
  match early with
  | Some ret => Some (ret, s)
  | None => let* (_, s) := msm_minidump_log_init s in Some (0, s)
  end.
End Probe.
