(* ===== verification/MdTocProofs.v ===== *)
(** * The tables of the SMEM mode as a list of regions

    [toc_tables s all] says that the driver's own table and the table of the
    boot loader hold the regions [all], in order; the lemmas say what the
    functions of MdToc.v do to that list. *)

From S2P Require Import Prelude CMem CStr CText MdApi MdElf MdElfRep MdElfClear MdElfRegions.
From S2P Require Import MdElfUpdate MdState MdToc.

#[local] Open Scope string_scope.
#[local] Open Scope list_scope.
#[local] Open Scope Z_scope.

Definition header_name : string := "KELF_HDR".

(** The boot loader's entry for a region; a region with the name of the header
    entry gets the next sequence number. *)
Definition ss_of (e : md_region) : md_ss_region :=
  MdSsRegion (md_name e) (if bool_decide (md_name e = header_name) then 1 else 0) MD_REGION_VALID
    (phys_addr e) (md_size e).

Definition kelf_region (phys : Z) : md_ss_region :=
  MdSsRegion header_name 0 MD_REGION_VALID phys elfh_size.

Definition ss_table (phys : Z) (all : list md_region) : list md_ss_region :=
  kelf_region phys :: map ss_of all ++ replicate (200 - length all) no_ss_region.

Record toc_tables (t : md_table) (all : list md_region) : Prop := {
  tt_toc : exists toc, t_ss_toc t = Some toc /\ md_ss_enable_status toc = MD_SS_ENABLED /\
    ss_region_count toc = 1 + Z.of_nat (length all);
  tt_entry : exists tail, entry t = all ++ tail;
  tt_length : length (entry t) = 201%nat;
  tt_regions : exists phys, md_regions t = Some (ss_table phys all);
  tt_ok : Forall entry_ok all;
  tt_names : NoDup (map md_name all);
  tt_room : (length all <= 200)%nat;
}.

(** ** Searching *)

Section Search.
Context {A : Type} (name_of : A -> string).

Lemma name_num_app (l tail pre : list A) name :
  name_num name_of (pre ++ l ++ tail) name (length l) (Z.of_nat (length pre)) =
  Some (match list_find (fun x => name_of x = name) l with
        | Some (i, _) => Some (Z.of_nat (length pre + i))
        | None => None
        end).
Proof.
  revert pre. induction l as [|x l IH]; intros pre; [done|]. simpl name_num.
  rewrite getZ_of_nat, lookup_app_r, Nat.sub_diag by lia. simpl.
  destruct (decide (name_of x = name)) as [He|He].
  - rewrite bool_decide_true by done. do 2 f_equal. lia.
  - rewrite bool_decide_false by done. specialize (IH (pre ++ [x])).
    rewrite length_app, <- app_assoc in IH. simpl in IH.
    replace (Z.of_nat (length pre) + 1) with (Z.of_nat (length pre + 1)) by lia. rewrite IH.
    destruct (list_find _ l) as [[i y]|]; simpl; [|done]. do 2 f_equal. lia.
Qed.

Lemma name_num_spec (l tail : list A) name :
  name_num name_of (l ++ tail) name (length l) 0 =
  Some (match list_find (fun x => name_of x = name) l with
        | Some (i, _) => Some (Z.of_nat i)
        | None => None
        end).
Proof. apply (name_num_app l tail []). Qed.
End Search.

Lemma lookup_map {A B} (f : A -> B) (l : list A) i x : l !! i = Some x -> map f l !! i = Some (f x).
Proof. revert i. induction l as [|y l IH]; intros [|i] Hi; simplify_eq/=; auto. Qed.

(** The index of a name in a list of regions. *)
Definition region_index (all : list md_region) (name : string) : option nat :=
  fst <$> list_find (fun x => md_name x = name) all.

Lemma region_index_Some all name i :
  NoDup (map md_name all) ->
  region_index all name = Some i <-> exists r, all !! i = Some r /\ md_name r = name.
Proof.
  intros Hnd. unfold region_index. rewrite fmap_Some. split.
  - intros ([j r] & Hf & ->). apply list_find_Some in Hf as (? & ? & _). eauto.
  - intros (r & Hr & Hn). destruct (list_find _ all) as [[j x]|] eqn:Hf.
    + exists (j, x). split; [done|]. apply list_find_Some in Hf as (Hx & Hxn & _). simpl.
      apply (NoDup_lookup (map md_name all) _ _ name); [done|..].
      * rewrite <- Hn. by apply lookup_map.
      * rewrite <- Hxn. by apply lookup_map.
    + apply list_find_None in Hf. eapply Forall_lookup_1 in Hf; [|exact Hr]. done.
Qed.

Lemma region_index_None all name : region_index all name = None <-> named name all = false.
Proof.
  unfold region_index, named. rewrite fmap_None, list_find_None. split.
  - intros Hf. apply not_true_iff_false. rewrite existsb_exists. intros (x & Hx & Hn).
    apply bool_decide_eq_true in Hn. rewrite Forall_forall in Hf. exact (Hf x Hx Hn).
  - intros Hf. apply Forall_forall. intros x Hx Hn. apply not_true_iff_false in Hf.
    apply Hf, existsb_exists. exists x. split; [done|].
    by apply bool_decide_eq_true.
Qed.

Lemma s32_count (n : nat) : (n <= 201)%nat -> s32 (Z.of_nat n) = Z.of_nat n.
Proof. intros. apply s32_small. lia. Qed.

Lemma md_entry_num_spec s t all e :
  minidump_table s = Some t -> toc_tables t all -> num_regions s = Z.of_nat (length all) ->
  md_entry_num s e = Some (match region_index all (md_name e) with
                           | Some i => Z.of_nat i
                           | None => - ENOENT
                           end).
Proof.
  intros Ht [_ [tail He] _ _ _ _ Hroom] Hn. unfold md_entry_num, region_index.
  rewrite Hn, s32_count by lia. destruct (Z.leb_spec (Z.of_nat (length all)) 0).
  - destruct all; [done|]. simpl in *. lia.
  - rewrite Ht, He, Nat2Z.id, name_num_spec.
    by destruct (list_find _ all) as [[i x]|].
Qed.

Definition bump_seq (seq sn : Z) : Z := if u32 seq <? sn then s32 sn else seq.

Lemma region_num_loop_spec l tail pre name ret seq :
  NoDup (map md_name l) ->
  region_num_loop (pre ++ map ss_of l ++ tail) name (length l) (Z.of_nat (length pre)) ret seq =
  Some (match region_index l name with
        | Some i => (Z.of_nat (length pre + i),
                     bump_seq seq (if bool_decide (name = header_name) then 1 else 0))
        | None => (ret, seq)
        end).
Proof.
  revert pre ret seq. induction l as [|x l IH]; intros pre ret seq Hnd; [done|].
  inversion Hnd as [|? ? Hx Hnd']; subst. simpl region_num_loop.
  rewrite getZ_of_nat, lookup_app_r, Nat.sub_diag by lia. simpl.
  assert (forall ret' seq', region_num_loop (pre ++ ss_of x :: map ss_of l ++ tail) name (length l)
    (Z.of_nat (length pre) + 1) ret' seq' = Some (match region_index l name with
        | Some i => (Z.of_nat (length pre + S i),
                     bump_seq seq' (if bool_decide (name = header_name) then 1 else 0))
        | None => (ret', seq')
        end)) as Hrest.
  { intros ret' seq'. specialize (IH (pre ++ [ss_of x]) ret' seq' Hnd').
    rewrite length_app, <- app_assoc in IH. simpl in IH.
    replace (Z.of_nat (length pre) + 1) with (Z.of_nat (length pre + 1)) by lia. rewrite IH.
    destruct (region_index l name) as [i|]; [|done]. do 3 f_equal. lia. }
  rewrite !Hrest. unfold region_index. simpl. fold (region_index l name).
  destruct (decide (md_name x = name)) as [He|He].
  - rewrite bool_decide_true by done. simpl. rewrite Nat.add_0_r.
    destruct (region_index l name) as [i|] eqn:Hi.
    + exfalso. apply region_index_Some in Hi as (r & Hr & Hn); [|done].
      apply Hx. rewrite He, <- Hn. apply list_elem_of_lookup. exists i. by apply lookup_map.
    + by rewrite He.
  - rewrite bool_decide_false by done. destruct (list_find _ l) as [[i y]|] eqn:Hf;
      unfold region_index; by rewrite Hf.
Qed.

Lemma md_region_num_spec s t all tail name phys toc :
  minidump_table s = Some t -> t_ss_toc t = Some toc -> md_regions t = Some (kelf_region phys :: map ss_of all ++ tail) ->
  ss_region_count toc = 1 + Z.of_nat (length all) -> (length all <= 200)%nat ->
  NoDup (map md_name all) ->
  exists seq, md_region_num s name 0 =
    Some (match region_index all name with
          | Some i => 1 + Z.of_nat i
          | None => if bool_decide (name = header_name) then 0 else - EINVAL
          end, seq) /\ (region_index all name = None -> seq = 0).
Proof.
  intros Ht Htoc Hr Hc Hlen Hnd. unfold md_region_num. rewrite Ht, Htoc, Hr, Hc, s32_small by lia.
  destruct (Z.leb_spec (1 + Z.of_nat (length all)) 0); [lia|].
  replace (Z.to_nat (1 + Z.of_nat (length all))) with (S (length all)) by lia.
  simpl.
  pose proof (region_num_loop_spec all tail [kelf_region phys] name) as Hloop. simpl app in Hloop. change (Z.of_nat (length [kelf_region phys])) with 1 in Hloop.
  change (u32 0 <? 0) with false. cbv beta match. change (0 + 1) with 1.
  destruct (bool_decide_reflect (header_name = name)) as [<-|Hne].
  - rewrite (Hloop 0 0) by done. exists (match region_index all header_name with
      | Some i => bump_seq 0 1 | None => 0 end).
    rewrite bool_decide_true by done. destruct (region_index all header_name) as [i|]; [|done].
    split; [|done]. f_equal. f_equal. cbn [length]. lia.
  - rewrite (Hloop (- EINVAL) 0) by done.
    rewrite bool_decide_false by congruence. destruct (region_index all name) as [i|].
    + eexists. split; [|done]. f_equal. f_equal. cbn [length]. lia.
    + eexists. split; done.
Qed.

(** ** Adding *)

Lemma setZ_mid {A} (pre post : list A) x y i :
  i = Z.of_nat (length pre) -> setZ (pre ++ x :: post) i y = Some (pre ++ y :: post).
Proof.
  intros ->. rewrite setZ_of_nat by (rewrite length_app; simpl; lia).
  by rewrite insert_app_r_alt, Nat.sub_diag by lia.
Qed.

Lemma getZ_mid {A} (pre post : list A) x i :
  i = Z.of_nat (length pre) -> getZ (pre ++ x :: post) i = Some x.
Proof. intros ->. by rewrite getZ_of_nat, lookup_app_r, Nat.sub_diag by lia. Qed.

Lemma ss_table_snoc phys all :
  (length all < 200)%nat ->
  ss_table phys all = (kelf_region phys :: map ss_of all) ++ no_ss_region ::
    replicate (200 - length (all ++ [no_region])) no_ss_region.
Proof.
  intros. unfold ss_table. rewrite length_app. simpl.
  replace (200 - length all)%nat with (S (200 - (length all + 1))) by lia. done.
Qed.

Lemma region_of e i :
  entry_ok e -> MdRegion (strscpy (md_name e) (MAX_NAME_LENGTH + 1)).1 (md_id e) i (phys_addr e) (md_size e)
    = MdRegion (md_name e) (md_id e) i (phys_addr e) (md_size e).
Proof. intros He. pose proof (eo_name _ He). by rewrite strscpy_fits by (unfold MAX_NAME_LENGTH in *; lia). Qed.

Lemma md_region_eta e : MdRegion (md_name e) (md_id e) (virt_addr e) (phys_addr e) (md_size e) = e.
Proof. by destruct e. Qed.

Lemma md_add_ss_toc_ok s t toc phys all e k :
  minidump_table s = Some t -> t_ss_toc t = Some toc -> md_regions t = Some (ss_table phys all) ->
  ss_region_count toc = 1 + Z.of_nat (length all) -> (length all < 200)%nat ->
  NoDup (map md_name all) -> named (md_name e) all = false -> entry_ok e ->
  num_regions s = Z.of_nat k -> (k < length (entry t))%nat ->
  md_add_ss_toc s e = Some (set_table s
    (MdTable (revision t) (Some (set_ss_region_count toc (1 + Z.of_nat (length (all ++ [e])))))
       (Some (ss_table phys (all ++ [e]))) (<[k := e]> (entry t)))).
Proof.
  intros Ht Htoc Hr Hc Hlen Hnd Hnew He Hn Hk. unfold md_add_ss_toc. rewrite Ht, Htoc, Hn.
  rewrite setZ_of_nat, region_of, md_region_eta by done.
  cbn [md_regions set_entry]. rewrite Hr, Hc, s32_small by lia.
  rewrite ss_table_snoc by done.
  rewrite getZ_mid by (simpl; rewrite length_map; lia).
  rewrite setZ_mid by (simpl; rewrite length_map; lia).
  pose proof (eo_name _ He) as Hl. unfold MAX_NAME_LENGTH in Hl.
  rewrite strscpy_fits by (unfold MAX_REGION_NAME_LENGTH; lia). cbn [fst seq_num md_valid no_ss_region].
  edestruct (md_region_num_spec
    (set_table s (set_md_regions (set_entry t (<[k:=e]> (entry t)))
       ((kelf_region phys :: map ss_of all) ++ MdSsRegion (md_name e) 0 0 (phys_addr e) (md_size e) ::
          replicate (200 - length (all ++ [no_region])) no_ss_region))))
    as (seq & -> & Hseq); [reflexivity|exact Htoc|reflexivity|exact Hc|lia|done|].
  apply region_index_None in Hnew. rewrite Hnew in *. rewrite (Hseq eq_refl).
  rewrite setZ_mid by (simpl; rewrite length_map; lia).
  rewrite (u32_small (0 + 1)), (u32_small (1 + _ + 1)) by lia. rewrite length_app. simpl length.
  replace (1 + Z.of_nat (length all) + 1) with (1 + Z.of_nat (length all + 1)) by lia.
  unfold ss_table. rewrite map_app, length_app. simpl. rewrite <- app_assoc. simpl.
  unfold ss_of. destruct (bool_decide (md_name e = header_name)); reflexivity.
Qed.

(** ** Updating *)

Lemma ss_table_move phys all i r e :
  all !! i = Some r ->
  ss_table phys (<[i := moved r e]> all) =
  <[S i := MdSsRegion (md_name r) (seq_num (ss_of r)) MD_REGION_VALID (phys_addr e) (md_size r)]>
    (ss_table phys all).
Proof.
  intros Hi. unfold ss_table. rewrite length_insert. simpl. f_equal.
  assert (i < length (map ss_of all))%nat by (rewrite length_map; by eapply lookup_lt_Some).
  rewrite insert_app_l by done. f_equal.
  clear -Hi. revert i Hi. induction all as [|x all IH]; intros [|i] Hi; simplify_eq/=; [done|].
  f_equal. by apply IH.
Qed.

Lemma ss_table_lookup phys all i r : all !! i = Some r -> ss_table phys all !! S i = Some (ss_of r).
Proof. intros Hi. unfold ss_table. simpl. apply lookup_app_l_Some. by apply lookup_map. Qed.

Lemma ss_table_length phys all : (length all <= 200)%nat -> length (ss_table phys all) = 201%nat.
Proof. intros. unfold ss_table. simpl. rewrite length_app, length_map, length_replicate. lia. Qed.

Lemma md_update_ss_toc_ok s t all i r e phys :
  minidump_table s = Some t -> toc_tables t all -> num_regions s = Z.of_nat (length all) ->
  md_regions t = Some (ss_table phys all) ->
  Z.of_nat i < first_removed_entry s -> all !! i = Some r -> named (md_name e) all = true ->
  md_update_ss_toc s (Z.of_nat i) e = Some (0, set_table s
    (MdTable (revision t) (t_ss_toc t) (Some (ss_table phys (<[i := moved r e]> all)))
       (<[i := moved r e]> (entry t)))).
Proof.
  intros Ht Htt Hn Hreg Hf Hi Hnm. unfold md_update_ss_toc.
  destruct (Z.leb_spec (first_removed_entry s) (Z.of_nat i)); [lia|].
  rewrite (md_entry_num_spec s t all) by done.
  destruct (region_index all (md_name e)) as [j|] eqn:Hj;
    [|apply region_index_None in Hj; congruence].
  destruct (Z.ltb_spec (Z.of_nat j) 0); [lia|]. rewrite Ht.
  pose proof (lookup_lt_Some _ _ _ Hi). destruct Htt as [_ [tail He] Hl _ _ _ Hroom].
  rewrite getZ_of_nat, He. rewrite lookup_app_l, Hi by done.
  rewrite setZ_of_nat by (rewrite <- He; lia). rewrite Hreg.
  replace (Z.of_nat i + 1) with (Z.of_nat (S i)) by lia.
  rewrite getZ_of_nat, (ss_table_lookup _ _ _ r) by done.
  rewrite setZ_of_nat by (rewrite ss_table_length by done; lia).
  by rewrite (ss_table_move _ _ _ r) by done.
Qed.

Lemma moved_names all i r e : all !! i = Some r -> map md_name (<[i := moved r e]> all) = map md_name all.
Proof. intros Hi. by apply (map_insert_same _ _ _ r). Qed.

Lemma toc_tables_move t all i r e phys :
  toc_tables t all -> md_regions t = Some (ss_table phys all) -> all !! i = Some r ->
  0 < virt_addr e < 18446744073709551616 -> 0 <= phys_addr e < 18446744073709551616 ->
  toc_tables (MdTable (revision t) (t_ss_toc t) (Some (ss_table phys (<[i := moved r e]> all)))
       (<[i := moved r e]> (entry t))) (<[i := moved r e]> all).
Proof.
  intros [Ht [tail He] Hl Hr Hok Hnd Hroom] Hreg Hi Hv Hp. pose proof (lookup_lt_Some _ _ _ Hi).
  split; cbn [t_ss_toc md_regions entry]; rewrite ?length_insert; try done.
  - exists tail. by rewrite He, insert_app_l.
  - by exists phys.
  - apply Forall_insert; [done|]. apply moved_ok; [|done..]. exact (Forall_lookup_1 _ _ _ _ Hok Hi).
  - by rewrite (moved_names _ _ r).
Qed.

(** ** Removing *)

Lemma remove_slot_mid {A} (l1 : list A) x l2 tail z i cnt :
  i = Z.of_nat (length l1) -> cnt = Z.of_nat (length (l1 ++ x :: l2)) ->
  remove_slot ((l1 ++ x :: l2) ++ tail) i cnt z = Some ((l1 ++ l2) ++ z :: tail).
Proof.
  intros -> ->. unfold remove_slot. rewrite !length_app. simpl length.
  destruct (Z.leb_spec 0 (Z.of_nat (length l1))); [|lia].
  destruct (Z.ltb_spec (Z.of_nat (length l1)) (Z.of_nat (length l1 + S (length l2)))); [|lia].
  destruct (Z.leb_spec (Z.of_nat (length l1 + S (length l2)))
    (Z.of_nat (length l1 + S (length l2) + length tail))); [|lia]. simpl.
  rewrite !Nat2Z.id, <- !app_assoc. f_equal. f_equal; [by rewrite take_app_length|].
  rewrite drop_app_ge by lia. replace (S (length l1) - length l1)%nat with 1%nat by lia. simpl.
  rewrite drop_0, (take_app_length' l2) by lia. f_equal. f_equal.
  rewrite drop_app_ge by lia. replace (length l1 + S (length l2) - length l1)%nat with (S (length l2)) by lia.
  simpl. by rewrite drop_app_length.
Qed.

Lemma ss_table_remove phys l1 r l2 :
  (length (l1 ++ r :: l2) <= 200)%nat ->
  remove_slot (ss_table phys (l1 ++ r :: l2)) (1 + Z.of_nat (length l1))
    (1 + Z.of_nat (length (l1 ++ r :: l2))) no_ss_region = Some (ss_table phys (l1 ++ l2)).
Proof.
  intros Hl. unfold ss_table. rewrite !map_app. simpl map. rewrite !app_comm_cons.
  rewrite remove_slot_mid; rewrite ?length_app in *; simpl length in *; rewrite ?length_map, ?length_app;
    simpl length; rewrite ?length_map; [|lia|lia].
  f_equal. f_equal.
  replace (200 - (length l1 + length l2))%nat with (S (200 - (length l1 + S (length l2)))) by lia. done.
Qed.

Lemma region_index_app l1 r l2 name :
  md_name r = name -> NoDup (map md_name (l1 ++ r :: l2)) ->
  region_index (l1 ++ r :: l2) name = Some (length l1).
Proof.
  intros Hn Hnd. apply region_index_Some; [done|]. exists r. split; [|done].
  by rewrite lookup_app_r, Nat.sub_diag by lia.
Qed.
