(* ===== verification/MdDriverProofs.v ===== *)
(** * The minidump API in SMEM mode

    [toc_rep ep s pend rs] is the state of a probed driver that holds the
    regions [pend ++ rs]: [pend] were registered before the probe and are only
    in the tables, [rs] after it and have ELF headers as well.  [toc_rep_any]
    is the same for up to 200 regions, with an exact ELF header only as long
    as that has capacity; [holds] is what every sequence of registrations
    keeps, before the probe and after it. *)

From S2P Require Import Prelude CMem CStr CText MdApi MdElf MdElfRep MdElfClear MdElfRegions.
From S2P Require Import MdElfInit MdElfUpdate MdState MdToc MdRm MdDriver MdTocProofs.

#[local] Open Scope string_scope.
#[local] Open Scope list_scope.
#[local] Open Scope Z_scope.

(** ** States *)

Definition unlocked (s : md_state) : Prop := mdt_lock s = false /\ mdt_remove_lock s = 0.

Record toc_state (s : md_state) (all : list md_region) : Prop := {
  ts_rm : is_rm_minidump s = false;
  ts_init : md_init_done s = true;
  ts_num : num_regions s = Z.of_nat (length all);
  ts_table : exists t, minidump_table s = Some t /\ toc_tables t all;
}.

Definition toc_rep (ep : elf_params) (s : md_state) (pend rs : list md_region) : Prop :=
  unlocked s /\ toc_state s (pend ++ rs) /\ elf_regions ep (elf_buf s) (minidump_elfheader s) rs.

(** The driver before its probe: regions wait in the pending list. *)
Record pending_state (s : md_state) : Prop := {
  ps_unlocked : unlocked s;
  ps_rm : is_rm_minidump s = false;
  ps_init : md_init_done s = false;
  ps_table : minidump_table s = None;
  ps_num : num_regions s = Z.of_nat (length (pending_list s));
  ps_room : (length (pending_list s) <= 201)%nat;
}.

(** ** Validation *)

Lemma IS_ALIGNED_mod4 x : IS_ALIGNED x 4 = (x mod 4 =? 0).
Proof. unfold IS_ALIGNED. change (4 - 1) with (Z.ones 2). by rewrite Z.land_ones. Qed.

Lemma validate_entry_ok e :
  region_wf e -> validate_region (Some e) = 0 -> entry_ok e.
Proof.
  intros [Hn Hv Hp Hs]. unfold validate_region. rewrite IS_ALIGNED_mod4.
  destruct (Z.ltb_spec MAX_NAME_LENGTH (slen (md_name e))), (Z.eqb_spec (virt_addr e) 0),
    (Z.eqb_spec (md_size e mod 4) 0); simpl; intros; try discriminate.
  split; done || lia.
Qed.

Lemma entry_ok_valid e : entry_ok e -> validate_region (Some e) = 0.
Proof.
  intros [Hn _ Hv _ [_ Hs]]. unfold validate_region. rewrite IS_ALIGNED_mod4, Hs.
  destruct (Z.ltb_spec MAX_NAME_LENGTH (slen (md_name e))), (Z.eqb_spec (virt_addr e) 0); done || lia.
Qed.

(** ** Locks *)

Lemma set_locks_same s : unlocked s -> set_locks s false 0 = s.
Proof. destruct s; unfold unlocked; simpl. by intros [-> ->]. Qed.

Lemma toc_state_locks s all b n : toc_state s all -> toc_state (set_locks s b n) all.
Proof. intros []. split; done. Qed.

(** ** Adding *)

Lemma toc_enabled_state s all : toc_state s all -> toc_enabled s = true.
Proof.
  intros [_ _ _ (t & Ht & [(toc & H1 & H2 & _) _ _ _ _ _ _])].
  unfold toc_enabled, md_ss_enabled. by rewrite Ht, H1, H2.
Qed.

Lemma toc_full s all :
  toc_state s all -> exists t toc, minidump_table s = Some t /\ t_ss_toc t = Some toc /\
    ss_region_count toc = 1 + Z.of_nat (length all) /\ (length all <= 200)%nat /\ toc_tables t all.
Proof.
  intros [_ _ _ (t & Ht & Htt)]. pose proof Htt as [(toc & H1 & _ & H3) _ _ _ _ _ Hroom].
  by exists t, toc.
Qed.

Lemma add_locked_full alloc s all e :
  toc_state s all -> length all = 200%nat -> add_region_locked alloc e s = Some (- ENOMEM, s).
Proof.
  intros Hts Hlen. unfold add_region_locked. rewrite (toc_enabled_state _ _ Hts), (ts_rm _ _ Hts).
  destruct (toc_full _ _ Hts) as (t & toc & Ht & Htoc & Hc & _). rewrite (ts_num _ _ Hts), Hlen, Ht.
  cbv beta match. cbn [negb andb]. rewrite Htoc, Hc, Hlen. done.
Qed.

Lemma add_locked_exists alloc s all e :
  toc_state s all -> (length all < 200)%nat -> named (md_name e) all = true ->
  add_region_locked alloc e s = Some (- EEXIST, s).
Proof.
  intros Hts Hlen Hnm. unfold add_region_locked. rewrite (toc_enabled_state _ _ Hts), (ts_rm _ _ Hts).
  destruct (toc_full _ _ Hts) as (t & toc & Ht & Htoc & Hc & _ & Htt). rewrite (ts_num _ _ Hts), Ht.
  cbv beta match. cbn [negb andb]. rewrite Htoc, Hc.
  unfold MAX_NUM_ENTRIES, CONFIG_MINIDUMP_MAX_ENTRIES. decide_tests.
  rewrite (md_entry_num_spec s t all) by (done || apply Hts).
  destruct (region_index all (md_name e)) as [i|] eqn:Hi;
    [|apply region_index_None in Hi; congruence]. by decide_tests.
Qed.

Lemma add_locked_new alloc s all e m' h' :
  toc_state s all -> (length all < 200)%nat -> named (md_name e) all = false -> entry_ok e ->
  md_add_elf_header (elf_buf s) (minidump_elfheader s) e = Some (m', h') ->
  exists t', toc_tables t' (all ++ [e]) /\
    add_region_locked alloc e s = Some (Z.of_nat (length all),
      set_num_regions (set_elf (set_table s t') m' h') (Z.of_nat (length (all ++ [e])))).
Proof.
  intros Hts Hlen Hnm He Helf. unfold add_region_locked.
  rewrite (toc_enabled_state _ _ Hts), (ts_rm _ _ Hts).
  destruct (toc_full _ _ Hts) as (t & toc & Ht & Htoc & Hc & _ & Htt). rewrite (ts_num _ _ Hts), Ht.
  cbv beta match. cbn [negb andb]. rewrite Htoc, Hc.
  unfold MAX_NUM_ENTRIES, CONFIG_MINIDUMP_MAX_ENTRIES. decide_tests.
  rewrite (md_entry_num_spec s t all) by (done || apply Hts).
  pose proof Hnm as Hi. apply region_index_None in Hi. rewrite Hi.
  change (0 <=? - ENOENT) with false. cbv beta match.
  pose proof Htt as [_ [tail Hent] Hl [phys Hreg] Hok Hnd _].
  rewrite (md_add_ss_toc_ok s t toc phys all e (length all)) by (done || apply Hts || lia).
  unfold add_elf_header. cbn [elf_buf minidump_elfheader set_table]. rewrite Helf.
  cbn [num_regions set_table set_elf]. rewrite (ts_num _ _ Hts), s32_count, u32_small by lia.
  simpl Z.eqb. cbv beta match. cbn [negb].
  eexists. split; [|rewrite length_app; simpl; do 4 f_equal; lia].
  pose proof (tt_toc _ _ Htt) as (toc' & Htoc' & Hen & _). rewrite Htoc in Htoc'. injection Htoc' as <-.
  split; cbn [t_ss_toc md_regions entry].
  - eexists. split; [reflexivity|]. split; [exact Hen|by rewrite length_app].
  - assert (exists x tl, tail = x :: tl) as (x & tl & ->).
    { destruct tail; [rewrite Hent, app_nil_r in Hl; lia|eauto]. }
    exists tl. rewrite Hent, insert_app_r_alt, Nat.sub_diag by lia. simpl. by rewrite <- app_assoc.
  - by rewrite length_insert.
  - eauto.
  - apply Forall_app. split; [done|]. by apply Forall_singleton.
  - rewrite map_app. apply list.NoDup_app. split; [done|]. split; [|apply NoDup_singleton].
    intros n Hn ->%list_elem_of_singleton. apply region_index_None in Hnm as Hx.
    apply list_elem_of_lookup in Hn as [j Hj]. apply not_true_iff_false in Hnm. apply Hnm.
    unfold named. apply existsb_exists.
    destruct (all !! j) as [r|] eqn:Hr.
    + exists r. rewrite (lookup_map _ _ _ _ Hr) in Hj. injection Hj as Hj.
      split; [|by apply bool_decide_eq_true]. apply list_elem_of_In, list_elem_of_lookup. eauto.
    + apply lookup_ge_None in Hr. apply lookup_lt_Some in Hj. rewrite length_map in Hj. lia.
  - rewrite length_app. simpl. lia.
Qed.

(** The whole function: what the lock does around it. *)
Lemma add_region_valid alloc e s ret s' :
  validate_region (Some e) = 0 -> unlocked s ->
  add_region_locked alloc e (set_locks s true 0) = Some (ret, s') -> mdt_lock s' = true ->
  mdt_remove_lock s' = 0 ->
  msm_minidump_add_region alloc (Some e) s = Some (ret, set_locks s' false 0).
Proof.
  intros Hv [Hl Hr] Hadd Hl' Hr'. unfold msm_minidump_add_region, spin_lock, spin_unlock.
  rewrite Hv, Hl, Hr. simpl assert_c. cbv beta match. cbn [negb Z.eqb]. rewrite Hadd, Hl', Hr'. done.
Qed.


(** What the registry of names does is what the driver does. *)
Lemma add_region_refused alloc s all e :
  unlocked s -> toc_state s all -> (registry_add e all).1 < 0 ->
  msm_minidump_add_region alloc (Some e) s = Some ((registry_add e all).1, s).
Proof.
  intros Hu Hts Hneg. destruct (toc_full _ _ Hts) as (_ & _ & _ & _ & _ & Hlen & _).
  destruct (decide (validate_region (Some e) = 0)) as [Hv|Hv].
  2:{ unfold msm_minidump_add_region, registry_add.
      destruct (Z.eqb_spec (validate_region (Some e)) 0); [lia|done]. }
  pose proof (toc_state_locks _ _ true 0 Hts) as Hts'.
  assert (forall ret, add_region_locked alloc e (set_locks s true 0) = Some (ret, set_locks s true 0) ->
    msm_minidump_add_region alloc (Some e) s = Some (ret, s)) as Hgo.
  { intros ret Hr. rewrite (add_region_valid _ _ _ _ _ Hv Hu Hr) by done.
    by rewrite (set_locks_same s Hu : set_locks (set_locks s true 0) false 0 = s). }
  unfold registry_add, CONFIG_MINIDUMP_MAX_ENTRIES in *. rewrite Hv in *. simpl negb in *. cbv beta match in *.
  destruct (Z.leb_spec 200 (Z.of_nat (length all))).
  - apply Hgo. apply (add_locked_full _ _ all); [done|lia].
  - destruct (named (md_name e) all) eqn:Hnm; [|simpl in Hneg; lia].
    apply Hgo. apply (add_locked_exists _ _ all); [done|lia|done].
Qed.

Lemma registry_add_refuses e all : (registry_add e all).1 < 0 -> (registry_add e all).2 = all.
Proof. unfold registry_add. repeat case_match; simpl; done || lia. Qed.

Lemma registry_add_accepts e all :
  0 <= (registry_add e all).1 ->
  validate_region (Some e) = 0 /\ (length all < 200)%nat /\ named (md_name e) all = false /\
  registry_add e all = (Z.of_nat (length all), all ++ [e]).
Proof.
  unfold registry_add, CONFIG_MINIDUMP_MAX_ENTRIES, EINVAL, ENOMEM, EEXIST.
  destruct (Z.eqb_spec (validate_region (Some e)) 0); simpl; [|lia].
  destruct (Z.leb_spec 200 (Z.of_nat (length all))); simpl; [lia|].
  destruct (named (md_name e) all); simpl; [lia|]. intros _. split_and!; done || lia.
Qed.

Lemma add_region_accepted alloc s all e m' h' :
  unlocked s -> toc_state s all -> region_wf e -> 0 <= (registry_add e all).1 ->
  md_add_elf_header (elf_buf s) (minidump_elfheader s) e = Some (m', h') ->
  exists s', msm_minidump_add_region alloc (Some e) s = Some (Z.of_nat (length all), s') /\
    unlocked s' /\ toc_state s' (all ++ [e]) /\ elf_buf s' = m' /\ minidump_elfheader s' = h' /\
    first_removed_entry s' = first_removed_entry s.
Proof.
  intros Hu Hts Hwf Hacc Helf. apply registry_add_accepts in Hacc as (Hv & Hlen & Hnm & _).
  destruct (add_locked_new alloc _ all e m' h' (toc_state_locks _ _ true 0 Hts) Hlen Hnm
    (validate_entry_ok e Hwf Hv) Helf) as (t' & Htt & Hadd).
  eexists. split; [by apply (add_region_valid _ _ _ _ _ Hv Hu Hadd)|].
  split_and!; try done. split; try apply Hts; try done. by exists t'.
Qed.

(** ** Up to 200 regions: no fault *)

Lemma elf_regions_safe ep m h rs :
  elf_regions ep m h rs -> Z.of_nat (length rs) <= 200 -> elf_safe m h (Z.of_nat (length rs)).
Proof.
  intros [[Hnav Hph Hsh _ _ _ _ Hidx _ _ _] Hoff Hok Hroom _] Hlen.
  rewrite names_len_app3 in Hidx. pose proof (names_len_bound _ Hok).
  pose proof (names_len_nonneg (map md_name rs)). pose proof (sizes_nonneg _ Hok).
  split; try done; try lia.
  - rewrite Hsh, length_app, region_secs_length. simpl. lia.
  - rewrite Hph, length_app, region_segs_length. simpl. lia.
  - unfold CONFIG_MINIDUMP_MAX_ENTRIES. lia.
Qed.

(** A probed driver that may have so many regions that its section headers
    have run into the program headers. *)
Definition toc_safe_at (s : md_state) (all : list md_region) : Prop :=
  exists n, unlocked s /\ toc_state s all /\
    elf_safe (elf_buf s) (minidump_elfheader s) n /\ n <= Z.of_nat (length all).

Definition toc_safe (s : md_state) : Prop := exists all, toc_safe_at s all.

Lemma toc_rep_safe ep s pend rs : toc_rep ep s pend rs -> toc_safe s.
Proof.
  intros (Hu & Hts & Hel). destruct (toc_full _ _ Hts) as (_ & _ & _ & _ & _ & Hlen & _).
  rewrite length_app in Hlen. exists (pend ++ rs), (Z.of_nat (length rs)).
  split; [done|]. split; [done|]. split; [by eapply elf_regions_safe; [|lia]|].
  rewrite length_app. lia.
Qed.

(** The lists that still have a well-formed ELF header. *)
Definition elf_capacity (rs : list md_region) : Prop :=
  Z.of_nat (length rs) <= 197 /\ 27888 + sizes rs < 18446744073709551616.

(** [toc_rep] up to the 200 regions the tables take: the ELF header is exact
    as long as it has room, and never leads outside its buffer. *)
Definition toc_rep_any (ep : elf_params) (s : md_state) (pend rs : list md_region) : Prop :=
  unlocked s /\ toc_state s (pend ++ rs) /\
  elf_safe (elf_buf s) (minidump_elfheader s) (Z.of_nat (length rs)) /\
  (elf_capacity rs -> elf_regions ep (elf_buf s) (minidump_elfheader s) rs).

Lemma toc_rep_rep_any ep s pend rs : toc_rep ep s pend rs -> toc_rep_any ep s pend rs.
Proof.
  intros (Hu & Hts & Hel). split; [done|]. split; [done|]. split; [|done].
  destruct (toc_full _ _ Hts) as (_ & _ & _ & _ & _ & Hlen & _). rewrite length_app in Hlen.
  eapply elf_regions_safe; [done|lia].
Qed.

Lemma toc_rep_any_rep ep s pend rs : elf_capacity rs -> toc_rep_any ep s pend rs -> toc_rep ep s pend rs.
Proof. intros Hc (Hu & Hts & _ & Hel). by split; [|split; [|apply Hel]]. Qed.

Lemma elf_capacity_app rs e :
  entry_ok e -> elf_capacity (rs ++ [e]) ->
  elf_capacity rs /\ Z.of_nat (length rs) < 197 /\
  27888 + sizes rs + md_size e < 18446744073709551616.
Proof.
  intros He [Hl Hs]. pose proof (eo_size _ He).
  rewrite length_app in Hl. simpl in Hl. rewrite sizes_app in Hs.
  replace (sizes [e]) with (md_size e) in Hs by (unfold sizes; simpl; lia).
  split_and!; [split|..]; lia.
Qed.

(** ** Before the probe *)

Lemma add_region_pending alloc s e :
  pending_state s -> validate_region (Some e) = 0 ->
  msm_minidump_add_region alloc (Some e) s =
  Some (if (201 <=? Z.of_nat (length (pending_list s))) || negb alloc then (- ENOMEM, s)
        else (Z.of_nat (length (pending_list s)),
              set_num_regions (set_pending s (pending_list s ++ [e]))
                (Z.of_nat (length (pending_list s ++ [e]))))).
Proof.
  intros [Hu Hrm Hi Ht Hn Hroom] Hv. pose proof Hu as [Hl Hr].
  assert (forall ret s', add_region_locked alloc e (set_locks s true 0) = Some (ret, set_locks s' true 0) ->
    unlocked s' -> msm_minidump_add_region alloc (Some e) s = Some (ret, s')) as Hgo.
  { intros ret s' Ha Hu'. rewrite (add_region_valid _ _ _ _ _ Hv Hu Ha) by done.
    by rewrite (set_locks_same s' Hu' : set_locks (set_locks s' true 0) false 0 = s'). }
  assert (add_region_locked alloc e (set_locks s true 0) =
    if MAX_NUM_ENTRIES <=? num_regions s then Some (- ENOMEM, set_locks s true 0)
    else if negb alloc then Some (- ENOMEM, set_locks s true 0)
    else Some (s32 (num_regions s), set_num_regions (set_pending (set_locks s true 0) (pending_list s ++ [e]))
                 (u32 (num_regions s + 1)))) as Heq.
  { unfold add_region_locked, toc_enabled. cbn. rewrite Hrm, Hi, Ht. cbn.
    destruct (MAX_NUM_ENTRIES <=? num_regions s); [done|]. by destruct alloc. }
  rewrite Hn in Heq. unfold MAX_NUM_ENTRIES, CONFIG_MINIDUMP_MAX_ENTRIES in Heq.
  change (200 + 1) with 201 in Heq.
  destruct (Z.leb_spec 201 (Z.of_nat (length (pending_list s)))); simpl; [by apply Hgo|].
  destruct alloc; simpl in *; [|by apply Hgo].
  rewrite length_app. simpl. rewrite s32_small, u32_small in Heq by lia.
  replace (Z.of_nat (length (pending_list s) + 1)) with (Z.of_nat (length (pending_list s)) + 1) by lia.
  by apply Hgo.
Qed.

Lemma add_region_invalid alloc s e :
  validate_region (Some e) <> 0 -> msm_minidump_add_region alloc (Some e) s = Some (- EINVAL, s).
Proof. intros Hv. unfold msm_minidump_add_region. by destruct (Z.eqb_spec (validate_region (Some e)) 0). Qed.

(** ** One call, before or after the probe *)

(** What a registration does to the list of regions.  Before the probe a
    region only has to be valid and to find memory and a place among 201;
    after it the registry decides. *)
Definition add_ref (probed alloc : bool) (e : md_region) (all : list md_region)
  : Z * list md_region :=
  if probed then registry_add e all
  else if negb (validate_region (Some e) =? 0) then (- EINVAL, all)
  else if (201 <=? Z.of_nat (length all)) || negb alloc then (- ENOMEM, all)
  else (Z.of_nat (length all), all ++ [e]).

(** The driver holds the regions [all]. *)
Definition holds (probed : bool) (s : md_state) (all : list md_region) : Prop :=
  if probed then toc_safe_at s all else pending_state s /\ pending_list s = all.

Lemma holds_count probed s all : holds probed s all -> num_regions s = Z.of_nat (length all).
Proof.
  destruct probed; [by intros (n & _ & Hts & _); apply Hts|].
  intros [Hp <-]. apply Hp.
Qed.

Lemma holds_inv s : toc_safe s \/ pending_state s <-> exists probed all, holds probed s all.
Proof.
  split.
  - intros [[all Hs]|Hs]; [by exists true, all|by exists false, (pending_list s)].
  - intros ([] & all & Hs); [left; by exists all|right; apply Hs].
Qed.

Lemma add_region_holds probed alloc s all e :
  holds probed s all -> region_wf e ->
  exists s', msm_minidump_add_region alloc (Some e) s = Some ((add_ref probed alloc e all).1, s') /\
    holds probed s' (add_ref probed alloc e all).2 /\
    ((add_ref probed alloc e all).1 < 0 -> s' = s).
Proof.
  unfold add_ref, holds. destruct probed.
  - intros (n & Hu & Hts & Hsafe & Hn) Hwf.
    destruct (Z.ltb_spec (registry_add e all).1 0) as [Hneg|Hpos].
    + exists s. split; [by apply add_region_refused|]. split; [|done].
      rewrite (registry_add_refuses _ _ Hneg). by exists n.
    + pose proof (registry_add_accepts _ _ Hpos) as (Hv & Hlen & _ & Heq).
      destruct (elf_safe_add _ _ _ e Hsafe (validate_entry_ok e Hwf Hv)) as (m' & h' & Helf & Hsafe' & _).
      { unfold CONFIG_MINIDUMP_MAX_ENTRIES. lia. }
      destruct (add_region_accepted alloc s all e m' h' Hu Hts Hwf Hpos Helf)
        as (s' & Hadd & Hu' & Hts' & Hm & Hh & _).
      exists s'. rewrite Heq. split; [exact Hadd|]. split; [|simpl; lia].
      exists (n + 1). rewrite Hm, Hh. split_and!; try done. simpl. rewrite length_app. simpl. lia.
  - intros [Hp <-] _. destruct (Z.eqb_spec (validate_region (Some e)) 0) as [Hv|Hv]; cbn [negb fst snd].
    2:{ exists s. rewrite add_region_invalid by done. by split_and!. }
    rewrite add_region_pending by done. pose proof Hp as [Hu Hrm Hi Ht Hn Hroom].
    destruct (Z.leb_spec 201 (Z.of_nat (length (pending_list s)))); simpl; [exists s; by split_and!|].
    destruct alloc; simpl; [|exists s; by split_and!].
    eexists. split; [done|]. split; [|lia]. split; [|done].
    split; try done. simpl. rewrite length_app. simpl. lia.
Qed.

Lemma add_ref_cases probed alloc e all :
  (add_ref probed alloc e all).1 < 0 /\ (add_ref probed alloc e all).2 = all \/
  validate_region (Some e) = 0 /\ add_ref probed alloc e all = (Z.of_nat (length all), all ++ [e]).
Proof.
  unfold add_ref, registry_add, EINVAL, ENOMEM, EEXIST.
  destruct (Z.eqb_spec (validate_region (Some e)) 0), probed; cbn [negb];
    repeat case_match; cbn [fst snd]; (by right) || (left; split; [lia|done]).
Qed.

Lemma add_region_inv alloc s e :
  toc_safe s \/ pending_state s -> region_wf e ->
  exists ret s', msm_minidump_add_region alloc (Some e) s = Some (ret, s') /\
    (toc_safe s' \/ pending_state s') /\
    ((ret < 0 /\ s' = s) \/
     (ret = num_regions s /\ 0 <= ret /\ validate_region (Some e) = 0 /\ num_regions s' = ret + 1)).
Proof.
  intros (probed & all & Hs)%holds_inv Hwf.
  destruct (add_region_holds probed alloc s all e Hs Hwf) as (s' & Hadd & Hs' & Herr).
  eexists _, s'. split; [exact Hadd|]. split; [apply holds_inv; eauto|].
  destruct (add_ref_cases probed alloc e all) as [[Hneg _]|[Hv Heq]]; [left; auto|right].
  rewrite Heq in *. cbn [fst snd] in *. rewrite (holds_count _ _ _ Hs), (holds_count _ _ _ Hs'), length_app.
  simpl. split_and!; done || lia.
Qed.

(** The driver keeps the promise its clients rely on. *)
#[program] Definition md_driver_api (alloc : bool) : MdApi md_state := {|
  MdApi.msm_minidump_add_region e s := msm_minidump_add_region alloc (Some e) s;
  md_inv s := toc_safe s \/ pending_state s;
  md_regions_count s := num_regions s;
|}.
Next Obligation.
  intros alloc e s Hs Hwf. exact (add_region_inv alloc s e Hs Hwf).
Qed.

(** ** Removing *)

Lemma remove_tables t l1 r l2 phys toc :
  toc_tables t (l1 ++ r :: l2) -> md_regions t = Some (ss_table phys (l1 ++ r :: l2)) ->
  md_ss_enable_status toc = MD_SS_ENABLED ->
  ss_region_count toc = 1 + Z.of_nat (length (l1 ++ l2)) ->
  exists entries,
    remove_slot (entry t) (Z.of_nat (length l1)) (Z.of_nat (length (l1 ++ r :: l2))) no_region = Some entries /\
    toc_tables (MdTable (revision t) (Some toc) (Some (ss_table phys (l1 ++ l2))) entries) (l1 ++ l2).
Proof.
  intros [_ [tail He] Hl _ Hok Hnd Hroom] Hreg Hen Hc.
  rewrite He, remove_slot_mid by done. eexists. split; [reflexivity|].
  rewrite He, !length_app in Hl. rewrite length_app in Hroom. simpl in Hl, Hroom.
  split; cbn [t_ss_toc md_regions entry].
  - by exists toc.
  - by eexists.
  - rewrite !length_app. simpl. lia.
  - by exists phys.
  - apply Forall_app in Hok as [? Hok]. apply Forall_cons_1 in Hok as [_ ?]. by apply Forall_app.
  - rewrite map_app in *. simpl in Hnd. apply list.NoDup_app in Hnd as (H1 & H2 & H3).
    inversion H3 as [|? ? H4 H5]; subst. apply list.NoDup_app. split_and!; try done.
    intros x Hx Hx2. apply (H2 x Hx), elem_of_cons. by right.
  - rewrite length_app. lia.
Qed.

Lemma md_remove_ss_toc_ok s l1 r l2 e ret m' h' :
  toc_state s (l1 ++ r :: l2) -> md_name r = md_name e ->
  msm_minidump_clear_headers (elf_buf s) (minidump_elfheader s) e = Some (ret, m', h') ->
  exists s', md_remove_ss_toc s e = Some (ret, s') /\
    mdt_lock s' = mdt_lock s /\ mdt_remove_lock s' = mdt_remove_lock s /\
    elf_buf s' = m' /\ minidump_elfheader s' = h' /\
    first_removed_entry s' = Z.min (first_removed_entry s) (Z.of_nat (length l1)) /\
    (ret = 0 -> toc_state s' (l1 ++ l2)) /\
    (ret <> 0 -> num_regions s' = num_regions s /\
       exists t toc, minidump_table s' = Some t /\ t_ss_toc t = Some toc /\ md_ss_toc_init toc = 0).
Proof.
  intros Hts Hname Hclear.
  destruct (toc_full _ _ Hts) as (t & toc & Ht & Htoc & Hc & Hlen & Htt).
  pose proof Htt as [(toc' & Htoc' & Hen & _) _ _ [phys Hreg] _ Hnd _].
  rewrite Htoc in Htoc'. injection Htoc' as <-.
  unfold md_remove_ss_toc, md_ss_enabled. rewrite Ht, Htoc, Hen.
  change (MD_SS_ENABLED =? MD_SS_ENABLED) with true. cbn [negb]. cbv beta match.
  rewrite (md_entry_num_spec s t _ e Ht Htt (ts_num _ _ Hts)).
  rewrite (region_index_app _ _ _ _ Hname Hnd).
  destruct (Z.ltb_spec (Z.of_nat (length l1)) 0); [lia|].
  destruct (md_region_num_spec s t _ _ (md_name e) phys toc Ht Htoc Hreg Hc Hlen Hnd) as (seq & -> & _).
  rewrite (region_index_app _ _ _ _ Hname Hnd).
  destruct (Z.ltb_spec (1 + Z.of_nat (length l1)) 0); [lia|].
  rewrite (ts_num _ _ Hts), s32_count, Hc, s32_small by lia.
  destruct (remove_tables t l1 r l2 phys (set_md_ss_toc_init (set_ss_region_count
    (set_md_ss_toc_init toc 0) (1 + Z.of_nat (length (l1 ++ l2)))) 1) Htt Hreg Hen eq_refl)
    as (entries & -> & Htt').
  rewrite Hreg, ss_table_remove by done. unfold clear_headers.
  cbn [elf_buf minidump_elfheader set_table set_first_removed]. rewrite Hclear.
  assert (length (l1 ++ r :: l2) = S (length (l1 ++ l2))) as Hsz by (rewrite !length_app; simpl; lia).
  destruct (Z.eqb_spec ret 0) as [->|Hne]; cbn [negb]; eexists; (split; [reflexivity|]);
    cbn; split_and!; try done; intros _.
  - split; try apply Hts; cbn; rewrite ?(ts_num _ _ Hts), ?Hsz.
    + rewrite u32_small by lia. lia.
    + eexists. split; [reflexivity|]. rewrite Hc, Hsz, u32_small by lia.
      replace (1 + Z.of_nat (S (length (l1 ++ l2))) - 1) with (1 + Z.of_nat (length (l1 ++ l2))) by lia.
      exact Htt'.
  - split; [by rewrite ?(ts_num _ _ Hts)|]. eexists _, _. split; [reflexivity|]. done.
Qed.

Lemma remove_region_eq alloc s all e ret s' :
  unlocked s -> toc_state s all ->
  md_remove_ss_toc (set_locks s true (-1)) e = Some (ret, s') ->
  mdt_lock s' = true -> mdt_remove_lock s' = -1 ->
  msm_minidump_remove_region alloc (Some e) s = Some (ret, set_locks s' false 0).
Proof.
  intros [Hl Hr] Hts Hrem Hl' Hr'. destruct (toc_full _ _ Hts) as (t & toc & Ht & _).
  pose proof (toc_enabled_state _ _ Hts) as Hen. unfold toc_enabled in Hen. rewrite Ht in Hen.
  unfold msm_minidump_remove_region, spin_lock, write_lock, write_unlock, spin_unlock.
  rewrite (ts_init _ _ Hts), (ts_rm _ _ Hts), Ht, Hen, Hl. cbn. rewrite Hr. cbn.
  rewrite (ts_rm _ _ Hts). change (set_locks (set_locks s true 0) true (-1))
    with (set_locks s true (-1)). rewrite Hrem, Hr'. cbn. by rewrite Hl'.
Qed.

Lemma remove_region_ok alloc ep s pend rs1 r rs2 e :
  toc_rep ep s pend (rs1 ++ r :: rs2) -> same_region e r ->
  NoDup (region_names (rs1 ++ r :: rs2)) ->
  (forall x, x ∈ rs1 -> phys_addr x = phys_addr e -> md_size x <> md_size e) ->
  exists s', msm_minidump_remove_region alloc (Some e) s = Some (0, s') /\
    toc_rep ep s' pend (rs1 ++ rs2) /\
    first_removed_entry s' = Z.min (first_removed_entry s) (Z.of_nat (length (pend ++ rs1))).
Proof.
  intros (Hu & Hts & Hel) Hsame Hnd Hfirst. pose proof Hts as Hts0. rewrite app_assoc in Hts.
  destruct (elf_regions_clear ep _ _ rs1 r rs2 e Hel Hsame Hnd Hfirst) as (m' & h' & Hclear & Hel' & _).
  destruct (md_remove_ss_toc_ok _ (pend ++ rs1) r rs2 e 0 m' h' (toc_state_locks _ _ true (-1) Hts))
    as (s' & Hrem & Hl & Hr & Hm & Hh & Hf & Hok & _); [apply Hsame|exact Hclear|].
  eexists. split; [exact (remove_region_eq alloc s _ e 0 s' Hu Hts Hrem Hl Hr)|].
  split; [|exact Hf]. split; [done|]. split.
  - rewrite app_assoc. apply toc_state_locks. by apply Hok.
  - cbn. rewrite Hm, Hh. done.
Qed.

(** ** Updating *)

Lemma update_region_eq alloc s all k e ret s1 m' :
  unlocked s -> toc_state s all -> validate_region (Some e) = 0 -> (k < 201)%nat ->
  md_update_ss_toc (set_locks s false 1) (Z.of_nat k) e = Some (ret, s1) ->
  is_rm_minidump s1 = false -> mdt_lock s1 = false -> mdt_remove_lock s1 = 1 ->
  md_update_elf_header (elf_buf s1) (minidump_elfheader s1) (Z.of_nat k) e = Some m' ->
  msm_minidump_update_region alloc (Z.of_nat k) (Some e) s
    = Some (ret, set_elf (set_locks s1 false 0) m' (minidump_elfheader s1)).
Proof.
  intros [Hl Hr] Hts Hv Hk Hup Hrm1 Hl1 Hr1 Helf.
  unfold msm_minidump_update_region, read_lock, read_unlock, update_elf_header.
  rewrite (ts_init _ _ Hts), Hv. cbn [negb Z.eqb orb].
  destruct (Z.leb_spec MAX_NUM_ENTRIES (Z.of_nat k));
    [unfold MAX_NUM_ENTRIES, CONFIG_MINIDUMP_MAX_ENTRIES in *; lia|].
  rewrite Hr. cbn. rewrite (ts_rm _ _ Hts), Hl. change (0 + 1) with 1. rewrite Hup, Helf. cbn.
  rewrite Hr1. cbn. by rewrite Hl1.
Qed.

Lemma update_region_tables s all k r e :
  toc_state s all -> all !! k = Some r -> Z.of_nat k < first_removed_entry s ->
  named (md_name e) all = true -> entry_ok e ->
  exists t', md_update_ss_toc s (Z.of_nat k) e = Some (0, set_table s t') /\
    toc_tables t' (<[k := moved r e]> all).
Proof.
  intros Hts Hk Hf Hnm He. destruct (toc_full _ _ Hts) as (t & toc & Ht & _ & _ & _ & Htt).
  pose proof (tt_regions _ _ Htt) as [phys Hreg].
  eexists. split; [exact (md_update_ss_toc_ok s t all k r e phys Ht Htt (ts_num _ _ Hts) Hreg Hf Hk Hnm)|].
  apply (toc_tables_move t all k r e phys Htt Hreg Hk); apply He.
Qed.

(** [regions] are those in the tables, [rs] those with headers; the same index
    is used for both. *)
Lemma update_region_ok alloc ep s pend rs k r r' e :
  toc_rep ep s pend rs -> (pend ++ rs) !! k = Some r -> rs !! k = Some r' ->
  Z.of_nat k < first_removed_entry s ->
  named (md_name e) (pend ++ rs) = true -> entry_ok e ->
  exists s', msm_minidump_update_region alloc (Z.of_nat k) (Some e) s = Some (0, s') /\
    unlocked s' /\ toc_state s' (<[k := moved r e]> (pend ++ rs)) /\
    elf_regions ep (elf_buf s') (minidump_elfheader s') (<[k := moved r' e]> rs) /\
    first_removed_entry s' = first_removed_entry s.
Proof.
  intros (Hu & Hts & Hel) Hk Hk' Hf Hnm He.
  destruct (update_region_tables (set_locks s false 1) _ k r e (toc_state_locks _ _ _ _ Hts) Hk Hf Hnm He)
    as (t' & Hup & Htt').
  destruct (elf_regions_update ep _ _ rs k r' e Hel Hk') as (m' & Helf & Hel' & _); [apply He..|].
  pose proof (lookup_lt_Some _ _ _ Hk). destruct (toc_full _ _ Hts) as (_ & _ & _ & _ & _ & Hlen & _).
  eexists. split.
  - apply (update_region_eq alloc s _ k e _ _ m' Hu Hts (entry_ok_valid e He) ltac:(lia) Hup);
      [apply Hts|done|done|exact Helf].
  - split_and!; try done. split; try apply Hts; cbn; rewrite ?length_insert; [apply Hts|].
    by exists t'.
Qed.

(** An index at or behind a removed region: refused, but the header of the
    region that has the index now is changed all the same. *)
Lemma update_region_moved alloc ep s pend rs k r' e :
  toc_rep ep s pend rs -> rs !! k = Some r' -> first_removed_entry s <= Z.of_nat k -> entry_ok e ->
  exists s', msm_minidump_update_region alloc (Z.of_nat k) (Some e) s = Some (- EINVAL, s') /\
    unlocked s' /\ toc_state s' (pend ++ rs) /\
    elf_regions ep (elf_buf s') (minidump_elfheader s') (<[k := moved r' e]> rs).
Proof.
  intros (Hu & Hts & Hel) Hk Hf He.
  destruct (elf_regions_update ep _ _ rs k r' e Hel Hk) as (m' & Helf & Hel' & _); [apply He..|].
  pose proof (lookup_lt_Some _ _ _ Hk). destruct (toc_full _ _ Hts) as (_ & _ & _ & _ & _ & Hlen & _).
  rewrite length_app in Hlen. eexists. split.
  - apply (update_region_eq alloc s _ k e (- EINVAL) (set_locks s false 1) m' Hu Hts (entry_ok_valid e He)
      ltac:(lia)); [|apply Hts|done|done|exact Helf].
    unfold md_update_ss_toc. cbn. destruct (Z.leb_spec (first_removed_entry s) (Z.of_nat k)); [done|lia].
  - split_and!; try done. split; apply Hts.
Qed.

(** ** Queries *)

Lemma md_get_region_ok s all name :
  toc_state s all ->
  md_get_region s name = Some (match region_index all name with
                               | Some i => default no_region (all !! i)
                               | None => no_region
                               end).
Proof.
  intros Hts. destruct (toc_full _ _ Hts) as (t & toc & Ht & _ & _ & Hlen & Htt).
  unfold md_get_region. rewrite (ts_rm _ _ Hts), Ht, (ts_num _ _ Hts), s32_count, Nat2Z.id by lia.
  pose proof (tt_entry _ _ Htt) as [tail ->]. rewrite name_num_spec. unfold region_index.
  destruct (list_find _ all) as [[i x]|] eqn:Hf; simpl; [|done].
  apply list_find_Some in Hf as (Hi & _). by rewrite getZ_of_nat, (lookup_app_l_Some _ _ _ _ Hi), Hi.
Qed.

Lemma available_region_ok info s all :
  unlocked s -> toc_state s all ->
  msm_minidump_get_available_region info s = Some (201 - Z.of_nat (length all), s).
Proof.
  intros Hu Hts. destruct (toc_full _ _ Hts) as (_ & _ & _ & _ & _ & Hlen & _). pose proof Hu as [Hl Hr].
  unfold msm_minidump_get_available_region, spin_lock, spin_unlock. rewrite (ts_rm _ _ Hts), Hl. cbn.
  rewrite (ts_num _ _ Hts), s32_small by (unfold MAX_NUM_ENTRIES, CONFIG_MINIDUMP_MAX_ENTRIES; lia).
  rewrite Hr. by rewrite (set_locks_same s Hu : set_locks (set_locks s true 0) false 0 = s).
Qed.
