(* ===== verification/MdClient.v ===== *)
(** * The minidump driver as its regions' owners see it

    minidump_memory.c and minidump_log.c add regions, look them up, update and
    remove them.  [MdRegionApi] is the contract they rely on, in terms of the
    lists of regions registered before the probe and after it;
    [toc_region_api] shows that the driver keeps it in shared-memory mode. *)

From S2P Require Import Prelude CMem CStr CText MdApi MdElf MdElfRep MdElfClear MdElfRegions.
From S2P Require Import MdElfUpdate MdState MdToc MdRm MdDriver MdTocProofs MdDriverProofs.

#[local] Open Scope string_scope.
#[local] Open Scope list_scope.
#[local] Open Scope Z_scope.

(** ** The contract *)

Definition find_region (name : string) (l : list md_region) : md_region :=
  match list_find (fun r => md_name r = name) l with
  | Some (_, r) => r
  | None => no_region
  end.

(** A region that can join the ones registered after the probe: it has room in
    the ELF header. *)
Record addable (e : md_region) (rs : list md_region) : Prop := {
  ad_wf : region_wf e;
  ad_room : Z.of_nat (length rs) < 197;
  ad_size : 27888 + sizes rs + md_size e < 18446744073709551616;
  ad_name : md_name e ∉ fixed_names;
}.

(** Nothing in [rs] is at the physical address of [r]: a region that is not
    alone is shadowed in the ELF header and cannot be removed. *)
Definition alone (r : md_region) (rs : list md_region) : Prop :=
  forall x, x ∈ rs -> phys_addr x <> phys_addr r.

(** The operations and what they do to the two lists.  The number of a region
    is its place in the lists; a removal changes the numbers from its own on,
    those below [api_stable] are still good for updates. *)
Class MdRegionApi (S : Type) := {
  api_add : md_region -> S -> option (Z * S);
  api_remove : md_region -> S -> option (Z * S);
  api_update : Z -> md_region -> S -> option (Z * S);
  api_get : string -> S -> option md_region;
  api_available : S -> option (Z * S);
  api_rep : S -> list md_region -> list md_region -> Prop;
  api_stable : S -> Z;
  api_names s pend rs : api_rep s pend rs -> NoDup (map md_name (pend ++ rs));
  api_get_ok s pend rs name :
    api_rep s pend rs -> api_get name s = Some (find_region name (pend ++ rs));
  api_add_ok s pend rs e :
    api_rep s pend rs -> addable e rs ->
    exists s', api_add e s = Some ((registry_add e (pend ++ rs)).1, s') /\
      ((registry_add e (pend ++ rs)).1 < 0 -> s' = s) /\
      (0 <= (registry_add e (pend ++ rs)).1 ->
        api_rep s' pend (rs ++ [e]) /\ api_stable s' = api_stable s);
  api_remove_ok s pend rs1 r rs2 e :
    api_rep s pend (rs1 ++ r :: rs2) -> same_region e r -> alone r rs1 ->
    exists s', api_remove e s = Some (0, s') /\ api_rep s' pend (rs1 ++ rs2) /\
      api_stable s' = Z.min (api_stable s) (Z.of_nat (length (pend ++ rs1)));
  api_update_ok s rs k r e :
    api_rep s [] rs -> rs !! k = Some r -> Z.of_nat k < api_stable s ->
    named (md_name e) rs = true -> entry_ok e ->
    exists s', api_update (Z.of_nat k) e s = Some (0, s') /\
      api_rep s' [] (<[k := moved r e]> rs) /\ api_stable s' = api_stable s;
  api_available_ok s pend rs :
    api_rep s pend rs -> api_available s = Some (201 - Z.of_nat (length (pend ++ rs)), s);
}.

(** ** Looking up *)

Lemma find_region_index name l :
  find_region name l = match region_index l name with
                       | Some i => default no_region (l !! i)
                       | None => no_region
                       end.
Proof.
  unfold find_region, region_index. destruct (list_find _ l) as [[i r]|] eqn:Hf; simpl; [|done].
  apply list_find_Some in Hf as (-> & _). done.
Qed.

Lemma find_region_mid name l1 r l2 :
  NoDup (map md_name (l1 ++ r :: l2)) -> md_name r = name -> find_region name (l1 ++ r :: l2) = r.
Proof.
  intros Hnd Hn. rewrite find_region_index, (region_index_app _ _ _ _ Hn Hnd).
  by rewrite lookup_app_r, Nat.sub_diag by lia.
Qed.

Lemma find_region_None name l : named name l = false -> find_region name l = no_region.
Proof. intros Hn%region_index_None. by rewrite find_region_index, Hn. Qed.

Lemma named_app n l l' : named n (l ++ l') = named n l || named n l'.
Proof. apply existsb_app. Qed.

Lemma named_false n l : named n l = false <-> n ∉ map md_name l.
Proof.
  unfold named. rewrite <- not_true_iff_false, existsb_exists, list_elem_of_In, in_map_iff.
  split; intros H; contradict H; destruct H as (r & Hr & Hn); exists r.
  - split; [done|]. by apply bool_decide_eq_true.
  - split; [|done]. by apply bool_decide_eq_true in Hn.
Qed.

(** ** The driver in shared-memory mode *)

Definition toc_client (ep : elf_params) (s : md_state) (pend rs : list md_region) : Prop :=
  toc_rep ep s pend rs /\ NoDup (region_names rs).

Lemma toc_client_names ep s pend rs : toc_client ep s pend rs -> NoDup (map md_name (pend ++ rs)).
Proof.
  intros ((_ & Hts & _) & _). destruct (toc_full _ _ Hts) as (t & toc & _ & _ & _ & _ & Htt). apply Htt.
Qed.

Lemma toc_client_get ep s pend rs name :
  toc_client ep s pend rs -> md_get_region s name = Some (find_region name (pend ++ rs)).
Proof.
  intros Hc. pose proof Hc as ((_ & Hts & _) & _). rewrite (md_get_region_ok _ _ name Hts), find_region_index.
  destruct (region_index (pend ++ rs) name) as [i|] eqn:Hi; [|done].
  apply region_index_Some in Hi as (r & Hr & _); [|by eapply toc_client_names]. by rewrite Hr.
Qed.

Lemma toc_client_add alloc ep s pend rs e :
  toc_client ep s pend rs -> addable e rs ->
  exists s', msm_minidump_add_region alloc (Some e) s = Some ((registry_add e (pend ++ rs)).1, s') /\
    ((registry_add e (pend ++ rs)).1 < 0 -> s' = s) /\
    (0 <= (registry_add e (pend ++ rs)).1 ->
      toc_client ep s' pend (rs ++ [e]) /\ first_removed_entry s' = first_removed_entry s).
Proof.
  intros ((Hu & Hts & Hel) & Hnn) [Hwf Hroom Hsz Hname].
  destruct (Z.ltb_spec (registry_add e (pend ++ rs)).1 0) as [Hneg|Hpos].
  { exists s. split; [by apply add_region_refused|]. split; [done|lia]. }
  pose proof (registry_add_accepts _ _ Hpos) as (Hv & _ & Hnm & Heq).
  destruct (elf_regions_add ep _ _ rs e Hel (validate_entry_ok e Hwf Hv) Hroom Hsz) as (m' & h' & Hadd & Hel' & _).
  destruct (add_region_accepted alloc s _ e m' h' Hu Hts Hwf Hpos Hadd) as (s' & Hr & Hu' & Hts' & Hm & Hh & Hf).
  exists s'. rewrite Heq. split; [exact Hr|]. split; [simpl; lia|]. intros _. split; [|exact Hf]. split.
  - split; [exact Hu'|]. split; [by rewrite app_assoc|by rewrite Hm, Hh].
  - unfold region_names in *. rewrite map_app, app_assoc. apply list.NoDup_app. split; [done|].
    split; [|apply NoDup_singleton]. intros n Hin ->%list_elem_of_singleton.
    rewrite named_app in Hnm. apply orb_false_iff in Hnm as [_ Hnm%named_false].
    by apply elem_of_app in Hin as [?|?].
Qed.

Lemma toc_client_remove alloc ep s pend rs1 r rs2 e :
  toc_client ep s pend (rs1 ++ r :: rs2) -> same_region e r -> alone r rs1 ->
  exists s', msm_minidump_remove_region alloc (Some e) s = Some (0, s') /\ toc_client ep s' pend (rs1 ++ rs2) /\
    first_removed_entry s' = Z.min (first_removed_entry s) (Z.of_nat (length (pend ++ rs1))).
Proof.
  intros (Hrep & Hnn) Hsame Halone.
  destruct (remove_region_ok alloc ep s pend rs1 r rs2 e Hrep Hsame Hnn) as (s' & Hr & Hrep' & Hf).
  { intros x Hx Hp _. destruct Hsame as (_ & _ & Hp' & _). apply (Halone x Hx). congruence. }
  exists s'. split; [done|]. split; [|done]. split; [done|]. unfold region_names in *. rewrite !map_app in *.
  cbn [map] in *. apply NoDup_ListNoDup in Hnn. rewrite app_assoc in Hnn |- *.
  apply NoDup_ListNoDup. by apply List.NoDup_remove_1 in Hnn.
Qed.

Lemma toc_client_update alloc ep s rs k r e :
  toc_client ep s [] rs -> rs !! k = Some r -> Z.of_nat k < first_removed_entry s ->
  named (md_name e) rs = true -> entry_ok e ->
  exists s', msm_minidump_update_region alloc (Z.of_nat k) (Some e) s = Some (0, s') /\
    toc_client ep s' [] (<[k := moved r e]> rs) /\ first_removed_entry s' = first_removed_entry s.
Proof.
  intros (Hrep & Hnn) Hk Hf Hnm He.
  destruct (update_region_ok alloc ep s [] rs k r r e Hrep Hk Hk Hf Hnm He) as (s' & Hr & Hu & Hts & Hel & Hf').
  exists s'. split; [exact Hr|]. split; [|exact Hf']. split; [by split|].
  unfold region_names in *. by rewrite (map_insert_same _ _ _ r) by done.
Qed.

Lemma toc_client_available info ep s pend rs :
  toc_client ep s pend rs ->
  msm_minidump_get_available_region info s = Some (201 - Z.of_nat (length (pend ++ rs)), s).
Proof. intros ((Hu & Hts & _) & _). by apply available_region_ok. Qed.

(** Nothing is asked of the resource manager in this mode. *)
#[export] Instance toc_region_api (alloc : bool) (ep : elf_params) : MdRegionApi md_state := {|
  api_add e s := msm_minidump_add_region alloc (Some e) s;
  api_remove e s := msm_minidump_remove_region alloc (Some e) s;
  api_update k e s := msm_minidump_update_region alloc k (Some e) s;
  api_get name s := md_get_region s name;
  api_available s := msm_minidump_get_available_region 0 s;
  api_rep := toc_client ep;
  api_stable := first_removed_entry;
  api_names := toc_client_names ep;
  api_get_ok := toc_client_get ep;
  api_add_ok := toc_client_add alloc ep;
  api_remove_ok := toc_client_remove alloc ep;
  api_update_ok := toc_client_update alloc ep;
  api_available_ok := toc_client_available 0 ep;
|}.
