(* ===== verification/MdMemDump.v ===== *)
(** * Memory dumps of variable size (minidump_memory.c, lines 227-338; the size
    files at lines 543-577, 951-986, 1178-1207 and 1318-1346)

    Four dumps - page owners, slab owners and two about dma-bufs - live in
    blocks of the contiguous memory allocator that are registered as minidump
    regions; debugfs files change their sizes at run time.  The minidump
    driver is used through [MdRegionApi]. *)

From S2P Require Import Prelude CStr CText CPrint MdApi MdClient.

#[local] Open Scope string_scope.
#[local] Open Scope list_scope.
#[local] Open Scope Z_scope.

(** ** Data *)

Definition SZ_1K : Z := 1024.
Definition SZ_16K : Z := 16384.
Definition SZ_1M : Z := 1048576.
Definition PAGE_SHIFT : Z := 12.

Inductive dump_kind := PAGEOWNER | SLABOWNER | DMA_INFO | DMA_PROC.

#[export] Instance dump_kind_eq_dec : EqDecision dump_kind.
Proof. solve_decision. Defined.

(** The names the region and the variables go by. *)
Definition dump_name (k : dump_kind) : string :=
  match k with
  | PAGEOWNER => "PAGEOWNER"
  | SLABOWNER => "SLABOWNER"
  | DMA_INFO => "DMA_INFO"
  | DMA_PROC => "DMA_PROC"
  end.

(** [md_..._dump_addr] and [md_..._dump_size] of a dump; address 0 is null. *)
Record dump := Dump { dump_addr : Z; dump_size : Z }.

(** A block the allocator hands out, and what the uninitialised [id] of the
    descriptor on the stack holds. *)
Record cma_block := CmaBlock { cb_virt : Z; cb_phys : Z; cb_junk : Z }.

Section MemDump.
Context {S : Type} `{MdRegionApi S}.

(** [ms_cma]: the blocks in use, by address and number of pages. *)
Record mem_state := MemState {
  ms_dump : dump_kind -> dump;
  ms_cma : list (Z * Z);
  ms_owner_lock : bool;
  ms_api : S;
}.

Definition set_dump (st : mem_state) (k : dump_kind) (d : dump) : mem_state :=
  MemState (fun k' => if decide (k' = k) then d else ms_dump st k') (ms_cma st)
    (ms_owner_lock st) (ms_api st).

Definition set_cma (st : mem_state) (l : list (Z * Z)) : mem_state :=
  MemState (ms_dump st) l (ms_owner_lock st) (ms_api st).

Definition set_api (st : mem_state) (s : S) : mem_state :=
  MemState (ms_dump st) (ms_cma st) (ms_owner_lock st) s.

Definition set_owner_lock (st : mem_state) (b : bool) : mem_state :=
  MemState (ms_dump st) (ms_cma st) b (ms_api st).

Definition set_addr (st : mem_state) (k : dump_kind) (a : Z) : mem_state :=
  set_dump st k (Dump a (dump_size (ms_dump st k))).

Definition set_size (st : mem_state) (k : dump_kind) (n : Z) : mem_state :=
  set_dump st k (Dump (dump_addr (ms_dump st k)) n).

(** [cma_release]: the block must be in use, with that number of pages. *)
Definition cma_release (st : mem_state) (virt pages : Z) : option mem_state :=
  match list_find (eq (virt, pages)) (ms_cma st) with
  | Some (i, _) => Some (set_cma st (delete i (ms_cma st)))
  | None => None
  end.

(** ** Registration *)

(** The variable a name stands for. *)
Definition kind_of_name (name : string) : option dump_kind :=
  if bool_decide (name = "PAGEOWNER") then Some PAGEOWNER
  else if bool_decide (name = "SLABOWNER") then Some SLABOWNER
  else if bool_decide (name = "DMA_INFO") then Some DMA_INFO
  else if bool_decide (name = "DMA_PROC") then Some DMA_PROC
  else None.

(** [answer] is what [cma_alloc] returns; [size] is converted to an [int]. *)
Definition md_register_memory_dump (answer : option cma_block) (size : Z) (name : string)
  (st : mem_state) : option (bool * mem_state) :=
  let size := s32 size in
  match answer with
  | None => Some (false, st)
  | Some b =>
      let pages := u64 (Z.shiftr size PAGE_SHIFT) in
      let st := set_cma st (ms_cma st ++ [(cb_virt b, pages)]) in
      let e := MdRegion (strscpy name (MAX_NAME_LENGTH + 1)).1 (cb_junk b) (cb_virt b) (cb_phys b)
                 (u64 size) in
      let* (ret, s) := api_add e (ms_api st) in
      let st := set_api st s in
      if ret <? 0 then
        let* st := cma_release st (cb_virt b) pages in
        Some (false, st)
      else
        (* memset of the buffer *)
        let* _ := assert_c (u64 size <=? Z.shiftl pages PAGE_SHIFT) in
        match kind_of_name name with
        | Some k => Some (true, set_addr st k (cb_virt b))
        | None => Some (true, st)
        end
  end.

Definition md_unregister_memory_dump (junk : Z) (name : string) (st : mem_state)
  : option (bool * mem_state) :=
  let* mdr := api_get name (ms_api st) in
  if virt_addr mdr =? 0 then Some (false, st)
  else
    let e := MdRegion (strscpy (md_name mdr) (MAX_NAME_LENGTH + 1)).1 junk (virt_addr mdr)
               (phys_addr mdr) (md_size mdr) in
    let* (ret, s) := api_remove e (ms_api st) in
    let st := set_api st s in
    if ret <? 0 then Some (false, st)
    else
      let* st := cma_release st (virt_addr mdr) (Z.shiftr (md_size mdr) PAGE_SHIFT) in
      Some (true, st).

(** [size] in MB; [a1] and [a2] answer the allocations of the new size and of
    the old size. *)
Definition update_dump_size (junk : Z) (k : dump_kind) (size : Z) (a1 a2 : option cma_block)
  (st : mem_state) : option mem_state :=
  let name := dump_name k in
  let bytes := u64 (size * SZ_1M) in
  if dump_size (ms_dump st k) =? 0 then
    let* (ok, st) := md_register_memory_dump a1 bytes name st in
    if ok : bool then Some (set_size st k bytes) else Some st
  else
    let* (ok, st) := md_unregister_memory_dump junk name st in
    if negb ok then Some st
    else
      let st := set_addr st k 0 in
      if size =? 0 then Some (set_size st k 0)
      else
        let* (ok, st) := md_register_memory_dump a1 bytes name st in
        if ok : bool then Some (set_size st k bytes)
        else
          let* (ok, st) := md_register_memory_dump a2 (dump_size (ms_dump st k)) name st in
          if ok : bool then Some st else Some (set_size st k 0).

(** ** The debugfs files *)

(** [parse] is the result of [kstrtoull_from_user], [None] an error. *)
Definition page_owner_dump_size_write (junk : Z) (parse : option Z) (a1 a2 : option cma_block)
  (count : Z) (st : mem_state) : option (Z * mem_state) :=
  match parse with
  | None => Some (- EINVAL, st)
  | Some size =>
      let* _ := assert_c (negb (ms_owner_lock st)) in
      let* st := update_dump_size junk PAGEOWNER size a1 a2 (set_owner_lock st true) in
      Some (count, set_owner_lock st false)
  end.

Definition dump_size_write (k : dump_kind) (junk : Z) (parse : option Z) (a1 a2 : option cma_block)
  (count : Z) (st : mem_state) : option (Z * mem_state) :=
  match parse with
  | None => Some (- EINVAL, st)
  | Some size =>
      let* st := update_dump_size junk k size a1 a2 st in
      Some (count, st)
  end.

Definition slab_owner_dump_size_write := dump_size_write SLABOWNER.
Definition dma_buf_info_size_write := dump_size_write DMA_INFO.
Definition dma_buf_procs_size_write := dump_size_write DMA_PROC.

(** The text of the size files. *)
Definition dump_size_text (k : dump_kind) (st : mem_state) : string :=
  scnprintf 100 (fmt_u (dump_size (ms_dump st k) / SZ_1M) +:+ " MB" +:+ nl).
End MemDump.

(** [simple_read_from_buffer(ubuf, count, ppos, text, strlen(text))]: the
    value returned, the characters copied and the new position. *)
Definition simple_read_from_buffer (count pos : Z) (text : string) : Z * string * Z :=
  if pos <? 0 then (- EINVAL, "", pos)
  else if (slen text <=? pos) || (count =? 0) then (0, "", pos)
  else
    let n := Z.min count (slen text - pos) in
    (n, String.substring (Z.to_nat pos) (Z.to_nat n) text, pos + n).

Section SizeRead.
Context {S : Type} `{MdRegionApi S}.

Definition dump_size_read (k : dump_kind) (count pos : Z) (st : @mem_state S) : Z * string * Z :=
  simple_read_from_buffer count pos (dump_size_text k st).

Definition page_owner_dump_size_read := dump_size_read PAGEOWNER.
Definition slab_owner_dump_size_read := dump_size_read SLABOWNER.
Definition dma_buf_info_size_read := dump_size_read DMA_INFO.
Definition dma_buf_procs_size_read := dump_size_read DMA_PROC.
End SizeRead.
