(* ===== verification/MdMemDumpProofs.v ===== *)
(** * Changing the size of a memory dump

    [mem_rep st pend rs f] says what the state of MdMemDump.v means: each dump
    is off, or on with one registered region, or was lost when it could not
    be registered at boot, as [f] says; the blocks in use are exactly those of
    the dumps that are on. *)

From S2P Require Import Prelude CStr CText CPrint MdApi MdElf MdElfRep MdElfRegions MdClient MdMemDump.

#[local] Open Scope string_scope.
#[local] Open Scope list_scope.
#[local] Open Scope Z_scope.

Inductive dump_status := Off | On (r : md_region) | Lost (n : Z).

Definition status_block (x : dump_status) : list (Z * Z) :=
  match x with On r => [(virt_addr r, Z.shiftr (md_size r) PAGE_SHIFT)] | _ => [] end.

Definition all_kinds : list dump_kind := [PAGEOWNER; SLABOWNER; DMA_INFO; DMA_PROC].

Definition with_status (f : dump_kind -> dump_status) (k : dump_kind) (x : dump_status)
  : dump_kind -> dump_status := fun k' => if decide (k' = k) then x else f k'.

Definition blocks (f : dump_kind -> dump_status) : list (Z * Z) :=
  flat_map (fun k => status_block (f k)) all_kinds.

(** The regions of everyone else. *)
Definition others (k : dump_kind) (rs : list md_region) : list md_region :=
  filter (fun r => md_name r <> dump_name k) rs.

(** The region a block of the allocator becomes. *)
Definition region_of (k : dump_kind) (b : cma_block) (n : Z) : md_region :=
  MdRegion (dump_name k) (cb_junk b) (cb_virt b) (cb_phys b) n.

(** What the allocator answers: a block of at least a page, at an address, in
    memory of no other region. *)
Definition block_ok (k : dump_kind) (b : cma_block) (n : Z) (rs : list md_region) : Prop :=
  0 < n /\ 0 < cb_virt b /\ addable (region_of k b n) rs /\ alone (region_of k b n) rs.

(** Whether a region is registered for the answer. *)
Definition registers (k : dump_kind) (a : option cma_block) (n : Z) (all : list md_region) : bool :=
  match a with
  | None => false
  | Some b => 0 <=? (registry_add (region_of k b n) all).1
  end.

(** What a dump becomes when a block is asked for it. *)
Definition attempt (k : dump_kind) (a : option cma_block) (n : Z) (all : list md_region) : dump_status :=
  match a with
  | Some b => if registers k a n all then On (region_of k b n) else Off
  | None => Off
  end.

(** What a dump that is [x] becomes by a write of [size] MB, when [all] are the
    other regions. *)
Definition status_after (k : dump_kind) (x : dump_status) (size : Z) (a1 a2 : option cma_block)
  (all : list md_region) : dump_status :=
  match x with
  | Lost n => Lost n
  | Off => attempt k a1 (size * SZ_1M) all
  | On r =>
      if size =? 0 then Off
      else match attempt k a1 (size * SZ_1M) all with
           | On r' => On r'
           | _ => attempt k a2 (md_size r) all
           end
  end.

Definition status_regions (x : dump_status) : list md_region :=
  match x with On r => [r] | _ => [] end.

(** Its address and its size. *)
Definition status_dump (x : dump_status) : dump :=
  match x with
  | Off => Dump 0 0
  | On r => Dump (virt_addr r) (md_size r)
  | Lost n => Dump 0 n
  end.

Section Proofs.
Context {S : Type} `{MdRegionApi S}.
Implicit Types (st : @mem_state S).

Definition dump_is (d : dump) (k : dump_kind) (pend rs : list md_region) (x : dump_status) : Prop :=
  match x with
  | Off => d = Dump 0 0 /\ named (dump_name k) (pend ++ rs) = false
  | On r => (r ∈ rs /\ (forall x, x ∈ rs -> phys_addr x = phys_addr r -> x = r)) /\ md_name r = dump_name k /\ d = Dump (virt_addr r) (md_size r) /\
      0 < virt_addr r /\ 0 < md_size r < 2147483648 /\ md_size r mod 4096 = 0
  | Lost n => d = Dump 0 n /\ 0 < n /\ named (dump_name k) (pend ++ rs) = false
  end.

Record mem_rep st (pend rs : list md_region) (f : dump_kind -> dump_status) : Prop := {
  mr_api : api_rep (ms_api st) pend rs;
  mr_dumps k : dump_is (ms_dump st k) k pend rs (f k);
  mr_cma : ms_cma st ≡ₚ blocks f;
  mr_lock : ms_owner_lock st = false;
}.

(** ** Releasing *)

Lemma cma_release_ok st x l :
  ms_cma st ≡ₚ x :: l -> exists st', cma_release st x.1 x.2 = Some st' /\
    exists l', st' = set_cma st l' /\ l' ≡ₚ l.
Proof.
  intros Hp. unfold cma_release. destruct x as [v p]. cbn [fst snd].
  destruct (list_find (eq (v, p)) (ms_cma st)) as [[i y]|] eqn:Hf.
  - apply list_find_Some in Hf as (Hi & <- & _). eexists. split; [reflexivity|].
    eexists. split; [reflexivity|]. apply (Permutation_cons_inv (a := (v, p))).
    rewrite <- Hp. symmetry. by apply delete_Permutation.
  - exfalso. apply list_find_None in Hf. assert ((v, p) ∈ ms_cma st) as Hin.
    { rewrite Hp. by left. }
    apply list_elem_of_lookup in Hin as [i Hi]. eapply Forall_lookup_1 in Hf; [|exact Hi]. by apply Hf.
Qed.

Lemma kind_of_dump_name k : kind_of_name (dump_name k) = Some k.
Proof. by destruct k. Qed.

Lemma dump_name_short k : slen (dump_name k) < MAX_NAME_LENGTH + 1.
Proof. by destruct k. Qed.

Lemma dump_name_inj k k' : dump_name k = dump_name k' -> k = k'.
Proof. by destruct k, k'. Qed.

(** ** Registering and unregistering *)

Lemma whole_pages n :
  0 <= n < 2147483648 -> n mod 4096 = 0 ->
  s32 n = n /\ u64 n = n /\ u64 (Z.shiftr n PAGE_SHIFT) = Z.shiftr n PAGE_SHIFT /\
  Z.shiftl (Z.shiftr n PAGE_SHIFT) PAGE_SHIFT = n.
Proof.
  intros Hn Hm. unfold PAGE_SHIFT. rewrite Z.shiftl_mul_pow2, Z.shiftr_div_pow2 by lia.
  change (2 ^ 12) with 4096. pose proof (Z.div_mod n 4096 ltac:(lia)).
  rewrite s32_small, !u64_small by lia. split_and!; lia.
Qed.

Lemma register_ok st pend rs k a n :
  api_rep (ms_api st) pend rs -> 0 <= n < 2147483648 -> n mod 4096 = 0 ->
  (forall b, a = Some b -> block_ok k b n rs) ->
  exists st', md_register_memory_dump a n (dump_name k) st = Some (registers k a n (pend ++ rs), st') /\
    if registers k a n (pend ++ rs)
    then exists b s', a = Some b /\
      st' = set_addr (set_api (set_cma st (ms_cma st ++ [(cb_virt b, Z.shiftr n PAGE_SHIFT)])) s') k (cb_virt b) /\
      api_rep s' pend (rs ++ [region_of k b n]) /\ named (dump_name k) (pend ++ rs) = false
    else exists l, st' = set_cma st l /\ l ≡ₚ ms_cma st.
Proof.
  intros Hrep Hn Hm Ha. destruct (whole_pages n Hn Hm) as (H1 & H2 & H3 & H4).
  unfold md_register_memory_dump. rewrite H1, H2, H3. destruct a as [b|]; cbn [registers].
  2:{ exists st. split; [done|]. exists (ms_cma st). split; [by destruct st|done]. }
  destruct (Ha b eq_refl) as (Hpos & Hv & Hadd & _).
  rewrite strscpy_fits by apply dump_name_short. cbn [fst ms_api set_cma].
  destruct (api_add_ok _ pend rs (region_of k b n) Hrep Hadd) as (s' & Hr & Hneg & Hok).
  unfold region_of in *. rewrite Hr. cbv beta match.
  destruct (Z.ltb_spec (registry_add (MdRegion (dump_name k) (cb_junk b) (cb_virt b) (cb_phys b) n) (pend ++ rs)).1 0) as [Hlt|Hge].
  - rewrite (proj2 (Z.leb_gt 0 _) Hlt). rewrite (Hneg Hlt).
    destruct (cma_release_ok (set_api (set_cma st (ms_cma st ++ [(cb_virt b, Z.shiftr n PAGE_SHIFT)])) (ms_api st))
      (cb_virt b, Z.shiftr n PAGE_SHIFT) (ms_cma st)) as (st' & Hrel & l & -> & Hl).
    { cbn. by rewrite Permutation_app_comm. }
    cbn [fst snd] in Hrel. rewrite Hrel. eexists. split; [reflexivity|]. by exists l.
  - rewrite (proj2 (Z.leb_le 0 _) Hge), H4, Z.leb_refl. cbn [assert_c]. cbv beta match.
    rewrite kind_of_dump_name. eexists. split; [reflexivity|]. exists b, s'.
    split; [done|]. split; [done|]. split; [by apply (Hok Hge)|].
    unfold registry_add in Hge. unfold EINVAL, ENOMEM, EEXIST in Hge.
    destruct (negb _); [simpl in Hge; lia|]. destruct (_ <=? Z.of_nat _); [simpl in Hge; lia|].
    cbn [md_name] in Hge. destruct (named _ _); [simpl in Hge; lia|done].
Qed.

Lemma unregister_ok junk st pend rs1 r rs2 k l :
  api_rep (ms_api st) pend (rs1 ++ r :: rs2) -> alone r rs1 -> md_name r = dump_name k -> 0 < virt_addr r ->
  ms_cma st ≡ₚ (virt_addr r, Z.shiftr (md_size r) PAGE_SHIFT) :: l ->
  exists st' s' l', md_unregister_memory_dump junk (dump_name k) st = Some (true, st') /\
    st' = set_cma (set_api st s') l' /\ l' ≡ₚ l /\ api_rep s' pend (rs1 ++ rs2).
Proof.
  intros Hrep Hal Hn Hv Hc. unfold md_unregister_memory_dump.
  rewrite (api_get_ok _ _ _ _ Hrep), app_assoc, find_region_mid;
    [|rewrite <- app_assoc; by eapply api_names|done].
  cbv beta match. destruct (Z.eqb_spec (virt_addr r) 0); [lia|].
  rewrite Hn, strscpy_fits by apply dump_name_short. cbn [fst].
  destruct (api_remove_ok _ pend rs1 r rs2 (MdRegion (dump_name k) junk (virt_addr r) (phys_addr r) (md_size r)) Hrep)
    as (s' & -> & Hrep' & _); [by split|done|]. cbv beta match. cbn [Z.ltb Z.compare].
  destruct (cma_release_ok (set_api st s') _ l Hc) as (st' & Hrel & l' & -> & Hl).
  cbn [fst snd] in Hrel. rewrite Hrel. eexists _, s', l'. by split_and!.
Qed.

(** ** The lists *)

Lemma others_off k pend rs : named (dump_name k) (pend ++ rs) = false -> others k rs = rs.
Proof.
  rewrite named_app. intros [_ Hn]%orb_false_iff. apply named_false in Hn.
  unfold others. induction rs as [|r rs IH]; [done|]. rewrite filter_cons. simpl in Hn.
  apply not_elem_of_cons in Hn as [? ?]. rewrite decide_True by congruence. f_equal. by apply IH.
Qed.

Lemma others_on k rs1 r rs2 :
  NoDup (map md_name (rs1 ++ r :: rs2)) -> md_name r = dump_name k ->
  others k (rs1 ++ r :: rs2) = rs1 ++ rs2.
Proof.
  intros Hnd Hn. rewrite map_app in Hnd. cbn [map] in Hnd.
  apply list.NoDup_app in Hnd as (_ & Hd & Hnd). apply list.NoDup_cons in Hnd as [Hr2 _].
  unfold others. rewrite list.filter_app, filter_cons, decide_False by (intros Hc; by apply Hc).
  assert (forall l, dump_name k ∉ map md_name l -> filter (fun r => md_name r <> dump_name k) l = l) as Hall.
  { intros l. induction l as [|x l IH]; [done|]. simpl. intros [? ?]%not_elem_of_cons.
    rewrite filter_cons, decide_True by congruence. f_equal. by apply IH. }
  rewrite !Hall; [done| |].
  - by rewrite <- Hn.
  - intros Hin. apply (Hd _ Hin). rewrite Hn. by left.
Qed.

Lemma others_app_self k rs r : md_name r = dump_name k -> others k (rs ++ [r]) = others k rs.
Proof.
  intros Hn. unfold others. rewrite list.filter_app, filter_cons, filter_nil, decide_False by (intros Hc; by apply Hc).
  apply app_nil_r.
Qed.

(** A region that comes or goes does not matter to the other dumps. *)
Lemma dump_is_app d k k' pend rs r x :
  k' <> k -> md_name r = dump_name k -> alone r rs ->
  dump_is d k' pend rs x -> dump_is d k' pend (rs ++ [r]) x.
Proof.
  intros Hk Hn Hal. assert (named (dump_name k') [r] = false) as Hnot.
  { apply named_false. simpl. intros Heq%list_elem_of_singleton.
    apply Hk, dump_name_inj. congruence. }
  destruct x as [|r'|n]; simpl; rewrite ?app_assoc, ?(named_app _ (pend ++ rs)), ?Hnot, ?orb_false_r; try done.
  intros ((Hin & Hu) & ?). split; [|done]. split; [apply elem_of_app; by left|].
  intros y Hy Hp. apply elem_of_app in Hy as [Hy| ->%list_elem_of_singleton]; [by apply Hu|].
  destruct (Hal r' Hin). by rewrite Hp.
Qed.

Lemma dump_is_removed d k k' pend rs1 r rs2 x :
  k' <> k -> md_name r = dump_name k -> dump_is d k' pend (rs1 ++ r :: rs2) x ->
  dump_is d k' pend (rs1 ++ rs2) x.
Proof.
  intros Hk Hn. assert (forall b, named (dump_name k') (pend ++ rs1 ++ r :: rs2) = b ->
    named (dump_name k') (pend ++ rs1 ++ rs2) = b) as Hnm.
  { intros b <-. rewrite !named_app. change (r :: rs2) with ([r] ++ rs2). rewrite named_app.
    assert (named (dump_name k') [r] = false) as ->; [|done].
    apply named_false. simpl. intros Heq%list_elem_of_singleton. apply Hk, dump_name_inj. congruence. }
  destruct x as [|r'|n]; simpl.
  - intros [? ?]. split; [done|]. by apply Hnm.
  - intros ((Hin & Hu) & Hn' & ?). split; [|done]. split.
    + apply elem_of_app in Hin as [?|Hin]; [apply elem_of_app; by left|].
      apply elem_of_cons in Hin as [->|?]; [|apply elem_of_app; by right].
      exfalso. apply Hk, dump_name_inj. congruence.
    + intros y Hy. apply Hu. apply elem_of_app in Hy as [?|?]; apply elem_of_app; [by left|by right; right].
  - intros (? & ? & ?). split_and!; try done. by apply Hnm.
Qed.

(** ** One write *)

Lemma blocks_with f k x : blocks (with_status f k x) ≡ₚ status_block x ++ blocks (with_status f k Off).
Proof.
  unfold blocks, with_status, all_kinds. destruct k; simpl; try done.
  - apply Permutation_app_swap_app.
  - rewrite (app_assoc _ _ (status_block x ++ _)), Permutation_app_swap_app. by rewrite <- app_assoc.
  - rewrite !(app_assoc (status_block (f PAGEOWNER))), !(app_assoc _ _ (status_block x ++ _)).
    rewrite Permutation_app_swap_app. by rewrite <- !app_assoc.
Qed.

Lemma blocks_ext f g : (forall k, status_block (f k) = status_block (g k)) -> blocks f = blocks g.
Proof. intros Hfg. unfold blocks. simpl. by rewrite !Hfg. Qed.

(** Everything but dump [k] is in order, and [k] has no region. *)
Record without st (pend rs : list md_region) (f : dump_kind -> dump_status) (k : dump_kind) : Prop := {
  wo_api : api_rep (ms_api st) pend rs;
  wo_dumps k' : k' <> k -> dump_is (ms_dump st k') k' pend rs (f k');
  wo_cma : ms_cma st ≡ₚ blocks (with_status f k Off);
  wo_lock : ms_owner_lock st = false;
  wo_name : named (dump_name k) (pend ++ rs) = false;
}.

Lemma mem_rep_without st pend rs f k :
  mem_rep st pend rs f -> f k = Off \/ (exists n, f k = Lost n) -> without st pend rs f k.
Proof.
  intros [Ha Hd Hc Hl] Hk. split; try done.
  - rewrite Hc. apply Permutation_refl'. apply blocks_ext. intros k'. unfold with_status.
    destruct (decide (k' = k)) as [->|]; [|done]. by destruct Hk as [->|[n ->]].
  - specialize (Hd k). destruct Hk as [Hk|[n Hk]]; rewrite Hk in Hd; apply Hd.
Qed.

Lemma without_off st pend rs f k :
  without st pend rs f k -> ms_dump st k = Dump 0 0 -> mem_rep st pend rs (with_status f k Off).
Proof.
  intros [Ha Hd Hc Hl Hn] Hk. split; try done. intros k'. unfold with_status.
  destruct (decide (k' = k)) as [->|Hne]; [|by apply Hd]. by split.
Qed.

(** Only dump [k] and the order of the blocks change. *)
Lemma without_ext st st' pend rs f k :
  without st pend rs f k -> ms_api st' = ms_api st -> ms_owner_lock st' = ms_owner_lock st ->
  (forall k', k' <> k -> ms_dump st' k' = ms_dump st k') -> ms_cma st' ≡ₚ ms_cma st ->
  without st' pend rs f k.
Proof.
  intros [Ha Hd Hc Hl Hn] Ha' Hl' Hd' Hc'. split; try congruence.
  - intros k' Hk'. rewrite Hd' by done. by apply Hd.
  - by rewrite Hc'.
Qed.

Lemma ms_dump_set st k d : ms_dump (set_dump st k d) k = d.
Proof. cbn. by rewrite decide_True. Qed.

Lemma ms_dump_set_ne st k k' d : k' <> k -> ms_dump (set_dump st k d) k' = ms_dump st k'.
Proof. intros. cbn. by rewrite decide_False. Qed.

Lemma without_on st st' pend rs f k b s n :
  without st pend rs f k -> block_ok k b n rs -> n < 2147483648 -> n mod 4096 = 0 ->
  api_rep s pend (rs ++ [region_of k b n]) ->
  ms_api st' = s -> ms_owner_lock st' = ms_owner_lock st -> ms_dump st' k = Dump (cb_virt b) n ->
  (forall k', k' <> k -> ms_dump st' k' = ms_dump st k') ->
  ms_cma st' ≡ₚ ms_cma st ++ [(cb_virt b, Z.shiftr n PAGE_SHIFT)] ->
  mem_rep st' pend (rs ++ [region_of k b n]) (with_status f k (On (region_of k b n))).
Proof.
  intros [Ha Hd Hc Hl Hn] (Hpos & Hv & Hadd & Hal) Hmax Hmod Hrep Hs Hl' Hdk Hd' Hc'. split.
  - by rewrite Hs.
  - intros k'. unfold with_status. destruct (decide (k' = k)) as [->|Hne].
    + split; [split; [apply elem_of_app; right; by left|]|by rewrite Hdk].
      intros x Hx Hp. apply elem_of_app in Hx as [Hx| ->%list_elem_of_singleton]; [by destruct (Hal x Hx)|done].
    + rewrite Hd' by done. apply (dump_is_app _ k); [done|done|done|by apply Hd].
  - rewrite Hc', Hc, (blocks_with f k (On _)). apply Permutation_app_comm.
  - by rewrite Hl'.
Qed.

(** A registration when dump [k] has no region; [st2] is the state the caller
    makes of it. *)
Lemma register_without st pend rs f k a n :
  without st pend rs f k -> 0 <= n < 2147483648 -> n mod 4096 = 0 ->
  (forall b, a = Some b -> block_ok k b n rs) ->
  exists st', md_register_memory_dump a n (dump_name k) st = Some (registers k a n (pend ++ rs), st') /\
    dump_size (ms_dump st' k) = dump_size (ms_dump st k) /\
    if registers k a n (pend ++ rs)
    then exists b, a = Some b /\
      forall st2, st2 = set_size st' k n \/ (st2 = st' /\ dump_size (ms_dump st k) = n) ->
      mem_rep st2 pend (rs ++ [region_of k b n]) (with_status f k (On (region_of k b n)))
    else without st' pend rs f k /\ ms_dump st' k = ms_dump st k.
Proof.
  intros Hwo Hn Hm Ha. destruct (register_ok st pend rs k a n (wo_api _ _ _ _ _ Hwo) Hn Hm Ha) as (st' & Hr & Hcase).
  exists st'. split; [exact Hr|]. destruct (registers k a n (pend ++ rs)).
  - destruct Hcase as (b & s' & Hb & -> & Hrep & _). split; [unfold set_addr; by rewrite ms_dump_set|].
    exists b. split; [done|]. intros st2 Hst2.
    assert (ms_dump st2 k = Dump (cb_virt b) n) as Hdk.
    { destruct Hst2 as [->|[-> Hsz]]; unfold set_size, set_addr; rewrite !ms_dump_set; [done|]. cbn. by rewrite Hsz. }
    apply (without_on st st2 pend rs f k b s' n Hwo (Ha b Hb)); try done; try lia;
      destruct Hst2 as [->|[-> _]]; try done; intros k' Hk'; unfold set_size, set_addr; by rewrite !ms_dump_set_ne.
  - destruct Hcase as (l & -> & Hl). split; [done|]. split; [|done]. by apply (without_ext st).
Qed.

Lemma megabytes size : 0 <= size < 2048 ->
  u64 (size * SZ_1M) = size * SZ_1M /\ 0 <= size * SZ_1M < 2147483648 /\ (size * SZ_1M) mod 4096 = 0.
Proof.
  intros Hs. unfold SZ_1M. rewrite u64_small by lia. split_and!; try lia.
  replace (size * 1048576) with (size * 256 * 4096) by lia. apply Z.mod_mul. lia.
Qed.

(** The writes that change dump [k] from off: to the new size or not at all. *)
Lemma update_from_off junk st pend rs f k size a1 a2 :
  mem_rep st pend rs f -> f k = Off -> 0 <= size < 2048 ->
  (forall b, a1 = Some b -> block_ok k b (size * SZ_1M) (others k rs)) ->
  let x := status_after k Off size a1 a2 (pend ++ others k rs) in
  exists st', update_dump_size junk k size a1 a2 st = Some st' /\
    mem_rep st' pend (others k rs ++ status_regions x) (with_status f k x).
Proof.
  intros Hrep Hk Hsz Ha. destruct (megabytes size Hsz) as (Hu & Hr & Hm).
  pose proof (mem_rep_without _ _ _ _ k Hrep (or_introl Hk)) as Hwo.
  pose proof (mr_dumps _ _ _ _ Hrep k) as Hd. rewrite Hk in Hd. destruct Hd as [Hd Hn].
  rewrite (others_off _ _ _ Hn) in *. unfold update_dump_size. rewrite Hu, Hd. cbn [dump_size Z.eqb].
  destruct (register_without st pend rs f k a1 _ Hwo Hr Hm Ha) as (st' & -> & Hsize & Hcase).
  cbn [status_after]. unfold attempt. destruct (registers k a1 _ _).
  - destruct Hcase as (b & -> & Hst2). eexists. split; [reflexivity|]. apply Hst2. by left.
  - destruct Hcase as [Hwo' Hd']. replace (match a1 with Some _ => Off | None => Off end) with Off by (by destruct a1).
    eexists. split; [reflexivity|]. cbn [status_regions]. rewrite app_nil_r.
    apply without_off; [done|by rewrite Hd', Hd].
Qed.

Lemma status_on st pend rs f k r :
  mem_rep st pend rs f -> f k = On r ->
  exists rs1 rs2, rs = rs1 ++ r :: rs2 /\ alone r rs1 /\ others k rs = rs1 ++ rs2 /\ md_name r = dump_name k /\
    ms_dump st k = Dump (virt_addr r) (md_size r) /\ 0 < virt_addr r /\
    0 < md_size r < 2147483648 /\ md_size r mod 4096 = 0 /\
    ms_cma st ≡ₚ (virt_addr r, Z.shiftr (md_size r) PAGE_SHIFT) :: blocks (with_status f k Off).
Proof.
  intros Hrep Hk. pose proof (mr_dumps _ _ _ _ Hrep k) as Hd. rewrite Hk in Hd.
  destruct Hd as ((Hin & Hal) & Hn & Hd & Hv & Hsz & Hm).
  apply list_elem_of_split in Hin as (rs1 & rs2 & ->). exists rs1, rs2. split; [done|].
  pose proof (api_names _ _ _ (mr_api _ _ _ _ Hrep)) as Hnd. rewrite map_app in Hnd.
  apply list.NoDup_app in Hnd as (_ & _ & Hnd). split.
  { intros x Hx Hp. assert (x = r) as -> by (apply Hal; [by apply elem_of_app; left|done]).
    rewrite map_app in Hnd. cbn [map] in Hnd. apply list.NoDup_app in Hnd as (_ & Hdis & _).
    apply (Hdis (md_name r)); [by apply list_elem_of_In, in_map, list_elem_of_In|by left]. }
  split; [by apply others_on|]. do 5 (split; [done|]).
  rewrite (mr_cma _ _ _ _ Hrep), <- (blocks_ext (with_status f k (On r))).
  - by rewrite blocks_with.
  - intros k'. unfold with_status. destruct (decide (k' = k)) as [->|]; [by rewrite Hk|done].
Qed.

(** After the region of dump [k] is unregistered. *)
Lemma unregister_without junk st pend rs f k r :
  mem_rep st pend rs f -> f k = On r ->
  exists st', md_unregister_memory_dump junk (dump_name k) st = Some (true, st') /\
    without st' pend (others k rs) f k /\ ms_dump st' = ms_dump st.
Proof.
  intros Hrep Hk. destruct (status_on st pend rs f k r Hrep Hk)
    as (rs1 & rs2 & -> & Hal & Ho & Hn & Hd & Hv & Hsz & Hm & Hc).
  pose proof (mr_api _ _ _ _ Hrep) as Ha.
  destruct (unregister_ok junk st pend rs1 r rs2 k _ Ha Hal Hn Hv Hc) as (st' & s' & l' & -> & -> & Hl' & Ha').
  eexists. split; [reflexivity|]. rewrite Ho. split; [|done]. split; try done; try apply Hrep.
  - intros k' Hk'. apply (dump_is_removed _ k _ _ _ r); [done|done|apply (mr_dumps _ _ _ _ Hrep)].
  - pose proof (api_names _ _ _ Ha) as Hnd. apply named_false.
    rewrite !map_app in *. cbn [map] in Hnd. rewrite Hn in Hnd. rewrite app_assoc in *.
    apply NoDup_ListNoDup, List.NoDup_remove_2 in Hnd. by rewrite list_elem_of_In.
Qed.

(** The writes to dump [k] when it is on. *)
Lemma update_from_on junk st pend rs f k r size a1 a2 :
  mem_rep st pend rs f -> f k = On r -> 0 <= size < 2048 ->
  (forall b, a1 = Some b -> block_ok k b (size * SZ_1M) (others k rs)) ->
  (forall b, a2 = Some b -> block_ok k b (md_size r) (others k rs)) ->
  let x := status_after k (On r) size a1 a2 (pend ++ others k rs) in
  exists st', update_dump_size junk k size a1 a2 st = Some st' /\
    mem_rep st' pend (others k rs ++ status_regions x) (with_status f k x).
Proof.
  intros Hrep Hk Hsz Ha1 Ha2. destruct (megabytes size Hsz) as (Hu & Hr & Hm).
  destruct (status_on st pend rs f k r Hrep Hk) as (rs1 & rs2 & _ & _ & _ & _ & Hd & _ & Hrs & Hrm & _).
  destruct (unregister_without junk st pend rs f k r Hrep Hk) as (st1 & Hun & Hwo & Hd1).
  unfold update_dump_size. rewrite Hu, Hd. cbn [dump_size].
  destruct (Z.eqb_spec (md_size r) 0); [lia|]. rewrite Hun. cbv beta match. cbn [negb].
  set (st2 := set_addr st1 k 0).
  assert (without st2 pend (others k rs) f k) as Hwo2.
  { apply (without_ext st1); try done. intros k' Hk'. by apply ms_dump_set_ne. }
  assert (ms_dump st2 k = Dump 0 (md_size r)) as Hd2.
  { unfold st2, set_addr. rewrite ms_dump_set, Hd1, Hd. done. }
  assert (forall st', without st' pend (others k rs) f k -> ms_dump st' k = Dump 0 (md_size r) ->
    mem_rep (set_size st' k 0) pend (others k rs) (with_status f k Off)) as Hoff.
  { intros st' Hwo' Hd'. apply without_off; [|unfold set_size; by rewrite ms_dump_set, Hd'].
    apply (without_ext st'); try done. intros k' Hk'. by apply ms_dump_set_ne. }
  cbn [status_after]. destruct (Z.eqb_spec size 0).
  { eexists. split; [reflexivity|]. cbn [status_regions]. rewrite app_nil_r. by apply Hoff. }
  destruct (register_without st2 pend _ f k a1 _ Hwo2 Hr Hm Ha1) as (st3 & -> & Hs3 & Hcase).
  unfold attempt. destruct (registers k a1 _ _).
  { destruct Hcase as (b & -> & Hst). eexists. split; [reflexivity|]. apply Hst. by left. }
  replace (match a1 with Some _ => Off | None => Off end) with Off by (by destruct a1).
  destruct Hcase as [Hwo3 Hd3]. rewrite Hd3, Hd2. cbn [dump_size].
  destruct (register_without st3 pend _ f k a2 (md_size r) Hwo3 ltac:(lia) Hrm Ha2) as (st4 & -> & Hs4 & Hcase).
  destruct (registers k a2 _ _).
  - destruct Hcase as (b & -> & Hst). eexists. split; [reflexivity|]. apply Hst. right.
    split; [done|]. by rewrite Hd3, Hd2.
  - destruct Hcase as [Hwo4 Hd4]. replace (match a2 with Some _ => Off | None => Off end) with Off by (by destruct a2).
    eexists. split; [reflexivity|]. cbn [status_regions]. rewrite app_nil_r.
    apply Hoff; [done|by rewrite Hd4, Hd3, Hd2].
Qed.

(** A dump that could not be registered at boot stays so: the write tries to
    unregister it first. *)
Lemma update_lost junk st pend rs f k n size a1 a2 :
  mem_rep st pend rs f -> f k = Lost n -> update_dump_size junk k size a1 a2 st = Some st.
Proof.
  intros Hrep Hk. pose proof (mr_dumps _ _ _ _ Hrep k) as Hd. rewrite Hk in Hd. destruct Hd as (Hd & Hn & Hnm).
  unfold update_dump_size, md_unregister_memory_dump. rewrite Hd. cbn [dump_size].
  destruct (Z.eqb_spec n 0); [lia|].
  rewrite (api_get_ok _ _ _ _ (mr_api _ _ _ _ Hrep)), find_region_None by done. done.
Qed.

Lemma mem_rep_ext st pend rs f g : (forall k, f k = g k) -> mem_rep st pend rs f -> mem_rep st pend rs g.
Proof.
  intros Hfg [Ha Hd Hc Hl]. split; try done.
  - intros k. rewrite <- Hfg. apply Hd.
  - rewrite Hc. apply Permutation_refl', blocks_ext. intros k. by rewrite Hfg.
Qed.

Lemma mem_rep_dump st pend rs f k x : mem_rep st pend rs (with_status f k x) -> ms_dump st k = status_dump x.
Proof.
  intros Hrep. pose proof (mr_dumps _ _ _ _ Hrep k) as Hd. unfold with_status in Hd. rewrite decide_True in Hd by done.
  destruct x; [apply Hd..]. 
Qed.

(** Any write. *)
Lemma update_dump_size_ok junk st pend rs f k size a1 a2 :
  mem_rep st pend rs f -> 0 <= size < 2048 ->
  (forall b, a1 = Some b -> block_ok k b (size * SZ_1M) (others k rs)) ->
  (forall b, a2 = Some b -> block_ok k b (dump_size (ms_dump st k)) (others k rs)) ->
  let x := status_after k (f k) size a1 a2 (pend ++ others k rs) in
  exists st', update_dump_size junk k size a1 a2 st = Some st' /\
    mem_rep st' pend (others k rs ++ status_regions x) (with_status f k x) /\
    ((exists n, f k = Lost n) -> st' = st).
Proof.
  intros Hrep Hsz Ha1 Ha2. pose proof (mr_dumps _ _ _ _ Hrep k) as Hd. destruct (f k) as [|r|n] eqn:Hf.
  - destruct (update_from_off junk st pend rs f k size a1 a2 Hrep Hf Hsz Ha1) as (st' & Hu & Hr).
    exists st'. split; [exact Hu|]. split; [exact Hr|]. by intros [n ?].
  - destruct Hd as (_ & _ & Hd & _). rewrite Hd in Ha2. cbn [dump_size] in Ha2.
    destruct (update_from_on junk st pend rs f k r size a1 a2 Hrep Hf Hsz Ha1 Ha2) as (st' & Hu & Hr).
    exists st'. split; [exact Hu|]. split; [exact Hr|]. by intros [n ?].
  - exists st. split; [by apply (update_lost _ _ _ _ _ _ n _ _ _ Hrep Hf)|]. split; [|done].
    destruct Hd as (_ & _ & Hnm). cbn [status_after status_regions].
    rewrite (others_off _ _ _ Hnm), app_nil_r. apply (mem_rep_ext _ _ _ f); [|done].
    intros k'. unfold with_status. case_decide; [by subst|done].
Qed.
End Proofs.

(** ** Sizes above 2 GB

    The size in bytes is converted to an [int] on its way to the allocator,
    but recorded as it is. *)
Section Wrap.
Context {S : Type} `{MdRegionApi S}.

Lemma update_wraps junk (st : @mem_state S) pend rs f k b a2 :
  mem_rep st pend rs f -> f k = Off -> block_ok k b SZ_1M rs ->
  registers k (Some b) SZ_1M (pend ++ rs) = true ->
  exists st' s', update_dump_size junk k 4097 (Some b) a2 st = Some st' /\
    ms_dump st' k = Dump (cb_virt b) (4097 * SZ_1M) /\
    ms_cma st' = ms_cma st ++ [(cb_virt b, 256)] /\
    ms_api st' = s' /\ api_rep s' pend (rs ++ [region_of k b SZ_1M]).
Proof.
  intros Hrep Hk Hb Hreg. pose proof (mr_dumps _ _ _ _ Hrep k) as Hd. rewrite Hk in Hd. destruct Hd as [Hd Hn].
  unfold update_dump_size. rewrite Hd. cbn [dump_size Z.eqb].
  change (md_register_memory_dump (Some b) (u64 (4097 * SZ_1M)) (dump_name k) st)
    with (md_register_memory_dump (Some b) SZ_1M (dump_name k) st).
  destruct (register_ok st pend rs k (Some b) SZ_1M (mr_api _ _ _ _ Hrep)) as (st' & Hr & Hcase);
    [by vm_compute|done|by intros b' [= <-]|].
  rewrite Hreg in Hr, Hcase. destruct Hcase as (b' & s' & [= <-] & -> & Ha & _).
  rewrite Hr. eexists _, s'. split; [reflexivity|]. unfold set_size. rewrite ms_dump_set. cbn.
  rewrite decide_True by done. by split_and!.
Qed.
End Wrap.
