(* ===== verification/MdPageOwner.v ===== *)
(** * The page owner dump (minidump_memory.c, lines 340-719)

    At a panic the owners of all allocated pages are printed into the
    PAGEOWNER dump: a line per page, with the addresses of its stack the first
    time the stack occurs.  The end of the dump serves as a table of the
    stacks printed so far.  Which pages are printed is set by debugfs files.

    What the kernel knows of its pages is an argument: [pages] by page frame
    number, [stacks] by stack handle, and the texts of [%p] and [%pS]. *)

From S2P Require Import Prelude CMem CStr CText CPrint MdMemDump.
From Stdlib Require Import Ascii.

#[local] Open Scope string_scope.
#[local] Open Scope list_scope.
#[local] Open Scope Z_scope.

(** ** Data *)

(** What is looked up for a page: [pfn_valid], the order of a free block that
    starts with it, its page_ext with two flags and the handle of its stack,
    and its flags. *)
Record page_info := PageInfo {
  pg_valid : bool;
  pg_buddy : option Z;
  pg_ext : bool;
  pg_owner : bool;
  pg_allocated : bool;
  pg_handle : Z;
  pg_flags : Z;
}.

(** The file-scope variables; [ow_addr] and [ow_size] are the dump's address
    and size, [ow_mem] the memory it lies in. *)
Record owner_state := OwnerState {
  ow_mem : mem;
  ow_addr : Z;
  ow_size : Z;
  page_owner_filter : Z;
  page_owner_handles_size : Z;
  nr_handles : Z;
  call_sites : list string;
}.

Definition set_ow_mem (s : owner_state) (m : mem) : owner_state :=
  OwnerState m (ow_addr s) (ow_size s) (page_owner_filter s) (page_owner_handles_size s)
    (nr_handles s) (call_sites s).

Definition set_handles (s : owner_state) (m : mem) (n : Z) : owner_state :=
  OwnerState m (ow_addr s) (ow_size s) (page_owner_filter s) (page_owner_handles_size s)
    n (call_sites s).

(** ** The stacks printed so far *)

(** [handles[i]], [n] of them from [i], is [handle]. *)
Fixpoint find_handle (m : mem) (handles handle : Z) (n : nat) (i : Z) : option bool :=
  match n with
  | O => Some false
  | S n' =>
      let* h := load32 m (handles + 4 * i) in
      if handle =? h then Some true else find_handle m handles handle n' (i + 1)
  end.

Definition handles_start (s : owner_state) : Z := ow_addr s + ow_size s - page_owner_handles_size s.

(** The table [start, hi) holds [n] handles: is [handle] one of them?  If not
    it is added, if there is room. *)
Definition lookup_handle (m : mem) (start hi n handle : Z) : option (bool * mem * Z) :=
  let* b := find_handle m start handle (Z.to_nat n) 0 in
  if b : bool then Some (true, m, n)
  else if start + 4 * n <? hi then
    let* m := store32 m (start + 4 * n) handle in
    Some (false, m, n + 1)
  else Some (false, m, n).

Definition found_stack (handle : Z) (s : owner_state) : option (bool * owner_state) :=
  let* (b, m, n) :=
    lookup_handle (ow_mem s) (handles_start s) (ow_addr s + ow_size s) (nr_handles s) handle in
  Some (b, set_handles s m n).

(** [strnstr(s, name, strlen(s))]: does [name] occur in [s]? *)
Fixpoint contains (name s : string) : bool :=
  String.prefix name s || match s with EmptyString => false | String _ s' => contains name s' end.

Section PageOwner.
Context (pages : Z -> page_info) (stacks : Z -> list Z) (ptr_text sym_text : Z -> string).
Context (PG_lru PG_slab PG_swapbacked MAX_ORDER : Z).

Definition flag_bit (b : Z) : Z := Z.shiftl 1 b.

Definition has_flag (flags b : Z) : bool := negb (Z.land flags (flag_bit b) =? 0).

(** ** Which pages are printed *)

(** The loop over the entries of the stack; the buffer is used as scratch. *)
Fixpoint check_entries (entries : list Z) (m : mem) (buf count : Z) (sites : list string)
  : option (bool * mem) :=
  match entries with
  | [] => Some (true, m)
  | e :: entries =>
      let* (ret, m) := scnprintf_to m buf count (sym_text e +:+ nl) in
      if ret =? count - 1 then Some (false, m)
      else
        let* text := load_cstr m buf (Z.to_nat (m_hi m - buf)) in
        if existsb (fun site => contains site text) sites then Some (false, m)
        else check_entries entries m buf count sites
  end.

Definition check_unaccounted (buf count flags handle : Z) (s : owner_state)
  : option (bool * owner_state) :=
  if negb (Z.land flags (Z.lor (Z.lor (flag_bit PG_lru) (flag_bit PG_slab)) (flag_bit PG_swapbacked)) =? 0)
  then Some (false, s)
  else
    let* (b, m) := check_entries (stacks handle) (ow_mem s) buf count (call_sites s) in
    Some (b, set_ow_mem s m).

(** The loop over the bits of the filter: does it reach [dump]?  It returns at
    bit 8 at the latest. *)
Fixpoint filter_loop (bits : list Z) (buf count flags handle : Z) (s : owner_state)
  : option (bool * owner_state) :=
  match bits with
  | [] => Some (false, s)
  | bit :: bits =>
      if page_owner_filter s <? bit then Some (false, s)
      else
        let* (dump, s) :=
          if Z.land (page_owner_filter s) bit =? 0 then Some (false, s)
          else if bit =? 1 then check_unaccounted buf count flags handle s
          else if bit =? 2 then Some (has_flag flags PG_slab, s)
          else if bit =? 4 then Some (has_flag flags PG_swapbacked, s)
          else if bit =? 8 then
            Some (has_flag flags PG_lru &&
                  negb (u64 (Z.lnot (Z.land flags (flag_bit PG_swapbacked))) =? 0), s)
          else Some (false, s) in
        if dump : bool then Some (true, s)
        else if 8 <=? bit then Some (false, s)
        else filter_loop bits buf count flags handle s
  end.

(** ** Printing a page *)

(** The addresses of the stack; [ret] characters are printed. *)
Fixpoint dump_entries (entries : list Z) (m : mem) (buf count ret : Z) : option (Z * mem) :=
  match entries with
  | [] => Some (ret, m)
  | e :: entries =>
      let* (n, m) := scnprintf_to m (buf + ret) (u64 (count - ret)) (ptr_text e +:+ nl) in
      let ret := ret + n in
      if ret =? count - 1 then Some (ret, m) else dump_entries entries m buf count ret
  end.

Definition owner_line (pfn handle nr : Z) : string :=
  fmt_u pfn +:+ " " +:+ fmt_u handle +:+ " " +:+ fmt_u nr +:+ nl.

(** A record: the line for a number of entries, and the entries, unless their
    stack was [found] in the table. *)
Definition print_record (line : Z -> string) (entries : list Z) (m : mem) (buf count : Z)
  (found : bool) : option (Z * mem) :=
  let nr := if found then 0 else Z.of_nat (length entries) in
  let* (ret, m) := scnprintf_to m buf count (line nr) in
  if found || (ret =? count - 1) then Some (ret, m)
  else dump_entries entries m buf count ret.

Definition print_owner (buf count pfn handle : Z) (s : owner_state) : option (Z * owner_state) :=
  let* (found, s) :=
    if handles_start s <? buf then Some (false, s) else found_stack handle s in
  let* (ret, m) :=
    print_record (owner_line pfn handle) (stacks handle) (ow_mem s) buf count found in
  Some (ret, set_ow_mem s m).

Definition dump_page_owner_md (buf count pfn handle : Z) (s : owner_state)
  : option (Z * owner_state) :=
  let flags := pg_flags (pages pfn) in
  let* (dump, s) :=
    if page_owner_filter s =? 0xF then Some (true, s)
    else filter_loop [1; 2; 4; 8] buf count flags handle s in
  if dump : bool then print_owner buf count pfn handle s else Some (0, s).

(** ** The walk over the pages *)

Definition MAX_ORDER_NR_PAGES : Z := Z.shiftl 1 (MAX_ORDER - 1).

(** One round of the loop: the next page, and the handle when the owner of
    this one is to be printed. *)
Definition visit_page (pfn : Z) : Z * option Z :=
  let p := pages pfn in
  if (Z.land pfn (MAX_ORDER_NR_PAGES - 1) =? 0) && negb (pg_valid p)
  then (u64 (pfn + MAX_ORDER_NR_PAGES), None)
  else
    match pg_buddy p with
    | Some order => (if order <? MAX_ORDER then u64 (pfn + Z.shiftl 1 order) else u64 (pfn + 1), None)
    | None =>
        (u64 (pfn + 1),
         if pg_ext p && pg_owner p && pg_allocated p && negb (pg_handle p =? 0)
         then Some (pg_handle p) else None)
    end.

(** The first loop: to a valid page or the start of an area. *)
Fixpoint first_pfn (fuel : nat) (pfn : Z) : option Z :=
  if negb (pg_valid (pages pfn)) && negb (Z.land pfn (MAX_ORDER_NR_PAGES - 1) =? 0) then
    match fuel with
    | O => None
    | S fuel => first_pfn fuel (u64 (pfn + 1))
    end
  else Some pfn.

(** The second loop. *)
Fixpoint owner_loop (fuel : nat) (max_pfn pfn addr dump_size : Z) (s : owner_state)
  : option owner_state :=
  if max_pfn <=? pfn then Some s
  else
    match fuel with
    | O => None
    | S fuel =>
        match visit_page pfn with
        | (next, None) => owner_loop fuel max_pfn next addr dump_size s
        | (next, Some handle) =>
            let* (size, s) := dump_page_owner_md addr dump_size pfn handle s in
            if size =? dump_size - 1 then Some s
            else owner_loop fuel max_pfn next (addr + size) (dump_size - size) s
        end
    end.

Definition md_dump_pageowner (min_low_pfn max_pfn addr dump_size : Z) (s : owner_state)
  : option owner_state :=
  let* pfn := first_pfn (Z.to_nat MAX_ORDER_NR_PAGES) min_low_pfn in
  owner_loop (Z.to_nat (max_pfn - pfn)) max_pfn pfn addr dump_size s.
End PageOwner.

(** ** The debugfs files

    [parse] is the result of [kstrtoul_from_user]. *)

Definition set_filter (s : owner_state) (f : Z) : owner_state :=
  OwnerState (ow_mem s) (ow_addr s) (ow_size s) f (page_owner_handles_size s) (nr_handles s)
    (call_sites s).

Definition set_handles_size (s : owner_state) (n : Z) : owner_state :=
  OwnerState (ow_mem s) (ow_addr s) (ow_size s) (page_owner_filter s) n (nr_handles s) (call_sites s).

Definition set_call_sites (s : owner_state) (l : list string) : owner_state :=
  OwnerState (ow_mem s) (ow_addr s) (ow_size s) (page_owner_filter s) (page_owner_handles_size s)
    (nr_handles s) l.

Definition page_owner_filter_write (parse : option Z) (count : Z) (s : owner_state)
  : Z * owner_state :=
  match parse with
  | None => (- EINVAL, s)
  | Some filter =>
      if negb (Z.land filter (u64 (Z.lnot 0xF)) =? 0) then (- EINVAL, s)
      else (count, set_filter s filter)
  end.

Definition page_owner_filter_read (count pos : Z) (s : owner_state) : Z * string * Z :=
  simple_read_from_buffer count pos (scnprintf 64 ("0x" +:+ fmt_x (page_owner_filter s) +:+ nl)).

Definition page_owner_handle_write (parse : option Z) (count : Z) (s : owner_state)
  : Z * owner_state :=
  match parse with
  | None => (- EINVAL, s)
  | Some size =>
      if size =? 0 then (count, s)
      else if ow_size s / SZ_16K <? size then (count, s)
      else (count, set_handles_size s (u64 (size * SZ_1K)))
  end.

Definition page_owner_handle_read (count pos : Z) (s : owner_state) : Z * string * Z :=
  simple_read_from_buffer count pos
    (scnprintf 64 (fmt_u (page_owner_handles_size s / SZ_1K) +:+ " KB" +:+ nl)).

(** [isalpha] (lib/ctype.c: Latin 1). *)
Definition isalpha (c : ascii) : bool :=
  let b := char_code c in
  ((65 <=? b) && (b <=? 90)) || ((97 <=? b) && (b <=? 122)) ||
  ((192 <=? b) && negb (b =? 215) && negb (b =? 247)).

(** [input] is what [copy_from_user] copies up to the first NUL, [None] a
    fault; [alloc] whether the entry is allocated. *)
Definition page_owner_call_site_write (input : option string) (alloc : bool) (count : Z)
  (s : owner_state) : Z * owner_state :=
  if 50 <=? count then (- EINVAL, s)
  else
    match input with
    | None => (- EFAULT, s)
    | Some buf =>
        let c := match buf with EmptyString => zero | String c _ => c end in
        if negb (isalpha c) && negb (Ascii.eqb c "_") then (- EINVAL, s)
        else if negb alloc then (- ENOMEM, s)
        else (count, set_call_sites s (call_sites s ++ [(strscpy buf 50).1]))
    end.

(** The loop of [page_owner_call_site_read]: [ret] characters are printed, the
    site numbers start at [i]; [None] in the result is -ENOMEM. *)
Fixpoint call_sites_text (sites : list string) (i ret size : Z) (text : string)
  : option string :=
  match sites with
  | [] => Some text
  | site :: sites =>
      let line := scnprintf (size - ret) (fmt_d i +:+ ". " +:+ site +:+ nl) in
      let ret := ret + slen line in
      let text := text +:+ line in
      if ret =? size then None else call_sites_text sites (i + 1) ret size text
  end.

(** The first line is printed with the reader's [count] as the size. *)
Definition page_owner_call_site_read (PAGE_SIZE : Z) (alloc : bool) (count pos : Z)
  (s : owner_state) : Z * string * Z :=
  if negb alloc then (- ENOMEM, "", pos)
  else
    let first := scnprintf count ("Accounted call sites:" +:+ nl) in
    match call_sites_text (call_sites s) 1 (slen first) PAGE_SIZE first with
    | None => (- ENOMEM, "", pos)
    | Some text => simple_read_from_buffer count pos text
    end.
