(* ===== verification/MdPageOwnerProofs.v ===== *)
(** * The page owner dump: its text

    [owned_pages] lists the pages with an owner, [owner_text] is the dump as a
    function of such a list: a record for each selected page, with the stack's addresses unless the stack is known.
    The code prints it, cut to the size of the dump, with the table of known
    stacks in the same memory; it stays inside the dump for every filter, and
    both loops end. *)

From S2P Require Import Prelude CMem CStr CText CPrint MdMemDump MdPageOwner.

#[local] Open Scope string_scope.
#[local] Open Scope list_scope.
#[local] Open Scope Z_scope.

#[local] Arguments String.append : simpl nomatch.

(** ** Strings in memory *)

Lemma cstr_at_app m m' a s t :
  cstr_at m a s -> (forall x, a <= x < a + slen s -> byte m' x = byte m x) ->
  cstr_at m' (a + slen s) t -> cstr_at m' a (s +:+ t).
Proof.
  unfold slen. revert a. induction s as [|c s IH]; intros a Hs Hb Ht; simpl in *.
  - by rewrite Z.add_0_r in Ht.
  - destruct Hs as [Hc Hs]. split.
    + rewrite <- Hc. apply ld_ext. intros; apply Hb; lia.
    + apply IH; [done|intros; apply Hb; lia|].
      by replace (a + 1 + Z.of_nat (String.length s)) with (a + Z.of_nat (S (String.length s))) by lia.
Qed.

Lemma cstr_at_end m a s : cstr_at m a s -> ld m (a + slen s) 1 = 0.
Proof.
  unfold slen. revert a. induction s as [|c s IH]; intros a Hs; simpl in *; [by rewrite Z.add_0_r|].
  destruct Hs as [_ Hs]. specialize (IH _ Hs).
  by replace (a + Z.of_nat (S (String.length s))) with (a + 1 + Z.of_nat (String.length s)) by lia.
Qed.

Lemma stake_stake i j s : stake i (stake j s) = stake (Nat.min i j) s.
Proof. revert i j. induction s as [|c s IH]; intros [|i] [|j]; simpl; try done. by rewrite IH. Qed.

(** ** The table of stacks *)

Definition handles_at (m : mem) (start : Z) (seen : list Z) : Prop :=
  forall i h, seen !! i = Some h -> ld m (start + 4 * Z.of_nat i) 4 = h.

Lemma handles_at_loads m start n :
  handles_at m start (map (fun i => ld m (start + 4 * Z.of_nat i) 4) (seq 0 n)).
Proof.
  intros i h Hi. apply list_lookup_fmap_Some in Hi as (j & -> & Hj).
  apply lookup_seq in Hj as [-> _]. done.
Qed.

Lemma find_handle_from m start h seen pre :
  handles_at m start (pre ++ seen) -> m_lo m <= start ->
  start + 4 * Z.of_nat (length (pre ++ seen)) <= m_hi m ->
  find_handle m start h (length seen) (Z.of_nat (length pre)) = Some (bool_decide (h ∈ seen)).
Proof.
  revert pre. induction seen as [|x seen IH]; intros pre Hat Hlo Hhi; simpl.
  { done. }
  rewrite length_app in Hhi. simpl in Hhi.
  assert ((pre ++ x :: seen) !! length pre = Some x) as Hx
    by (by rewrite lookup_app_r, Nat.sub_diag by lia).
  rewrite load32_ok, (Hat _ _ Hx) by lia.
  cbv beta match. destruct (Z.eqb_spec h x) as [->|Hne].
  - by rewrite bool_decide_eq_true_2 by left.
  - assert ((pre ++ [x]) ++ seen = pre ++ x :: seen) as Happ by (by rewrite <- app_assoc).
    specialize (IH (pre ++ [x])). rewrite Happ, !length_app in IH. simpl in IH.
    replace (Z.of_nat (length pre) + 1) with (Z.of_nat (length pre + 1)) by lia.
    rewrite IH by (done || lia). f_equal.
    apply bool_decide_ext. rewrite elem_of_cons. tauto.
Qed.

Lemma find_handle_spec m start h seen :
  handles_at m start seen -> m_lo m <= start -> start + 4 * Z.of_nat (length seen) <= m_hi m ->
  find_handle m start h (length seen) 0 = Some (bool_decide (h ∈ seen)).
Proof. exact (find_handle_from m start h seen []). Qed.

(** ** The state *)

Record owner_ok (s : owner_state) : Prop := {
  oo_lo : m_lo (ow_mem s) <= ow_addr s;
  oo_hi : ow_addr s + ow_size s <= m_hi (ow_mem s);
  oo_size : 0 < ow_size s <= INT_MAX_SIZE;
  oo_handles : 0 <= page_owner_handles_size s <= ow_size s;
  oo_align : page_owner_handles_size s mod 4 = 0;
  oo_nr : 0 <= nr_handles s /\ 4 * nr_handles s <= page_owner_handles_size s;
}.

(** Only the memory of the dump and the number of handles differ. *)
Record same_dump (s s' : owner_state) : Prop := {
  sd_mem : mod_only (ow_addr s) (ow_addr s + ow_size s) (ow_mem s) (ow_mem s');
  sd_addr : ow_addr s' = ow_addr s;
  sd_size : ow_size s' = ow_size s;
  sd_filter : page_owner_filter s' = page_owner_filter s;
  sd_handles : page_owner_handles_size s' = page_owner_handles_size s;
  sd_sites : call_sites s' = call_sites s;
}.

Lemma same_dump_refl s : same_dump s s.
Proof. by split. Qed.

Lemma same_dump_trans s1 s2 s3 : same_dump s1 s2 -> same_dump s2 s3 -> same_dump s1 s3.
Proof.
  intros [H1 H2 H3 H4 H5 H6] [J1 J2 J3 J4 J5 J6]. split; try congruence.
  rewrite H2, H3 in J1. by eapply mod_only_trans.
Qed.

Lemma same_dump_mem s m' :
  mod_only (ow_addr s) (ow_addr s + ow_size s) (ow_mem s) m' -> same_dump s (set_ow_mem s m').
Proof. intros H. by split. Qed.

Lemma owner_ok_mem s m' :
  owner_ok s -> mod_only (ow_addr s) (ow_addr s + ow_size s) (ow_mem s) m' -> owner_ok (set_ow_mem s m').
Proof. intros [H1 H2 H3 H4 H5 H6] (Hl & Hh & _). split; cbn; try done; lia. Qed.

Definition add_handle (s : owner_state) (h : Z) (seen : list Z) : list Z :=
  if bool_decide (h ∈ seen) then seen
  else if 4 * Z.of_nat (length seen) <? page_owner_handles_size s then seen ++ [h] else seen.

(** The table after a lookup, in terms of the handles it held. *)
Lemma lookup_handle_ok m start hi h seen :
  handles_at m start seen -> m_lo m <= start -> hi <= m_hi m ->
  4 * Z.of_nat (length seen) <= hi - start -> (hi - start) mod 4 = 0 -> 0 <= h < 4294967296 ->
  let seen' := if bool_decide (h ∈ seen) then seen
               else if 4 * Z.of_nat (length seen) <? hi - start then seen ++ [h] else seen in
  exists m', lookup_handle m start hi (Z.of_nat (length seen)) h
      = Some (bool_decide (h ∈ seen), m', Z.of_nat (length seen')) /\
    mod_only start hi m m' /\ handles_at m' start seen' /\ 4 * Z.of_nat (length seen') <= hi - start.
Proof.
  intros Hat Hlo Hhi Hn Hal Hr. cbv zeta. unfold lookup_handle. rewrite Nat2Z.id.
  rewrite find_handle_spec by (done || lia). cbv beta match.
  case_bool_decide as Hin; [by exists m|].
  destruct (Z.ltb_spec (4 * Z.of_nat (length seen)) (hi - start)) as [Hlt|Hge].
  - pose proof (Z.div_mod (hi - start) 4 ltac:(lia)) as Hdm. decide_tests.
    rewrite store32_ok by lia. eexists. rewrite length_app. split; [do 2 f_equal; simpl; lia|].
    split; [eapply mod_only_weaken; [| |apply mod_only_st]; lia|]. split; [|simpl; lia].
    intros i x Hi. apply lookup_app_Some in Hi as [Hi|[Hge Hi]].
    + pose proof (lookup_lt_Some _ _ _ Hi). rewrite ld_st_ne by lia. by apply Hat.
    + apply list_lookup_singleton_Some in Hi as [Hi ->].
      replace i with (length seen) by lia. by rewrite ld32_st32.
  - decide_tests. by exists m.
Qed.

(** Whatever the table holds, a lookup writes to the table only. *)
Lemma lookup_handle_safe m start hi n h :
  m_lo m <= start -> hi <= m_hi m -> 0 <= n -> 4 * n <= hi - start -> (hi - start) mod 4 = 0 ->
  0 <= h < 4294967296 ->
  exists b m' n', lookup_handle m start hi n h = Some (b, m', n') /\ mod_only start hi m m' /\
    0 <= n' /\ 4 * n' <= hi - start.
Proof.
  intros Hlo Hhi Hn Hle Hal Hr.
  pose proof (lookup_handle_ok m start hi h _ (handles_at_loads m start (Z.to_nat n))) as H.
  rewrite length_map, length_seq, Z2Nat.id in H by lia.
  destruct (H Hlo Hhi Hle Hal Hr) as (m' & Hr' & Hm & _ & Hl). eexists _, m', _.
  split; [exact Hr'|]. split; [done|]. split; [lia|exact Hl].
Qed.

Lemma found_stack_ok s h seen :
  owner_ok s -> handles_at (ow_mem s) (handles_start s) seen -> nr_handles s = Z.of_nat (length seen) ->
  0 <= h < 4294967296 ->
  exists s', found_stack h s = Some (bool_decide (h ∈ seen), s') /\ owner_ok s' /\ same_dump s s' /\
    mod_only (handles_start s) (ow_addr s + ow_size s) (ow_mem s) (ow_mem s') /\
    handles_at (ow_mem s') (handles_start s) (add_handle s h seen) /\
    nr_handles s' = Z.of_nat (length (add_handle s h seen)).
Proof.
  intros [Hlo Hhi Hsz Hh Hal Hnr] Hat Hn Hr. unfold found_stack, add_handle.
  assert (ow_addr s + ow_size s - handles_start s = page_owner_handles_size s) as Hst
    by (unfold handles_start; lia).
  pose proof (lookup_handle_ok (ow_mem s) (handles_start s) (ow_addr s + ow_size s) h seen Hat) as H.
  rewrite Hst in H. rewrite Hn in *. destruct H as (m' & -> & Hm & Hat' & Hle); [lia..|].
  eexists. split; [reflexivity|]. pose proof Hm as (Hl & Hh' & _). split; [|split; [|by split_and!]].
  - split; cbn; try done; lia.
  - split; try done. cbn. eapply mod_only_weaken; [| |exact Hm]; lia.
Qed.

(** ** Printing into the dump *)

(** Like [scnprintf_to_ok], with the bytes written bounded by the text. *)
Lemma scnprintf_to_exact m a n s :
  0 < n <= INT_MAX_SIZE -> m_lo m <= a -> a + n <= m_hi m ->
  exists m', scnprintf_to m a n s = Some (Z.min (n - 1) (slen s), m') /\
    mod_only a (a + Z.min (n - 1) (slen s) + 1) m m' /\ cstr_at m' a (stake (Z.to_nat (n - 1)) s).
Proof.
  intros Hn Hlo Hhi. unfold scnprintf_to. decide_tests. rewrite !slen_scnprintf by lia.
  destruct (store_cstr_ok m a (scnprintf n s)) as (m' & -> & Hm & Hs);
    rewrite ?slen_scnprintf by lia; [lia..|].
  exists m'. split; [done|]. by rewrite slen_scnprintf in Hm by lia.
Qed.

Section PageOwner.
Context (pages : Z -> page_info) (stacks : Z -> list Z) (ptr_text sym_text : Z -> string).
Context (PG_lru PG_slab PG_swapbacked MAX_ORDER : Z).

Definition stack_text (l : list Z) : string :=
  String.concat "" (map (fun e => ptr_text e +:+ nl) l).

Lemma stack_text_cons e l : stack_text (e :: l) = (ptr_text e +:+ nl) +:+ stack_text l.
Proof. unfold stack_text. simpl. destruct l; simpl; [by rewrite sapp_nil_r|done]. Qed.

Lemma dump_entries_ok l m buf count pre :
  cstr_at m buf pre -> slen pre < count - 1 -> count <= INT_MAX_SIZE ->
  m_lo m <= buf -> buf + count <= m_hi m ->
  exists m', dump_entries ptr_text l m buf count (slen pre)
      = Some (Z.min (count - 1) (slen (pre +:+ stack_text l)), m') /\
    mod_only buf (buf + Z.min (count - 1) (slen (pre +:+ stack_text l)) + 1) m m' /\
    cstr_at m' buf (stake (Z.to_nat (count - 1)) (pre +:+ stack_text l)).
Proof.
  revert m pre. induction l as [|e l IH]; intros m pre Hat Hpre Hc Hlo Hhi; pose proof (slen_nonneg pre).
  { exists m. cbn [dump_entries stack_text map String.concat]. rewrite sapp_nil_r, stake_all by lia.
    rewrite Z.min_r by lia. split; [done|]. split; [apply mod_only_refl|done]. }
  cbn [dump_entries]. rewrite u64_small by (unfold INT_MAX_SIZE in *; lia).
  set (t := ptr_text e +:+ nl). pose proof (slen_nonneg t).
  destruct (scnprintf_to_exact m (buf + slen pre) (count - slen pre) t) as (m1 & -> & Hm1 & Hs1); [lia..|].
  cbv beta match. rewrite stack_text_cons, sapp_assoc. fold t.
  pose proof (slen_nonneg (stack_text l)).
  assert (cstr_at m1 buf (pre +:+ stake (Z.to_nat (count - slen pre - 1)) t)) as Hs.
  { apply cstr_at_app with (m := m); [done| |done]. intros x Hx. symmetry. apply Hm1. lia. }
  destruct (Z.eqb_spec (slen pre + Z.min (count - slen pre - 1) (slen t)) (count - 1)) as [Hf|Hne].
  - exists m1. rewrite !slen_app. split; [do 2 f_equal; lia|]. split.
    + eapply mod_only_weaken; [| |exact Hm1]; lia.
    + rewrite stake_app_le by (rewrite slen_app; lia). rewrite stake_app_ge by lia.
      by replace (Z.to_nat (count - 1) - Z.to_nat (slen pre))%nat
        with (Z.to_nat (count - slen pre - 1)) by lia.
  - rewrite stake_all in Hs by lia.
    replace (slen pre + Z.min (count - slen pre - 1) (slen t)) with (slen (pre +:+ t))
      by (rewrite slen_app; lia).
    destruct Hm1 as (Hl1 & Hh1 & Hb1).
    destruct (IH m1 (pre +:+ t) Hs) as (m2 & -> & Hm2 & Hs2); [rewrite ?slen_app; lia..|].
    exists m2. split; [done|]. split; [|done].
    eapply mod_only_trans; [|exact Hm2].
    split_and!; [done..|]. intros x Hx. apply Hb1. rewrite !slen_app in Hx. lia.
Qed.

(** A record is printed where it should be, cut to the room. *)
Definition record_text (line : Z -> string) (entries : list Z) (found : bool) : string :=
  if found then line 0 else line (Z.of_nat (length entries)) +:+ stack_text entries.

Lemma print_record_ok line entries m buf count (found : bool) :
  0 < count <= INT_MAX_SIZE -> m_lo m <= buf -> buf + count <= m_hi m ->
  exists m', print_record ptr_text line entries m buf count found
      = Some (Z.min (count - 1) (slen (record_text line entries found)), m') /\
    mod_only buf (buf + Z.min (count - 1) (slen (record_text line entries found)) + 1) m m' /\
    cstr_at m' buf (stake (Z.to_nat (count - 1)) (record_text line entries found)).
Proof.
  intros Hc Hlo Hhi. unfold record_text, print_record.
  set (text := line (if found then 0 else Z.of_nat (length entries))).
  destruct (scnprintf_to_exact m buf count text) as (m1 & -> & Hm1 & Hs1); [lia..|]. cbv beta match.
  destruct found; subst text; simpl orb; cbv beta match; [by exists m1|].
  set (text := line (Z.of_nat (length entries))) in *. pose proof (slen_nonneg (stack_text entries)).
  destruct (Z.eqb_spec (Z.min (count - 1) (slen text)) (count - 1)) as [Hf|Hne].
  - exists m1. rewrite slen_app. replace (Z.min (count - 1) (slen text + slen (stack_text entries)))
      with (Z.min (count - 1) (slen text)) by lia.
    split; [done|]. split; [done|]. by rewrite stake_app_le by lia.
  - rewrite stake_all in Hs1 by lia. rewrite Z.min_r by lia. destruct Hm1 as (Hl1 & Hh1 & Hb1).
    destruct (dump_entries_ok entries m1 buf count text Hs1) as (m2 & -> & Hm2 & Hs2); [lia..|].
    exists m2. split; [done|]. split; [|done]. eapply mod_only_trans; [|exact Hm2].
    split_and!; [done..|]. intros x Hx. apply Hb1. rewrite slen_app in Hx. lia.
Qed.

(** The record of a page; [found]: its stack is known. *)
Definition owner_record (found : bool) (pfn handle : Z) : string :=
  record_text (owner_line pfn handle) (stacks handle) found.

(** The end of a text at the start of the table clears the first byte of the
    table. *)
Definition clobber (seen : list Z) : list Z :=
  match seen with [] => [] | h :: seen => h / 256 * 256 :: seen end.

(** The handles the table holds when the text printed has [pos] characters. *)
Definition seen_at (s : owner_state) (pos : Z) (seen : list Z) : list Z :=
  if pos =? ow_size s - page_owner_handles_size s then clobber seen else seen.

Lemma handles_at_keep lo hi m m' start seen :
  mod_only lo hi m m' -> hi <= start -> handles_at m start seen -> handles_at m' start seen.
Proof. intros Hm Hhi Hat i h Hi. rewrite (ld_mod_only _ _ _ _ _ _ Hm) by lia. by apply Hat. Qed.

Lemma handles_at_clobber lo m m' start seen :
  mod_only lo (start + 1) m m' -> lo <= start -> ld m' start 1 = 0 ->
  handles_at m start seen -> handles_at m' start (clobber seen).
Proof.
  intros Hm Hlo Hz Hat i h Hi. destruct seen as [|h0 seen]; [done|]. destruct i as [|i]; simpl in Hi.
  - injection Hi as <-. specialize (Hat O h0 eq_refl). simpl in Hat. rewrite Z.add_0_r in *.
    assert (ld m' (start + 1) 3 = ld m (start + 1) 3) as Hr by (by apply (ld_mod_only _ _ _ _ _ _ Hm); lia).
    change (ld m start 4) with (byte m start + 256 * ld m (start + 1) 3) in Hat.
    change (ld m' start 4) with (byte m' start + 256 * ld m' (start + 1) 3).
    change (ld m' start 1) with (byte m' start + 256 * 0) in Hz.
    pose proof (byte_range m start).
    assert (h0 / 256 = ld m (start + 1) 3) as -> by
      (symmetry; apply (Z.div_unique_pos _ _ _ (byte m start)); lia). lia.
  - rewrite (ld_mod_only _ _ _ _ _ _ Hm) by lia. by apply (Hat (S i)).
Qed.

(** The result, the text and the table after a record. *)
Lemma print_owner_ok s buf count pfn handle seen :
  owner_ok s -> ow_addr s <= buf -> buf + count = ow_addr s + ow_size s -> 0 < count ->
  0 <= handle < 4294967296 ->
  (buf <= handles_start s ->
   handles_at (ow_mem s) (handles_start s) seen /\ nr_handles s = Z.of_nat (length seen)) ->
  let found := (buf <=? handles_start s) && bool_decide (handle ∈ seen) in
  let r := owner_record found pfn handle in
  exists s', print_owner stacks ptr_text buf count pfn handle s = Some (Z.min (count - 1) (slen r), s') /\
    owner_ok s' /\ same_dump s s' /\
    mod_only buf (ow_addr s + ow_size s) (ow_mem s) (ow_mem s') /\
    cstr_at (ow_mem s') buf (stake (Z.to_nat (count - 1)) r) /\
    (buf + slen r <= handles_start s ->
     let seen := seen_at s (buf + slen r - ow_addr s) (add_handle s handle seen) in
     handles_at (ow_mem s') (handles_start s) seen /\ nr_handles s' = Z.of_nat (length seen)).
Proof.
  intros Hok Hlo Hcount Hc Hh Htab found r. unfold print_owner.
  assert (exists s1, (if handles_start s <? buf then Some (false, s) else found_stack handle s)
      = Some (found, s1) /\ owner_ok s1 /\ same_dump s s1 /\
    mod_only buf (ow_addr s + ow_size s) (ow_mem s) (ow_mem s1) /\
    (buf <= handles_start s -> handles_at (ow_mem s1) (handles_start s) (add_handle s handle seen) /\
      nr_handles s1 = Z.of_nat (length (add_handle s handle seen)))) as (s1 & -> & Hok1 & Hsd1 & Hm1 & Htab1).
  { subst found. destruct (Z.ltb_spec (handles_start s) buf), (Z.leb_spec buf (handles_start s)); try lia.
    - exists s. split_and!; try done; lia.
    - destruct (Htab ltac:(lia)) as [Hat Hn].
      destruct (found_stack_ok s handle seen Hok Hat Hn Hh) as (s1 & Hr & Hok1 & Hsd1 & Hm1 & Hat1 & Hn1).
      exists s1. rewrite andb_true_l. split_and!; try done.
      eapply mod_only_weaken; [| |exact Hm1]; lia. }
  cbv beta match. pose proof Hsd1 as [_ Ha1 Hs1 _ Hhs1 _]. pose proof Hok1 as [Hl1 Hh1 Hz1 Hb1 _ Hnr1].
  destruct (print_record_ok (owner_line pfn handle) (stacks handle) (ow_mem s1) buf count found) as (m2 & Hr2 & Hm2 & Hs2); [lia..|].
  fold (owner_record found pfn handle) in Hr2, Hm2, Hs2. fold r in Hr2, Hm2, Hs2. rewrite Hr2. cbv beta match. pose proof (slen_nonneg r).
  exists (set_ow_mem s1 m2). split; [done|].
  assert (mod_only buf (ow_addr s + ow_size s) (ow_mem s1) m2) as Hm2'
    by (eapply mod_only_weaken; [| |exact Hm2]; lia).
  assert (mod_only (ow_addr s1) (ow_addr s1 + ow_size s1) (ow_mem s1) m2) as Hm2''
    by (eapply mod_only_weaken; [| |exact Hm2]; lia).
  split; [by apply owner_ok_mem|]. split; [eapply same_dump_trans; [exact Hsd1|by apply same_dump_mem]|].
  split; [by eapply mod_only_trans|]. split; [done|].
  intros Hend. destruct (Htab1 ltac:(lia)) as [Hat Hn]. unfold seen_at, handles_start in *. cbn.
  destruct (Z.eqb_spec (buf + slen r - ow_addr s) (ow_size s - page_owner_handles_size s)) as [Heq|Hne];
    split; try done.
  - destruct (add_handle s handle seen) as [|h0 l] eqn:El; [done|]. rewrite <- El in *.
    rewrite El in Hn. cbn in Hn.
    apply (handles_at_clobber buf (ow_mem s1)); [|lia| |done].
    + eapply mod_only_weaken; [| |exact Hm2]; lia.
    + apply cstr_at_end in Hs2. rewrite stake_all in Hs2 by lia.
      replace (ow_addr s + ow_size s - page_owner_handles_size s) with (buf + slen r) by lia. done.
  - by destruct (add_handle s handle seen).
  - eapply handles_at_keep; [exact Hm2|lia|done].
Qed.

(** ** Which pages are printed *)

(** What the filters without the bit 0x1 select. *)
Definition selected (filter flags : Z) : bool :=
  (filter =? 0xF) ||
  (negb (Z.land filter 2 =? 0) && has_flag flags PG_slab) ||
  (negb (Z.land filter 4 =? 0) && has_flag flags PG_swapbacked) ||
  (negb (Z.land filter 8 =? 0) && has_flag flags PG_lru).

Lemma land_pow2 x b : 0 <= b -> Z.land x (2 ^ b) = if Z.testbit x b then 2 ^ b else 0.
Proof.
  intros Hb. apply Z.bits_inj'. intros n Hn. rewrite Z.land_spec, Z.pow2_bits_eqb by done.
  destruct (Z.eqb_spec b n) as [<-|Hne]; destruct (Z.testbit x b) eqn:E;
    rewrite ?Z.bits_0, ?Z.pow2_bits_eqb, ?E by done; try done; try lia;
    by rewrite ?andb_false_r; try (symmetry; apply Z.eqb_neq).
Qed.

(** The test with [~] in place of [!] always succeeds. *)
Lemma lnot_flag flags b :
  0 <= b < 64 -> negb (u64 (Z.lnot (Z.land flags (flag_bit b))) =? 0) = true.
Proof.
  intros Hb. unfold flag_bit. rewrite Z.shiftl_1_l.
  assert (0 <= Z.land flags (2 ^ b) <= 2 ^ b) as Hx.
  { rewrite land_pow2 by lia. pose proof (Z.pow_pos_nonneg 2 b). destruct (Z.testbit flags b); lia. }
  assert (2 ^ b <= 9223372036854775808) by (apply (Z.pow_le_mono_r 2 b 63); lia).
  unfold u64. rewrite <- (Z.mod_unique (Z.lnot (Z.land flags (2 ^ b))) 18446744073709551616 (-1)
    (18446744073709551615 - Z.land flags (2 ^ b))) by (unfold Z.lnot in *; lia).
  destruct (Z.eqb_spec (18446744073709551615 - Z.land flags (2 ^ b)) 0); [lia|done].
Qed.

(** The loop of [check_unaccounted] writes to the free part of the dump only. *)
Lemma check_entries_ok l m buf count sites :
  0 < count <= INT_MAX_SIZE -> m_lo m <= buf -> buf + count <= m_hi m ->
  exists b m', check_entries sym_text l m buf count sites = Some (b, m') /\ mod_only buf (buf + count) m m'.
Proof.
  intros Hc. revert m. induction l as [|e l IH]; intros m Hlo Hhi; cbn [check_entries]; [by eexists _, _|].
  destruct (scnprintf_to_ok m buf count (sym_text e +:+ nl)) as (m1 & -> & Hm1 & _); [lia..|].
  cbv beta match. destruct (_ =? _); [by eexists _, _|]. pose proof Hm1 as (Hl1 & Hh1 & _).
  destruct (load_cstr_total m1 buf (Z.to_nat (m_hi m1 - buf))) as [t ->]; [lia..|]. cbv beta match.
  destruct (existsb _ _); [by eexists _, _|].
  destruct (IH m1) as (b & m2 & -> & Hm2); [lia..|]. exists b, m2. split; [done|].
  by eapply mod_only_trans.
Qed.

Definition page_filter (buf count flags handle : Z) (s : owner_state) : option (bool * owner_state) :=
  if page_owner_filter s =? 0xF then Some (true, s)
  else filter_loop stacks sym_text PG_lru PG_slab PG_swapbacked [1; 2; 4; 8] buf count flags handle s.

(** Every filter: no fault; the dump is the only memory that changes. *)
Lemma filter_loop_ok bits buf count flags handle s :
  owner_ok s -> ow_addr s <= buf -> buf + count = ow_addr s + ow_size s -> 0 < count ->
  exists b m', filter_loop stacks sym_text PG_lru PG_slab PG_swapbacked bits buf count flags handle s
      = Some (b, set_ow_mem s m') /\ mod_only buf (buf + count) (ow_mem s) m'.
Proof.
  intros Hok Hlo Hcount Hc. revert s Hok Hlo Hcount. induction bits as [|bit bits IH]; intros s Hok Hlo Hcount; cbn [filter_loop].
  { exists false, (ow_mem s). by destruct s. }
  destruct (page_owner_filter s <? bit); [exists false, (ow_mem s); by destruct s|].
  match goal with |- context [match ?e with Some _ => _ | None => None end] =>
    assert (exists b m', e = Some (b, set_ow_mem s m') /\ mod_only buf (buf + count) (ow_mem s) m') as (b & m1 & -> & Hm1)
  end.
  { pose proof Hok as [Hl Hh Hz _ _ _].
    assert (set_ow_mem s (ow_mem s) = s) as Hs by (by destruct s).
    repeat match goal with |- context [if ?c then _ else _] => destruct c end;
      try (eexists _, (ow_mem s); rewrite Hs; by split).
    unfold check_unaccounted. destruct (negb _); [eexists _, (ow_mem s); rewrite Hs; by split|].
    destruct (check_entries_ok (stacks handle) (ow_mem s) buf count (call_sites s)) as (b & m' & -> & Hm'); [lia..|].
    by exists b, m'. }
  cbv beta match. destruct b; [by eexists _, _|]. destruct (8 <=? bit); [by eexists _, _|].
  destruct (IH (set_ow_mem s m1)) as (b & m2 & Hr & Hm2); [|done|done|].
  { apply owner_ok_mem; [done|]. eapply mod_only_weaken; [| |exact Hm1]; lia. }
  rewrite Hr. exists b, m2. split; [done|]. by eapply mod_only_trans.
Qed.

Lemma page_filter_ok buf count flags handle s :
  owner_ok s -> ow_addr s <= buf -> buf + count = ow_addr s + ow_size s -> 0 < count ->
  exists b m', page_filter buf count flags handle s = Some (b, set_ow_mem s m') /\
    mod_only buf (buf + count) (ow_mem s) m'.
Proof.
  intros. unfold page_filter. destruct (_ =? _); [|by apply filter_loop_ok].
  exists true, (ow_mem s). by destruct s.
Qed.

(** Without the bit 0x1 nothing is printed on the way. *)
Lemma page_filter_selects buf count flags handle s :
  0 <= PG_swapbacked < 64 -> 0 <= page_owner_filter s < 16 ->
  page_owner_filter s = 0xF \/ Z.land (page_owner_filter s) 1 = 0 ->
  page_filter buf count flags handle s = Some (selected (page_owner_filter s) flags, s).
Proof.
  intros Hb Hf Hbit. unfold page_filter, selected. cbn [filter_loop]. rewrite lnot_flag, andb_true_r by done.
  destruct s as [m a n f hs nh cs]. cbn [page_owner_filter] in *.
  assert (f ∈ map Z.of_nat (seq 0 16)) as Hin.
  { apply list_elem_of_fmap. exists (Z.to_nat f). rewrite elem_of_seq. lia. }
  destruct (has_flag flags PG_slab) eqn:E1, (has_flag flags PG_swapbacked) eqn:E2, (has_flag flags PG_lru) eqn:E3;
    simpl in Hin; rewrite !elem_of_cons in Hin;
    repeat destruct Hin as [-> | Hin]; try reflexivity;
    first [by apply not_elem_of_nil in Hin | destruct Hbit as [Hbit|Hbit]; discriminate Hbit].
Qed.

(** ** The walk over the pages *)

Hypothesis orders : forall pfn order, pg_buddy (pages pfn) = Some order -> 0 <= order.
Hypothesis handles_u32 : forall pfn, 0 <= pg_handle (pages pfn) < 4294967296.
Hypothesis max_order : 1 <= MAX_ORDER.

Lemma visit_page_next max pfn :
  0 <= pfn < max -> max + MAX_ORDER_NR_PAGES MAX_ORDER <= 18446744073709551616 ->
  pfn < (visit_page pages MAX_ORDER pfn).1.
Proof.
  intros Hpfn Hmax. unfold visit_page. set (M := MAX_ORDER_NR_PAGES MAX_ORDER) in *.
  assert (M = 2 ^ (MAX_ORDER - 1)) as HM by (subst M; unfold MAX_ORDER_NR_PAGES; by rewrite Z.shiftl_1_l).
  pose proof (Z.pow_pos_nonneg 2 (MAX_ORDER - 1) ltac:(lia) ltac:(lia)).
  destruct (_ && _); cbn [fst]; [rewrite u64_small; lia|].
  destruct (pg_buddy (pages pfn)) as [order|] eqn:Hb; cbn [fst]; [|rewrite u64_small; lia].
  specialize (orders _ _ Hb). destruct (Z.ltb_spec order MAX_ORDER); [|rewrite u64_small; lia].
  rewrite Z.shiftl_1_l. assert (2 ^ order <= M) by (rewrite HM; apply Z.pow_le_mono_r; lia).
  pose proof (Z.pow_pos_nonneg 2 order ltac:(lia) ltac:(lia)). rewrite u64_small; lia.
Qed.

Lemma visit_page_handle pfn next handle :
  visit_page pages MAX_ORDER pfn = (next, Some handle) -> 0 <= handle < 4294967296.
Proof.
  unfold visit_page. destruct (_ && _); [done|]. destruct (pg_buddy _); [done|].
  destruct (_ && _); [|done]. intros [= _ <-]. apply handles_u32.
Qed.

(** The first loop ends at the start of an area at the latest. *)
Lemma first_pfn_ok fuel pfn j :
  (j <= fuel)%nat -> 0 <= pfn -> pfn + Z.of_nat j < 18446744073709551616 ->
  (pfn + Z.of_nat j) mod MAX_ORDER_NR_PAGES MAX_ORDER = 0 ->
  exists p, first_pfn pages MAX_ORDER fuel pfn = Some p /\ pfn <= p <= pfn + Z.of_nat j.
Proof.
  assert (forall x, Z.land x (MAX_ORDER_NR_PAGES MAX_ORDER - 1) = x mod MAX_ORDER_NR_PAGES MAX_ORDER) as Hland.
  { intros x. unfold MAX_ORDER_NR_PAGES. rewrite Z.shiftl_1_l, Z.sub_1_r, <- Z.ones_equiv.
    apply Z.land_ones. lia. }
  revert pfn j. induction fuel as [|fuel IH]; intros pfn j Hj Hlo Hhi Hmod; cbn [first_pfn]; rewrite Hland.
  - assert (j = O) as -> by lia. rewrite Z.add_0_r in Hmod. rewrite Hmod, andb_false_r.
    exists pfn. split; [done|lia].
  - destruct (negb (pg_valid (pages pfn))) eqn:Hv; [|exists pfn; split; [done|lia]].
    destruct (Z.eqb_spec (pfn mod MAX_ORDER_NR_PAGES MAX_ORDER) 0) as [|Hne]; [exists pfn; split; [done|lia]|].
    cbn. destruct j as [|j]; [rewrite Z.add_0_r in Hmod; lia|]. rewrite u64_small by lia.
    destruct (IH (pfn + 1) j) as (p & -> & Hp); [lia..| |exists p; split; [done|lia]].
    by replace (pfn + 1 + Z.of_nat j) with (pfn + Z.of_nat (S j)) by lia.
Qed.

Lemma first_pfn_total pfn :
  0 <= pfn -> pfn + MAX_ORDER_NR_PAGES MAX_ORDER <= 18446744073709551616 ->
  exists p, first_pfn pages MAX_ORDER (Z.to_nat (MAX_ORDER_NR_PAGES MAX_ORDER)) pfn = Some p /\ pfn <= p.
Proof.
  intros Hlo Hhi. set (M := MAX_ORDER_NR_PAGES MAX_ORDER) in *.
  assert (0 < M) by (subst M; unfold MAX_ORDER_NR_PAGES; rewrite Z.shiftl_1_l; apply Z.pow_pos_nonneg; lia).
  pose proof (Z.mod_pos_bound (- pfn) M ltac:(lia)).
  destruct (first_pfn_ok (Z.to_nat M) pfn (Z.to_nat ((- pfn) mod M))) as (p & Hp & Hle); [lia..| |].
  - fold M. rewrite Z2Nat.id by lia. rewrite Zplus_mod_idemp_r. by rewrite Z.add_opp_diag_r, Z.mod_0_l by lia.
  - exists p. split; [done|lia].
Qed.

(** ** Every filter: both loops end and only the dump is written *)

Lemma dump_page_safe buf count pfn handle s :
  owner_ok s -> ow_addr s <= buf -> buf + count = ow_addr s + ow_size s -> 0 < count ->
  0 <= handle < 4294967296 ->
  exists n s', dump_page_owner_md pages stacks ptr_text sym_text PG_lru PG_slab PG_swapbacked
      buf count pfn handle s = Some (n, s') /\ 0 <= n < count /\ owner_ok s' /\ same_dump s s'.
Proof.
  intros Hok Hlo Hcount Hc Hh. unfold dump_page_owner_md.
  destruct (page_filter_ok buf count (pg_flags (pages pfn)) handle s) as (b & m' & Hr & Hm); [done..|].
  unfold page_filter in Hr. rewrite Hr. cbv beta match.
  assert (mod_only (ow_addr s) (ow_addr s + ow_size s) (ow_mem s) m') as Hm'
    by (eapply mod_only_weaken; [| |exact Hm]; lia).
  assert (owner_ok (set_ow_mem s m')) as Hok' by (by apply owner_ok_mem).
  destruct b; [|exists 0, (set_ow_mem s m'); pose proof (same_dump_mem s m' Hm'); split_and!; done || lia].
  destruct (print_owner_ok (set_ow_mem s m') buf count pfn handle
    (map (fun i => ld m' (handles_start s + 4 * Z.of_nat i) 4) (seq 0 (Z.to_nat (nr_handles s)))))
    as (s2 & Hr2 & Hok2 & Hsd2 & _); [done..| |].
  { intros _. split; [apply handles_at_loads|]. rewrite length_map, length_seq. cbn.
    pose proof (oo_nr s Hok). lia. }
  rewrite Hr2. eexists _, s2. split; [reflexivity|]. split; [|split; [done|]].
  - match goal with |- context [slen ?r] => pose proof (slen_nonneg r) end. lia.
  - eapply same_dump_trans; [by apply same_dump_mem|done].
Qed.

Lemma owner_loop_safe fuel max pfn addr count s :
  max + MAX_ORDER_NR_PAGES MAX_ORDER <= 18446744073709551616 ->
  0 <= pfn -> max - pfn <= Z.of_nat fuel ->
  owner_ok s -> ow_addr s <= addr -> addr + count = ow_addr s + ow_size s -> 0 < count ->
  exists s', owner_loop pages stacks ptr_text sym_text PG_lru PG_slab PG_swapbacked MAX_ORDER
      fuel max pfn addr count s = Some s' /\ same_dump s s'.
Proof.
  intros Hmax. revert pfn addr count s. induction fuel as [|fuel IH]; intros pfn addr count s Hpfn Hf Hok Hlo Hcount Hc;
    cbn [owner_loop]; destruct (Z.leb_spec max pfn); try (exists s; split; [done|apply same_dump_refl]); [lia|].
  pose proof (visit_page_next max pfn ltac:(lia) Hmax) as Hnext.
  destruct (visit_page pages MAX_ORDER pfn) as [next [handle|]] eqn:Hv; cbn [fst] in Hnext; [|apply IH; done || lia].
  destruct (dump_page_safe addr count pfn handle s) as (n & s1 & -> & Hn & Hok1 & Hsd1);
    [done..|by eapply visit_page_handle|].
  cbv beta match. destruct (n =? count - 1); [by exists s1|].
  pose proof Hsd1 as [_ Ha Hs _ _ _].
  destruct (IH next (addr + n) (count - n) s1) as (s2 & -> & Hsd2); [lia|lia|done|lia|lia|lia|].
  exists s2. split; [done|]. by eapply same_dump_trans.
Qed.

(** ** The text of the dump *)

(** The pages with an owner, in the order of the walk. *)
Fixpoint walk (fuel : nat) (max pfn : Z) : list (Z * Z) :=
  if max <=? pfn then []
  else
    match fuel with
    | O => []
    | S fuel =>
        match visit_page pages MAX_ORDER pfn with
        | (next, None) => walk fuel max next
        | (next, Some handle) => (pfn, handle) :: walk fuel max next
        end
    end.

(** The same list without the code: page by page from [pfn] on, an area that
    is missing skipped as a whole, a free block of an order below [MAX_ORDER]
    as well, and of the other pages those that are owned: they have a page_ext
    whose owner is recorded, are allocated, and have the handle of a stack. *)
Definition area_pages : Z := 2 ^ (MAX_ORDER - 1).

Definition missing_area (pfn : Z) : bool := (pfn mod area_pages =? 0) && negb (pg_valid (pages pfn)).

Definition owned (p : page_info) : bool :=
  match pg_buddy p with Some _ => false | None => true end &&
  pg_ext p && pg_owner p && pg_allocated p && negb (pg_handle p =? 0).

Definition skip (pfn : Z) : Z :=
  if missing_area pfn then area_pages
  else match pg_buddy (pages pfn) with
       | Some order => if order <? MAX_ORDER then 2 ^ order else 1
       | None => 1
       end.

Fixpoint owned_pages (fuel : nat) (max pfn : Z) : list (Z * Z) :=
  match fuel with
  | O => []
  | S fuel =>
      if pfn <? max then
        (if negb (missing_area pfn) && owned (pages pfn) then [(pfn, pg_handle (pages pfn))] else [])
        ++ owned_pages fuel max (pfn + skip pfn)
      else []
  end.

Lemma land_area pfn : Z.land pfn (MAX_ORDER_NR_PAGES MAX_ORDER - 1) = pfn mod area_pages.
Proof.
  unfold MAX_ORDER_NR_PAGES, area_pages. rewrite Z.shiftl_1_l, Z.sub_1_r, <- Z.ones_equiv.
  apply Z.land_ones. lia.
Qed.

Lemma visit_page_owned max pfn :
  0 <= pfn < max -> max + MAX_ORDER_NR_PAGES MAX_ORDER <= 18446744073709551616 ->
  visit_page pages MAX_ORDER pfn =
  (pfn + skip pfn,
   if negb (missing_area pfn) && owned (pages pfn) then Some (pg_handle (pages pfn)) else None).
Proof.
  intros Hpfn Hmax. unfold visit_page, skip, missing_area, owned. rewrite land_area.
  assert (MAX_ORDER_NR_PAGES MAX_ORDER = area_pages) as HM
    by (unfold MAX_ORDER_NR_PAGES, area_pages; by rewrite Z.shiftl_1_l).
  rewrite HM in *. assert (0 < area_pages) by (unfold area_pages; apply Z.pow_pos_nonneg; lia).
  destruct (_ && _); cbn [negb andb]; [by rewrite u64_small by lia|].
  destruct (pg_buddy (pages pfn)) as [order|] eqn:Hb; cbn [andb].
  - specialize (orders _ _ Hb). destruct (Z.ltb_spec order MAX_ORDER); [|by rewrite u64_small by lia].
    rewrite Z.shiftl_1_l. assert (2 ^ order <= area_pages) by (unfold area_pages; apply Z.pow_le_mono_r; lia).
    pose proof (Z.pow_pos_nonneg 2 order ltac:(lia) ltac:(lia)). by rewrite u64_small by lia.
  - by rewrite u64_small by lia.
Qed.

Lemma walk_owned fuel max pfn :
  0 <= pfn -> max + MAX_ORDER_NR_PAGES MAX_ORDER <= 18446744073709551616 ->
  walk fuel max pfn = owned_pages fuel max pfn.
Proof.
  intros Hpfn Hmax. revert pfn Hpfn. induction fuel as [|fuel IH]; intros pfn Hpfn; cbn [walk owned_pages].
  { by destruct (_ <=? _). }
  rewrite Z.leb_antisym. destruct (Z.ltb_spec pfn max); cbn [negb]; [|done].
  pose proof (visit_page_next max pfn ltac:(lia) Hmax) as Hn.
  rewrite (visit_page_owned max pfn) in Hn |- * by lia. cbn [fst] in Hn.
  destruct (_ && owned _); simpl; rewrite IH by lia; done.
Qed.

(** Where the walk starts: the first page that exists or starts an area. *)
Definition first_page (lo p : Z) : Prop :=
  lo <= p /\ (pg_valid (pages p) = true \/ p mod area_pages = 0) /\
  forall q, lo <= q < p -> pg_valid (pages q) = false /\ q mod area_pages <> 0.

Lemma first_pfn_first fuel lo p :
  0 <= lo -> lo + Z.of_nat fuel < 18446744073709551616 ->
  first_pfn pages MAX_ORDER fuel lo = Some p -> first_page lo p.
Proof.
  revert lo. induction fuel as [|fuel IH]; intros lo Hlo Hhi Hp; cbn [first_pfn] in Hp; rewrite land_area in Hp.
  all: destruct (pg_valid (pages lo)) eqn:Hv, (Z.eqb_spec (lo mod area_pages) 0) as [Hz|Hz];
    cbn [negb andb] in Hp; simplify_eq.
  all: try (split; [lia|]; split; [auto|lia]).
  rewrite u64_small in Hp by lia. destruct (IH (lo + 1) ltac:(lia) ltac:(lia) Hp) as (H1 & H2 & H3).
  split; [lia|]. split; [done|]. intros q Hq. destruct (decide (q = lo)) as [->|]; [done|]. apply H3. lia.
Qed.

Lemma first_pfn_first_all lo p :
  0 <= lo -> lo + MAX_ORDER_NR_PAGES MAX_ORDER <= 18446744073709551616 ->
  first_pfn pages MAX_ORDER (Z.to_nat (MAX_ORDER_NR_PAGES MAX_ORDER)) lo = Some p -> first_page lo p.
Proof.
  intros Hlo Hhi Hp.
  assert (MAX_ORDER_NR_PAGES MAX_ORDER = area_pages) as HM
    by (unfold MAX_ORDER_NR_PAGES, area_pages; by rewrite Z.shiftl_1_l).
  rewrite HM in *. assert (0 < area_pages) as H0 by (unfold area_pages; apply Z.pow_pos_nonneg; lia).
  destruct (Z.eq_dec (lo + area_pages) 18446744073709551616) as [Heq|]; [|apply (first_pfn_first (Z.to_nat area_pages)); done || lia].
  assert (lo mod area_pages = 0) as Hmod.
  { assert (MAX_ORDER - 1 <= 64) as Hk.
    { destruct (Z.le_gt_cases (MAX_ORDER - 1) 64) as [|Hgt]; [done|].
      pose proof (Z.pow_lt_mono_r 2 64 (MAX_ORDER - 1) ltac:(lia) ltac:(lia) Hgt) as Hlt.
      change (2 ^ 64) with 18446744073709551616 in Hlt. unfold area_pages in *. lia. }
    assert (18446744073709551616 = 2 ^ (64 - (MAX_ORDER - 1)) * area_pages) as Hmul.
    { unfold area_pages. rewrite <- Z.pow_add_r by lia.
      by replace (64 - (MAX_ORDER - 1) + (MAX_ORDER - 1)) with 64 by lia. }
    replace lo with ((2 ^ (64 - (MAX_ORDER - 1)) - 1) * area_pages) by lia. by rewrite Z.mod_mul by lia. }
  destruct (Z.to_nat area_pages); cbn [first_pfn] in Hp; rewrite land_area, Hmod, andb_false_r in Hp;
    simplify_eq; (split; [lia|]; split; [by right|lia]).
Qed.

Definition pages_selected (filter : Z) (l : list (Z * Z)) : list (Z * Z) :=
  List.filter (fun '(pfn, _) => selected filter (pg_flags (pages pfn))) l.

(** The records of the pages [l] when [pos] characters are printed and the
    table holds [seen]. *)
Fixpoint owner_text (s : owner_state) (l : list (Z * Z)) (pos : Z) (seen : list Z) : string :=
  match l with
  | [] => ""
  | (pfn, handle) :: l =>
      let found := (pos <=? ow_size s - page_owner_handles_size s) && bool_decide (handle ∈ seen) in
      let r := owner_record found pfn handle in
      r +:+ owner_text s l (pos + slen r) (seen_at s (pos + slen r) (add_handle s handle seen))
  end.

Lemma owner_text_same s s' l pos seen :
  same_dump s s' -> owner_text s' l pos seen = owner_text s l pos seen.
Proof.
  intros [_ _ Hs _ Hh _]. revert pos seen. induction l as [|[pfn h] l IH]; intros pos seen; simpl; [done|].
  unfold seen_at, add_handle. by rewrite Hs, Hh, IH.
Qed.

Lemma owner_loop_text fuel max pfn addr count s pre seen :
  max + MAX_ORDER_NR_PAGES MAX_ORDER <= 18446744073709551616 ->
  0 <= PG_swapbacked < 64 -> 0 <= page_owner_filter s < 16 ->
  page_owner_filter s = 0xF \/ Z.land (page_owner_filter s) 1 = 0 ->
  0 <= pfn -> max - pfn <= Z.of_nat fuel ->
  owner_ok s -> ow_addr s + slen pre = addr -> addr + count = ow_addr s + ow_size s -> 0 < count ->
  cstr_at (ow_mem s) (ow_addr s) pre ->
  (addr <= handles_start s ->
   handles_at (ow_mem s) (handles_start s) seen /\ nr_handles s = Z.of_nat (length seen)) ->
  exists s', owner_loop pages stacks ptr_text sym_text PG_lru PG_slab PG_swapbacked MAX_ORDER
      fuel max pfn addr count s = Some s' /\
    cstr_at (ow_mem s') (ow_addr s) (pre +:+ stake (Z.to_nat (count - 1))
      (owner_text s (pages_selected (page_owner_filter s) (walk fuel max pfn)) (slen pre) seen)).
Proof.
  intros Hmax Hbit. revert pfn addr count s pre seen.
  induction fuel as [|fuel IH]; intros pfn addr count s pre seen Hf Hf1 Hpfn Hfuel Hok Hpre Hcount Hc Hat Htab;
    cbn [owner_loop walk]; destruct (Z.leb_spec max pfn);
    try (exists s; split; [done|]; cbn; by destruct (Z.to_nat (count - 1)); rewrite sapp_nil_r); [lia|].
  pose proof (visit_page_next max pfn ltac:(lia) Hmax) as Hnext. pose proof (slen_nonneg pre).
  destruct (visit_page pages MAX_ORDER pfn) as [next [handle|]] eqn:Hv; cbn [fst] in Hnext;
    [|apply (IH next addr); (done || lia)].
  apply visit_page_handle in Hv. unfold dump_page_owner_md.
  pose proof (page_filter_selects addr count (pg_flags (pages pfn)) handle s Hbit Hf Hf1) as Hsel.
  unfold page_filter in Hsel. rewrite Hsel. cbv beta match. unfold pages_selected. cbn [List.filter].
  destruct (selected _ _) eqn:Es; cycle 1.
  { destruct (Z.eqb_spec 0 (count - 1)) as [Hz|_]; cbv beta match.
    - exists s. rewrite <- Hz. cbn [stake Z.to_nat]. by rewrite sapp_nil_r.
    - rewrite Z.add_0_r, Z.sub_0_r. apply IH; (done || lia). }
  cbn [owner_text].
  replace (slen pre <=? ow_size s - page_owner_handles_size s) with (addr <=? handles_start s)
    by (unfold handles_start; lia).
  destruct (print_owner_ok s addr count pfn handle seen) as (s1 & Hr & Hok1 & Hsd1 & Hm1 & Hs1 & Htab1);
    [done|lia|done..|].
  rewrite Hr. cbv beta match. clear Hr. set (r := owner_record _ pfn handle) in *. pose proof (slen_nonneg r).
  assert (cstr_at (ow_mem s1) (ow_addr s) (pre +:+ stake (Z.to_nat (count - 1)) r)) as Hs.
  { eapply cstr_at_app; [exact Hat| |by rewrite Hpre]. intros x Hx. symmetry. apply Hm1. lia. }
  destruct (Z.eqb_spec (Z.min (count - 1) (slen r)) (count - 1)) as [Hfull|Hrest].
  { exists s1. split; [done|]. by rewrite stake_app_le by lia. }
  rewrite stake_all in Hs by lia. rewrite Z.min_r by lia.
  pose proof Hsd1 as [_ Ha Hz Hflt Hhs _].
  assert (handles_start s1 = handles_start s) as Hst by (unfold handles_start; by rewrite Ha, Hz, Hhs).
  destruct (IH next (addr + slen r) (count - slen r) s1 (pre +:+ r)
    (seen_at s (slen pre + slen r) (add_handle s handle seen))) as (s2 & Hr2 & Hs2);
    rewrite ?Hflt, ?Ha, ?Hz, ?Hst, ?slen_app; try (done || lia).
  { intros Hle. specialize (Htab1 Hle). cbv zeta in Htab1.
    by replace (addr + slen r - ow_addr s) with (slen pre + slen r) in Htab1 by lia. }
  exists s2. split; [done|]. rewrite (owner_text_same s s1 _ _ _ Hsd1), Hflt, Ha, slen_app in Hs2.
  rewrite stake_app_ge by lia. rewrite sapp_assoc.
  by replace (Z.to_nat (count - 1) - Z.to_nat (slen r))%nat with (Z.to_nat (count - slen r - 1)) by lia.
Qed.
End PageOwner.

(** ** The whole dump *)

(** What the kernel's tables promise: orders are not negative, handles are 32
    bits wide, page frame numbers leave room for an area. *)
Record pages_ok (pages : Z -> page_info) (MAX_ORDER min_low max : Z) : Prop := {
  po_orders pfn order : pg_buddy (pages pfn) = Some order -> 0 <= order;
  po_handles pfn : 0 <= pg_handle (pages pfn) < 4294967296;
  po_max_order : 1 <= MAX_ORDER;
  po_min : 0 <= min_low /\ min_low + MAX_ORDER_NR_PAGES MAX_ORDER <= 18446744073709551616;
  po_max : max + MAX_ORDER_NR_PAGES MAX_ORDER <= 18446744073709551616;
}.


Lemma md_dump_pageowner_inside pages stacks ptr_text sym_text lru slab swapbacked MAX_ORDER min_low max s :
  pages_ok pages MAX_ORDER min_low max -> owner_ok s ->
  exists s', md_dump_pageowner pages stacks ptr_text sym_text lru slab swapbacked MAX_ORDER
      min_low max (ow_addr s) (ow_size s) s = Some s' /\
    mod_only (ow_addr s) (ow_addr s + ow_size s) (ow_mem s) (ow_mem s').
Proof.
  intros [Ho Hh Hmo [Hm0 Hm1] Hmax] Hok.
  destruct (first_pfn_total pages MAX_ORDER Hmo min_low Hm0 Hm1) as (p & Hp & Hle).
  pose proof (oo_size s Hok).
  destruct (owner_loop_safe pages stacks ptr_text sym_text lru slab swapbacked MAX_ORDER Ho Hh Hmo
    (Z.to_nat (max - p)) max p (ow_addr s) (ow_size s) s) as (s' & Hr & Hs'); try (done || lia).
  exists s'. unfold md_dump_pageowner. rewrite Hp. split; [exact Hr|apply Hs'].
Qed.

(** The filters that select pages by their flags alone: all pages, or no bit
    0x1.  (For the pages that no call site accounts for, bit 0x1, the code
    prints into the dump while it decides.) *)
Definition flags_filter (filter : Z) : Prop :=
  0 <= filter < 16 /\ (filter = 0xF \/ Z.land filter 1 = 0).

(** The whole text, from page [p] on. *)
Definition pageowner_text (pages : Z -> page_info) (stacks : Z -> list Z) (ptr_text : Z -> string)
  (lru slab swapbacked MAX_ORDER max p : Z) (s : owner_state) : string :=
  owner_text stacks ptr_text s
    (pages_selected pages lru slab swapbacked (page_owner_filter s)
       (owned_pages pages MAX_ORDER (Z.to_nat (max - p)) max p)) 0 [].

(** It does not depend on what the memory holds. *)
Lemma pageowner_text_mem pages stacks ptr_text lru slab swapbacked MAX_ORDER max p s m :
  pageowner_text pages stacks ptr_text lru slab swapbacked MAX_ORDER max p (set_ow_mem s m)
  = pageowner_text pages stacks ptr_text lru slab swapbacked MAX_ORDER max p s.
Proof.
  unfold pageowner_text. cbn [page_owner_filter set_ow_mem]. generalize 0 (@nil Z).
  induction (pages_selected _ _ _ _ _ _) as [|[pfn h] l IH]; intros pos seen; simpl; [done|]. by rewrite IH.
Qed.

Lemma md_dump_pageowner_text pages stacks ptr_text sym_text lru slab swapbacked MAX_ORDER min_low max s :
  pages_ok pages MAX_ORDER min_low max -> 0 <= swapbacked < 64 ->
  owner_ok s -> nr_handles s = 0 -> ld (ow_mem s) (ow_addr s) 1 = 0 ->
  flags_filter (page_owner_filter s) ->
  exists p s', first_page pages MAX_ORDER min_low p /\
    md_dump_pageowner pages stacks ptr_text sym_text lru slab swapbacked MAX_ORDER
      min_low max (ow_addr s) (ow_size s) s = Some s' /\
    cstr_at (ow_mem s') (ow_addr s) (stake (Z.to_nat (ow_size s - 1))
      (pageowner_text pages stacks ptr_text lru slab swapbacked MAX_ORDER max p s)).
Proof.
  intros [Ho Hh Hmo [Hm0 Hm1] Hmax] Hsw Hok Hn Hz [Hf Hf1].
  destruct (first_pfn_total pages MAX_ORDER Hmo min_low Hm0 Hm1) as (p & Hp & Hle).
  pose proof (oo_size s Hok).
  destruct (owner_loop_text pages stacks ptr_text sym_text lru slab swapbacked MAX_ORDER Ho Hh Hmo
    (Z.to_nat (max - p)) max p (ow_addr s) (ow_size s) s "" []) as (s' & Hr & Hs'); try (done || lia); [apply Z.add_0_r|].
  exists p, s'. split; [|split].
  - by apply (first_pfn_first_all pages MAX_ORDER Hmo).
  - unfold md_dump_pageowner. by rewrite Hp.
  - unfold pageowner_text. rewrite <- (walk_owned pages MAX_ORDER Ho Hmo) by lia. exact Hs'.
Qed.
