(* ===== verification/MdMemInfo.v ===== *)
(** * Memory and slab statistics (minidump_memory.c, lines 46-225)

    Two texts printed at a panic into sequence buffers.  The kernel's counters
    are an argument, and so is the configuration ([mem_config]); the value
    printed for a number of pages is signed. *)

From S2P Require Import Prelude CStr CText CPrint.

#[local] Open Scope string_scope.
#[local] Open Scope list_scope.
#[local] Open Scope Z_scope.

(** ** The counters *)

Record sysinfo := SysInfo {
  si_totalram : Z; si_freeram : Z; si_bufferram : Z; si_sharedram : Z;
  si_totalhigh : Z; si_freehigh : Z; si_totalswap : Z; si_freeswap : Z;
}.

Inductive lru_list := LRU_INACTIVE_ANON | LRU_ACTIVE_ANON | LRU_INACTIVE_FILE | LRU_ACTIVE_FILE
  | LRU_UNEVICTABLE.

Inductive node_item := NR_FILE_PAGES | NR_SLAB_RECLAIMABLE_B | NR_SLAB_UNRECLAIMABLE_B
  | NR_FILE_DIRTY | NR_WRITEBACK | NR_ANON_MAPPED | NR_FILE_MAPPED | NR_KERNEL_MISC_RECLAIMABLE
  | NR_KERNEL_STACK_KB | NR_KERNEL_SCS_KB | NR_PAGETABLE | NR_WRITEBACK_TEMP | NR_ANON_THPS
  | NR_SHMEM_THPS | NR_SHMEM_PMDMAPPED | NR_FILE_THPS | NR_FILE_PMDMAPPED
  | NR_LRU (lru : lru_list).

Inductive zone_item := NR_MLOCK | NR_BOUNCE | NR_FREE_CMA_PAGES.

Record vm_stats := VmStats {
  vm_info : sysinfo;
  vm_node : node_item -> Z;
  vm_zone : zone_item -> Z;
  vm_swapcache : Z;
  vm_available : Z;
  vm_vmalloc : Z;
  vm_percpu : Z;
  vm_total_cma : Z;
}.

Record mem_config := MemConfig {
  CONFIG_HIGHMEM : bool;
  CONFIG_SHADOW_CALL_STACK : bool;
  CONFIG_TRANSPARENT_HUGEPAGE : bool;
  CONFIG_CMA : bool;
  CONFIG_DEBUG_SLAB : bool;
  HPAGE_PMD_NR : Z;
  VMALLOC_TOTAL : Z;
}.

(** ** Memory *)

(** [num << (PAGE_SHIFT - 10)], printed with [%lld]. *)
Definition val_kb (s : string) (num : Z) : string :=
  s +:+ " : " +:+ fmt_ld (Z.shiftl num 2) +:+ " KB" +:+ nl.

Definition show_val_kb (b : seq_buf) (s : string) (num : Z) : seq_buf := seq_buf_printf b (val_kb s num).

Definition stack_kb (s : string) (num : Z) : string := s +:+ pad_left 8 (fmt_u (u64 num)) +:+ " kB" +:+ nl.

(** The pages of the page cache; never less than none. *)
Definition cached_pages (v : vm_stats) : Z :=
  let cached := s64 (vm_node v NR_FILE_PAGES - vm_swapcache v - si_bufferram (vm_info v)) in
  if cached <? 0 then 0 else cached.

Definition meminfo_lines (c : mem_config) (v : vm_stats) : list string :=
  let i := vm_info v in
  let node := vm_node v in
  let lru l := node (NR_LRU l) in
  let sreclaimable := node NR_SLAB_RECLAIMABLE_B in
  let sunreclaim := node NR_SLAB_UNRECLAIMABLE_B in
  [ val_kb "MemTotal:       " (si_totalram i);
    val_kb "MemFree:        " (si_freeram i);
    val_kb "MemAvailable:   " (vm_available v);
    val_kb "Buffers:        " (si_bufferram i);
    val_kb "Cached:         " (cached_pages v);
    val_kb "SwapCached:     " (vm_swapcache v);
    val_kb "Active:         " (lru LRU_ACTIVE_ANON + lru LRU_ACTIVE_FILE);
    val_kb "Inactive:       " (lru LRU_INACTIVE_ANON + lru LRU_INACTIVE_FILE);
    val_kb "Active(anon):   " (lru LRU_ACTIVE_ANON);
    val_kb "Inactive(anon): " (lru LRU_INACTIVE_ANON);
    val_kb "Active(file):   " (lru LRU_ACTIVE_FILE);
    val_kb "Inactive(file): " (lru LRU_INACTIVE_FILE);
    val_kb "Unevictable:    " (lru LRU_UNEVICTABLE);
    val_kb "Mlocked:        " (vm_zone v NR_MLOCK) ] ++
  (if CONFIG_HIGHMEM c then
     [ val_kb "HighTotal:      " (si_totalhigh i);
       val_kb "HighFree:       " (si_freehigh i);
       val_kb "LowTotal:       " (si_totalram i - si_totalhigh i);
       val_kb "LowFree:        " (si_freeram i - si_freehigh i) ] else []) ++
  [ val_kb "SwapTotal:      " (si_totalswap i);
    val_kb "SwapFree:       " (si_freeswap i);
    val_kb "Dirty:          " (node NR_FILE_DIRTY);
    val_kb "Writeback:      " (node NR_WRITEBACK);
    val_kb "AnonPages:      " (node NR_ANON_MAPPED);
    val_kb "Mapped:         " (node NR_FILE_MAPPED);
    val_kb "Shmem:          " (si_sharedram i);
    val_kb "KReclaimable:   " (sreclaimable + node NR_KERNEL_MISC_RECLAIMABLE);
    val_kb "Slab:           " (sreclaimable + sunreclaim);
    val_kb "SReclaimable:   " sreclaimable;
    val_kb "SUnreclaim:     " sunreclaim;
    stack_kb "KernelStack:    " (node NR_KERNEL_STACK_KB) ] ++
  (if CONFIG_SHADOW_CALL_STACK c then [ stack_kb "ShadowCallStack:" (node NR_KERNEL_SCS_KB) ] else []) ++
  [ val_kb "PageTables:     " (node NR_PAGETABLE);
    val_kb "Bounce:         " (vm_zone v NR_BOUNCE);
    val_kb "WritebackTmp:   " (node NR_WRITEBACK_TEMP);
    stack_kb "VmallocTotal:   " (Z.shiftr (VMALLOC_TOTAL c) 10);
    val_kb "VmallocUsed: " (vm_vmalloc v);
    val_kb "Percpu:         " (vm_percpu v) ] ++
  (if CONFIG_TRANSPARENT_HUGEPAGE c then
     [ val_kb "AnonHugePages:  " (node NR_ANON_THPS * HPAGE_PMD_NR c);
       val_kb "ShmemHugePages: " (node NR_SHMEM_THPS * HPAGE_PMD_NR c);
       val_kb "ShmemPmdMapped: " (node NR_SHMEM_PMDMAPPED * HPAGE_PMD_NR c);
       val_kb "FileHugePages:  " (node NR_FILE_THPS * HPAGE_PMD_NR c);
       val_kb "FilePmdMapped:  " (node NR_FILE_PMDMAPPED * HPAGE_PMD_NR c) ] else []) ++
  (if CONFIG_CMA c then
     [ val_kb "CmaTotal:       " (vm_total_cma v);
       val_kb "CmaFree:        " (vm_zone v NR_FREE_CMA_PAGES) ] else []).

Definition md_dump_meminfo (c : mem_config) (v : vm_stats) (b : seq_buf) : seq_buf :=
  seq_buf_prints b (meminfo_lines c v).

(** ** Slabs *)

(** The statistics of CONFIG_DEBUG_SLAB. *)
Record slab_stats := SlabStats {
  ss_allocs : Z; ss_high : Z; ss_grown : Z; ss_reaped : Z; ss_errors : Z; ss_max_freeable : Z;
  ss_node_allocs : Z; ss_node_frees : Z; ss_overflows : Z;
  ss_allochit : Z; ss_allocmiss : Z; ss_freehit : Z; ss_freemiss : Z;
}.

(** [struct slabinfo] of a cache, with its name and object size. *)
Record slabinfo := SlabInfo {
  sf_name : string; sf_size : Z;
  sf_active_objs : Z; sf_num_objs : Z; sf_objects_per_slab : Z; sf_cache_order : Z;
  sf_limit : Z; sf_batchcount : Z; sf_shared : Z;
  sf_active_slabs : Z; sf_num_slabs : Z; sf_shared_avail : Z;
  sf_stats : slab_stats;
}.

Definition u_field (w : Z) (n : Z) : string := " " +:+ pad_left w (fmt_u n).

Definition slabinfo_stats (c : mem_config) (s : slab_stats) : list string :=
  if CONFIG_DEBUG_SLAB c then
    [ " : globalstat" +:+ u_field 7 (ss_allocs s) +:+ u_field 6 (ss_high s) +:+ u_field 5 (ss_grown s) +:+
      u_field 4 (ss_reaped s) +:+ u_field 4 (ss_errors s) +:+ u_field 4 (ss_max_freeable s) +:+
      u_field 4 (ss_node_allocs s) +:+ u_field 4 (ss_node_frees s) +:+ u_field 4 (ss_overflows s);
      " : cpustat" +:+ u_field 6 (ss_allochit s) +:+ u_field 6 (ss_allocmiss s) +:+
      u_field 6 (ss_freehit s) +:+ u_field 6 (ss_freemiss s) ]
  else [].

Definition slabinfo_header (c : mem_config) : list string :=
  [ "# name            <active_objs> <num_objs> <objsize> <objperslab> <pagesperslab>";
    " : tunables <limit> <batchcount> <sharedfactor>";
    " : slabdata <active_slabs> <num_slabs> <sharedavail>" ] ++
  (if CONFIG_DEBUG_SLAB c then
     [ " : globalstat <listallocs> <maxobjs> <grown> <reaped> <error> <maxfreeable> <nodeallocs> <remotefrees> <alienoverflow>";
       " : cpustat <allochit> <allocmiss> <freehit> <freemiss>" ] else []) ++
  [ nl ].

Definition slabinfo_lines (c : mem_config) (s : slabinfo) : list string :=
  [ pad_right 17 (sf_name s) +:+ u_field 6 (sf_active_objs s) +:+ u_field 6 (sf_num_objs s) +:+
    u_field 6 (sf_size s) +:+ u_field 4 (sf_objects_per_slab s) +:+ " " +:+
    pad_left 4 (fmt_d (s32 (Z.shiftl 1 (sf_cache_order s))));
    " : tunables" +:+ u_field 4 (sf_limit s) +:+ u_field 4 (sf_batchcount s) +:+ u_field 4 (sf_shared s);
    " : slabdata" +:+ u_field 6 (sf_active_slabs s) +:+ u_field 6 (sf_num_slabs s) +:+
    u_field 6 (sf_shared_avail s) ] ++
  slabinfo_stats c (sf_stats s) ++ [ nl ].

(** [locked]: somebody holds [slab_mutex]; it is taken without waiting and is
    free again afterwards. *)
Definition md_dump_slabinfo (c : mem_config) (caches : list slabinfo) (locked : bool) (b : seq_buf)
  : seq_buf * bool :=
  if locked then (b, locked)
  else (seq_buf_prints b (slabinfo_header c ++ flat_map (slabinfo_lines c) caches), false).

(** ** What the buffers hold *)

(** The texts, cut to the buffers. *)
Lemma md_dump_meminfo_view c v n :
  0 < n -> md_dump_meminfo c v (seq_buf_init n) = seq_view n (String.concat "" (meminfo_lines c v)).
Proof. intros Hn. unfold md_dump_meminfo. rewrite seq_view_init, seq_view_prints by done. done. Qed.

Lemma md_dump_slabinfo_view c caches n :
  0 < n -> md_dump_slabinfo c caches false (seq_buf_init n)
    = (seq_view n (String.concat "" (slabinfo_header c ++ flat_map (slabinfo_lines c) caches)), false).
Proof. intros Hn. unfold md_dump_slabinfo. rewrite seq_view_init, seq_view_prints by done. done. Qed.
