(* ===== verification/MdSlabOwner.v ===== *)
(** * The slab owner dump (minidump_memory.c, lines 753-1042)

    At a panic the objects of the kmalloc caches are printed into the
    SLABOWNER dump: for each cache selected by a debugfs filter its name and a
    record per object with a track, with the stack's addresses the first time
    the stack occurs.  The table of the stacks printed is at the end of the
    dump, as for page owners (MdPageOwner.v).

    The caches are an argument, as are [hash] (jhash2 of the addresses) and
    the text of [%p]; CONFIG_STACKTRACE is set. *)

From S2P Require Import Prelude CMem CStr CText CPrint MdMemDump MdPageOwner.

#[local] Open Scope string_scope.
#[local] Open Scope list_scope.
#[local] Open Scope Z_scope.

(** ** Data *)

(** A track of an object: its caller and stack, TRACK_ADDRS_COUNT entries. *)
Record track := Track { t_object : Z; t_addr : Z; t_addrs : list Z }.

(** A node: the number of its slabs, and the tracks of the objects of each page
    of the partial and of the full list, in the order [get_each_object_track]
    visits them. *)
Record cache_node := CacheNode {
  n_nr_slabs : Z;
  n_partial : list (list track);
  n_full : list (list track);
}.

Record slab_cache := SlabCache { c_name : string; c_nodes : list cache_node }.

(** [kmalloc_caches[KMALLOC_NORMAL]]: KMALLOC_SHIFT_HIGH + 1 pointers. *)
Definition kmalloc_row := list (option slab_cache).

Record slab_state := SlabState {
  sl_mem : mem;
  sl_addr : Z;
  sl_size : Z;
  slab_owner_filter : Z;
  slab_owner_handles_size : Z;
  num_handles : Z;
}.

Definition set_sl_mem (s : slab_state) (m : mem) : slab_state :=
  SlabState m (sl_addr s) (sl_size s) (slab_owner_filter s) (slab_owner_handles_size s) (num_handles s).

Definition set_sl_handles (s : slab_state) (m : mem) (n : Z) : slab_state :=
  SlabState m (sl_addr s) (sl_size s) (slab_owner_filter s) (slab_owner_handles_size s) n.

Definition set_sl_filter (s : slab_state) (f : Z) : slab_state :=
  SlabState (sl_mem s) (sl_addr s) (sl_size s) f (slab_owner_handles_size s) (num_handles s).

Definition set_sl_handles_size (s : slab_state) (n : Z) : slab_state :=
  SlabState (sl_mem s) (sl_addr s) (sl_size s) (slab_owner_filter s) n (num_handles s).

(** [struct priv_buf]. *)
Record priv_buf := PrivBuf { pb_buf : Z; pb_size : Z; pb_offset : Z }.

(** ** The table of stacks *)

Definition slab_table (s : slab_state) : Z := sl_addr s + sl_size s - slab_owner_handles_size s.

Definition find_stack (handle : Z) (s : slab_state) : option (bool * slab_state) :=
  let* (b, m, n) :=
    lookup_handle (sl_mem s) (slab_table s) (sl_addr s + sl_size s) (num_handles s) handle in
  Some (b, set_sl_handles s m n).

(** The entries before the first zero. *)
Fixpoint track_entries (l : list Z) : list Z :=
  match l with
  | [] => []
  | a :: l => if a =? 0 then [] else a :: track_entries l
  end.

Section SlabOwner.
Context (hash : list Z -> Z) (ptr_text : Z -> string).

(** ** Printing an object *)

Definition slab_line (object handle nr : Z) : string :=
  ptr_text object +:+ " " +:+ fmt_u handle +:+ " " +:+ fmt_u nr +:+ nl.

Definition dump_tracking (t : track) (pb : priv_buf) (s : slab_state)
  : option (Z * priv_buf * slab_state) :=
  if t_addr t =? 0 then Some (0, pb, s)
  else
    let buf := pb_buf pb + pb_offset pb in
    let size := u64 (pb_size pb - pb_offset pb) in
    let entries := track_entries (t_addrs t) in
    let handle := hash entries in
    let* (found, s) := if slab_table s <? buf then Some (false, s) else find_stack handle s in
    let* (ret, m) :=
      print_record ptr_text (slab_line (t_object t) handle) entries (sl_mem s) buf size found in
    Some (ret, PrivBuf (pb_buf pb) (pb_size pb) (pb_offset pb + ret), set_sl_mem s m).

(** [get_each_object_track] calls [dump_tracking] for each object. *)
Fixpoint each_track (l : list track) (pb : priv_buf) (s : slab_state)
  : option (priv_buf * slab_state) :=
  match l with
  | [] => Some (pb, s)
  | t :: l =>
      let* (ret, pb, s) := dump_tracking t pb s in
      each_track l pb s
  end.

(** ** The loops

    The result says whether the dump is exhausted. *)

Fixpoint each_page (l : list (list track)) (pb : priv_buf) (s : slab_state)
  : option (bool * priv_buf * slab_state) :=
  match l with
  | [] => Some (false, pb, s)
  | page :: l =>
      let* (pb, s) := each_track page pb s in
      if pb_offset pb =? pb_size pb - 1 then Some (true, pb, s) else each_page l pb s
  end.

Fixpoint each_node (l : list cache_node) (pb : priv_buf) (s : slab_state)
  : option (bool * priv_buf * slab_state) :=
  match l with
  | [] => Some (false, pb, s)
  | n :: l =>
      if n_nr_slabs n =? 0 then each_node l pb s
      else
        let* (stop, pb, s) := each_page (n_partial n) pb s in
        if stop : bool then Some (true, pb, s)
        else
          let* (stop, pb, s) := each_page (n_full n) pb s in
          if stop : bool then Some (true, pb, s) else each_node l pb s
  end.

(** [scnprintf(buf.buf, buf.size, ...)], the test and [buf.buf += ret]. *)
Definition print_head (text : string) (pb : priv_buf) (s : slab_state)
  : option (bool * priv_buf * slab_state) :=
  let* (ret, m) := scnprintf_to (sl_mem s) (pb_buf pb) (pb_size pb) text in
  let s := set_sl_mem s m in
  if ret =? pb_size pb - 1 then Some (true, pb, s)
  else Some (false, PrivBuf (pb_buf pb + ret) (pb_size pb) (pb_offset pb), s).

Fixpoint each_cache (caches : kmalloc_row) (i : Z) (pb : priv_buf) (s : slab_state)
  : option slab_state :=
  match caches with
  | [] => Some s
  | c :: caches =>
      match (if Z.testbit (slab_owner_filter s) i then c else None) with
      | None => each_cache caches (i + 1) pb s
      | Some c =>
          let* (stop, pb, s) := print_head (c_name c +:+ nl) pb s in
          if stop : bool then Some s
          else
            let* (stop, pb, s) := each_node (c_nodes c) pb s in
            if stop : bool then Some s
            else
              let* (stop, pb, s) := print_head nl pb s in
              if stop : bool then Some s else each_cache caches (i + 1) pb s
      end
  end.

Definition md_dump_slabowner (caches : kmalloc_row) (addr dump_size : Z) (s : slab_state)
  : option slab_state :=
  each_cache caches 0 (PrivBuf addr dump_size 0) s.
End SlabOwner.

(** ** The debugfs files *)

(** The loop over the bits of a filter: [bit] is an [int] that wraps around
    (to a negative number, and to 0), compared as an [unsigned long]; the
    pointers are read from the row of caches.  [Some false] is an absent
    cache. *)
Fixpoint filter_bits (fuel : nat) (caches : kmalloc_row) (filter bit i : Z) : option bool :=
  if filter <? u64 bit then Some true
  else
    match fuel with
    | O => None
    | S fuel =>
        if Z.land filter (u64 bit) =? 0 then filter_bits fuel caches filter (s32 (bit * 2)) (i + 1)
        else
          let* c := getZ caches i in
          match c with
          | None => Some false
          | Some _ => filter_bits fuel caches filter (s32 (bit * 2)) (i + 1)
          end
    end.

Definition slab_owner_filter_write (caches : kmalloc_row) (parse : option Z) (count : Z)
  (s : slab_state) : option (Z * slab_state) :=
  match parse with
  | None => Some (- EINVAL, s)
  | Some filter =>
      let* ok := filter_bits 32 caches filter 1 0 in
      if ok : bool then Some (count, set_sl_filter s filter) else Some (- EINVAL, s)
  end.

Definition slab_owner_filter_read (count pos : Z) (s : slab_state) : Z * string * Z :=
  simple_read_from_buffer count pos (scnprintf 64 ("0x" +:+ fmt_x (slab_owner_filter s) +:+ nl)).

Definition slab_owner_handle_write (parse : option Z) (count : Z) (s : slab_state)
  : Z * slab_state :=
  match parse with
  | None => (- EINVAL, s)
  | Some size =>
      if size =? 0 then (count, s)
      else if sl_size s / SZ_16K <? size then (count, s)
      else (count, set_sl_handles_size s (u64 (size * SZ_1K)))
  end.

Definition slab_owner_handle_read (count pos : Z) (s : slab_state) : Z * string * Z :=
  simple_read_from_buffer count pos
    (scnprintf 64 (fmt_u (slab_owner_handles_size s / SZ_1K) +:+ " KB" +:+ nl)).

(** The loop of [md_debugfs_slabowner]: every cache is selected. *)
Fixpoint select_caches (caches : kmalloc_row) (i filter : Z) : Z :=
  match caches with
  | [] => filter
  | c :: caches =>
      select_caches caches (i + 1)
        (match c with Some _ => Z.setbit filter i | None => filter end)
  end.

Definition md_debugfs_slabowner (caches : kmalloc_row) (s : slab_state) : slab_state :=
  set_sl_filter s (select_caches caches 0 (slab_owner_filter s)).
