(* ===== verification/MdSlabOwnerProofs.v ===== *)
(** * The slab owner dump: what is left of it

    Records are printed behind the names of their caches, but the buffer
    pointer is advanced over the names only: the next name is printed over the
    records.  [heads] is what the dump reads as a string in the end. *)

From S2P Require Import Prelude CMem CStr CText CPrint MdMemDump MdPageOwner MdPageOwnerProofs MdSlabOwner.

#[local] Open Scope string_scope.
#[local] Open Scope list_scope.
#[local] Open Scope Z_scope.

(** ** The state *)

Record slab_ok (s : slab_state) : Prop := {
  so_lo : m_lo (sl_mem s) <= sl_addr s;
  so_hi : sl_addr s + sl_size s <= m_hi (sl_mem s);
  so_size : 0 < sl_size s <= INT_MAX_SIZE;
  so_handles : 0 <= slab_owner_handles_size s <= sl_size s;
  so_align : slab_owner_handles_size s mod 4 = 0;
  so_nr : 0 <= num_handles s /\ 4 * num_handles s <= slab_owner_handles_size s;
}.

(** Only memory at or behind [a] and the number of handles differ. *)
Record same_above (a : Z) (s s' : slab_state) : Prop := {
  sa_mem : mod_only a (m_hi (sl_mem s)) (sl_mem s) (sl_mem s');
  sa_addr : sl_addr s' = sl_addr s;
  sa_size : sl_size s' = sl_size s;
  sa_filter : slab_owner_filter s' = slab_owner_filter s;
  sa_handles : slab_owner_handles_size s' = slab_owner_handles_size s;
}.

Lemma same_above_refl a s : same_above a s s.
Proof. by split. Qed.

Lemma same_above_trans a s1 s2 s3 : same_above a s1 s2 -> same_above a s2 s3 -> same_above a s1 s3.
Proof.
  intros [H1 H2 H3 H4 H5] [J1 J2 J3 J4 J5]. split; try congruence.
  pose proof H1 as (_ & Hh & _). rewrite <- Hh in J1. by eapply mod_only_trans.
Qed.

Lemma same_above_weaken a b s s' : b <= a -> same_above a s s' -> same_above b s s'.
Proof. intros Hb [H1 H2 H3 H4 H5]. split; try done. eapply mod_only_weaken; [exact Hb| |exact H1]. lia. Qed.

Lemma slab_ok_mem s m' :
  slab_ok s -> m_lo (sl_mem s) = m_lo m' -> m_hi (sl_mem s) = m_hi m' -> slab_ok (set_sl_mem s m').
Proof. intros [H1 H2 H3 H4 H5 H6] Hl Hh. split; cbn; try done; lia. Qed.

Section SlabOwner.
Context (hash : list Z -> Z) (ptr_text : Z -> string).
Hypothesis hash_u32 : forall l, 0 <= hash l < 4294967296.

Lemma find_stack_ok s handle :
  slab_ok s -> 0 <= handle < 4294967296 ->
  exists b s', find_stack handle s = Some (b, s') /\ slab_ok s' /\ same_above (slab_table s) s s'.
Proof.
  intros [Hlo Hhi Hsz Hh Hal Hnr] Hr. unfold find_stack.
  assert (sl_addr s + sl_size s - slab_table s = slab_owner_handles_size s) as Ht by (unfold slab_table; lia).
  destruct (lookup_handle_safe (sl_mem s) (slab_table s) (sl_addr s + sl_size s) (num_handles s) handle)
    as (b & m' & n' & -> & Hm & Hn' & Hle); rewrite ?Ht; try (done || lia).
  eexists b, _. split; [reflexivity|]. pose proof Hm as (Hl & Hh' & _). split.
  - split; cbn; try done; lia.
  - split; try done. cbn. eapply mod_only_weaken; [| |exact Hm]; lia.
Qed.

(** ** The records *)

(** The longest record of an object. *)
Definition rec_len (t : track) : Z :=
  let entries := track_entries (t_addrs t) in
  let line := slab_line ptr_text (t_object t) (hash entries) in
  Z.max (slen (record_text ptr_text line entries true)) (slen (record_text ptr_text line entries false)).

Fixpoint tracks_len (l : list track) : Z :=
  match l with [] => 0 | t :: l => rec_len t + tracks_len l end.

Lemma tracks_len_app l l' : tracks_len (l ++ l') = tracks_len l + tracks_len l'.
Proof. induction l as [|t l IH]; simpl; lia. Qed.

Lemma rec_len_nonneg t : 0 <= rec_len t.
Proof. unfold rec_len. pose proof (slen_nonneg (record_text ptr_text
  (slab_line ptr_text (t_object t) (hash (track_entries (t_addrs t)))) (track_entries (t_addrs t)) true)). lia. Qed.

Lemma tracks_len_nonneg l : 0 <= tracks_len l.
Proof. induction l as [|t l IH]; simpl; [lia|]. pose proof (rec_len_nonneg t). lia. Qed.

(** Records fit: [n] more characters, and the end is not reached. *)
Record room (s : slab_state) (pb : priv_buf) (n : Z) : Prop := {
  rm_ok : slab_ok s;
  rm_lo : sl_addr s <= pb_buf pb;
  rm_hi : pb_buf pb + pb_size pb <= m_hi (sl_mem s);
  rm_size : 0 < pb_size pb <= INT_MAX_SIZE;
  rm_offset : 0 <= pb_offset pb;
  rm_len : pb_offset pb + n < pb_size pb - 1;
}.

(** What a part of the loops does: it appends at most [n] characters at or
    behind the buffer pointer. *)
Definition appends (n : Z) (pb : priv_buf) (s : slab_state) (pb' : priv_buf) (s' : slab_state) : Prop :=
  pb_buf pb' = pb_buf pb /\ pb_size pb' = pb_size pb /\
  pb_offset pb <= pb_offset pb' <= pb_offset pb + n /\
  slab_ok s' /\ same_above (pb_buf pb) s s'.

Lemma appends_room n n' pb s pb' s' :
  room s pb (n + n') -> appends n pb s pb' s' -> room s' pb' n'.
Proof.
  intros [H1 H2 H3 H4 H5 H6] (Hb & Hs & Ho & Hok & [Hm Ha Hsz Hf Hh]).
  pose proof Hm as (_ & Hhi & _). split; rewrite ?Hb, ?Hs, ?Ha, <- ?Hhi; try (done || lia).
Qed.

Lemma appends_trans n n' pb s pb1 s1 pb2 s2 :
  appends n pb s pb1 s1 -> appends n' pb1 s1 pb2 s2 -> appends (n + n') pb s pb2 s2.
Proof.
  intros (Hb & Hs & Ho & _ & Hsa) (Jb & Js & Jo & Jok & Jsa). rewrite Hb in *. split_and!; try (done || congruence || lia).
  by eapply same_above_trans.
Qed.

Lemma appends_refl pb s n : slab_ok s -> 0 <= n -> appends n pb s pb s.
Proof. intros. split_and!; try (done || lia). Qed.

Lemma dump_tracking_ok t pb s :
  room s pb (rec_len t) ->
  exists ret pb' s', dump_tracking hash ptr_text t pb s = Some (ret, pb', s') /\ appends (rec_len t) pb s pb' s'.
Proof.
  intros [Hok Hlo Hhi Hsz Hoff Hlen]. unfold dump_tracking. pose proof (rec_len_nonneg t).
  destruct (t_addr t =? 0); [by eexists _, _, _; split; [reflexivity|apply appends_refl]|].
  set (entries := track_entries (t_addrs t)). set (handle := hash entries).
  assert (exists b s1, (if slab_table s <? pb_buf pb + pb_offset pb then Some (false, s) else find_stack handle s)
      = Some (b, s1) /\ slab_ok s1 /\ same_above (pb_buf pb) s s1) as (b & s1 & -> & Hok1 & Hsa1).
  { destruct (Z.ltb_spec (slab_table s) (pb_buf pb + pb_offset pb)); [by eexists _, _|].
    destruct (find_stack_ok s handle Hok (hash_u32 _)) as (b & s1 & -> & Hok1 & Hsa1).
    eexists b, s1. split; [done|]. split; [done|]. eapply same_above_weaken; [|exact Hsa1]. lia. }
  cbv beta match. rewrite u64_small by (unfold INT_MAX_SIZE in *; lia).
  pose proof Hsa1 as [Hm1 Ha1 _ _ _]. destruct Hm1 as (Hl1 & Hh1 & _). pose proof (so_lo s Hok).
  destruct (print_record_ok ptr_text (slab_line ptr_text (t_object t) handle) entries (sl_mem s1)
    (pb_buf pb + pb_offset pb) (pb_size pb - pb_offset pb) b) as (m2 & -> & Hm2 & _); [lia..|].
  cbv beta match. set (r := record_text _ _ _ b).
  assert (0 <= slen r <= rec_len t) as Hr.
  { split; [apply slen_nonneg|]. unfold rec_len. fold entries handle. subst r. destruct b; lia. }
  eexists _, _, _. split; [reflexivity|]. pose proof Hm2 as (Hl2 & Hh2 & _).
  split_and!; cbn; try (done || lia); [by apply slab_ok_mem|].
  eapply same_above_trans; [exact Hsa1|]. split; try done. cbn. eapply mod_only_weaken; [| |exact Hm2]; lia.
Qed.

Lemma each_track_ok l pb s :
  room s pb (tracks_len l) ->
  exists pb' s', each_track hash ptr_text l pb s = Some (pb', s') /\ appends (tracks_len l) pb s pb' s'.
Proof.
  revert pb s. induction l as [|t l IH]; intros pb s Hr; cbn [each_track tracks_len] in *.
  { eexists _, _. split; [reflexivity|]. by apply appends_refl; [apply Hr|]. }
  destruct (dump_tracking_ok t pb s) as (ret & pb1 & s1 & -> & Ha1).
  { pose proof (tracks_len_nonneg l). destruct Hr. split; try done. lia. }
  destruct (IH pb1 s1 (appends_room _ _ _ _ _ _ Hr Ha1)) as (pb2 & s2 & -> & Ha2).
  eexists _, _. split; [reflexivity|]. by eapply appends_trans.
Qed.

Lemma each_page_ok l pb s :
  room s pb (tracks_len (concat l)) ->
  exists pb' s', each_page hash ptr_text l pb s = Some (false, pb', s') /\
    appends (tracks_len (concat l)) pb s pb' s'.
Proof.
  revert pb s. induction l as [|p l IH]; intros pb s Hr; cbn [each_page concat] in *.
  { eexists _, _. split; [reflexivity|]. by apply appends_refl; [apply Hr|]. }
  rewrite tracks_len_app in *. pose proof (tracks_len_nonneg (concat l)).
  destruct (each_track_ok p pb s) as (pb1 & s1 & -> & Ha1).
  { destruct Hr. split; try done. lia. }
  cbv beta match. pose proof (appends_room _ _ _ _ _ _ Hr Ha1) as Hr1. pose proof (rm_len _ _ _ Hr1).
  destruct (Z.eqb_spec (pb_offset pb1) (pb_size pb1 - 1)); [lia|].
  destruct (IH pb1 s1 Hr1) as (pb2 & s2 & -> & Ha2).
  eexists _, _. split; [reflexivity|]. by eapply appends_trans.
Qed.

(** The tracks visited of a node, and of a cache. *)
Definition node_tracks (n : cache_node) : list track :=
  if n_nr_slabs n =? 0 then [] else concat (n_partial n) ++ concat (n_full n).

Definition cache_tracks (c : slab_cache) : list track := concat (map node_tracks (c_nodes c)).

Lemma each_node_ok l pb s :
  room s pb (tracks_len (concat (map node_tracks l))) ->
  exists pb' s', each_node hash ptr_text l pb s = Some (false, pb', s') /\
    appends (tracks_len (concat (map node_tracks l))) pb s pb' s'.
Proof.
  revert pb s. induction l as [|n l IH]; intros pb s Hr; cbn [each_node map concat] in *.
  { eexists _, _. split; [reflexivity|]. by apply appends_refl; [apply Hr|]. }
  unfold node_tracks at 1 in Hr. unfold node_tracks at 1.
  destruct (n_nr_slabs n =? 0); [by apply IH|].
  rewrite !tracks_len_app in *. pose proof (tracks_len_nonneg (concat (map node_tracks l))).
  pose proof (tracks_len_nonneg (concat (n_full n))). rewrite <- Z.add_assoc in *.
  destruct (each_page_ok (n_partial n) pb s) as (pb1 & s1 & -> & Ha1).
  { destruct Hr. split; try done. lia. }
  cbv beta match. pose proof (appends_room _ _ _ _ _ _ Hr Ha1) as Hr1.
  destruct (each_page_ok (n_full n) pb1 s1) as (pb2 & s2 & -> & Ha2).
  { destruct Hr1. split; try done. lia. }
  cbv beta match. pose proof (appends_room _ _ _ _ _ _ Hr1 Ha2) as Hr2.
  destruct (IH pb2 s2 Hr2) as (pb3 & s3 & -> & Ha3).
  eexists _, _. split; [reflexivity|]. eapply appends_trans; [exact Ha1|]. by eapply appends_trans.
Qed.

(** ** The names *)

(** The caches the filter selects, from number [i] on. *)
Fixpoint selected_caches (filter : Z) (caches : kmalloc_row) (i : Z) : list slab_cache :=
  match caches with
  | [] => []
  | c :: caches =>
      match (if Z.testbit filter i then c else None) with
      | None => selected_caches filter caches (i + 1)
      | Some c => c :: selected_caches filter caches (i + 1)
      end
  end.

(** Their names, each followed by an empty line. *)
Fixpoint heads (l : list slab_cache) : string :=
  match l with
  | [] => ""
  | c :: l => (c_name c +:+ nl) +:+ nl +:+ heads l
  end.

(** A name behind the text printed so far. *)
Lemma print_head_ok text pb s pre n :
  room s pb n -> 0 <= n -> pb_buf pb = sl_addr s + slen pre -> slen text < pb_size pb - 1 ->
  pb_buf pb + slen text + pb_size pb <= m_hi (sl_mem s) ->
  (exists m, cstr_at m (sl_addr s) pre /\
    forall x, sl_addr s <= x < pb_buf pb -> byte (sl_mem s) x = byte m x) ->
  exists pb' s', print_head text pb s = Some (false, pb', s') /\ room s' pb' n /\
    sl_addr s' = sl_addr s /\ slab_owner_filter s' = slab_owner_filter s /\
    m_hi (sl_mem s') = m_hi (sl_mem s) /\ pb_size pb' = pb_size pb /\ pb_offset pb' = pb_offset pb /\
    pb_buf pb' = sl_addr s + slen (pre +:+ text) /\ cstr_at (sl_mem s') (sl_addr s) (pre +:+ text).
Proof.
  intros [Hok Hlo Hhi Hsz Hoff Hlen] Hn Hbuf Ht Hroom (m & Hat & Hsame). unfold print_head.
  pose proof (so_lo s Hok). pose proof (slen_nonneg text).
  destruct (scnprintf_to_exact (sl_mem s) (pb_buf pb) (pb_size pb) text) as (m' & -> & Hm & Hs); [lia..|].
  cbv beta match. rewrite Z.min_r in * by lia. rewrite stake_all in Hs by lia.
  destruct (Z.eqb_spec (slen text) (pb_size pb - 1)); [lia|].
  pose proof Hm as (Hl' & Hh' & Hb). eexists _, _. split; [reflexivity|].
  split; [split; cbn; try (done || lia); by apply slab_ok_mem|].
  split_and!; cbn; try done; [rewrite slen_app; lia|].
  eapply cstr_at_app; [exact Hat| |by rewrite <- Hbuf].
  intros x Hx. rewrite <- Hsame by lia. symmetry. apply Hb. lia.
Qed.

Lemma each_cache_ok caches i pb s pre :
  let l := selected_caches (slab_owner_filter s) caches i in
  room s pb (tracks_len (concat (map cache_tracks l))) ->
  pb_buf pb = sl_addr s + slen pre -> slen (heads l) < pb_size pb - 1 ->
  pb_buf pb + slen (heads l) + pb_size pb <= m_hi (sl_mem s) ->
  cstr_at (sl_mem s) (sl_addr s) pre ->
  exists s', each_cache hash ptr_text caches i pb s = Some s' /\
    cstr_at (sl_mem s') (sl_addr s) (pre +:+ heads l).
Proof.
  cbv zeta. revert i pb s pre. induction caches as [|c caches IH]; intros i pb s pre Hr Hbuf Hsz Hhi Hat;
    cbn [each_cache selected_caches] in *; [exists s; split; [done|by rewrite sapp_nil_r]|].
  destruct (if Z.testbit (slab_owner_filter s) i then c else None) as [c'|]; [|by apply IH].
  cbn [map concat heads] in *. rewrite !slen_app in Hsz, Hhi. rewrite tracks_len_app in Hr.
  set (l := selected_caches (slab_owner_filter s) caches (i + 1)) in *.
  pose proof (slen_nonneg (heads l)). pose proof (slen_nonneg (c_name c')).
  pose proof (tracks_len_nonneg (cache_tracks c')). pose proof (tracks_len_nonneg (concat (map cache_tracks l))).
  assert (slen nl = 1) as Hnl by done.
  destruct (print_head_ok (c_name c' +:+ nl) pb s pre _ Hr) as
    (pb1 & s1 & -> & Hr1 & Ha1 & Hf1 & Hh1 & Hps1 & Hpo1 & Hb1 & Hat1);
    [lia|done|rewrite slen_app; lia..|by exists (sl_mem s)|].
  cbv beta match.
  destruct (each_node_ok (c_nodes c') pb1 s1) as (pb2 & s2 & -> & Ha2).
  { destruct Hr1. split; try done. fold (cache_tracks c'). lia. }
  fold (cache_tracks c') in Ha2. cbv beta match. pose proof (appends_room _ _ _ _ _ _ Hr1 Ha2) as Hr2.
  destruct Ha2 as (Hb2 & Hps2 & _ & _ & [Hm2 Ha2 Hz2 Hf2 _]). pose proof Hm2 as (_ & Hh2 & Hby2).
  destruct (print_head_ok nl pb2 s2 (pre +:+ c_name c' +:+ nl) _ Hr2) as
    (pb3 & s3 & -> & Hr3 & Ha3 & Hf3 & Hh3 & Hps3 & Hpo3 & Hb3 & Hat3);
    rewrite ?Hb2, ?Hb1, ?Ha2, ?Ha1, ?Hps2, ?Hps1, ?slen_app in *; try (done || lia).
  { exists (sl_mem s1). split; [done|]. intros x Hx. symmetry. apply Hby2. lia. }
  cbv beta match. rewrite !sapp_assoc. rewrite <- (sapp_assoc pre (c_name c')).
  assert (slab_owner_filter s3 = slab_owner_filter s) as Hf by congruence.
  assert (sl_addr s3 = sl_addr s) as Ha by congruence.
  destruct (IH (i + 1) pb3 s3 ((pre +:+ c_name c' +:+ nl) +:+ nl)) as (s4 & -> & Hat4);
    rewrite ?Hf, ?Ha in *; fold l; rewrite ?Hb3, ?slen_app; try (done || lia).
  exists s4. split; [done|exact Hat4].
Qed.
End SlabOwner.

(** ** The filter file *)

(** The caches the bits of a filter stand for are there. *)
Fixpoint caches_there (filter : Z) (caches : kmalloc_row) (i : Z) : bool :=
  match caches with
  | [] => true
  | c :: caches =>
      (negb (Z.testbit filter i) || match c with Some _ => true | None => false end) &&
      caches_there filter caches (i + 1)
  end.

Lemma caches_there_above filter caches i :
  0 <= filter < 2 ^ i -> 0 <= i -> caches_there filter caches i = true.
Proof.
  revert i. induction caches as [|c caches IH]; intros i Hf Hi; cbn [caches_there]; [done|].
  assert (Z.testbit filter i = false) as ->.
  { destruct (decide (filter = 0)) as [->|Hne]; [apply Z.bits_0|].
    apply Z.bits_above_log2; [lia|]. apply Z.log2_lt_pow2; lia. }
  simpl. apply IH; [|lia]. rewrite Z.pow_add_r by lia. lia.
Qed.

Lemma filter_bits_ok fuel filter pre row :
  (length row < fuel)%nat -> Z.of_nat (length pre + length row) <= 30 ->
  0 <= filter < 2 ^ Z.of_nat (length pre + length row) ->
  filter_bits fuel (pre ++ row) filter (2 ^ Z.of_nat (length pre)) (Z.of_nat (length pre))
    = Some (caches_there filter row (Z.of_nat (length pre))).
Proof.
  revert fuel pre. induction row as [|c row IH]; intros fuel pre Hfuel Hlen Hf; simpl length in *.
  all: assert (0 < 2 ^ Z.of_nat (length pre) <= 2 ^ 30) as Hp
    by (split; [apply Z.pow_pos_nonneg; lia|apply Z.pow_le_mono_r; lia]); change (2 ^ 30) with 1073741824 in Hp.
  all: destruct fuel as [|fuel]; [lia|]; cbn [filter_bits]; rewrite u64_small by lia;
    destruct (Z.ltb_spec filter (2 ^ Z.of_nat (length pre))) as [Hlt|Hge];
    try (by rewrite caches_there_above by lia).
  - rewrite Nat.add_0_r in Hf. lia.
  - cbn [caches_there]. rewrite land_pow2 by lia.
    assert (filter_bits fuel (pre ++ c :: row) filter (s32 (2 ^ Z.of_nat (length pre) * 2)) (Z.of_nat (length pre) + 1)
      = Some (caches_there filter row (Z.of_nat (length pre) + 1))) as Hrec.
    { assert (2 ^ Z.of_nat (length pre) <= 2 ^ 29) as Hp2 by (apply Z.pow_le_mono_r; lia).
      change (2 ^ 29) with 536870912 in Hp2. rewrite s32_small by lia.
      specialize (IH fuel (pre ++ [c])). rewrite length_app, <- app_assoc in IH. simpl in IH.
      replace (2 ^ Z.of_nat (length pre) * 2) with (2 ^ Z.of_nat (length pre + 1))
        by (rewrite Nat2Z.inj_add, Z.pow_add_r by lia; lia).
      replace (Z.of_nat (length pre) + 1) with (Z.of_nat (length pre + 1)) by lia.
      apply IH; [lia|lia|]. by replace (length pre + 1 + length row)%nat with (length pre + S (length row))%nat by lia. }
    destruct (Z.testbit filter (Z.of_nat (length pre))); simpl negb.
    + destruct (Z.eqb_spec (2 ^ Z.of_nat (length pre)) 0); [lia|].
      rewrite getZ_of_nat, lookup_app_r, Nat.sub_diag by lia. cbn. destruct c; [exact Hrec|done].
    + rewrite Z.eqb_refl. exact Hrec.
Qed.

(** A bit with no entry in the row is an access behind it. *)
Lemma filter_bits_behind (row : kmalloc_row) :
  length row = 14%nat -> filter_bits 32 row (2 ^ 14) 1 0 = None.
Proof. intros H. do 15 (destruct row as [|? row]; [try done|]); done. Qed.
