(* ===== verification/MdDmaBuf.v ===== *)
(** * The dma-buf dumps (minidump_memory.c, lines 28-44, 1044-1175, 1215-1315)

    Two dumps at a panic: all dma-bufs with their fences and attachments
    (DMA_INFO), and the dma-bufs each process has open (DMA_PROC).  Both are
    printed piece by piece into a buffer that says when it is full.

    The kernel's objects are arguments: what [get_each_dmabuf] and the process
    list visit, in order; fences as the sequence-counter loop finds them in
    the end.  [hash] is jhash of a dma-buf. *)

From stdpp Require Import gmap.
From S2P Require Import Prelude CMem CStr CText CPrint MdSlabOwner.

#[local] Open Scope string_scope.
#[local] Open Scope list_scope.
#[local] Open Scope Z_scope.

(** ** Data *)

Definition DMA_BUF_HASH_SIZE : Z := Z.shiftl 1 20.

Record fence := Fence { fe_driver : string; fe_timeline : string; fe_signaled : bool }.

(** [db_lock]: what [dma_resv_lock] returns; [db_excl] and [db_shared]: the
    exclusive fence and the shared ones, [None] if no reference can be taken;
    [db_count] is not negative. *)
Record dma_buf := DmaBuf {
  db_size : Z;
  db_flags : Z;
  db_mode : Z;
  db_count : Z;
  db_exp_name : string;
  db_ino : Z;
  db_name : option string;
  db_resv : Z;
  db_lock : Z;
  db_excl : option fence;
  db_shared : list (option fence);
  db_attached : list string;
}.

(** What the code holds: reservation locks, the depth of RCU read sections,
    references to fences.  A lock that is held is not taken again. *)
Record held := Held { h_locks : list Z; h_rcu : Z; h_fences : Z }.

Definition lock_resv (r : Z) (h : held) : held := Held (r :: h_locks h) (h_rcu h) (h_fences h).
Definition unlock_resv (r : Z) (h : held) : held :=
  Held (List.remove Z.eq_dec r (h_locks h)) (h_rcu h) (h_fences h).
Definition rcu_lock (h : held) : held := Held (h_locks h) (h_rcu h + 1) (h_fences h).
Definition rcu_unlock (h : held) : held := Held (h_locks h) (h_rcu h - 1) (h_fences h).
Definition fence_get (h : held) : held := Held (h_locks h) (h_rcu h) (h_fences h + 1).
Definition fence_put (h : held) : held := Held (h_locks h) (h_rcu h) (h_fences h - 1).

(** ** Printing *)

(** [scnprintf(buf + offset, size - offset, ...)], [offset += ret] and the test
    for a full buffer. *)
Definition pb_print (text : string) (pb : priv_buf) (m : mem) : option (bool * priv_buf * mem) :=
  let* (ret, m) := scnprintf_to m (pb_buf pb + pb_offset pb) (u64 (pb_size pb - pb_offset pb)) text in
  let offset := pb_offset pb + ret in
  Some (offset =? pb_size pb - 1, PrivBuf (pb_buf pb) (pb_size pb) offset, m).

Definition bufinfo_line (b : dma_buf) : string :=
  pad_zero 8 (fmt_u (db_size b)) +:+ tab +:+ pad_zero 8 (fmt_x (db_flags b)) +:+ tab +:+
  pad_zero 8 (fmt_x (db_mode b)) +:+ tab +:+ pad_zero 8 (fmt_u (db_count b)) +:+ tab +:+
  db_exp_name b +:+ tab +:+ pad_zero 8 (fmt_u (db_ino b)) +:+ tab +:+ default "" (db_name b) +:+ nl.

Definition bufinfo_head : string :=
  pad_right 8 "size" +:+ tab +:+ pad_right 8 "flags" +:+ tab +:+ pad_right 8 "mode" +:+ tab +:+
  pad_right 8 "count" +:+ tab +:+ "exp_name" +:+ tab +:+ pad_right 8 "ino" +:+ nl.

Definition fence_line (kind : string) (f : fence) : string :=
  tab +:+ kind +:+ " fence: " +:+ fe_driver f +:+ " " +:+ fe_timeline f +:+ " " +:+
  (if fe_signaled f then "" else "un") +:+ "signalled" +:+ nl.

Definition total_line (count size : Z) : string :=
  nl +:+ "Total " +:+ fmt_d count +:+ " objects, " +:+ fmt_u size +:+ " bytes" +:+ nl.

(** ** All dma-bufs *)

(** The loop over the shared fences. *)
Fixpoint shared_fences (l : list (option fence)) (pb : priv_buf) (m : mem) (h : held)
  : option (bool * priv_buf * mem * held) :=
  match l with
  | [] => Some (false, pb, m, h)
  | None :: l => shared_fences l pb m h
  | Some f :: l =>
      let h := fence_get h in
      let* (full, pb, m) := pb_print (fence_line "Shared" f) pb m in
      if full : bool then Some (true, pb, m, h) else shared_fences l pb m (fence_put h)
  end.

(** The loop over the attachments. *)
Fixpoint attachments (l : list string) (pb : priv_buf) (m : mem) : option (bool * priv_buf * mem) :=
  match l with
  | [] => Some (false, pb, m)
  | d :: l =>
      let* (full, pb, m) := pb_print (tab +:+ d +:+ nl) pb m in
      if full : bool then Some (true, pb, m) else attachments l pb m
  end.

(** [count] and [size] are the totals of [struct dma_buf_priv]; every error is
    -ENOSPC. *)
Record dma_totals := DmaTotals { dt_count : Z; dt_size : Z }.

Definition dump_bufinfo (b : dma_buf) (pb : priv_buf) (t : dma_totals) (m : mem) (h : held)
  : option (Z * priv_buf * dma_totals * mem * held) :=
  if negb (db_lock b =? 0) then Some (- ENOSPC, pb, t, m, h)
  else
    let* _ := assert_c (bool_decide (db_resv b ∉ h_locks h)) in
    let h := lock_resv (db_resv b) h in
    let* (full, pb, m) := pb_print (bufinfo_line b) pb m in
    if full : bool then Some (- ENOSPC, pb, t, m, h)
    else
      let h := rcu_lock h in
      let* (full, pb, m) :=
        match db_excl b with
        | Some f => pb_print (fence_line "Exclusive" f) pb m
        | None => Some (false, pb, m)
        end in
      if full : bool then Some (- ENOSPC, pb, t, m, h)
      else
        let* (full, pb, m, h) := shared_fences (db_shared b) pb m h in
        if full : bool then Some (- ENOSPC, pb, t, m, h)
        else
          let h := rcu_unlock h in
          let* (full, pb, m) := pb_print (tab +:+ "Attached Devices:" +:+ nl) pb m in
          if full : bool then Some (- ENOSPC, pb, t, m, h)
          else
            let* (full, pb, m) := attachments (db_attached b) pb m in
            if full : bool then Some (- ENOSPC, pb, t, m, h)
            else
              let h := unlock_resv (db_resv b) h in
              let* (full, pb, m) :=
                pb_print ("Total " +:+ fmt_d (Z.of_nat (length (db_attached b))) +:+
                          " devices attached" +:+ nl +:+ nl) pb m in
              if full : bool then Some (- ENOSPC, pb, t, m, h)
              else Some (0, pb, DmaTotals (s32 (dt_count t + 1)) (u64 (dt_size t + db_size b)), m, h).

(** [get_each_dmabuf]: until an error. *)
Fixpoint each_dmabuf (l : list dma_buf) (pb : priv_buf) (t : dma_totals) (m : mem) (h : held)
  : option (priv_buf * dma_totals * mem * held) :=
  match l with
  | [] => Some (pb, t, m, h)
  | b :: l =>
      let* (ret, pb, t, m, h) := dump_bufinfo b pb t m h in
      if negb (ret =? 0) then Some (pb, t, m, h) else each_dmabuf l pb t m h
  end.

Definition md_dma_buf_info (in_task : bool) (bufs : list dma_buf) (addr dump_size : Z) (m : mem) (h : held)
  : option (mem * held) :=
  if negb in_task then Some (m, h)
  else
    let* (ret, m) := scnprintf_to m addr dump_size (nl +:+ "Dma-buf Objects:" +:+ nl) in
    let* (ret', m) := scnprintf_to m (addr + ret) (u64 (dump_size - ret)) bufinfo_head in
    let pb := PrivBuf addr dump_size (ret + ret') in
    let* (pb, t, m, h) := each_dmabuf bufs pb (DmaTotals 0 0) m h in
    let* (_, m) := scnprintf_to m (addr + pb_offset pb) (u64 (dump_size - pb_offset pb))
                     (total_line (dt_count t) (dt_size t)) in
    Some (m, h).

(** ** The dma-bufs of each process *)

(** A file of a table: a dma-buf, or something else. *)
Definition fd_table := list (option dma_buf).

(** A thread: the number of its file table, if it has one, and whether it is
    the leader of its group. *)
Record thread := Thread { th_files : option Z; th_leader : bool }.

(** A process: its name and id, the file table of its leader, its threads. *)
Record process := Process {
  pr_comm : string;
  pr_tgid : Z;
  pr_leader_files : option Z;
  pr_threads : list thread;
}.

(** [dma_buf_hash]: the indices set. *)
Record procs_state := ProcsState {
  ps_pb : priv_buf;
  ps_count : Z;
  ps_size : Z;
  ps_hash : gset Z;
  ps_mem : mem;
}.

Section Procs.
Context (hash : dma_buf -> Z) (files : Z -> fd_table).

Definition set_pb (s : procs_state) (pb : priv_buf) (m : mem) : procs_state :=
  ProcsState pb (ps_count s) (ps_size s) (ps_hash s) m.

Definition proc_head (p : process) : string :=
  nl +:+ pr_comm p +:+ " (PID " +:+ fmt_d (pr_tgid p) +:+ ")" +:+ nl +:+ "DMA Buffers:" +:+ nl.

Definition get_dma_info (p : process) (file : option dma_buf) (s : procs_state)
  : option (Z * procs_state) :=
  match file with
  | None => Some (0, s)
  | Some b =>
      let* (full, s) :=
        if ps_count s =? 0 then
          let* (full, pb, m) := pb_print (proc_head p) (ps_pb s) (ps_mem s) in
          Some (full, set_pb s pb m)
        else Some (false, s) in
      if full : bool then Some (- EINVAL, s)
      else
        let index := Z.land (hash b) (DMA_BUF_HASH_SIZE - 1) in
        if bool_decide (index ∈ ps_hash s) then Some (0, s)
        else
          let s := ProcsState (ps_pb s) (s32 (ps_count s + 1)) (ps_size s) ({[index]} ∪ ps_hash s) (ps_mem s) in
          let* (full, pb, m) := pb_print bufinfo_head (ps_pb s) (ps_mem s) in
          let s := set_pb s pb m in
          if full : bool then Some (- EINVAL, s)
          else
            let* (full, pb, m) := pb_print (bufinfo_line b) (ps_pb s) (ps_mem s) in
            let s := set_pb s pb m in
            if full : bool then Some (- EINVAL, s)
            else Some (0, ProcsState (ps_pb s) (ps_count s) (u64 (ps_size s + db_size b)) (ps_hash s) (ps_mem s))
  end.

(** [iterate_fd(files, 0, get_dma_info, ...)]: until an error. *)
Fixpoint iterate_fd (p : process) (l : fd_table) (s : procs_state) : option (Z * procs_state) :=
  match l with
  | [] => Some (0, s)
  | f :: l =>
      let* (ret, s) := get_dma_info p f s in
      if negb (ret =? 0) then Some (ret, s) else iterate_fd p l s
  end.

(** The files of the thread are printed: not those of the leader again. *)
Definition visited (p : process) (t : thread) : option Z :=
  match th_files t with
  | Some f => if bool_decide (pr_leader_files p <> Some f) || th_leader t then Some f else None
  | None => None
  end.

(** The loop over the threads: whether it ended at [err], and [ret], which
    keeps its value when a thread is not visited. *)
Fixpoint each_thread (p : process) (l : list thread) (ret : Z) (s : procs_state)
  : option (bool * Z * procs_state) :=
  match l with
  | [] => Some (false, ret, s)
  | t :: l =>
      let* (ret, s) :=
        match visited p t with
        | Some f => iterate_fd p (files f) s
        | None => Some (ret, s)
        end in
      if negb (ret =? 0) then Some (true, ret, s) else each_thread p l ret s
  end.

(** The loop over the processes: the result is [false] when it ended at
    [err]. *)
Fixpoint each_process (l : list process) (ret : Z) (s : procs_state) : option (bool * procs_state) :=
  match l with
  | [] => Some (true, s)
  | p :: l =>
      let* (err, ret, s) := each_thread p (pr_threads p) ret s in
      if err : bool then Some (false, s)
      else if ps_count s =? 0 then each_process l ret s
      else
        let* (n, m) := scnprintf_to (ps_mem s) (pb_buf (ps_pb s) + pb_offset (ps_pb s))
                         (u64 (pb_size (ps_pb s) - pb_offset (ps_pb s))) (total_line (ps_count s) (ps_size s)) in
        let pb := PrivBuf (pb_buf (ps_pb s)) (pb_size (ps_pb s)) (pb_offset (ps_pb s) + n) in
        if pb_offset pb =? pb_size pb - 1 then Some (false, set_pb s pb m)
        else each_process l n (ProcsState pb 0 0 ∅ m)
  end.

Definition md_dma_buf_procs (procs : list process) (addr dump_size : Z) (hashes : gset Z) (m : mem)
  : option (bool * procs_state) :=
  each_process procs 0 (ProcsState (PrivBuf addr dump_size 0) 0 0 hashes m).
End Procs.
