(* ===== verification/MdDmaBufProofs.v ===== *)
(** * The dma-buf dumps: their texts

    [printed_to] says that a buffer holds a text, cut to its size.  A print
    appends to the text, full or not, so the dumps are the texts of their
    parts in a row; what is held when the buffer is full is another matter. *)

From stdpp Require Import gmap.
From S2P Require Import Prelude CMem CStr CText CPrint MdPageOwner MdPageOwnerProofs MdSlabOwner MdDmaBuf.

#[local] Open Scope string_scope.
#[local] Open Scope list_scope.
#[local] Open Scope Z_scope.

Section Buffer.
Context (A N : Z) (m0 : mem).
Hypothesis size_ok : 0 < N <= INT_MAX_SIZE.
Hypothesis lo_ok : m_lo m0 <= A.
Hypothesis hi_ok : A + N <= m_hi m0.

(** ** Printing *)

Record printed_to (pb : priv_buf) (m : mem) (text : string) : Prop := {
  pt_buf : pb_buf pb = A;
  pt_size : pb_size pb = N;
  pt_offset : pb_offset pb = Z.min (N - 1) (slen text);
  pt_text : cstr_at m A (stake (Z.to_nat (N - 1)) text);
  pt_mem : mod_only A (A + N) m0 m;
}.

(** A full buffer holds every longer text as well. *)
Lemma printed_full pb m text t :
  printed_to pb m text -> N - 1 <= slen text -> printed_to pb m (text +:+ t).
Proof.
  intros [H1 H2 H3 H4 H5] Hl. pose proof (slen_nonneg t). split; try done.
  - rewrite slen_app. lia.
  - by rewrite stake_app_le by lia.
Qed.

(** [scnprintf] at the end of the text. *)
Lemma scnprintf_end m text t o :
  cstr_at m A (stake (Z.to_nat (N - 1)) text) -> mod_only A (A + N) m0 m -> o = Z.min (N - 1) (slen text) ->
  exists m', scnprintf_to m (A + o) (u64 (N - o)) t = Some (Z.min (N - 1) (slen (text +:+ t)) - o, m') /\
    cstr_at m' A (stake (Z.to_nat (N - 1)) (text +:+ t)) /\ mod_only A (A + N) m0 m'.
Proof.
  intros Hat Hm ->. pose proof Hm as (Hl & Hh & _). pose proof (slen_nonneg text). pose proof (slen_nonneg t).
  set (o := Z.min (N - 1) (slen text)) in *. rewrite u64_small by (unfold INT_MAX_SIZE in *; lia).
  destruct (scnprintf_to_exact m (A + o) (N - o) t) as (m' & -> & Hm' & Hs); [lia..|].
  exists m'. rewrite slen_app. split; [do 2 f_equal; lia|]. split.
  - rewrite stake_app. destruct (Z.leb_spec (Z.of_nat (Z.to_nat (N - 1))) (slen text)) as [Hle|Hgt].
    + replace (Z.to_nat (N - o - 1)) with O in Hs by lia. replace (stake 0 t) with "" in Hs by (by destruct t).
      rewrite <- sapp_nil_r. eapply cstr_at_app; [exact Hat| |].
      * rewrite slen_stake. intros x Hx. destruct Hm' as (_ & _ & Hb). symmetry. apply Hb. lia.
      * rewrite slen_stake. replace (A + Z.min (Z.of_nat (Z.to_nat (N - 1))) (slen text)) with (A + o) by lia. exact Hs.
    + rewrite stake_all in Hat by lia. eapply cstr_at_app; [exact Hat| |].
      * intros x Hx. destruct Hm' as (_ & _ & Hb). symmetry. apply Hb. lia.
      * replace (slen text) with o by lia.
        by replace (Z.to_nat (N - 1) - Z.to_nat o)%nat with (Z.to_nat (N - o - 1)) by lia.
  - eapply mod_only_trans; [exact Hm|]. eapply mod_only_weaken; [| |exact Hm']; lia.
Qed.

Lemma pb_print_ok pb m text t :
  printed_to pb m text ->
  exists pb' m', pb_print t pb m = Some (N - 1 <=? slen (text +:+ t), pb', m') /\ printed_to pb' m' (text +:+ t).
Proof.
  intros [Hb Hs Ho Ht Hm]. unfold pb_print. rewrite Hb, Hs.
  destruct (scnprintf_end m text t _ Ht Hm Ho) as (m' & -> & Ht' & Hm').
  cbv beta match.
  replace (pb_offset pb + (Z.min (N - 1) (slen (text +:+ t)) - pb_offset pb))
    with (Z.min (N - 1) (slen (text +:+ t))) by lia.
  exists (PrivBuf A N (Z.min (N - 1) (slen (text +:+ t)))), m'. split; [|by split].
  replace (Z.min (N - 1) (slen (text +:+ t)) =? N - 1) with (N - 1 <=? slen (text +:+ t)) by lia. done.
Qed.

(** ** All dma-bufs *)

Definition fence_lines (kind : string) (l : list (option fence)) : string :=
  String.concat "" (map (fun f => match f with Some f => fence_line kind f | None => "" end) l).

Definition attached_lines (l : list string) : string :=
  String.concat "" (map (fun d => tab +:+ d +:+ nl) l).

Definition exclusive_line (f : option fence) : string :=
  match f with Some f => fence_line "Exclusive" f | None => "" end.

Definition attached_head : string := tab +:+ "Attached Devices:" +:+ nl.

(** What is printed while the reservation lock is held, and the rest. *)
Definition bufinfo_body (b : dma_buf) : string :=
  bufinfo_line b +:+ exclusive_line (db_excl b) +:+ fence_lines "Shared" (db_shared b) +:+
  attached_head +:+ attached_lines (db_attached b).

Definition bufinfo_end (b : dma_buf) : string :=
  "Total " +:+ fmt_d (Z.of_nat (length (db_attached b))) +:+ " devices attached" +:+ nl +:+ nl.

Lemma concat_cons s l : String.concat "" (s :: l) = s +:+ String.concat "" l.
Proof. simpl. destruct l; simpl; [by rewrite sapp_nil_r|done]. Qed.

Lemma shared_fences_ok l pb m h text :
  printed_to pb m text -> slen text < N - 1 ->
  exists pb' m' h', shared_fences l pb m h
      = Some (N - 1 <=? slen (text +:+ fence_lines "Shared" l), pb', m', h') /\
    printed_to pb' m' (text +:+ fence_lines "Shared" l) /\
    h_locks h' = h_locks h /\ (slen (text +:+ fence_lines "Shared" l) < N - 1 -> h' = h).
Proof.
  revert pb m h text. induction l as [|f l IH]; intros pb m h text Hp Hl; cbn [shared_fences].
  { unfold fence_lines. cbn. rewrite sapp_nil_r. decide_tests. by exists pb, m, h. }
  unfold fence_lines. cbn [map]. rewrite concat_cons. fold (fence_lines "Shared" l).
  destruct f as [f|]; [|by apply IH]. rewrite sapp_assoc.
  destruct (pb_print_ok pb m text (fence_line "Shared" f) Hp) as (pb1 & m1 & -> & Hp1). cbv beta match.
  pose proof (slen_nonneg (fence_lines "Shared" l)).
  destruct (Z.leb_spec (N - 1) (slen (text +:+ fence_line "Shared" f))) as [Hf|Hf].
  - exists pb1, m1, (fence_get h). rewrite (slen_app (_ +:+ _)). decide_tests.
    split; [done|]. split; [by apply printed_full|]. split; [done|lia].
  - replace (fence_put (fence_get h)) with h
      by (destruct h as [? ? n]; unfold fence_put, fence_get; cbn; f_equal; lia).
    by apply IH.
Qed.

Lemma attachments_ok l pb m text :
  printed_to pb m text -> slen text < N - 1 ->
  exists pb' m', attachments l pb m = Some (N - 1 <=? slen (text +:+ attached_lines l), pb', m') /\
    printed_to pb' m' (text +:+ attached_lines l).
Proof.
  revert pb m text. induction l as [|d l IH]; intros pb m text Hp Hl; cbn [attachments].
  { unfold attached_lines. cbn. rewrite sapp_nil_r. decide_tests. by exists pb, m. }
  unfold attached_lines. cbn [map]. rewrite concat_cons. fold (attached_lines l). rewrite (sapp_assoc text).
  destruct (pb_print_ok pb m text (tab +:+ d +:+ nl) Hp) as (pb1 & m1 & -> & Hp1). cbv beta match.
  pose proof (slen_nonneg (attached_lines l)).
  destruct (Z.leb_spec (N - 1) (slen (text +:+ (tab +:+ d +:+ nl)))) as [Hf|Hf].
  - exists pb1, m1. rewrite (slen_app (_ +:+ _)). decide_tests. split; [done|by apply printed_full].
  - by apply IH.
Qed.

(** Whatever is printed behind a text that fills the buffer. *)
Lemma slen_app_ge (s t : string) : slen s <= slen (s +:+ t).
Proof. rewrite slen_app. pose proof (slen_nonneg t). lia. Qed.

Definition next_totals (t : dma_totals) (b : dma_buf) : dma_totals :=
  DmaTotals (s32 (dt_count t + 1)) (u64 (dt_size t + db_size b)).

Lemma dump_bufinfo_ok b pb t m h text :
  printed_to pb m text -> slen text < N - 1 -> db_lock b = 0 -> db_resv b ∉ h_locks h ->
  let body := text +:+ bufinfo_body b in
  let all := body +:+ bufinfo_end b in
  exists pb' m' h', dump_bufinfo b pb t m h
      = Some (if N - 1 <=? slen all then - ENOSPC else 0, pb',
              if N - 1 <=? slen all then t else next_totals t b, m', h') /\
    printed_to pb' m' all /\
    (if N - 1 <=? slen body then h_locks h' = db_resv b :: h_locks h else h' = h).
Proof.
  intros Hp Hl Hlock Hnot body all. unfold dump_bufinfo. rewrite Hlock, bool_decide_eq_true_2 by done.
  cbn [Z.eqb negb assert_c].
  assert (forall pb' m' (s r : string) h', printed_to pb' m' s -> N - 1 <= slen s -> body = s +:+ r ->
    h_locks h' = db_resv b :: h_locks h ->
    exists pb'' m'' h'', Some (- ENOSPC, pb', t, m', h') = Some (if N - 1 <=? slen all then - ENOSPC else 0, pb'',
              if N - 1 <=? slen all then t else next_totals t b, m'', h'') /\
    printed_to pb'' m'' all /\
    (if N - 1 <=? slen body then h_locks h'' = db_resv b :: h_locks h else h'' = h)) as Hstop.
  { intros pb' m' s r h' Hs Hf Heq Hh. pose proof (slen_app_ge s r). pose proof (slen_app_ge body (bufinfo_end b)).
    fold all in H0. rewrite <- Heq in H. exists pb', m', h'. decide_tests. split; [done|]. split; [|done].
    unfold all. rewrite Heq. apply printed_full; [by apply printed_full|]. rewrite <- Heq. lia. }
  unfold body, bufinfo_body in Hstop. change (tab +:+ "Attached Devices:" +:+ nl) with attached_head.
  fold (bufinfo_end b). set (t1 := bufinfo_line b) in *. set (t2 := exclusive_line (db_excl b)) in *.
  set (t3 := fence_lines "Shared" (db_shared b)) in *. set (t5 := attached_lines (db_attached b)) in *.
  destruct (pb_print_ok pb m text t1 Hp) as (pb1 & m1 & -> & Hp1). cbv beta match.
  destruct (Z.leb_spec (N - 1) (slen (text +:+ t1))) as [Hf1|Hf1].
  { apply (Hstop _ _ _ (t2 +:+ t3 +:+ attached_head +:+ t5) _ Hp1 Hf1); [by rewrite !sapp_assoc|done]. }
  assert (exists pb2 m2, match db_excl b with
      | Some f => pb_print (fence_line "Exclusive" f) pb1 m1
      | None => Some (false, pb1, m1)
      end = Some (N - 1 <=? slen ((text +:+ t1) +:+ t2), pb2, m2) /\ printed_to pb2 m2 ((text +:+ t1) +:+ t2))
    as (pb2 & m2 & -> & Hp2).
  { subst t2. destruct (db_excl b) as [f|]; cbn [exclusive_line]; [by apply pb_print_ok|].
    rewrite sapp_nil_r. decide_tests. by exists pb1, m1. }
  cbv beta match. destruct (Z.leb_spec (N - 1) (slen ((text +:+ t1) +:+ t2))) as [Hf2|Hf2].
  { apply (Hstop _ _ _ (t3 +:+ attached_head +:+ t5) _ Hp2 Hf2); [by rewrite !sapp_assoc|done]. }
  destruct (shared_fences_ok (db_shared b) pb2 m2 (rcu_lock (lock_resv (db_resv b) h)) _ Hp2 Hf2)
    as (pb3 & m3 & h3 & -> & Hp3 & Hl3 & Hh3). fold t3 in Hp3, Hh3 |- *. cbv beta match.
  destruct (Z.leb_spec (N - 1) (slen (((text +:+ t1) +:+ t2) +:+ t3))) as [Hf3|Hf3].
  { apply (Hstop _ _ _ (attached_head +:+ t5) _ Hp3 Hf3); [by rewrite !sapp_assoc|by rewrite Hl3]. }
  specialize (Hh3 Hf3) as ->.
  destruct (pb_print_ok pb3 m3 _ attached_head Hp3) as (pb4 & m4 & -> & Hp4). cbv beta match.
  destruct (Z.leb_spec (N - 1) (slen ((((text +:+ t1) +:+ t2) +:+ t3) +:+ attached_head))) as [Hf4|Hf4].
  { apply (Hstop _ _ _ t5 _ Hp4 Hf4); [by rewrite !sapp_assoc|done]. }
  destruct (attachments_ok (db_attached b) pb4 m4 _ Hp4 Hf4) as (pb5 & m5 & -> & Hp5). fold t5 in Hp5 |- *.
  cbv beta match. assert (((((text +:+ t1) +:+ t2) +:+ t3) +:+ attached_head) +:+ t5 = body) as Hbody
    by (unfold body, bufinfo_body; fold t1 t2 t3 t5; by rewrite !sapp_assoc).
  rewrite Hbody in *. destruct (Z.leb_spec (N - 1) (slen body)) as [Hf5|Hf5].
  { pose proof (slen_app_ge body (bufinfo_end b)). fold all in H. eexists pb5, m5, _. decide_tests.
    split; [reflexivity|]. split; [by apply printed_full|done]. }
  destruct (pb_print_ok pb5 m5 _ (bufinfo_end b) Hp5) as (pb6 & m6 & -> & Hp6). fold all in Hp6 |- *.
  cbv beta match. exists pb6, m6, (unlock_resv (db_resv b) (rcu_unlock (rcu_lock (lock_resv (db_resv b) h)))).
  split; [by destruct (N - 1 <=? slen all)|]. split; [done|].
  destruct h as [l r f]. unfold unlock_resv, rcu_unlock, rcu_lock, lock_resv. cbn. f_equal; [|lia].
  destruct (Z.eq_dec (db_resv b) (db_resv b)); [|done]. apply notin_remove.
  intros Hin. apply Hnot. by apply list_elem_of_In.
Qed.

Definition bufinfo_text (b : dma_buf) : string := bufinfo_body b +:+ bufinfo_end b.

Definition bufinfo_texts (l : list dma_buf) : string := String.concat "" (map bufinfo_text l).

(** A buffer can be locked: it is not, and the lock is granted. *)
Definition lockable (h : held) (b : dma_buf) : Prop := db_lock b = 0 /\ db_resv b ∉ h_locks h.

Lemma bufinfo_texts_cons b l : bufinfo_texts (b :: l) = bufinfo_text b +:+ bufinfo_texts l.
Proof. apply concat_cons. Qed.

Lemma each_dmabuf_ok l pb t m h text :
  printed_to pb m text -> slen text < N - 1 -> Forall (lockable h) l ->
  exists pb' t' m' h', each_dmabuf l pb t m h = Some (pb', t', m', h') /\
    printed_to pb' m' (text +:+ bufinfo_texts l) /\
    (slen (text +:+ bufinfo_texts l) < N - 1 -> t' = fold_left next_totals l t /\ h' = h).
Proof.
  revert pb t m text. induction l as [|b l IH]; intros pb t m text Hp Hl Hok; cbn [each_dmabuf].
  { unfold bufinfo_texts. cbn. rewrite sapp_nil_r. by exists pb, t, m, h. }
  apply list.Forall_cons in Hok as [[Hlock Hnot] Hok]. rewrite bufinfo_texts_cons, sapp_assoc.
  destruct (dump_bufinfo_ok b pb t m h text Hp Hl Hlock Hnot) as (pb1 & m1 & h1 & -> & Hp1 & Hh1). cbv beta match.
  rewrite <- sapp_assoc in *. fold (bufinfo_text b) in *.
  destruct (Z.leb_spec (N - 1) (slen (text +:+ bufinfo_text b))) as [Hf|Hf].
  - change (negb (- ENOSPC =? 0)) with true. cbv beta match. exists pb1, t, m1, h1.
    pose proof (slen_app_ge (text +:+ bufinfo_text b) (bufinfo_texts l)).
    split; [done|]. split; [by apply printed_full|lia].
  - cbn [Z.eqb negb]. cbv beta match.
    assert (h1 = h) as ->.
    { destruct (Z.leb_spec (N - 1) (slen (text +:+ bufinfo_body b))); [|done]. exfalso.
      unfold bufinfo_text in Hf. rewrite sapp_assoc in Hf. pose proof (slen_app_ge (text +:+ bufinfo_body b) (bufinfo_end b)). lia. }
    by apply IH.
Qed.

(** When a buffer's text does not fit, its reservation stays locked. *)
Lemma each_dmabuf_locked l1 b l2 pb t m h text :
  printed_to pb m text -> slen (text +:+ bufinfo_texts l1) < N - 1 -> Forall (lockable h) (l1 ++ [b]) ->
  N - 1 <= slen ((text +:+ bufinfo_texts l1) +:+ bufinfo_body b) ->
  exists pb' t' m' h', each_dmabuf (l1 ++ b :: l2) pb t m h = Some (pb', t', m', h') /\
    printed_to pb' m' ((text +:+ bufinfo_texts l1) +:+ bufinfo_text b) /\ h_locks h' = db_resv b :: h_locks h.
Proof.
  revert pb t m text. induction l1 as [|b1 l1 IH]; intros pb t m text Hp Hl Hok Hf; cbn [app each_dmabuf].
  - unfold bufinfo_texts in *. cbn in Hl, Hf |- *. rewrite sapp_nil_r in *.
    apply list.Forall_cons in Hok as [[Hlock Hnot] _].
    destruct (dump_bufinfo_ok b pb t m h text Hp Hl Hlock Hnot) as (pb1 & m1 & h1 & -> & Hp1 & Hh1). cbv beta match.
    pose proof (slen_app_ge (text +:+ bufinfo_body b) (bufinfo_end b)).
    destruct (Z.leb_spec (N - 1) (slen ((text +:+ bufinfo_body b) +:+ bufinfo_end b))); [|lia].
    change (negb (- ENOSPC =? 0)) with true. cbv beta match. eexists pb1, t, m1, h1. split; [done|].
    rewrite <- sapp_assoc in Hp1. split; [exact Hp1|]. by destruct (Z.leb_spec (N - 1) (slen (text +:+ bufinfo_body b))); [|lia].
  - rewrite bufinfo_texts_cons, sapp_assoc in *. cbn [app] in Hok. apply list.Forall_cons in Hok as [[Hlock Hnot] Hok].
    pose proof (slen_app_ge (text +:+ bufinfo_text b1) (bufinfo_texts l1)). unfold bufinfo_text in H at 1. rewrite sapp_assoc in H.
    pose proof (slen_app_ge (text +:+ bufinfo_body b1) (bufinfo_end b1)). pose proof (slen_app_ge text (bufinfo_body b1)).
    destruct (dump_bufinfo_ok b1 pb t m h text Hp ltac:(lia) Hlock Hnot) as (pb1 & m1 & h1 & -> & Hp1 & Hh1). cbv beta match.
    destruct (Z.leb_spec (N - 1) (slen ((text +:+ bufinfo_body b1) +:+ bufinfo_end b1))); [lia|].
    destruct (Z.leb_spec (N - 1) (slen (text +:+ bufinfo_body b1))); [lia|]. subst h1. cbn [Z.eqb negb]. cbv beta match.
    rewrite <- sapp_assoc in Hp1. fold (bufinfo_text b1) in Hp1. by apply IH.
Qed.

Definition dma_info_head : string := (nl +:+ "Dma-buf Objects:" +:+ nl) +:+ bufinfo_head.

Definition totals_of (l : list dma_buf) : dma_totals := fold_left next_totals l (DmaTotals 0 0).

(** The whole dump. *)
Definition dma_info_text (l : list dma_buf) : string :=
  (dma_info_head +:+ bufinfo_texts l) +:+ total_line (dt_count (totals_of l)) (dt_size (totals_of l)).

Lemma md_dma_buf_info_ok l h (P : held -> Prop) text :
  ld m0 A 1 = 0 -> slen dma_info_head < N - 1 ->
  (forall pb m, printed_to pb m dma_info_head ->
    exists pb' t' m' h', each_dmabuf l pb (DmaTotals 0 0) m h = Some (pb', t', m', h') /\
      printed_to pb' m' text /\ (slen text < N - 1 -> t' = totals_of l) /\ P h') ->
  exists m' h', md_dma_buf_info true l A N m0 h = Some (m', h') /\ mod_only A (A + N) m0 m' /\
    cstr_at m' A (stake (Z.to_nat (N - 1)) (text +:+ total_line (dt_count (totals_of l)) (dt_size (totals_of l)))) /\ P h'.
Proof.
  intros Hz Hhead Heach. unfold md_dma_buf_info. cbn [negb].
  destruct (scnprintf_end m0 "" (nl +:+ "Dma-buf Objects:" +:+ nl) 0) as (m1 & Hr1 & Ht1 & Hm1).
  { by destruct (Z.to_nat (N - 1)). }
  { apply mod_only_refl. }
  { unfold slen. simpl. lia. }
  rewrite Z.add_0_r, Z.sub_0_r, u64_small in Hr1 by (unfold INT_MAX_SIZE in *; lia). rewrite Hr1. cbv beta match.
  rewrite Z.sub_0_r. change ("" +:+ (nl +:+ "Dma-buf Objects:" +:+ nl)) with (nl +:+ "Dma-buf Objects:" +:+ nl) in *.
  set (t1 := nl +:+ "Dma-buf Objects:" +:+ nl) in *.
  destruct (scnprintf_end m1 t1 bufinfo_head _ Ht1 Hm1 eq_refl) as (m2 & -> & Ht2 & Hm2). cbv beta match.
  replace (Z.min (N - 1) (slen t1) + (Z.min (N - 1) (slen (t1 +:+ bufinfo_head)) - Z.min (N - 1) (slen t1)))
    with (Z.min (N - 1) (slen dma_info_head)) by (unfold dma_info_head; fold t1; lia).
  destruct (Heach (PrivBuf A N (Z.min (N - 1) (slen dma_info_head))) m2) as (pb' & t' & m' & h' & -> & [Hb Hs Ho Ht Hm] & Htot & HP);
    [by split|].
  cbv beta match.
  destruct (scnprintf_end m' text (total_line (dt_count t') (dt_size t')) _ Ht Hm Ho) as (m3 & -> & Ht3 & Hm3).
  cbv beta match. exists m3, h'. split; [done|]. split; [done|]. split; [|done].
  destruct (Z.ltb_spec (slen text) (N - 1)) as [Hlt|Hge]; [by rewrite <- Htot|].
  rewrite stake_app_le in Ht3 |- * by lia. done.
Qed.

(** ** The dma-bufs of each process *)

Section Procs.
Context (hash : dma_buf -> Z) (files : Z -> fd_table).

Definition hash_index (b : dma_buf) : Z := Z.land (hash b) (DMA_BUF_HASH_SIZE - 1).

(** The buffers printed: the first of each hash index. *)
Definition add_unique (l : list dma_buf) (b : dma_buf) : list dma_buf :=
  if bool_decide (hash_index b ∈ map hash_index l) then l else l ++ [b].

Definition entries_text (l : list dma_buf) : string :=
  String.concat "" (map (fun b => bufinfo_head +:+ bufinfo_line b) l).

(** What is printed of a process when the buffers [l] were. *)
Definition proc_text (p : process) (l : list dma_buf) : string :=
  match l with [] => "" | _ => proc_head p +:+ entries_text l end.

Definition sum_u64 (l : list dma_buf) : Z := fold_left (fun n b => u64 (n + db_size b)) l 0.

Lemma entries_text_app l b : entries_text (l ++ [b]) = entries_text l +:+ bufinfo_head +:+ bufinfo_line b.
Proof.
  unfold entries_text. induction l as [|c l IH]; [done|].
  cbn [app map] in *. rewrite !concat_cons, IH. by rewrite !sapp_assoc.
Qed.

Record proc_rep (p : process) (text : string) (l : list dma_buf) (s : procs_state) : Prop := {
  pp_text : printed_to (ps_pb s) (ps_mem s) (text +:+ proc_text p l);
  pp_room : slen (text +:+ proc_text p l) < N - 1;
  pp_count : ps_count s = Z.of_nat (length l);
  pp_size : ps_size s = sum_u64 l;
  pp_hash : forall i, i ∈ ps_hash s <-> i ∈ map hash_index l;
  pp_len : Z.of_nat (length l) < 2147483647;
}.

(** Going on with a longer list of buffers, or the end of the buffer. *)
Definition goes_on (p : process) (text : string) (l' : list dma_buf) (ret : Z) (s' : procs_state) : Prop :=
  (ret = 0 /\ (Z.of_nat (length l') < 2147483647 -> proc_rep p text l' s')) \/
  (ret = - EINVAL /\ N - 1 <= slen (text +:+ proc_text p l') /\
   printed_to (ps_pb s') (ps_mem s') (text +:+ proc_text p l')).

Lemma proc_text_snoc p l b :
  exists r, proc_text p (l ++ [b]) = (if bool_decide (l = []) then proc_head p else proc_text p l) +:+ r /\
    r = bufinfo_head +:+ bufinfo_line b.
Proof.
  eexists. split; [|reflexivity]. destruct l as [|c l]; cbn [app proc_text].
  - by rewrite bool_decide_eq_true_2 by done.
  - rewrite bool_decide_eq_false_2 by done. change (c :: l ++ [b]) with ((c :: l) ++ [b]).
    by rewrite entries_text_app, !sapp_assoc.
Qed.

Lemma get_dma_info_ok p b text l s :
  proc_rep p text l s ->
  exists ret s', get_dma_info hash p (Some b) s = Some (ret, s') /\ goes_on p text (add_unique l b) ret s'.
Proof.
  intros Hrep. pose proof Hrep as [Hp Hl Hc Hsz Hh Hlen]. cbn [get_dma_info]. fold (hash_index b).
  destruct (proc_text_snoc p l b) as (r & Hsnoc & Hr).
  assert (exists pb1 m1, (if ps_count s =? 0 then
          let* (full, pb, m) := pb_print (proc_head p) (ps_pb s) (ps_mem s) in Some (full, set_pb s pb m)
        else Some (false, s))
      = Some (N - 1 <=? slen (text +:+ (if bool_decide (l = []) then proc_head p else proc_text p l)),
              set_pb s pb1 m1) /\
    printed_to pb1 m1 (text +:+ (if bool_decide (l = []) then proc_head p else proc_text p l)))
    as (pb1 & m1 & -> & Hp1).
  { rewrite Hc. destruct l as [|c l]; cbn [length Z.of_nat Z.eqb].
    - rewrite bool_decide_eq_true_2 by done. cbn [proc_text] in Hp. rewrite sapp_nil_r in Hp.
      destruct (pb_print_ok _ _ text (proc_head p) Hp) as (pb1 & m1 & -> & Hp1). by exists pb1, m1.
    - rewrite bool_decide_eq_false_2 by done. exists (ps_pb s), (ps_mem s). decide_tests. split; [by destruct s|done]. }
  cbv beta match. set (t0 := if bool_decide (l = []) then _ else _) in *.
  assert (hash_index b ∈ map hash_index l -> t0 = proc_text p l) as Ht0.
  { intros Hin. subst t0. destruct l; [by apply not_elem_of_nil in Hin|done]. }
  unfold add_unique. rewrite <- Hh in Ht0.
  assert (bool_decide (hash_index b ∈ map hash_index l) = bool_decide (hash_index b ∈ ps_hash s)) as ->
    by (by apply bool_decide_ext; rewrite Hh).
  destruct (Z.leb_spec (N - 1) (slen (text +:+ t0))) as [Hf0|Hf0].
  { (* the head of the process does not fit *)
    assert (hash_index b ∉ ps_hash s) as Hnin.
    { intros Hin. rewrite Ht0 in Hf0 by done. lia. }
    rewrite bool_decide_eq_false_2 by done. eexists _, _. split; [reflexivity|]. right. split; [done|].
    rewrite Hsnoc. fold t0. rewrite sapp_assoc. pose proof (slen_app_ge (text +:+ t0) r).
    split; [lia|]. by apply printed_full. }
  cbn [ps_hash ps_count ps_size ps_pb ps_mem set_pb]. case_bool_decide as Hin.
  { eexists _, _. split; [reflexivity|]. left. split; [done|]. intros _.
    rewrite Ht0 in * by done. by split. }
  destruct (pb_print_ok pb1 m1 _ bufinfo_head Hp1) as (pb2 & m2 & -> & Hp2). cbv beta match.
  assert ((text +:+ t0) +:+ r = text +:+ proc_text p (l ++ [b])) as Hall by (rewrite Hsnoc; fold t0; by rewrite sapp_assoc).
  assert (((text +:+ t0) +:+ bufinfo_head) +:+ bufinfo_line b = text +:+ proc_text p (l ++ [b])) as Hall'
    by (rewrite <- Hall, Hr; by rewrite !sapp_assoc).
  pose proof (slen_app_ge ((text +:+ t0) +:+ bufinfo_head) (bufinfo_line b)) as Hge. rewrite Hall' in Hge.
  destruct (Z.leb_spec (N - 1) (slen ((text +:+ t0) +:+ bufinfo_head))) as [Hf1|Hf1].
  { eexists _, _. split; [reflexivity|]. right. split; [done|]. split; [lia|].
    rewrite <- Hall'. by apply printed_full. }
  cbn [ps_hash ps_count ps_size ps_pb ps_mem set_pb].
  destruct (pb_print_ok pb2 m2 _ (bufinfo_line b) Hp2) as (pb3 & m3 & -> & Hp3). cbv beta match. rewrite Hall' in *.
  destruct (Z.leb_spec (N - 1) (slen (text +:+ proc_text p (l ++ [b])))) as [Hf2|Hf2].
  { eexists _, _. split; [reflexivity|]. by right. }
  eexists _, _. split; [reflexivity|]. left. split; [done|]. intros Hlen'. split; cbn; try done.
  - rewrite Hc, length_app in *. cbn. rewrite s32_small by (simpl in Hlen'; lia). lia.
  - unfold sum_u64. rewrite fold_left_app. cbn. by rewrite Hsz.
  - intros i. rewrite map_app, elem_of_union, elem_of_singleton, elem_of_app, Hh. cbn.
    rewrite list_elem_of_singleton. tauto.
Qed.

(** A part of a file table. *)
Fixpoint uniques (l : list dma_buf) (fds : fd_table) : list dma_buf :=
  match fds with
  | [] => l
  | Some b :: fds => uniques (add_unique l b) fds
  | None :: fds => uniques l fds
  end.

Lemma add_unique_length l b : (length (add_unique l b) <= S (length l))%nat.
Proof. unfold add_unique. case_bool_decide; [lia|]. rewrite length_app. simpl. lia. Qed.

Lemma uniques_length l fds : (length (uniques l fds) <= length l + length fds)%nat.
Proof.
  revert l. induction fds as [|[b|] fds IH]; intros l; simpl; [lia| |].
  - specialize (IH (add_unique l b)). pose proof (add_unique_length l b). lia.
  - specialize (IH l). lia.
Qed.

Lemma uniques_grow l fds : (length l <= length (uniques l fds))%nat.
Proof.
  revert l. induction fds as [|[b|] fds IH]; intros l; simpl; [lia| |apply IH].
  specialize (IH (add_unique l b)). unfold add_unique in *. case_bool_decide; [lia|]. rewrite length_app in IH. lia.
Qed.

(** What is printed of a process only grows. *)
Lemma proc_text_grow p l fds : exists r, proc_text p (uniques l fds) = proc_text p l +:+ r.
Proof.
  revert l. induction fds as [|[b|] fds IH]; intros l; simpl.
  - exists "". by rewrite sapp_nil_r.
  - destruct (IH (add_unique l b)) as (r & Hr). unfold add_unique in *. case_bool_decide; [by exists r|].
    destruct (proc_text_snoc p l b) as (r' & Hr' & _). rewrite Hr. rewrite Hr'.
    destruct l as [|c l]; [by eexists|]. rewrite bool_decide_eq_false_2 by done. rewrite <- sapp_assoc. by eexists.
  - apply IH.
Qed.

Lemma iterate_fd_ok p fds text l s :
  proc_rep p text l s -> Z.of_nat (length l + length fds) < 2147483647 ->
  exists ret s', iterate_fd hash p fds s = Some (ret, s') /\ goes_on p text (uniques l fds) ret s'.
Proof.
  revert l s. induction fds as [|[b|] fds IH]; intros l s Hrep Hlen; cbn [iterate_fd]; simpl length in Hlen.
  - exists 0, s. split; [done|]. by left.
  - destruct (get_dma_info_ok p b text l s Hrep) as (ret & s1 & -> & [[-> Hg]|[-> [Hf Hp]]]); cbv beta match.
    + cbn [Z.eqb negb]. pose proof (add_unique_length l b). apply IH; [apply Hg; lia|lia].
    + change (negb (- EINVAL =? 0)) with true. cbv beta match. eexists _, _. split; [reflexivity|]. right.
      destruct (proc_text_grow p (add_unique l b) fds) as (r & Hr). cbn [uniques].
      rewrite Hr, sapp_assoc. pose proof (slen_app_ge (text +:+ proc_text p (add_unique l b)) r).
      split; [done|]. split; [lia|]. by apply printed_full.
  - cbn [get_dma_info Z.eqb negb]. by apply IH; [|lia].
Qed.

Lemma uniques_app l a b : uniques l (a ++ b) = uniques (uniques l a) b.
Proof. revert l. induction a as [|[c|] a IH]; intros l; simpl; auto. Qed.

(** The files of the threads that are visited. *)
Definition thread_fds (p : process) (t : thread) : fd_table :=
  match visited p t with Some f => files f | None => [] end.

Definition proc_fds (p : process) (l : list thread) : fd_table := concat (map (thread_fds p) l).

Lemma each_thread_ok p ths text l s :
  proc_rep p text l s -> Z.of_nat (length l + length (proc_fds p ths)) < 2147483647 ->
  exists err ret s', each_thread hash files p ths 0 s = Some (err, ret, s') /\
    (if err : bool
     then N - 1 <= slen (text +:+ proc_text p (uniques l (proc_fds p ths))) /\
       printed_to (ps_pb s') (ps_mem s') (text +:+ proc_text p (uniques l (proc_fds p ths)))
     else ret = 0 /\ proc_rep p text (uniques l (proc_fds p ths)) s').
Proof.
  revert l s. induction ths as [|t ths IH]; intros l s Hrep Hlen; cbn [each_thread].
  { exists false, 0, s. done. }
  unfold proc_fds in *. cbn [map concat] in *. rewrite uniques_app. rewrite length_app in Hlen.
  assert (thread_fds p t = match visited p t with Some f => files f | None => [] end) as Ht by done.
  destruct (visited p t) as [f|]; rewrite Ht in *; [|by apply IH].
  destruct (iterate_fd_ok p (files f) text l s Hrep) as (ret & s1 & -> & [[-> Hg]|[-> [Hf Hp]]]); [lia|..]; cbv beta match.
  - cbn [Z.eqb negb]. pose proof (uniques_length l (files f)). apply IH; [apply Hg; lia|lia].
  - change (negb (- EINVAL =? 0)) with true. cbv beta match. eexists _, _, _. split; [reflexivity|].
    destruct (proc_text_grow p (uniques l (files f)) (concat (map (thread_fds p) ths))) as (r & Hr).
    rewrite Hr, sapp_assoc. pose proof (slen_app_ge (text +:+ proc_text p (uniques l (files f))) r).
    split; [lia|]. by apply printed_full.
Qed.

(** What is printed of a process in all. *)
Definition proc_dump (p : process) : string :=
  let l := uniques [] (proc_fds p (pr_threads p)) in
  match l with
  | [] => ""
  | _ => proc_text p l +:+ total_line (Z.of_nat (length l)) (sum_u64 l)
  end.

Definition procs_text (l : list process) : string := String.concat "" (map proc_dump l).

(** The first thread of a process is its leader, with files. *)
Definition leader_first (p : process) : Prop :=
  exists t ths f, pr_threads p = t :: ths /\ visited p t = Some f.

Definition proc_ok (p : process) : Prop :=
  leader_first p /\ Z.of_nat (length (proc_fds p (pr_threads p))) < 2147483647.

Lemma each_thread_first p t ths f ret s :
  visited p t = Some f ->
  each_thread hash files p (t :: ths) ret s = each_thread hash files p (t :: ths) 0 s.
Proof. intros Hv. cbn [each_thread]. by rewrite Hv. Qed.

(** Between two processes. *)
Definition between (text : string) (s : procs_state) : Prop :=
  printed_to (ps_pb s) (ps_mem s) text /\ slen text < N - 1 /\ ps_count s = 0 /\ ps_size s = 0 /\
  forall i, i ∉ ps_hash s.

Lemma between_rep p text s : between text s <-> proc_rep p text [] s.
Proof.
  split.
  - intros (Hp & Hl & Hc & Hs & Hh). split; cbn [proc_text]; rewrite ?sapp_nil_r; try done.
    intros i. split; [intros Hi; by apply Hh in Hi|by intros ?%not_elem_of_nil].
  - intros [Hp Hl Hc Hs Hh _]. cbn [proc_text] in *. rewrite sapp_nil_r in *. split_and!; try done.
    intros i Hi%Hh. by apply not_elem_of_nil in Hi.
Qed.

Lemma between_start : 1 < N -> ld m0 A 1 = 0 -> between "" (ProcsState (PrivBuf A N 0) 0 0 ∅ m0).
Proof.
  intros HN Hz. split; [|unfold slen; simpl; split_and!; done || lia || set_solver].
  split; try done; [unfold slen; simpl; lia|]. by destruct (Z.to_nat (N - 1)).
Qed.

(** One process: the text of the process, and either the state between two
    processes or the end.  [ret] is not 0 after a process with buffers. *)
Lemma one_process_ok p ps text ret s :
  between text s -> proc_ok p ->
  let full := N - 1 <=? slen (text +:+ proc_dump p) in
  exists s', printed_to (ps_pb s') (ps_mem s') (text +:+ proc_dump p) /\
    (if full then each_process hash files (p :: ps) ret s = Some (false, s')
     else between (text +:+ proc_dump p) s' /\ exists ret',
       each_process hash files (p :: ps) ret s = each_process hash files ps ret' s' /\
       (proc_dump p <> "" -> ret' <> 0)).
Proof.
  intros Hbt [(t & ths & f & Hth & Hv) Hlen] full. cbn [each_process].
  rewrite Hth, (each_thread_first p t ths f ret s Hv), <- Hth.
  destruct (each_thread_ok p (pr_threads p) text [] s) as (err & ret' & s1 & -> & Hcase); [by apply between_rep|done|].
  cbv beta match. subst full. unfold proc_dump. set (l := uniques [] (proc_fds p (pr_threads p))) in *.
  set (tl := total_line (Z.of_nat (length l)) (sum_u64 l)).
  destruct err.
  { destruct Hcase as [Hf Hp]. exists s1. destruct l as [|b l']; [cbn [proc_text] in *; decide_tests; by split|].
    rewrite sapp_assoc. pose proof (slen_app_ge (text +:+ proc_text p (b :: l')) tl). decide_tests.
    split; [by apply printed_full|done]. }
  destruct Hcase as [-> Hrep]. pose proof Hrep as [Hp Hl Hc Hs Hh _]. rewrite Hc.
  destruct l as [|b l'] eqn:El.
  - exists s1. cbn [proc_text length Z.of_nat Z.eqb] in *. decide_tests. split; [done|].
    rewrite sapp_nil_r in *. split; [by apply (between_rep p)|]. exists 0. split; [done|done].
  - destruct (Z.eqb_spec (Z.of_nat (length (b :: l'))) 0) as [Hz0|_]; [simpl in Hz0; lia|]. rewrite Hs. fold tl.
    destruct Hp as [Hb Hz Ho Ht Hm]. rewrite Hb, Hz.
    destruct (scnprintf_end (ps_mem s1) (text +:+ proc_text p (b :: l')) tl _ Ht Hm Ho) as (m2 & -> & Ht2 & Hm2).
    cbv beta match. cbn [pb_offset pb_size].
    pose proof (slen_nonneg tl). assert (0 < slen tl) by done.
    assert (pb_offset (ps_pb s1) + (Z.min (N - 1) (slen ((text +:+ proc_text p (b :: l')) +:+ tl)) - pb_offset (ps_pb s1))
      = Z.min (N - 1) (slen ((text +:+ proc_text p (b :: l')) +:+ tl))) as Heq by lia.
    rewrite Heq, sapp_assoc. set (all := (text +:+ proc_text p (b :: l')) +:+ tl) in *.
    set (pb := PrivBuf A N (Z.min (N - 1) (slen all))).
    assert (printed_to pb m2 all) as Hp2 by done.
    destruct (Z.leb_spec (N - 1) (slen all)) as [Hf|Hf].
    + exists (set_pb s1 pb m2). replace (Z.min (N - 1) (slen all) =? N - 1) with true by lia. done.
    + exists (ProcsState pb 0 0 ∅ m2). replace (Z.min (N - 1) (slen all) =? N - 1) with false by lia.
      split; [done|]. split; [split_and!; done || set_solver|]. eexists. split; [reflexivity|].
      intros _. pose proof (slen_app (text +:+ proc_text p (b :: l')) tl) as Hla. fold all in Hla. lia.
Qed.

Lemma each_process_ok l text ret s :
  between text s -> Forall proc_ok l ->
  exists s', each_process hash files l ret s = Some (slen (text +:+ procs_text l) <? N - 1, s') /\
    printed_to (ps_pb s') (ps_mem s') (text +:+ procs_text l).
Proof.
  revert text ret s. induction l as [|p l IH]; intros text ret s Hbt Hok.
  { destruct Hbt as (Hp & Hl & _). exists s. unfold procs_text. cbn. rewrite sapp_nil_r. decide_tests. done. }
  apply list.Forall_cons in Hok as [Hp Hok]. unfold procs_text. cbn [map]. rewrite concat_cons, sapp_assoc.
  fold (procs_text l). destruct (one_process_ok p l text ret s Hbt Hp) as (s1 & Hp1 & Hcase).
  pose proof (slen_app_ge (text +:+ proc_dump p) (procs_text l)).
  destruct (Z.leb_spec (N - 1) (slen (text +:+ proc_dump p))) as [Hf|Hf].
  - exists s1. rewrite Hcase. decide_tests. split; [done|]. by apply printed_full.
  - destruct Hcase as (Hbt1 & ret' & -> & _). by apply IH.
Qed.

(** A process whose first thread has no files, after one with dma-bufs. *)
Lemma each_process_stops p z ps text ret s :
  between text s -> proc_ok p -> slen (text +:+ proc_dump p) < N - 1 -> proc_dump p <> "" ->
  (exists t ths, pr_threads z = t :: ths /\ visited z t = None) ->
  exists s', each_process hash files (p :: z :: ps) ret s = Some (false, s') /\
    printed_to (ps_pb s') (ps_mem s') (text +:+ proc_dump p).
Proof.
  intros Hbt Hp Hl Hne (t & ths & Hth & Hv).
  destruct (one_process_ok p (z :: ps) text ret s Hbt Hp) as (s1 & Hp1 & Hcase). exists s1.
  destruct (Z.leb_spec (N - 1) (slen (text +:+ proc_dump p))); [lia|]. destruct Hcase as (_ & ret' & -> & Hr).
  specialize (Hr Hne). split; [|done]. cbn [each_process]. rewrite Hth. cbn [each_thread]. rewrite Hv.
  destruct (Z.eqb_spec ret' 0); [done|]. done.
Qed.
End Procs.
End Buffer.

(** ** The whole dumps *)

Lemma md_dma_buf_info_text bufs A N m h :
  0 < N <= INT_MAX_SIZE -> m_lo m <= A -> A + N <= m_hi m -> ld m A 1 = 0 ->
  slen dma_info_head < N - 1 -> Forall (lockable h) bufs ->
  exists m' h', md_dma_buf_info true bufs A N m h = Some (m', h') /\ mod_only A (A + N) m m' /\
    cstr_at m' A (stake (Z.to_nat (N - 1)) (dma_info_text bufs)) /\
    (slen (dma_info_head +:+ bufinfo_texts bufs) < N - 1 -> h' = h).
Proof.
  intros HN Hlo Hhi Hz Hhead Hok.
  apply (md_dma_buf_info_ok A N m HN Hlo Hhi bufs h _ (dma_info_head +:+ bufinfo_texts bufs) Hz Hhead).
  intros pb m1 Hp.
  destruct (each_dmabuf_ok A N m HN Hlo Hhi bufs pb (DmaTotals 0 0) m1 h _ Hp Hhead Hok)
    as (pb' & t' & m' & h' & -> & Hp' & Ht).
  exists pb', t', m', h'. split; [done|]. split; [done|]. split; intros Hl; by apply Ht.
Qed.

Lemma md_dma_buf_procs_text hash files procs A N m :
  0 < N <= INT_MAX_SIZE -> m_lo m <= A -> A + N <= m_hi m -> ld m A 1 = 0 -> 1 < N ->
  Forall (proc_ok files) procs ->
  exists s', md_dma_buf_procs hash files procs A N ∅ m
      = Some (slen (procs_text hash files procs) <? N - 1, s') /\ mod_only A (A + N) m (ps_mem s') /\
    cstr_at (ps_mem s') A (stake (Z.to_nat (N - 1)) (procs_text hash files procs)).
Proof.
  intros HN Hlo Hhi Hz HN1 Hok.
  assert (between A N m "" (ProcsState (PrivBuf A N 0) 0 0 ∅ m)) as Hb by (apply between_start; done || lia).
  destruct (each_process_ok A N m HN Hlo Hhi hash files procs "" 0 _ Hb Hok) as (s' & Hr & [_ _ _ Ht Hm]).
  by exists s'.
Qed.
