(* ===== verification/MdFtrace.v ===== *)
(** * The trace buffer (minidump_log.c, lines 76-86 and 517-599)

    During an oops the kernel prints its trace through vendor hooks; the
    handlers here collect the lines in a ring buffer that is a minidump
    region.  [recent] is what the ring holds: the lines since it started over. *)

From S2P Require Import Prelude CMem CStr CText MdApi MdClient.

#[local] Open Scope string_scope.
#[local] Open Scope list_scope.
#[local] Open Scope Z_scope.

(** ** The state and the hooks *)

Definition MD_FTRACE_BUF_SIZE : Z := 2097152.
Definition SZ_256K : Z := 262144.

Record ftrace_state := FtraceState {
  ft_mem : mem;
  md_ftrace_buf_addr : Z;
  md_ftrace_buf_current : Z;
  minidump_ftrace_in_oops : bool;
  minidump_ftrace_dump : bool;
}.

Definition ftrace_init (m : mem) : ftrace_state := FtraceState m 0 0 false true.

Definition set_in_oops (s : ftrace_state) (b : bool) : ftrace_state :=
  FtraceState (ft_mem s) (md_ftrace_buf_addr s) (md_ftrace_buf_current s) b (minidump_ftrace_dump s).

Definition set_ftrace_dump (s : ftrace_state) (b : bool) : ftrace_state :=
  FtraceState (ft_mem s) (md_ftrace_buf_addr s) (md_ftrace_buf_current s) (minidump_ftrace_in_oops s) b.

Definition set_ring (s : ftrace_state) (m : mem) (n : Z) : ftrace_state :=
  FtraceState m (md_ftrace_buf_addr s) n (minidump_ftrace_in_oops s) (minidump_ftrace_dump s).

(** [memcpy] of bytes from elsewhere. *)
Definition store_bytes (m : mem) (a : Z) (l : list Z) : option mem :=
  if in_range m a (Z.of_nat (length l)) then
    Some (with_bytes m (fun x => if (a <=? x) && (x <? a + Z.of_nat (length l))
                                 then l !!! Z.to_nat (x - a) else m_byte m x))
  else None.

(** [buf] is a line, with its size. *)
Definition minidump_add_trace_event (buf : list Z) (s : ftrace_state) : option ftrace_state :=
  let size := Z.of_nat (length buf) in
  if (md_ftrace_buf_addr s =? 0) || (MD_FTRACE_BUF_SIZE <? size) then Some s
  else
    let current :=
      if MD_FTRACE_BUF_SIZE <? md_ftrace_buf_current s + size then 0 else md_ftrace_buf_current s in
    let* m := store_bytes (ft_mem s) (md_ftrace_buf_addr s + current) buf in
    Some (set_ring s m (current + size)).

(** The hooks return the new value of their last argument. *)
Definition md_trace_oops_enter (s : ftrace_state) : bool * ftrace_state :=
  if negb (minidump_ftrace_in_oops s) then (false, set_in_oops s true) else (true, s).

Definition md_trace_oops_exit (s : ftrace_state) : ftrace_state := set_in_oops s false.

Definition md_update_trace_fmt (s : ftrace_state) : bool := false.

Definition md_buf_size_check (PAGE_SIZE buffer_size : Z) (size_check : bool) (s : ftrace_state)
  : bool * ftrace_state :=
  if negb (minidump_ftrace_dump s) then (true, s)
  else if SZ_256K + PAGE_SIZE <? buffer_size then (true, set_ftrace_dump s false)
  else (size_check, s).

Definition md_dump_trace_buf (line : list Z) (printk_check : bool) (s : ftrace_state)
  : option (bool * ftrace_state) :=
  if minidump_ftrace_in_oops s && minidump_ftrace_dump s then
    let* s := minidump_add_trace_event line s in
    Some (false, s)
  else Some (printk_check, s).

(** [buf] is the zeroed buffer allocated, at its virtual and physical address;
    [junk] is what the uninitialised [id] of the descriptor holds. *)
Definition md_register_trace_buf {S} `{MdRegionApi S} (junk : Z) (buf : option (mem * Z))
  (s : ftrace_state) (a : S) : option (ftrace_state * S) :=
  match buf with
  | None => Some (s, a)
  | Some (m, phys) =>
      let e := MdRegion "KFTRACE" junk (m_lo m) phys MD_FTRACE_BUF_SIZE in
      let* (_, a) := api_add e a in
      Some (FtraceState m (m_lo m) (md_ftrace_buf_current s) (minidump_ftrace_in_oops s)
              (minidump_ftrace_dump s), a)
  end.

(** ** What the ring holds *)

Definition bytes_at (m : mem) (a : Z) (l : list Z) : Prop :=
  forall i b, l !! i = Some b -> byte m (a + Z.of_nat i) = b mod 256.

Definition add_line (ring line : list Z) : list Z :=
  if MD_FTRACE_BUF_SIZE <? Z.of_nat (length line) then ring
  else if MD_FTRACE_BUF_SIZE <? Z.of_nat (length ring) + Z.of_nat (length line) then line
  else ring ++ line.

(** The lines since the ring started over. *)
Definition recent (lines : list (list Z)) : list Z := fold_left add_line lines [].

Lemma store_bytes_ok m a l :
  m_lo m <= a -> a + Z.of_nat (length l) <= m_hi m ->
  exists m', store_bytes m a l = Some m' /\ mod_only a (a + Z.of_nat (length l)) m m' /\ bytes_at m' a l.
Proof.
  intros Hlo Hhi. unfold store_bytes, in_range. decide_tests. eexists. split; [reflexivity|]. split.
  - split_and!; [done..|]. intros x Hx. unfold byte. cbn.
    by replace ((a <=? x) && (x <? a + Z.of_nat (length l))) with false by lia.
  - intros i b Hi. pose proof (lookup_lt_Some _ _ _ Hi). unfold byte. cbn.
    replace ((a <=? a + Z.of_nat i) && (a + Z.of_nat i <? a + Z.of_nat (length l))) with true by lia.
    replace (Z.to_nat (a + Z.of_nat i - a)) with i by lia. by rewrite (list_lookup_total_correct _ _ _ Hi).
Qed.

Lemma bytes_at_app m m' a l l' :
  bytes_at m a l -> mod_only (a + Z.of_nat (length l)) (a + Z.of_nat (length l) + Z.of_nat (length l')) m m' ->
  bytes_at m' (a + Z.of_nat (length l)) l' -> bytes_at m' a (l ++ l').
Proof.
  intros Hl (_ & _ & Hb) Hl' i b Hi. apply lookup_app_Some in Hi as [Hi|[Hge Hi]].
  - pose proof (lookup_lt_Some _ _ _ Hi). rewrite <- Hb by lia. by apply Hl.
  - specialize (Hl' _ _ Hi). by replace (a + Z.of_nat (length l) + Z.of_nat (i - length l)) with (a + Z.of_nat i) in Hl' by lia.
Qed.

Lemma add_line_length ring line :
  Z.of_nat (length ring) <= MD_FTRACE_BUF_SIZE -> Z.of_nat (length (add_line ring line)) <= MD_FTRACE_BUF_SIZE.
Proof. intros. unfold add_line. repeat (case_match; [lia|]). rewrite length_app. lia. Qed.

(** A registered buffer that holds [ring]. *)
Record ring_ok (s : ftrace_state) (m0 : mem) (ring : list Z) : Prop := {
  ri_addr : 0 < md_ftrace_buf_addr s;
  ri_lo : m_lo (ft_mem s) <= md_ftrace_buf_addr s;
  ri_hi : md_ftrace_buf_addr s + MD_FTRACE_BUF_SIZE <= m_hi (ft_mem s);
  ri_mem : mod_only (md_ftrace_buf_addr s) (md_ftrace_buf_addr s + MD_FTRACE_BUF_SIZE) m0 (ft_mem s);
  ri_current : md_ftrace_buf_current s = Z.of_nat (length ring);
  ri_size : Z.of_nat (length ring) <= MD_FTRACE_BUF_SIZE;
  ri_bytes : bytes_at (ft_mem s) (md_ftrace_buf_addr s) ring;
}.

Lemma add_trace_event_ok s m0 ring line :
  ring_ok s m0 ring ->
  exists s', minidump_add_trace_event line s = Some s' /\ ring_ok s' m0 (add_line ring line) /\
    md_ftrace_buf_addr s' = md_ftrace_buf_addr s /\ minidump_ftrace_in_oops s' = minidump_ftrace_in_oops s /\
    minidump_ftrace_dump s' = minidump_ftrace_dump s.
Proof.
  intros [Ha Hlo Hhi Hm Hc Hsz Hb]. unfold minidump_add_trace_event, add_line. rewrite Hc.
  destruct (Z.eqb_spec (md_ftrace_buf_addr s) 0); [lia|]. simpl orb.
  destruct (Z.ltb_spec MD_FTRACE_BUF_SIZE (Z.of_nat (length line))); [by exists s|].
  set (wrap := MD_FTRACE_BUF_SIZE <? Z.of_nat (length ring) + Z.of_nat (length line)).
  set (ring0 := if wrap then [] else ring).
  assert ((if wrap then 0 else Z.of_nat (length ring)) = Z.of_nat (length ring0)) as -> by (by subst ring0; destruct wrap).
  assert ((if wrap then line else ring ++ line) = ring0 ++ line) as -> by (by subst ring0; destruct wrap).
  assert (bytes_at (ft_mem s) (md_ftrace_buf_addr s) ring0) as Hb0
    by (subst ring0; destruct wrap; [intros i b Hi; by destruct i|done]).
  assert (Z.of_nat (length ring0) + Z.of_nat (length line) <= MD_FTRACE_BUF_SIZE) as Hfit.
  { subst ring0 wrap. destruct (Z.ltb_spec MD_FTRACE_BUF_SIZE (Z.of_nat (length ring) + Z.of_nat (length line))); simpl; lia. }
  destruct (store_bytes_ok (ft_mem s) (md_ftrace_buf_addr s + Z.of_nat (length ring0)) line) as (m' & -> & Hm' & Hb'); [lia..|].
  cbv beta match. eexists. split; [reflexivity|]. split; [|done]. pose proof Hm' as (Hl' & Hh' & _).
  split; cbn; try lia.
  - eapply mod_only_trans; [exact Hm|]. eapply mod_only_weaken; [| |exact Hm']; lia.
  - rewrite length_app. lia.
  - rewrite length_app. lia.
  - by apply (bytes_at_app (ft_mem s)).
Qed.

(** The lines of an oops, one after the other. *)
Fixpoint trace_lines (lines : list (list Z)) (s : ftrace_state) : option ftrace_state :=
  match lines with
  | [] => Some s
  | line :: lines =>
      let* (_, s) := md_dump_trace_buf line true s in
      trace_lines lines s
  end.

Lemma trace_lines_ok lines s m0 ring :
  ring_ok s m0 ring -> minidump_ftrace_in_oops s = true -> minidump_ftrace_dump s = true ->
  exists s', trace_lines lines s = Some s' /\ ring_ok s' m0 (fold_left add_line lines ring) /\
    md_ftrace_buf_addr s' = md_ftrace_buf_addr s.
Proof.
  revert s ring. induction lines as [|line lines IH]; intros s ring Hr Ho Hd; cbn [trace_lines fold_left].
  { by exists s. }
  unfold md_dump_trace_buf. rewrite Ho, Hd. cbn [andb].
  destruct (add_trace_event_ok s m0 ring line Hr) as (s1 & -> & Hr1 & Ha1 & Ho1 & Hd1). cbv beta match.
  destruct (IH s1 (add_line ring line)) as (s2 & -> & Hr2 & Ha2); [done|congruence..|].
  exists s2. split; [done|]. split; [done|congruence].
Qed.
