(* ===== verification/MdRunqueue.v ===== *)
(** * The run queues (minidump_log.c, lines 98-110 and 601-827)

    At a panic the run queues of all CPUs and a table of the tasks are printed
    into a sequence buffer.  Groups are printed recursively; how deep is kept
    in a variable, [md_align_offset].

    The queues are an argument: a group of the fair scheduler is a tree, a
    task stands for its [struct task_struct].  CONFIG_FAIR_GROUP_SCHED is set;
    the other options are arguments, as are the task state constants. *)

From S2P Require Import Prelude CStr CText CPrint.

#[local] Open Scope string_scope.
#[local] Open Scope list_scope.
#[local] Open Scope Z_scope.

(** ** Data *)

(** [t_id] is the address of the task. *)
Record task := Task {
  t_id : Z;
  t_pid : Z;
  t_preempt : Z;
  t_comm : string;
  t_last_arrival : Z;
  t_last_queued : Z;
  t_run_delay : Z;
  t_pcount : Z;
  t_on_cpu : Z;
  t_prio : Z;
  t_state : Z;
  t_exit_state : Z;
}.

(** A scheduling entity: none, a task, or a group with its own queue - the
    number of its entities, the four it points to, whether [rb_leftmost] is
    set, and its tree in order. *)
Inductive entity :=
| ENone
| ETask (t : task)
| EGroup (nr_running : Z) (curr next last skip : entity) (leftmost : bool) (timeline : list entity).

(** The queue of a CPU: the fields of such a group. *)
Record cfs_rq := CfsRq {
  cfs_nr_running : Z;
  cfs_curr : entity; cfs_next : entity; cfs_last : entity; cfs_skip : entity;
  cfs_leftmost : bool;
  cfs_timeline : list entity;
}.

(** A real-time entity: a task, or a group (with CONFIG_RT_GROUP_SCHED) that is
    skipped. *)
Inductive rt_entity := RtTask (t : task) | RtGroup.

(** The queues of the priorities, with the bitmap. *)
Record rt_rq := RtRq { rt_nr_running : Z; rt_bitmap : list bool; rt_queue : list (list rt_entity) }.

Record cpu_rq := CpuRq { rq_cpu : Z; rq_nr_running : Z; rq_curr : task; rq_cfs : cfs_rq; rq_rt : rt_rq }.

Record runq_config := RunqConfig {
  CONFIG_SCHED_WALT : bool;
  CONFIG_MINIDUMP_ALL_TASK_INFO : bool;
  TASK_REPORT : Z;
  TASK_IDLE : Z;
  TASK_REPORT_IDLE : Z;
}.

(** [md_runq_seq_buf] and [md_align_offset]. *)
Record runq_state := RunqState { rs_buf : seq_buf; md_align_offset : Z }.

Definition runq_printf (s : runq_state) (text : string) : runq_state :=
  RunqState (seq_buf_printf (rs_buf s) text) (md_align_offset s).

Definition set_align (s : runq_state) (n : Z) : runq_state := RunqState (rs_buf s) (s32 n).

(** ** The fair scheduler *)

(** [while (tab_offset--)] *)
Fixpoint align_loop (n : nat) (s : runq_state) : runq_state :=
  match n with
  | O => s
  | S n => align_loop n (runq_printf s " | ")
  end.

Definition md_dump_align (s : runq_state) : runq_state :=
  runq_printf (align_loop (Z.to_nat (u32 (md_align_offset s))) s) " |--".

(** [%#x] *)
Definition fmt_sharp_x (z : Z) : string := if z =? 0 then "0" else "0x" +:+ fmt_x z.

Definition curr_line (t : task) : string :=
  "[status: curr] pid: " +:+ fmt_d (t_pid t) +:+ " preempt: " +:+ fmt_sharp_x (u32 (t_preempt t)) +:+ nl.

Definition status_line (status : string) (t : task) : string :=
  "[status: " +:+ status +:+ "] pid: " +:+ fmt_d (t_pid t) +:+ nl.

(** A null [task] or [curr] is [None]. *)
Definition md_dump_task_info (t : option task) (status : string) (curr : option task) (s : runq_state)
  : runq_state :=
  let s := md_dump_align s in
  match t with
  | None => runq_printf s (status +:+ " : None(0)" +:+ nl)
  | Some t =>
      if match curr with Some c => t_id t =? t_id c | None => false end
      then runq_printf s (curr_line t)
      else runq_printf s (status_line status t)
  end.

Definition group_line (status : string) (nr : Z) : string :=
  status +:+ ": " +:+ fmt_d nr +:+ " process is grouping" +:+ nl.

(** [md_dump_cgroup_state] with [md_dump_cfs_rq] and the walk over the tree,
    of at most 200 nodes. *)
Fixpoint md_dump_cgroup_state (status : string) (e : entity) (curr : task) (s : runq_state)
  : runq_state :=
  match e with
  | ENone => md_dump_task_info None status None s
  | ETask t => md_dump_task_info (Some t) status (Some curr) s
  | EGroup nr c n l k leftmost timeline =>
      let s := md_dump_align s in
      let s := runq_printf s (group_line status nr) in
      let s := set_align s (md_align_offset s + 1) in
      let s := md_dump_cgroup_state "curr" c curr s in
      let s := md_dump_cgroup_state "next" n curr s in
      let s := md_dump_cgroup_state "last" l curr s in
      let s := md_dump_cgroup_state "skip" k curr s in
      let s :=
        if negb leftmost then s
        else
          (fix walk (nodes : list entity) (max_walk : nat) (s : runq_state) : runq_state :=
             match nodes, max_walk with
             | e :: nodes, S max_walk => walk nodes max_walk (md_dump_cgroup_state "pend" e curr s)
             | _, _ => s
             end) timeline 200%nat s in
      set_align s (md_align_offset s - 1)
  end.

Fixpoint md_rb_walk_cfs (nodes : list entity) (max_walk : nat) (curr : task) (s : runq_state)
  : runq_state :=
  match nodes, max_walk with
  | e :: nodes, S max_walk => md_rb_walk_cfs nodes max_walk curr (md_dump_cgroup_state "pend" e curr s)
  | _, _ => s
  end.

Definition md_dump_cfs_rq (q : cfs_rq) (curr : task) (s : runq_state) : runq_state :=
  let s := md_dump_cgroup_state "curr" (cfs_curr q) curr s in
  let s := md_dump_cgroup_state "next" (cfs_next q) curr s in
  let s := md_dump_cgroup_state "last" (cfs_last q) curr s in
  let s := md_dump_cgroup_state "skip" (cfs_skip q) curr s in
  if negb (cfs_leftmost q) then s else md_rb_walk_cfs (cfs_timeline q) 200 curr s.

(** ** Real-time queues *)

Definition MAX_RT_PRIO : Z := 100.

(** [find_next_bit(bits, MAX_RT_PRIO, from)]. *)
Fixpoint find_bit (bits : list bool) (i : Z) : Z :=
  match bits with
  | [] => MAX_RT_PRIO
  | b :: bits => if b : bool then i else find_bit bits (i + 1)
  end.

Definition find_next_bit (bits : list bool) (from : Z) : Z := find_bit (drop (Z.to_nat from) bits) from.

Fixpoint rt_list (l : list rt_entity) (curr : task) (s : runq_state) : runq_state :=
  match l with
  | [] => s
  | RtGroup :: l => rt_list l curr s
  | RtTask t :: l => rt_list l curr (md_dump_task_info (Some t) "pend" (Some curr) s)
  end.

(** [while (idx < MAX_RT_PRIO)]. *)
Fixpoint rt_loop (fuel : nat) (q : rt_rq) (idx : Z) (curr : task) (s : runq_state) : option runq_state :=
  if MAX_RT_PRIO <=? idx then Some s
  else
    match fuel with
    | O => None
    | S fuel =>
        let* l := getZ (rt_queue q) idx in
        rt_loop fuel q (find_next_bit (rt_bitmap q) (idx + 1)) curr (rt_list l curr s)
    end.

Definition md_dump_rt_rq (q : rt_rq) (curr : task) (s : runq_state) : option runq_state :=
  if forallb negb (rt_bitmap q) then Some s
  else rt_loop 100 q (find_next_bit (rt_bitmap q) 0) curr s.

(** ** The table of tasks *)

Definition task_state_array : list string := ["R"; "S"; "D"; "T"; "t"; "X"; "Z"; "P"; "I"].

Definition fls (z : Z) : Z := if z =? 0 then 0 else Z.log2 z + 1.

Section Table.
Context (c : runq_config).

Definition md_task_state_index (t : task) : Z :=
  let state := Z.land (Z.lor (t_state t) (t_exit_state t)) (TASK_REPORT c) in
  let state := if t_state t =? TASK_IDLE c then TASK_REPORT_IDLE c else state in
  fls state.

Definition md_get_task_state (t : task) : option string := getZ task_state_array (md_task_state_index t).

Definition table_head : list string :=
  [ pad_right 15 "Task name"; pad_left 6 "PID"; pad_left 16 "Exec_started_at"; pad_left 16 "Last_queued_at";
    pad_left 16 "Total_wait_time"; pad_left 12 "Exec_times"; pad_left 4 "CPU"; pad_left 5 "Prio";
    pad_left 6 "State" ] ++
  (if CONFIG_SCHED_WALT c then [ pad_left 17 "Last_enqueued_ts"; pad_left 16 "Last_sleep_ts" ] else []) ++
  [ nl ].

(** With CONFIG_SCHED_WALT the code reads through [wts], which is never set. *)
Definition task_row (t : task) : option (list string) :=
  let* state := md_get_task_state t in
  if CONFIG_SCHED_WALT c then None
  else
    Some [ pad_right 15 (t_comm t); pad_left 6 (fmt_d (t_pid t)); pad_left 16 (fmt_ld (t_last_arrival t));
           pad_left 16 (fmt_ld (t_last_queued t)); pad_left 16 (fmt_ld (t_run_delay t));
           pad_left 12 (fmt_ld (t_pcount t)); pad_left 4 (fmt_d (t_on_cpu t)); pad_left 5 (fmt_d (t_prio t));
           pad_left 6 state; nl ].

Definition runq_prints (l : list string) (s : runq_state) : runq_state :=
  RunqState (seq_buf_prints (rs_buf s) l) (md_align_offset s).

Fixpoint task_rows (l : list task) (s : runq_state) : option runq_state :=
  match l with
  | [] => Some s
  | t :: l =>
      if negb (CONFIG_MINIDUMP_ALL_TASK_INFO c) && negb (t_state t =? 0) then task_rows l s
      else
        let* row := task_row t in
        task_rows l (runq_prints row s)
  end.

(** ** All queues *)

Definition cpu_line (q : cpu_rq) : string :=
  "CPU" +:+ fmt_d (rq_cpu q) +:+ " has " +:+ fmt_d (rq_nr_running q) +:+ " process, current is pid " +:+
  fmt_d (t_pid (rq_curr q)) +:+ nl.

Definition cfs_line (q : cpu_rq) : string :=
  "CFS has " +:+ fmt_d (cfs_nr_running (rq_cfs q)) +:+ " process" +:+ nl.

Definition rt_line (q : cpu_rq) : string :=
  "RT has " +:+ fmt_d (rt_nr_running (rq_rt q)) +:+ " process" +:+ nl.

Fixpoint cpu_queues (l : list cpu_rq) (s : runq_state) : option runq_state :=
  match l with
  | [] => Some s
  | q :: l =>
      let s := runq_printf s (cpu_line q) in
      let s := runq_printf s (cfs_line q) in
      let s := md_dump_cfs_rq (rq_cfs q) (rq_curr q) s in
      let s := runq_printf s (rt_line q) in
      let* s := md_dump_rt_rq (rq_rt q) (rq_curr q) s in
      cpu_queues l (runq_printf s nl)
  end.

Definition md_dump_runqueues (cpus : list cpu_rq) (tasks : list task) (s : option runq_state)
  : option (option runq_state) :=
  match s with
  | None => Some None
  | Some s =>
      let* s := cpu_queues cpus s in
      let* s := task_rows tasks (runq_prints table_head s) in
      Some (Some s)
  end.
End Table.
