(* ===== verification/MdRunqueueProofs.v ===== *)
(** * The run queues: their text

    [queue_lines] is the text of a queue with the depth as an argument.  The
    code, which keeps the depth in a variable, prints it and leaves the
    variable as it was; the loops over real-time priorities end. *)

From S2P Require Import Prelude CStr CText CPrint MdRunqueue.

#[local] Open Scope string_scope.
#[local] Open Scope list_scope.
#[local] Open Scope Z_scope.

(** ** Induction on entities *)

Section EntityInd.
Context (P : entity -> Prop).
Hypothesis P_none : P ENone.
Hypothesis P_task : forall t, P (ETask t).
Hypothesis P_group : forall nr c n l k leftmost timeline,
  P c -> P n -> P l -> P k -> Forall P timeline -> P (EGroup nr c n l k leftmost timeline).

Fixpoint entity_induction (e : entity) : P e :=
  match e with
  | ENone => P_none
  | ETask t => P_task t
  | EGroup nr c n l k leftmost timeline =>
      P_group nr c n l k leftmost timeline (entity_induction c) (entity_induction n)
        (entity_induction l) (entity_induction k)
        ((fix go (l : list entity) : Forall P l :=
            match l with
            | [] => @List.Forall_nil _ P
            | e :: l => @List.Forall_cons _ P e l (entity_induction e) (go l)
            end) timeline)
  end.
End EntityInd.

(** ** The reference *)

Definition align_lines (depth : nat) : list string := repeat " | " depth ++ [" |--"].

Fixpoint entity_lines (depth : nat) (status : string) (e : entity) (curr : task) : list string :=
  match e with
  | ENone => align_lines depth ++ [status +:+ " : None(0)" +:+ nl]
  | ETask t => align_lines depth ++ [if t_id t =? t_id curr then curr_line t else status_line status t]
  | EGroup nr c n l k leftmost timeline =>
      align_lines depth ++ [group_line status nr] ++
      entity_lines (S depth) "curr" c curr ++ entity_lines (S depth) "next" n curr ++
      entity_lines (S depth) "last" l curr ++ entity_lines (S depth) "skip" k curr ++
      (if leftmost then concat (take 200 (map (fun e => entity_lines (S depth) "pend" e curr) timeline)) else [])
  end.

Definition queue_lines (depth : nat) (q : cfs_rq) (curr : task) : list string :=
  entity_lines depth "curr" (cfs_curr q) curr ++ entity_lines depth "next" (cfs_next q) curr ++
  entity_lines depth "last" (cfs_last q) curr ++ entity_lines depth "skip" (cfs_skip q) curr ++
  (if cfs_leftmost q then concat (take 200 (map (fun e => entity_lines depth "pend" e curr) (cfs_timeline q)))
   else []).

(** How deep groups are nested. *)
Fixpoint height (e : entity) : nat :=
  match e with
  | EGroup _ c n l k _ timeline =>
      S (height c + height n + height l + height k + list_sum (map height timeline))
  | _ => O
  end.

Definition queue_height (q : cfs_rq) : nat :=
  height (cfs_curr q) + height (cfs_next q) + height (cfs_last q) + height (cfs_skip q) +
  list_sum (map height (cfs_timeline q)).

(** ** Printing *)

Lemma prints_app b l l' : seq_buf_prints b (l ++ l') = seq_buf_prints (seq_buf_prints b l) l'.
Proof. apply fold_left_app. Qed.

Lemma runq_prints_app l l' s : runq_prints (l ++ l') s = runq_prints l' (runq_prints l s).
Proof. unfold runq_prints. cbn. by rewrite prints_app. Qed.

Lemma runq_prints_nil s : runq_prints [] s = s.
Proof. by destruct s. Qed.

Lemma runq_printf_prints s t : runq_printf s t = runq_prints [t] s.
Proof. done. Qed.

Lemma align_loop_prints n s : align_loop n s = runq_prints (repeat " | " n) s.
Proof. revert s. induction n as [|n IH]; intros s; [by destruct s|]. cbn [align_loop]. by rewrite IH. Qed.

Lemma md_dump_align_prints s d :
  md_align_offset s = Z.of_nat d -> Z.of_nat d < 2147483648 -> md_dump_align s = runq_prints (align_lines d) s.
Proof.
  intros Hd Hlt. unfold md_dump_align, align_lines. rewrite Hd, u32_small, Nat2Z.id, align_loop_prints by lia.
  by rewrite runq_prints_app.
Qed.

Lemma dump_task_prints s d t status curr :
  md_align_offset s = Z.of_nat d -> Z.of_nat d < 2147483648 ->
  md_dump_task_info (Some t) status (Some curr) s = runq_prints (entity_lines d status (ETask t) curr) s.
Proof.
  intros Hd Hlt. unfold md_dump_task_info. rewrite (md_dump_align_prints s d) by done.
  cbn [entity_lines]. rewrite runq_prints_app. by destruct (t_id t =? t_id curr).
Qed.

(** ** The fair scheduler *)

(** The walk inside a group is the one over a queue. *)
Definition walk_timeline (leftmost : bool) (nodes : list entity) (curr : task) (s : runq_state) : runq_state :=
  if negb leftmost then s else md_rb_walk_cfs nodes 200 curr s.

Lemma cgroup_state_group status nr c n l k leftmost timeline curr s :
  md_dump_cgroup_state status (EGroup nr c n l k leftmost timeline) curr s =
  let s := md_dump_align s in
  let s := runq_printf s (group_line status nr) in
  let s := set_align s (md_align_offset s + 1) in
  let s := md_dump_cfs_rq (CfsRq nr c n l k leftmost timeline) curr s in
  set_align s (md_align_offset s - 1).
Proof.
  cbn [md_dump_cgroup_state]. unfold md_dump_cfs_rq. cbn [cfs_curr cfs_next cfs_last cfs_skip cfs_leftmost cfs_timeline].
  set (walk := fix walk (nodes : list entity) (max_walk : nat) (s : runq_state) {struct nodes} : runq_state :=
    match nodes with
    | [] => s
    | e :: nodes => match max_walk with
                    | O => s
                    | S max_walk => walk nodes max_walk (md_dump_cgroup_state "pend" e curr s)
                    end
    end).
  assert (forall m nodes s, walk nodes m s = md_rb_walk_cfs nodes m curr s) as Hw.
  { intros m nodes. revert m. induction nodes as [|e nodes IH]; intros [|m] s'; try done. cbn. apply IH. }
  by rewrite Hw.
Qed.

Definition prints_entity (e : entity) : Prop := forall status curr s d,
  md_align_offset s = Z.of_nat d -> Z.of_nat (d + height e) < 2147483647 ->
  md_dump_cgroup_state status e curr s = runq_prints (entity_lines d status e curr) s.

Lemma walk_prints nodes m curr s d :
  Forall prints_entity nodes -> md_align_offset s = Z.of_nat d ->
  Z.of_nat (d + list_sum (map height nodes)) < 2147483647 ->
  md_rb_walk_cfs nodes m curr s
    = runq_prints (concat (take m (map (fun e => entity_lines d "pend" e curr) nodes))) s.
Proof.
  intros Hn. revert m s. induction nodes as [|e nodes IH]; intros [|m] s Hd Hlt; try by destruct s.
  apply list.Forall_cons in Hn as [He Hn]. cbn [map list_sum foldr] in Hlt.
  cbn [md_rb_walk_cfs map firstn take concat]. rewrite (He "pend" curr s d Hd) by (simpl in Hlt; lia).
  rewrite IH; [by rewrite runq_prints_app|done|done|]. simpl in Hlt. unfold list_sum in *. lia.
Qed.

Lemma cfs_rq_prints q curr s d :
  prints_entity (cfs_curr q) -> prints_entity (cfs_next q) -> prints_entity (cfs_last q) ->
  prints_entity (cfs_skip q) -> Forall prints_entity (cfs_timeline q) ->
  md_align_offset s = Z.of_nat d -> Z.of_nat (d + queue_height q) < 2147483647 ->
  md_dump_cfs_rq q curr s = runq_prints (queue_lines d q curr) s.
Proof.
  intros Hc Hn Hl Hk Ht Hd Hlt. unfold md_dump_cfs_rq, queue_lines, queue_height in *.
  rewrite (Hc "curr" curr s d), (Hn "next" curr _ d), (Hl "last" curr _ d), (Hk "skip" curr _ d) by (done || lia).
  rewrite !runq_prints_app. destruct (cfs_leftmost q); simpl negb; cbv beta match.
  - rewrite (walk_prints _ _ _ _ d) by (done || lia). done.
  - by rewrite runq_prints_nil.
Qed.

Lemma entity_prints e : prints_entity e.
Proof.
  induction e as [|t|nr c n l k leftmost timeline Hc Hn Hl Hk Ht] using entity_induction;
    intros status curr s d Hd Hlt.
  - cbn [md_dump_cgroup_state md_dump_task_info]. rewrite (md_dump_align_prints s d) by (done || lia).
    cbn [entity_lines]. by rewrite runq_prints_app.
  - cbn [md_dump_cgroup_state]. apply dump_task_prints; [done|lia].
  - rewrite cgroup_state_group. cbv zeta. rewrite (md_dump_align_prints s d) by (done || lia).
    cbn [height] in Hlt.
    assert (s32 (Z.of_nat d + 1) = Z.of_nat (S d)) as Hup by (rewrite s32_small; lia).
    assert (s32 (Z.of_nat (S d) - 1) = Z.of_nat d) as Hdn by (rewrite s32_small; lia).
    rewrite (cfs_rq_prints _ curr _ (S d)); try done.
    + cbn [entity_lines]. rewrite runq_prints_app, runq_printf_prints.
      unfold set_align, runq_prints. cbn [rs_buf md_align_offset]. rewrite Hd, Hup, Hdn.
      unfold queue_lines. cbn [cfs_curr cfs_next cfs_last cfs_skip cfs_leftmost cfs_timeline app].
      reflexivity.
    + cbn. by rewrite Hd.
    + unfold queue_height. cbn [cfs_curr cfs_next cfs_last cfs_skip cfs_timeline]. lia.
Qed.

Lemma md_dump_cfs_rq_prints q curr s d :
  md_align_offset s = Z.of_nat d -> Z.of_nat (d + queue_height q) < 2147483647 ->
  md_dump_cfs_rq q curr s = runq_prints (queue_lines d q curr) s.
Proof. apply cfs_rq_prints; try apply entity_prints. apply Forall_true, entity_prints. Qed.

(** ** Real-time queues *)

Fixpoint rt_list_lines (depth : nat) (l : list rt_entity) (curr : task) : list string :=
  match l with
  | [] => []
  | RtGroup :: l => rt_list_lines depth l curr
  | RtTask t :: l => entity_lines depth "pend" (ETask t) curr ++ rt_list_lines depth l curr
  end.

(** The queues whose bit is set. *)
Fixpoint rt_lines (depth : nat) (bits : list bool) (queues : list (list rt_entity)) (curr : task) : list string :=
  match bits, queues with
  | b :: bits, l :: queues =>
      (if b : bool then rt_list_lines depth l curr else []) ++ rt_lines depth bits queues curr
  | _, _ => []
  end.

Definition rt_ok (q : rt_rq) : Prop :=
  Z.of_nat (length (rt_bitmap q)) = MAX_RT_PRIO /\ length (rt_queue q) = length (rt_bitmap q).

Lemma rt_list_prints l curr s d :
  md_align_offset s = Z.of_nat d -> Z.of_nat d < 2147483648 ->
  rt_list l curr s = runq_prints (rt_list_lines d l curr) s.
Proof.
  revert s. induction l as [|[t|] l IH]; intros s Hd Hlt; cbn [rt_list rt_list_lines]; [by destruct s| |by apply IH].
  rewrite runq_prints_app, <- dump_task_prints by done. apply IH; [|done].
  rewrite (dump_task_prints s d) by done. done.
Qed.

Lemma rt_loop_prints k i fuel q curr s d :
  rt_ok q -> (i + k = 100)%nat -> (k <= fuel)%nat ->
  md_align_offset s = Z.of_nat d -> Z.of_nat d < 2147483648 ->
  rt_loop fuel q (find_next_bit (rt_bitmap q) (Z.of_nat i)) curr s
    = Some (runq_prints (rt_lines d (drop i (rt_bitmap q)) (drop i (rt_queue q)) curr) s).
Proof.
  intros [Hb Hq]. change MAX_RT_PRIO with 100 in Hb. revert i fuel s.
  induction k as [|k IH]; intros i fuel s Hi Hf Hd Hlt; unfold find_next_bit; rewrite Nat2Z.id.
  - rewrite !drop_ge by lia. cbn [find_bit rt_lines]. rewrite runq_prints_nil. by destruct fuel.
  - destruct (lookup_lt_is_Some_2 (rt_bitmap q) i) as [b Hbi]; [lia|].
    destruct (lookup_lt_is_Some_2 (rt_queue q) i) as [l Hli]; [lia|].
    rewrite (drop_S _ _ _ Hbi), (drop_S _ _ _ Hli). cbn [find_bit rt_lines].
    specialize (IH (S i)). unfold find_next_bit in IH. rewrite Nat2Z.id in IH.
    replace (Z.of_nat (S i)) with (Z.of_nat i + 1) in IH by lia.
    destruct b; [|cbn [app]; apply IH; (done || lia)].
    destruct fuel as [|fuel]; [lia|]. cbn [rt_loop]. change MAX_RT_PRIO with 100. decide_tests.
    rewrite getZ_of_nat, Hli. cbv beta match. unfold find_next_bit.
    replace (Z.to_nat (Z.of_nat i + 1)) with (S i) by lia.
    rewrite runq_prints_app, <- rt_list_prints by done. apply IH; try (done || lia).
    rewrite (rt_list_prints _ _ _ d) by done. done.
Qed.

Lemma rt_lines_empty depth bits queues curr : forallb negb bits = true -> rt_lines depth bits queues curr = [].
Proof.
  revert queues. induction bits as [|[] bits IH]; intros [|l queues] H; try done. cbn. by apply IH.
Qed.

Lemma md_dump_rt_rq_prints q curr s d :
  rt_ok q -> md_align_offset s = Z.of_nat d -> Z.of_nat d < 2147483648 ->
  md_dump_rt_rq q curr s = Some (runq_prints (rt_lines d (rt_bitmap q) (rt_queue q) curr) s).
Proof.
  intros Hq Hd Hlt. unfold md_dump_rt_rq. destruct (forallb negb (rt_bitmap q)) eqn:He.
  - by rewrite rt_lines_empty, runq_prints_nil by done.
  - apply (rt_loop_prints 100 0 100 q curr s d Hq); (done || lia).
Qed.

(** ** The table of tasks *)

(** The state constants are flags of eight bits. *)
Definition states_ok (c : runq_config) : Prop := 0 <= TASK_REPORT c < 256 /\ 0 <= TASK_REPORT_IDLE c < 256.

Lemma land_byte x r : 0 <= r < 256 -> 0 <= Z.land x r < 256.
Proof.
  intros Hr. replace (Z.land x r) with (Z.land x r mod 2 ^ 8); [apply Z.mod_pos_bound; lia|].
  rewrite <- Z.land_ones, <- Z.land_assoc by lia. f_equal. rewrite Z.land_ones by lia. apply Z.mod_small. lia.
Qed.

Lemma fls_byte z : 0 <= z < 256 -> 0 <= fls z < 9.
Proof.
  intros Hz. unfold fls. destruct (Z.eqb_spec z 0); [lia|].
  pose proof (Z.log2_nonneg z). assert (Z.log2 z < 8) by (apply Z.log2_lt_pow2; lia). lia.
Qed.

Lemma md_get_task_state_ok c t : states_ok c -> is_Some (md_get_task_state c t).
Proof.
  intros [Hr Hi]. apply getZ_is_Some. change (Z.of_nat (length task_state_array)) with 9.
  unfold md_task_state_index. apply fls_byte. destruct (t_state t =? TASK_IDLE c); [done|by apply land_byte].
Qed.

Lemma task_row_ok c t : states_ok c -> CONFIG_SCHED_WALT c = false -> is_Some (task_row c t).
Proof.
  intros Hc Hw. unfold task_row. destruct (md_get_task_state_ok c t Hc) as [st ->]. rewrite Hw. by eexists.
Qed.

(** The rows printed. *)
Definition table_lines (c : runq_config) (l : list task) : list string :=
  flat_map (fun t => if negb (CONFIG_MINIDUMP_ALL_TASK_INFO c) && negb (t_state t =? 0) then []
                     else default [] (task_row c t)) l.

Lemma task_rows_prints c l s :
  states_ok c -> CONFIG_SCHED_WALT c = false -> task_rows c l s = Some (runq_prints (table_lines c l) s).
Proof.
  intros Hc Hw. revert s. induction l as [|t l IH]; intros s; cbn [task_rows table_lines flat_map]; [by destruct s|].
  fold (table_lines c l). rewrite runq_prints_app.
  destruct (_ && _); [rewrite runq_prints_nil; apply IH|].
  destruct (task_row_ok c t Hc Hw) as [row ->]. apply IH.
Qed.

(** ** All queues *)

Definition cpu_lines (q : cpu_rq) : list string :=
  [cpu_line q; cfs_line q] ++ queue_lines 0 (rq_cfs q) (rq_curr q) ++ [rt_line q] ++
  rt_lines 0 (rt_bitmap (rq_rt q)) (rt_queue (rq_rt q)) (rq_curr q) ++ [nl].

Definition runq_lines (c : runq_config) (cpus : list cpu_rq) (tasks : list task) : list string :=
  flat_map cpu_lines cpus ++ table_head c ++ table_lines c tasks.

Definition cpu_ok (q : cpu_rq) : Prop := rt_ok (rq_rt q) /\ Z.of_nat (queue_height (rq_cfs q)) < 2147483647.

Lemma cpu_queues_prints l s :
  Forall cpu_ok l -> md_align_offset s = 0 -> cpu_queues l s = Some (runq_prints (flat_map cpu_lines l) s).
Proof.
  intros Hl. revert s. induction l as [|q l IH]; intros s Hd; cbn [cpu_queues flat_map]; [by destruct s|].
  apply list.Forall_cons in Hl as [[Hrt Hh] Hl]. rewrite runq_prints_app.
  rewrite (md_dump_cfs_rq_prints _ _ _ 0) by (done || lia).
  rewrite (md_dump_rt_rq_prints _ _ _ 0) by done. cbv beta match. rewrite IH by done. do 2 f_equal.
  unfold cpu_lines. by rewrite !runq_prints_app.
Qed.

Lemma md_dump_runqueues_prints c cpus tasks b :
  states_ok c -> CONFIG_SCHED_WALT c = false -> Forall cpu_ok cpus ->
  md_dump_runqueues c cpus tasks (Some (RunqState b 0))
    = Some (Some (RunqState (seq_buf_prints b (runq_lines c cpus tasks)) 0)).
Proof.
  intros Hc Hw Hok. unfold md_dump_runqueues. rewrite cpu_queues_prints by done. cbv beta match.
  rewrite task_rows_prints by done. cbv beta match. do 2 f_equal. unfold runq_lines.
  change (RunqState (seq_buf_prints b (flat_map cpu_lines cpus ++ table_head c ++ table_lines c tasks)) 0)
    with (runq_prints (flat_map cpu_lines cpus ++ table_head c ++ table_lines c tasks) (RunqState b 0)).
  by rewrite !runq_prints_app.
Qed.
