(* ===== verification/MdCpuContext.v ===== *)
(** * CPU contexts (minidump_log.c, lines 112-118 and 829-985)

    When a CPU dies or the system panics, the memory around the addresses in
    the registers is printed.  [peek] is the 32-bit word at an address, [None]
    where the access faults; registers are arguments. *)

From S2P Require Import Prelude CStr CText CPrint.

#[local] Open Scope string_scope.
#[local] Open Scope list_scope.
#[local] Open Scope Z_scope.

(** [struct pt_regs]: [user_mode], the registers X0-X30, the stack pointer and
    the program counter. *)
Record pt_regs := PtRegs { rg_user : bool; rg_x : list Z; rg_sp : Z; rg_pc : Z }.

(** The registers of a CPU that was not stopped. *)
Definition no_regs : pt_regs := PtRegs false (repeat 0 31) 0 0.

(** [md_cntxt_seq_buf], [die_cpu], [regs_before_stop], [md_in_oops_handler]. *)
Record cntxt_state := CntxtState {
  md_cntxt_seq_buf : option seq_buf;
  die_cpu : Z;
  regs_before_stop : Z -> pt_regs;
  md_in_oops_handler : bool;
}.

Section Context_.
Context (peek : Z -> option Z) (PAGE_OFFSET : Z).

(** ** Memory around an address *)

(** The words of a line, from [p]. *)
Fixpoint data_words (n : nat) (p : Z) (b : seq_buf) : seq_buf * Z :=
  match n with
  | O => (b, p)
  | S n =>
      let b := match peek p with
               | None => seq_buf_printf b " ********"
               | Some data => seq_buf_printf b (" " +:+ pad_zero 8 (fmt_x data))
               end in
      data_words n (u64 (p + 4)) b
  end.

(** [n] lines of [w] words. *)
Fixpoint data_lines (w n : nat) (p : Z) (b : seq_buf) : seq_buf :=
  match n with
  | O => b
  | S n =>
      let b := seq_buf_printf b (pad_zero 4 (fmt_x (Z.land p 0xffff)) +:+ " ") in
      let '(b, p) := data_words w p b in
      data_lines w n p (seq_buf_printf b nl)
  end.

Definition md_dump_data (addr nbytes : Z) (name : string) (b : seq_buf) : seq_buf :=
  let addr := u64 addr in
  if (addr <? PAGE_OFFSET) || (u64 (-256) <? addr) then b
  else
    let b := seq_buf_printf b (nl +:+ name +:+ ": 0x" +:+ fmt_x addr +:+ ":" +:+ nl) in
    let p := Z.land addr (u64 (Z.lnot 3)) in
    let nbytes := nbytes + Z.land addr 3 in
    data_lines 8 (Z.to_nat ((nbytes + 31) / 32)) p b.

(** ** Registers *)

Definition nbytes : Z := 128.

(** The loop over X0-X29; [name] has room for three characters. *)
Fixpoint data_regs (n : nat) (i : Z) (regs : pt_regs) (b : seq_buf) : option seq_buf :=
  match n with
  | O => Some b
  | S n =>
      let* x := getZ (rg_x regs) i in
      data_regs n (i + 1) regs (md_dump_data (x - nbytes) (nbytes * 2) (scnprintf 4 ("X" +:+ fmt_u i)) b)
  end.

Definition md_reg_context_data (regs : pt_regs) (b : seq_buf) : option seq_buf :=
  if rg_user regs || (rg_pc regs =? 0) then Some b
  else
    let b := md_dump_data (rg_pc regs - nbytes) (nbytes * 2) "PC" b in
    let* lr := getZ (rg_x regs) 30 in
    let b := md_dump_data (lr - nbytes) (nbytes * 2) "LR" b in
    let b := md_dump_data (rg_sp regs - nbytes) (nbytes * 2) "SP" b in
    data_regs 30 0 regs b.

(** [regs] are what the assembler code stores. *)
Definition md_dump_panic_regs (cpu : Z) (regs : pt_regs) (b : seq_buf) : option seq_buf :=
  md_reg_context_data regs (seq_buf_printf b ("PANIC CPU : " +:+ fmt_d cpu +:+ nl)).

Fixpoint md_dump_other_cpus_context (cpus : list Z) (stopped : Z -> pt_regs) (b : seq_buf) : option seq_buf :=
  match cpus with
  | [] => Some b
  | cpu :: cpus =>
      let b := seq_buf_printf b (nl +:+ "STOPPED CPU : " +:+ fmt_d cpu +:+ nl) in
      let* b := md_reg_context_data (stopped cpu) b in
      md_dump_other_cpus_context cpus stopped b
  end.

(** ** The hooks *)

Definition md_die_context_notify (cpu : Z) (regs : pt_regs) (s : cntxt_state) : option cntxt_state :=
  if md_in_oops_handler s then Some s
  else
    match md_cntxt_seq_buf s with
    | None => Some s
    | Some b =>
        let b := seq_buf_printf b (nl +:+ "DIE CPU : " +:+ fmt_d cpu +:+ nl) in
        let* b := md_reg_context_data regs b in
        Some (CntxtState (Some b) cpu (regs_before_stop s) false)
    end.

Definition md_ipi_stop (cpu : Z) (regs : pt_regs) (s : cntxt_state) : cntxt_state :=
  CntxtState (md_cntxt_seq_buf s) (die_cpu s)
    (fun c => if c =? cpu then regs else regs_before_stop s c) (md_in_oops_handler s).

(** ** The texts *)

Definition word_text (p : Z) : string :=
  match peek p with None => " ********" | Some data => " " +:+ pad_zero 8 (fmt_x data) end.

(** [n] lines of [w] words from address [p], which wraps around. *)
Fixpoint memory_lines (w n : nat) (p : Z) : list string :=
  match n with
  | O => []
  | S n =>
      (pad_zero 4 (fmt_x (Z.land p 0xffff)) +:+ " ") ::
      map (fun i => word_text (u64 (p + 4 * Z.of_nat i))) (seq 0 w) ++ nl ::
      memory_lines w n (u64 (p + 4 * Z.of_nat w))
  end.

(** The memory of [2 * nbytes] bytes around an address, in whole words. *)
Definition data_text (x : Z) (name : string) : list string :=
  let addr := u64 (x - nbytes) in
  if (addr <? PAGE_OFFSET) || (u64 (-256) <? addr) then []
  else
    (nl +:+ name +:+ ": 0x" +:+ fmt_x addr +:+ ":" +:+ nl) ::
    memory_lines 8 (if addr mod 4 =? 0 then 8 else 9) (4 * (addr / 4)).

Definition regs_text (regs : pt_regs) : list string :=
  if rg_user regs || (rg_pc regs =? 0) then []
  else
    data_text (rg_pc regs) "PC" ++ data_text (nth 30 (rg_x regs) 0) "LR" ++ data_text (rg_sp regs) "SP" ++
    flat_map (fun i => data_text (nth i (rg_x regs) 0) ("X" +:+ fmt_u (Z.of_nat i))) (seq 0 30).

Lemma u64_u64_add a b : u64 (u64 a + b) = u64 (a + b).
Proof. unfold u64. apply Zplus_mod_idemp_l. Qed.

Lemma data_words_prints n p b :
  data_words n (u64 p) b
    = (seq_buf_prints b (map (fun i => word_text (u64 (p + 4 * Z.of_nat i))) (seq 0 n)), u64 (p + 4 * Z.of_nat n)).
Proof.
  revert p b. induction n as [|n IH]; intros p b; cbn [data_words].
  { by replace (p + 4 * Z.of_nat 0) with p by lia. }
  rewrite u64_u64_add, IH. f_equal; [|f_equal; lia].
  assert (match peek (u64 p) with
    | None => seq_buf_printf b " ********"
    | Some data => seq_buf_printf b (" " +:+ pad_zero 8 (fmt_x data))
    end = seq_buf_printf b (word_text (u64 p))) as -> by (unfold word_text; by destruct (peek (u64 p))).
  cbn [seq map]. replace (p + 4 * Z.of_nat 0) with p by lia. unfold seq_buf_prints. cbn [fold_left].
  f_equal. rewrite <- seq_shift, map_map. apply map_ext. intros i. f_equal. f_equal. lia.
Qed.

Lemma data_lines_prints w n p b : data_lines w n (u64 p) b = seq_buf_prints b (memory_lines w n (u64 p)).
Proof.
  revert p b. induction n as [|n IH]; intros p b; [reflexivity|].
  cbn [data_lines memory_lines]. rewrite data_words_prints. cbv beta iota.
  rewrite IH. unfold seq_buf_prints. rewrite u64_u64_add. cbn [fold_left].
  rewrite fold_left_app. cbn [fold_left]. do 3 f_equal.
  apply map_ext. intros i. by rewrite u64_u64_add.
Qed.

(** The address rounded down to a word, and the lines to its end. *)
Lemma md_dump_data_prints x name b :
  md_dump_data (x - nbytes) (nbytes * 2) name b = seq_buf_prints b (data_text x name).
Proof.
  unfold md_dump_data, data_text. set (addr := u64 (x - nbytes)).
  assert (0 <= addr < 18446744073709551616) as Hr by apply u64_range.
  destruct (_ || _); [done|]. unfold seq_buf_prints. cbn [fold_left]. fold (seq_buf_prints (seq_buf_printf b
    (nl +:+ name +:+ ": 0x" +:+ fmt_x addr +:+ ":" +:+ nl))).
  assert (Z.land addr (u64 (Z.lnot 3)) = 4 * (addr / 4)) as ->.
  { change (u64 (Z.lnot 3)) with 18446744073709551612. clearbody addr.
    replace (Z.land addr 18446744073709551612) with (Z.ldiff addr 3).
    - change 3 with (Z.ones 2). rewrite Z.ldiff_ones_r by lia. rewrite Z.shiftl_mul_pow2, Z.shiftr_div_pow2 by lia.
      change (2 ^ 2) with 4. lia.
    - rewrite Z.ldiff_land. assert (Z.land addr (Z.ones 64) = addr) as Ha
        by (rewrite Z.land_ones by lia; apply Z.mod_small; lia).
      rewrite <- Ha at 1. rewrite <- Z.land_assoc. f_equal. }
  assert (Z.land addr 3 = addr mod 4) as -> by apply (Z.land_ones addr 2 ltac:(lia)).
  pose proof (Z.mod_pos_bound addr 4 ltac:(lia)). pose proof (Z.div_mod addr 4 ltac:(lia)).
  assert (u64 (4 * (addr / 4)) = 4 * (addr / 4)) as Hu by (apply u64_small; lia). rewrite <- Hu at 1.
  rewrite data_lines_prints, Hu. unfold seq_buf_prints. do 2 f_equal. unfold nbytes.
  destruct (Z.eqb_spec (addr mod 4) 0) as [->|Hne]; [done|].
  assert (addr mod 4 = 1 \/ addr mod 4 = 2 \/ addr mod 4 = 3) as [-> | [-> | ->]] by lia; done.
Qed.

Lemma slen_fmt_u_small i : (i < 30)%nat -> scnprintf 4 ("X" +:+ fmt_u (Z.of_nat i)) = "X" +:+ fmt_u (Z.of_nat i).
Proof. intros Hi. do 30 (destruct i as [|i]; [done|]). lia. Qed.

Lemma data_regs_prints n i regs b :
  length (rg_x regs) = 31%nat -> (i + n = 30)%nat ->
  data_regs n (Z.of_nat i) regs b
    = Some (seq_buf_prints b (flat_map (fun i => data_text (nth i (rg_x regs) 0) ("X" +:+ fmt_u (Z.of_nat i))) (seq i n))).
Proof.
  intros Hl. revert i b. induction n as [|n IH]; intros i b Hi; [done|]. cbn [data_regs seq flat_map].
  destruct (lookup_lt_is_Some_2 (rg_x regs) i) as [x Hx]; [lia|]. rewrite getZ_of_nat, Hx. cbv beta match.
  rewrite slen_fmt_u_small, md_dump_data_prints by lia.
  replace (Z.of_nat i + 1) with (Z.of_nat (S i)) by lia. rewrite IH by lia.
  rewrite (nth_lookup_Some _ _ _ _ Hx). unfold seq_buf_prints. by rewrite fold_left_app.
Qed.

Lemma md_reg_context_data_prints regs b :
  length (rg_x regs) = 31%nat -> md_reg_context_data regs b = Some (seq_buf_prints b (regs_text regs)).
Proof.
  intros Hl. unfold md_reg_context_data, regs_text. destruct (_ || _); [done|].
  destruct (lookup_lt_is_Some_2 (rg_x regs) 30) as [x Hx]; [lia|]. change 30 with (Z.of_nat 30) at 1.
  rewrite getZ_of_nat, Hx. cbv beta match. change 0 with (Z.of_nat 0) at 1.
  rewrite (data_regs_prints 30 0) by done. rewrite !md_dump_data_prints, (nth_lookup_Some _ _ _ _ Hx).
  unfold seq_buf_prints. by rewrite !fold_left_app.
Qed.

Lemma other_cpus_prints cpus stopped b :
  (forall c, length (rg_x (stopped c)) = 31%nat) ->
  md_dump_other_cpus_context cpus stopped b = Some (seq_buf_prints b
    (flat_map (fun c => (nl +:+ "STOPPED CPU : " +:+ fmt_d c +:+ nl) :: regs_text (stopped c)) cpus)).
Proof.
  intros Hs. revert b. induction cpus as [|c cpus IH]; intros b; cbn [md_dump_other_cpus_context flat_map]; [done|].
  rewrite md_reg_context_data_prints by done. cbv beta match. rewrite IH. unfold seq_buf_prints.
  by rewrite fold_left_app.
Qed.
End Context_.
