(* ===== verification/MdLogReg.v ===== *)
(** * Registrations at start-up (minidump_log.c, lines 1040-1148 and 1251-1334)

    The buffers of the panic handlers, the memory of a module and the records
    of pstore become regions of the minidump.  [reg_all] is what a list of
    registrations makes of the regions: each is accepted or refused by the
    registry. *)

From S2P Require Import Prelude CMem CStr CText CPrint MdApi MdElfRep MdElfRegions MdDriverProofs MdClient.

#[local] Open Scope string_scope.
#[local] Open Scope list_scope.
#[local] Open Scope Z_scope.

Definition PAGE_SIZE : Z := 4096.
(** [all] is CONFIG_MINIDUMP_ALL_TASK_INFO. *)
Definition MD_RUNQUEUE_PAGES (all : bool) : Z := if all then 150 else 8.
Definition MD_CPU_CNTXT_PAGES : Z := 32.
Definition MD_MODULE_PAGES : Z := 8.

(** A block of memory, at its virtual and physical address. *)
Record block := Block { bk_virt : Z; bk_phys : Z }.

Definition offset_in_page (a : Z) : Z := Z.land a (PAGE_SIZE - 1).

Section Code.
Context {S : Type} `{MdRegionApi S}.

(** [junk] is what the uninitialised [id] of the descriptor holds. *)
Definition md_register_minidump_entry (junk : Z) (name : string) (virt phys size : Z) (s : S)
  : option (Z * S) :=
  api_add (MdRegion (strscpy name (MAX_NAME_LENGTH + 1)).1 junk virt phys size) s.

(** ** Sequence buffers

    The minidump driver and the blocks of [kzalloc] in use. *)
Record heap_state := HeapState { hp_api : S; hp_blocks : list Z }.

Definition kzalloc (answer : option block) (s : heap_state) : heap_state :=
  match answer with
  | None => s
  | Some b => HeapState (hp_api s) (bk_virt b :: hp_blocks s)
  end.

(** A block that is not in use cannot be freed. *)
Definition kfree (a : Z) (s : heap_state) : option heap_state :=
  match list_find (eq a) (hp_blocks s) with
  | Some (i, _) => Some (HeapState (hp_api s) (delete i (hp_blocks s)))
  | None => None
  end.

(** [a1] and [a2] answer the two allocations; the result has the sequence
    buffer stored in [*global_buf], if one is. *)
Definition md_register_panic_entries (junk num_pages : Z) (name : string) (a1 a2 : option block)
  (s : heap_state) : option (Z * option seq_buf * heap_state) :=
  let s := kzalloc a1 s in
  match a1 with
  | None => Some (- EINVAL, None, s)
  | Some buf =>
      let s := kzalloc a2 s in
      match a2 with
      | None =>
          let* s := kfree (bk_virt buf) s in
          Some (- EINVAL, None, s)
      | Some seq_buf_p =>
          let size := u64 (num_pages * PAGE_SIZE) in
          let* (ret, api) := md_register_minidump_entry junk name (bk_virt buf) (bk_phys buf) size (hp_api s) in
          let s := HeapState api (hp_blocks s) in
          if ret <? 0 then
            let* s := kfree (bk_virt seq_buf_p) s in
            let* s := kfree (bk_virt buf) s in
            Some (ret, None, s)
          else Some (0, Some (seq_buf_init size), s)
      end
  end.

(** ** Memory of the vmalloc area

    [page_phys] is [page_to_phys(vmalloc_to_page(a))], the physical address of
    the page of [a]. *)
Section Vmap.
Context (page_phys : Z -> Z) (junk : Z).

Definition vmap_name (i : Z) (name : string) : string := scnprintf 12 (fmt_d i +:+ "_" +:+ name).

Fixpoint vmap_loop (fuel : nat) (name : string) (dump_addr dump_len i : Z) (s : S) : option S :=
  if dump_len =? 0 then Some s
  else
    match fuel with
    | O => None
    | Datatypes.S fuel =>
        let to_dump := s32 (Z.min dump_len (PAGE_SIZE - offset_in_page dump_addr)) in
        let* (_, s) := md_register_minidump_entry junk (vmap_name i name) dump_addr (page_phys dump_addr)
                         (u64 to_dump) s in
        vmap_loop fuel name (u64 (dump_addr + to_dump)) (u64 (dump_len - to_dump)) (s32 (i + 1)) s
    end.

Definition register_vmap_mem (name : string) (virtual_addr dump_len : Z) (s : S) : option (Z * S) :=
  let* s := vmap_loop (Z.to_nat (dump_len / PAGE_SIZE + 2)) name virtual_addr dump_len 0 s in
  Some (0, s).
End Vmap.

(** ** pstore

    What the device tree says of the node of ramoops: the error of the lookup,
    the first resource (its start and size), the reserved memory, and the four
    sizes, each unless it cannot be read. *)
Record pstore_node := PstoreNode {
  pn_resource : option (Z * Z);
  pn_rmem : option (Z * Z);
  pn_record_size : option Z;
  pn_console_size : option Z;
  pn_ftrace_size : option Z;
  pn_pmsg_size : option Z;
}.

Section Pstore.
Context (phys_to_virt : Z -> Z).

(** One of the four paragraphs; [junk] is the [id] of [md_entry], which is the
    same in all of them. *)
Definition pstore_record (junk : Z) (name : string) (size : option Z) (x : Z * S) : option (Z * S) :=
  let '(paddr, s) := x in
  match size with
  | None => Some (paddr, s)
  | Some size =>
      if 0 <? size then
        let* (_, s) := api_add (MdRegion (strscpy name (MAX_NAME_LENGTH + 1)).1 junk
                         (u64 (phys_to_virt paddr)) paddr size) s in
        Some (u64 (paddr + size), s)
      else Some (paddr, s)
  end.

Definition pstore_base (n : pstore_node) : option Z :=
  match pn_resource n with
  | Some (start, _) => Some start
  | None => option_map fst (pn_rmem n)
  end.

Definition register_pstore_info (junk : Z) (node : option pstore_node) (s : S) : option S :=
  match node with
  | None => Some s
  | Some n =>
      match pstore_base n with
      | None => Some s
      | Some paddr =>
          let* x := pstore_record junk "KDMESG" (pn_record_size n) (paddr, s) in
          let* x := pstore_record junk "KCONSOLE" (pn_console_size n) x in
          let* x := pstore_record junk "KFTRACE" (pn_ftrace_size n) x in
          let* x := pstore_record junk "KPMSG" (pn_pmsg_size n) x in
          Some (snd x)
      end
  end.
End Pstore.
End Code.
