(* ===== verification/MdLogRegProofs.v ===== *)
(** * The regions registered at start-up

    A sequence of registrations that all have room in the ELF header: the
    interface tells what each returns, and [reg_all] what becomes of the
    regions. *)

From S2P Require Import Prelude CMem CStr CText CPrint MdApi MdElfRep MdElfRegions MdDriverProofs MdClient MdLogReg.

From Stdlib Require Import Ascii.

#[local] Open Scope string_scope.
#[local] Open Scope list_scope.
#[local] Open Scope Z_scope.

(** ** One registration after the other *)

Definition reg_result (pend rs : list md_region) (e : md_region) : Z := (registry_add e (pend ++ rs)).1.

Definition reg_next (pend rs : list md_region) (e : md_region) : list md_region :=
  if reg_result pend rs e <? 0 then rs else rs ++ [e].

Definition reg_all (pend rs es : list md_region) : list md_region := fold_left (reg_next pend) es rs.

(** The regions [es] can join [rs], one after the other. *)
Record joinable (rs es : list md_region) : Prop := {
  jo_wf : Forall region_wf es;
  jo_room : Z.of_nat (length rs + length es) <= 197;
  jo_size : 27888 + sizes rs + sizes es < 18446744073709551616;
  jo_names : Forall (fun e => md_name e ∉ fixed_names) es;
}.

Lemma reg_all_app pend rs es1 es2 : reg_all pend rs (es1 ++ es2) = reg_all pend (reg_all pend rs es1) es2.
Proof. apply fold_left_app. Qed.

Lemma sizes_wf_nonneg es : Forall region_wf es -> 0 <= sizes es.
Proof.
  induction 1 as [|e es He _ IH]; [done|]. change (sizes (e :: es)) with (md_size e + sizes es).
  destruct He as [_ _ _ ?]. lia.
Qed.

Lemma joinable_addable rs e es : joinable rs (e :: es) -> addable e rs.
Proof.
  intros [Hwf Hroom Hsz Hnm]. apply list.Forall_cons in Hwf as [He Hwf], Hnm as [Hn _].
  change (sizes (e :: es)) with (md_size e + sizes es) in Hsz. simpl length in Hroom.
  pose proof (sizes_wf_nonneg _ Hwf). split; [done|lia|lia|done].
Qed.

Lemma joinable_next pend rs e es : joinable rs (e :: es) -> joinable (reg_next pend rs e) es.
Proof.
  intros [Hwf Hroom Hsz Hnm]. apply list.Forall_cons in Hwf as [He Hwf], Hnm as [_ Hnm].
  change (sizes (e :: es)) with (md_size e + sizes es) in Hsz. simpl length in Hroom. destruct He as [_ _ _ ?].
  unfold reg_next. destruct (_ <? 0); split; try done; try lia.
  - rewrite length_app. simpl. lia.
  - rewrite sizes_app. change (sizes [e]) with (md_size e + 0). lia.
Qed.

Lemma joinable_drop rs e es : joinable rs (e :: es) -> joinable rs es.
Proof.
  intros [Hwf Hroom Hsz Hnm]. apply list.Forall_cons in Hwf as [[_ _ _ ?] Hwf], Hnm as [_ Hnm].
  change (sizes (e :: es)) with (md_size e + sizes es) in Hsz. simpl length in Hroom.
  split; [done|lia|lia|done].
Qed.

Lemma joinable_app pend rs es1 es2 :
  joinable rs (es1 ++ es2) -> joinable rs es1 /\ joinable (reg_all pend rs es1) es2.
Proof.
  intros Hj. split.
  - destruct Hj as [Hwf Hroom Hsz Hnm]. apply Forall_app in Hwf as [Hw1 Hw2], Hnm as [Hn1 _].
    rewrite length_app in Hroom. rewrite sizes_app in Hsz. pose proof (sizes_wf_nonneg _ Hw2).
    split; [done|lia|lia|done].
  - revert rs Hj. induction es1 as [|e es1 IH]; intros rs Hj; [done|]. apply IH. by apply joinable_next.
Qed.

Section Proofs.
Context {S : Type} `{MdRegionApi S}.

(** What a piece of code that registers [es] does to the driver: the registry
    has judged each of them, [rest] can still join, the numbers are good. *)
Record joined (s s' : S) (pend rs es rest : list md_region) : Prop := {
  jd_rep : api_rep s' pend (reg_all pend rs es);
  jd_room : joinable (reg_all pend rs es) rest;
  jd_stable : api_stable s' = api_stable s;
}.

Lemma joined_nil s pend rs rest : api_rep s pend rs -> joinable rs rest -> joined s s pend rs [] rest.
Proof. by split. Qed.

Lemma joined_trans s1 s2 s3 pend rs es1 es2 rest :
  joined s1 s2 pend rs es1 (es2 ++ rest) -> joined s2 s3 pend (reg_all pend rs es1) es2 rest ->
  joined s1 s3 pend rs (es1 ++ es2) rest.
Proof. intros [? ? ?] [? ? ?]. split; rewrite ?reg_all_app; [done..|congruence]. Qed.

Lemma api_add_joined s pend rs e rest :
  api_rep s pend rs -> joinable rs (e :: rest) ->
  exists s', api_add e s = Some (reg_result pend rs e, s') /\ joined s s' pend rs [e] rest.
Proof.
  intros Hrep Hj. destruct (api_add_ok s pend rs e Hrep (joinable_addable _ _ _ Hj)) as (s' & Ha & Hneg & Hpos).
  exists s'. split; [exact Ha|]. pose proof (joinable_next pend _ _ _ Hj) as Hj'.
  assert (api_rep s' pend (reg_next pend rs e) /\ api_stable s' = api_stable s) as [Hrep' Hs'].
  { unfold reg_next, reg_result. destruct (Z.ltb_spec (registry_add e (pend ++ rs)).1 0) as [Hlt|Hge].
    - by rewrite (Hneg Hlt).
    - exact (Hpos Hge). }
  by split.
Qed.

(** ** Sequence buffers *)

(** The region of a sequence buffer that gets both its blocks. *)
Definition panic_entry (junk pages : Z) (name : string) (a1 a2 : option block) : list md_region :=
  match a1, a2 with
  | Some b, Some _ => [MdRegion (strscpy name (MAX_NAME_LENGTH + 1)).1 junk (bk_virt b) (bk_phys b)
                         (u64 (pages * PAGE_SIZE))]
  | _, _ => []
  end.

Lemma kfree_head (api : S) a l : kfree a (HeapState api (a :: l)) = Some (HeapState api l).
Proof. unfold kfree. cbn [hp_blocks list_find]. by rewrite decide_True. Qed.

(** A buffer is published exactly when its region is registered; otherwise
    both blocks are free again. *)
Lemma md_register_panic_entries_ok junk pages name a1 a2 s pend rs es :
  api_rep (hp_api s) pend rs -> joinable rs (panic_entry junk pages name a1 a2 ++ es) ->
  exists ret b s', md_register_panic_entries junk pages name a1 a2 s = Some (ret, b, s') /\
    joined (hp_api s) (hp_api s') pend rs (panic_entry junk pages name a1 a2) es /\
    match b with
    | None => ret < 0 /\ hp_blocks s' = hp_blocks s /\ reg_all pend rs (panic_entry junk pages name a1 a2) = rs
    | Some q => ret = 0 /\ q = seq_buf_init (u64 (pages * PAGE_SIZE)) /\
        exists e, panic_entry junk pages name a1 a2 = [e] /\ reg_all pend rs [e] = rs ++ [e] /\
          exists b2, hp_blocks s' = b2 :: virt_addr e :: hp_blocks s
    end.
Proof.
  intros Hrep Hj. destruct s as [api l]. unfold md_register_panic_entries, panic_entry in *.
  destruct a1 as [b1|]; [|by eexists _, None, _; split; [reflexivity|]; split; [by apply joined_nil|]].
  destruct a2 as [b2|]; cbn [kzalloc hp_api hp_blocks app] in *.
  2:{ rewrite kfree_head. cbv beta match.
      by eexists _, None, _; split; [reflexivity|]; split; [by apply joined_nil|]. }
  unfold md_register_minidump_entry. set (e := MdRegion _ _ _ _ _) in *.
  destruct (api_add_joined api pend rs e es Hrep Hj) as (api' & -> & Hjd). cbv beta match.
  change (reg_all pend rs [e]) with (reg_next pend rs e).
  destruct (Z.ltb_spec (reg_result pend rs e) 0) as [Hlt|Hge].
  - rewrite !kfree_head. cbv beta match. eexists _, None, _. split; [reflexivity|].
    split_and!; try done. unfold reg_next. by replace (reg_result pend rs e <? 0) with true by lia.
  - eexists 0, (Some _), _. split; [reflexivity|]. split_and!; try done. exists e. split_and!; try done.
    + change (reg_next pend rs e = rs ++ [e]). unfold reg_next.
      by replace (reg_result pend rs e <? 0) with false by lia.
    + by eexists.
Qed.

(** ** Memory of the vmalloc area *)

Section Chunks.
Context (page_phys : Z -> Z) (junk : Z) (name : string) (addr len : Z).

(** The pages that [addr .. addr + len] touches, and the part of each. *)
Definition page_count : Z := if len =? 0 then 0 else (addr mod PAGE_SIZE + len + (PAGE_SIZE - 1)) / PAGE_SIZE.

Definition chunk_start (i : Z) : Z :=
  Z.min (addr + len) (Z.max addr (addr - addr mod PAGE_SIZE + PAGE_SIZE * i)).

Definition chunk (i : nat) : md_region :=
  let a := chunk_start (Z.of_nat i) in
  MdRegion (vmap_name (Z.of_nat i) name) junk a (page_phys a) (chunk_start (Z.of_nat i + 1) - a).

Definition chunks : list md_region := map chunk (seq 0 (Z.to_nat page_count)).

Lemma offset_in_page_mod a : offset_in_page a = a mod PAGE_SIZE.
Proof. unfold offset_in_page, PAGE_SIZE. by apply (Z.land_ones a 12). Qed.

Lemma chunk_step i :
  0 <= addr -> 0 <= len -> 0 <= i < page_count ->
  chunk_start i < addr + len /\
  chunk_start (i + 1) = chunk_start i + Z.min (addr + len - chunk_start i) (PAGE_SIZE - chunk_start i mod PAGE_SIZE).
Proof.
  intros Ha Hl Hi. unfold page_count, chunk_start, PAGE_SIZE in *. change (4096 - 1) with 4095 in *. destruct (Z.eqb_spec len 0); [lia|].
  pose proof (Z.div_mod addr 4096 ltac:(lia)). pose proof (Z.mod_pos_bound addr 4096 ltac:(lia)).
  assert (4096 * i < addr mod 4096 + len) as Hlt.
  { pose proof (Z.mul_div_le (addr mod 4096 + len + 4095) 4096 ltac:(lia)). lia. }
  assert (Z.min (addr + len) (Z.max addr (addr - addr mod 4096 + 4096 * i))
    = Z.max addr (addr - addr mod 4096 + 4096 * i)) as -> by lia.
  split; [lia|]. destruct (decide (i = 0)) as [->|Hne].
  - replace (Z.max addr (addr - addr mod 4096 + 4096 * 0)) with addr by lia. lia.
  - replace (Z.max addr (addr - addr mod 4096 + 4096 * i)) with (addr - addr mod 4096 + 4096 * i) by lia.
    assert ((addr - addr mod 4096 + 4096 * i) mod 4096 = 0) as ->; [|lia].
    replace (addr - addr mod 4096 + 4096 * i) with ((addr / 4096 + i) * 4096) by lia. apply Z.mod_mul. lia.
Qed.

Lemma chunk_start_0 : 0 <= addr -> 0 <= len -> chunk_start 0 = addr.
Proof.
  intros. unfold chunk_start, PAGE_SIZE. pose proof (Z.mod_pos_bound addr 4096 ltac:(lia)). lia.
Qed.

Lemma chunk_start_end : 0 <= addr -> 0 <= len -> chunk_start page_count = addr + len.
Proof.
  intros Ha Hl. unfold chunk_start, page_count, PAGE_SIZE. destruct (Z.eqb_spec len 0) as [->|Hne].
  - pose proof (Z.mod_pos_bound addr 4096 ltac:(lia)). lia.
  - pose proof (Z.mod_pos_bound addr 4096 ltac:(lia)).
    pose proof (Z.div_mod (addr mod 4096 + len + 4095) 4096 ltac:(lia)).
    pose proof (Z.mod_pos_bound (addr mod 4096 + len + 4095) 4096 ltac:(lia)). change (4096 - 1) with 4095. lia.
Qed.

Lemma page_count_bound : 0 <= addr -> 0 <= len -> 0 <= page_count <= len / PAGE_SIZE + 2.
Proof.
  intros Ha Hl. unfold page_count, PAGE_SIZE. destruct (Z.eqb_spec len 0) as [->|Hne]; [done|].
  pose proof (Z.mod_pos_bound addr 4096 ltac:(lia)). change (4096 - 1) with 4095.
  split; [apply Z.div_pos; lia|]. rewrite <- (Z.div_add len 2 4096) by lia. apply Z.div_le_mono; lia.
Qed.

Lemma vmap_name_short i : slen (vmap_name i name) < MAX_NAME_LENGTH + 1.
Proof.
  unfold vmap_name. pose proof (slen_stake_le (Z.to_nat (12 - 1)) (fmt_d i +:+ "_" +:+ name)).
  rewrite slen_scnprintf by lia. unfold MAX_NAME_LENGTH. lia.
Qed.

Lemma vmap_loop_ok pend es k : forall i fuel s rs,
  0 <= addr -> 0 <= len -> addr + len < 18446744073709551616 -> page_count <= 2147483647 ->
  (i + k = Z.to_nat page_count)%nat -> (k <= fuel)%nat ->
  api_rep s pend rs -> joinable rs (map chunk (seq i k) ++ es) ->
  exists s', vmap_loop page_phys junk fuel name (chunk_start (Z.of_nat i)) (addr + len - chunk_start (Z.of_nat i))
      (Z.of_nat i) s = Some s' /\ joined s s' pend rs (map chunk (seq i k)) es.
Proof.
  induction k as [|k IH]; intros i fuel s rs Ha Hl Hw Hn Hi Hf Hrep Hj.
  { pose proof (page_count_bound Ha Hl). replace (Z.of_nat i) with page_count by lia.
    rewrite chunk_start_end by done. replace (addr + len - (addr + len)) with 0 by lia.
    exists s. split; [by destruct fuel|by apply joined_nil]. }
  destruct fuel as [|fuel]; [lia|]. cbn [vmap_loop].
  destruct (chunk_step (Z.of_nat i) Ha Hl ltac:(lia)) as [Hlt Hstep].
  destruct (Z.eqb_spec (addr + len - chunk_start (Z.of_nat i)) 0); [lia|]. rewrite offset_in_page_mod.
  set (a := chunk_start (Z.of_nat i)) in *. set (sz := Z.min (addr + len - a) (PAGE_SIZE - a mod PAGE_SIZE)) in *.
  assert (addr <= a) as Hge by (unfold a, chunk_start; lia).
  assert (0 < sz <= 4096) as Hnn by (unfold sz, PAGE_SIZE; pose proof (Z.mod_pos_bound a 4096 ltac:(lia)); lia).
  rewrite (s32_small sz) by lia. rewrite !u64_small by lia. rewrite s32_small by lia.
  unfold md_register_minidump_entry. rewrite strscpy_fits by apply vmap_name_short. cbn [fst].
  assert (MdRegion (vmap_name (Z.of_nat i) name) junk a (page_phys a) sz = chunk i) as ->.
  { unfold chunk. fold a. rewrite Hstep. f_equal. lia. }
  cbn [seq map app] in Hj |- *.
  destruct (api_add_joined s pend rs _ _ Hrep Hj) as (s1 & -> & Hjd). cbv beta match.
  replace (a + sz) with (chunk_start (Z.of_nat (Datatypes.S i))) by (rewrite <- Hstep; f_equal; lia).
  replace (addr + len - a - sz) with (addr + len - chunk_start (Z.of_nat (Datatypes.S i)))
    by (replace (Z.of_nat (Datatypes.S i)) with (Z.of_nat i + 1) by lia; lia).
  replace (Z.of_nat i + 1) with (Z.of_nat (Datatypes.S i)) by lia.
  destruct (IH (Datatypes.S i) fuel s1 (reg_next pend rs (chunk i))) as (s' & Hs & Hjd'); try done; try lia;
    [apply Hjd..|].
  exists s'. split; [exact Hs|]. exact (joined_trans _ _ _ _ _ [chunk i] _ _ Hjd Hjd').
Qed.

(** The loop ends, and registers one region for each page touched. *)
Lemma register_vmap_mem_ok pend es s rs :
  0 <= addr -> 0 <= len -> addr + len < 18446744073709551616 ->
  api_rep s pend rs -> joinable rs (chunks ++ es) ->
  exists s', register_vmap_mem page_phys junk name addr len s = Some (0, s') /\
    joined s s' pend rs chunks es.
Proof.
  intros Ha Hl Hw Hrep Hj. pose proof (page_count_bound Ha Hl) as Hpc. unfold register_vmap_mem.
  assert (page_count <= 2147483647) as Hn.
  { destruct Hj as [_ Hroom _ _]. unfold chunks in Hroom. rewrite length_app, length_map, length_seq in Hroom. lia. }
  destruct (vmap_loop_ok pend es (Z.to_nat page_count) 0 (Z.to_nat (len / PAGE_SIZE + 2)) s rs)
    as (s' & Hs & Hjd); try done; [lia|].
  change (Z.of_nat 0) with 0 in Hs. rewrite chunk_start_0 in Hs by done.
  replace (addr + len - addr) with len in Hs by lia. rewrite Hs. by exists s'.
Qed.

(** The regions follow each other and cover the memory; each lies in a page. *)
Lemma chunks_tile :
  0 <= addr -> 0 <= len ->
  sizes chunks = len /\
  (forall i c, chunks !! i = Some c ->
     virt_addr c = addr + sizes (take i chunks) /\ 0 < md_size c /\
     virt_addr c / PAGE_SIZE = (virt_addr c + md_size c - 1) / PAGE_SIZE /\
     phys_addr c = page_phys (virt_addr c)).
Proof.
  intros Ha Hl. pose proof (page_count_bound Ha Hl) as Hpc.
  assert (forall k, (k <= Z.to_nat page_count)%nat ->
    sizes (map chunk (seq 0 k)) = chunk_start (Z.of_nat k) - addr) as Hsz.
  { induction k as [|k IH]; intros Hk; [change (Z.of_nat 0) with 0; rewrite chunk_start_0 by done;
      change (sizes (map chunk (seq 0 0))) with 0; lia|].
    rewrite seq_S, map_app, sizes_app, IH by lia. change (sizes (map chunk [0 + k]%nat)) with
      (chunk_start (Z.of_nat k + 1) - chunk_start (Z.of_nat k) + 0).
    replace (Z.of_nat (Datatypes.S k)) with (Z.of_nat k + 1) by lia. lia. }
  split.
  { unfold chunks. rewrite Hsz by lia. rewrite Z2Nat.id by lia. rewrite chunk_start_end by done. lia. }
  intros i c Hi. pose proof (lookup_lt_Some _ _ _ Hi) as Hlt. unfold chunks in Hlt.
  rewrite length_map, length_seq in Hlt. unfold chunks in *. rewrite <- (take_drop i (seq 0 _)), map_app.
  rewrite take_app_le by (rewrite length_map, length_take, length_seq; lia).
  rewrite take_ge by (rewrite length_map, length_take, length_seq; lia).
  rewrite take_seq. replace (i `min` Z.to_nat page_count)%nat with i by lia. rewrite Hsz by lia.
  apply list_lookup_fmap_Some in Hi as (j & -> & Hj). apply lookup_seq in Hj as [-> _]. simpl (0 + i)%nat.
  destruct (chunk_step (Z.of_nat i) Ha Hl ltac:(lia)) as [Hst Hstep]. unfold chunk. cbn [virt_addr md_size phys_addr].
  set (a := chunk_start (Z.of_nat i)) in *. rewrite Hstep.
  unfold PAGE_SIZE in *. pose proof (Z.mod_pos_bound a 4096 ltac:(lia)). pose proof (Z.div_mod a 4096 ltac:(lia)).
  split_and!; try done; try lia.
  apply Z.div_unique with (r := (a + (Z.min (addr + len - a) (4096 - a mod 4096)) - 1) - 4096 * (a / 4096)); lia.
Qed.
End Chunks.

(** Chunks whose names are taken are refused, and nobody is told. *)
Lemma reg_all_taken pend rs es :
  Forall (fun e => named (md_name e) (pend ++ rs) = true) es -> reg_all pend rs es = rs.
Proof.
  induction 1 as [|e es He _ IH]; [done|]. change (reg_all pend rs (e :: es)) with (reg_all pend (reg_next pend rs e) es).
  unfold reg_next, reg_result, registry_add, EINVAL, ENOMEM, EEXIST. rewrite He.
  destruct (negb _); [exact IH|]. destruct (CONFIG_MINIDUMP_MAX_ENTRIES <=? _); exact IH.
Qed.

(** The names have room for nine characters of the module's. *)
Lemma vmap_name_collides i n1 n2 :
  0 <= i < 10 -> stake 9 n1 = stake 9 n2 -> vmap_name i n1 = vmap_name i n2.
Proof.
  intros Hi Hn. unfold vmap_name, scnprintf. change (Z.to_nat (12 - 1)) with 11%nat.
  assert (exists c, fmt_d i = String c EmptyString) as [c ->].
  { assert (i = 0 \/ i = 1 \/ i = 2 \/ i = 3 \/ i = 4 \/ i = 5 \/ i = 6 \/ i = 7 \/ i = 8 \/ i = 9) as Hd by lia.
    repeat (destruct Hd as [->|Hd]; [by eexists|]). subst. by eexists. }
  change (String c (String "_"%char (stake 9 n1)) = String c (String "_"%char (stake 9 n2))). by rewrite Hn.
Qed.

(** ** pstore *)

Section Records.
Context (phys_to_virt : Z -> Z) (junk : Z).

(** The records with a size, one behind the other. *)
Fixpoint pstore_regions (paddr : Z) (l : list (string * option Z)) : list md_region :=
  match l with
  | [] => []
  | (name, size) :: l =>
      let n := default 0 size in
      (if 0 <? n then [MdRegion name junk (u64 (phys_to_virt paddr)) paddr n] else []) ++
      pstore_regions (u64 (paddr + Z.max 0 n)) l
  end.

Definition pstore_list (n : pstore_node) : list (string * option Z) :=
  [("KDMESG", pn_record_size n); ("KCONSOLE", pn_console_size n);
   ("KFTRACE", pn_ftrace_size n); ("KPMSG", pn_pmsg_size n)].

Definition pstore_entries (node : option pstore_node) : list md_region :=
  match node with
  | None => []
  | Some n => match pstore_base n with None => [] | Some paddr => pstore_regions paddr (pstore_list n) end
  end.

Lemma pstore_record_ok name size l pend es paddr s rs :
  slen name <= MAX_NAME_LENGTH -> 0 <= paddr < 18446744073709551616 ->
  api_rep s pend rs -> joinable rs (pstore_regions paddr ((name, size) :: l) ++ es) ->
  exists s' e, pstore_record phys_to_virt junk name size (paddr, s) = Some (u64 (paddr + Z.max 0 (default 0 size)), s') /\
    pstore_regions paddr ((name, size) :: l) = e ++ pstore_regions (u64 (paddr + Z.max 0 (default 0 size))) l /\
    joined s s' pend rs e (pstore_regions (u64 (paddr + Z.max 0 (default 0 size))) l ++ es).
Proof.
  intros Hn Hp Hrep Hj. cbn [pstore_regions] in *. unfold pstore_record.
  destruct size as [n|]; cbn [default id] in *.
  - destruct (Z.ltb_spec 0 n) as [Hpos|Hneg].
    + rewrite strscpy_fits by lia. cbn [fst] in *. rewrite <- app_assoc in Hj.
      destruct (api_add_joined s pend rs _ _ Hrep Hj) as (s' & -> & Hjd). cbv beta match.
      replace (Z.max 0 n) with n in * by lia. by eexists _, _.
    + replace (Z.max 0 n) with 0 in * by lia. rewrite Z.add_0_r, (u64_small paddr) in * by done.
      exists s, []. split; [done|]. split; [done|]. by apply joined_nil.
  - change (Z.max 0 0) with 0 in *. rewrite Z.add_0_r, (u64_small paddr) in * by done.
    exists s, []. split; [done|]. split; [done|]. by apply joined_nil.
Qed.

Lemma register_pstore_info_ok pend node es s rs :
  (forall n p, node = Some n -> pstore_base n = Some p -> 0 <= p < 18446744073709551616) ->
  api_rep s pend rs -> joinable rs (pstore_entries node ++ es) ->
  exists s', register_pstore_info phys_to_virt junk node s = Some s' /\
    joined s s' pend rs (pstore_entries node) es.
Proof.
  intros Hb Hrep Hj. unfold register_pstore_info, pstore_entries in *.
  destruct node as [n|]; [|exists s; split; [done|by apply joined_nil]].
  destruct (pstore_base n) as [p|] eqn:Hbase; [|exists s; split; [done|by apply joined_nil]].
  pose proof (Hb n p eq_refl Hbase) as Hp. unfold pstore_list in *.
  destruct (pstore_record_ok "KDMESG" _ _ pend es p s rs ltac:(done) Hp Hrep Hj) as (s1 & e1 & -> & -> & [R1 J1 S1]).
  cbv beta match.
  destruct (pstore_record_ok "KCONSOLE" _ _ pend es _ s1 _ ltac:(done) (u64_range _) R1 J1) as (s2 & e2 & -> & -> & [R2 J2 S2]).
  cbv beta match.
  destruct (pstore_record_ok "KFTRACE" _ _ pend es _ s2 _ ltac:(done) (u64_range _) R2 J2) as (s3 & e3 & -> & -> & [R3 J3 S3]).
  cbv beta match.
  destruct (pstore_record_ok "KPMSG" _ _ pend es _ s3 _ ltac:(done) (u64_range _) R3 J3) as (s4 & e4 & -> & -> & [R4 J4 S4]).
  exists s4. split; [done|]. split; rewrite ?reg_all_app in *; [done..|congruence].
Qed.
End Records.
End Proofs.
