(* ===== verification/MdModules.v ===== *)
(** * Modules (minidump_log.c, lines 153-162, 1161-1223 and 1229-1247)

    Every module that goes live leaves a line in the module buffer; the data
    of the key modules is registered page by page. *)

From S2P Require Import Prelude CMem CStr CText CPrint MdApi MdElfRep MdElfRegions MdDriverProofs MdClient.
From S2P Require Import MdLogReg MdLogRegProofs.

#[local] Open Scope string_scope.
#[local] Open Scope list_scope.
#[local] Open Scope Z_scope.

(** [core_layout] of a [struct module], its sections unless the pointer is
    null, and whether it is live. *)
Record kmodule := KModule {
  mo_name : string;
  mo_base : Z;
  mo_ro_after_init_size : Z;
  mo_size : Z;
  mo_sect_attrs : option (list (string * Z));
  mo_live : bool;
}.

Section Code.
Context {S : Type} `{MdRegionApi S}.

(** [md_mod_info_seq_buf], [md_modules_lock] and whether [md_module_nb] is on
    the notifier chain. *)
Record modules_state := ModulesState {
  mo_heap : @heap_state S;
  md_mod_info_seq_buf : option seq_buf;
  md_modules_lock : bool;
  mo_notifier : bool;
}.

Definition set_mod_info (s : modules_state) (b : option seq_buf) (api : S) : modules_state :=
  ModulesState (HeapState api (hp_blocks (mo_heap s))) b (md_modules_lock s) (mo_notifier s).

Definition set_modules_lock (s : modules_state) (l : bool) : modules_state :=
  ModulesState (mo_heap s) (md_mod_info_seq_buf s) l (mo_notifier s).

Section Process.
Context (page_phys : Z -> Z) (junk : Z) (key_modules : list string).

Definition is_key_module (name : string) : bool := existsb (fun k => bool_decide (k = name)) key_modules.

(** The sections between the two addresses. *)
Fixpoint print_sections (l : list (string * Z)) (dump_start dump_end : Z) (b : seq_buf) : seq_buf :=
  match l with
  | [] => b
  | (name, sec_addr) :: l =>
      let b := if (dump_start <=? sec_addr) && (sec_addr <? dump_end)
               then seq_buf_printf b (", " +:+ name +:+ ": " +:+ fmt_x sec_addr) else b in
      print_sections l dump_start dump_end b
  end.

Definition md_module_process (mdl : kmodule) (s : modules_state) : option (Z * modules_state) :=
  match md_mod_info_seq_buf s with
  | None => Some (0, s)
  | Some b =>
      let base_addr := mo_base mdl in
      let b := seq_buf_printf b ("name: " +:+ mo_name mdl +:+ ", base: " +:+ fmt_x base_addr) in
      let api := hp_api (mo_heap s) in
      let* (b, api) :=
        if is_key_module (mo_name mdl) then
          let dump_start := u64 (base_addr + mo_ro_after_init_size mdl) in
          let dump_end := u64 (base_addr + mo_size mdl) in
          let* (available, api) := api_available api in
          if u64 (dump_end - dump_start) / PAGE_SIZE <? u64 available then
            let* attrs := mo_sect_attrs mdl in
            let b := print_sections attrs dump_start dump_end b in
            let* (_, api) := register_vmap_mem page_phys junk (mo_name mdl) dump_start (u64 (dump_end - dump_start)) api in
            Some (b, api)
          else Some (b, api)
        else Some (b, api) in
      Some (0, set_mod_info s (Some (seq_buf_printf b nl)) api)
  end.

(** [this] is whether the module is this one. *)
Definition md_get_present_module (this : bool) (mdl : kmodule) (s : modules_state) : option (Z * modules_state) :=
  if negb this then md_module_process mdl s else Some (0, s).

Definition md_module_notify (mdl : kmodule) (s : modules_state) : option (Z * modules_state) :=
  let* _ := assert_c (negb (md_modules_lock s)) in
  let s := set_modules_lock s true in
  let* s := if mo_live mdl then let* (_, s) := md_module_process mdl s in Some s else Some s in
  Some (0, set_modules_lock s false).

(** [ret] is what [register_module_notifier] returns. *)
Definition md_register_module_data (a1 a2 : option block) (ret : Z) (s : modules_state) : option modules_state :=
  let* (err, b, heap) := md_register_panic_entries junk MD_MODULE_PAGES "KMODULES" a1 a2 (mo_heap s) in
  let s := ModulesState heap (match b with Some b => Some b | None => md_mod_info_seq_buf s end)
             (md_modules_lock s) (mo_notifier s) in
  if negb (err =? 0) then Some s
  else
    let* b := md_mod_info_seq_buf s in
    let s := ModulesState heap (Some (seq_buf_printf b ("=== MODULE INFO ===" +:+ nl))) (md_modules_lock s) (mo_notifier s) in
    if negb (ret =? 0) then Some s
    else Some (ModulesState (mo_heap s) (md_mod_info_seq_buf s) (md_modules_lock s) true).
End Process.

(** ** What a module leaves *)

Section Proofs.
Context (page_phys : Z -> Z) (junk : Z) (key_modules : list string).

(** Its data: the part of the core layout that stays writable. *)
Definition data_start (mdl : kmodule) : Z := mo_base mdl + mo_ro_after_init_size mdl.
Definition data_size (mdl : kmodule) : Z := mo_size mdl - mo_ro_after_init_size mdl.

(** The data is dumped: the module is a key module, with room for its pages. *)
Definition dumped (mdl : kmodule) (n : nat) : bool :=
  is_key_module key_modules (mo_name mdl) && (data_size mdl / PAGE_SIZE <? 201 - Z.of_nat n).

Definition section_texts (mdl : kmodule) : list string :=
  flat_map (fun '(name, a) => if (data_start mdl <=? a) && (a <? data_start mdl + data_size mdl)
                              then [", " +:+ name +:+ ": " +:+ fmt_x a] else []) (default [] (mo_sect_attrs mdl)).

Definition module_texts (mdl : kmodule) (n : nat) : list string :=
  ("name: " +:+ mo_name mdl +:+ ", base: " +:+ fmt_x (mo_base mdl)) ::
  (if dumped mdl n then section_texts mdl else []) ++ [nl].

Definition module_chunks (mdl : kmodule) (n : nat) : list md_region :=
  if dumped mdl n then chunks page_phys junk (mo_name mdl) (data_start mdl) (data_size mdl) else [].

(** A module in the kernel's address space. *)
Record module_ok (mdl : kmodule) : Prop := {
  mk_base : 0 <= mo_base mdl;
  mk_sizes : 0 <= mo_ro_after_init_size mdl <= mo_size mdl;
  mk_end : mo_base mdl + mo_size mdl < 18446744073709551616;
  mk_attrs : mo_sect_attrs mdl <> None;
}.

Lemma print_sections_prints l a e b :
  print_sections l a e b = seq_buf_prints b (flat_map (fun '(name, x) =>
    if (a <=? x) && (x <? e) then [", " +:+ name +:+ ": " +:+ fmt_x x] else []) l).
Proof.
  revert b. induction l as [|[name x] l IH]; intros b; [done|]. cbn [print_sections flat_map]. rewrite IH.
  destruct (_ && _); [|done]. unfold seq_buf_prints. by rewrite fold_left_app.
Qed.

Lemma md_module_process_ok mdl s b pend rs rest :
  md_mod_info_seq_buf s = Some b -> module_ok mdl -> (length (pend ++ rs) <= 201)%nat ->
  api_rep (hp_api (mo_heap s)) pend rs -> joinable rs (module_chunks mdl (length (pend ++ rs)) ++ rest) ->
  exists api, md_module_process page_phys junk key_modules mdl s
      = Some (0, set_mod_info s (Some (seq_buf_prints b (module_texts mdl (length (pend ++ rs))))) api) /\
    joined (hp_api (mo_heap s)) api pend rs (module_chunks mdl (length (pend ++ rs))) rest.
Proof.
  intros Hb [Hbase Hsz Hend Hat] Hlen Hrep Hj. unfold md_module_process, module_texts, module_chunks, dumped in *.
  rewrite Hb. destruct (is_key_module key_modules (mo_name mdl)); cbn [andb] in *.
  2:{ cbv beta match. eexists. split; [reflexivity|]. by apply joined_nil. }
  rewrite (api_available_ok _ _ _ Hrep). cbv beta match.
  change (mo_base mdl + mo_ro_after_init_size mdl) with (data_start mdl).
  assert (mo_base mdl + mo_size mdl = data_start mdl + data_size mdl) as -> by (unfold data_start, data_size; lia).
  assert (0 <= data_start mdl /\ 0 <= data_size mdl /\ data_start mdl + data_size mdl < 18446744073709551616)
    as (H1 & H2 & H3) by (unfold data_start, data_size; lia).
  rewrite (u64_small (data_start mdl)), (u64_small (data_start mdl + data_size mdl)) by lia.
  replace (data_start mdl + data_size mdl - data_start mdl) with (data_size mdl) by lia.
  rewrite !u64_small by lia. destruct (data_size mdl / PAGE_SIZE <? _).
  - unfold section_texts. destruct (mo_sect_attrs mdl) as [attrs|]; [|done]. cbn [default id]. cbv beta match.
    rewrite print_sections_prints.
    destruct (register_vmap_mem_ok page_phys junk (mo_name mdl) (data_start mdl) (data_size mdl) pend rest
      (hp_api (mo_heap s)) rs H1 H2 H3 Hrep Hj) as (api & -> & Hjd). cbv beta match.
    exists api. split; [|exact Hjd]. unfold seq_buf_prints. cbn [fold_left]. by rewrite fold_left_app.
  - eexists. split; [reflexivity|]. by apply joined_nil.
Qed.

Lemma md_module_notify_ok mdl s b pend rs rest :
  md_mod_info_seq_buf s = Some b -> md_modules_lock s = false -> mo_live mdl = true ->
  module_ok mdl -> (length (pend ++ rs) <= 201)%nat ->
  api_rep (hp_api (mo_heap s)) pend rs -> joinable rs (module_chunks mdl (length (pend ++ rs)) ++ rest) ->
  exists api, md_module_notify page_phys junk key_modules mdl s
      = Some (0, set_mod_info s (Some (seq_buf_prints b (module_texts mdl (length (pend ++ rs))))) api) /\
    joined (hp_api (mo_heap s)) api pend rs (module_chunks mdl (length (pend ++ rs))) rest.
Proof.
  intros Hb Hl Hlive Hok Hlen Hrep Hj. unfold md_module_notify. rewrite Hl, Hlive. cbn [negb assert_c]. cbv beta match.
  destruct (md_module_process_ok mdl (set_modules_lock s true) b pend rs rest) as (api & -> & Hjd); try done.
  cbv beta match. exists api. split; [|exact Hjd]. unfold set_modules_lock, set_mod_info. cbn. by rewrite Hl.
Qed.

Lemma md_register_module_data_ok a1 a2 ret s pend rs rest :
  md_mod_info_seq_buf s = None -> api_rep (hp_api (mo_heap s)) pend rs ->
  joinable rs (panic_entry junk MD_MODULE_PAGES "KMODULES" a1 a2 ++ rest) ->
  exists s', md_register_module_data junk a1 a2 ret s = Some s' /\
    joined (hp_api (mo_heap s)) (hp_api (mo_heap s')) pend rs (panic_entry junk MD_MODULE_PAGES "KMODULES" a1 a2) rest /\
    md_modules_lock s' = md_modules_lock s /\
    (md_mod_info_seq_buf s' = None \/
     md_mod_info_seq_buf s' = Some (seq_buf_prints (seq_buf_init 32768) ["=== MODULE INFO ===" +:+ nl])).
Proof.
  intros Hb Hrep Hj. unfold md_register_module_data.
  destruct (md_register_panic_entries_ok junk MD_MODULE_PAGES "KMODULES" a1 a2 (mo_heap s) pend rs rest Hrep Hj)
    as (err & b & heap & -> & Hjd & Hcase). cbv beta match.
  destruct b as [b|].
  - destruct Hcase as (-> & -> & _). cbn [negb Z.eqb md_mod_info_seq_buf]. cbv beta match.
    destruct (negb (ret =? 0)); eexists; (split; [reflexivity|]; split; [exact Hjd|]; split; [done|]; by right).
  - destruct Hcase as (Hlt & _). replace (err =? 0) with false by lia. cbn [negb]. eexists.
    split; [reflexivity|]. split; [exact Hjd|]. split; [done|]. by left.
Qed.
End Proofs.
End Code.
