(* ===== verification/MdStack.v ===== *)
(** * Stacks (minidump_log.c, lines 63-93 and 169-515)

    The pages of the current stack of each CPU, and of the task that suspends
    the system, are regions whose addresses follow the scheduler.  The kernel's
    page tables and the answers about tasks are arguments. *)

From S2P Require Import Prelude CMem CStr CText CPrint MdApi MdElfRep MdElfRegions MdElfUpdate MdDriverProofs MdClient.
From S2P Require Import MdLogReg.

#[local] Open Scope string_scope.
#[local] Open Scope list_scope.
#[local] Open Scope Z_scope.

(** ** Data *)

(** arm64 with pages of 4 KB. *)
Definition THREAD_SIZE : Z := 16384.

(** A task: its address, [stack], the area of [task_stack_vm_area] with
    [get_vm_area_size], whether it is an idle task, and [task_cpu]. *)
Record ktask := KTask {
  tk_addr : Z;
  tk_stack : Z;
  tk_area : Z;
  tk_area_size : Z;
  tk_idle : bool;
  tk_cpu : Z;
}.

(** [struct md_stack_cpu_data]: two arrays of [STACK_NUM_PAGES]. *)
Record stack_data := StackData { stack_mdidx : list Z; stack_mdr : list md_region }.

(** [stack_mdidx], [stack_mdr] of the context are [sc_stack]. *)
Record suspend_context := SuspendContext {
  task_mdno : Z;
  sc_stack : stack_data;
  task_mdr : md_region;
  sc_init : bool;
}.

Section Code.
Context {S : Type} `{MdRegionApi S}.
Context (vmalloc_phys virt_to_phys : Z -> Z) (sizeof_task_struct : Z).
Context (CONFIG_VMAP_STACK CONFIG_QCOM_DYN_MINIDUMP_STACK : bool).

Record stack_state := StackState {
  sk_api : S;
  is_vmap_stack : bool;
  md_current_stack_init : bool;
  md_stack_data : Z -> stack_data;
  md_suspend_context : suspend_context;
}.

Definition set_sk_api (s : stack_state) (a : S) : stack_state :=
  StackState a (is_vmap_stack s) (md_current_stack_init s) (md_stack_data s) (md_suspend_context s).

Definition set_cpu_data (s : stack_state) (cpu : Z) (d : stack_data) : stack_state :=
  StackState (sk_api s) (is_vmap_stack s) (md_current_stack_init s)
    (fun c => if c =? cpu then d else md_stack_data s c) (md_suspend_context s).

Definition set_suspend (s : stack_state) (c : suspend_context) : stack_state :=
  StackState (sk_api s) (is_vmap_stack s) (md_current_stack_init s) (md_stack_data s) c.

Definition set_current_init (s : stack_state) : stack_state :=
  StackState (sk_api s) (is_vmap_stack s) true (md_stack_data s) (md_suspend_context s).

Definition set_vmap (s : stack_state) (b : bool) : stack_state :=
  StackState (sk_api s) b (md_current_stack_init s) (md_stack_data s) (md_suspend_context s).

(** ** One entry

    [sp_phys] is the physical address that both functions compute. *)

Definition sp_phys (vmap : bool) (sp : Z) : Z := if vmap then vmalloc_phys sp else virt_to_phys sp.

Definition register_stack_entry (vmap : bool) (e : md_region) (sp size : Z) (a : S) : option (Z * md_region * S) :=
  let e := MdRegion (md_name e) (md_id e) sp (sp_phys vmap sp) size in
  let* (entry, a) := api_add e a in
  Some (entry, e, a).

Definition update_stack_entry (vmap : bool) (e : md_region) (sp mdno : Z) (a : S) : option (md_region * S) :=
  let e := MdRegion (md_name e) (md_id e) sp (sp_phys vmap sp) (md_size e) in
  let* (_, a) := api_update mdno e a in
  Some (e, a).

Definition set_name (e : md_region) (name : string) : md_region :=
  MdRegion name (md_id e) (virt_addr e) (phys_addr e) (md_size e).

(** ** All entries of a stack *)

(** The loops over the arrays, from page [i]; the name is only given when the
    entries are registered. *)
Fixpoint register_pages (vmap : bool) (mdr : list md_region) (i sp : Z) (name_str : string) (a : S)
  : option (list Z * list md_region * S) :=
  match mdr with
  | [] => Some ([], [], a)
  | e :: mdr =>
      let e := set_name e (scnprintf (MAX_NAME_LENGTH + 1) (name_str +:+ "_" +:+ fmt_d i)) in
      let* (n, e, a) := register_stack_entry vmap e sp PAGE_SIZE a in
      let* (ns, es, a) := register_pages vmap mdr (i + 1) (u64 (sp + PAGE_SIZE)) name_str a in
      Some (n :: ns, e :: es, a)
  end.

Fixpoint update_pages (vmap : bool) (mdr : list md_region) (mdno : list Z) (sp : Z) (a : S)
  : option (list md_region * S) :=
  match mdr, mdno with
  | e :: mdr, n :: mdno =>
      let* (e, a) := update_stack_entry vmap e sp n a in
      let* (es, a) := update_pages vmap mdr mdno (u64 (sp + PAGE_SIZE)) a in
      Some (e :: es, a)
  | _, _ => Some ([], a)
  end.

Definition page_start (sp : Z) : Z := Z.ldiff sp (PAGE_SIZE - 1).
Definition thread_start (sp : Z) : Z := Z.ldiff sp (THREAD_SIZE - 1).

Definition register_vmapped_stack (vmap : bool) (d : stack_data) (sp : Z) (name_str : option string) (a : S)
  : option (stack_data * S) :=
  let sp := page_start sp in
  match name_str with
  | Some name =>
      let* (ns, es, a) := register_pages vmap (stack_mdr d) 0 sp name a in
      Some (StackData ns es, a)
  | None =>
      let* (es, a) := update_pages vmap (stack_mdr d) (stack_mdidx d) sp a in
      Some (StackData (stack_mdidx d) es, a)
  end.

(** The first entry of the arrays. *)
Definition register_normal_stack (vmap : bool) (d : stack_data) (sp : Z) (name_str : option string) (a : S)
  : option (stack_data * S) :=
  let sp := thread_start sp in
  let* e := getZ (stack_mdr d) 0 in
  match name_str with
  | Some name =>
      let e := set_name e (scnprintf (MAX_NAME_LENGTH + 1) name) in
      let* (n, e, a) := register_stack_entry vmap e sp THREAD_SIZE a in
      let* ns := setZ (stack_mdidx d) 0 n in
      let* es := setZ (stack_mdr d) 0 e in
      Some (StackData ns es, a)
  | None =>
      let* n := getZ (stack_mdidx d) 0 in
      let* (e, a) := update_stack_entry vmap e sp n a in
      let* es := setZ (stack_mdr d) 0 e in
      Some (StackData (stack_mdidx d) es, a)
  end.

Definition register_stack (vmap : bool) (d : stack_data) (sp : Z) (name_str : option string) (a : S)
  : option (stack_data * S) :=
  if vmap then register_vmapped_stack vmap d sp name_str a else register_normal_stack vmap d sp name_str a.

Definition update_md_stack (vmap : bool) (d : stack_data) (sp : Z) (a : S) : option (stack_data * S) :=
  if vmap then
    if existsb (fun n => n <? 0) (stack_mdidx d) then Some (d, a)
    else register_vmapped_stack vmap d sp None a
  else
    let* n := getZ (stack_mdidx d) 0 in
    if n <? 0 then Some (d, a) else register_normal_stack vmap d sp None a.

(** ** The current stacks *)

Definition update_md_cpu_stack (tsk : ktask) (cpu sp : Z) (s : stack_state) : option stack_state :=
  if tk_idle tsk || negb (md_current_stack_init s) then Some s
  else
    let* (d, a) := update_md_stack (is_vmap_stack s) (md_stack_data s cpu) sp (sk_api s) in
    Some (set_cpu_data (set_sk_api s a) cpu d).

Definition md_current_stack_notifer (next : ktask) (s : stack_state) : option stack_state :=
  update_md_cpu_stack next (tk_cpu next) (tk_stack next) s.

(** A CPU, its current task and stack pointer. *)
Record on_cpu := OnCpu { oc_cpu : Z; oc_current : ktask; oc_sp : Z }.

Definition current_sp (s : stack_state) (c : on_cpu) : Z :=
  if is_vmap_stack s then tk_area (oc_current c) else oc_sp c.

Definition md_current_stack_ipi_handler (c : on_cpu) (s : stack_state) : option stack_state :=
  if tk_idle (oc_current c) then Some s
  else update_md_cpu_stack (oc_current c) (oc_cpu c) (current_sp s c) s.

Fixpoint each_cpu_stack (cpus : list Z) (sp : Z) (s : stack_state) : option stack_state :=
  match cpus with
  | [] => Some s
  | cpu :: cpus =>
      let name_str := scnprintf MAX_NAME_LENGTH ("KSTACK" +:+ fmt_d cpu) in
      let* (d, a) := register_stack (is_vmap_stack s) (md_stack_data s cpu) sp (Some name_str) (sk_api s) in
      each_cpu_stack cpus sp (set_cpu_data (set_sk_api s a) cpu d)
  end.

(** [smp_call_function]: the handler on each of the other CPUs. *)
Fixpoint call_others (others : list on_cpu) (s : stack_state) : option stack_state :=
  match others with
  | [] => Some s
  | c :: others => let* s := md_current_stack_ipi_handler c s in call_others others s
  end.

Definition register_current_stack (cpus : list Z) (me : on_cpu) (others : list on_cpu) (s : stack_state)
  : option stack_state :=
  let* s := each_cpu_stack cpus (current_sp s me) s in
  call_others others (set_current_init s).

(** ** The task that suspends the system *)

Definition update_md_current_task (mdr : md_region) (mdno current : Z) (a : S) : option (md_region * S) :=
  let e := MdRegion (md_name mdr) (md_id mdr) current (virt_to_phys current) (md_size mdr) in
  let* (_, a) := api_update mdno e a in
  Some (e, a).

Definition update_md_suspend_current_stack (me : on_cpu) (s : stack_state) : option stack_state :=
  let c := md_suspend_context s in
  let* (d, a) := update_md_stack (is_vmap_stack s) (sc_stack c) (current_sp s me) (sk_api s) in
  Some (set_suspend (set_sk_api s a) (SuspendContext (task_mdno c) d (task_mdr c) (sc_init c))).

Definition update_md_suspend_current_task (me : on_cpu) (s : stack_state) : option stack_state :=
  let c := md_suspend_context s in
  if task_mdno c <? 0 then Some s
  else
    let* (e, a) := update_md_current_task (task_mdr c) (task_mdno c) (tk_addr (oc_current me)) (sk_api s) in
    Some (set_suspend (set_sk_api s a) (SuspendContext (task_mdno c) (sc_stack c) e (sc_init c))).

Definition update_md_suspend_currents (me : on_cpu) (s : stack_state) : option stack_state :=
  if negb (sc_init (md_suspend_context s)) then Some s
  else
    let* s := update_md_suspend_current_stack me s in
    update_md_suspend_current_task me s.

Definition register_suspend_stack (me : on_cpu) (s : stack_state) : option stack_state :=
  let c := md_suspend_context s in
  let* (d, a) := register_stack (is_vmap_stack s) (sc_stack c) (current_sp s me)
                   (Some (scnprintf MAX_NAME_LENGTH "KSUSPSTK")) (sk_api s) in
  Some (set_suspend (set_sk_api s a) (SuspendContext (task_mdno c) d (task_mdr c) (sc_init c))).

Definition register_current_task (mdr : md_region) (name_str : string) (current : Z) (a : S)
  : option (Z * md_region * S) :=
  let e := MdRegion (scnprintf (MAX_NAME_LENGTH + 1) name_str) (md_id mdr) current (virt_to_phys current)
             sizeof_task_struct in
  let* (n, a) := api_add e a in
  Some (n, e, a).

Definition register_suspend_current_task (me : on_cpu) (s : stack_state) : option stack_state :=
  let c := md_suspend_context s in
  let* (n, e, a) := register_current_task (task_mdr c) (scnprintf MAX_NAME_LENGTH "KSUSPTASK")
                      (tk_addr (oc_current me)) (sk_api s) in
  Some (set_suspend (set_sk_api s a) (SuspendContext n (sc_stack c) e (sc_init c))).

(** [prepare] is [event == PM_SUSPEND_PREPARE]. *)
Definition minidump_pm_notifier (prepare : bool) (me : on_cpu) (s : stack_state) : option stack_state :=
  if prepare then update_md_suspend_currents me s else Some s.

Definition register_suspend_context (me : on_cpu) (s : stack_state) : option stack_state :=
  let* s := register_suspend_stack me s in
  let* s := register_suspend_current_task me s in
  let c := md_suspend_context s in
  Some (set_suspend s (SuspendContext (task_mdno c) (sc_stack c) (task_mdr c) true)).

(** ** A stack on request *)

Definition in_stack_range (sp base_addr stack_size : Z) : bool :=
  let max_addr := u64 (base_addr + u32 stack_size) in
  (base_addr <=? sp) && (sp <? max_addr).

Definition calculate_copy_pages (sp : Z) (tsk : ktask) : Z :=
  let base := tk_area tsk in
  if in_stack_range sp base (tk_area_size tsk) then
    let offset := u64 (sp - base) in
    let stack_pages := u32 (tk_area_size tsk / PAGE_SIZE) in
    u32 (stack_pages - offset / PAGE_SIZE)
  else 0.

Fixpoint copy_loop (n : nat) (junk cpu i sp : Z) (a : S) : option S :=
  match n with
  | O => Some a
  | Datatypes.S n =>
      let name := scnprintf (MAX_NAME_LENGTH + 1) ("KSTACK" +:+ fmt_d cpu +:+ "_" +:+ fmt_d i) in
      let* (_, _, a) := register_stack_entry true (MdRegion name junk 0 0 0) sp PAGE_SIZE a in
      copy_loop n junk cpu (i + 1) (u64 (sp + PAGE_SIZE)) a
  end.

(** [sp] is the argument of the call, [oc_sp me] the current stack pointer;
    [junk] is what the [id]s of the descriptors on the stack hold. *)
Definition dump_stack_minidump (KIMAGE_VADDR junk sp : Z) (me : on_cpu) (s : stack_state) : option stack_state :=
  if CONFIG_QCOM_DYN_MINIDUMP_STACK then Some s
  else if tk_idle (oc_current me) then Some s
  else
    let s := set_vmap s CONFIG_VMAP_STACK in
    let sp := if (sp <? KIMAGE_VADDR) || (u64 (-256) <? sp) then oc_sp me else sp in
    let* a :=
      if is_vmap_stack s then
        let sp := page_start sp in
        copy_loop (Z.to_nat (calculate_copy_pages sp (oc_current me))) junk (oc_cpu me) 0 sp (sk_api s)
      else
        let name := scnprintf (MAX_NAME_LENGTH + 1) ("KSTACK" +:+ fmt_d (oc_cpu me)) in
        let* (_, _, a) := register_stack_entry false (MdRegion name junk 0 0 0) (thread_start sp) THREAD_SIZE (sk_api s) in
        Some a in
    let current := tk_addr (oc_current me) in
    let e := MdRegion (scnprintf (MAX_NAME_LENGTH + 1) ("KTASK" +:+ fmt_d (oc_cpu me))) junk current
               (virt_to_phys current) sizeof_task_struct in
    let* (_, a) := api_add e a in
    Some (set_sk_api s a).
End Code.
