(* ===== verification/MdStackProofs.v ===== *)
(** * Stacks that follow the scheduler

    What the registrations of MdStack.v add, and that an update moves the
    regions of one stack and nothing else. *)

From S2P Require Import Prelude CMem CStr CText CPrint MdApi MdElfRep MdElfRegions MdElfUpdate MdDriverProofs MdClient.
From S2P Require Import MdLogReg MdLogRegProofs MdStack.

#[local] Open Scope string_scope.
#[local] Open Scope list_scope.
#[local] Open Scope Z_scope.

Section Proofs.
Context {S : Type} `{MdRegionApi S}.
Context (vmalloc_phys virt_to_phys : Z -> Z).

(** ** Updates *)

(** Region number [n] belongs to the descriptor [e], and both can be updated. *)
Record tracked (rs : list md_region) (stable n : Z) (e : md_region) : Prop := {
  tr_number : 0 <= n < Z.min stable (Z.of_nat (length rs));
  tr_named : named (md_name e) rs = true;
  tr_name : slen (md_name e) <= MAX_NAME_LENGTH /\ no_nul (md_name e) = true;
  tr_size : 0 <= md_size e < 18446744073709551616 /\ md_size e mod 4 = 0;
}.

(** [e] as it is updated for the address [sp]. *)
Definition at_sp (vmap : bool) (e : md_region) (sp : Z) : md_region :=
  MdRegion (md_name e) (md_id e) sp (sp_phys vmalloc_phys virt_to_phys vmap sp) (md_size e).

Definition move_region (e : md_region) (n : Z) (rs : list md_region) : list md_region :=
  alter (fun r => moved r e) (Z.to_nat n) rs.

Definition addr_ok (vmap : bool) (sp : Z) : Prop :=
  0 < sp < 18446744073709551616 /\ 0 <= sp_phys vmalloc_phys virt_to_phys vmap sp < 18446744073709551616.

Lemma stack_moved_names e n rs : map md_name (move_region e n rs) = map md_name rs.
Proof.
  unfold move_region. revert rs. generalize (Z.to_nat n) as k. intros k rs. revert k.
  induction rs as [|r rs IH]; intros [|k]; cbn; [done..|]. f_equal. apply IH.
Qed.

Lemma named_moved x e n rs : named x (move_region e n rs) = named x rs.
Proof.
  destruct (named x rs) eqn:Hn.
  - apply not_false_iff_true. intros Hc%named_false. rewrite stack_moved_names in Hc. apply named_false in Hc. congruence.
  - apply named_false. rewrite stack_moved_names. by apply named_false.
Qed.

Lemma tracked_moved e n rs stable k x : tracked rs stable k x -> tracked (move_region e n rs) stable k x.
Proof.
  intros [? ? ? ?]. split; try done.
  - unfold move_region. by rewrite length_alter.
  - by rewrite named_moved.
Qed.

Lemma update_stack_entry_ok vmap e sp n a rs :
  api_rep a [] rs -> tracked rs (api_stable a) n e -> addr_ok vmap sp ->
  exists a', update_stack_entry vmalloc_phys virt_to_phys vmap e sp n a = Some (at_sp vmap e sp, a') /\
    api_rep a' [] (move_region (at_sp vmap e sp) n rs) /\ api_stable a' = api_stable a.
Proof.
  intros Hrep [Hn Hnm [Hl Hnul] Hsz] [Hsp Hph]. unfold update_stack_entry.
  destruct (lookup_lt_is_Some_2 rs (Z.to_nat n)) as [r Hr]; [lia|].
  destruct (api_update_ok a rs (Z.to_nat n) r (at_sp vmap e sp) Hrep Hr) as (a' & Hu & Hrep' & Hst); [lia|done|by split|].
  rewrite Z2Nat.id in Hu by lia. unfold at_sp in *. rewrite Hu. cbv beta match. exists a'. split; [done|].
  split; [|done]. unfold move_region. replace (alter _ (Z.to_nat n) rs) with
    (<[Z.to_nat n := moved r (MdRegion (md_name e) (md_id e) sp (sp_phys vmalloc_phys virt_to_phys vmap sp) (md_size e))]> rs);
    [done|].
  apply list_eq. intros i. destruct (decide (i = Z.to_nat n)) as [->|Hne].
  - rewrite list_lookup_insert_eq by (by eapply lookup_lt_Some). by rewrite list_lookup_alter_eq, Hr.
  - by rewrite list_lookup_insert_ne, list_lookup_alter_ne by done.
Qed.

(** The descriptors of a stack at [sp], and the regions after their updates. *)
Fixpoint stack_at (vmap : bool) (mdr : list md_region) (sp : Z) : list md_region :=
  match mdr with
  | [] => []
  | e :: mdr => at_sp vmap e sp :: stack_at vmap mdr (u64 (sp + PAGE_SIZE))
  end.

Fixpoint move_all (es : list md_region) (ns : list Z) (rs : list md_region) : list md_region :=
  match es, ns with
  | e :: es, n :: ns => move_all es ns (move_region e n rs)
  | _, _ => rs
  end.

(** A stack of [n] pages at [sp] lies in the address space. *)
Definition stack_addr_ok (vmap : bool) (n : nat) (sp : Z) : Prop :=
  0 < sp /\ sp + PAGE_SIZE * Z.of_nat n <= 18446744073709551616 /\
  forall i, (i < n)%nat -> 0 <= sp_phys vmalloc_phys virt_to_phys vmap (sp + PAGE_SIZE * Z.of_nat i) < 18446744073709551616.

Lemma stack_addr_next vmap n sp :
  stack_addr_ok vmap (Datatypes.S n) sp -> addr_ok vmap sp /\
  (n = O \/ (u64 (sp + PAGE_SIZE) = sp + PAGE_SIZE /\ stack_addr_ok vmap n (sp + PAGE_SIZE))).
Proof.
  unfold PAGE_SIZE. intros (Hs & He & Hp). unfold PAGE_SIZE in *. split.
  - split; [lia|]. specialize (Hp O ltac:(lia)). by rewrite Z.add_0_r in Hp.
  - destruct n as [|n]; [by left|right]. rewrite u64_small by lia. split; [done|].
    split_and!; [lia|unfold PAGE_SIZE; lia|]. intros i Hi. unfold PAGE_SIZE. specialize (Hp (Datatypes.S i) ltac:(lia)).
    by replace (sp + 4096 + 4096 * Z.of_nat i) with (sp + 4096 * Z.of_nat (Datatypes.S i)) by lia.
Qed.

Lemma update_pages_ok vmap mdr : forall ns sp a rs,
  api_rep a [] rs -> Forall2 (tracked rs (api_stable a)) ns mdr -> stack_addr_ok vmap (length mdr) sp ->
  exists a', update_pages vmalloc_phys virt_to_phys vmap mdr ns sp a = Some (stack_at vmap mdr sp, a') /\
    api_rep a' [] (move_all (stack_at vmap mdr sp) ns rs) /\ api_stable a' = api_stable a.
Proof.
  induction mdr as [|e mdr IH]; intros ns sp a rs Hrep Htr Hsp.
  { apply Forall2_nil_inv_r in Htr as ->. by exists a. }
  apply Forall2_cons_inv_r in Htr as (n & ns' & Ht & Htr & ->). cbn [length] in Hsp.
  destruct (stack_addr_next _ _ _ Hsp) as [Haddr Hnext]. cbn [update_pages stack_at move_all].
  destruct (update_stack_entry_ok vmap e sp n a rs Hrep Ht Haddr) as (a1 & -> & Hrep1 & Hst1). cbv beta match.
  destruct Hnext as [Hn0|[Hu Hsp']].
  - destruct mdr; [|done]. apply Forall2_nil_inv_r in Htr as ->. by exists a1.
  - rewrite Hu. destruct (IH ns' (sp + PAGE_SIZE) a1 (move_region (at_sp vmap e sp) n rs)) as (a2 & -> & Hrep2 & Hst2);
      [done| |done|].
    { rewrite Hst1. eapply Forall2_impl; [|exact Htr]. intros ? ? ?. by apply tracked_moved. }
    cbv beta match. exists a2. split; [done|]. split; [done|congruence].
Qed.

(** ** What a stack's regions look like afterwards *)

Lemma move_all_other es : forall ns rs k, Z.of_nat k ∉ ns -> Forall (fun n => 0 <= n) ns -> move_all es ns rs !! k = rs !! k.
Proof.
  induction es as [|e es IH]; intros [|n ns] rs k Hk Hn; try done. cbn [move_all].
  apply not_elem_of_cons in Hk as [Hk1 Hk2]. apply list.Forall_cons in Hn as [Hn0 Hn].
  rewrite IH by done. unfold move_region. rewrite list_lookup_alter_ne by lia. done.
Qed.

Lemma move_all_names es : forall ns rs, map md_name (move_all es ns rs) = map md_name rs.
Proof. induction es as [|e es IH]; intros [|n ns] rs; try done. cbn [move_all]. by rewrite IH, stack_moved_names. Qed.

Lemma move_all_lookup es : forall ns rs i n e,
  NoDup ns -> Forall (fun n => 0 <= n < Z.of_nat (length rs)) ns -> ns !! i = Some n -> es !! i = Some e ->
  exists r, rs !! Z.to_nat n = Some r /\ move_all es ns rs !! Z.to_nat n = Some (moved r e).
Proof.
  induction es as [|e0 es IH]; intros [|n0 ns] rs i n e Hnd Hr Hn He; try done.
  apply list.NoDup_cons in Hnd as [Hni Hnd]. apply list.Forall_cons in Hr as [Hr0 Hr]. cbn [move_all].
  destruct i as [|i]; simplify_eq/=.
  - destruct (lookup_lt_is_Some_2 rs (Z.to_nat n)) as [r Hlk]; [lia|]. exists r. split; [done|].
    rewrite move_all_other.
    + unfold move_region. by rewrite list_lookup_alter_eq, Hlk.
    + by rewrite Z2Nat.id by lia.
    + eapply Forall_impl; [|exact Hr]. simpl. lia.
  - destruct (IH ns (move_region e0 n0 rs) i n e Hnd) as (r & Hlk & Hres); [|done|done|].
    + unfold move_region. by rewrite length_alter.
    + exists r. split; [|done]. unfold move_region in Hlk. rewrite list_lookup_alter_ne in Hlk; [done|].
      pose proof (list_elem_of_lookup_2 _ _ _ Hn) as Hin. rewrite list.Forall_forall in Hr. specialize (Hr _ Hin).
      intros Heq. apply Hni. replace n0 with n by lia. done.
Qed.

Lemma stack_at_lookup vmap mdr : forall sp i e,
  stack_addr_ok vmap (length mdr) sp -> mdr !! i = Some e ->
  stack_at vmap mdr sp !! i = Some (at_sp vmap e (sp + PAGE_SIZE * Z.of_nat i)).
Proof.
  induction mdr as [|e0 mdr IH]; intros sp i e Hsp Hi; [done|]. cbn [length] in Hsp.
  destruct (stack_addr_next _ _ _ Hsp) as [_ Hnext]. destruct i as [|i]; simplify_eq/=.
  { by rewrite Z.add_0_r. }
  destruct Hnext as [Hn0|[-> Hsp']]; [by destruct mdr|].
  rewrite (IH _ _ _ Hsp' Hi). do 2 f_equal. unfold PAGE_SIZE. lia.
Qed.

(** The arrays of a stack whose entries are all registered. *)
Record stack_registered (d : stack_data) (rs : list md_region) (stable : Z) : Prop := {
  sr_tracked : Forall2 (tracked rs stable) (stack_mdidx d) (stack_mdr d);
  sr_distinct : NoDup (stack_mdidx d);
}.

Lemma registered_nonneg d rs stable :
  stack_registered d rs stable ->
  existsb (fun n => n <? 0) (stack_mdidx d) = false /\
  Forall (fun n => 0 <= n < Z.of_nat (length rs)) (stack_mdidx d).
Proof.
  intros [Htr _]. induction Htr as [|n e ns es [? _ _ _] _ [IH1 IH2]]; [done|]. cbn [existsb].
  replace (n <? 0) with false by lia. split; [done|]. constructor; [lia|done].
Qed.

(** [rs'] is [rs] with the regions of [d] at the pages from [sp]. *)
Definition stack_moved (d : stack_data) (sp : Z) (rs rs' : list md_region) : Prop :=
  map md_name rs' = map md_name rs /\
  (forall k, Z.of_nat k ∉ stack_mdidx d -> rs' !! k = rs !! k) /\
  (forall i n, stack_mdidx d !! i = Some n ->
    exists r, rs !! Z.to_nat n = Some r /\ rs' !! Z.to_nat n = Some (MdRegion (md_name r) (md_id r)
      (sp + PAGE_SIZE * Z.of_nat i) (vmalloc_phys (sp + PAGE_SIZE * Z.of_nat i)) (md_size r))).

Lemma update_md_stack_ok d sp a rs :
  api_rep a [] rs -> stack_registered d rs (api_stable a) ->
  stack_addr_ok true (length (stack_mdr d)) (page_start sp) ->
  exists d' a' rs', update_md_stack vmalloc_phys virt_to_phys true d sp a = Some (d', a') /\
    api_rep a' [] rs' /\ api_stable a' = api_stable a /\ stack_moved d (page_start sp) rs rs' /\
    stack_mdidx d' = stack_mdidx d /\ stack_registered d' rs' (api_stable a').
Proof.
  intros Hrep Hreg Hsp. pose proof Hreg as [Htr Hnd]. destruct (registered_nonneg _ _ _ Hreg) as [Hex Hr].
  unfold update_md_stack, register_vmapped_stack. rewrite Hex.
  destruct (update_pages_ok true _ _ _ a rs Hrep Htr Hsp) as (a' & -> & Hrep' & Hst). cbv beta match.
  eexists _, a', _. split; [reflexivity|]. split; [exact Hrep'|]. split; [exact Hst|]. split; [|split; [done|]].
  - split; [apply move_all_names|]. split.
    + intros k Hk. apply move_all_other; [done|]. eapply Forall_impl; [|exact Hr]. simpl. lia.
    + intros i n Hi. destruct (Forall2_lookup_l _ _ _ _ _ Htr Hi) as (e & He & _).
      destruct (move_all_lookup _ _ rs i n _ Hnd Hr Hi (stack_at_lookup true _ _ i e Hsp He)) as (r & Hlk & Hlk').
      by exists r.
  - split; [|done]. rewrite Hst. cbn [stack_mdidx stack_mdr]. apply Forall2_same_length_lookup.
    pose proof (Forall2_length Htr) as Hlen. split.
    + rewrite Hlen. clear. generalize (page_start sp) as p. induction (stack_mdr d) as [|e l IH]; intros p; [done|].
      cbn. f_equal. apply IH.
    + intros i n e Hi He. destruct (Forall2_lookup_l _ _ _ _ _ Htr Hi) as (e0 & He0 & [T1 T2 T3 T4]).
      rewrite (stack_at_lookup true _ _ i e0 Hsp He0) in He. injection He as <-.
      assert (length (move_all (stack_at true (stack_mdr d) (page_start sp)) (stack_mdidx d) rs) = length rs) as Hl.
      { rewrite <- (length_map md_name), move_all_names. apply length_map. }
      split; [by rewrite Hl| |done|done]. cbn [md_name at_sp].
      apply not_false_iff_true. intros Hc%named_false. rewrite move_all_names in Hc. apply named_false in Hc. congruence.
Qed.

(** ** The stacks of all CPUs *)

Local Abbreviation data s c := (md_stack_data s c).
Local Abbreviation idx s c := (stack_mdidx (md_stack_data s c)).

(** Every CPU has its own regions, all of them good for updates. *)
Record stacks_inv (cpus : list Z) (s : @stack_state S) (rs : list md_region) : Prop := {
  si_api : api_rep (sk_api s) [] rs;
  si_vmap : is_vmap_stack s = true;
  si_init : md_current_stack_init s = true;
  si_cpu c : c ∈ cpus -> stack_registered (data s c) rs (api_stable (sk_api s));
  si_pages c : c ∈ cpus -> length (stack_mdr (data s c)) = 4%nat;
  si_disjoint c c' n : c ∈ cpus -> c' ∈ cpus -> c <> c' -> n ∈ idx s c -> n ∉ idx s c';
}.

(** The regions [ns] are the pages from [sp]. *)
Definition shows (rs : list md_region) (ns : list Z) (sp : Z) : Prop :=
  forall i n, ns !! i = Some n -> exists r, rs !! Z.to_nat n = Some r /\
    virt_addr r = sp + PAGE_SIZE * Z.of_nat i /\ phys_addr r = vmalloc_phys (sp + PAGE_SIZE * Z.of_nat i).

Lemma stack_moved_shows d sp rs rs' : stack_moved d sp rs rs' -> shows rs' (stack_mdidx d) sp.
Proof. intros (_ & _ & Hm) i n Hi. destruct (Hm i n Hi) as (r & _ & Hr). by eexists. Qed.

Lemma stack_registered_names d rs rs' stable :
  map md_name rs' = map md_name rs -> stack_registered d rs stable -> stack_registered d rs' stable.
Proof.
  intros Hnm [Htr Hnd]. assert (length rs' = length rs) as Hl by (rewrite <- (length_map md_name), Hnm; apply length_map).
  split; [|done]. eapply Forall2_impl; [|exact Htr]. intros n e [T1 T2 T3 T4]. split; rewrite ?Hl; try done.
  apply not_false_iff_true. intros Hc%named_false. rewrite Hnm in Hc. apply named_false in Hc. congruence.
Qed.

Lemma update_cpu_inv cpus s rs tsk cpu sp :
  stacks_inv cpus s rs -> cpu ∈ cpus -> tk_idle tsk = false -> stack_addr_ok true 4 (page_start sp) ->
  exists s' rs', update_md_cpu_stack vmalloc_phys virt_to_phys tsk cpu sp s = Some s' /\ stacks_inv cpus s' rs' /\
    (forall c, idx s' c = idx s c) /\ stack_moved (data s cpu) (page_start sp) rs rs'.
Proof.
  intros [Ha Hv Hi Hc Hp Hd] Hin Hidle Hsp. unfold update_md_cpu_stack. rewrite Hidle, Hi, Hv. cbn [negb orb].
  destruct (update_md_stack_ok (data s cpu) sp (sk_api s) rs Ha (Hc _ Hin)) as (d & a & rs' & -> & Ha' & Hst & Hmv & Hidx & Hreg);
    [by rewrite Hp|]. cbv beta match. eexists _, rs'. split; [reflexivity|].
  assert (forall c, idx (set_cpu_data (set_sk_api s a) cpu d) c = idx s c) as Hsame.
  { intros c. cbn. by destruct (Z.eqb_spec c cpu) as [->|]. }
  split; [|by split]. split; try done.
  - intros c Hcin. cbn. destruct (Z.eqb_spec c cpu) as [->|Hne]; [done|]. rewrite Hst.
    apply (stack_registered_names _ rs); [apply Hmv|by apply Hc].
  - intros c Hcin. cbn. destruct (Z.eqb_spec c cpu) as [->|Hne]; [|by apply Hp].
    destruct Hreg as [Htr _], (Hc _ Hin) as [Htr0 _]. rewrite <- (Forall2_length Htr), Hidx, (Forall2_length Htr0).
    by apply Hp.
  - intros c c' n. rewrite !Hsame. by apply Hd.
Qed.

Lemma other_shows cpus s rs rs' cpu c sp sp' :
  stacks_inv cpus s rs -> cpu ∈ cpus -> c ∈ cpus -> c <> cpu ->
  stack_moved (data s cpu) sp rs rs' -> shows rs (idx s c) sp' -> shows rs' (idx s c) sp'.
Proof.
  intros Hinv Hcpu Hc Hne (_ & Ho & _) Hs i n Hi. destruct (Hs i n Hi) as (r & Hr & Hx). exists r. split; [|done].
  destruct (registered_nonneg _ _ _ (si_cpu _ _ _ Hinv c Hc)) as [_ Hnn]. rewrite list.Forall_forall in Hnn.
  pose proof (list_elem_of_lookup_2 _ _ _ Hi) as Hin. specialize (Hnn _ Hin).
  rewrite Ho; [done|]. rewrite Z2Nat.id by lia. exact (si_disjoint _ _ _ Hinv c cpu n Hc Hcpu Hne Hin).
Qed.

(** The context switches, one after the other. *)
Fixpoint run_switches (l : list ktask) (s : stack_state) : option stack_state :=
  match l with
  | [] => Some s
  | next :: l => let* s := md_current_stack_notifer vmalloc_phys virt_to_phys next s in run_switches l s
  end.

(** The task that a CPU runs after the switches, when it was [t0] before; idle
    tasks are not tracked. *)
Definition running (cpu : Z) (t0 : option ktask) (l : list ktask) : option ktask :=
  fold_left (fun t next => if (tk_cpu next =? cpu) && negb (tk_idle next) then Some next else t) l t0.

Definition shows_task (rs : list md_region) (ns : list Z) (t : option ktask) : Prop :=
  match t with None => True | Some t => shows rs ns (page_start (tk_stack t)) end.

Lemma run_switches_ok cpus l : forall s rs (run : Z -> option ktask),
  stacks_inv cpus s rs -> Forall (fun t => tk_cpu t ∈ cpus /\ stack_addr_ok true 4 (page_start (tk_stack t))) l ->
  (forall c, c ∈ cpus -> shows_task rs (idx s c) (run c)) ->
  exists s' rs', run_switches l s = Some s' /\ stacks_inv cpus s' rs' /\
    (forall c, c ∈ cpus -> shows_task rs' (idx s c) (running c (run c) l)) /\
    map md_name rs' = map md_name rs /\ (forall c, idx s' c = idx s c) /\
    (forall k, (forall c, c ∈ cpus -> Z.of_nat k ∉ idx s c) -> rs' !! k = rs !! k).
Proof.
  induction l as [|t l IH]; intros s rs run Hinv Hok Hrun; cbn [run_switches]; [by exists s, rs|].
  apply list.Forall_cons in Hok as [[Hcpu Hsp] Hok]. unfold md_current_stack_notifer.
  destruct (tk_idle t) eqn:Hidle.
  { assert (update_md_cpu_stack vmalloc_phys virt_to_phys t (tk_cpu t) (tk_stack t) s = Some s) as ->
      by (unfold update_md_cpu_stack; by rewrite Hidle). cbv beta match.
    destruct (IH s rs run Hinv Hok Hrun) as (s' & rs' & H1 & H2 & H3 & H4). exists s', rs'. split; [done|].
    split; [done|]. split; [|done]. intros c Hc. unfold running. cbn [fold_left]. rewrite Hidle, andb_false_r.
    by apply H3. }
  destruct (update_cpu_inv cpus s rs t (tk_cpu t) (tk_stack t) Hinv Hcpu Hidle Hsp) as (s1 & rs1 & -> & Hinv1 & Hidx & Hmv).
  cbv beta match.
  destruct (IH s1 rs1 (fun c => if tk_cpu t =? c then Some t else run c) Hinv1 Hok) as (s' & rs' & H1 & H2 & H3 & H4 & H5 & H6).
  { intros c Hc. rewrite Hidx. destruct (Z.eqb_spec (tk_cpu t) c) as [<-|Hne]; [by eapply stack_moved_shows|].
    specialize (Hrun c Hc). destruct (run c) as [t0|]; [|done].
    apply (other_shows cpus s rs rs1 (tk_cpu t) c (page_start (tk_stack t))); done. }
  exists s', rs'. split; [exact H1|]. split; [exact H2|]. split_and!.
  - intros c Hc. specialize (H3 c Hc). rewrite Hidx in H3. unfold running in *. cbn [fold_left]. rewrite Hidle.
    cbn [negb]. rewrite andb_true_r. destruct (tk_cpu t =? c); exact H3.
  - rewrite H4. apply Hmv.
  - intros c. by rewrite H5, Hidx.
  - intros k Hk. rewrite H6 by (intros c Hc; rewrite Hidx; by apply Hk). by apply Hmv, Hk.
Qed.
End Proofs.
