(* ===== verification/MdStackReg.v ===== *)
(** * Registering the stacks

    The regions that [register_current_stack] and [dump_stack_minidump] add,
    and that the CPUs' stacks can be updated from then on. *)

From S2P Require Import Prelude CMem CStr CText CPrint MdApi MdElfRep MdElfRegions MdElfUpdate MdDriverProofs MdClient.
From S2P Require Import MdLogReg MdLogRegProofs MdStack MdStackProofs.

#[local] Open Scope string_scope.
#[local] Open Scope list_scope.
#[local] Open Scope Z_scope.

(** ** Numbers of the regions *)

Fixpoint reg_results (pend rs es : list md_region) : list Z :=
  match es with
  | [] => []
  | e :: es => reg_result pend rs e :: reg_results pend (reg_next pend rs e) es
  end.

(** Valid regions with new names, for which there is room. *)
Record fresh (pend rs es : list md_region) : Prop := {
  fr_valid : Forall (fun e => validate_region (Some e) = 0) es;
  fr_names : NoDup (map md_name (pend ++ rs ++ es));
  fr_room : (length (pend ++ rs ++ es) <= 200)%nat;
}.

Definition numbers (n k : nat) : list Z := map (fun i => Z.of_nat (n + i)) (seq 0 k).

Lemma numbers_S n k : numbers n (S k) = Z.of_nat n :: numbers (S n) k.
Proof.
  unfold numbers. cbn [seq map]. rewrite Nat.add_0_r, <- seq_shift, map_map. f_equal.
  apply map_ext. intros i. f_equal. lia.
Qed.

Lemma numbers_app n k k' : numbers n (k + k') = numbers n k ++ numbers (n + k) k'.
Proof.
  revert n. induction k as [|k IH]; intros n; [by rewrite Nat.add_0_r|].
  cbn [Nat.add]. rewrite !numbers_S, IH. cbn [app]. do 3 f_equal. lia.
Qed.

Lemma elem_of_numbers x n k : x ∈ numbers n k <-> Z.of_nat n <= x < Z.of_nat (n + k).
Proof.
  unfold numbers. rewrite list_elem_of_In, in_map_iff. split.
  - intros (i & <- & Hi%in_seq). lia.
  - intros Hx. exists (Z.to_nat (x - Z.of_nat n)). split; [lia|]. apply in_seq. lia.
Qed.

Lemma numbers_NoDup n k : NoDup (numbers n k).
Proof.
  revert n. induction k as [|k IH]; intros n; [apply NoDup_nil_2|]. rewrite numbers_S. apply list.NoDup_cons.
  split; [|done]. rewrite elem_of_numbers. lia.
Qed.

Lemma reg_fresh pend es : forall rs, fresh pend rs es ->
  reg_all pend rs es = rs ++ es /\ reg_results pend rs es = numbers (length (pend ++ rs)) (length es).
Proof.
  induction es as [|e es IH]; intros rs [Hv Hnm Hroom]; [by rewrite app_nil_r|].
  apply list.Forall_cons in Hv as [He Hv].
  assert (reg_result pend rs e = Z.of_nat (length (pend ++ rs))) as Hres.
  { unfold reg_result, registry_add, CONFIG_MINIDUMP_MAX_ENTRIES. rewrite He. cbn [negb Z.eqb].
    rewrite app_assoc, length_app in Hroom. cbn [length] in Hroom.
    replace (200 <=? Z.of_nat (length (pend ++ rs))) with false by lia.
    rewrite app_assoc, map_app in Hnm. apply list.NoDup_app in Hnm as (_ & Hd & _).
    assert (named (md_name e) (pend ++ rs) = false) as ->; [|done]. apply named_false. intros Hin.
    apply (Hd _ Hin). cbn. by left. }
  assert (reg_next pend rs e = rs ++ [e]) as Hnext
    by (unfold reg_next; rewrite Hres; by replace (Z.of_nat (length (pend ++ rs)) <? 0) with false by lia).
  change (reg_all pend rs (e :: es)) with (reg_all pend (reg_next pend rs e) es). cbn [reg_results].
  rewrite Hnext, Hres. destruct (IH (rs ++ [e])) as [-> ->].
  { split; [done|by rewrite <- app_assoc|by rewrite <- app_assoc]. }
  rewrite <- app_assoc. split; [done|]. cbn [length]. rewrite numbers_S. do 2 f_equal.
  rewrite !length_app. simpl. lia.
Qed.

Section Proofs.
Context {S : Type} `{MdRegionApi S}.
Context (vmalloc_phys virt_to_phys : Z -> Z).

(** ** One stack *)

Definition page_name (name_str : string) (i : Z) : string := scnprintf (MAX_NAME_LENGTH + 1) (name_str +:+ "_" +:+ fmt_d i).

(** The pages of a stack, from number [i] at [sp]. *)
Fixpoint page_entries (mdr : list md_region) (i sp : Z) (name_str : string) : list md_region :=
  match mdr with
  | [] => []
  | e :: mdr => MdRegion (page_name name_str i) (md_id e) sp (vmalloc_phys sp) PAGE_SIZE ::
      page_entries mdr (i + 1) (u64 (sp + PAGE_SIZE)) name_str
  end.

Lemma page_entries_length mdr : forall i sp name, length (page_entries mdr i sp name) = length mdr.
Proof. induction mdr as [|e mdr IH]; intros; [done|]. cbn. f_equal. apply IH. Qed.

Lemma register_pages_ok mdr pend name rest : forall i sp a rs,
  api_rep a pend rs -> joinable rs (page_entries mdr i sp name ++ rest) ->
  exists a', register_pages vmalloc_phys virt_to_phys true mdr i sp name a
      = Some (reg_results pend rs (page_entries mdr i sp name), page_entries mdr i sp name, a') /\
    joined a a' pend rs (page_entries mdr i sp name) rest.
Proof.
  induction mdr as [|e mdr IH]; intros i sp a rs Hrep Hj; cbn [register_pages page_entries reg_results].
  { exists a. split; [done|]. by apply joined_nil. }
  unfold register_stack_entry, set_name. cbn [md_name md_id sp_phys].
  destruct (api_add_joined a pend rs _ _ Hrep Hj) as (a1 & Ha & Hjd). unfold page_name in Ha. rewrite Ha. cbv beta match.
  destruct (IH (i + 1) (u64 (sp + PAGE_SIZE)) a1 _ (jd_rep _ _ _ _ _ _ Hjd) (jd_room _ _ _ _ _ _ Hjd))
    as (a2 & -> & Hjd2). cbv beta match. exists a2. split; [done|].
  exact (joined_trans _ _ _ _ _ [_] _ _ Hjd Hjd2).
Qed.

(** ** The stacks of all CPUs *)

Definition cpu_name (cpu : Z) : string := scnprintf MAX_NAME_LENGTH ("KSTACK" +:+ fmt_d cpu).

Definition cpu_entries (d : stack_data) (sp cpu : Z) : list md_region :=
  page_entries (stack_mdr d) 0 (page_start sp) (cpu_name cpu).

Definition all_entries (f : Z -> stack_data) (sp : Z) (cpus : list Z) : list md_region :=
  flat_map (fun cpu => cpu_entries (f cpu) sp cpu) cpus.

(** What the CPUs' arrays hold after the registrations. *)
Fixpoint all_data (pend rs : list md_region) (f : Z -> stack_data) (sp : Z) (cpus : list Z) : Z -> stack_data :=
  match cpus with
  | [] => f
  | cpu :: cpus =>
      let es := cpu_entries (f cpu) sp cpu in
      all_data pend (reg_all pend rs es)
        (fun c => if c =? cpu then StackData (reg_results pend rs es) es else f c) sp cpus
  end.

Lemma all_data_other pend sp cpus : forall rs f c, c ∉ cpus -> all_data pend rs f sp cpus c = f c.
Proof.
  induction cpus as [|cpu cpus IH]; intros rs f c Hc; [done|]. apply not_elem_of_cons in Hc as [Hne Hc].
  cbn [all_data]. rewrite IH by done. by destruct (Z.eqb_spec c cpu).
Qed.

Lemma all_entries_ext f g sp cpus : (forall c, c ∈ cpus -> f c = g c) -> all_entries f sp cpus = all_entries g sp cpus.
Proof.
  intros Hfg. unfold all_entries. induction cpus as [|c cpus IH]; [done|]. cbn [flat_map].
  rewrite (Hfg c) by (by left). f_equal. apply IH. intros x Hx. apply Hfg. by right.
Qed.

Lemma each_cpu_stack_ok pend sp rest cpus : forall s rs,
  NoDup cpus -> is_vmap_stack s = true -> api_rep (sk_api s) pend rs ->
  joinable rs (all_entries (md_stack_data s) sp cpus ++ rest) ->
  exists s', each_cpu_stack vmalloc_phys virt_to_phys cpus sp s = Some s' /\
    joined (sk_api s) (sk_api s') pend rs (all_entries (md_stack_data s) sp cpus) rest /\
    is_vmap_stack s' = true /\ (forall c, md_stack_data s' c = all_data pend rs (md_stack_data s) sp cpus c) /\
    md_suspend_context s' = md_suspend_context s.
Proof.
  induction cpus as [|cpu cpus IH]; intros s rs Hnd Hv Hrep Hj; cbn [each_cpu_stack].
  { exists s. split; [done|]. split; [by apply joined_nil|done]. }
  apply list.NoDup_cons in Hnd as [Hni Hnd]. unfold register_stack, register_vmapped_stack. rewrite Hv.
  unfold all_entries in *. cbn [flat_map] in *. rewrite <- app_assoc in Hj.
  destruct (register_pages_ok (stack_mdr (md_stack_data s cpu)) pend (cpu_name cpu) _ 0 (page_start sp) (sk_api s) rs Hrep Hj)
    as (a & Ha & Hjd). unfold cpu_name in Ha at 1. rewrite Ha. cbv beta match.
  set (s1 := set_cpu_data (set_sk_api s a) cpu _).
  assert (flat_map (fun cpu => cpu_entries (md_stack_data s1 cpu) sp cpu) cpus
    = flat_map (fun cpu => cpu_entries (md_stack_data s cpu) sp cpu) cpus) as Hext.
  { apply (all_entries_ext (md_stack_data s1) (md_stack_data s)). intros c Hc. cbn.
    destruct (Z.eqb_spec c cpu) as [->|]; [done|done]. }
  destruct (IH s1 _ Hnd Hv (jd_rep _ _ _ _ _ _ Hjd)) as (s' & -> & Hjd' & Hv' & Hdata & Hsc).
  { rewrite Hext. apply Hjd. }
  exists s'. split; [done|]. rewrite Hext in Hjd'. split; [exact (joined_trans _ _ _ _ _ _ _ _ Hjd Hjd')|].
  split; [done|]. split; [|exact Hsc]. exact Hdata.
Qed.

(** ** The stacks are ready for updates *)

Lemma fresh_app pend rs es1 es2 : fresh pend rs (es1 ++ es2) -> fresh pend rs es1 /\ fresh pend (rs ++ es1) es2.
Proof.
  intros [Hv Hn Hr]. apply Forall_app in Hv as [Hv1 Hv2]. split.
  - rewrite !app_assoc in Hn, Hr. rewrite map_app in Hn. apply list.NoDup_app in Hn as (Hn & _).
    rewrite length_app in Hr. split; [done|by rewrite app_assoc|rewrite app_assoc; lia].
  - split; [done|by rewrite <- app_assoc|by rewrite <- app_assoc].
Qed.

Lemma all_entries_length f sp cpus :
  (forall c, c ∈ cpus -> length (stack_mdr (f c)) = 4%nat) -> length (all_entries f sp cpus) = (4 * length cpus)%nat.
Proof.
  intros Hl. unfold all_entries. induction cpus as [|c cpus IH]; [done|]. cbn [flat_map length]. rewrite length_app, IH.
  - unfold cpu_entries. rewrite page_entries_length, Hl by (by left). lia.
  - intros x Hx. apply Hl. by right.
Qed.

(** The [k]-th CPU has the [k]-th four numbers. *)
Lemma all_data_fresh pend sp cpus : forall rs f k c,
  NoDup cpus -> (forall c, c ∈ cpus -> length (stack_mdr (f c)) = 4%nat) ->
  fresh pend rs (all_entries f sp cpus) -> cpus !! k = Some c ->
  all_data pend rs f sp cpus c = StackData (numbers (length (pend ++ rs) + 4 * k) 4) (cpu_entries (f c) sp c).
Proof.
  induction cpus as [|cpu cpus IH]; intros rs f k c Hnd Hl Hf Hk; [done|]. cbn [all_data].
  apply list.NoDup_cons in Hnd as [Hni Hnd]. unfold all_entries in Hf. cbn [flat_map] in Hf.
  apply fresh_app in Hf as [Hf1 Hf2]. destruct (reg_fresh _ _ _ Hf1) as [-> ->].
  assert (length (cpu_entries (f cpu) sp cpu) = 4%nat) as Hlen
    by (unfold cpu_entries; rewrite page_entries_length; apply Hl; by left).
  destruct k as [|k]; simplify_eq/=.
  - rewrite all_data_other by done. rewrite Z.eqb_refl, Hlen. by rewrite Nat.add_0_r.
  - set (f1 := fun c0 => if c0 =? cpu then _ else f c0).
    assert (forall c, c ∈ cpus -> f1 c = f c) as Hsame.
    { intros x Hx. unfold f1. destruct (Z.eqb_spec x cpu) as [->|]; [done|done]. }
    rewrite (IH (rs ++ cpu_entries (f cpu) sp cpu) f1 k c); try done.
    + rewrite Hsame by (by eapply list_elem_of_lookup_2). f_equal. f_equal. rewrite app_assoc, (length_app (pend ++ rs)). lia.
    + intros x Hx. rewrite Hsame by done. apply Hl. by right.
    + by rewrite (all_entries_ext f1 f).
Qed.

Lemma page_entries_tracked rs stable mdr name : forall i sp n,
  (forall e, e ∈ page_entries mdr i sp name -> region_wf e /\ named (md_name e) rs = true) ->
  Z.of_nat (n + length mdr) <= Z.min stable (Z.of_nat (length rs)) ->
  Forall2 (tracked rs stable) (numbers n (length mdr)) (page_entries mdr i sp name).
Proof.
  induction mdr as [|e mdr IH]; intros i sp n Hw Hn; [constructor|]. cbn [page_entries length] in *.
  rewrite numbers_S. constructor.
  - destruct (Hw _ (list_elem_of_here _ _)) as [[Hnul _ _ _] Hnm]. split; [lia|done| |done]. split; [|done].
    cbn [md_name]. unfold page_name. pose proof (slen_stake_le (Z.to_nat (MAX_NAME_LENGTH + 1 - 1)) (name +:+ "_" +:+ fmt_d i)).
    rewrite slen_scnprintf by done. unfold MAX_NAME_LENGTH. lia.
  - apply IH; [|lia]. intros x Hx. apply Hw. by right.
Qed.

(** [more]: what was registered after the stacks. *)
Lemma stacks_ready cpus sp f s rs more :
  let es := all_entries f sp cpus in
  NoDup cpus -> (forall c, c ∈ cpus -> length (stack_mdr (f c)) = 4%nat) ->
  fresh [] rs es -> Forall region_wf es -> api_rep (sk_api s) [] (rs ++ es ++ more) ->
  Z.of_nat (length (rs ++ es)) <= api_stable (sk_api s) ->
  is_vmap_stack s = true -> md_current_stack_init s = true ->
  (forall c, md_stack_data s c = all_data [] rs f sp cpus c) ->
  (forall k c, cpus !! k = Some c -> stack_mdidx (md_stack_data s c) = numbers (length rs + 4 * k) 4) /\
  stacks_inv cpus s (rs ++ es ++ more).
Proof.
  intros es Hnd Hl Hf Hwf Hrep Hstable Hv Hi Hdata.
  assert (forall k c, cpus !! k = Some c ->
    md_stack_data s c = StackData (numbers (length rs + 4 * k) 4) (cpu_entries (f c) sp c)) as Hk.
  { intros k c Hk. rewrite Hdata. by apply (all_data_fresh []). }
  split; [intros k c Hc; by rewrite (Hk k c Hc)|].
  assert (forall c, c ∈ cpus -> exists k, cpus !! k = Some c /\
    md_stack_data s c = StackData (numbers (length rs + 4 * k) 4) (cpu_entries (f c) sp c)) as Hd.
  { intros c Hc. apply list_elem_of_lookup in Hc as [k Hc]. exists k. split; [done|by apply Hk]. }
  pose proof (all_entries_length f sp cpus Hl) as Hlen. fold es in Hlen.
  split; try done.
  - intros c Hc. destruct (Hd c Hc) as (k & Hkc & ->). split; [|by apply numbers_NoDup]. cbn [stack_mdidx stack_mdr].
    unfold cpu_entries. rewrite <- (Hl c Hc) at 2. pose proof (lookup_lt_Some _ _ _ Hkc). apply page_entries_tracked.
    + intros e He. assert (e ∈ es) as Hin.
      { apply list_elem_of_In, in_flat_map. exists c. split; [by apply list_elem_of_In|by apply list_elem_of_In]. }
      split; [by rewrite list.Forall_forall in Hwf; apply Hwf|].
      apply not_false_iff_true. intros Hno%named_false. apply Hno. rewrite !map_app, !elem_of_app. right. left.
      by apply list_elem_of_In, in_map, list_elem_of_In.
    + rewrite (Hl c Hc). rewrite !length_app, Hlen in *. lia.
  - intros c Hc. destruct (Hd c Hc) as (k & _ & ->). cbn. unfold cpu_entries. by rewrite page_entries_length, Hl.
  - intros c c' n Hc Hc' Hne. destruct (Hd c Hc) as (k & Hkc & ->), (Hd c' Hc') as (k' & Hkc' & ->). cbn [stack_mdidx].
    rewrite !elem_of_numbers. assert (k <> k') by congruence. lia.
Qed.

(** The other CPUs update their stacks at once. *)
Lemma call_others_ok cpus others : forall s rs,
  stacks_inv cpus s rs ->
  Forall (fun c => oc_cpu c ∈ cpus /\ stack_addr_ok vmalloc_phys virt_to_phys true 4 (page_start (tk_area (oc_current c)))) others ->
  exists s' rs', call_others vmalloc_phys virt_to_phys others s = Some s' /\ stacks_inv cpus s' rs' /\
    map md_name rs' = map md_name rs.
Proof.
  induction others as [|c others IH]; intros s rs Hinv Hok; cbn [call_others]; [by exists s, rs|].
  apply list.Forall_cons in Hok as [[Hcpu Hsp] Hok]. unfold md_current_stack_ipi_handler, current_sp.
  rewrite (si_vmap _ _ _ Hinv). destruct (tk_idle (oc_current c)) eqn:Hidle; [by apply IH|].
  destruct (update_cpu_inv vmalloc_phys virt_to_phys cpus s rs (oc_current c) (oc_cpu c) _ Hinv Hcpu Hidle Hsp)
    as (s1 & rs1 & -> & Hinv1 & _ & Hmv & _). cbv beta match.
  destruct (IH s1 rs1 Hinv1 Hok) as (s' & rs' & -> & Hinv' & Hnm). exists s', rs'. split; [done|]. split; [done|congruence].
Qed.

Lemma register_current_stack_ok cpus me others s rs rest :
  let es := all_entries (md_stack_data s) (tk_area (oc_current me)) cpus in
  NoDup cpus -> is_vmap_stack s = true ->
  (forall c, c ∈ cpus -> length (stack_mdr (md_stack_data s c)) = 4%nat) ->
  api_rep (sk_api s) [] rs -> fresh [] rs es -> joinable rs (es ++ rest) ->
  Z.of_nat (length (rs ++ es)) <= api_stable (sk_api s) ->
  Forall (fun c => oc_cpu c ∈ cpus /\ stack_addr_ok vmalloc_phys virt_to_phys true 4 (page_start (tk_area (oc_current c)))) others ->
  exists s' rs', register_current_stack vmalloc_phys virt_to_phys cpus me others s = Some s' /\
    stacks_inv cpus s' rs' /\ map md_name rs' = map md_name (rs ++ es).
Proof.
  intros es Hnd Hv Hl Hrep Hf Hj Hstable Hok. unfold register_current_stack, current_sp. rewrite Hv.
  destruct (each_cpu_stack_ok [] (tk_area (oc_current me)) rest cpus s rs Hnd Hv Hrep Hj)
    as (s1 & -> & Hjd & Hv1 & Hd1 & _). cbv beta match.
  apply call_others_ok; [|done]. rewrite <- (app_nil_r es). destruct Hjd as [Hr _ Hst].
  destruct (reg_fresh _ _ _ Hf) as [Hall _]. fold es in Hr. rewrite Hall in Hr.
  apply (stacks_ready cpus (tk_area (oc_current me)) (md_stack_data s) (set_current_init s1) rs []); try done.
  - destruct Hj as [Hwf _ _ _]. by apply Forall_app in Hwf as [Hwf _].
  - fold es. by rewrite app_nil_r.
  - cbn. by rewrite Hst.
Qed.

(** When the other CPUs are idle the registration leaves the entries as they
    are. *)
Lemma call_others_idle others s :
  Forall (fun c => tk_idle (oc_current c) = true) others -> call_others vmalloc_phys virt_to_phys others s = Some s.
Proof.
  induction others as [|c others IH]; intros Hok; [done|]. apply list.Forall_cons in Hok as [Hc Hok].
  cbn [call_others]. unfold md_current_stack_ipi_handler. rewrite Hc. by apply IH.
Qed.

Lemma register_current_stack_joined cpus me others s pend rs rest :
  let es := all_entries (md_stack_data s) (tk_area (oc_current me)) cpus in
  NoDup cpus -> is_vmap_stack s = true -> Forall (fun c => tk_idle (oc_current c) = true) others ->
  api_rep (sk_api s) pend rs -> joinable rs (es ++ rest) ->
  exists s', register_current_stack vmalloc_phys virt_to_phys cpus me others s = Some s' /\
    joined (sk_api s) (sk_api s') pend rs es rest /\ is_vmap_stack s' = true /\ md_current_stack_init s' = true /\
    (forall c, md_stack_data s' c = all_data pend rs (md_stack_data s) (tk_area (oc_current me)) cpus c) /\
    md_suspend_context s' = md_suspend_context s.
Proof.
  intros es Hnd Hv Hidle Hrep Hj. unfold register_current_stack, current_sp. rewrite Hv.
  destruct (each_cpu_stack_ok pend (tk_area (oc_current me)) rest cpus s rs Hnd Hv Hrep Hj)
    as (s1 & -> & Hjd & Hv1 & Hd1 & Hsc). cbv beta match. rewrite call_others_idle by done.
  by exists (set_current_init s1).
Qed.

(** The stack and the task that suspends the system. *)
Definition suspend_entries (size_of_task : Z) (me : on_cpu) (c : suspend_context) : list md_region :=
  page_entries (stack_mdr (sc_stack c)) 0 (page_start (tk_area (oc_current me))) (scnprintf MAX_NAME_LENGTH "KSUSPSTK") ++
  [MdRegion (scnprintf (MAX_NAME_LENGTH + 1) (scnprintf MAX_NAME_LENGTH "KSUSPTASK")) (md_id (task_mdr c))
     (tk_addr (oc_current me)) (virt_to_phys (tk_addr (oc_current me))) size_of_task].

Lemma register_suspend_context_joined size_of_task me s pend rs rest :
  let es := suspend_entries size_of_task me (md_suspend_context s) in
  is_vmap_stack s = true -> api_rep (sk_api s) pend rs -> joinable rs (es ++ rest) ->
  exists s', register_suspend_context vmalloc_phys virt_to_phys size_of_task me s = Some s' /\
    joined (sk_api s) (sk_api s') pend rs es rest /\ is_vmap_stack s' = true /\
    md_current_stack_init s' = md_current_stack_init s /\ (forall c, md_stack_data s' c = md_stack_data s c).
Proof.
  intros es Hv Hrep Hj. subst es. unfold suspend_entries in *. rewrite <- app_assoc in Hj.
  unfold register_suspend_context, register_suspend_stack, register_stack, register_vmapped_stack, current_sp. rewrite Hv.
  destruct (register_pages_ok _ pend _ _ 0 _ (sk_api s) rs Hrep Hj) as (a1 & -> & Hjd). cbv beta match.
  unfold register_suspend_current_task, register_current_task.
  destruct (api_add_joined a1 pend _ _ _ (jd_rep _ _ _ _ _ _ Hjd) (jd_room _ _ _ _ _ _ Hjd)) as (a2 & Ha & Hjd2).
  cbn [md_suspend_context set_suspend set_sk_api task_mdr task_mdno sc_stack sk_api]. rewrite Ha. cbv beta match.
  eexists. split; [reflexivity|]. split; [|done]. exact (joined_trans _ _ _ _ _ _ _ _ Hjd Hjd2).
Qed.

(** ** A stack on request *)

(** The pages from the one of [sp] to the end of the stack. *)
Lemma calculate_copy_pages_ok sp tsk :
  tk_area tsk mod PAGE_SIZE = 0 -> tk_area_size tsk mod PAGE_SIZE = 0 -> 0 <= tk_area tsk ->
  0 <= tk_area_size tsk < 4294967296 -> tk_area tsk + tk_area_size tsk < 18446744073709551616 ->
  0 <= sp -> sp mod PAGE_SIZE = 0 ->
  (tk_area tsk <= sp < tk_area tsk + tk_area_size tsk ->
     0 < calculate_copy_pages sp tsk <= tk_area_size tsk / PAGE_SIZE /\
     sp + PAGE_SIZE * calculate_copy_pages sp tsk = tk_area tsk + tk_area_size tsk) /\
  (~ tk_area tsk <= sp < tk_area tsk + tk_area_size tsk -> calculate_copy_pages sp tsk = 0).
Proof.
  unfold PAGE_SIZE, calculate_copy_pages, in_stack_range. intros Ha Hs Ha0 Hs0 He Hsp Hspm. unfold PAGE_SIZE.
  rewrite (u32_small (tk_area_size tsk)), (u64_small (tk_area tsk + _)) by lia. split.
  - intros Hin. replace (tk_area tsk <=? sp) with true by lia.
    replace (sp <? tk_area tsk + tk_area_size tsk) with true by lia. cbn [andb].
    rewrite (u64_small (sp - tk_area tsk)) by lia.
    pose proof (Z.div_mod (tk_area tsk) 4096 ltac:(lia)). pose proof (Z.div_mod (tk_area_size tsk) 4096 ltac:(lia)).
    pose proof (Z.div_mod sp 4096 ltac:(lia)).
    assert ((sp - tk_area tsk) / 4096 = sp / 4096 - tk_area tsk / 4096) as ->.
    { symmetry. apply Z.div_unique with (r := 0); lia. }
    rewrite (u32_small (tk_area_size tsk / 4096)) by lia. rewrite u32_small by lia. lia.
  - intros Hout. replace ((tk_area tsk <=? sp) && (sp <? tk_area tsk + tk_area_size tsk)) with false by lia. done.
Qed.

Definition copy_entries (n : nat) (junk cpu i sp : Z) : list md_region :=
  page_entries (replicate n (MdRegion "" junk 0 0 0)) i sp ("KSTACK" +:+ fmt_d cpu).

Lemma copy_loop_ok pend rest junk cpu n : forall i sp a rs,
  api_rep a pend rs -> joinable rs (copy_entries n junk cpu i sp ++ rest) ->
  exists a', copy_loop vmalloc_phys virt_to_phys n junk cpu i sp a = Some a' /\
    joined a a' pend rs (copy_entries n junk cpu i sp) rest.
Proof.
  induction n as [|n IH]; intros i sp a rs Hrep Hj; cbn [copy_loop].
  { exists a. split; [done|]. by apply joined_nil. }
  unfold copy_entries in *. cbn [replicate page_entries md_id] in *. unfold register_stack_entry.
  cbn [md_name md_id sp_phys].
  assert (scnprintf (MAX_NAME_LENGTH + 1) ("KSTACK" +:+ fmt_d cpu +:+ "_" +:+ fmt_d i)
    = page_name ("KSTACK" +:+ fmt_d cpu) i) as -> by (unfold page_name; by rewrite sapp_assoc).
  destruct (api_add_joined a pend rs _ _ Hrep Hj) as (a1 & -> & Hjd). cbv beta match.
  destruct (IH (i + 1) (u64 (sp + PAGE_SIZE)) a1 _ (jd_rep _ _ _ _ _ _ Hjd) (jd_room _ _ _ _ _ _ Hjd)) as (a2 & -> & Hjd2).
  exists a2. split; [done|]. exact (joined_trans _ _ _ _ _ [_] _ _ Hjd Hjd2).
Qed.

Definition task_entry (size_of_task junk cpu current : Z) : md_region :=
  MdRegion (scnprintf (MAX_NAME_LENGTH + 1) ("KTASK" +:+ fmt_d cpu)) junk current (virt_to_phys current) size_of_task.

Lemma dump_stack_minidump_ok size_of_task KIMAGE_VADDR junk sp me s pend rs rest :
  let sp' := page_start (if (sp <? KIMAGE_VADDR) || (u64 (-256) <? sp) then oc_sp me else sp) in
  let es := copy_entries (Z.to_nat (calculate_copy_pages sp' (oc_current me))) junk (oc_cpu me) 0 sp' ++
            [task_entry size_of_task junk (oc_cpu me) (tk_addr (oc_current me))] in
  tk_idle (oc_current me) = false -> api_rep (sk_api s) pend rs -> joinable rs (es ++ rest) ->
  exists s', dump_stack_minidump vmalloc_phys virt_to_phys size_of_task true false KIMAGE_VADDR junk sp me s = Some s' /\
    joined (sk_api s) (sk_api s') pend rs es rest.
Proof.
  intros sp' es Hidle Hrep Hj. unfold dump_stack_minidump. rewrite Hidle. cbv zeta. cbn [is_vmap_stack set_vmap sk_api]. fold sp'.
  subst es. rewrite <- app_assoc in Hj.
  destruct (copy_loop_ok pend _ junk (oc_cpu me) _ 0 sp' (sk_api s) rs Hrep Hj) as (a1 & -> & Hjd). cbv beta match.
  destruct (api_add_joined a1 pend _ _ _ (jd_rep _ _ _ _ _ _ Hjd) (jd_room _ _ _ _ _ _ Hjd)) as (a2 & Ha & Hjd2).
  unfold task_entry in Ha. rewrite Ha. cbv beta match. eexists. split; [reflexivity|]. cbn [sk_api set_sk_api].
  exact (joined_trans _ _ _ _ _ _ _ _ Hjd Hjd2).
Qed.
End Proofs.
