(* ===== verification/MdKmsg.v ===== *)
(** * The kernel log (minidump_log.c, lines 165-167 and 1337-1382)

    A dumper copies the kernel's messages to a buffer that is a region.
    [kmsg_dump_get_buffer] is an argument: it gets memory, an address and a
    size, and returns whether there was anything to copy. *)

From S2P Require Import Prelude CMem CStr CText CPrint MdApi MdElfRep MdElfRegions MdDriverProofs MdClient.
From S2P Require Import MdLogReg MdLogRegProofs.

#[local] Open Scope string_scope.
#[local] Open Scope list_scope.
#[local] Open Scope Z_scope.

(** [kmsg_buf], [kmsg_dump_sz] with the memory, and whether [md_dumper] is
    registered. *)
Record kmsg_state := KmsgState {
  kg_mem : mem;
  kmsg_buf : Z;
  kmsg_dump_sz : Z;
  kg_dumper : bool;
}.

Definition set_dumper (s : kmsg_state) (b : bool) : kmsg_state :=
  KmsgState (kg_mem s) (kmsg_buf s) (kmsg_dump_sz s) b.

Definition kmsg_header (why : string) : string := "MiniDump: " +:+ why +:+ nl.

(** What snprintf returns: the length without the cut, or 0 for a size that is
    no [int]. *)
Definition snprintf_ret (n : Z) (text : string) : Z := if INT_MAX_SIZE <? n then 0 else slen text.

Lemma snprintf_ret_len n text : n <= INT_MAX_SIZE -> snprintf_ret n text = slen text.
Proof. intros Hn. unfold snprintf_ret. by destruct (Z.ltb_spec INT_MAX_SIZE n); [lia|]. Qed.

Section Dump.
Context (kmsg_dump_get_buffer : mem -> Z -> Z -> option (bool * mem)).

(** [why] is [kmsg_dump_reason_str(reason)]. *)
Definition md_kmsg_dump (why : string) (s : kmsg_state) : option kmsg_state :=
  let dst := kmsg_buf s in
  let dst_size := kmsg_dump_sz s in
  let* (_, m) := scnprintf_to (kg_mem s) dst dst_size (kmsg_header why) in
  let header_size := snprintf_ret dst_size (kmsg_header why) in
  let* (_, m) := kmsg_dump_get_buffer m (dst + header_size) (u64 (dst_size - header_size)) in
  Some (KmsgState m dst dst_size (kg_dumper s)).
End Dump.

Section Register.
Context {S : Type} `{MdRegionApi S}.

Definition kmsg_entry (junk phys : Z) (s : kmsg_state) : md_region :=
  MdRegion "KMSG" junk (kmsg_buf s) phys (kmsg_dump_sz s).

(** [reg] is what [kmsg_dump_register] returns, [phys] the physical address of
    the buffer. *)
Definition md_kmsg_dump_register (junk reg phys : Z) (s : kmsg_state) (a : S) : option (Z * kmsg_state * S) :=
  if reg <? 0 then Some (reg, s, a)
  else
    let s := set_dumper s true in
    let* (ret, a) := api_add (kmsg_entry junk phys s) a in
    if ret <? 0 then Some (ret, set_dumper s false, a) else Some (ret, s, a).

(** The dumper is registered exactly when its region is. *)
Lemma md_kmsg_dump_register_ok junk reg phys s a pend rs rest :
  kg_dumper s = false -> api_rep a pend rs -> joinable rs (kmsg_entry junk phys s :: rest) ->
  let e := if reg <? 0 then [] else [kmsg_entry junk phys s] in
  exists ret a', md_kmsg_dump_register junk reg phys s a = Some (ret, set_dumper s (0 <=? ret), a') /\
    joined a a' pend rs e rest /\
    (0 <= ret <-> reg_all pend rs e <> rs) /\ (ret < 0 -> reg_all pend rs e = rs).
Proof.
  intros Hd Hrep Hj. unfold md_kmsg_dump_register. destruct (Z.ltb_spec reg 0) as [Hneg|Hpos]; cbv zeta.
  - exists reg, a. replace (0 <=? reg) with false by lia. rewrite <- Hd. destruct s as [? ? ? ?]. split; [done|].
    split; [|split; [split; [lia|by intros []]|done]].
    apply joined_nil; [done|]. by eapply joinable_drop.
  - change (kmsg_entry junk phys (set_dumper s true)) with (kmsg_entry junk phys s).
    destruct (api_add_joined a pend rs _ _ Hrep Hj) as (a' & -> & Hjd). cbv beta match.
    assert (reg_all pend rs [kmsg_entry junk phys s] =
      if reg_result pend rs (kmsg_entry junk phys s) <? 0 then rs else rs ++ [kmsg_entry junk phys s]) as Hall by done.
    destruct (Z.ltb_spec (reg_result pend rs (kmsg_entry junk phys s)) 0) as [Hlt|Hge]; eexists _, a'.
    + replace (0 <=? reg_result pend rs (kmsg_entry junk phys s)) with false by lia. split; [reflexivity|].
      split; [exact Hjd|]. rewrite Hall. split; [split; [lia|by intros []]|done].
    + replace (0 <=? reg_result pend rs (kmsg_entry junk phys s)) with true by lia. split; [reflexivity|].
      split; [exact Hjd|]. rewrite Hall. split; [split; [|lia]|lia]. intros _ Heq.
      apply (f_equal length) in Heq. rewrite length_app in Heq. cbn in Heq. lia.
Qed.
End Register.

(** ** The dump *)

(** The characters of [s], without the NUL, are at [a]. *)
Definition chars_at (m : mem) (a : Z) (s : string) : Prop :=
  forall i c, String.get i s = Some c -> byte m (a + Z.of_nat i) = char_code c.

Lemma cstr_at_chars m a s : cstr_at m a s -> chars_at m a s.
Proof.
  revert a. induction s as [|c s IH]; intros a Hs i x Hx; [done|]. destruct Hs as [Hc Hs].
  destruct i as [|i]; cbn in Hx.
  - injection Hx as <-. rewrite Z.add_0_r. rewrite <- Hc. unfold ld. simpl. lia.
  - specialize (IH _ Hs _ _ Hx). by replace (a + Z.of_nat (S i)) with (a + 1 + Z.of_nat i) by lia.
Qed.

Lemma get_length s i c : String.get i s = Some c -> Z.of_nat i < slen s.
Proof.
  revert i. unfold slen. induction s as [|x s IH]; intros [|i] Hi; cbn in *; try (done || lia).
  specialize (IH _ Hi). lia.
Qed.

(** [kmsg_dump_get_buffer] writes into the memory it is given. *)
Definition writes_inside (get : mem -> Z -> Z -> option (bool * mem)) : Prop :=
  forall m a n, m_lo m <= a -> 0 <= n -> a + n <= m_hi m ->
    exists ok m', get m a n = Some (ok, m') /\ mod_only a (a + n) m m'.

Lemma md_kmsg_dump_ok get why s :
  writes_inside get -> slen (kmsg_header why) < kmsg_dump_sz s <= INT_MAX_SIZE ->
  m_lo (kg_mem s) <= kmsg_buf s -> kmsg_buf s + kmsg_dump_sz s <= m_hi (kg_mem s) ->
  exists s', md_kmsg_dump get why s = Some s' /\
    mod_only (kmsg_buf s) (kmsg_buf s + kmsg_dump_sz s) (kg_mem s) (kg_mem s') /\
    chars_at (kg_mem s') (kmsg_buf s) (kmsg_header why).
Proof.
  intros Hget Hsz Hlo Hhi. pose proof (slen_nonneg (kmsg_header why)). unfold md_kmsg_dump.
  destruct (scnprintf_to_ok (kg_mem s) (kmsg_buf s) (kmsg_dump_sz s) (kmsg_header why)) as (m1 & -> & Hm1 & Hs1); [lia..|].
  cbv beta match. rewrite printed_fits in Hs1 by lia. specialize (Hs1 ltac:(lia)).
  rewrite snprintf_ret_len by lia. unfold INT_MAX_SIZE in *. rewrite u64_small by lia. pose proof Hm1 as (Hl & Hh & _).
  destruct (Hget m1 (kmsg_buf s + slen (kmsg_header why)) (kmsg_dump_sz s - slen (kmsg_header why)))
    as (ok & m2 & -> & Hm2); [lia..|]. cbv beta match. eexists. split; [reflexivity|]. cbn [kg_mem].
  split.
  - eapply mod_only_trans; [exact Hm1|]. eapply mod_only_weaken; [| |exact Hm2]; lia.
  - intros i c Hi. pose proof (get_length _ _ _ Hi). destruct Hm2 as (_ & _ & Hb).
    rewrite <- Hb by lia. by apply (cstr_at_chars _ _ _ Hs1).
Qed.

(** A size below the header's length: what is left is a negative number, the
    largest of sizes. *)
Lemma md_kmsg_dump_wraps get why s :
  0 <= kmsg_dump_sz s < slen (kmsg_header why) -> slen (kmsg_header why) <= INT_MAX_SIZE ->
  m_lo (kg_mem s) <= kmsg_buf s -> kmsg_buf s + kmsg_dump_sz s <= m_hi (kg_mem s) ->
  exists m, md_kmsg_dump get why s
      = (let* (_, m) := get m (kmsg_buf s + slen (kmsg_header why))
                          (18446744073709551616 + kmsg_dump_sz s - slen (kmsg_header why)) in
         Some (KmsgState m (kmsg_buf s) (kmsg_dump_sz s) (kg_dumper s))) /\
    mod_only (kmsg_buf s) (kmsg_buf s + kmsg_dump_sz s) (kg_mem s) m.
Proof.
  intros Hsz Hlen Hlo Hhi. unfold md_kmsg_dump. rewrite snprintf_ret_len by lia. unfold INT_MAX_SIZE in Hlen.
  assert (exists n m, scnprintf_to (kg_mem s) (kmsg_buf s) (kmsg_dump_sz s) (kmsg_header why) = Some (n, m) /\
    mod_only (kmsg_buf s) (kmsg_buf s + kmsg_dump_sz s) (kg_mem s) m) as (n & m & -> & Hm).
  { destruct (Z.eqb_spec (kmsg_dump_sz s) 0) as [->|Hne].
    - exists 0, (kg_mem s). split; [done|apply mod_only_refl].
    - destruct (scnprintf_to_ok (kg_mem s) (kmsg_buf s) (kmsg_dump_sz s) (kmsg_header why)) as (m1 & H1 & Hm1 & _); [lia..|].
      by eexists _, m1. }
  cbv beta match. exists m. split; [|exact Hm].
  replace (u64 (kmsg_dump_sz s - slen (kmsg_header why))) with (18446744073709551616 + kmsg_dump_sz s - slen (kmsg_header why));
    [done|]. unfold u64. apply Z.mod_unique with (q := -1); lia.
Qed.
