(* ===== verification/MdPanic.v ===== *)
(** * The panic handler (minidump_log.c, lines 107-162 and 987-1033)

    All texts of minidump_log.c and minidump_memory.c, written once, when the
    kernel panics.  What the kernel's data structures say is [panic_env]; code
    of an option that is not configured behaves as with its buffer missing. *)

From stdpp Require Import gmap.
From S2P Require Import Prelude CMem CStr CText CPrint MdMemInfo MdMemDump MdPageOwner MdSlabOwner MdDmaBuf.
From S2P Require Import MdRunqueue MdCpuContext.

#[local] Open Scope string_scope.
#[local] Open Scope list_scope.
#[local] Open Scope Z_scope.

Record panic_env := PanicEnv {
  (** the CPU, its registers, the possible CPUs *)
  pv_cpu : Z;
  pv_regs : pt_regs;
  pv_cpus : list Z;
  (** the run queues and the tasks *)
  pv_runq_config : runq_config;
  pv_queues : list cpu_rq;
  pv_tasks : list task;
  (** memory and slab statistics; whether [slab_mutex] is held *)
  pv_mem_config : mem_config;
  pv_stats : vm_stats;
  pv_slabs : list slabinfo;
  pv_slab_mutex : bool;
  (** the range of page frames, the row of kmalloc caches *)
  pv_min_low_pfn : Z;
  pv_max_pfn : Z;
  pv_kmalloc : kmalloc_row;
  (** [in_task()], the dma-bufs and the processes *)
  pv_in_task : bool;
  pv_bufs : list dma_buf;
  pv_procs : list process;
}.

(** The file-scope variables of both files, and the memory the dumps lie in
    (that of [pn_owner] and [pn_slab] is set to it).  [md_in_oops_handler] is
    in [pn_cntxt]. *)
Record panic_state := PanicState {
  pn_cntxt : cntxt_state;
  md_handle_done : Z;
  md_runq_seq_buf : option runq_state;
  md_meminfo_seq_buf : option seq_buf;
  md_slabinfo_seq_buf : option seq_buf;
  pn_mem : mem;
  pn_owner : owner_state;
  pn_slab : slab_state;
  pn_dma_info : dump;
  pn_dma_procs : dump;
  pn_held : held;
  pn_hashes : gset Z;
}.

Definition set_cntxt (s : panic_state) (c : cntxt_state) : panic_state :=
  PanicState c (md_handle_done s) (md_runq_seq_buf s) (md_meminfo_seq_buf s) (md_slabinfo_seq_buf s)
    (pn_mem s) (pn_owner s) (pn_slab s) (pn_dma_info s) (pn_dma_procs s) (pn_held s) (pn_hashes s).

Definition set_handle_done (s : panic_state) (n : Z) : panic_state :=
  PanicState (pn_cntxt s) n (md_runq_seq_buf s) (md_meminfo_seq_buf s) (md_slabinfo_seq_buf s)
    (pn_mem s) (pn_owner s) (pn_slab s) (pn_dma_info s) (pn_dma_procs s) (pn_held s) (pn_hashes s).

Definition set_texts (s : panic_state) (r : option runq_state) (m i : option seq_buf) : panic_state :=
  PanicState (pn_cntxt s) (md_handle_done s) r m i
    (pn_mem s) (pn_owner s) (pn_slab s) (pn_dma_info s) (pn_dma_procs s) (pn_held s) (pn_hashes s).

Definition set_memory (s : panic_state) (m : mem) (o : owner_state) (l : slab_state) (h : held) (g : gset Z) : panic_state :=
  PanicState (pn_cntxt s) (md_handle_done s) (md_runq_seq_buf s) (md_meminfo_seq_buf s) (md_slabinfo_seq_buf s)
    m o l (pn_dma_info s) (pn_dma_procs s) h g.

Definition set_oops (c : cntxt_state) (b : bool) : cntxt_state :=
  CntxtState (md_cntxt_seq_buf c) (die_cpu c) (regs_before_stop c) b.

Section Process.
Context (peek : Z -> option Z) (PAGE_OFFSET : Z).
Context (pages : Z -> page_info) (stacks : Z -> list Z) (ptr_text sym_text : Z -> string).
Context (PG_lru PG_slab PG_swapbacked MAX_ORDER : Z).
Context (stack_hash : list Z -> Z) (buf_hash : dma_buf -> Z) (files : Z -> fd_table).

(** The first part, up to the label [dump_rq]. *)
Definition dump_contexts (e : panic_env) (c : cntxt_state) : option cntxt_state :=
  match md_cntxt_seq_buf c with
  | None => Some c
  | Some b =>
      let* b :=
        if negb (pv_cpu e =? die_cpu c) then md_dump_panic_regs peek PAGE_OFFSET (pv_cpu e) (pv_regs e) b
        else Some b in
      let* b := md_dump_other_cpus_context peek PAGE_OFFSET (pv_cpus e) (regs_before_stop c) b in
      Some (CntxtState (Some b) (die_cpu c) (regs_before_stop c) (md_in_oops_handler c))
  end.

(** The texts in sequence buffers. *)
Definition dump_texts (e : panic_env) (s : panic_state) : option panic_state :=
  let* r := md_dump_runqueues (pv_runq_config e) (pv_queues e) (pv_tasks e) (md_runq_seq_buf s) in
  let m := option_map (md_dump_meminfo (pv_mem_config e) (pv_stats e)) (md_meminfo_seq_buf s) in
  let i := option_map (fun b => fst (md_dump_slabinfo (pv_mem_config e) (pv_slabs e) (pv_slab_mutex e) b))
             (md_slabinfo_seq_buf s) in
  Some (set_texts s r m i).

(** The four dumps; address 0 is a dump that is off. *)
Definition dump_memory (e : panic_env) (s : panic_state) : option panic_state :=
  let o := set_ow_mem (pn_owner s) (pn_mem s) in
  let* o :=
    if negb (ow_addr o =? 0) then
      md_dump_pageowner pages stacks ptr_text sym_text PG_lru PG_slab PG_swapbacked MAX_ORDER
        (pv_min_low_pfn e) (pv_max_pfn e) (ow_addr o) (ow_size o) o
    else Some o in
  let l := set_sl_mem (pn_slab s) (ow_mem o) in
  let* l :=
    if negb (sl_addr l =? 0) then
      md_dump_slabowner stack_hash ptr_text (pv_kmalloc e) (sl_addr l) (sl_size l) l
    else Some l in
  let m := sl_mem l in
  let* (m, h) :=
    if negb (dump_addr (pn_dma_info s) =? 0) then
      md_dma_buf_info (pv_in_task e) (pv_bufs e) (dump_addr (pn_dma_info s)) (dump_size (pn_dma_info s)) m (pn_held s)
    else Some (m, pn_held s) in
  let* (m, g) :=
    if negb (dump_addr (pn_dma_procs s) =? 0) then
      let* (_, p) := md_dma_buf_procs buf_hash files (pv_procs e) (dump_addr (pn_dma_procs s))
                       (dump_size (pn_dma_procs s)) (pn_hashes s) m in
      Some (ps_mem p, ps_hash p)
    else Some (m, pn_hashes s) in
  Some (set_memory s m o l h g).

Definition md_dump_process (e : panic_env) (s : panic_state) : option panic_state :=
  if md_in_oops_handler (pn_cntxt s) then Some s
  else if md_handle_done s =? 1 then Some s
  else
    let s := set_handle_done s (md_handle_done s + 1) in
    let* c := dump_contexts e (set_oops (pn_cntxt s) true) in
    let* s := dump_texts e (set_cntxt s c) in
    let* s := dump_memory e s in
    Some (set_cntxt s (set_oops (pn_cntxt s) false)).

Definition md_panic_handler (e : panic_env) (s : panic_state) : option (Z * panic_state) :=
  let* s := md_dump_process e s in
  Some (0, s).
End Process.
