(* ===== verification/MdPanicProofs.v ===== *)
(** * What a panic leaves behind

    Every sequence buffer gets its text, every dump that is on its own, in
    memory of its own; a second panic adds nothing. *)

From stdpp Require Import gmap.
From S2P Require Import Prelude CMem CStr CText CPrint MdMemInfo MdMemDump MdPageOwner MdPageOwnerProofs MdSlabOwner.
From S2P Require Import MdDmaBuf MdDmaBufProofs MdRunqueue MdRunqueueProofs MdCpuContext MdPanic.

#[local] Open Scope string_scope.
#[local] Open Scope list_scope.
#[local] Open Scope Z_scope.

Section Proofs.
Context (peek : Z -> option Z) (PAGE_OFFSET : Z).
Context (pages : Z -> page_info) (stacks : Z -> list Z) (ptr_text sym_text : Z -> string).
Context (PG_lru PG_slab PG_swapbacked MAX_ORDER : Z).
Context (stack_hash : list Z -> Z) (buf_hash : dma_buf -> Z) (files : Z -> fd_table).

Local Abbreviation process := (md_dump_process peek PAGE_OFFSET pages stacks ptr_text sym_text PG_lru PG_slab
  PG_swapbacked MAX_ORDER stack_hash buf_hash files).
Local Abbreviation memory_dumps := (dump_memory pages stacks ptr_text sym_text PG_lru PG_slab
  PG_swapbacked MAX_ORDER stack_hash buf_hash files).

(** ** The texts *)

Definition context_lines (e : panic_env) (c : cntxt_state) : list string :=
  (if pv_cpu e =? die_cpu c then []
   else ("PANIC CPU : " +:+ fmt_d (pv_cpu e) +:+ nl) :: regs_text peek PAGE_OFFSET (pv_regs e)) ++
  flat_map (fun cpu => (nl +:+ "STOPPED CPU : " +:+ fmt_d cpu +:+ nl) :: regs_text peek PAGE_OFFSET (regs_before_stop c cpu))
    (pv_cpus e).

Lemma dump_contexts_ok e c :
  length (rg_x (pv_regs e)) = 31%nat -> (forall cpu, length (rg_x (regs_before_stop c cpu)) = 31%nat) ->
  dump_contexts peek PAGE_OFFSET e c = Some (CntxtState
    (option_map (fun b => seq_buf_prints b (context_lines e c)) (md_cntxt_seq_buf c))
    (die_cpu c) (regs_before_stop c) (md_in_oops_handler c)).
Proof.
  intros Hr Hs. unfold dump_contexts, context_lines. destruct (md_cntxt_seq_buf c) as [b|] eqn:Hb.
  2:{ destruct c. cbn in *. by subst. }
  cbn [option_map]. unfold md_dump_panic_regs. destruct (pv_cpu e =? die_cpu c); cbn [negb].
  - cbv beta match. rewrite other_cpus_prints by done. done.
  - rewrite md_reg_context_data_prints by done. cbv beta match. rewrite other_cpus_prints by done. cbv beta match.
    unfold seq_buf_prints. by rewrite fold_left_app.
Qed.

Definition slabinfo_text (e : panic_env) : list string :=
  if pv_slab_mutex e then []
  else slabinfo_header (pv_mem_config e) ++ flat_map (slabinfo_lines (pv_mem_config e)) (pv_slabs e).

(** A run queue text starts without indentation. *)
Definition runq_ready (r : option runq_state) : Prop :=
  match r with None => True | Some r => md_align_offset r = 0 end.

Definition runq_text (e : panic_env) (r : runq_state) : runq_state :=
  RunqState (seq_buf_prints (rs_buf r) (runq_lines (pv_runq_config e) (pv_queues e) (pv_tasks e))) 0.

Lemma dump_texts_ok e s :
  states_ok (pv_runq_config e) -> CONFIG_SCHED_WALT (pv_runq_config e) = false -> Forall cpu_ok (pv_queues e) ->
  runq_ready (md_runq_seq_buf s) ->
  dump_texts e s = Some (set_texts s (option_map (runq_text e) (md_runq_seq_buf s))
    (option_map (fun b => seq_buf_prints b (meminfo_lines (pv_mem_config e) (pv_stats e))) (md_meminfo_seq_buf s))
    (option_map (fun b => seq_buf_prints b (slabinfo_text e)) (md_slabinfo_seq_buf s))).
Proof.
  intros Hst Hw Hq Hr. unfold dump_texts.
  assert (option_map (fun b => fst (md_dump_slabinfo (pv_mem_config e) (pv_slabs e) (pv_slab_mutex e) b)) (md_slabinfo_seq_buf s)
    = option_map (fun b => seq_buf_prints b (slabinfo_text e)) (md_slabinfo_seq_buf s)) as ->.
  { destruct (md_slabinfo_seq_buf s) as [i|]; [|done]. cbn [option_map]. unfold md_dump_slabinfo, slabinfo_text.
    by destruct (pv_slab_mutex e). }
  destruct (md_runq_seq_buf s) as [[b n]|]; [|done]. cbn in Hr. subst n.
  rewrite md_dump_runqueues_prints by done. done.
Qed.

(** ** The dumps *)

(** The range of a dump in memory, which is still empty. *)
Record range_ok (m : mem) (a n : Z) : Prop := {
  rk_lo : m_lo m <= a;
  rk_hi : a + n <= m_hi m;
  rk_size : 1 < n <= INT_MAX_SIZE;
  rk_empty : ld m a 1 = 0;
}.

Definition apart (a n a' n' : Z) : Prop := a + n <= a' \/ a' + n' <= a.

(** The page owner dump and the two of dma-bufs are on, in memory of their
    own; the slab owner dump, which may overrun its memory, is off. *)
Record dumps_ok (e : panic_env) (s : panic_state) : Prop := {
  do_owner : owner_ok (set_ow_mem (pn_owner s) (pn_mem s)) /\ ow_addr (pn_owner s) <> 0;
  do_pages : pages_ok pages MAX_ORDER (pv_min_low_pfn e) (pv_max_pfn e);
  do_slab : sl_addr (pn_slab s) = 0;
  do_info : range_ok (pn_mem s) (dump_addr (pn_dma_info s)) (dump_size (pn_dma_info s)) /\
    dump_addr (pn_dma_info s) <> 0 /\ slen dma_info_head < dump_size (pn_dma_info s) - 1;
  do_bufs : pv_in_task e = true /\ Forall (lockable (pn_held s)) (pv_bufs e);
  do_procs : range_ok (pn_mem s) (dump_addr (pn_dma_procs s)) (dump_size (pn_dma_procs s)) /\
    dump_addr (pn_dma_procs s) <> 0 /\ pn_hashes s = ∅;
  do_files : Forall (proc_ok files) (pv_procs e);
  do_apart : apart (ow_addr (pn_owner s)) (ow_size (pn_owner s)) (dump_addr (pn_dma_info s)) (dump_size (pn_dma_info s)) /\
    apart (ow_addr (pn_owner s)) (ow_size (pn_owner s)) (dump_addr (pn_dma_procs s)) (dump_size (pn_dma_procs s)) /\
    apart (dump_addr (pn_dma_info s)) (dump_size (pn_dma_info s)) (dump_addr (pn_dma_procs s)) (dump_size (pn_dma_procs s));
}.

Lemma range_ok_frame m m' a n a' n' :
  mod_only a' (a' + n') m m' -> apart a' n' a n -> range_ok m a n -> range_ok m' a n.
Proof.
  intros (Hl & Hh & Hb) Hd [Hlo Hhi Hsz He]. split; [lia|lia|done|]. rewrite <- He.
  apply ld_ext. intros x Hx. symmetry. apply Hb. unfold apart in Hd. lia.
Qed.

Lemma slen_stake_lt n s : 0 < n -> slen (stake (Z.to_nat (n - 1)) s) < n.
Proof. intros Hn. rewrite slen_stake. lia. Qed.

(** The page owner dump is empty, no stack has been seen, and the filter goes
    by the flags of the pages. *)
Record owner_fresh (s : panic_state) : Prop := {
  of_bit : 0 <= PG_swapbacked < 64;
  of_filter : flags_filter (page_owner_filter (pn_owner s));
  of_handles : nr_handles (pn_owner s) = 0;
  of_empty : ld (pn_mem s) (ow_addr (pn_owner s)) 1 = 0;
}.

Definition owner_dumped (e : panic_env) (s : panic_state) (m : mem) : Prop :=
  exists p, first_page pages MAX_ORDER (pv_min_low_pfn e) p /\
    cstr_at m (ow_addr (pn_owner s)) (stake (Z.to_nat (ow_size (pn_owner s) - 1))
      (pageowner_text pages stacks ptr_text PG_lru PG_slab PG_swapbacked MAX_ORDER (pv_max_pfn e) p (pn_owner s))).

Lemma dump_memory_ok e s :
  dumps_ok e s ->
  exists s', memory_dumps e s = Some s' /\
    pn_cntxt s' = pn_cntxt s /\ md_handle_done s' = md_handle_done s /\
    (md_runq_seq_buf s', md_meminfo_seq_buf s', md_slabinfo_seq_buf s')
      = (md_runq_seq_buf s, md_meminfo_seq_buf s, md_slabinfo_seq_buf s) /\
    (owner_fresh s -> owner_dumped e s (pn_mem s')) /\
    cstr_at (pn_mem s') (dump_addr (pn_dma_info s))
      (stake (Z.to_nat (dump_size (pn_dma_info s) - 1)) (dma_info_text (pv_bufs e))) /\
    cstr_at (pn_mem s') (dump_addr (pn_dma_procs s))
      (stake (Z.to_nat (dump_size (pn_dma_procs s) - 1)) (procs_text buf_hash files (pv_procs e))) /\
    (forall x, ~ ow_addr (pn_owner s) <= x < ow_addr (pn_owner s) + ow_size (pn_owner s) ->
       ~ dump_addr (pn_dma_info s) <= x < dump_addr (pn_dma_info s) + dump_size (pn_dma_info s) ->
       ~ dump_addr (pn_dma_procs s) <= x < dump_addr (pn_dma_procs s) + dump_size (pn_dma_procs s) ->
       byte (pn_mem s') x = byte (pn_mem s) x).
Proof.
  intros [[Hok Hoa] Hpg Hsl [Hir [Hia Hih]] [Htask Hb] [Hpr [Hpa Hg]] Hf (D1 & D2 & D3)]. unfold dump_memory.
  change (ow_addr (set_ow_mem (pn_owner s) (pn_mem s))) with (ow_addr (pn_owner s)).
  rewrite (proj2 (Z.eqb_neq _ 0) Hoa). cbn [negb].
  destruct (md_dump_pageowner_inside pages stacks ptr_text sym_text PG_lru PG_slab PG_swapbacked MAX_ORDER _ _ _ Hpg Hok)
    as (o & Ho & Hm1). cbn [ow_addr ow_size set_ow_mem] in Ho, Hm1 |- *. rewrite Ho. cbv beta match.
  change (sl_addr (set_sl_mem (pn_slab s) (ow_mem o))) with (sl_addr (pn_slab s)). rewrite Hsl. cbn [Z.eqb negb].
  cbv beta match. rewrite (proj2 (Z.eqb_neq _ 0) Hia), (proj2 (Z.eqb_neq _ 0) Hpa), Htask, Hg. cbn [negb sl_mem set_sl_mem].
  cbn [ow_mem] in Hm1. pose proof (range_ok_frame _ _ _ _ _ _ Hm1 D1 Hir) as [I1 I2 I3 I4].
  destruct (md_dma_buf_info_text (pv_bufs e) (dump_addr (pn_dma_info s)) (dump_size (pn_dma_info s)) (ow_mem o) (pn_held s))
    as (m2 & h & -> & Hm2 & Ht2 & _); [lia|done|done|done|done|done|]. cbv beta match.
  pose proof (range_ok_frame _ _ _ _ _ _ Hm2 D3 (range_ok_frame _ _ _ _ _ _ Hm1 D2 Hpr)) as [P1 P2 P3 P4].
  destruct (md_dma_buf_procs_text buf_hash files (pv_procs e) (dump_addr (pn_dma_procs s)) (dump_size (pn_dma_procs s)) m2)
    as (p & -> & Hm3 & Ht3); [lia|done|done|done|lia|done|]. cbv beta match.
  eexists. split; [reflexivity|]. do 3 (split; [done|]). cbn [pn_mem set_memory]. split_and!.
  - intros [F1 F2 F3 F4].
    destruct (md_dump_pageowner_text pages stacks ptr_text sym_text PG_lru PG_slab PG_swapbacked MAX_ORDER
      _ _ _ Hpg F1 Hok F3 F4 F2) as (p1 & o1 & Hp1 & Ho1 & Ht1).
    cbn [ow_addr ow_size set_ow_mem] in Ho1, Ht1. rewrite pageowner_text_mem in Ht1. rewrite Ho in Ho1. injection Ho1 as <-.
    exists p1. split; [exact Hp1|]. pose proof (oo_size _ Hok) as Hsz. cbn [ow_size set_ow_mem] in Hsz.
    pose proof (slen_stake_lt (ow_size (pn_owner s)) (pageowner_text pages stacks ptr_text PG_lru PG_slab
      PG_swapbacked MAX_ORDER (pv_max_pfn e) p1 (pn_owner s)) ltac:(lia)).
    unfold apart in D1, D2.
    eapply cstr_at_frame; [exact Hm3|lia|]. eapply cstr_at_frame; [exact Hm2|lia|]. exact Ht1.
  - eapply cstr_at_frame; [exact Hm3| |exact Ht2].
    pose proof (slen_stake_lt (dump_size (pn_dma_info s)) (dma_info_text (pv_bufs e)) ltac:(lia)). unfold apart in D3. lia.
  - exact Ht3.
  - intros x H1 H2 H3. destruct Hm1 as (_ & _ & B1), Hm2 as (_ & _ & B2), Hm3 as (_ & _ & B3).
    rewrite <- B3, <- B2, <- B1 by lia. done.
Qed.

(** ** All of it *)

(** The first panic: outside the handler, nothing written yet. *)
Record panic_ok (e : panic_env) (s : panic_state) : Prop := {
  po_idle : md_in_oops_handler (pn_cntxt s) = false /\ md_handle_done s = 0;
  po_regs : length (rg_x (pv_regs e)) = 31%nat /\
    forall cpu, length (rg_x (regs_before_stop (pn_cntxt s) cpu)) = 31%nat;
  po_runq : states_ok (pv_runq_config e) /\ CONFIG_SCHED_WALT (pv_runq_config e) = false /\
    Forall cpu_ok (pv_queues e) /\ runq_ready (md_runq_seq_buf s);
  po_dumps : dumps_ok e s;
}.

Lemma md_dump_process_ok e s :
  panic_ok e s ->
  exists s', process e s = Some s' /\
    pn_cntxt s' = CntxtState (option_map (fun b => seq_buf_prints b (context_lines e (pn_cntxt s)))
      (md_cntxt_seq_buf (pn_cntxt s))) (die_cpu (pn_cntxt s)) (regs_before_stop (pn_cntxt s)) false /\
    md_handle_done s' = 1 /\
    md_runq_seq_buf s' = option_map (runq_text e) (md_runq_seq_buf s) /\
    md_meminfo_seq_buf s' =
      option_map (fun b => seq_buf_prints b (meminfo_lines (pv_mem_config e) (pv_stats e))) (md_meminfo_seq_buf s) /\
    md_slabinfo_seq_buf s' = option_map (fun b => seq_buf_prints b (slabinfo_text e)) (md_slabinfo_seq_buf s) /\
    (owner_fresh s -> owner_dumped e s (pn_mem s')) /\
    cstr_at (pn_mem s') (dump_addr (pn_dma_info s))
      (stake (Z.to_nat (dump_size (pn_dma_info s) - 1)) (dma_info_text (pv_bufs e))) /\
    cstr_at (pn_mem s') (dump_addr (pn_dma_procs s))
      (stake (Z.to_nat (dump_size (pn_dma_procs s) - 1)) (procs_text buf_hash files (pv_procs e))) /\
    (forall x, ~ ow_addr (pn_owner s) <= x < ow_addr (pn_owner s) + ow_size (pn_owner s) ->
       ~ dump_addr (pn_dma_info s) <= x < dump_addr (pn_dma_info s) + dump_size (pn_dma_info s) ->
       ~ dump_addr (pn_dma_procs s) <= x < dump_addr (pn_dma_procs s) + dump_size (pn_dma_procs s) ->
       byte (pn_mem s') x = byte (pn_mem s) x).
Proof.
  intros [[Ho Hd] [Hr Hs] (Hst & Hw & Hq & Hrq) Hdumps]. unfold md_dump_process. rewrite Ho, Hd. cbn [Z.eqb].
  rewrite dump_contexts_ok by done. cbv beta match.
  rewrite dump_texts_ok by done. cbv beta match.
  match goal with |- context [memory_dumps e ?st] => set (s1 := st) end.
  assert (pn_cntxt s1 = CntxtState (option_map (fun b => seq_buf_prints b (context_lines e (pn_cntxt s)))
      (md_cntxt_seq_buf (pn_cntxt s))) (die_cpu (pn_cntxt s)) (regs_before_stop (pn_cntxt s)) true) as E1 by reflexivity.
  assert (pn_dma_info s1 = pn_dma_info s /\ pn_dma_procs s1 = pn_dma_procs s /\ pn_owner s1 = pn_owner s /\
    pn_mem s1 = pn_mem s /\ md_handle_done s1 = 1) as (E2 & E3 & E4 & E5 & E6) by (split_and!; reflexivity).
  assert (dumps_ok e s1) as Hdumps1 by (destruct Hdumps; split; assumption).
  destruct (dump_memory_ok e s1 Hdumps1) as (s2 & -> & Hc & Hdone & Htx & H0 & H1 & H2 & H3). cbv beta match.
  assert (owner_fresh s -> owner_dumped e s (pn_mem s2)) as Howner.
  { intros [F1 F2 F3 F4]. apply H0. split; assumption. }
  rewrite E1 in Hc. rewrite E2 in H1, H3. rewrite E3 in H2, H3. rewrite E4, E5 in H3. rewrite E6 in Hdone.
  injection Htx as Hx1 Hx2 Hx3. clear E1 E2 E3 E4 E5 E6 Hdumps1.
  exists (set_cntxt s2 (set_oops (pn_cntxt s2) false)). split; [reflexivity|].
  split; [unfold set_oops; rewrite Hc; reflexivity|]. split; [exact Hdone|]. split; [exact Hx1|].
  split; [exact Hx2|]. split; [exact Hx3|]. split; [exact Howner|]. split; [exact H1|]. split; [exact H2|exact H3].
Qed.

Lemma dump_memory_done e s s' : memory_dumps e s = Some s' -> md_handle_done s' = md_handle_done s.
Proof. unfold dump_memory. intros Hm. repeat case_match; simplify_eq; done. Qed.

(** Once: whatever the second call is given. *)
Lemma md_dump_process_once e s s' :
  process e s = Some s' -> forall e', md_in_oops_handler (pn_cntxt s) = false -> md_handle_done s = 0 \/ md_handle_done s = 1 ->
  process e' s' = Some s'.
Proof.
  intros Hp e' Ho Hd. assert (md_handle_done s' = 1) as Hdone.
  { revert Hp. unfold md_dump_process. rewrite Ho. destruct Hd as [Hd|Hd]; rewrite Hd; cbn [Z.eqb].
    - destruct (dump_contexts _ _ _ _) as [c|]; [|done]. cbv beta match.
      unfold dump_texts. destruct (md_dump_runqueues _ _ _ _) as [r|]; [|done]. cbv beta match.
      destruct (memory_dumps _ _) as [s2|] eqn:Hm; [|done]. cbv beta match. intros [= <-]. cbn.
      by rewrite (dump_memory_done _ _ _ Hm).
    - by intros [= <-]. }
  unfold md_dump_process. rewrite Hdone. by destruct (md_in_oops_handler (pn_cntxt s')).
Qed.
End Proofs.
