(* ===== verification/MdLogInit.v ===== *)
(** * The start of the log regions (minidump_log.c, lines 1093-1127 and 1384-1417)

    [msm_minidump_log_init], which the probe calls at its end, registers the
    regions of MdKmsg.v, MdStack.v, MdLogReg.v, MdFtrace.v, MdModules.v and
    MdMemDump.v.  The parts keep their own state; the driver's is [ls_api] and
    is handed from one to the next. *)

From S2P Require Import Prelude CMem CStr CText CPrint MdApi MdElfRep MdElfRegions MdElfUpdate MdDriverProofs MdClient.
From S2P Require Import MdMemDump MdSlabOwner MdFtrace MdLogReg MdModules MdStack MdKmsg.

#[local] Open Scope string_scope.
#[local] Open Scope list_scope.
#[local] Open Scope Z_scope.

Definition MD_MEMINFO_PAGES : Z := 1.
Definition MD_SLABINFO_PAGES : Z := 8.

Record log_config := LogConfig {
  CONFIG_VMAP_STACK : bool;
  CONFIG_QCOM_DYN_MINIDUMP_STACK : bool;
  CONFIG_QCOM_MINIDUMP_PSTORE : bool;
  CONFIG_QCOM_MINIDUMP_FTRACE : bool;
  CONFIG_QCOM_MINIDUMP_PANIC_DUMP : bool;
  CONFIG_QCOM_MINIDUMP_PANIC_CPU_CONTEXT : bool;
  CONFIG_SLUB_DEBUG : bool;
  CONFIG_PAGE_OWNER : bool;
  CONFIG_ALL_TASK_INFO : bool;
}.

(** What the kernel answers: the uninitialised [id]s by name of the region,
    the buffers with their physical addresses, the two blocks of each sequence
    buffer, the result of the registrations of the dumper and the notifier. *)
Record log_answers := LogAnswers {
  an_junk : string -> Z;
  an_kmsg : option (mem * Z);
  an_kmsg_register : Z;
  an_cpus : list Z;
  an_me : on_cpu;
  an_others : list on_cpu;
  an_pstore : option pstore_node;
  an_trace : option (mem * Z);
  an_blocks : string -> option block * option block;
  an_module_notifier : Z;
  an_page_owner : bool;
  an_slub_debug : bool;
  an_cma : dump_kind -> option cma_block;
  an_kmalloc : kmalloc_row;
}.

Section Code.
Context {S : Type} `{MdRegionApi S}.
Context (vmalloc_phys virt_to_phys phys_to_virt : Z -> Z) (sizeof_task_struct : Z).
Context (cf : log_config) (an : log_answers).

(** The copies of the driver's state in [ls_stack], [ls_modules] and [ls_mem]
    are not used; of [ls_slab] only the filter is, the dump itself is in
    [ls_mem]. *)
Record log_state := LogState {
  ls_api : S;
  ls_blocks : list Z;
  ls_kmsg : kmsg_state;
  ls_stack : @stack_state S;
  ls_trace : ftrace_state;
  ls_modules : @modules_state S;
  ls_runq : option seq_buf;
  ls_cntxt : option seq_buf;
  ls_meminfo : option seq_buf;
  ls_slabinfo : option seq_buf;
  ls_mem : @mem_state S;
  ls_slab : slab_state;
  ls_panic_notifier : bool;
  ls_die_notifier : bool;
}.

Definition set_ls_api (s : log_state) (a : S) : log_state :=
  LogState a (ls_blocks s) (ls_kmsg s) (ls_stack s) (ls_trace s) (ls_modules s) (ls_runq s) (ls_cntxt s)
    (ls_meminfo s) (ls_slabinfo s) (ls_mem s) (ls_slab s) (ls_panic_notifier s) (ls_die_notifier s).

Definition set_ls_kmsg (s : log_state) (k : kmsg_state) (a : S) : log_state :=
  LogState a (ls_blocks s) k (ls_stack s) (ls_trace s) (ls_modules s) (ls_runq s) (ls_cntxt s)
    (ls_meminfo s) (ls_slabinfo s) (ls_mem s) (ls_slab s) (ls_panic_notifier s) (ls_die_notifier s).

Definition set_ls_stack (s : log_state) (k : stack_state) : log_state :=
  LogState (sk_api k) (ls_blocks s) (ls_kmsg s) k (ls_trace s) (ls_modules s) (ls_runq s) (ls_cntxt s)
    (ls_meminfo s) (ls_slabinfo s) (ls_mem s) (ls_slab s) (ls_panic_notifier s) (ls_die_notifier s).

Definition set_ls_trace (s : log_state) (t : ftrace_state) (a : S) : log_state :=
  LogState a (ls_blocks s) (ls_kmsg s) (ls_stack s) t (ls_modules s) (ls_runq s) (ls_cntxt s)
    (ls_meminfo s) (ls_slabinfo s) (ls_mem s) (ls_slab s) (ls_panic_notifier s) (ls_die_notifier s).

Definition set_ls_modules (s : log_state) (m : modules_state) : log_state :=
  LogState (hp_api (mo_heap m)) (hp_blocks (mo_heap m)) (ls_kmsg s) (ls_stack s) (ls_trace s) m (ls_runq s) (ls_cntxt s)
    (ls_meminfo s) (ls_slabinfo s) (ls_mem s) (ls_slab s) (ls_panic_notifier s) (ls_die_notifier s).

Definition set_ls_bufs (s : log_state) (h : heap_state) (r c m i : option seq_buf) : log_state :=
  LogState (hp_api h) (hp_blocks h) (ls_kmsg s) (ls_stack s) (ls_trace s) (ls_modules s) r c
    m i (ls_mem s) (ls_slab s) (ls_panic_notifier s) (ls_die_notifier s).

Definition set_ls_mem (s : log_state) (m : mem_state) : log_state :=
  LogState (ms_api m) (ls_blocks s) (ls_kmsg s) (ls_stack s) (ls_trace s) (ls_modules s) (ls_runq s) (ls_cntxt s)
    (ls_meminfo s) (ls_slabinfo s) m (ls_slab s) (ls_panic_notifier s) (ls_die_notifier s).

Definition set_ls_slab (s : log_state) (l : slab_state) : log_state :=
  LogState (ls_api s) (ls_blocks s) (ls_kmsg s) (ls_stack s) (ls_trace s) (ls_modules s) (ls_runq s) (ls_cntxt s)
    (ls_meminfo s) (ls_slabinfo s) (ls_mem s) l (ls_panic_notifier s) (ls_die_notifier s).

Definition set_ls_notifiers (s : log_state) (panic die : bool) : log_state :=
  LogState (ls_api s) (ls_blocks s) (ls_kmsg s) (ls_stack s) (ls_trace s) (ls_modules s) (ls_runq s) (ls_cntxt s)
    (ls_meminfo s) (ls_slabinfo s) (ls_mem s) (ls_slab s) panic die.

(** ** The parts, with the driver's state handed over *)

Definition on_stack (f : stack_state -> option stack_state) (s : log_state) : option log_state :=
  let* k := f (set_sk_api (ls_stack s) (ls_api s)) in
  Some (set_ls_stack s k).

Definition heap_of (s : log_state) : heap_state := HeapState (ls_api s) (ls_blocks s).

Definition on_modules (f : modules_state -> option modules_state) (s : log_state) : option log_state :=
  let m := ls_modules s in
  let* m := f (ModulesState (heap_of s) (md_mod_info_seq_buf m) (md_modules_lock m) (mo_notifier m)) in
  Some (set_ls_modules s m).

Definition register_dump (k : dump_kind) (s : log_state) : option log_state :=
  let st := MdMemDump.set_api (ls_mem s) (ls_api s) in
  let* (_, st) := md_register_memory_dump (an_cma an k) (dump_size (ms_dump st k)) (dump_name k) st in
  Some (set_ls_mem s st).

(** A sequence buffer, published where [*global_buf] is: the new value, or the
    old one. *)
Definition panic_entries (pages : Z) (name : string) (old : option seq_buf) (s : log_state)
  : option (option seq_buf * heap_state) :=
  let '(a1, a2) := an_blocks an name in
  let* (_, b, h) := md_register_panic_entries (an_junk an name) pages name a1 a2 (heap_of s) in
  Some (match b with Some b => Some b | None => old end, h).

(** ** The buffers and dumps of the panic handler *)

(** The functions md_debugfs_... create files; that of the slab owner selects
    all caches as well. *)
Definition md_register_panic_data (s : log_state) : option log_state :=
  let* (r, h) := panic_entries (MD_RUNQUEUE_PAGES (CONFIG_ALL_TASK_INFO cf)) "KRUNQUEUE" (ls_runq s) s in
  let s := set_ls_bufs s h r (ls_cntxt s) (ls_meminfo s) (ls_slabinfo s) in
  let* s :=
    if CONFIG_QCOM_MINIDUMP_PANIC_CPU_CONTEXT cf then
      let* (c, h) := panic_entries MD_CPU_CNTXT_PAGES "KCNTXT" (ls_cntxt s) s in
      Some (set_ls_bufs s h (ls_runq s) c (ls_meminfo s) (ls_slabinfo s))
    else Some s in
  let* (m, h) := panic_entries MD_MEMINFO_PAGES "MEMINFO" (ls_meminfo s) s in
  let s := set_ls_bufs s h (ls_runq s) (ls_cntxt s) m (ls_slabinfo s) in
  let* s :=
    if CONFIG_SLUB_DEBUG cf then
      let* (i, h) := panic_entries MD_SLABINFO_PAGES "SLABINFO" (ls_slabinfo s) s in
      Some (set_ls_bufs s h (ls_runq s) (ls_cntxt s) (ls_meminfo s) i)
    else Some s in
  let* s := if CONFIG_PAGE_OWNER cf && an_page_owner an then register_dump PAGEOWNER s else Some s in
  let* s :=
    if CONFIG_SLUB_DEBUG cf && an_slub_debug an then
      let* s := register_dump SLABOWNER s in
      Some (set_ls_slab s (md_debugfs_slabowner (an_kmalloc an) (ls_slab s)))
    else Some s in
  let* s := register_dump DMA_INFO s in
  register_dump DMA_PROC s.

(** ** The initialisation *)

(** From [is_vmap_stack] on: the stacks. *)
Definition init_stacks (s : log_state) : option log_state :=
  let* s := on_stack (fun k => Some (set_vmap k (CONFIG_VMAP_STACK cf))) s in
  if CONFIG_QCOM_DYN_MINIDUMP_STACK cf then
    let* s := on_stack (register_current_stack vmalloc_phys virt_to_phys (an_cpus an) (an_me an) (an_others an)) s in
    on_stack (register_suspend_context vmalloc_phys virt_to_phys sizeof_task_struct (an_me an)) s
  else Some s.

(** The parts behind the stacks. *)
Definition init_parts (s : log_state) : option log_state :=
  let* s :=
    if CONFIG_QCOM_MINIDUMP_PSTORE cf then
      let* a := register_pstore_info phys_to_virt (an_junk an "pstore") (an_pstore an) (ls_api s) in
      Some (set_ls_api s a)
    else Some s in
  let* s :=
    if CONFIG_QCOM_MINIDUMP_FTRACE cf then
      let* (t, a) := md_register_trace_buf (an_junk an "KFTRACE") (an_trace an) (ls_trace s) (ls_api s) in
      Some (set_ls_trace s t a)
    else Some s in
  if CONFIG_QCOM_MINIDUMP_PANIC_DUMP cf then
    let '(a1, a2) := an_blocks an "KMODULES" in
    let* s := on_modules (md_register_module_data (an_junk an "KMODULES") a1 a2 (an_module_notifier an)) s in
    let* s := md_register_panic_data s in
    Some (set_ls_notifiers s true (CONFIG_QCOM_MINIDUMP_PANIC_CPU_CONTEXT cf))
  else Some s.

Definition msm_minidump_log_init (s : log_state) : option (Z * log_state) :=
  match an_kmsg an with
  | None => Some (- ENOMEM, s)
  | Some (m, phys) =>
      let k := KmsgState m (m_lo m) (kmsg_dump_sz (ls_kmsg s)) (kg_dumper (ls_kmsg s)) in
      let* (ret, k, a) := md_kmsg_dump_register (an_junk an "KMSG") (an_kmsg_register an) phys k (ls_api s) in
      let s := set_ls_kmsg s k a in
      if ret <? 0 then Some (ret, s)
      else
        let* s := init_stacks s in
        let* s := init_parts s in
        Some (0, s)
  end.
End Code.

(** ** The file-scope variables as they are initialised *)

Definition no_mem : mem := Mem 0 0 (fun _ => 0).

Definition no_stack : stack_data := StackData (replicate 4 0) (replicate 4 (MdRegion "" 0 0 0 0)).

(** [md_pageowner_dump_size] and the others. *)
Definition initial_size (k : dump_kind) : Z :=
  match k with
  | PAGEOWNER | SLABOWNER => 2 * SZ_1M
  | DMA_INFO | DMA_PROC => 256 * SZ_1K
  end.

Definition log_init_state {S} (a : S) : log_state :=
  LogState a [] (KmsgState no_mem 0 (128 * 1024) false)
    (StackState a false false (fun _ => no_stack) (SuspendContext 0 no_stack (MdRegion "" 0 0 0 0) false))
    (ftrace_init no_mem) (ModulesState (HeapState a []) None false false) None None None None
    (MemState (fun k => Dump 0 (initial_size k)) [] false a)
    (SlabState no_mem 0 (initial_size SLABOWNER) 0 (SZ_16K) 0) false false.
