(* ===== verification/MdLogInitProofs.v ===== *)
(** * Which regions the initialisation registers

    [log_entries] lists them in order, as the kernel's answers allow; every
    one is judged by the registry, and the probe ends with those accepted. *)

From S2P Require Import Prelude CMem CStr CText CPrint MdApi MdElfRep MdElfRegions MdElfUpdate MdDriverProofs MdClient.
From S2P Require Import MdMemDump MdMemDumpProofs MdSlabOwner MdFtrace MdLogReg MdLogRegProofs MdModules MdStack.
From S2P Require Import MdStackProofs MdStackReg MdKmsg MdLogInit.

#[local] Open Scope string_scope.
#[local] Open Scope list_scope.
#[local] Open Scope Z_scope.

Section Proofs.
Context {S : Type} `{MdRegionApi S}.
Context (vmalloc_phys virt_to_phys phys_to_virt : Z -> Z) (sizeof_task_struct : Z).
Context (cf : log_config) (an : log_answers).

(** ** The parts *)

Definition dump_entry (k : dump_kind) (n : Z) : list md_region :=
  match an_cma an k with None => [] | Some b => [region_of k b n] end.

Lemma register_dump_joined k s pend rs rest :
  let n := dump_size (ms_dump (ls_mem s) k) in
  0 <= n < 2147483648 -> n mod 4096 = 0 ->
  api_rep (ls_api s) pend rs -> joinable rs (dump_entry k n ++ rest) ->
  exists s', register_dump an k s = Some s' /\ joined (ls_api s) (ls_api s') pend rs (dump_entry k n) rest /\
    (forall k', dump_size (ms_dump (ls_mem s') k') = dump_size (ms_dump (ls_mem s) k')) /\ ls_stack s' = ls_stack s.
Proof.
  intros n Hn Hm Hrep Hj. destruct (whole_pages n Hn Hm) as (H1 & H2 & H3 & H4).
  unfold register_dump, md_register_memory_dump, dump_entry in *. cbn [ms_dump MdMemDump.set_api]. fold n.
  rewrite H1, H2, H3. destruct (an_cma an k) as [b|].
  2:{ eexists. split; [reflexivity|]. split; [by apply joined_nil|done]. }
  rewrite strscpy_fits by apply dump_name_short. cbn [fst ms_api set_cma MdMemDump.set_api ms_cma].
  destruct (api_add_joined (ls_api s) pend rs (region_of k b n) rest Hrep Hj) as (a & Ha & Hjd).
  unfold region_of in Ha at 1. rewrite Ha. cbv beta match.
  destruct (_ <? 0).
  - match goal with |- context [cma_release ?st _ _] =>
      destruct (cma_release_ok st (cb_virt b, Z.shiftr n PAGE_SHIFT) (ms_cma (ls_mem s))) as (st' & Hrel & l & -> & Hl) end.
    { cbn. by rewrite Permutation_app_comm. }
    cbn [fst snd] in Hrel. rewrite Hrel. cbv beta match. eexists. split; [reflexivity|]. split; [exact Hjd|done].
  - rewrite H4, Z.leb_refl. cbn [assert_c]. cbv beta match. rewrite kind_of_dump_name.
    eexists. split; [reflexivity|]. split; [exact Hjd|]. split; [|done]. intros k'. unfold set_addr. cbn.
    by destruct (decide (k' = k)) as [->|].
Qed.

Definition buf_entry (name : string) (pages : Z) : list md_region :=
  panic_entry (an_junk an name) pages name (fst (an_blocks an name)) (snd (an_blocks an name)).

Lemma panic_entries_joined pages name old s pend rs rest :
  api_rep (ls_api s) pend rs -> joinable rs (buf_entry name pages ++ rest) ->
  exists b h, panic_entries an pages name old s = Some (b, h) /\
    joined (ls_api s) (hp_api h) pend rs (buf_entry name pages) rest /\
    (b = Some (seq_buf_init (u64 (pages * PAGE_SIZE))) \/ b = old).
Proof.
  intros Hrep Hj. unfold panic_entries, buf_entry in *. destruct (an_blocks an name) as [a1 a2]. cbn [fst snd] in *.
  destruct (md_register_panic_entries_ok (an_junk an name) pages name a1 a2 (heap_of s) pend rs rest Hrep Hj)
    as (ret & b & h & -> & Hjd & Hcase). cbv beta match. eexists _, h. split; [reflexivity|]. split; [exact Hjd|].
  destruct b as [b|]; [left|by right]. destruct Hcase as (_ & -> & _). done.
Qed.

(** ** The panic data *)

Definition if_entries (b : bool) (es : list md_region) : list md_region := if b then es else [].

Definition dump_sizes (s : @log_state S) (k : dump_kind) : Z := dump_size (ms_dump (ls_mem s) k).

Definition panic_entries_of (sizes : dump_kind -> Z) : list md_region :=
  buf_entry "KRUNQUEUE" (MD_RUNQUEUE_PAGES (CONFIG_ALL_TASK_INFO cf)) ++
  (if_entries (CONFIG_QCOM_MINIDUMP_PANIC_CPU_CONTEXT cf) (buf_entry "KCNTXT" MD_CPU_CNTXT_PAGES) ++
  (buf_entry "MEMINFO" MD_MEMINFO_PAGES ++
  (if_entries (CONFIG_SLUB_DEBUG cf) (buf_entry "SLABINFO" MD_SLABINFO_PAGES) ++
  (if_entries (CONFIG_PAGE_OWNER cf && an_page_owner an) (dump_entry PAGEOWNER (sizes PAGEOWNER)) ++
  (if_entries (CONFIG_SLUB_DEBUG cf && an_slub_debug an) (dump_entry SLABOWNER (sizes SLABOWNER)) ++
  (dump_entry DMA_INFO (sizes DMA_INFO) ++ dump_entry DMA_PROC (sizes DMA_PROC))))))).

(** A step of the initialisation: it registers [es] and keeps the sizes and the
    data of the stacks. *)
Definition step_ok (s s' : @log_state S) (pend rs es rest : list md_region) : Prop :=
  joined (ls_api s) (ls_api s') pend rs es rest /\
  (forall k, dump_sizes s' k = dump_sizes s k) /\ ls_stack s' = ls_stack s.

Lemma step_trans s1 s2 s3 pend rs es1 es2 r rest :
  step_ok s1 s2 pend rs es1 r -> step_ok s2 s3 pend (reg_all pend rs es1) es2 rest ->
  step_ok s1 s3 pend rs (es1 ++ es2) rest.
Proof.
  intros [[_ _ H1] [D1 K1]] [[R J H2] [D2 K2]]. split; [|split; [intros k; by rewrite D2|congruence]].
  split; rewrite ?reg_all_app; [done..|congruence].
Qed.

(** A step that is there or not. *)
Lemma step_if (b : bool) es (f : @log_state S -> option log_state) s pend rs rest :
  api_rep (ls_api s) pend rs -> joinable rs (if_entries b es ++ rest) ->
  (joinable rs (es ++ rest) -> exists s', f s = Some s' /\ step_ok s s' pend rs es rest) ->
  exists s', (if b then f s else Some s) = Some s' /\ step_ok s s' pend rs (if_entries b es) rest.
Proof.
  intros Hrep Hj Hf. destruct b; [by apply Hf|]. exists s. split; [done|]. split; [by apply joined_nil|done].
Qed.

Record sizes_ok (sizes : dump_kind -> Z) : Prop := {
  so_range k : 0 <= sizes k < 2147483648;
  so_pages k : sizes k mod 4096 = 0;
}.

Lemma register_dump_step k s sizes pend rs rest :
  sizes_ok sizes -> (forall k, dump_sizes s k = sizes k) ->
  api_rep (ls_api s) pend rs -> joinable rs (dump_entry k (sizes k) ++ rest) ->
  exists s', register_dump an k s = Some s' /\ step_ok s s' pend rs (dump_entry k (sizes k)) rest.
Proof.
  intros [Hr Hp] Hs Hrep Hj. rewrite <- Hs in *.
  destruct (register_dump_joined k s pend rs rest) as (s' & -> & Hjd & Hd); [rewrite <- ?Hs; try done..|].
  - change (0 <= dump_sizes s k < 2147483648). rewrite Hs. apply Hr.
  - change (dump_sizes s k mod 4096 = 0). rewrite Hs. apply Hp.
  - exists s'. split; [done|]. by split.
Qed.

Lemma panic_entries_step pages name old s pend rs rest (put : option seq_buf -> heap_state -> log_state) :
  api_rep (ls_api s) pend rs -> joinable rs (buf_entry name pages ++ rest) ->
  (forall b h, ls_api (put b h) = hp_api h /\ ls_mem (put b h) = ls_mem s /\ ls_stack (put b h) = ls_stack s) ->
  exists s', (let* (b, h) := panic_entries an pages name old s in Some (put b h)) = Some s' /\
    step_ok s s' pend rs (buf_entry name pages) rest.
Proof.
  intros Hrep Hj Hput. destruct (panic_entries_joined pages name old s pend rs rest Hrep Hj) as (b & h & -> & Hjd & _).
  eexists. split; [reflexivity|]. destruct (Hput b h) as (Ha & Hm & Hk). split; [by rewrite Ha|].
  split; [|done]. intros k. unfold dump_sizes. by rewrite Hm.
Qed.

(** The sizes do not change, and what is left can join. *)
Lemma step_next s s' sizes pend rs es rest :
  step_ok s s' pend rs es rest -> (forall k, dump_sizes s k = sizes k) ->
  api_rep (ls_api s') pend (reg_all pend rs es) /\ joinable (reg_all pend rs es) rest /\ (forall k, dump_sizes s' k = sizes k).
Proof. intros [[Hr Hj _] [Hd _]] Hs. split_and!; [done|done|]. intros k. by rewrite Hd. Qed.

Lemma md_register_panic_data_ok s sizes pend rs rest :
  sizes_ok sizes -> (forall k, dump_sizes s k = sizes k) ->
  api_rep (ls_api s) pend rs -> joinable rs (panic_entries_of sizes ++ rest) ->
  exists s', md_register_panic_data cf an s = Some s' /\ step_ok s s' pend rs (panic_entries_of sizes) rest.
Proof.
  intros Hok Hs Hrep Hj. unfold panic_entries_of in *. repeat rewrite <- app_assoc in Hj. unfold md_register_panic_data.
  destruct (panic_entries_joined _ "KRUNQUEUE" (ls_runq s) s pend rs _ Hrep Hj) as (b & h & -> & J1 & _). cbv beta match.
  set (s1 := set_ls_bufs s h b (ls_cntxt s) (ls_meminfo s) (ls_slabinfo s)).
  match type of J1 with joined _ _ _ _ ?es ?r => assert (step_ok s s1 pend rs es r) as T1 by done end. clear J1.
  destruct (step_next _ _ _ _ _ _ _ T1 Hs) as (R1 & J1 & S1). revert T1 R1 J1 S1. clearbody s1. intros T1 R1 J1 S1.
  destruct (step_if _ _ (fun s => let* (c, h) := panic_entries an MD_CPU_CNTXT_PAGES "KCNTXT" (ls_cntxt s) s in
      Some (set_ls_bufs s h (ls_runq s) c (ls_meminfo s) (ls_slabinfo s))) s1 _ _ _ R1 J1) as (s2 & E2 & T2).
  { intros J. by apply (panic_entries_step _ _ _ s1 _ _ _ (fun c h => set_ls_bufs s1 h (ls_runq s1) c (ls_meminfo s1) (ls_slabinfo s1))). }
  cbv beta in E2. rewrite E2. clear E2. cbv beta match. destruct (step_next _ _ _ _ _ _ _ T2 S1) as (R2 & J2 & S2).
  destruct (panic_entries_joined _ "MEMINFO" (ls_meminfo s2) s2 _ _ _ R2 J2) as (b3 & h3 & -> & J3 & _). cbv beta match.
  set (s3 := set_ls_bufs s2 h3 (ls_runq s2) (ls_cntxt s2) b3 (ls_slabinfo s2)).
  match type of J3 with joined _ _ _ ?r0 ?es ?r => assert (step_ok s2 s3 pend r0 es r) as T3 by done end. clear J3.
  destruct (step_next _ _ _ _ _ _ _ T3 S2) as (R3 & J3 & S3). revert T3 R3 J3 S3. clearbody s3. intros T3 R3 J3 S3.
  destruct (step_if _ _ (fun s => let* (i, h) := panic_entries an MD_SLABINFO_PAGES "SLABINFO" (ls_slabinfo s) s in
      Some (set_ls_bufs s h (ls_runq s) (ls_cntxt s) (ls_meminfo s) i)) s3 _ _ _ R3 J3) as (s4 & E4 & T4).
  { intros J. by apply (panic_entries_step _ _ _ s3 _ _ _ (fun i h => set_ls_bufs s3 h (ls_runq s3) (ls_cntxt s3) (ls_meminfo s3) i)). }
  cbv beta in E4. rewrite E4. clear E4. cbv beta match. destruct (step_next _ _ _ _ _ _ _ T4 S3) as (R4 & J4 & S4).
  destruct (step_if _ _ (register_dump an PAGEOWNER) s4 _ _ _ R4 J4) as (s5 & -> & T5).
  { intros J. by apply register_dump_step. }
  cbv beta match. destruct (step_next _ _ _ _ _ _ _ T5 S4) as (R5 & J5 & S5).
  destruct (step_if _ _ (fun s => let* s := register_dump an SLABOWNER s in
      Some (set_ls_slab s (md_debugfs_slabowner (an_kmalloc an) (ls_slab s)))) s5 _ _ _ R5 J5) as (s6 & E6 & T6).
  { intros J. destruct (register_dump_step SLABOWNER s5 sizes _ _ _ Hok S5 R5 J) as (s' & -> & T).
    eexists. split; [reflexivity|]. exact T. }
  cbv beta in E6. rewrite E6. clear E6. cbv beta match. destruct (step_next _ _ _ _ _ _ _ T6 S5) as (R6 & J6 & S6).
  destruct (register_dump_step DMA_INFO s6 sizes _ _ _ Hok S6 R6 J6) as (s7 & -> & T7). cbv beta match.
  destruct (step_next _ _ _ _ _ _ _ T7 S6) as (R7 & J7 & S7).
  destruct (register_dump_step DMA_PROC s7 sizes _ _ _ Hok S7 R7 J7) as (s8 & -> & T8).
  exists s8. split; [done|].
  exact (step_trans _ _ _ _ _ _ _ _ _ T1 (step_trans _ _ _ _ _ _ _ _ _ T2 (step_trans _ _ _ _ _ _ _ _ _ T3
    (step_trans _ _ _ _ _ _ _ _ _ T4 (step_trans _ _ _ _ _ _ _ _ _ T5 (step_trans _ _ _ _ _ _ _ _ _ T6
    (step_trans _ _ _ _ _ _ _ _ _ T7 T8))))))).
Qed.

(** ** The parts behind the stacks *)

Definition trace_entries : list md_region :=
  match an_trace an with
  | None => []
  | Some (m, phys) => [MdRegion "KFTRACE" (an_junk an "KFTRACE") (m_lo m) phys MD_FTRACE_BUF_SIZE]
  end.

Definition later_entries (sizes : dump_kind -> Z) : list md_region :=
  if_entries (CONFIG_QCOM_MINIDUMP_PSTORE cf) (pstore_entries phys_to_virt (an_junk an "pstore") (an_pstore an)) ++
  (if_entries (CONFIG_QCOM_MINIDUMP_FTRACE cf) trace_entries ++
   if_entries (CONFIG_QCOM_MINIDUMP_PANIC_DUMP cf) (buf_entry "KMODULES" MD_MODULE_PAGES ++ panic_entries_of sizes)).

Definition pstore_ok : Prop :=
  forall n p, an_pstore an = Some n -> pstore_base n = Some p -> 0 <= p < 18446744073709551616.

Lemma trace_step s pend rs rest :
  api_rep (ls_api s) pend rs -> joinable rs (trace_entries ++ rest) ->
  exists s', (let* (t, a) := md_register_trace_buf (an_junk an "KFTRACE") (an_trace an) (ls_trace s) (ls_api s) in
      Some (set_ls_trace s t a)) = Some s' /\ step_ok s s' pend rs trace_entries rest /\ ls_modules s' = ls_modules s.
Proof.
  intros Hrep Hj. unfold trace_entries, md_register_trace_buf in *. destruct (an_trace an) as [[m phys]|].
  - destruct (api_add_joined (ls_api s) pend rs _ rest Hrep Hj) as (a & -> & Hjd). cbv beta match.
    eexists. split; [reflexivity|]. by split; [split|].
  - eexists. split; [reflexivity|]. split; [|done]. split; [by apply joined_nil|done].
Qed.

Lemma pstore_step s pend rs rest :
  (forall n p, an_pstore an = Some n -> pstore_base n = Some p -> 0 <= p < 18446744073709551616) -> api_rep (ls_api s) pend rs ->
  joinable rs (pstore_entries phys_to_virt (an_junk an "pstore") (an_pstore an) ++ rest) ->
  exists s', (let* a := register_pstore_info phys_to_virt (an_junk an "pstore") (an_pstore an) (ls_api s) in
      Some (set_ls_api s a)) = Some s' /\
    step_ok s s' pend rs (pstore_entries phys_to_virt (an_junk an "pstore") (an_pstore an)) rest /\
    ls_modules s' = ls_modules s.
Proof.
  intros Hs Hrep Hj.
  destruct (register_pstore_info_ok phys_to_virt (an_junk an "pstore") pend (an_pstore an) rest (ls_api s) rs)
    as (a & -> & Hjd); [exact Hs|done|done|]. cbv beta match.
  eexists. split; [reflexivity|]. by split; [split|].
Qed.

Lemma panic_step s sizes pend rs rest :
  sizes_ok sizes -> (forall k, dump_sizes s k = sizes k) -> md_mod_info_seq_buf (ls_modules s) = None ->
  api_rep (ls_api s) pend rs -> joinable rs ((buf_entry "KMODULES" MD_MODULE_PAGES ++ panic_entries_of sizes) ++ rest) ->
  exists s', (let '(a1, a2) := an_blocks an "KMODULES" in
      let* s := on_modules (md_register_module_data (an_junk an "KMODULES") a1 a2 (an_module_notifier an)) s in
      let* s := md_register_panic_data cf an s in
      Some (set_ls_notifiers s true (CONFIG_QCOM_MINIDUMP_PANIC_CPU_CONTEXT cf))) = Some s' /\
    step_ok s s' pend rs (buf_entry "KMODULES" MD_MODULE_PAGES ++ panic_entries_of sizes) rest.
Proof.
  intros Hok Hs Hmod Hrep Hj. rewrite <- app_assoc in Hj. unfold buf_entry at 1 in Hj. unfold buf_entry at 1.
  destruct (an_blocks an "KMODULES") as [a1 a2]. cbn [fst snd] in *. unfold on_modules.
  destruct (md_register_module_data_ok (an_junk an "KMODULES") a1 a2 (an_module_notifier an)
    (ModulesState (heap_of s) (md_mod_info_seq_buf (ls_modules s)) (md_modules_lock (ls_modules s)) (mo_notifier (ls_modules s)))
    pend rs _ Hmod Hrep Hj) as (m & -> & Hjd & _). cbv beta match.
  set (s1 := set_ls_modules s m).
  match type of Hjd with joined _ _ _ _ ?es ?r => assert (step_ok s s1 pend rs es r) as T1 by done end.
  destruct (step_next _ _ _ _ _ _ _ T1 Hs) as (R1 & J1 & S1).
  destruct (md_register_panic_data_ok s1 sizes pend _ rest Hok S1 R1 J1) as (s2 & -> & T2). cbv beta match.
  eexists. split; [reflexivity|]. exact (step_trans _ _ _ _ _ _ _ _ _ T1 T2).
Qed.

Lemma step_if_keep (b : bool) es (f : @log_state S -> option log_state) s pend rs rest :
  api_rep (ls_api s) pend rs -> joinable rs (if_entries b es ++ rest) ->
  (joinable rs (es ++ rest) -> exists s', f s = Some s' /\ step_ok s s' pend rs es rest /\ ls_modules s' = ls_modules s) ->
  exists s', (if b then f s else Some s) = Some s' /\ step_ok s s' pend rs (if_entries b es) rest /\
    ls_modules s' = ls_modules s.
Proof.
  intros Hrep Hj Hf. destruct b; [by apply Hf|]. exists s. split; [done|]. split; [|done].
  split; [by apply joined_nil|done].
Qed.

Lemma init_parts_ok s sizes pend rs rest :
  pstore_ok -> sizes_ok sizes -> (forall k, dump_sizes s k = sizes k) -> md_mod_info_seq_buf (ls_modules s) = None ->
  api_rep (ls_api s) pend rs -> joinable rs (later_entries sizes ++ rest) ->
  exists s', init_parts phys_to_virt cf an s = Some s' /\ step_ok s s' pend rs (later_entries sizes) rest.
Proof.
  intros Hpst Hok S1 Hm R1 J1. unfold init_parts, later_entries in *. repeat rewrite <- app_assoc in J1.
  destruct (step_if_keep _ _ (fun s => let* a := register_pstore_info phys_to_virt (an_junk an "pstore") (an_pstore an) (ls_api s) in
      Some (set_ls_api s a)) s _ _ _ R1 J1) as (s2 & E2 & T2 & M2).
  { intros J. by apply pstore_step. }
  cbv beta in E2. rewrite E2. clear E2. cbv beta match. destruct (step_next _ _ _ _ _ _ _ T2 S1) as (R2 & J2 & S2).
  destruct (step_if_keep _ _ (fun s => let* (t, a) := md_register_trace_buf (an_junk an "KFTRACE") (an_trace an) (ls_trace s) (ls_api s) in
      Some (set_ls_trace s t a)) s2 _ _ _ R2 J2) as (s3 & E3 & T3 & M3).
  { intros J. by apply trace_step. }
  cbv beta in E3. rewrite E3. clear E3. cbv beta match. destruct (step_next _ _ _ _ _ _ _ T3 S2) as (R3 & J3 & S3).
  destruct (step_if _ _ (fun s => let '(a1, a2) := an_blocks an "KMODULES" in
      let* s := on_modules (md_register_module_data (an_junk an "KMODULES") a1 a2 (an_module_notifier an)) s in
      let* s := md_register_panic_data cf an s in
      Some (set_ls_notifiers s true (CONFIG_QCOM_MINIDUMP_PANIC_CPU_CONTEXT cf))) s3 _ _ _ R3 J3) as (s4 & E4 & T4).
  { intros J. apply panic_step; try done. by rewrite M3, M2. }
  cbv beta in E4. rewrite E4. cbv beta match. exists s4. split; [done|].
  exact (step_trans _ _ _ _ _ _ _ _ _ T2 (step_trans _ _ _ _ _ _ _ _ _ T3 T4)).
Qed.

(** ** The stacks

    registered from the area of the task that runs the probe, while the other
    CPUs are idle. *)

Definition stacks_quiet : Prop :=
  CONFIG_QCOM_DYN_MINIDUMP_STACK cf = true ->
  CONFIG_VMAP_STACK cf = true /\ NoDup (an_cpus an) /\ Forall (fun c => tk_idle (oc_current c) = true) (an_others an).

Definition boot_area : Z := tk_area (oc_current (an_me an)).

Definition stack_entries (k : @stack_state S) : list md_region :=
  if_entries (CONFIG_QCOM_DYN_MINIDUMP_STACK cf)
    (all_entries vmalloc_phys (md_stack_data k) boot_area (an_cpus an) ++
     suspend_entries vmalloc_phys virt_to_phys sizeof_task_struct (an_me an) (md_suspend_context k)).

(** The variables of the stacks afterwards, [rs] being the regions before. *)
Definition stacks_set (k k' : @stack_state S) (pend rs : list md_region) : Prop :=
  is_vmap_stack k' = true /\ md_current_stack_init k' = true /\
  forall c, md_stack_data k' c = all_data vmalloc_phys pend rs (md_stack_data k) boot_area (an_cpus an) c.

Lemma init_stacks_ok s pend rs rest :
  stacks_quiet -> api_rep (ls_api s) pend rs -> joinable rs (stack_entries (ls_stack s) ++ rest) ->
  exists s', init_stacks vmalloc_phys virt_to_phys sizeof_task_struct cf an s = Some s' /\
    joined (ls_api s) (ls_api s') pend rs (stack_entries (ls_stack s)) rest /\
    (forall k, dump_sizes s' k = dump_sizes s k) /\ ls_modules s' = ls_modules s /\
    (CONFIG_QCOM_DYN_MINIDUMP_STACK cf = true -> stacks_set (ls_stack s) (ls_stack s') pend rs).
Proof.
  intros Hq Hrep Hj. unfold init_stacks, stack_entries, on_stack in *. unfold stacks_quiet in Hq.
  destruct (CONFIG_QCOM_DYN_MINIDUMP_STACK cf); cbn [if_entries app] in *.
  2:{ eexists. split; [reflexivity|]. split; [by apply joined_nil|done]. }
  destruct (Hq eq_refl) as (Hv & Hnd & Hidle). rewrite Hv. rewrite <- app_assoc in Hj. cbv beta match.
  set (k1 := set_vmap (set_sk_api (ls_stack s) (ls_api s)) true). set (s1 := set_ls_stack s k1).
  destruct (register_current_stack_joined vmalloc_phys virt_to_phys (an_cpus an) (an_me an) (an_others an)
    (set_sk_api (ls_stack s1) (ls_api s1)) pend rs _ Hnd eq_refl Hidle Hrep Hj)
    as (k2 & -> & Hjd2 & Hv2 & Hi2 & Hd2 & Hc2). cbv beta match.
  destruct (register_suspend_context_joined vmalloc_phys virt_to_phys sizeof_task_struct (an_me an)
    (set_sk_api (ls_stack (set_ls_stack s1 k2)) (ls_api (set_ls_stack s1 k2))) pend
    (reg_all pend rs (all_entries vmalloc_phys (md_stack_data (ls_stack s)) boot_area (an_cpus an))) rest)
    as (k3 & -> & Hjd3 & Hv3 & Hi3 & Hd3); [exact Hv2|exact (jd_rep _ _ _ _ _ _ Hjd2)| |].
  { cbn [md_suspend_context set_sk_api ls_stack set_ls_stack]. rewrite Hc2. exact (jd_room _ _ _ _ _ _ Hjd2). }
  cbv beta match. cbn [md_suspend_context set_sk_api ls_stack set_ls_stack] in Hjd3. rewrite Hc2 in Hjd3.
  eexists. split; [reflexivity|]. split; [exact (joined_trans _ _ _ _ _ _ _ _ Hjd2 Hjd3)|].
  split; [done|]. split; [done|]. intros _. split; [exact Hv3|]. split; [exact (eq_trans Hi3 Hi2)|].
  intros c. cbn [ls_stack set_ls_stack]. rewrite Hd3. exact (Hd2 c).
Qed.

(** ** The whole initialisation *)

Definition kmsg_region (m : mem) (phys size : Z) : md_region := MdRegion "KMSG" (an_junk an "KMSG") (m_lo m) phys size.

Definition log_entries (k : @stack_state S) (m : mem) (phys size : Z) (sizes : dump_kind -> Z) : list md_region :=
  kmsg_region m phys size :: stack_entries k ++ later_entries sizes.

(** The state before the initialisation, and what the kernel answers. *)
Record log_ready (s : @log_state S) (sizes : dump_kind -> Z) : Prop := {
  lr_dumper : kg_dumper (ls_kmsg s) = false;
  lr_modules : md_mod_info_seq_buf (ls_modules s) = None;
  lr_sizes : forall k, dump_sizes s k = sizes k;
  lr_sizes_ok : sizes_ok sizes;
  lr_pstore : pstore_ok;
  lr_stacks : stacks_quiet;
  lr_kmsg : 0 <= an_kmsg_register an;
}.

Lemma log_init_ok s m phys sizes pend rs rest :
  let size := kmsg_dump_sz (ls_kmsg s) in
  let es := log_entries (ls_stack s) m phys size sizes in
  an_kmsg an = Some (m, phys) -> log_ready s sizes -> api_rep (ls_api s) pend rs -> joinable rs (es ++ rest) ->
  0 <= reg_result pend rs (kmsg_region m phys size) ->
  exists s', msm_minidump_log_init vmalloc_phys virt_to_phys phys_to_virt sizeof_task_struct cf an s = Some (0, s') /\
    joined (ls_api s) (ls_api s') pend rs es rest /\
    (CONFIG_QCOM_DYN_MINIDUMP_STACK cf = true ->
       stacks_set (ls_stack s) (ls_stack s') pend (reg_next pend rs (kmsg_region m phys size))).
Proof.
  intros size es Hk Hs Hrep Hj Hacc. subst es. unfold msm_minidump_log_init. rewrite Hk. fold size.
  set (k0 := KmsgState m (m_lo m) size (kg_dumper (ls_kmsg s))).
  unfold log_entries in *. cbn [app] in Hj. rewrite <- app_assoc in Hj.
  destruct (md_kmsg_dump_register_ok (an_junk an "KMSG") (an_kmsg_register an) phys k0 (ls_api s) pend rs _
    (lr_dumper _ _ Hs) Hrep Hj) as (ret & a & -> & Hjd & Hiff & _). cbv beta match.
  pose proof (lr_kmsg _ _ Hs). replace (an_kmsg_register an <? 0) with false in * by lia.
  change (kmsg_entry (an_junk an "KMSG") phys k0) with (kmsg_region m phys size) in *.
  assert (0 <= ret) as Hret.
  { apply Hiff. change (reg_next pend rs (kmsg_region m phys size) <> rs). unfold reg_next.
    replace (reg_result pend rs (kmsg_region m phys size) <? 0) with false by lia. intros Heq.
    apply (f_equal length) in Heq. rewrite length_app in Heq. cbn in Heq. lia. }
  replace (ret <? 0) with false by lia. set (s0 := set_ls_kmsg s (set_dumper k0 (0 <=? ret)) a).
  pose proof Hjd as [R0 J0 _].
  destruct (init_stacks_ok s0 pend _ _ (lr_stacks _ _ Hs) R0 J0) as (s1 & -> & Hjd1 & Hd1 & Hm1 & Hst). cbv beta match.
  change (ls_stack s0) with (ls_stack s) in Hjd1, Hst. pose proof Hjd1 as [R1 J1 _].
  destruct (init_parts_ok s1 sizes pend
    (reg_all pend (reg_all pend rs [kmsg_region m phys size]) (stack_entries (ls_stack s))) rest (lr_pstore _ _ Hs) (lr_sizes_ok _ _ Hs)) as (s2 & -> & Hjd2 & _ & Hk2);
    [intros k; rewrite Hd1; apply (lr_sizes _ _ Hs)|rewrite Hm1; apply (lr_modules _ _ Hs)|exact R1|exact J1|].
  cbv beta match. exists s2. split; [done|]. split.
  - rewrite app_assoc in Hjd. exact (joined_trans _ _ _ _ _ [_] _ _ Hjd (joined_trans _ _ _ _ _ _ _ _ Hjd1 Hjd2)).
  - intros Hdyn. rewrite Hk2. exact (Hst Hdyn).
Qed.

(** On a driver without regions the stacks of the i-th CPU get the numbers from
    1 + 4 i on, and are ready for updates. *)
Lemma log_init_stacks s m phys sizes :
  let es := log_entries (ls_stack s) m phys (kmsg_dump_sz (ls_kmsg s)) sizes in
  CONFIG_QCOM_DYN_MINIDUMP_STACK cf = true -> an_kmsg an = Some (m, phys) -> log_ready s sizes ->
  (forall c, c ∈ an_cpus an -> length (stack_mdr (md_stack_data (ls_stack s) c)) = 4%nat) ->
  api_rep (ls_api s) [] [] -> fresh [] [] es -> joinable [] es ->
  1 + 4 * Z.of_nat (length (an_cpus an)) <= api_stable (ls_api s) ->
  exists s', msm_minidump_log_init vmalloc_phys virt_to_phys phys_to_virt sizeof_task_struct cf an s = Some (0, s') /\
    (forall i c, an_cpus an !! i = Some c -> stack_mdidx (md_stack_data (ls_stack s') c) = numbers (1 + 4 * i) 4) /\
    stacks_inv (an_cpus an) (set_sk_api (ls_stack s') (ls_api s')) es.
Proof.
  intros es Hdyn Hk Hs Hl Hrep Hf Hj Hstable. destruct (lr_stacks _ _ Hs Hdyn) as (_ & Hnd & _).
  destruct (reg_fresh _ _ _ Hf) as [Hall Hres]. pose proof Hj as [Hwf _ _ _].
  set (r := kmsg_region m phys (kmsg_dump_sz (ls_kmsg s))).
  set (st := all_entries vmalloc_phys (md_stack_data (ls_stack s)) boot_area (an_cpus an)).
  assert (exists more, es = [r] ++ st ++ more) as [more Hes].
  { eexists. unfold es, log_entries, stack_entries. rewrite Hdyn. cbn [if_entries app]. rewrite <- app_assoc. reflexivity. }
  assert (reg_result [] [] r = 0) as H0.
  { rewrite Hes in Hres. cbn [reg_results app length] in Hres. rewrite numbers_S in Hres. by injection Hres. }
  destruct (log_init_ok s m phys sizes [] [] [] Hk Hs Hrep) as (s' & Hi & [Hr _ Hst] & Hset);
    [by rewrite app_nil_r|fold r; lia|]. specialize (Hset Hdyn) as (Hv & Hinit & Hdata). exists s'. split; [exact Hi|].
  fold r in Hdata. unfold reg_next in Hdata. rewrite H0 in Hdata. cbn [Z.ltb app] in Hdata.
  fold es in Hr. rewrite Hall in Hr. cbn [app] in Hr. rewrite Hes in *.
  destruct (fresh_app _ _ _ _ Hf) as [_ [Hf' _]%fresh_app].
  apply Forall_app in Hwf as [_ [Hwf _]%Forall_app].
  apply (stacks_ready vmalloc_phys (an_cpus an) boot_area (md_stack_data (ls_stack s)) (set_sk_api (ls_stack s') (ls_api s')) [r] more);
    try done.
  cbn [sk_api set_sk_api]. rewrite Hst, length_app, all_entries_length by done. cbn [length]. lia.
Qed.

(** No buffer, or a region that is refused: an error, and nothing more is
    registered. *)
Lemma log_init_fails s m phys pend rs rest :
  let size := kmsg_dump_sz (ls_kmsg s) in
  an_kmsg an = Some (m, phys) -> 0 <= an_kmsg_register an -> kg_dumper (ls_kmsg s) = false ->
  api_rep (ls_api s) pend rs -> joinable rs (kmsg_region m phys size :: rest) ->
  reg_result pend rs (kmsg_region m phys size) < 0 ->
  exists ret s', msm_minidump_log_init vmalloc_phys virt_to_phys phys_to_virt sizeof_task_struct cf an s = Some (ret, s') /\
    ret < 0 /\ api_rep (ls_api s') pend rs /\ kmsg_buf (ls_kmsg s') = m_lo m /\ kg_dumper (ls_kmsg s') = false.
Proof.
  intros size Hk Hreg Hd Hrep Hj Href. unfold msm_minidump_log_init. rewrite Hk. fold size.
  set (k0 := KmsgState m (m_lo m) size (kg_dumper (ls_kmsg s))).
  destruct (md_kmsg_dump_register_ok (an_junk an "KMSG") (an_kmsg_register an) phys k0 (ls_api s) pend rs rest Hd Hrep Hj)
    as (ret & a & -> & Hjd & Hiff & _). cbv beta match.
  replace (an_kmsg_register an <? 0) with false in * by lia.
  change (kmsg_entry (an_junk an "KMSG") phys k0) with (kmsg_region m phys size) in *.
  assert (reg_all pend rs [kmsg_region m phys size] = rs) as Hrs.
  { change (reg_next pend rs (kmsg_region m phys size) = rs). unfold reg_next.
    by replace (reg_result pend rs (kmsg_region m phys size) <? 0) with true by lia. }
  assert (ret < 0) as Hret by (destruct (Z.ltb_spec ret 0); [done|]; destruct (proj1 Hiff ltac:(lia) Hrs)).
  replace (ret <? 0) with true by lia. eexists ret, _. split; [reflexivity|]. split; [done|].
  destruct Hjd as [Hr _ _]. rewrite Hrs in Hr. split; [exact Hr|]. split; [done|]. cbn. lia.
Qed.
End Proofs.
