(* ===== verification/MdProbe.v ===== *)
(** * The probe in SMEM mode

    [probe_init] from the pending regions to [toc_rep]. *)

From S2P Require Import Prelude CMem CStr CText MdApi MdElf MdElfRep MdElfClear MdElfRegions.
From S2P Require Import MdElfInit MdElfUpdate MdState MdToc MdRm MdDriver MdTocProofs.
From S2P Require Import MdDriverProofs.

#[local] Open Scope string_scope.
#[local] Open Scope list_scope.
#[local] Open Scope Z_scope.

(** ** The pending regions *)

(** The tables while the loop runs: [d] is done. *)
Record loop_tables (t : md_table) (phys : Z) (d : list md_region) : Prop := {
  lt_toc : exists toc, t_ss_toc t = Some toc /\ md_ss_enable_status toc = MD_SS_ENABLED /\
    ss_region_count toc = 1 + Z.of_nat (length d);
  lt_regions : md_regions t = Some (ss_table phys d);
  lt_entry : exists tail, entry t = d ++ tail;
  lt_length : length (entry t) = 201%nat;
}.

Lemma add_pending_step s t phys d e n :
  minidump_table s = Some t -> loop_tables t phys d -> num_regions s = Z.of_nat n ->
  (length d < n)%nat -> (n <= 200)%nat -> NoDup (map md_name d) -> named (md_name e) d = false ->
  entry_ok e ->
  exists t', loop_tables t' phys (d ++ [e]) /\
    (let* t := minidump_table s in
     let* entries := setZ (entry t) (Z.of_nat (length d)) e in
     md_add_ss_toc (set_table s (set_entry t entries)) e) = Some (set_table s t').
Proof.
  intros Ht [(toc & Htoc & Hen & Hc) Hreg [tail Hent] Hl] Hn Hd Hn2 Hnd Hnm He. rewrite Ht.
  rewrite setZ_of_nat by lia.
  rewrite (md_add_ss_toc_ok _ (set_entry t (<[length d := e]> (entry t))) toc phys d e n)
    by (first [done|lia|cbn; rewrite length_insert; lia]).
  eexists. split; [|reflexivity]. split; cbn.
  - eexists. split; [reflexivity|]. by split.
  - done.
  - rewrite Hent. assert (exists x tl, tail = x :: tl) as (x & tl & ->).
    { rewrite Hent, length_app in Hl. destruct tail; [simpl in Hl; lia|eauto]. }
    rewrite insert_app_r_alt, Nat.sub_diag by lia. simpl.
    replace (d ++ e :: tl) with ((d ++ [e]) ++ tl) by (by rewrite <- app_assoc).
    rewrite insert_app_r_alt by (rewrite length_app; simpl; lia). by eexists.
  - by rewrite !length_insert.
Qed.

Lemma add_pending_ok pe rest d s t phys :
  is_rm_minidump s = false -> minidump_table s = Some t -> pending_list s = rest ->
  loop_tables t phys d -> num_regions s = Z.of_nat (length (d ++ rest)) ->
  (length (d ++ rest) <= 200)%nat -> NoDup (map md_name (d ++ rest)) -> Forall entry_ok rest ->
  exists t', add_pending pe rest (Z.of_nat (length d)) s = Some (true, set_pending (set_table s t') []) /\
    loop_tables t' phys (d ++ rest).
Proof.
  revert d s t. induction rest as [|e rest IH]; intros d s t Hrm Ht Hp Htab Hn Hlen Hnd Hok.
  - exists t. rewrite app_nil_r. split; [|done]. simpl. destruct s; simpl in *. by subst.
  - apply Forall_cons_1 in Hok as [He Hok].
    assert (NoDup (map md_name d) /\ named (md_name e) d = false) as [Hnd1 Hnm].
    { rewrite map_app in Hnd. apply list.NoDup_app in Hnd as (H1 & H2 & _). split; [done|].
      apply not_true_iff_false. unfold named. rewrite existsb_exists.
      intros (x & Hx & Hxn%bool_decide_eq_true). apply (H2 (md_name e)); [|by left].
      rewrite <- Hxn. by apply list_elem_of_In, in_map. }
    simpl. rewrite Hrm.
    destruct (add_pending_step s t phys d e _ Ht Htab Hn) as (t1 & Htab1 & Hstep);
      [rewrite length_app; simpl; lia|done..|].
    rewrite Ht in *. destruct (setZ (entry t) (Z.of_nat (length d)) e) as [entries|]; [|discriminate].
    rewrite Hstep. rewrite (app_assoc d [e] rest : d ++ e :: rest = _) in *.
    replace (Z.of_nat (length d) + 1) with (Z.of_nat (length (d ++ [e]))) by (rewrite length_app; simpl; lia).
    destruct (IH (d ++ [e]) (set_pending (set_table s t1) rest) t1) as (t' & -> & Htab'); try done.
    by exists t'.
Qed.

(** ** The probe *)

(** The answers of a kernel and a firmware with which the probe succeeds. *)
Record probe_ok (pe : probe_env) (ep : elf_params) (buf : mem) (bphys : Z) : Prop := {
  po_rm : pe_rm pe = false;
  po_table : pe_table pe = true;
  po_smem : exists size gtoc, pe_smem pe = inr (size, gtoc) /\ sizeof_md_global_toc <= size /\
    md_toc_init gtoc <> 0;
  po_regions : is_Some (pe_regions pe);
  po_hdr : pe_hdr pe = Some (buf, bphys);
  po_buf : m_lo buf + 27888 <= m_hi buf /\
    forall x, m_lo buf <= x < m_lo buf + 27888 -> byte buf x = 0;
  po_params : ep = ElfParams (pe_table_addr pe) (pe_banner pe) (pe_banner_phys pe);
  po_addrs : 0 <= ep_table ep < 18446744073709551616 /\ 0 <= ep_banner ep < 18446744073709551616 /\
    0 <= ep_banner_phys ep < 18446744073709551616;
}.

Lemma set_is_rm_same s : is_rm_minidump s = false -> set_is_rm s false = s.
Proof. destruct s; simpl. by intros ->. Qed.

Lemma probe_tables_ok pe ep buf bphys s :
  probe_ok pe ep buf bphys -> is_rm_minidump s = false ->
  exists t toc, probe_tables pe s = inr (set_table s t) /\ t_ss_toc t = Some toc /\
    ss_region_count toc = 1 /\ md_regions t = Some (entries0 no_ss_region) /\
    entry t = entries0 no_region.
Proof.
  intros [_ Htbl (size & gtoc & Hsm & Hsz & Hin) [phys Hp] _ _ _ _] Hrm.
  unfold probe_tables. rewrite Hrm, Hsm, Htbl, Hp.
  destruct (Z.ltb_spec size sizeof_md_global_toc); [lia|].
  destruct (Z.eqb_spec (md_toc_init gtoc) 0); [done|]. simpl.
  eexists _, _. split; [reflexivity|]. done.
Qed.

Lemma add_header_ok pe ep buf bphys s t toc :
  probe_ok pe ep buf bphys -> is_rm_minidump s = false ->
  minidump_table s = Some t -> t_ss_toc t = Some toc -> md_regions t = Some (entries0 no_ss_region) ->
  exists m h, msm_minidump_add_header pe s = Some (0,
      set_elf (set_table s (set_md_regions t (ss_table bphys []))) m h) /\
    elf_regions ep m h [].
Proof.
  intros [_ _ _ _ Hhdr [Hb Hz] Hep Ha] Hrm Ht Htoc Hreg. unfold msm_minidump_add_header.
  rewrite Hhdr, Hrm. cbn [andb]. cbv beta match. unfold map_region0 at 1. rewrite Ht, Hreg.
  change (getZ (entries0 no_ss_region) 0) with (Some no_ss_region).
  cbv beta match. rewrite Hep in Ha. simpl in Ha.
  destruct (fill_header_ok buf (pe_table_addr pe) (pe_banner pe) (pe_banner_phys pe))
    as (m & h & Hf & Hel & _); [done|done|apply Ha..|].
  rewrite Hf. cbv beta match. exists m, h. rewrite Hep. split; [|exact Hel].
  change (entries0 no_ss_region) with ([] ++ no_ss_region :: replicate 200 no_ss_region).
  rewrite setZ_mid by done. cbv beta match. cbn [is_rm_minidump set_elf set_table]. rewrite Hrm.
  unfold map_region0. cbn [minidump_table set_elf set_table md_regions set_md_regions].
  cbv beta match. rewrite getZ_mid by done. rewrite setZ_mid by done. reflexivity.
Qed.

(** The state when the loop over the pending regions starts. *)
Record loop_start (s s3 : md_state) (t3 : md_table) (ep : elf_params) (bphys : Z) : Prop := {
  ls_lock : mdt_lock s3 = true;
  ls_remove_lock : mdt_remove_lock s3 = 0;
  ls_rm : is_rm_minidump s3 = false;
  ls_table : minidump_table s3 = Some t3;
  ls_tables : loop_tables t3 bphys [];
  ls_num : num_regions s3 = num_regions s;
  ls_pending : pending_list s3 = pending_list s;
  ls_first : first_removed_entry s3 = first_removed_entry s;
  ls_elf : elf_regions ep (elf_buf s3) (minidump_elfheader s3) [];
}.

Lemma probe_init_loop pe ep buf bphys s :
  probe_ok pe ep buf bphys -> unlocked s -> is_rm_minidump s = false ->
  exists s3 t3, loop_start s s3 t3 ep bphys /\
    probe_init pe s =
      (let* (ok, s) := add_pending pe (pending_list s) 0 s3 in
       let* s := spin_unlock s in
       if negb ok then Some (Some (- ENOMEM), s) else Some (None, set_init_done s true)).
Proof.
  intros Hpe [Hl Hr] Hrm. unfold probe_init.
  rewrite (po_rm _ _ _ _ Hpe), (set_is_rm_same s Hrm).
  destruct (probe_tables_ok pe ep buf bphys s Hpe Hrm) as (t & toc & -> & Htoc & Hc & Hreg & Hent).
  destruct (add_header_ok pe ep buf bphys (set_table s t) t toc Hpe Hrm eq_refl Htoc Hreg)
    as (m & h & -> & Hel).
  unfold spin_lock. cbn [mdt_lock set_elf set_table]. rewrite Hl. cbn [negb assert_c]. cbv beta match.
  cbn [is_rm_minidump set_locks set_elf set_table]. rewrite Hrm.
  unfold enable_toc. cbn [minidump_table set_locks set_elf set_table t_ss_toc set_md_regions].
  rewrite Htoc. eexists _, _. split; [|reflexivity]. split; try done.
  split.
  - eexists. split; [reflexivity|]. cbn. by rewrite Hc.
  - done.
  - by exists (entry t).
  - cbn [entry set_toc set_md_regions]. rewrite Hent. by apply length_replicate.
Qed.

Lemma probe_init_ok pe ep buf bphys s :
  probe_ok pe ep buf bphys -> pending_state s -> (length (pending_list s) <= 200)%nat ->
  NoDup (map md_name (pending_list s)) -> Forall entry_ok (pending_list s) ->
  exists s', probe_init pe s = Some (None, s') /\ toc_rep ep s' (pending_list s) [] /\
    pending_list s' = [] /\ first_removed_entry s' = first_removed_entry s /\
    (exists t, minidump_table s' = Some t /\ md_regions t = Some (ss_table bphys (pending_list s))).
Proof.
  intros Hpe [Hu Hrm Hi Ht0 Hn Hroom] Hlen Hnd Hok.
  destruct (probe_init_loop pe ep buf bphys s Hpe Hu Hrm)
    as (s3 & t3 & [Hl3 Hr3 Hrm3 Ht3 Htab Hn3 Hp3 Hf3 Hel3] & ->).
  destruct (add_pending_ok pe (pending_list s) [] s3 t3 bphys Hrm3 Ht3 Hp3 Htab)
    as (t' & Hadd & [(toc' & Htoc' & Hen & Hc') Hreg' Hent' Hlen']); [by rewrite Hn3|done..|].
  simpl length in Hadd. change (Z.of_nat 0) with 0 in Hadd. rewrite Hadd. cbv beta match.
  unfold spin_unlock. cbn [mdt_lock set_pending set_table]. rewrite Hl3. cbn [negb assert_c].
  simpl app in *. eexists. split; [reflexivity|]. split.
  - split; [by split|]. split; [|exact Hel3]. rewrite app_nil_r.
    split; [exact Hrm3|done|by rewrite <- Hn|]. exists t'. split; [done|]. split; try done.
    + by exists toc'.
    + by exists bphys.
  - split; [done|]. split; [done|]. by exists t'.
Qed.

(** One pending region too many: the first copy is made behind the table. *)
Lemma probe_init_overflow pe ep buf bphys s :
  probe_ok pe ep buf bphys -> pending_state s -> length (pending_list s) = 201%nat ->
  probe_init pe s = None.
Proof.
  intros Hpe [Hu Hrm Hi Ht0 Hn Hroom] Hlen.
  destruct (probe_init_loop pe ep buf bphys s Hpe Hu Hrm)
    as (s3 & t3 & [Hl3 Hr3 Hrm3 Ht3 Htab Hn3 Hp3 Hf3 Hel3] & ->).
  destruct (pending_list s) as [|e rest]; [done|]. simpl. rewrite Hrm3, Ht3.
  pose proof (lt_length _ _ _ Htab) as Hl. pose proof (lt_toc _ _ _ Htab) as (toc & Htoc & _).
  rewrite setZ_Some by (rewrite Hl; lia). cbn [md_add_ss_toc minidump_table set_table].
  unfold md_add_ss_toc. cbn [minidump_table set_table t_ss_toc set_entry]. rewrite Htoc.
  cbn [num_regions set_table entry set_entry]. rewrite Hn3, Hn, Hlen.
  unfold setZ. rewrite length_insert, Hl. done.
Qed.
