(* ===== verification/MdRmProofs.v ===== *)
(** * The resource-manager mode as two lists

    [rm_rep ep s w rs ps] is the state of a probed driver in resource-manager
    mode: [rs] are registered, with ELF headers; [ps] wait, in the order of
    their requests.  [w] is the request the worker has begun.  Every call of
    the API and every step of the worker is a step of [rm_abs] on these
    lists; no step faults, whatever the resource manager answers. *)

From S2P Require Import Prelude CMem CStr CText MdApi MdElf MdElfRep MdElfClear MdElfRegions.
From S2P Require Import MdElfUpdate MdElfRequests MdState MdToc MdRm MdDriver MdTocProofs.
From S2P Require Import MdDriverProofs.

#[local] Open Scope string_scope.
#[local] Open Scope list_scope.
#[local] Open Scope Z_scope.

(** ** The representation *)

(** The regions of this mode are not empty, small enough that 197 of them
    have file offsets, and do not have the names of the fixed sections. *)
Record rm_region_ok (e : md_region) : Prop := {
  ro_ok : entry_ok e;
  ro_size : 0 < md_size e < 72057594037927936;
  ro_name : md_name e ∉ fixed_names;
}.

Definition adds_of (q : list md_rm_request) : list md_region :=
  flat_map (fun rq => match work_cmd rq with MINIDUMP_ADD => [rq_entry rq] | _ => [] end) q.

Definition begun_add (w : option rm_begun) : list md_region :=
  match w with Some (Adding e _) => [e] | _ => [] end.

Definition request_ok (rq : md_rm_request) : Prop :=
  match work_cmd rq with
  | MINIDUMP_ADD => True
  | MINIDUMP_REMOVE => no_nul (md_name (rq_entry rq)) = true
  | MINIDUMP_UPDATE => entry_ok (rq_entry rq)
  | MINIDUMP_NO_CMD => False
  end.

(** What a begun request remembers still holds: the index is that of its name. *)
Definition begun_ok (w : option rm_begun) (rs ps : list md_region) : Prop :=
  match w with
  | None => True
  | Some (Adding _ k) => k = Z.of_nat (length rs)
  | Some (Removing e k _) => no_nul (md_name e) = true /\
      exists i, k = Z.of_nat i /\ map md_name (rs ++ ps) !! i = Some (md_name e)
  | Some (Updating e k _) => entry_ok e /\
      exists i, k = Z.of_nat i /\ map md_name (rs ++ ps) !! i = Some (md_name e)
  end.

Record rm_tables (s : md_state) (t : md_rm_table) (all : list md_region) : Prop := {
  rt_table : minidump_rm_table s = Some t;
  rt_entry : exists l tail, rm_entry t = l ++ tail /\ map rm_name l = map md_name all;
  rt_length : length (rm_entry t) = 201%nat;
  rt_num : num_regions s = Z.of_nat (length all);
  rt_ok : Forall rm_region_ok all;
  rt_nodup : NoDup (map md_name all);
  rt_room : (length all <= 197)%nat;
}.

Record rm_rep (ep : elf_params) (s : md_state) (w : option rm_begun) (rs ps : list md_region)
  : Prop := {
  rr_unlocked : unlocked s;
  rr_rm : is_rm_minidump s = true;
  rr_init : md_init_done s = true;
  rr_table : exists t, rm_tables s t (rs ++ ps) /\
    begun_add w ++ adds_of (minidump_rm_wq t) = ps /\ Forall request_ok (minidump_rm_wq t);
  rr_begun : begun_ok w rs ps;
  rr_elf : elf_regions ep (elf_buf s) (minidump_elfheader s) rs;
}.

Definition rm_queue (s : md_state) : list md_rm_request :=
  match minidump_rm_table s with Some t => minidump_rm_wq t | None => [] end.

(** ** The table *)

Lemma list_find_names {A B} (f : A -> string) (g : B -> string) l l' n :
  map f l = map g l' ->
  (fst <$> list_find (fun x => f x = n) l) = (fst <$> list_find (fun x => g x = n) l').
Proof.
  revert l'. induction l as [|x l IH]; intros [|y l'] Hm; try discriminate; [done|].
  injection Hm as Hxy Hm. simpl. destruct (decide (f x = n)), (decide (g y = n)); try congruence; [done|].
  specialize (IH l' Hm).
  destruct (list_find _ l) as [[i a]|], (list_find _ l') as [[j b]|]; simpl in *; congruence.
Qed.

Lemma md_rm_entry_num_spec s t all e :
  rm_tables s t all ->
  md_rm_entry_num s e = Some (match region_index all (md_name e) with
                              | Some i => Z.of_nat i
                              | None => - ENOENT
                              end).
Proof.
  intros [Ht (l & tail & He & Hl) _ Hn _ _ Hroom]. unfold md_rm_entry_num, region_index.
  rewrite Hn, s32_count, Ht by lia. destruct (Z.leb_spec (Z.of_nat (length all)) 0).
  { destruct all; [done|]. simpl in *. lia. }
  assert (length all = length l) as Hlen by (rewrite <- (length_map md_name), <- Hl; apply length_map).
  rewrite Hlen, Nat2Z.id, He. rewrite name_num_spec.
  pose proof (list_find_names rm_name md_name l all (md_name e) Hl) as Hf.
  destruct (list_find _ l) as [[i x]|], (list_find _ all) as [[j y]|]; simpl in *; congruence.
Qed.

(** A name that is in the table: the entry read, and a new slot number. *)
Lemma rm_entry_at s t all i n :
  rm_tables s t all -> map md_name all !! i = Some n ->
  exists mdr, getZ (rm_entry t) (Z.of_nat i) = Some mdr /\ rm_name mdr = n.
Proof.
  intros [_ (l & tail & He & Hl) _ _ _ _ _] Hi. rewrite <- Hl in Hi.
  apply list_lookup_fmap_Some in Hi as (x & -> & Hx). exists x. split; [|done].
  rewrite getZ_of_nat, He. by apply lookup_app_l_Some.
Qed.

Lemma rm_tables_slot s t all i n slot :
  rm_tables s t all -> map md_name all !! i = Some n ->
  exists t', set_slot t (Z.of_nat i) slot = Some t' /\ minidump_rm_wq t' = minidump_rm_wq t /\
    forall s', minidump_rm_table s' = Some t' -> num_regions s' = num_regions s -> rm_tables s' t' all.
Proof.
  intros Ht Hi. destruct (rm_entry_at _ _ _ _ _ Ht Hi) as (mdr & Hg & _).
  pose proof (getZ_Some_range _ _ _ Hg) as Hr. unfold set_slot. rewrite Hg.
  rewrite setZ_of_nat by lia. eexists. split; [reflexivity|]. split; [done|].
  destruct Ht as [_ (l & tail & He & Hl) Hlen Hn Hok Hnd Hroom]. intros s' Ht' Hn'.
  split; cbn [rm_entry]; try done; [| by rewrite length_insert|congruence].
  assert ((i < length l)%nat) as Hil.
  { rewrite <- Hl in Hi. apply lookup_lt_Some in Hi. by rewrite length_map in Hi. }
  rewrite getZ_of_nat, He, lookup_app_l in Hg by lia.
  exists (<[i := MdRmRegion (rm_name mdr) slot]> l), tail. rewrite He, insert_app_l by lia.
  split; [done|]. rewrite <- Hl. by apply (map_insert_same _ _ _ mdr).
Qed.

(** Removing entry [i]. *)
Lemma rm_tables_remove s t l1 r l2 :
  rm_tables s t (l1 ++ r :: l2) ->
  exists t', remove_rm_entry s (Z.of_nat (length l1))
      = Some (set_num_regions (set_rm_table s t') (Z.of_nat (length (l1 ++ l2)))) /\
    minidump_rm_wq t' = minidump_rm_wq t /\
    forall s', minidump_rm_table s' = Some t' -> num_regions s' = Z.of_nat (length (l1 ++ l2)) ->
      rm_tables s' t' (l1 ++ l2).
Proof.
  intros [Ht (l & tail & He & Hl) Hlen Hn Hok Hnd Hroom].
  rewrite map_app in Hl. apply map_eq_app in Hl as (a & b & -> & Ha & Hb).
  simpl in Hb. apply map_eq_cons in Hb as (x & b' & -> & Hx & Hb).
  assert (length a = length l1) as Hla by (rewrite <- (length_map rm_name), Ha; apply length_map).
  assert (length b' = length l2) as Hlb by (rewrite <- (length_map rm_name), Hb; apply length_map).
  unfold remove_rm_entry. rewrite Ht, He.
  rewrite remove_slot_mid by (rewrite ?Hn, ?length_app; simpl; lia). rewrite Hn, length_app.
  rewrite length_app in Hroom. simpl in *.
  rewrite u32_small by lia. eexists. split; [rewrite length_app; do 3 f_equal; lia|].
  split; [done|]. intros s' Ht' Hn'. apply Forall_app in Hok as [H1 H2]. apply Forall_cons_1 in H2 as [_ H2].
  rewrite map_app in Hnd. simpl in Hnd. split; cbn [rm_entry]; try done.
  - exists (a ++ b'), (no_rm_region :: tail). split; [done|]. by rewrite !map_app, Ha, Hb.
  - rewrite He in Hlen. rewrite !length_app in *. simpl in *. lia.
  - by apply Forall_app.
  - rewrite map_app. apply NoDup_ListNoDup. apply NoDup_ListNoDup in Hnd.
    by apply List.NoDup_remove_1 in Hnd.
  - rewrite length_app. lia.
Qed.

Lemma rm_tables_add s t all e :
  rm_tables s t all -> rm_region_ok e -> named (md_name e) all = false -> (length all < 197)%nat ->
  exists entries, setZ (rm_entry t) (Z.of_nat (length all)) (MdRmRegion (md_name e) 0) = Some entries /\
    forall s' q, minidump_rm_table s' = Some (MdRmTable q entries) ->
      num_regions s' = Z.of_nat (length (all ++ [e])) -> rm_tables s' (MdRmTable q entries) (all ++ [e]).
Proof.
  intros [Ht (l & tail & He & Hl) Hlen Hn Hok Hnd Hroom] Heok Hnm Hlt.
  assert (length l = length all) as Hla by (rewrite <- (length_map rm_name), Hl; apply length_map).
  rewrite setZ_of_nat by lia. eexists. split; [reflexivity|]. intros s' q Ht' Hn'.
  split; cbn [rm_entry]; try done.
  - rewrite He in Hlen. rewrite length_app in Hlen. destruct tail as [|x tail]; [simpl in *; lia|].
    rewrite He, <- Hla. rewrite insert_app_r_alt, Nat.sub_diag by lia. simpl.
    exists (l ++ [MdRmRegion (md_name e) 0]), tail. rewrite <- app_assoc. split; [done|].
    by rewrite !map_app, Hl.
  - by rewrite length_insert.
  - apply Forall_app. split; [done|]. by apply Forall_singleton.
  - rewrite map_app. apply list.NoDup_app. split; [done|]. split; [|apply NoDup_singleton].
    intros n Hin ->%list_elem_of_singleton. apply not_true_iff_false in Hnm. apply Hnm.
    unfold named. apply existsb_exists. apply list_elem_of_In, in_map_iff in Hin as (r & Hr & Hin).
    exists r. split; [done|]. by apply bool_decide_eq_true.
  - rewrite length_app. simpl. lia.
Qed.

(** ** The calls of the API *)

Lemma rm_tables_same s s' t all :
  rm_tables s t all -> minidump_rm_table s' = minidump_rm_table s ->
  num_regions s' = num_regions s -> rm_tables s' t all.
Proof. intros [] ? ?. split; congruence. Qed.

(** The number of regions, or an error. *)
Definition rm_add_result (alloc : bool) (e : md_region) (all : list md_region) : Z :=
  if negb (validate_region (Some e) =? 0) then - EINVAL
  else if named (md_name e) all then - EEXIST
  else if alloc then Z.of_nat (length all) else - ENOMEM.

Lemma rm_add_locked alloc ep s w rs ps e :
  rm_rep ep s w rs ps -> rm_region_ok e -> (length (rs ++ ps) < 197)%nat ->
  exists s', add_region_locked alloc e (set_locks s true 0) =
      Some (rm_add_result alloc e (rs ++ ps), set_locks s' true 0) /\ unlocked s' /\
    (rm_add_result alloc e (rs ++ ps) < 0 -> s' = s) /\
    (0 <= rm_add_result alloc e (rs ++ ps) ->
       named (md_name e) (rs ++ ps) = false /\ rm_rep ep s' w rs (ps ++ [e])).
Proof.
  intros [Hu Hrm Hin (t & Htab & Hw & Hq) Hb Hel] He Hlt. pose proof Htab as [Ht _ _ Hn _ _ _].
  assert (add_region_locked alloc e (set_locks s true 0) =
    let* num := md_rm_entry_num (set_locks s true 0) e in
    let* (ret, s) := if 0 <=? num then Some (- EEXIST, set_locks s true 0)
                     else md_rm_add_region alloc (set_locks s true 0) e in
    if negb (ret =? 0) then Some (ret, s)
    else Some (s32 (num_regions s), set_num_regions s (u32 (num_regions s + 1)))) as ->.
  { unfold add_region_locked, toc_enabled. cbn. rewrite Hn, Hrm, Hin.
    unfold MAX_NUM_ENTRIES, CONFIG_MINIDUMP_MAX_ENTRIES. decide_tests.
    by destruct (md_rm_entry_num _ _). }
  rewrite (md_rm_entry_num_spec _ t (rs ++ ps)) by (by apply (rm_tables_same s)).
  unfold rm_add_result. rewrite (entry_ok_valid e (ro_ok _ He)). cbn [Z.eqb negb].
  destruct (region_index (rs ++ ps) (md_name e)) as [i|] eqn:Hi.
  { assert (named (md_name e) (rs ++ ps) = true) as ->.
    { apply not_false_is_true. intros Hf%region_index_None. congruence. }
    exists s. decide_tests. split; [done|]. split; [done|]. split; [done|]. unfold EEXIST. lia. }
  apply region_index_None in Hi. rewrite Hi. change (0 <=? - ENOENT) with false. unfold md_rm_add_region.
  destruct alloc; cbn [negb]; cycle 1.
  { exists s. split; [done|]. split; [done|]. split; [done|]. unfold ENOMEM. lia. }
  cbn [minidump_rm_table set_locks]. rewrite Ht. cbv beta match. cbn [num_regions set_locks].
  destruct (rm_tables_add _ _ _ _ Htab He Hi Hlt) as (entries & Hset & Hnew).
  rewrite strscpy_fits by (pose proof (eo_name _ (ro_ok _ He)); unfold MAX_NAME_LENGTH in *; lia).
  cbn [fst]. rewrite Hn, Hset. cbv beta match. cbn [Z.eqb negb num_regions set_rm_table set_locks].
  rewrite Hn, s32_small, u32_small by lia.
  exists (set_num_regions (set_rm_table s (queue_work (MdRmTable (minidump_rm_wq t) entries) MINIDUMP_ADD e))
    (Z.of_nat (length (rs ++ ps)) + 1)).
  split; [done|]. split; [by split; apply Hu|]. split; [lia|]. intros _. split; [done|].
  split; try done.
  - exists (MdRmTable (minidump_rm_wq t ++ [MdRmRequest e MINIDUMP_ADD]) entries). split; [|split].
    + rewrite app_assoc. apply Hnew; [done|]. cbn. rewrite (length_app (rs ++ ps)). simpl. lia.
    + cbn. unfold adds_of in *. rewrite flat_map_app, app_assoc, Hw. done.
    + cbn. apply Forall_app. split; [done|]. by apply Forall_singleton.
  - clear -Hb. destruct w as [[]|]; try done; simpl in *.
    + destruct Hb as (? & i & -> & Hi). split; [done|]. exists i. split; [done|].
      rewrite app_assoc, map_app. by apply lookup_app_l_Some.
    + destruct Hb as (? & i & -> & Hi). split; [done|]. exists i. split; [done|].
      rewrite app_assoc, map_app. by apply lookup_app_l_Some.
Qed.

Lemma rm_add_region alloc ep s w rs ps e :
  rm_rep ep s w rs ps -> rm_region_ok e -> (length (rs ++ ps) < 197)%nat ->
  exists s', msm_minidump_add_region alloc (Some e) s = Some (rm_add_result alloc e (rs ++ ps), s') /\
    (rm_add_result alloc e (rs ++ ps) < 0 -> s' = s) /\
    (0 <= rm_add_result alloc e (rs ++ ps) ->
       named (md_name e) (rs ++ ps) = false /\ rm_rep ep s' w rs (ps ++ [e])).
Proof.
  intros Hrep He Hlt. destruct (rm_add_locked alloc ep s w rs ps e Hrep He Hlt) as (s' & Ha & Hu & H1 & H2).
  exists s'. split; [|done].
  rewrite (add_region_valid _ _ _ _ _ (entry_ok_valid e (ro_ok _ He)) (rr_unlocked _ _ _ _ _ Hrep) Ha) by done.
  by rewrite (set_locks_same s' Hu : set_locks (set_locks s' true 0) false 0 = s').
Qed.

(** A request that does not change the lists is queued, or refused. *)
Lemma rm_queue_ok cmd alloc ep s w rs ps e b n :
  rm_rep ep s w rs ps -> cmd <> MINIDUMP_ADD -> request_ok (MdRmRequest e cmd) ->
  exists ret s', md_rm_queue cmd alloc (set_locks s b n) e = Some (ret, set_locks s' b n) /\
    rm_rep ep s' w rs ps /\
    (ret = if named (md_name e) (rs ++ ps) then if alloc then 0 else - ENOMEM else - ENOENT) /\
    (ret <> 0 -> s' = s).
Proof.
  intros Hrep Hc Hok. pose proof Hrep as [Hu Hrm Hin (t & Htab & Hw & Hq) Hb Hel]. unfold md_rm_queue.
  rewrite (md_rm_entry_num_spec _ t (rs ++ ps)) by (by apply (rm_tables_same s)).
  destruct (region_index (rs ++ ps) (md_name e)) as [i|] eqn:Hi.
  - assert (named (md_name e) (rs ++ ps) = true) as ->.
    { apply not_false_is_true. intros Hf%region_index_None. congruence. }
    decide_tests. destruct alloc; cbn [negb].
    + cbn [minidump_rm_table set_locks]. rewrite (rt_table _ _ _ Htab). cbv beta match.
      exists 0, (set_rm_table s (queue_work t cmd e)). split; [done|]. split; [|done].
      split; try done. exists (queue_work t cmd e). split; [|split].
      * pose proof Htab as []. by split.
      * cbn. unfold adds_of in *. rewrite flat_map_app, app_assoc, Hw. destruct cmd; try done.
        all: simpl; by rewrite app_nil_r.
      * cbn. apply Forall_app. split; [done|]. by apply Forall_singleton.
    + exists (- ENOMEM), s. split_and!; try done.
  - apply region_index_None in Hi. rewrite Hi. exists (- ENOENT), s. by split_and!.
Qed.

Lemma rm_update_region alloc regno ep s w rs ps e :
  rm_rep ep s w rs ps -> (forall e', e = Some e' -> region_wf e') ->
  exists ret s', msm_minidump_update_region alloc regno e s = Some (ret, s') /\ rm_rep ep s' w rs ps /\
    (ret <> 0 -> s' = s).
Proof.
  intros Hrep Hwf. pose proof Hrep as [[Hl Hr] Hrm Hin _ _ _]. unfold msm_minidump_update_region.
  rewrite Hin. cbn [negb]. destruct (Z.eqb_spec (validate_region e) 0) as [Hv|]; cbn [negb orb];
    [|by exists (- EINVAL), s].
  destruct (MAX_NUM_ENTRIES <=? regno); [by exists (- EINVAL), s|].
  destruct e as [e|]; [|done]. cbv beta match. unfold read_lock. rewrite Hr. cbn [Z.leb Z.compare assert_c].
  cbv beta match. cbn [is_rm_minidump set_locks]. rewrite Hrm, Hl. unfold md_rm_update.
  destruct (rm_queue_ok MINIDUMP_UPDATE alloc ep s w rs ps e false 1 Hrep) as (ret & s' & Hq & Hrep' & _ & Hs);
    [done|exact (validate_entry_ok e (Hwf e eq_refl) Hv)|].
  change (0 + 1) with 1. rewrite Hq. exists ret, s'. split; [|done]. cbn. change (1 - 1) with 0.
  by rewrite (set_locks_same s' (rr_unlocked _ _ _ _ _ Hrep') : set_locks (set_locks s' false 1) false 0 = s').
Qed.

Lemma rm_remove_region alloc ep s w rs ps e :
  rm_rep ep s w rs ps -> (forall e', e = Some e' -> region_wf e') ->
  exists ret s', msm_minidump_remove_region alloc e s = Some (ret, s') /\ rm_rep ep s' w rs ps /\
    (ret <> 0 -> s' = s).
Proof.
  intros Hrep Hwf. pose proof Hrep as [[Hl Hr] Hrm Hin _ _ _]. unfold msm_minidump_remove_region.
  destruct e as [e|]; [|by exists (- EINVAL), s]. rewrite Hin, Hrm. cbn [negb]. cbv beta match.
  unfold spin_lock. rewrite Hl. cbn [negb assert_c]. cbv beta match. unfold write_lock.
  cbn [mdt_remove_lock mdt_lock set_locks]. rewrite Hr. cbn [Z.eqb assert_c]. cbv beta match.
  cbn [is_rm_minidump set_locks]. rewrite Hrm. unfold md_rm_remove_region.
  destruct (rm_queue_ok MINIDUMP_REMOVE alloc ep s w rs ps e true (-1) Hrep) as (ret & s' & Hq & Hrep' & _ & Hs);
    [done|exact (rw_name _ (Hwf e eq_refl))|].
  change (set_locks (set_locks s true 0) true (-1)) with (set_locks s true (-1)) in *.
  rewrite Hq. exists ret, s'. split; [|done]. cbn.
  by rewrite (set_locks_same s' (rr_unlocked _ _ _ _ _ Hrep') : set_locks (set_locks (set_locks s' true (-1)) true 0) false 0 = s').
Qed.

(** ** The worker *)

Lemma region_index_queue s t rs ps w e q :
  rm_tables s t (rs ++ ps) -> begun_add w ++ adds_of (MdRmRequest e MINIDUMP_ADD :: q) = ps ->
  w = None -> region_index (rs ++ ps) (md_name e) = Some (length rs) /\ exists ps', ps = e :: ps'.
Proof.
  intros Ht Hw ->. simpl in Hw. subst ps. split; [|by eexists].
  apply region_index_app; [done|apply Ht].
Qed.

(** A request that is not an addition: it is begun with the index of its name,
    or dropped. *)
Lemma begin_other s t rs ps e q :
  rm_tables s t (rs ++ ps) -> region_index (rs ++ ps) (md_name e) = q ->
  match q with
  | Some i => map md_name (rs ++ ps) !! i = Some (md_name e)
  | None => True
  end.
Proof.
  intros Ht <-. destruct (region_index _ _) as [i|] eqn:Hi; [|done].
  apply region_index_Some in Hi as (r & Hr & Hn); [|apply Ht]. rewrite <- Hn. by apply lookup_map.
Qed.

(** The state after the first request has been taken from the queue. *)
Lemma rm_rep_pop ep s t rs ps rq q :
  rm_rep ep s None rs ps -> minidump_rm_table s = Some t -> minidump_rm_wq t = rq :: q ->
  rm_tables (set_rm_table s (MdRmTable q (rm_entry t))) (MdRmTable q (rm_entry t)) (rs ++ ps) /\
  adds_of (rq :: q) = ps /\ request_ok rq /\ Forall request_ok q.
Proof.
  intros [_ _ _ (t' & Htab & Hw & Hq) _ _] Ht Hwq. pose proof (rt_table _ _ _ Htab) as Ht'.
  rewrite Ht in Ht'. injection Ht' as <-. rewrite Hwq in Hw, Hq. apply Forall_cons_1 in Hq as [Hrq Hq].
  split; [|done]. destruct Htab. by split.
Qed.

Lemma work_begin_ok ep s rs ps :
  rm_rep ep s None rs ps ->
  exists w s', work_begin s = Some (w, s') /\ rm_rep ep s' w rs ps /\ rm_queue s' = tail (rm_queue s).
Proof.
  intros Hrep. pose proof Hrep as [[Hl Hr] Hrm Hin (t & Htab & Hw & Hq) _ Hel].
  unfold rm_queue at 2. unfold work_begin. rewrite (rt_table _ _ _ Htab). cbv beta match.
  destruct (minidump_rm_wq t) as [|[e cmd] q] eqn:Hwq.
  { exists None, s. unfold rm_queue. by rewrite (rt_table _ _ _ Htab), Hwq. }
  destruct (rm_rep_pop ep s t rs ps _ _ Hrep (rt_table _ _ _ Htab) Hwq) as (Htab1 & Hadds & Hrq & Hq1).
  set (t1 := MdRmTable q (rm_entry t)) in *. set (s1 := set_rm_table s t1) in *.
  pose proof (begin_other s1 t1 rs ps e _ Htab1 eq_refl) as Hidx.
  assert (forall w t' s', minidump_rm_wq t' = q -> unlocked s' -> is_rm_minidump s' = true ->
    md_init_done s' = true -> elf_buf s' = elf_buf s -> minidump_elfheader s' = minidump_elfheader s ->
    rm_tables s' t' (rs ++ ps) -> begun_ok w rs ps -> begun_add w ++ adds_of q = ps ->
    rm_rep ep s' w rs ps /\ rm_queue s' = q) as Hgo.
  { intros w t' s' Hq' ? ? ? Hm Hh Htab' ? ?. split; [|by unfold rm_queue; rewrite (rt_table _ _ _ Htab')].
    split; try done; [|by rewrite Hm, Hh]. exists t'. rewrite Hq'. by split_and!. }
  assert (rm_tables (set_locks s1 true (mdt_remove_lock s1)) t1 (rs ++ ps)) as Htab2
    by (by apply (rm_tables_same s1)).
  assert (mdt_lock s1 = false) as Hl1 by done.
  destruct cmd; cbn [work_cmd rq_entry]; try done.
  - unfold md_rm_add_begin, spin_lock, spin_unlock. rewrite Hl1. cbn [negb assert_c]. cbv beta match.
    rewrite (md_rm_entry_num_spec _ t1 (rs ++ ps)) by done.
    destruct (region_index_queue s1 t1 rs ps None e q Htab1 Hadds eq_refl) as [Hi (ps' & Hps)].
    rewrite Hi. cbn. decide_tests. eexists _, _. split; [reflexivity|].
    by apply (Hgo _ t1); try done; apply (rm_tables_same s1).
  - unfold md_rm_remove_begin, spin_lock, spin_unlock. rewrite Hl1. cbn [negb assert_c]. cbv beta match.
    rewrite (md_rm_entry_num_spec _ t1 (rs ++ ps)) by done.
    destruct (region_index (rs ++ ps) (md_name e)) as [i|]; cycle 1.
    { cbn. eexists _, _. split; [reflexivity|]. by apply (Hgo _ t1); try done; apply (rm_tables_same s1). }
    decide_tests. cbn [minidump_rm_table set_locks set_rm_table s1].
    destruct (rm_entry_at _ _ _ _ _ Htab1 Hidx) as (mdr & Hg & Hn). rewrite Hg. cbv beta match.
    destruct (slot_num mdr =? 0).
    { cbn. eexists _, _. split; [reflexivity|]. by apply (Hgo _ t1); try done; apply (rm_tables_same s1). }
    destruct (rm_tables_slot _ _ _ _ _ 0 Htab1 Hidx) as (t2 & Hs & Hq2 & Htab3). rewrite Hs.
    cbn. eexists _, _. split; [reflexivity|]. apply (Hgo _ t2); try done.
    + by apply Htab3.
    + simpl. eauto.
  - unfold md_rm_update_begin, spin_lock, spin_unlock. rewrite Hl1. cbn [negb assert_c]. cbv beta match.
    rewrite (md_rm_entry_num_spec _ t1 (rs ++ ps)) by done.
    destruct (region_index (rs ++ ps) (md_name e)) as [i|]; cycle 1.
    { cbn. eexists _, _. split; [reflexivity|]. by apply (Hgo _ t1); try done; apply (rm_tables_same s1). }
    decide_tests. cbn [minidump_rm_table set_locks set_rm_table s1].
    destruct (rm_entry_at _ _ _ _ _ Htab1 Hidx) as (mdr & Hg & Hn). rewrite Hg. cbv beta match.
    destruct (rm_tables_slot _ _ _ _ _ 0 Htab1 Hidx) as (t2 & Hs & Hq2 & Htab3). rewrite Hs.
    cbn. eexists _, _. split; [reflexivity|]. apply (Hgo _ t2); try done.
    + by apply Htab3.
    + simpl. eauto.
Qed.

(** ** The end of a request *)

(** What the resource manager's answer does to the lists. *)
Inductive rm_abs : list md_region * list md_region -> list md_region * list md_region -> Prop :=
| abs_same rs ps : rm_abs (rs, ps) (rs, ps)
| abs_queued rs ps e : named (md_name e) (rs ++ ps) = false -> rm_abs (rs, ps) (rs, ps ++ [e])
| abs_registered rs ps e : rm_abs (rs, e :: ps) (rs ++ [e], ps)
| abs_rejected rs ps e : rm_abs (rs, e :: ps) (rs, ps)
| abs_removed rs1 r rs2 ps : rm_abs (rs1 ++ r :: rs2, ps) (rs1 ++ rs2, ps)
| abs_moved rs ps k r e : rs !! k = Some r -> rm_abs (rs, ps) (<[k := moved r e]> rs, ps).

Lemma region_sizes_bound rs :
  Forall rm_region_ok rs -> (length rs <= 197)%nat ->
  27888 + sizes rs + 72057594037927936 < 18446744073709551616.
Proof.
  intros Hok Hlen. assert (sizes rs <= 72057594037927936 * Z.of_nat (length rs)).
  { clear Hlen. unfold sizes. induction Hok as [|e rs [_ Hs _] _ IH]; simpl; lia. }
  lia.
Qed.

(** The lock around what an end does. *)
Lemma rm_tables_locks s t all b n : rm_tables s t all -> rm_tables (set_locks s b n) t all.
Proof. intros H. by apply (rm_tables_same s). Qed.

Lemma name_lookup_app l1 (r : md_region) l2 :
  map md_name (l1 ++ r :: l2) !! length l1 = Some (md_name r).
Proof. apply lookup_map. by rewrite lookup_app_r, Nat.sub_diag by lia. Qed.

Lemma add_end_ok ep s e k rs ps a :
  rm_rep ep s (Some (Adding e k)) rs ps ->
  exists s' ps', ps = e :: ps' /\ md_rm_add_end s e k a = Some s' /\
    rm_rep ep s' None (if ra_register a <? 0 then rs else rs ++ [e]) ps' /\ rm_queue s' = rm_queue s.
Proof.
  intros [Hu Hrm Hin (t & Htab & Hw & Hq) Hk Hel]. simpl in Hk, Hw. subst k ps.
  set (ps := adds_of (minidump_rm_wq t)) in *. exists (if ra_register a <? 0 then
    match remove_rm_entry (set_locks s true 0) (Z.of_nat (length rs)) with
    | Some s' => set_locks s' false 0 | None => s end else
    match md_rm_add_end s e (Z.of_nat (length rs)) a with Some s' => s' | None => s end), ps.
  split; [done|]. pose proof Hu as [Hl Hr].
  unfold md_rm_add_end, spin_lock, spin_unlock. rewrite Hl, Hr. cbn [negb assert_c]. cbv beta match.
  pose proof (rm_tables_locks s t _ true 0 Htab) as Htab1.
  destruct (Z.ltb_spec (ra_register a) 0) as [Hneg|Hpos].
  - destruct (rm_tables_remove _ _ _ _ _ Htab1) as (t' & -> & Hq' & Htab').
    cbn. split; [done|]. split; [|by unfold rm_queue; rewrite (rt_table _ _ _ Htab)].
    split; try done. exists t'. split; [by apply Htab'|]. by rewrite Hq'.
  - cbn [minidump_rm_table set_locks]. rewrite (rt_table _ _ _ Htab). cbv beta match.
    pose proof (name_lookup_app rs e ps) as Hname.
    destruct (rm_entry_at _ _ _ _ _ Htab Hname) as (mdr & -> & Hn). cbv beta match.
    rewrite bool_decide_true by done. cbn [negb].
    destruct (rm_tables_slot _ _ _ _ _ (ra_register a) Htab Hname) as (t2 & -> & Hq2 & Htab2).
    cbv beta match. unfold add_elf_header. cbn [elf_buf minidump_elfheader set_rm_table set_locks].
    pose proof (rt_ok _ _ _ Htab) as Hok. apply Forall_app in Hok as [Hok1 Hok2].
    apply Forall_cons_1 in Hok2 as [[He Hsz _] _]. pose proof (rt_room _ _ _ Htab) as Hroom.
    rewrite length_app in Hroom. simpl in Hroom.
    pose proof (region_sizes_bound rs Hok1 ltac:(lia)).
    destruct (elf_regions_add ep _ _ rs e Hel He ltac:(lia) ltac:(lia)) as (m' & h' & -> & Hel' & _).
    cbn. split; [done|]. split; [|by unfold rm_queue; rewrite (rt_table _ _ _ Htab)].
    split; try done. exists t2. rewrite Hq2, <- app_assoc. split; [by apply Htab2|done].
Qed.

Lemma rm_names_nodup s t rs ps : rm_tables s t (rs ++ ps) -> NoDup (region_names rs).
Proof.
  intros Ht. pose proof (rt_ok _ _ _ Ht) as Hok. apply Forall_app in Hok as [Hok _].
  pose proof (rt_nodup _ _ _ Ht) as Hnd. rewrite map_app in Hnd. apply list.NoDup_app in Hnd as (Hnd & _ & _).
  unfold region_names. apply list.NoDup_app.
  split; [apply (bool_decide_unpack _); vm_compute; exact I|]. split; [|done].
  intros n Hf Hn. apply list_elem_of_In, in_map_iff in Hn as (r & <- & Hr).
  rewrite Forall_forall in Hok. by apply (ro_name _ (Hok r Hr)).
Qed.

Lemma rm_name_fixed s t all i n :
  rm_tables s t all -> map md_name all !! i = Some n -> n ∉ fixed_names.
Proof.
  intros Ht Hi. apply list_lookup_fmap_Some in Hi as (r & -> & Hr).
  apply ro_name. by eapply Forall_lookup_1; [apply (rt_ok _ _ _ Ht)|].
Qed.

(** A removal that the header refuses leaves everything but the slot number. *)
Lemma remove_end_ok ep s e k slot rs ps a :
  rm_rep ep s (Some (Removing e k slot)) rs ps ->
  exists s', md_rm_remove_end s e k a = Some s' /\ rm_queue s' = rm_queue s /\
    (rm_rep ep s' None rs ps \/ exists rs1 r rs2, 0 <= ra_deregister a /\ rs = rs1 ++ r :: rs2 /\
       same_region e r /\ rm_rep ep s' None (rs1 ++ rs2) ps).
Proof.
  intros [Hu Hrm Hin (t & Htab & Hw & Hq) (Hnul & i & -> & Hi) Hel]. simpl in Hw.
  pose proof Hu as [Hl Hr]. unfold md_rm_remove_end, spin_lock, spin_unlock.
  assert (forall s1, s1 = s -> rm_rep ep s1 None rs ps) as Hsame.
  { intros s1 ->. split; try done. by exists t. }
  destruct (Z.ltb_spec (ra_deregister a) 0) as [|Hpos]; [exists s; split_and!; [done..|left; by apply Hsame]|].
  rewrite Hl, Hr. cbn [negb assert_c]. cbv beta match.
  cbn [minidump_rm_table set_locks]. rewrite (rt_table _ _ _ Htab). cbv beta match.
  destruct (rm_entry_at _ _ _ _ _ Htab Hi) as (mdr & -> & Hn). cbv beta match.
  rewrite bool_decide_true by done. cbn [negb]. unfold clear_headers.
  cbn [elf_buf minidump_elfheader set_locks].
  pose proof (rt_ok _ _ _ Htab) as Hok. apply Forall_app in Hok as [Hok1 Hok2].
  pose proof (rm_names_nodup s t rs ps Htab) as Hnd.
  pose proof (rm_name_fixed s t _ i _ Htab Hi) as Hfix.
  destruct (elf_regions_clear_total ep _ _ rs e Hel Hnul) as
    [(j & r & m' & h' & Hj & Hsr & -> & Hel' & _)| -> ]; [|done|done| |].
  - clear -Hok1. induction Hok1 as [|r l [_ [] _] _ IH]; by constructor.
  - cbv beta match. cbn [Z.eqb negb]. assert (i = j) as <-.
    { eapply (NoDup_lookup (map md_name (rs ++ ps))); [apply Htab|exact Hi|].
      destruct Hsr as (<- & _). apply lookup_map. by apply lookup_app_l_Some. }
    pose proof (take_drop_middle _ _ _ Hj) as Hrs. pose proof (lookup_lt_Some _ _ _ Hj) as Hlt.
    set (rs1 := take i rs) in *. set (rs2 := drop (S i) rs) in *.
    assert (length rs1 = i) as Hl1 by (unfold rs1; rewrite length_take; lia).
    rewrite delete_take_drop in Hel'. fold rs1 rs2 in Hel'.
    assert (rm_tables (set_elf (set_locks s true 0) m' h') t (rs1 ++ r :: (rs2 ++ ps))) as Htab1.
    { apply (rm_tables_same s); [|done..]. change (r :: rs2 ++ ps) with ((r :: rs2) ++ ps).
      by rewrite app_assoc, Hrs. }
    rewrite <- Hl1. destruct (rm_tables_remove _ _ _ _ _ Htab1) as (t' & -> & Hq' & Htab').
    cbv beta match. cbn [mdt_lock set_num_regions set_rm_table set_elf set_locks assert_c]. cbv beta match.
    eexists. split; [reflexivity|]. split; [by unfold rm_queue; rewrite (rt_table _ _ _ Htab)|].
    right. exists rs1, r, rs2. split; [done|]. split; [done|]. split; [done|]. split; try done. exists t'. rewrite Hq', <- app_assoc. by split; [apply Htab'|].
  - cbv beta match. change (- EINVAL =? 0) with false. cbn. eexists. split; [reflexivity|]. split; [done|]. left.
    apply Hsame. destruct s; simpl in *; by subst.
Qed.

Lemma moved_region_ok r e : rm_region_ok r -> entry_ok e -> rm_region_ok (moved r e).
Proof. intros [Hr ? ?] []. split; try done. by apply moved_ok. Qed.

Lemma map_name_moved rs k r e :
  rs !! k = Some r -> map md_name (<[k := moved r e]> rs) = map md_name rs.
Proof. intros Hk. by apply (map_insert_same _ _ _ r). Qed.

(** The entries are those of the moved regions too. *)
Lemma rm_tables_moved s t rs ps k r e :
  rm_tables s t (rs ++ ps) -> rs !! k = Some r -> entry_ok e ->
  rm_tables s t (<[k := moved r e]> rs ++ ps).
Proof.
  intros [Ht (l & tail & Hent & Hl) Hlen Hn Hok Hnd Hroom] Hk He.
  apply Forall_app in Hok as [Hok1 Hok2].
  split; rewrite ?map_app, ?map_name_moved, <- ?map_app by done; rewrite ?length_app, ?length_insert in *; try done.
  - by exists l, tail.
  - apply Forall_app. split; [|done]. apply Forall_insert; [done|].
    apply moved_region_ok; [|done]. exact (Forall_lookup_1 _ _ _ _ Hok1 Hk).
Qed.

Lemma update_end_ok ep s e k slot rs ps a :
  rm_rep ep s (Some (Updating e k slot)) rs ps ->
  exists s', md_rm_update_end s e k a = Some s' /\ rm_queue s' = rm_queue s /\
    (rm_rep ep s' None rs ps \/ exists i r, rs !! i = Some r /\ md_name r = md_name e /\
       rm_rep ep s' None (<[i := moved r e]> rs) ps).
Proof.
  intros [Hu Hrm Hin (t & Htab & Hw & Hq) (He & i & -> & Hi) Hel]. simpl in Hw.
  pose proof Hu as [Hl Hr]. unfold md_rm_update_end, spin_lock, spin_unlock.
  assert (rm_rep ep s None rs ps) as Hsame by (split; try done; by exists t).
  destruct (ra_deregister a <? 0); [exists s; by auto|].
  destruct (ra_register a <? 0); [exists s; by auto|].
  rewrite Hl, Hr. cbn [negb assert_c]. cbv beta match.
  cbn [minidump_rm_table set_locks]. rewrite (rt_table _ _ _ Htab). cbv beta match.
  destruct (rm_entry_at _ _ _ _ _ Htab Hi) as (mdr & -> & Hn). cbv beta match.
  rewrite bool_decide_true by done. cbn [negb].
  destruct (rm_tables_slot _ _ _ _ _ (ra_register a) Htab Hi) as (t2 & -> & Hq2 & Htab2). cbv beta match.
  unfold update_elf_header. cbn [elf_buf minidump_elfheader set_rm_table set_locks].
  pose proof (eo_virt _ He) as Hv. pose proof (eo_phys _ He) as Hp.
  destruct (decide (i < length rs)%nat) as [Hlt|Hge].
  - destruct (lookup_lt_is_Some_2 rs i Hlt) as [r Hri].
    destruct (elf_regions_update ep _ _ rs i r e Hel Hri) as (m' & -> & Hel' & _); [lia..|].
    cbv beta match. cbn [mdt_lock set_elf set_rm_table set_locks assert_c]. cbv beta match.
    eexists. split; [reflexivity|]. split; [by unfold rm_queue; rewrite (rt_table _ _ _ Htab)|].
    right. exists i, r. split; [done|]. split.
    { apply list_lookup_fmap_Some in Hi as (x & -> & Hx). rewrite lookup_app_l in Hx by done. congruence. }
    split; try done. exists t2. rewrite Hq2. split; [|done]. apply rm_tables_moved; try done. by apply Htab2.
  - pose proof (rt_room _ _ _ Htab) as Hroom. pose proof (lookup_lt_Some _ _ _ Hi) as Hlt.
    rewrite length_map in Hlt.
    destruct (elf_regions_update_free ep _ _ rs i e Hel) as (m' & -> & Hel' & _); [lia..|].
    cbv beta match. cbn [mdt_lock set_elf set_rm_table set_locks assert_c]. cbv beta match.
    eexists. split; [reflexivity|]. split; [by unfold rm_queue; rewrite (rt_table _ _ _ Htab)|].
    left. split; try done. exists t2. rewrite Hq2. split; [|done].
    by apply Htab2.
Qed.

Lemma work_end_ok ep s w rs ps a :
  rm_rep ep s (Some w) rs ps ->
  exists s' rs' ps', work_end s w a = Some s' /\ rm_rep ep s' None rs' ps' /\
    rm_abs (rs, ps) (rs', ps') /\ rm_queue s' = rm_queue s.
Proof.
  intros Hrep. destruct w as [e k|e k slot|e k slot]; simpl.
  - destruct (add_end_ok ep s e k rs ps a Hrep) as (s' & ps' & -> & Hr & Hrep' & Hq).
    eexists s', _, ps'. split; [exact Hr|]. split; [exact Hrep'|]. split; [|exact Hq].
    destruct (ra_register a <? 0); [apply abs_rejected|apply abs_registered].
  - destruct (remove_end_ok ep s e k slot rs ps a Hrep) as (s' & Hr & Hq & [Hrep'|(rs1 & r & rs2 & _ & -> & _ & Hrep')]).
    + exists s', rs, ps. split; [done|]. split; [done|]. split; [apply abs_same|done].
    + exists s', (rs1 ++ rs2), ps. split; [done|]. split; [done|]. split; [apply abs_removed|done].
  - destruct (update_end_ok ep s e k slot rs ps a Hrep) as (s' & Hr & Hq & [Hrep'|(i & r & Hi & _ & Hrep')]).
    + exists s', rs, ps. split; [done|]. split; [done|]. split; [apply abs_same|done].
    + exists s', (<[i := moved r e]> rs), ps. split; [done|]. split; [done|]. split; [by apply abs_moved|done].
Qed.

(** ** An update of a region that still waits

    Its request was queued for a region of the same name that has been removed
    since; the region of that name now is the first one to wait. *)

Lemma set_slot_eq s t all i n slot :
  rm_tables s t all -> map md_name all !! i = Some n ->
  set_slot t (Z.of_nat i) slot
  = Some (MdRmTable (minidump_rm_wq t) (<[i := MdRmRegion n slot]> (rm_entry t))).
Proof.
  intros Ht Hi. destruct (rm_entry_at _ _ _ _ _ Ht Hi) as (mdr & Hg & Hn).
  pose proof (getZ_Some_range _ _ _ Hg) as Hr. unfold set_slot. rewrite Hg.
  rewrite setZ_of_nat by lia. by rewrite Hn.
Qed.

Lemma begin_update_eq ep s t rs ps e e' q :
  rm_rep ep s None rs (e :: ps) -> minidump_rm_table s = Some t ->
  minidump_rm_wq t = MdRmRequest e' MINIDUMP_UPDATE :: q -> md_name e' = md_name e ->
  exists slot s', work_begin s = Some (Some (Updating e' (Z.of_nat (length rs)) slot), s') /\
    minidump_rm_table s'
    = Some (MdRmTable q (<[length rs := MdRmRegion (md_name e) 0]> (rm_entry t))).
Proof.
  intros Hrep Ht Hq Hn. pose proof Hrep as [[Hl Hr] _ _ _ _ _].
  destruct (rm_rep_pop ep s t rs (e :: ps) _ _ Hrep Ht Hq) as (Htab & _).
  set (t1 := MdRmTable q (rm_entry t)) in *. set (s1 := set_rm_table s t1) in *.
  assert (rm_tables (set_locks s1 true (mdt_remove_lock s1)) t1 (rs ++ e :: ps)) as Htab2
    by (by apply (rm_tables_same s1)).
  unfold work_begin. rewrite Ht, Hq. cbn [work_cmd rq_entry].
  unfold md_rm_update_begin, spin_lock, spin_unlock.
  change (set_rm_table s (MdRmTable q (rm_entry t))) with s1.
  assert (mdt_lock s1 = false) as -> by done. cbn [negb assert_c]. cbv beta match.
  rewrite (md_rm_entry_num_spec _ t1 (rs ++ e :: ps)), Hn by done.
  rewrite (region_index_app rs e ps _ eq_refl (rt_nodup _ _ _ Htab)). decide_tests.
  cbn [minidump_rm_table set_locks set_rm_table s1].
  destruct (rm_entry_at _ _ _ _ _ Htab (name_lookup_app rs e ps)) as (mdr & -> & _). cbv beta match.
  rewrite (set_slot_eq _ _ _ _ _ 0 Htab (name_lookup_app rs e ps)). cbn.
  eexists _, _. by split.
Qed.

Lemma end_update_eq ep s t rs ps e e' slot a :
  rm_rep ep s (Some (Updating e' (Z.of_nat (length rs)) slot)) rs (e :: ps) ->
  minidump_rm_table s = Some t -> md_name e' = md_name e ->
  0 <= ra_register a -> 0 <= ra_deregister a ->
  exists s', md_rm_update_end s e' (Z.of_nat (length rs)) a = Some s' /\
    minidump_rm_table s' = Some (MdRmTable (minidump_rm_wq t)
      (<[length rs := MdRmRegion (md_name e) (ra_register a)]> (rm_entry t))) /\
    rm_rep ep s' None rs (e :: ps).
Proof.
  intros Hrep Ht Hn Ha Hd.
  destruct (update_end_ok ep s e' _ slot rs (e :: ps) a Hrep) as (s' & Hend & _ & Hcase).
  assert (rm_rep ep s' None rs (e :: ps)) as Hrep'.
  { destruct Hcase as [|(i & r & Hi & Hnr & Hrep')]; [done|].
    pose proof Hrep' as [_ _ _ (t' & Htab & _) _ _]. pose proof (rt_nodup _ _ _ Htab) as Hnd.
    exfalso. rewrite map_app, (map_name_moved _ _ _ _ Hi) in Hnd.
    apply list.NoDup_app in Hnd as (_ & Hdis & _). apply (Hdis (md_name r)).
    - apply list_elem_of_fmap. exists r. split; [done|]. by eapply list_elem_of_lookup_2.
    - rewrite Hnr, Hn. by left. }
  exists s'. split; [done|]. split; [|done].
  pose proof Hrep as [[Hl Hr] _ _ (t' & Htab & _) _ _].
  pose proof (rt_table _ _ _ Htab) as Ht'. rewrite Ht in Ht'. injection Ht' as <-.
  unfold md_rm_update_end, spin_lock, spin_unlock in Hend.
  rewrite (proj2 (Z.ltb_ge _ 0)), (proj2 (Z.ltb_ge _ 0)), Hl, Hr in Hend by done.
  cbn [negb assert_c] in Hend. cbv beta match in Hend.
  cbn [minidump_rm_table set_locks] in Hend. rewrite Ht in Hend. cbv beta match in Hend.
  destruct (rm_entry_at _ _ _ _ _ Htab (name_lookup_app rs e ps)) as (mdr & Hg & Hm).
  rewrite Hg in Hend. cbv beta match in Hend.
  rewrite bool_decide_true in Hend by congruence. cbn [negb] in Hend.
  rewrite (set_slot_eq _ _ _ _ _ _ Htab (name_lookup_app rs e ps)) in Hend. cbv beta match in Hend.
  unfold update_elf_header in Hend. destruct (md_update_elf_header _ _ _ _); [|done].
  cbn in Hend. by simplify_eq.
Qed.

(** The request of a waiting region, with the table it leaves. *)
Lemma begin_add_eq ep s t rs ps e q :
  rm_rep ep s None rs (e :: ps) -> minidump_rm_table s = Some t ->
  minidump_rm_wq t = MdRmRequest e MINIDUMP_ADD :: q ->
  exists s', work_begin s = Some (Some (Adding e (Z.of_nat (length rs))), s') /\
    minidump_rm_table s' = Some (MdRmTable q (rm_entry t)).
Proof.
  intros Hrep Ht Hq. pose proof Hrep as [[Hl Hr] _ _ _ _ _].
  destruct (rm_rep_pop ep s t rs (e :: ps) _ _ Hrep Ht Hq) as (Htab & _).
  set (t1 := MdRmTable q (rm_entry t)) in *. set (s1 := set_rm_table s t1) in *.
  unfold work_begin. rewrite Ht, Hq. cbn [work_cmd rq_entry].
  unfold md_rm_add_begin, spin_lock, spin_unlock.
  change (set_rm_table s (MdRmTable q (rm_entry t))) with s1.
  assert (mdt_lock s1 = false) as -> by done. cbn [negb assert_c]. cbv beta match.
  rewrite (md_rm_entry_num_spec _ t1 (rs ++ e :: ps)) by (by apply (rm_tables_same s1)).
  rewrite (region_index_app rs e ps _ eq_refl (rt_nodup _ _ _ Htab)). cbn. decide_tests.
  eexists. by split.
Qed.

Lemma end_add_eq ep s t rs ps e a :
  rm_rep ep s (Some (Adding e (Z.of_nat (length rs)))) rs (e :: ps) ->
  minidump_rm_table s = Some t -> 0 <= ra_register a ->
  exists s', md_rm_add_end s e (Z.of_nat (length rs)) a = Some s' /\
    minidump_rm_table s' = Some (MdRmTable (minidump_rm_wq t)
      (<[length rs := MdRmRegion (md_name e) (ra_register a)]> (rm_entry t))) /\
    rm_rep ep s' None (rs ++ [e]) ps.
Proof.
  intros Hrep Ht Ha.
  destruct (add_end_ok ep s e _ rs (e :: ps) a Hrep) as (s' & ps' & [= <-] & Hend & Hrep' & _).
  rewrite (proj2 (Z.ltb_ge _ 0)) in Hrep' by done. exists s'. split; [done|]. split; [|done].
  pose proof Hrep as [[Hl Hr] _ _ (t' & Htab & _) _ _].
  pose proof (rt_table _ _ _ Htab) as Ht'. rewrite Ht in Ht'. injection Ht' as <-.
  unfold md_rm_add_end, spin_lock, spin_unlock in Hend.
  rewrite (proj2 (Z.ltb_ge _ 0)), Hl, Hr in Hend by done. cbn [negb assert_c] in Hend.
  cbv beta match in Hend. cbn [minidump_rm_table set_locks] in Hend. rewrite Ht in Hend.
  cbv beta match in Hend.
  destruct (rm_entry_at _ _ _ _ _ Htab (name_lookup_app rs e ps)) as (mdr & Hg & Hm).
  rewrite Hg in Hend. cbv beta match in Hend.
  rewrite bool_decide_true in Hend by done. cbn [negb] in Hend.
  rewrite (set_slot_eq _ _ _ _ _ _ Htab (name_lookup_app rs e ps)) in Hend. cbv beta match in Hend.
  unfold add_elf_header in Hend. destruct (md_add_elf_header _ _ _) as [[]|]; [|done].
  cbn in Hend. by simplify_eq.
Qed.
