(* ===== verification/MdRmSystem.v ===== *)
(** * The driver and its worker in resource-manager mode

    The calls of other drivers and the two steps of each request of the work
    queue, in any order: [rm_exec] is one of them on the driver's state and
    the request that has been begun.  The queue has one worker
    (msm_minidump.c, line 980: [alloc_workqueue] with [max_active] 1), which
    takes the requests in order. *)

From S2P Require Import Prelude CMem CStr CText MdApi MdElf MdElfRep MdElfClear MdElfRegions.
From S2P Require Import MdElfInit MdElfUpdate MdElfRequests MdState MdToc MdRm MdDriver MdTocProofs.
From S2P Require Import MdDriverProofs MdProbe MdRmProofs.

#[local] Open Scope string_scope.
#[local] Open Scope list_scope.
#[local] Open Scope Z_scope.

(** ** The system *)

Inductive rm_call :=
| RmAdd (alloc : bool) (e : option md_region)
| RmUpdate (alloc : bool) (regno : Z) (e : option md_region)
| RmRemove (alloc : bool) (e : option md_region)
| RmBegin
| RmEnd (a : rm_answer).

Definition rm_conf : Type := md_state * option rm_begun.

(** A worker that is busy begins nothing, one that is idle ends nothing. *)
Definition rm_exec (c : rm_call) (x : rm_conf) : option rm_conf :=
  let '(s, w) := x in
  match c with
  | RmAdd alloc e => let* (_, s) := msm_minidump_add_region alloc e s in Some (s, w)
  | RmUpdate alloc regno e => let* (_, s) := msm_minidump_update_region alloc regno e s in Some (s, w)
  | RmRemove alloc e => let* (_, s) := msm_minidump_remove_region alloc e s in Some (s, w)
  | RmBegin =>
      match w with
      | None => let* (w, s) := work_begin s in Some (s, w)
      | Some _ => Some (s, w)
      end
  | RmEnd a =>
      match w with
      | None => Some (s, w)
      | Some w => let* s := work_end s w a in Some (s, None)
      end
  end.

(** What the callers promise: descriptors are C structures; a valid one that
    is added is not empty, has at most 2^56 bytes and its own name; up to 197
    regions are added, beyond which the section headers leave their table. *)
Definition rm_call_ok (c : rm_call) (s : md_state) : Prop :=
  match c with
  | RmAdd _ (Some e) => region_wf e /\ num_regions s < 197 /\
      (validate_region (Some e) = 0 -> 0 < md_size e < 72057594037927936 /\ md_name e ∉ fixed_names)
  | RmUpdate _ _ (Some e) | RmRemove _ (Some e) => region_wf e
  | _ => True
  end.

Inductive rm_step : rm_conf -> rm_conf -> Prop :=
| rm_step_call c x x' : rm_call_ok c x.1 -> rm_exec c x = Some x' -> rm_step x x'.

Definition rm_inv (ep : elf_params) (x : rm_conf) (l : list md_region * list md_region) : Prop :=
  rm_rep ep x.1 x.2 l.1 l.2.

(** Every call that keeps the promise is carried out and is a step on the
    lists. *)
Lemma rm_exec_ok ep c x l :
  rm_inv ep x l -> rm_call_ok c x.1 ->
  exists x' l', rm_exec c x = Some x' /\ rm_inv ep x' l' /\ rm_abs l l'.
Proof.
  destruct x as [s w], l as [rs ps]. unfold rm_inv. cbn [fst snd]. intros Hrep Hc.
  destruct c as [alloc e|alloc regno e|alloc e| |a]; simpl in *.
  - destruct (decide (validate_region e = 0)) as [Hv|Hv].
    + destruct e as [e|]; [|done]. destruct Hc as (Hwf & Hnum & Hadd). destruct (Hadd Hv) as [Hsz Hnm].
      assert (rm_region_ok e) as He by (split; [by apply validate_entry_ok|done..]).
      pose proof (rr_table _ _ _ _ _ Hrep) as (t & Htab & _). rewrite (rt_num _ _ _ Htab) in Hnum.
      destruct (rm_add_region alloc ep s w rs ps e Hrep He ltac:(lia)) as (s' & -> & Hneg & Hpos).
      destruct (Z.ltb_spec (rm_add_result alloc e (rs ++ ps)) 0) as [Hlt|Hge].
      * rewrite (Hneg Hlt). exists (s, w), (rs, ps). split; [done|]. split; [done|apply abs_same].
      * destruct (Hpos Hge) as [Hnn Hrep']. exists (s', w), (rs, ps ++ [e]).
        split; [done|]. split; [done|by apply abs_queued].
    + exists (s, w), (rs, ps). split; [|split; [done|apply abs_same]].
      unfold msm_minidump_add_region. by destruct (Z.eqb_spec (validate_region e) 0).
  - destruct (rm_update_region alloc regno ep s w rs ps e Hrep) as (ret & s' & -> & Hrep' & _).
    { intros e' ->. exact Hc. }
    exists (s', w), (rs, ps). split; [done|]. split; [done|apply abs_same].
  - destruct (rm_remove_region alloc ep s w rs ps e Hrep) as (ret & s' & -> & Hrep' & _).
    { intros e' ->. exact Hc. }
    exists (s', w), (rs, ps). split; [done|]. split; [done|apply abs_same].
  - destruct w as [w|]; [exists (s, Some w), (rs, ps); split; [done|]; split; [done|apply abs_same]|].
    destruct (work_begin_ok ep s rs ps Hrep) as (w & s' & -> & Hrep' & _).
    exists (s', w), (rs, ps). split; [done|]. split; [done|apply abs_same].
  - destruct w as [w|]; [|exists (s, None), (rs, ps); split; [done|]; split; [done|apply abs_same]].
    destruct (work_end_ok ep s w rs ps a Hrep) as (s' & rs' & ps' & -> & Hrep' & Habs & _).
    exists (s', None), (rs', ps'). done.
Qed.

(** ** The worker alone *)

(** Carry out one request after the other, with the answers of the resource
    manager in order. *)
Fixpoint work_all (answers : list rm_answer) (s : md_state) : option md_state :=
  match answers with
  | [] => Some s
  | a :: answers =>
      let* (w, s) := work_begin s in
      let* s := match w with None => Some s | Some w => work_end s w a end in
      work_all answers s
  end.

(** The waiting regions the resource manager accepts. *)
Fixpoint accepted (answers : list rm_answer) (es : list md_region) : list md_region :=
  match answers, es with
  | a :: answers, e :: es => (if ra_register a <? 0 then [] else [e]) ++ accepted answers es
  | _, _ => []
  end.

Lemma work_one ep s rs ps a :
  rm_rep ep s None rs ps ->
  exists s' rs' ps', (let* (w, s) := work_begin s in
      match w with None => Some s | Some w => work_end s w a end) = Some s' /\
    rm_rep ep s' None rs' ps' /\ rm_queue s' = tail (rm_queue s).
Proof.
  intros Hrep. destruct (work_begin_ok ep s rs ps Hrep) as (w & s1 & -> & Hrep1 & Hq1).
  destruct w as [w|]; [|by exists s1, rs, ps].
  destruct (work_end_ok ep s1 w rs ps a Hrep1) as (s' & rs' & ps' & -> & Hrep' & _ & Hq).
  exists s', rs', ps'. by rewrite Hq.
Qed.

Lemma queue_empty_waiting ep s rs ps : rm_rep ep s None rs ps -> rm_queue s = [] -> ps = [].
Proof.
  intros [_ _ _ (t & Htab & Hw & _) _ _]. unfold rm_queue. rewrite (rt_table _ _ _ Htab).
  intros Hq. rewrite Hq in Hw. by rewrite <- Hw.
Qed.

Lemma work_all_ok ep answers s rs ps :
  rm_rep ep s None rs ps ->
  exists s' rs' ps', work_all answers s = Some s' /\ rm_rep ep s' None rs' ps' /\
    rm_queue s' = drop (length answers) (rm_queue s).
Proof.
  revert s rs ps. induction answers as [|a answers IH]; intros s rs ps Hrep; [by exists s, rs, ps|].
  simpl. destruct (work_one ep s rs ps a Hrep) as (s1 & rs1 & ps1 & Hone & Hrep1 & Hq1).
  destruct (work_begin s) as [[w s0]|]; [|discriminate]. rewrite Hone.
  destruct (IH s1 rs1 ps1 Hrep1) as (s' & rs' & ps' & -> & Hrep' & Hq).
  exists s', rs', ps'. split; [done|]. split; [done|]. rewrite Hq, Hq1. destruct (rm_queue s); [|done]. apply drop_nil.
Qed.

(** The begin of an addition, with what it remembers. *)
Lemma work_begin_add ep s rs e ps q :
  rm_rep ep s None rs (e :: ps) -> rm_queue s = MdRmRequest e MINIDUMP_ADD :: q ->
  exists s', work_begin s = Some (Some (Adding e (Z.of_nat (length rs))), s') /\
    rm_rep ep s' (Some (Adding e (Z.of_nat (length rs)))) rs (e :: ps) /\ rm_queue s' = q.
Proof.
  intros Hrep Hqs. destruct (work_begin_ok ep s rs _ Hrep) as (w & s' & Hb & Hrep' & Hq).
  assert (w = Some (Adding e (Z.of_nat (length rs)))) as ->; [|exists s'; by rewrite Hq, Hqs].
  pose proof Hrep as [[Hl Hr] _ _ (t & Htab & Hw & _) _ _]. unfold rm_queue in Hqs.
  rewrite (rt_table _ _ _ Htab) in Hqs. unfold work_begin in Hb.
  rewrite (rt_table _ _ _ Htab), Hqs in Hb. cbn [work_cmd rq_entry] in Hb.
  destruct (rm_rep_pop ep s t rs _ _ _ Hrep (rt_table _ _ _ Htab) Hqs) as (Htab1 & Hadds & _).
  unfold md_rm_add_begin, spin_lock in Hb. cbn [mdt_lock set_rm_table] in Hb. rewrite Hl in Hb.
  cbn [negb assert_c] in Hb. cbv beta match in Hb.
  rewrite (md_rm_entry_num_spec _ (MdRmTable q (rm_entry t)) (rs ++ e :: ps)) in Hb
    by (by apply rm_tables_locks).
  destruct (region_index_queue _ _ rs _ None e q Htab1 Hadds eq_refl) as [Hi _]. rewrite Hi in Hb.
  cbn in Hb. destruct (Z.ltb_spec (Z.of_nat (length rs)) 0); [lia|]. congruence.
Qed.

(** A queue of additions: they are registered in order, except those that are
    refused. *)
Lemma work_all_adds ep es : forall answers s rs,
  rm_rep ep s None rs es -> rm_queue s = map (fun e => MdRmRequest e MINIDUMP_ADD) es ->
  length answers = length es ->
  exists s', work_all answers s = Some s' /\ rm_rep ep s' None (rs ++ accepted answers es) [] /\
    rm_queue s' = [].
Proof.
  induction es as [|e es IH]; intros [|a answers] s rs Hrep Hq Hlen; try discriminate; simpl.
  { exists s. by rewrite app_nil_r. }
  destruct (work_begin_add ep s rs e es _ Hrep Hq) as (s1 & -> & Hrep1 & Hq1).
  cbn [work_end]. destruct (add_end_ok ep s1 e _ rs _ a Hrep1) as (s2 & ps' & Hps & -> & Hrep2 & Hq2).
  injection Hps as <-. injection Hlen as Hlen.
  destruct (IH answers s2 _ Hrep2 (eq_trans Hq2 Hq1) Hlen) as (s' & -> & Hrep' & Hq').
  exists s'. split; [done|]. split; [|done]. destruct (ra_register a <? 0); [exact Hrep'|].
  by rewrite app_assoc.
Qed.

(** ** The probe *)

(** The answers of a kernel and a resource manager with which the probe
    succeeds. *)
Record rm_probe_ok (pe : probe_env) (ep : elf_params) (buf : mem) (bphys : Z) : Prop := {
  rpo_rm : pe_rm pe = true;
  rpo_info : 0 <= pe_rm_info pe;
  rpo_slot : 0 <= pe_hdr_slot pe;
  rpo_alloc : pe_table pe = true /\ pe_wq pe = true /\ pe_request pe = true;
  rpo_hdr : pe_hdr pe = Some (buf, bphys);
  rpo_buf : m_lo buf + 27888 <= m_hi buf /\
    forall x, m_lo buf <= x < m_lo buf + 27888 -> byte buf x = 0;
  rpo_params : ep = ElfParams (pe_table_addr pe) (pe_banner pe) (pe_banner_phys pe);
  rpo_addrs : 0 <= ep_table ep < 18446744073709551616 /\ 0 <= ep_banner ep < 18446744073709551616 /\
    0 <= ep_banner_phys ep < 18446744073709551616;
}.

Definition rm_entries (d : list md_region) : list md_rm_region :=
  map (fun e => MdRmRegion (md_name e) 0) d ++ replicate (201 - length d) no_rm_region.

Definition add_requests (d : list md_region) : list md_rm_request :=
  map (fun e => MdRmRequest e MINIDUMP_ADD) d.

Lemma adds_of_requests l : adds_of (add_requests l) = l.
Proof. unfold adds_of, add_requests. induction l as [|e l IH]; [done|]. simpl. by f_equal. Qed.

Lemma add_requests_ok l : Forall request_ok (add_requests l).
Proof. induction l as [|e l IH]; by constructor. Qed.

Lemma rm_entries_set d e :
  (length d < 201)%nat -> slen (md_name e) <= MAX_NAME_LENGTH ->
  (let* rm := getZ (rm_entries d) (Z.of_nat (length d)) in
   setZ (rm_entries d) (Z.of_nat (length d))
     (MdRmRegion (strscpy (md_name e) (MAX_NAME_LENGTH + 1)).1 (slot_num rm)))
  = Some (rm_entries (d ++ [e])).
Proof.
  intros Hd Hn. unfold rm_entries.
  assert (replicate (201 - length d) no_rm_region
    = no_rm_region :: replicate (201 - length (d ++ [e])) no_rm_region) as ->.
  { rewrite length_app. simpl. replace (201 - length d)%nat with (S (201 - (length d + 1))) by lia. done. }
  rewrite getZ_mid by (by rewrite length_map). cbv beta match. rewrite setZ_mid by (by rewrite length_map).
  rewrite strscpy_fits by (unfold MAX_NAME_LENGTH in *; lia). cbn [fst slot_num no_rm_region].
  by rewrite map_app, <- app_assoc.
Qed.

Lemma add_pending_rm pe rest : forall d s,
  pe_request pe = true -> is_rm_minidump s = true ->
  minidump_rm_table s = Some (MdRmTable (add_requests d) (rm_entries d)) ->
  (length (d ++ rest) <= 201)%nat -> Forall (fun e => slen (md_name e) <= MAX_NAME_LENGTH) rest ->
  pending_list s = rest ->
  add_pending pe rest (Z.of_nat (length d)) s =
    Some (true, set_pending (set_rm_table s
      (MdRmTable (add_requests (d ++ rest)) (rm_entries (d ++ rest)))) []).
Proof.
  induction rest as [|e rest IH]; intros d s Hreq Hrm Ht Hlen Hok Hp.
  { rewrite app_nil_r. simpl. destruct s; simpl in *. by subst. }
  apply Forall_cons_1 in Hok as [He Hok]. rewrite length_app in Hlen. simpl in Hlen.
  simpl. rewrite Hrm, Hreq, Ht. cbn [negb rm_entry minidump_rm_wq]. cbv beta match.
  pose proof (rm_entries_set d e ltac:(lia) He) as Hset.
  destruct (getZ (rm_entries d) (Z.of_nat (length d))) as [rm|]; [|discriminate]. rewrite Hset.
  cbn [queue_work minidump_rm_wq rm_entry].
  replace (Z.of_nat (length d) + 1) with (Z.of_nat (length (d ++ [e]))) by (rewrite length_app; simpl; lia).
  rewrite (app_assoc d [e] rest : d ++ e :: rest = _). unfold queue_work. cbn [minidump_rm_wq rm_entry].
  rewrite IH; try done.
  - cbn. unfold add_requests. by rewrite map_app.
  - rewrite !length_app. simpl. lia.
Qed.

Lemma rm_probe_init pe ep buf bphys s :
  rm_probe_ok pe ep buf bphys -> pending_state s -> (length (pending_list s) <= 197)%nat ->
  NoDup (map md_name (pending_list s)) -> Forall rm_region_ok (pending_list s) ->
  exists s', probe_init pe s = Some (None, s') /\ rm_rep ep s' None [] (pending_list s) /\
    rm_queue s' = add_requests (pending_list s).
Proof.
  intros [Hrm Hinfo Hslot (Htb & Hwq & Hrq) Hhdr [Hb Hz] Hep Ha] [[Hl Hr] Hrms Hi Ht0 Hn _] Hlen Hnd Hok.
  unfold probe_init, probe_tables. cbn [is_rm_minidump set_is_rm]. rewrite Hrm, Htb, Hwq. cbn [negb].
  destruct (Z.ltb_spec (pe_rm_info pe) 0); [lia|]. cbv beta match.
  unfold msm_minidump_add_header. cbn [is_rm_minidump set_is_rm set_rm_table].
  rewrite Hhdr. destruct (Z.ltb_spec (pe_hdr_slot pe) 0); [lia|]. cbn [andb]. cbv beta match.
  rewrite Hep in Ha. simpl in Ha.
  destruct (fill_header_ok buf (pe_table_addr pe) (pe_banner pe) (pe_banner_phys pe))
    as (m & h & -> & Hel & _); [done|done|apply Ha..|]. cbv beta match.
  cbn [is_rm_minidump set_elf set_rm_table set_is_rm]. cbv beta match.
  unfold spin_lock. cbn [mdt_lock set_elf set_rm_table set_is_rm]. rewrite Hl. cbn [negb assert_c]. cbv beta match.
  cbn [is_rm_minidump set_locks set_elf set_rm_table set_is_rm pending_list]. cbv beta match.
  assert (Forall (fun e => slen (md_name e) <= MAX_NAME_LENGTH) (pending_list s)) as Hnames.
  { clear -Hok. induction Hok as [|e l [[] _ _] _ IH]; by constructor. }
  match goal with |- context [add_pending pe _ 0 ?s0] =>
    pose proof (add_pending_rm pe (pending_list s) [] s0 Hrq eq_refl eq_refl
      ltac:(simpl; lia) Hnames eq_refl) as Hadd end.
  simpl length in Hadd. change (Z.of_nat 0) with 0 in Hadd. rewrite Hadd. cbn.
  eexists. split; [reflexivity|]. split; [|done].
  split; cbn; try done; [|by rewrite Hep].
  eexists. split; [|split].
  - split; [reflexivity| | |done|done|done|done]; cbn.
    + eexists _, _. split; [reflexivity|]. by rewrite map_map.
    + unfold rm_entries. rewrite length_app, length_map, length_replicate. lia.
  - apply adds_of_requests.
  - apply add_requests_ok.
Qed.
