(* ===== verification/MdDemo.v ===== *)
(** * A concrete minidump driver

    States in shared-memory mode that a probe and registrations lead to, on
    which the properties of the following files are instantiated. *)

From S2P Require Import Prelude CMem CStr CText MdApi MdElf MdElfRep MdElfClear MdElfRegions.
From S2P Require Import MdElfInit MdElfUpdate MdState MdToc MdRm MdDriver MdTocProofs.
From S2P Require Import MdDriverProofs MdProbe MdClient.

#[local] Open Scope string_scope.
#[local] Open Scope list_scope.
#[local] Open Scope Z_scope.

(** ** A concrete driver

    A zeroed header buffer at 1048576, three regions, the last two of the same
    physical address and size. *)

Definition demo_buf : mem := Mem 1048576 1076464 (fun _ => 0).

Definition demo_ep : elf_params := ElfParams 536870912 805306368 2952790016.

Definition demo_pe : probe_env :=
  ProbeEnv false 0 0 true true true
    (inr (4096, MdGlobalToc 1 1 (MdSsToc 0 0 0 0 0 0))) (Some 2415919104) (Some (demo_buf, 2147483648))
    536870912 805306368 2952790016.

Definition demo_r1 : md_region := MdRegion "kernel" 1 0xFFFF0000 0x80000000 4096.
Definition demo_r2 : md_region := MdRegion "log_buf" 2 0xFFFF8000 0x80001000 1024.
Definition demo_r3 : md_region := MdRegion "alias" 3 0xFFFFF000 0x80001000 1024.

Lemma demo_probe_ok : probe_ok demo_pe demo_ep demo_buf 2147483648.
Proof.
  split; try done.
  - exists 4096, (MdGlobalToc 1 1 (MdSsToc 0 0 0 0 0 0)). split; [done|]. split; [vm_compute; discriminate|done].
Qed.

Lemma demo_init_pending : pending_state md_state_init.
Proof. by split; try split; simpl; try lia. Qed.

Lemma demo_region_ok e : e ∈ [demo_r1; demo_r2; demo_r3] -> entry_ok e.
Proof.
  intros H. repeat (apply elem_of_cons in H as [->|H]; [split; vm_compute; intuition discriminate|]).
  by apply elem_of_nil in H.
Qed.

Lemma entry_ok_wf e : entry_ok e -> region_wf e.
Proof. intros [? ? ? ? []]. split; [done|lia..]. Qed.

(** A driver that can be reached by probing and registering. *)
Lemma demo_probed pend :
  (length pend <= 200)%nat -> NoDup (map md_name pend) -> Forall entry_ok pend ->
  exists s, toc_rep demo_ep s pend [] /\ first_removed_entry s = INT_MAX.
Proof.
  intros Hlen Hnd Hok.
  destruct (probe_init_ok demo_pe demo_ep demo_buf 2147483648
    (set_num_regions (set_pending md_state_init pend) (Z.of_nat (length pend))) demo_probe_ok)
    as (s & _ & Hrep & _ & Hf & _); [|done..|].
  { split; try done. simpl. lia. }
  by exists s.
Qed.

Lemma demo_added s pend rs e :
  toc_rep demo_ep s pend rs -> entry_ok e -> (registry_add e (pend ++ rs)).1 = Z.of_nat (length (pend ++ rs)) ->
  Z.of_nat (length rs) < 197 -> 27888 + sizes rs + md_size e < 18446744073709551616 ->
  exists s', toc_rep demo_ep s' pend (rs ++ [e]) /\ first_removed_entry s' = first_removed_entry s.
Proof.
  intros (Hu & Hts & Hel) He Hr Hlen Hsz.
  destruct (elf_regions_add demo_ep _ _ rs e Hel He Hlen Hsz) as (m' & h' & Hadd & Hel' & _).
  destruct (add_region_accepted true s _ e m' h' Hu Hts (entry_ok_wf e He) ltac:(lia) Hadd)
    as (s' & _ & Hu' & Hts' & Hm & Hh & Hf).
  exists s'. split; [|exact Hf]. split; [exact Hu'|]. split; [by rewrite app_assoc|by rewrite Hm, Hh].
Qed.

Lemma demo_two : exists s, toc_rep demo_ep s [] [demo_r1; demo_r2] /\ first_removed_entry s = INT_MAX.
Proof.
  destruct (demo_probed [] ltac:(simpl; lia) ltac:(constructor) ltac:(constructor)) as (s0 & H0 & F0).
  destruct (demo_added s0 [] [] demo_r1 H0) as (s1 & H1 & F1);
    [apply demo_region_ok; set_solver|done|simpl; lia|vm_compute; done|].
  destruct (demo_added s1 [] [demo_r1] demo_r2 H1) as (s2 & H2 & F2);
    [apply demo_region_ok; set_solver|done|simpl; lia|vm_compute; done|].
  exists s2. split; [exact H2|congruence].
Qed.

Lemma demo_two_client : exists s, toc_client demo_ep s [] [demo_r1; demo_r2].
Proof.
  destruct demo_two as (s & Hs & _). exists s. split; [exact Hs|].
  apply (bool_decide_unpack _); vm_compute; exact I.
Qed.

(** What the witnesses have to check of the regions of the demo. *)
Ltac check_fresh :=
  split; [repeat constructor|apply (bool_decide_unpack _); vm_compute; exact I|apply Nat.leb_le; reflexivity].

Ltac check_joinable :=
  split; [|vm_compute; discriminate|vm_compute; reflexivity|apply (bool_decide_unpack _); vm_compute; exact I];
  vm_compute; repeat (apply Forall_cons_2; [split; vm_compute; intuition discriminate|]); apply Forall_nil_2.
