(* ===== verification/MdMemProps.v ===== *)
(** * Properties of the memory dumps *)

From stdpp Require Import gmap.
From S2P Require Import Prelude CMem CStr CText CPrint MdApi MdElf MdElfRep MdElfClear MdElfRegions.
From S2P Require Import MdElfInit MdElfUpdate MdState MdToc MdRm MdDriver MdTocProofs MdDriverProofs.
From S2P Require Import MdClient MdMemDump MdMemDumpProofs MdPageOwner MdPageOwnerProofs MdProbe MdDemo.
From S2P Require Import MdSlabOwner MdSlabOwnerProofs MdDmaBuf MdDmaBufProofs.

#[local] Open Scope string_scope.
#[local] Open Scope list_scope.
#[local] Open Scope Z_scope.

(** ** The sizes of the dumps *)

(** A driver with two regions, and the dumps off. *)
Definition demo_mem (s : md_state) : @mem_state md_state := MemState (fun _ => Dump 0 0) [] false s.

Definition demo_block : cma_block := CmaBlock 0xFFFF900000 0x90000000 5.

#[local] Existing Instance toc_region_api.

Lemma demo_mem_rep s :
  toc_client demo_ep s [] [demo_r1; demo_r2] ->
  mem_rep (H := toc_region_api true demo_ep) (demo_mem s) [] [demo_r1; demo_r2] (fun _ => Off).
Proof. intros Hs. split; try done. intros k. split; [done|]. by destruct k. Qed.

Lemma demo_block_ok : block_ok PAGEOWNER demo_block SZ_1M [demo_r1; demo_r2].
Proof.
  split; [done|]. split; [done|]. split; [split|].
  - by split.
  - done.
  - by vm_compute.
  - apply (bool_decide_unpack _). vm_compute. exact I.
  - intros r Hr. repeat (apply elem_of_cons in Hr as [->|Hr]; [done|]). by apply elem_of_nil in Hr.
Qed.

(** C19.  A write of a size below 2048 MB to the size file of a dump turns it
    off, moves it to the new size, falls back to the old one or turns it off
    when neither can be had, as the allocator and the minidump driver answer;
    the driver then has exactly one region for each dump that is on - that of
    the block it got, with its address and size - , the allocator's blocks in
    use are exactly theirs (nothing leaks), and the other regions are
    untouched.  A dump that was lost at boot, because it could not be
    registered then, stays lost: the write changes nothing.  (A size from
    2048 MB on is converted to an [int] on the way to the allocator: see
    [update_wraps].)  The blocks the allocator answers with, if it does, are
    at an address that is not 0 and at the physical address of no other
    region, and there are fewer than 197 other regions with headers
    ([block_ok]), so that the ELF header stays well formed. *)
Theorem update_dump_size_correct {S} `{MdRegionApi S} junk (st : @mem_state S) pend rs f k size a1 a2 count :
  mem_rep st pend rs f -> 0 <= size < 2048 ->
  (forall b, a1 = Some b -> block_ok k b (size * SZ_1M) (others k rs)) ->
  (forall b, a2 = Some b -> block_ok k b (dump_size (ms_dump st k)) (others k rs)) ->
  let x := status_after k (f k) size a1 a2 (pend ++ others k rs) in
  exists st', dump_size_write k junk (Some size) a1 a2 count st = Some (count, st') /\
    mem_rep st' pend (others k rs ++ status_regions x) (with_status f k x) /\
    ms_dump st' k = status_dump x /\ ((exists n, f k = Lost n) -> st' = st).
Proof.
  intros Hrep Hsz Ha1 Ha2 x. cbn [dump_size_write].
  destruct (update_dump_size_ok junk st pend rs f k size a1 a2 Hrep Hsz Ha1 Ha2) as (st' & -> & Hr & Hl).
  exists st'. split; [done|]. split; [exact Hr|]. split; [by eapply mem_rep_dump|done].
Qed.

(** A driver with two regions; the page owner dump is turned on with 1 MB. *)
Lemma update_dump_size_correct_witness : exists s, toc_client demo_ep s [] [demo_r1; demo_r2] /\
  let H := toc_region_api true demo_ep in
  let r := region_of PAGEOWNER demo_block 1048576 in
  exists st', dump_size_write PAGEOWNER 0 (Some 1) (Some demo_block) None 2 (demo_mem s) = Some (2, st') /\
    mem_rep st' [] [demo_r1; demo_r2; r] (with_status (fun _ => Off) PAGEOWNER (On r)) /\
    ms_dump st' PAGEOWNER = Dump 0xFFFF900000 1048576.
Proof.
  destruct demo_two_client as (s & Hs). exists s. split; [exact Hs|]. cbv zeta.
  destruct (update_dump_size_correct (H := toc_region_api true demo_ep) 0 (demo_mem s) []
    [demo_r1; demo_r2] (fun _ => Off) PAGEOWNER 1 (Some demo_block) None 2) as (st' & Hw & Hr & Hd & _).
  - by apply demo_mem_rep.
  - lia.
  - intros b [= <-]. apply demo_block_ok.
  - done.
  - exists st'. split; [exact Hw|]. split; [exact Hr|exact Hd].
Defined.

(** A dump that could not be registered at boot can never be turned on:
    its size is not zero, so a write starts by unregistering a region that
    does not exist, fails, and leaves everything as it is. *)
Theorem update_dump_size_lost {S} `{MdRegionApi S} junk (st : @mem_state S) pend rs f k n size a1 a2 count :
  mem_rep st pend rs f -> f k = Lost n ->
  dump_size_write k junk (Some size) a1 a2 count st = Some (count, st).
Proof. intros Hrep Hk. cbn [dump_size_write]. by rewrite (update_lost _ _ _ _ _ _ _ _ _ _ Hrep Hk). Qed.

(** The driver after a boot at which the page owner dump of 2 MB was lost. *)
Lemma update_dump_size_lost_witness : exists s, toc_client demo_ep s [] [demo_r1; demo_r2] /\
  let H := toc_region_api true demo_ep in
  let st := set_size (demo_mem s) PAGEOWNER 2097152 in
  dump_size_write PAGEOWNER 0 (Some 1) (Some demo_block) None 2 st = Some (2, st).
Proof.
  destruct demo_two_client as (s & Hs). exists s. split; [exact Hs|]. cbv zeta.
  apply (update_dump_size_lost (H := toc_region_api true demo_ep) 0 _ [] [demo_r1; demo_r2]
    (fun k => if decide (k = PAGEOWNER) then Lost 2097152 else Off) PAGEOWNER 2097152).
  - split; try done. intros []; by vm_compute.
  - done.
Defined.

(** Sizes are not limited: the bytes are converted to an [int] for the
    allocation and recorded as they are, so that 4097 MB allocates and
    registers one megabyte and records 4097; what is printed at a panic goes
    far behind the block. *)
Theorem update_dump_size_wraps {S} `{MdRegionApi S} junk (st : @mem_state S) pend rs f k b a2 count :
  mem_rep st pend rs f -> f k = Off -> block_ok k b SZ_1M rs ->
  registers k (Some b) SZ_1M (pend ++ rs) = true ->
  exists st' s', dump_size_write k junk (Some 4097) (Some b) a2 count st = Some (count, st') /\
    ms_dump st' k = Dump (cb_virt b) (4097 * SZ_1M) /\
    ms_cma st' = ms_cma st ++ [(cb_virt b, 256)] /\
    ms_api st' = s' /\ api_rep s' pend (rs ++ [region_of k b SZ_1M]).
Proof.
  intros Hrep Hk Hb Hr. cbn [dump_size_write].
  destruct (update_wraps junk st pend rs f k b a2 Hrep Hk Hb Hr) as (st' & s' & -> & H'). by exists st', s'.
Qed.

Lemma update_dump_size_wraps_witness : exists s, toc_client demo_ep s [] [demo_r1; demo_r2] /\
  let H := toc_region_api true demo_ep in
  exists st', dump_size_write PAGEOWNER 0 (Some 4097) (Some demo_block) None 5 (demo_mem s) = Some (5, st') /\
    ms_dump st' PAGEOWNER = Dump 0xFFFF900000 4296015872 /\ ms_cma st' = [(0xFFFF900000, 256)].
Proof.
  destruct demo_two_client as (s & Hs). exists s. split; [exact Hs|]. cbv zeta.
  destruct (update_dump_size_wraps (H := toc_region_api true demo_ep) 0 (demo_mem s) []
    [demo_r1; demo_r2] (fun _ => Off) PAGEOWNER demo_block None 5) as (st' & s' & Hw & Hd & Hc & _).
  - by apply demo_mem_rep.
  - done.
  - apply demo_block_ok.
  - by vm_compute.
  - exists st'. split; [exact Hw|]. split; [exact Hd|exact Hc].
Defined.

(** ** The page owner dump *)

(** Four pages: a free block of two, then two pages of one stack. *)
Definition demo_pages (pfn : Z) : page_info :=
  PageInfo true (if pfn =? 0 then Some 1 else None) true true true 7 0.

Definition demo_stacks (handle : Z) : list Z := [16; 17].

Definition demo_owner : owner_state := OwnerState (Mem 1000 1040 (fun _ => 0)) 1000 40 0xF 8 0 [].

Lemma demo_pages_ok : pages_ok demo_pages 2 0 4.
Proof.
  split; try done. intros pfn order. unfold demo_pages. cbn. destruct (pfn =? 0); [by intros [= <-]|done].
Qed.

Lemma demo_owner_ok : owner_ok demo_owner.
Proof. by split. Qed.

(** C18.  The page owner dump is the text of the records of the selected pages
    that are owned (page_ext with a recorded owner, allocated, a stack), from
    the first page that exists or starts an area on, free blocks and missing
    areas skipped, cut to the size of the dump and ended by a NUL; a record
    has the addresses of its stack unless a record above it has the same
    stack, as far as the table at the end of the dump tells, which holds as
    many stacks as fit and lives until the text reaches it.

    For the filters that look at the flags of a page only - 0xF, which takes
    every page, and those without bit 0x1: for the unaccounted pages the code
    uses the dump itself as scratch space.  What a filter selects is what the
    code tests: with bit 0x8 every page on an LRU list, although the help text
    of the file says File pages. *)
Theorem page_owner_dump_correct pages stacks ptr_text sym_text lru slab swapbacked MAX_ORDER min_low max s :
  pages_ok pages MAX_ORDER min_low max -> 0 <= swapbacked < 64 ->
  owner_ok s -> nr_handles s = 0 -> ld (ow_mem s) (ow_addr s) 1 = 0 ->
  flags_filter (page_owner_filter s) ->
  exists p s', first_page pages MAX_ORDER min_low p /\
    md_dump_pageowner pages stacks ptr_text sym_text lru slab swapbacked MAX_ORDER
      min_low max (ow_addr s) (ow_size s) s = Some s' /\
    cstr_at (ow_mem s') (ow_addr s) (stake (Z.to_nat (ow_size s - 1))
      (pageowner_text pages stacks ptr_text lru slab swapbacked MAX_ORDER max p s)).
Proof. apply md_dump_pageowner_text. Qed.

(** 40 bytes, with a table of two stacks: the second page has the stack of the
    first. *)
Lemma page_owner_dump_correct_witness :
  exists s', md_dump_pageowner demo_pages demo_stacks fmt_x fmt_x 1 2 3 2 0 4 1000 40 demo_owner = Some s' /\
    cstr_at (ow_mem s') 1000 ("2 7 2" +:+ nl +:+ "10" +:+ nl +:+ "11" +:+ nl +:+ "3 7 0" +:+ nl).
Proof.
  destruct (page_owner_dump_correct demo_pages demo_stacks fmt_x fmt_x 1 2 3 2 0 4 demo_owner)
    as (p & s' & (Hp1 & _ & Hp2) & Hr & Hs);
    [apply demo_pages_ok|lia|apply demo_owner_ok|done|done|by split; [cbn; lia|left]|].
  exists s'. split; [exact Hr|].
  assert (p = 0) as ->.
  { destruct (Z.eq_dec p 0) as [|Hne]; [done|]. destruct (Hp2 0 ltac:(lia)) as [Hv _]. discriminate Hv. }
  exact Hs.
Defined.

(** C20.  For every filter and call site list, and every table of stacks that
    lies inside the dump, both loops of the page owner dump end, nothing
    faults and nothing is written outside the dump.  (The table lies inside
    when its size is set; a dump that is made smaller than its table
    afterwards is not [owner_ok], and is written in front of: see
    [page_owner_handles_before_dump].) *)
Theorem page_owner_dump_safe pages stacks ptr_text sym_text lru slab swapbacked MAX_ORDER min_low max s :
  pages_ok pages MAX_ORDER min_low max -> owner_ok s ->
  exists s', md_dump_pageowner pages stacks ptr_text sym_text lru slab swapbacked MAX_ORDER
      min_low max (ow_addr s) (ow_size s) s = Some s' /\
    mod_only (ow_addr s) (ow_addr s + ow_size s) (ow_mem s) (ow_mem s').
Proof.
  intros Hp Hok. by apply md_dump_pageowner_inside.
Qed.

(** The filter for unaccounted pages, with a call site. *)
Lemma page_owner_dump_safe_witness :
  let s := set_call_sites (set_filter demo_owner 1) ["kmalloc"] in
  exists s', md_dump_pageowner demo_pages demo_stacks fmt_x fmt_x 1 2 3 2 0 4 1000 40 s = Some s' /\
    mod_only 1000 1040 (ow_mem s) (ow_mem s').
Proof.
  cbv zeta. apply (page_owner_dump_safe demo_pages demo_stacks fmt_x fmt_x 1 2 3 2 0 4
    (set_call_sites (set_filter demo_owner 1) ["kmalloc"])); [apply demo_pages_ok|by split].
Defined.

(** The size of the table is checked against the size of the dump only
    when it is written: after the dump is made smaller than the table, the
    first record stores its handle in front of the dump. *)
Theorem page_owner_handles_before_dump s handle size m addr size' :
  0 < size -> size <= ow_size s / SZ_16K -> 0 < size' -> size' < size * SZ_1K -> ow_size s < 4294967296 ->
  nr_handles s = 0 -> 0 <= handle < 4294967296 ->
  m_lo m <= addr + size' - size * SZ_1K -> addr + size' <= m_hi m -> 0 <= addr ->
  exists s1 s2, page_owner_handle_write (Some size) 5 s = (5, s1) /\
    let s1 := OwnerState m addr size' (page_owner_filter s1) (page_owner_handles_size s1)
                (nr_handles s1) (call_sites s1) in
    found_stack handle s1 = Some (false, s2) /\
    addr + size' - size * SZ_1K < addr /\
    ld (ow_mem s2) (addr + size' - size * SZ_1K) 4 = handle.
Proof.
  intros Hs Hle Hs' Hlt Hsz Hn Hh Hlo Hhi Ha. unfold page_owner_handle_write. decide_tests.
  assert (u64 (size * SZ_1K) = size * SZ_1K) as Hu.
  { apply u64_small. unfold SZ_16K, SZ_1K in *. pose proof (Z.div_mod (ow_size s) 16384 ltac:(lia)).
    pose proof (Z.mod_pos_bound (ow_size s) 16384 ltac:(lia)). lia. }
  eexists _, _. split; [reflexivity|]. cbn [page_owner_handles_size set_handles_size nr_handles call_sites].
  rewrite Hu. unfold found_stack, lookup_handle, handles_start. cbn [ow_addr ow_size page_owner_handles_size nr_handles ow_mem].
  rewrite Hn. cbn [Z.to_nat find_handle]. rewrite Z.mul_0_r, Z.add_0_r. unfold SZ_1K in *. decide_tests.
  rewrite store32_ok by lia. split; [reflexivity|]. split; [lia|]. cbn [ow_mem set_handles]. by apply ld32_st32_at.
Qed.

(** A 64 MB dump with a 2 MB table is made 1 MB long. *)
Lemma page_owner_handles_before_dump_witness :
  let s := OwnerState (Mem 0 0 (fun _ => 0)) 4194304 67108864 15 16384 0 [] in
  exists s1 s2, page_owner_handle_write (Some 2048) 5 s = (5, s1) /\
    let s1 := OwnerState (Mem 0 8388608 (fun _ => 0)) 4194304 1048576 (page_owner_filter s1)
                (page_owner_handles_size s1) (nr_handles s1) (call_sites s1) in
    found_stack 7 s1 = Some (false, s2) /\ ld (ow_mem s2) 3145728 4 = 7.
Proof.
  cbv zeta.
  destruct (page_owner_handles_before_dump (OwnerState (Mem 0 0 (fun _ => 0)) 4194304 67108864 15 16384 0 [])
    7 2048 (Mem 0 8388608 (fun _ => 0)) 4194304 1048576) as (s1 & s2 & Hw & Hf & _ & Hl);
    [vm_compute; intuition discriminate..|].
  exists s1, s2. split; [exact Hw|]. split; [exact Hf|exact Hl].
Defined.

(** ** The slab owner dump *)

(** C27.  The slab owner dump loses its records: although it has room for all
    of them, what it holds in the end, read as a string, is the names of the
    selected caches, each followed by an empty line, because every name - and
    the empty line - is printed where the records of the cache before start. *)
Theorem slab_owner_dump_loses_records hash ptr_text caches s :
  (forall l, 0 <= hash l < 4294967296) -> slab_ok s -> ld (sl_mem s) (sl_addr s) 1 = 0 ->
  let l := selected_caches (slab_owner_filter s) caches 0 in
  tracks_len hash ptr_text (concat (map cache_tracks l)) < sl_size s - 1 ->
  slen (heads l) < sl_size s - 1 ->
  sl_addr s + slen (heads l) + sl_size s <= m_hi (sl_mem s) ->
  exists s', md_dump_slabowner hash ptr_text caches (sl_addr s) (sl_size s) s = Some s' /\
    cstr_at (sl_mem s') (sl_addr s) (heads l).
Proof.
  intros Hhash Hok Hz l Hlen Hheads Hhi. pose proof Hok as [H1 H2 H3 H4 H5 H6].
  unfold md_dump_slabowner.
  assert (room s (PrivBuf (sl_addr s) (sl_size s) 0)
    (tracks_len hash ptr_text (concat (map cache_tracks l)))) as Hr by (split; cbn; done || lia).
  apply (each_cache_ok hash ptr_text Hhash caches 0 (PrivBuf (sl_addr s) (sl_size s) 0) s "" Hr); try done.
  cbn. unfold slen. simpl. lia.
Qed.

(** Two caches with an object each. *)
Definition demo_track : track := Track 4096 1 [16; 17; 0].
Definition demo_caches : kmalloc_row :=
  [Some (SlabCache "kmalloc-8" [CacheNode 1 [[demo_track]] []]); None;
   Some (SlabCache "kmalloc-32" [CacheNode 1 [] [[demo_track]]])].
Definition demo_slab (n hi : Z) : slab_state := SlabState (Mem 1000 hi (fun _ => 0)) 1000 n 7 8 0.

Lemma slab_owner_dump_loses_records_witness :
  exists s', md_dump_slabowner (fun _ => 5) fmt_x demo_caches 1000 64 (demo_slab 64 2000) = Some s' /\
    cstr_at (sl_mem s') 1000 ("kmalloc-8" +:+ nl +:+ nl +:+ "kmalloc-32" +:+ nl +:+ nl).
Proof.
  apply (slab_owner_dump_loses_records (fun _ => 5) fmt_x demo_caches (demo_slab 64 2000));
    [by intros|by split|done|vm_compute; reflexivity..|by vm_compute].
Defined.

(** The records start behind the names, yet the room is not reduced by
    the names: with five more bytes of memory than the dump the last record
    is written behind the dump, and with none it faults. *)
Theorem slab_owner_dump_overruns :
  md_dump_slabowner (fun _ => 5) fmt_x [Some (SlabCache "a" [CacheNode 1 [repeat demo_track 4] []])]
    1000 32 (demo_slab 32 1032) = None /\
  option_map (fun s' => ld (sl_mem s') 1032 1)
    (md_dump_slabowner (fun _ => 5) fmt_x [Some (SlabCache "a" [CacheNode 1 [repeat demo_track 4] []])]
      1000 32 (demo_slab 32 1037)) = Some 32.
Proof. split; by vm_compute. Qed.

(** A write to the filter of the slab owner dump with bits for the row of
    caches only is accepted exactly when every cache it names exists. *)
Theorem slab_owner_filter_write_correct caches filter count s :
  (length caches <= 30)%nat -> 0 <= filter < 2 ^ Z.of_nat (length caches) ->
  slab_owner_filter_write caches (Some filter) count s =
    Some (if caches_there filter caches 0 then (count, set_sl_filter s filter) else (- EINVAL, s)).
Proof.
  intros Hl Hf. cbn [slab_owner_filter_write].
  assert (filter_bits 32 caches filter 1 0 = Some (caches_there filter caches 0)) as ->
    by (apply (filter_bits_ok 32 filter [] caches); cbn [length Nat.add]; lia).
  by destruct (caches_there filter caches 0).
Qed.

Lemma slab_owner_filter_write_correct_witness :
  slab_owner_filter_write demo_caches (Some 5) 2 (demo_slab 64 2000)
    = Some (2, set_sl_filter (demo_slab 64 2000) 5) /\
  slab_owner_filter_write demo_caches (Some 3) 2 (demo_slab 64 2000) = Some (- EINVAL, demo_slab 64 2000).
Proof.
  split.
  - apply (slab_owner_filter_write_correct demo_caches 5 2 (demo_slab 64 2000)); [simpl; lia|simpl; lia].
  - apply (slab_owner_filter_write_correct demo_caches 3 2 (demo_slab 64 2000)); [simpl; lia|simpl; lia].
Defined.

(** ** The dma-buf dumps *)

(** A dump of [n] zeroed bytes at 1000, and two buffers. *)
Definition demo_dump (n : Z) : mem := Mem 1000 (1000 + n) (fun _ => 0).
Definition demo_buf_a : dma_buf :=
  DmaBuf 4096 2 3 1 "system" 77 (Some "a") 1 0 (Some (Fence "kgsl" "ctx" true)) [None] ["gpu"; "display"].
Definition demo_buf_b : dma_buf := DmaBuf 8192 2 3 1 "system" 78 None 2 0 None [] [].

(** C25.  The dump of all dma-bufs is its header, the text of every buffer -
    its line, fences, attachments - and the totals, cut to the size of the
    dump and ended by a NUL; nothing else is written, and when the buffers fit
    no lock, RCU section or fence reference is left behind. *)
Theorem dma_buf_info_correct bufs A N m h :
  0 < N <= INT_MAX_SIZE -> m_lo m <= A -> A + N <= m_hi m -> ld m A 1 = 0 ->
  slen dma_info_head < N - 1 -> Forall (lockable h) bufs ->
  exists m' h', md_dma_buf_info true bufs A N m h = Some (m', h') /\ mod_only A (A + N) m m' /\
    cstr_at m' A (stake (Z.to_nat (N - 1)) (dma_info_text bufs)) /\
    (slen (dma_info_head +:+ bufinfo_texts bufs) < N - 1 -> h' = h).
Proof.
  intros HN Hlo Hhi Hz Hhead Hok. by apply md_dma_buf_info_text.
Qed.

Lemma dma_buf_info_correct_witness :
  exists m' h', md_dma_buf_info true [demo_buf_a; demo_buf_b] 1000 500 (demo_dump 500) (Held [] 0 0) = Some (m', h') /\
    mod_only 1000 1500 (demo_dump 500) m' /\
    cstr_at m' 1000 (stake 499 (dma_info_text [demo_buf_a; demo_buf_b])) /\ h' = Held [] 0 0.
Proof.
  destruct (dma_buf_info_correct [demo_buf_a; demo_buf_b] 1000 500 (demo_dump 500) (Held [] 0 0))
    as (m' & h' & Hr & Hm & Ht & Hh); [done|done|done|done|by vm_compute| |].
  - repeat constructor; by intros ?%not_elem_of_nil.
  - exists m', h'. split; [exact Hr|]. split; [exact Hm|]. split; [exact Ht|]. apply Hh. by vm_compute.
Defined.

(** C37.  When the text of a dma-buf does not fit up to and with its attachments
    (the texts of the buffers before it do), the dump ends with the buffer's
    reservation locked: the error path returns without unlocking.  (The last
    line of a buffer, the total of its attachments, is printed after the
    reservation has been unlocked; when only that one does not fit the lock is
    free.) *)
Theorem dma_buf_info_leaves_locked bufs b rest A N m h :
  0 < N <= INT_MAX_SIZE -> m_lo m <= A -> A + N <= m_hi m -> ld m A 1 = 0 ->
  Forall (lockable h) (bufs ++ [b]) -> slen (dma_info_head +:+ bufinfo_texts bufs) < N - 1 ->
  N - 1 <= slen ((dma_info_head +:+ bufinfo_texts bufs) +:+ bufinfo_body b) ->
  exists m' h', md_dma_buf_info true (bufs ++ b :: rest) A N m h = Some (m', h') /\
    h_locks h' = db_resv b :: h_locks h.
Proof.
  intros HN Hlo Hhi Hz Hok Hl Hf. pose proof (slen_app_ge dma_info_head (bufinfo_texts bufs)).
  destruct (md_dma_buf_info_ok A N m HN Hlo Hhi (bufs ++ b :: rest) h
    (fun h' => h_locks h' = db_resv b :: h_locks h) ((dma_info_head +:+ bufinfo_texts bufs) +:+ bufinfo_text b) Hz)
    as (m' & h' & Hr & _ & _ & Hh); [lia| |by exists m', h'].
  intros pb m1 Hp.
  destruct (each_dmabuf_locked A N m HN Hlo Hhi bufs b rest pb (DmaTotals 0 0) m1 h _ Hp Hl Hok Hf)
    as (pb' & t' & m' & h' & -> & Hp' & Hh).
  exists pb', t', m', h'. split; [done|]. split; [done|]. split; [|done]. intros Hlt. exfalso.
  pose proof (slen_app_ge ((dma_info_head +:+ bufinfo_texts bufs) +:+ bufinfo_body b) (bufinfo_end b)) as Hge.
  unfold bufinfo_text in Hlt. rewrite sapp_assoc in Hlt. lia.
Qed.

(** 120 bytes: the attachments of the first buffer do not fit. *)
Lemma dma_buf_info_leaves_locked_witness :
  exists m' h', md_dma_buf_info true [demo_buf_a; demo_buf_b] 1000 120 (demo_dump 120) (Held [] 0 0) = Some (m', h') /\
    h_locks h' = [1].
Proof.
  apply (dma_buf_info_leaves_locked [] demo_buf_a [demo_buf_b] 1000 120 (demo_dump 120) (Held [] 0 0));
    [done|done|done|done| |by vm_compute|by vm_compute].
  repeat constructor; by intros ?%not_elem_of_nil.
Defined.

(** C26.  When the first thread of every process is its leader and has files,
    the dump of the processes' dma-bufs is the texts of the processes - their
    buffers, each hash index once, and the totals; nothing for a process
    without any - cut to the size of the dump; it says whether all fit. *)
Theorem dma_buf_procs_correct hash files procs A N m hashes :
  0 < N <= INT_MAX_SIZE -> m_lo m <= A -> A + N <= m_hi m -> ld m A 1 = 0 -> 1 < N -> hashes = ∅ ->
  Forall (proc_ok files) procs ->
  exists s', md_dma_buf_procs hash files procs A N hashes m
      = Some (slen (procs_text hash files procs) <? N - 1, s') /\ mod_only A (A + N) m (ps_mem s') /\
    cstr_at (ps_mem s') A (stake (Z.to_nat (N - 1)) (procs_text hash files procs)).
Proof.
  intros HN Hlo Hhi Hz HN1 -> Hok. by apply md_dma_buf_procs_text.
Qed.

(** Two processes with the same buffer, one with none. *)
Definition demo_files (n : Z) : fd_table := if n =? 1 then [None; Some demo_buf_b; Some demo_buf_b] else [None].
Definition demo_proc (comm : string) (files : option Z) : process :=
  Process comm 9 files [Thread files true; Thread files false].

Lemma demo_proc_ok comm f : proc_ok demo_files (demo_proc comm (Some f)).
Proof.
  split.
  - eexists _, _, f. split; [reflexivity|]. unfold visited. cbn. by rewrite orb_true_r.
  - unfold demo_proc, proc_fds, thread_fds, visited, demo_files. cbn.
    rewrite orb_true_r, orb_false_r, bool_decide_eq_false_2 by (by intros []). by destruct (f =? 1).
Qed.

Lemma dma_buf_procs_correct_witness :
  exists s', md_dma_buf_procs db_ino demo_files [demo_proc "init" (Some 1); demo_proc "sh" (Some 2); demo_proc "app" (Some 1)]
      1000 400 ∅ (demo_dump 400) = Some (true, s') /\ mod_only 1000 1400 (demo_dump 400) (ps_mem s') /\
    cstr_at (ps_mem s') 1000 (stake 399 (procs_text db_ino demo_files
      [demo_proc "init" (Some 1); demo_proc "sh" (Some 2); demo_proc "app" (Some 1)])).
Proof.
  apply (dma_buf_procs_correct db_ino demo_files
    [demo_proc "init" (Some 1); demo_proc "sh" (Some 2); demo_proc "app" (Some 1)] 1000 400 (demo_dump 400) ∅);
    try done. repeat constructor; apply demo_proc_ok.
Defined.

(** A process whose first thread has no files - it is exiting - ends the
    dump of the processes' dma-bufs when a process with buffers was printed
    before: the result of that print is taken for an error. *)
Theorem dma_buf_procs_stops_at_exiting hash files p z rest A N m :
  0 < N <= INT_MAX_SIZE -> m_lo m <= A -> A + N <= m_hi m -> ld m A 1 = 0 ->
  proc_ok files p -> slen (proc_dump hash files p) < N - 1 -> proc_dump hash files p <> "" ->
  (exists t ths, pr_threads z = t :: ths /\ th_files t = None) ->
  exists s', md_dma_buf_procs hash files (p :: z :: rest) A N ∅ m = Some (false, s') /\
    cstr_at (ps_mem s') A (stake (Z.to_nat (N - 1)) (proc_dump hash files p)).
Proof.
  intros HN Hlo Hhi Hz Hok Hl Hne (t & ths & Hth & Hf). pose proof (slen_nonneg (proc_dump hash files p)).
  assert (1 < N) as HN1 by lia.
  pose proof (between_start A N m HN HN1 Hz) as Hb.
  destruct (each_process_stops A N m HN Hlo Hhi hash files p z rest "" 0 _ Hb Hok Hl Hne) as (s' & Hr & [_ _ _ Ht _]).
  { exists t, ths. split; [done|]. unfold visited. by rewrite Hf. }
  by exists s'.
Qed.

Lemma dma_buf_procs_stops_at_exiting_witness :
  exists s', md_dma_buf_procs db_ino demo_files
      [demo_proc "init" (Some 1); demo_proc "zombie" None; demo_proc "app" (Some 1)]
      1000 400 ∅ (demo_dump 400) = Some (false, s') /\
    cstr_at (ps_mem s') 1000 (stake 399 (proc_dump db_ino demo_files (demo_proc "init" (Some 1)))).
Proof.
  apply (dma_buf_procs_stops_at_exiting db_ino demo_files (demo_proc "init" (Some 1)) (demo_proc "zombie" None)
    [demo_proc "app" (Some 1)] 1000 400 (demo_dump 400)); try done.
  - apply demo_proc_ok.
  - by eexists _, _.
Defined.
