(* ===== verification/MdProps.v ===== *)
(** * Properties of the minidump driver in SMEM mode *)

From S2P Require Import Prelude CMem CStr CText MdApi MdElf MdElfRep MdElfClear MdElfRegions.
From S2P Require Import MdElfInit MdElfUpdate MdState MdToc MdRm MdDriver MdTocProofs.
From S2P Require Import MdDriverProofs MdProbe MdDemo.

#[local] Open Scope string_scope.
#[local] Open Scope list_scope.
#[local] Open Scope Z_scope.

(** ** Registering *)

(** C2.  Registering a region does what the reference registry does: the call
    returns its result - the region's number, or -EINVAL for an invalid
    entry, -ENOMEM when 200 regions are registered, -EEXIST for a name in use.
    On an error nothing changes.  Otherwise the region is appended to the
    driver's table and to the boot loader's table with its sequence number and
    the valid mark, for each of the 200 regions the tables take.  It is
    appended to the ELF header as well - a section header with the region's
    name in the string table, a program header, and the file offset behind
    the last region, all other regions keeping theirs - as long as the header
    has capacity: up to 197 regions registered after the probe, and a file of
    less than 2^64 bytes.  From the 198th on the header is no longer promised
    to be well formed, only to be navigated inside its buffer ([toc_rep_any]). *)
Theorem minidump_add_region_correct alloc ep s pend rs e :
  toc_rep_any ep s pend rs -> region_wf e ->
  exists s', msm_minidump_add_region alloc (Some e) s = Some ((registry_add e (pend ++ rs)).1, s') /\
    ((registry_add e (pend ++ rs)).1 < 0 -> s' = s) /\
    (0 <= (registry_add e (pend ++ rs)).1 ->
       toc_rep_any ep s' pend (rs ++ [e]) /\
       (elf_capacity (rs ++ [e]) -> toc_rep ep s pend rs /\ toc_rep ep s' pend (rs ++ [e]))).
Proof.
  intros Hany Hwf. pose proof Hany as (Hu & Hts & Hsafe & Hel).
  destruct (Z.ltb_spec (registry_add e (pend ++ rs)).1 0) as [Hneg|Hpos].
  { exists s. split; [by apply add_region_refused|]. split; [done|lia]. }
  pose proof (registry_add_accepts _ _ Hpos) as (Hv & Hlen & _ & Heq).
  pose proof (validate_entry_ok e Hwf Hv) as He. rewrite length_app in Hlen.
  destruct (elf_safe_add _ _ _ e Hsafe He) as (m' & h' & Hadd & Hsafe' & _);
    [unfold CONFIG_MINIDUMP_MAX_ENTRIES; lia|].
  destruct (add_region_accepted alloc s _ e m' h' Hu Hts Hwf Hpos Hadd)
    as (s' & Hr & Hu' & Hts' & Hm & Hh & _).
  exists s'. rewrite Heq. split; [exact Hr|]. split; [simpl; lia|]. intros _.
  enough (toc_rep_any ep s' pend (rs ++ [e])) as Hany'.
  { split; [done|]. intros Hc. split; [|by apply toc_rep_any_rep].
    apply toc_rep_any_rep; [|done]. by apply (elf_capacity_app rs e). }
  rewrite <- Hm, <- Hh in *. rewrite <- app_assoc in Hts'.
  split; [done|]. split; [done|]. rewrite length_app. simpl length.
  replace (Z.of_nat (length rs + 1)) with (Z.of_nat (length rs) + 1) by lia. split; [done|].
  intros Hc.
  destruct (elf_capacity_app rs e He Hc) as (Hc0 & Hl & Hsz).
  destruct (elf_regions_add ep _ _ rs e (Hel Hc0) He Hl Hsz) as (m2 & h2 & Hadd2 & Hel2 & _).
  rewrite Hadd in Hadd2. by simplify_eq.
Qed.

Lemma minidump_add_region_correct_witness :
  exists s s', toc_rep demo_ep s [] [demo_r1; demo_r2] /\
    msm_minidump_add_region true (Some demo_r3) s = Some (2, s') /\
    toc_rep demo_ep s' [] [demo_r1; demo_r2; demo_r3].
Proof.
  destruct demo_two as (s & Hs & _).
  destruct (minidump_add_region_correct true demo_ep s [] [demo_r1; demo_r2] demo_r3
    (toc_rep_rep_any _ _ _ _ Hs)) as (s' & H1 & _ & H2);
    [apply entry_ok_wf, demo_region_ok; set_solver|].
  exists s, s'. split; [exact Hs|]. split; [exact H1|].
  apply H2; [vm_compute; discriminate|]. split; vm_compute; discriminate || done.
Defined.

(** A sequence of registrations, each with the answer of the allocator (asked
    before the probe), with the values returned and the states reached. *)
Fixpoint add_all (es : list (bool * md_region)) (s : md_state) : option (list (Z * md_state)) :=
  match es with
  | [] => Some []
  | (alloc, e) :: es =>
      let* (ret, s) := msm_minidump_add_region alloc (Some e) s in
      let* tr := add_all es s in
      Some ((ret, s) :: tr)
  end.

(** Every call returns what the reference says, and leaves a driver that holds
    the regions of the reference: the same state after an error. *)
Fixpoint adds_ok (probed : bool) (all : list md_region) (es : list (bool * md_region))
  (s : md_state) (tr : list (Z * md_state)) : Prop :=
  match es, tr with
  | [], [] => True
  | (alloc, e) :: es, (ret, s') :: tr =>
      ret = (add_ref probed alloc e all).1 /\
      (if ret <? 0 then s' = s /\ adds_ok probed all es s' tr
       else ret = Z.of_nat (length all) /\ holds probed s' (all ++ [e]) /\
            num_regions s' = ret + 1 /\ adds_ok probed (all ++ [e]) es s' tr)
  | _, _ => False
  end.

(** C11.  No sequence of registrations makes the driver fault, whatever the
    descriptors are and in whatever order errors and successes come, up to
    the 200 regions it takes and beyond, before the probe or after it: every
    call returns the error of the reference and leaves the state as it was,
    or it returns the number of regions registered before it and the driver
    holds one region more.  Before the probe the errors are -EINVAL for an
    invalid region and -ENOMEM when 201 regions wait or there is no memory;
    after it they are those of the registry of names. *)
Theorem minidump_add_region_safe probed s all es :
  holds probed s all -> Forall (fun p => region_wf p.2) es ->
  exists tr, add_all es s = Some tr /\ adds_ok probed all es s tr.
Proof.
  intros Hs Hes. revert s all Hs. induction Hes as [|[alloc e] es He _ IH]; intros s all Hs; simpl.
  { by exists []. }
  destruct (add_region_holds probed alloc s all e Hs He) as (s' & -> & Hs' & Herr).
  destruct (IH s' _ Hs') as (tr & -> & Htr). eexists. split; [reflexivity|]. split; [done|].
  destruct (add_ref_cases probed alloc e all) as [[Hneg Hsame]|[_ Heq]].
  - rewrite (proj2 (Z.ltb_lt _ 0)), Hsame in * by done. auto.
  - rewrite Heq in *. simpl in *. rewrite (proj2 (Z.ltb_ge _ 0)) by lia.
    rewrite (holds_count _ _ _ Hs'), length_app. simpl. split_and!; done || lia.
Qed.

(** Before the probe a name may be used twice, and an allocation may fail. *)
Lemma minidump_add_region_safe_witness :
  exists tr, add_all [(true, demo_r1); (false, demo_r2); (true, demo_r1)] md_state_init = Some tr /\
    map fst tr = [0; - ENOMEM; 1].
Proof.
  destruct (minidump_add_region_safe false md_state_init []
    [(true, demo_r1); (false, demo_r2); (true, demo_r1)]) as (tr & H1 & H2).
  - split; [apply demo_init_pending|reflexivity].
  - repeat constructor; try (apply entry_ok_wf, demo_region_ok; set_solver).
  - exists tr. split; [exact H1|].
    destruct tr as [|[r1 s1] tr]; [done|]. destruct H2 as [-> H2]. hnf in H2.
    destruct H2 as (_ & _ & _ & H2).
    destruct tr as [|[r2 s2] tr]; [done|]. destruct H2 as [-> H2]. hnf in H2. destruct H2 as [_ H2].
    destruct tr as [|[r3 s3] tr]; [done|]. destruct H2 as [-> H2]. hnf in H2.
    destruct H2 as (_ & _ & _ & H2). by destruct tr.
Defined.

(** ** Removing *)

(** C8.  Removing a region that has its own addresses and size takes it out of
    the driver's table, the boot loader's table and the ELF header, closes the
    gaps (names, section and program headers, file offsets of the regions
    behind it) and leaves everything else as it was; region numbers from the
    removed one on are no longer valid for updates. *)
Theorem minidump_remove_region_correct alloc ep s pend rs1 r rs2 e :
  toc_rep ep s pend (rs1 ++ r :: rs2) -> same_region e r ->
  NoDup (region_names (rs1 ++ r :: rs2)) ->
  (forall x, x ∈ rs1 -> phys_addr x = phys_addr e -> md_size x <> md_size e) ->
  exists s', msm_minidump_remove_region alloc (Some e) s = Some (0, s') /\
    toc_rep ep s' pend (rs1 ++ rs2) /\
    first_removed_entry s' = Z.min (first_removed_entry s) (Z.of_nat (length (pend ++ rs1))).
Proof. apply remove_region_ok. Qed.

Lemma minidump_remove_region_correct_witness :
  exists s s', toc_rep demo_ep s [] [demo_r1; demo_r2] /\
    msm_minidump_remove_region true (Some demo_r1) s = Some (0, s') /\
    toc_rep demo_ep s' [] [demo_r2] /\ first_removed_entry s' = 0.
Proof.
  destruct demo_two as (s & Hs & Hf).
  destruct (minidump_remove_region_correct true demo_ep s [] [] demo_r1 [demo_r2] demo_r1 Hs)
    as (s' & H1 & H2 & H3); [by split|apply (bool_decide_unpack _); vm_compute; exact I|intros x Hx; by apply elem_of_nil in Hx|].
  exists s, s'. split; [exact Hs|]. split; [exact H1|]. split; [exact H2|]. rewrite H3, Hf. reflexivity.
Defined.

(** C14.  Removing the region that was registered last restores the lists of
    regions exactly: the tables and the ELF header are the image of what they
    were the image of before, and the string table, section and program
    header counts and the file offset are back at their old values.  This is
    for a region that the driver accepts and that leaves the header its
    capacity (fewer than 197 regions with headers before it, a file of less
    than 2^64 bytes), whose name is neither that of another region with a
    header nor one of the three of the fixed sections, and whose physical
    address and size are not both those of an earlier region with a header;
    the removal of a shadowed region fails ([elf_regions_clear_shadowed]). *)
Theorem minidump_add_remove_roundtrip alloc alloc' ep s pend rs e :
  toc_rep ep s pend rs -> region_wf e -> Z.of_nat (length rs) < 197 ->
  27888 + sizes rs + md_size e < 18446744073709551616 ->
  0 <= (registry_add e (pend ++ rs)).1 -> NoDup (region_names (rs ++ [e])) ->
  (forall x, x ∈ rs -> phys_addr x = phys_addr e -> md_size x <> md_size e) ->
  exists s1 s2, msm_minidump_add_region alloc (Some e) s = Some (Z.of_nat (length (pend ++ rs)), s1) /\
    msm_minidump_remove_region alloc' (Some e) s1 = Some (0, s2) /\ toc_rep ep s2 pend rs /\
    num_regions s2 = num_regions s /\
    strtable_idx (minidump_elfheader s2) = strtable_idx (minidump_elfheader s) /\
    elf_offset (minidump_elfheader s2) = elf_offset (minidump_elfheader s).
Proof.
  intros (Hu & Hts & Hel) Hwf Hlen Hsz Hpos Hnd Hfirst.
  pose proof (registry_add_accepts _ _ Hpos) as (Hv & _ & _ & _).
  destruct (elf_regions_add ep _ _ rs e Hel (validate_entry_ok e Hwf Hv) Hlen Hsz)
    as (m' & h' & Hadd & Hel' & _).
  destruct (add_region_accepted alloc s _ e m' h' Hu Hts Hwf Hpos Hadd)
    as (s1 & Hr & Hu1 & Hts1 & Hm & Hh & _).
  assert (toc_rep ep s1 pend (rs ++ [e])) as Hrep1.
  { split; [exact Hu1|]. split; [by rewrite app_assoc|by rewrite Hm, Hh]. }
  destruct (remove_region_ok alloc' ep s1 pend rs e [] e Hrep1 ltac:(by split) Hnd Hfirst)
    as (s2 & Hrem & Hrep2 & _).
  rewrite app_nil_r in Hrep2. exists s1, s2. split; [exact Hr|]. split; [exact Hrem|].
  split; [exact Hrep2|]. destruct Hrep2 as (_ & Hts2 & Hel2).
  split; [by rewrite (ts_num _ _ Hts2), (ts_num _ _ Hts)|].
  split; [|by rewrite (el_off _ _ _ _ Hel2), (el_off _ _ _ _ Hel)].
  by rewrite (er_idx _ _ _ _ _ (el_rep _ _ _ _ Hel2)), (er_idx _ _ _ _ _ (el_rep _ _ _ _ Hel)).
Qed.

Lemma minidump_add_remove_roundtrip_witness :
  exists s s1 s2, toc_rep demo_ep s [] [demo_r1] /\
    msm_minidump_add_region true (Some demo_r2) s = Some (1, s1) /\
    msm_minidump_remove_region true (Some demo_r2) s1 = Some (0, s2) /\ toc_rep demo_ep s2 [] [demo_r1].
Proof.
  destruct (demo_probed [] ltac:(simpl; lia) ltac:(constructor) ltac:(constructor)) as (s0 & H0 & _).
  destruct (demo_added s0 [] [] demo_r1 H0) as (s & Hs & _);
    [apply demo_region_ok; set_solver|done|simpl; lia|vm_compute; done|].
  destruct (minidump_add_remove_roundtrip true true demo_ep s [] [demo_r1] demo_r2 Hs)
    as (s1 & s2 & H1 & H2 & H3 & _).
  - apply entry_ok_wf, demo_region_ok; set_solver.
  - simpl; lia.
  - vm_compute; done.
  - vm_compute; discriminate.
  - apply (bool_decide_unpack _); vm_compute; exact I.
  - intros x ->%list_elem_of_singleton. vm_compute. discriminate.
  - exists s, s1, s2. split; [exact Hs|]. split; [exact H1|]. split; [exact H2|exact H3].
Defined.

(** ** Updating *)

(** C31.  An update of region number [k] moves the addresses of the [k]-th region
    in the driver's table and its physical address in the boot loader's, and
    those of the [k]-th region with a header in the ELF header; nothing else
    changes.  The two are the same region exactly when no region was
    registered before the probe ([pend] is empty). *)
Theorem minidump_update_region_correct alloc ep s pend rs k r r' e :
  toc_rep ep s pend rs -> (pend ++ rs) !! k = Some r -> rs !! k = Some r' ->
  Z.of_nat k < first_removed_entry s ->
  named (md_name e) (pend ++ rs) = true -> entry_ok e ->
  exists s', msm_minidump_update_region alloc (Z.of_nat k) (Some e) s = Some (0, s') /\
    unlocked s' /\ toc_state s' (<[k := moved r e]> (pend ++ rs)) /\
    elf_regions ep (elf_buf s') (minidump_elfheader s') (<[k := moved r' e]> rs) /\
    (pend = [] -> toc_rep ep s' [] (<[k := moved r e]> rs)).
Proof.
  intros Hs Hk Hk' Hf Hnm He.
  destruct (update_region_ok alloc ep s pend rs k r r' e Hs Hk Hk' Hf Hnm He)
    as (s' & H1 & H2 & H3 & H4 & _).
  exists s'. split_and!; try done. intros ->. simpl in *. rewrite Hk in Hk'. injection Hk' as <-.
  by split.
Qed.

(** The kernel moved, while the log buffer was registered before the probe:
    the log buffer's entry gets the new address, and the kernel's header. *)
Definition demo_move : md_region := MdRegion "kernel" 1 0xEEEE0000 0x90000000 4096.

Lemma minidump_update_region_correct_witness :
  exists s s', toc_rep demo_ep s [demo_r2] [demo_r1] /\
    msm_minidump_update_region true 0 (Some demo_move) s = Some (0, s') /\
    toc_state s' [moved demo_r2 demo_move; demo_r1] /\
    elf_regions demo_ep (elf_buf s') (minidump_elfheader s') [moved demo_r1 demo_move].
Proof.
  destruct (demo_probed [demo_r2] ltac:(simpl; lia)) as (s0 & H0 & F0);
    [apply (bool_decide_unpack _); vm_compute; exact I|constructor; [apply demo_region_ok; set_solver|constructor]|].
  destruct (demo_added s0 [demo_r2] [] demo_r1 H0) as (s & Hs & F1);
    [apply demo_region_ok; set_solver|done|simpl; lia|vm_compute; done|].
  destruct (minidump_update_region_correct true demo_ep s [demo_r2] [demo_r1] 0 demo_r2 demo_r1 demo_move Hs)
    as (s' & H1 & _ & H2 & H3 & _);
    [done|done|rewrite F1, F0; done|done|split; vm_compute; intuition discriminate|].
  exists s, s'. split; [exact Hs|]. split; [exact H1|]. split; [exact H2|exact H3].
Defined.

(** After a removal an update with a region number at or behind the removed
    region returns -EINVAL and leaves the tables alone, but it changes the
    headers of the region that now has that number. *)
Theorem minidump_update_refused_changes_header alloc ep s pend rs k r' e :
  toc_rep ep s pend rs -> rs !! k = Some r' -> first_removed_entry s <= Z.of_nat k -> entry_ok e ->
  exists s', msm_minidump_update_region alloc (Z.of_nat k) (Some e) s = Some (- EINVAL, s') /\
    unlocked s' /\ toc_state s' (pend ++ rs) /\
    elf_regions ep (elf_buf s') (minidump_elfheader s') (<[k := moved r' e]> rs).
Proof. apply update_region_moved. Qed.

Lemma minidump_update_refused_changes_header_witness :
  exists s s', toc_rep demo_ep s [] [demo_r2] /\
    msm_minidump_update_region true 0 (Some demo_move) s = Some (- EINVAL, s') /\
    elf_regions demo_ep (elf_buf s') (minidump_elfheader s') [moved demo_r2 demo_move].
Proof.
  destruct demo_two as (s0 & H0 & F0).
  destruct (remove_region_ok true demo_ep s0 [] [] demo_r1 [demo_r2] demo_r1 H0)
    as (s & _ & Hs & Hf); [by split|apply (bool_decide_unpack _); vm_compute; exact I|intros x Hx; by apply elem_of_nil in Hx|].
  destruct (minidump_update_refused_changes_header true demo_ep s [] [demo_r2] 0 demo_r2 demo_move Hs)
    as (s' & H1 & _ & _ & H2); [done|rewrite Hf, F0; simpl; lia|split; vm_compute; intuition discriminate|].
  exists s, s'. split; [exact Hs|]. split; [exact H1|exact H2].
Defined.

(** Region number 200 passes the check of msm_minidump_update_region, but
    the boot loader's table ends at index 200 and the update writes index
    201: it faults as soon as the name is registered. *)
Theorem minidump_update_last_faults alloc s all e :
  unlocked s -> toc_state s all -> first_removed_entry s = INT_MAX ->
  named (md_name e) all = true -> validate_region (Some e) = 0 ->
  msm_minidump_update_region alloc 200 (Some e) s = None.
Proof.
  intros [Hl Hr] Hts Hf Hnm Hv. unfold msm_minidump_update_region, read_lock.
  rewrite (ts_init _ _ Hts), Hv. cbn [negb Z.eqb orb].
  change (MAX_NUM_ENTRIES <=? 200) with false. cbv beta match. rewrite Hr. cbn.
  rewrite (ts_rm _ _ Hts). unfold md_update_ss_toc. cbn [first_removed_entry set_locks]. rewrite Hf.
  change (INT_MAX <=? 200) with false. cbv beta match.
  destruct (toc_full _ _ Hts) as (t & toc & Ht & _ & _ & Hlen & Htt).
  rewrite (md_entry_num_spec _ t all) by (done || apply Hts).
  destruct (region_index all (md_name e)) as [i|] eqn:Hi; [|apply region_index_None in Hi; congruence].
  destruct (Z.ltb_spec (Z.of_nat i) 0); [lia|]. cbn [minidump_table set_locks]. rewrite Ht.
  pose proof (tt_length _ _ Htt) as Hlt. destruct (getZ_is_Some (entry t) 200 ltac:(lia)) as [x ->].
  rewrite setZ_Some by lia. pose proof (tt_regions _ _ Htt) as [phys ->].
  assert (getZ (ss_table phys all) (200 + 1) = None) as ->; [|done].
  change (200 + 1) with (Z.of_nat 201). rewrite getZ_of_nat. apply lookup_ge_None_2.
  by rewrite ss_table_length.
Qed.

Lemma minidump_update_last_faults_witness :
  exists s, toc_rep demo_ep s [] [demo_r1; demo_r2] /\
    msm_minidump_update_region true 200 (Some demo_move) s = None.
Proof.
  destruct demo_two as (s & Hs & Hf). exists s. split; [exact Hs|]. destruct Hs as (Hu & Hts & _).
  apply (minidump_update_last_faults true s [demo_r1; demo_r2] demo_move Hu Hts Hf); reflexivity.
Defined.

(** ** Looking up *)

(** md_get_region returns the descriptor of the registered region of that
    name, with its id, addresses and size, and an empty descriptor for a name
    that is not registered. *)
Theorem minidump_get_region_correct s all name :
  toc_state s all ->
  (forall r, r ∈ all -> md_name r = name -> md_get_region s name = Some r) /\
  (named name all = false -> md_get_region s name = Some no_region).
Proof.
  intros Hts. rewrite (md_get_region_ok _ _ _ Hts).
  destruct (toc_full _ _ Hts) as (t & toc & _ & _ & _ & _ & Htt). pose proof (tt_names _ _ Htt) as Hnd.
  split.
  - intros r Hr Hn. apply list_elem_of_lookup in Hr as [i Hi].
    destruct (region_index all name) as [j|] eqn:Hj.
    + apply region_index_Some in Hj as Hx; [|done]. destruct Hx as (r' & Hr' & Hn').
      assert (i = j) as <-.
      { apply (NoDup_lookup (map md_name all) _ _ name); [done|..];
          [rewrite <- Hn|rewrite <- Hn']; by apply lookup_map. }
      by rewrite Hi.
    + assert (region_index all name = Some i) as Hx by (apply region_index_Some; eauto). congruence.
  - intros Hn%region_index_None. by rewrite Hn.
Qed.

Lemma minidump_get_region_correct_witness :
  exists s, toc_rep demo_ep s [] [demo_r1; demo_r2] /\ md_get_region s "log_buf" = Some demo_r2.
Proof.
  destruct demo_two as (s & Hs & _). exists s. split; [exact Hs|]. destruct Hs as (_ & Hts & _).
  destruct (minidump_get_region_correct s [demo_r1; demo_r2] "log_buf" Hts) as [H _].
  apply H; [set_solver|reflexivity].
Defined.

(** ** The probe *)

(** C9.  A probe that the kernel and the firmware let through, with at most 200
    regions of different names waiting, creates the ELF header, enables the
    boot loader's table with the header as its first entry, moves all waiting
    regions to the tables in the order of their registration and frees them;
    it never faults and releases its lock. *)
Theorem minidump_probe_correct pe ep buf bphys s :
  probe_ok pe ep buf bphys -> pending_state s -> (length (pending_list s) <= 200)%nat ->
  NoDup (map md_name (pending_list s)) -> Forall entry_ok (pending_list s) ->
  exists s', probe_init pe s = Some (None, s') /\ toc_rep ep s' (pending_list s) [] /\
    pending_list s' = [] /\ first_removed_entry s' = first_removed_entry s /\
    (exists t, minidump_table s' = Some t /\ md_regions t = Some (ss_table bphys (pending_list s))).
Proof. apply probe_init_ok. Qed.

Definition demo_waiting : md_state := set_num_regions (set_pending md_state_init [demo_r1; demo_r2]) 2.

Lemma minidump_probe_correct_witness :
  exists s', probe_init demo_pe demo_waiting = Some (None, s') /\
    toc_rep demo_ep s' [demo_r1; demo_r2] [].
Proof.
  destruct (minidump_probe_correct demo_pe demo_ep demo_buf 2147483648 demo_waiting demo_probe_ok)
    as (s' & H1 & H2 & _).
  - split; try done. simpl. lia.
  - simpl; lia.
  - apply (bool_decide_unpack _); vm_compute; exact I.
  - constructor; [apply demo_region_ok; set_solver|]. constructor; [apply demo_region_ok; set_solver|constructor].
  - exists s'. split; [exact H1|exact H2].
Defined.

(** 201 regions can wait for the probe, one more than the tables take: the
    probe then writes behind the driver's table. *)
Theorem minidump_probe_overflows pe ep buf bphys s :
  probe_ok pe ep buf bphys -> pending_state s -> length (pending_list s) = 201%nat ->
  probe_init pe s = None.
Proof. apply probe_init_overflow. Qed.

(** The state 201 registrations of one region lead to. *)
Definition demo_overfull : md_state :=
  set_num_regions (set_pending md_state_init (replicate 201 demo_r1)) 201.

Lemma minidump_probe_overflows_witness : probe_init demo_pe demo_overfull = None.
Proof.
  apply (minidump_probe_overflows demo_pe demo_ep demo_buf 2147483648 demo_overfull demo_probe_ok);
    [split; try done; simpl; lia|reflexivity].
Defined.

(** ** The ELF header *)

(** C34.  On a zeroed buffer of the size the driver allocates the header written
    is a well-formed image of no regions: four sections with their names in
    the string table, one program header for the banner, offsets and counts
    that the navigation functions follow, no access outside the buffer. *)
Theorem elf_header_init_correct m table ba bp :
  m_lo m + elfh_size <= m_hi m -> (forall x, m_lo m <= x < m_lo m + elfh_size -> byte m x = 0) ->
  0 <= table < 18446744073709551616 -> 0 <= ba < 18446744073709551616 ->
  0 <= bp < 18446744073709551616 ->
  exists m' h', fill_header m table ba bp = Some (m', h') /\
    elf_regions (ElfParams table ba bp) m' h' [] /\
    ehdr h' = m_lo m /\ m_lo m' = m_lo m /\ m_hi m' = m_hi m.
Proof. destruct elf_layout_size as [-> _]. apply fill_header_ok. Qed.

Lemma elf_header_init_correct_witness :
  exists m' h', fill_header demo_buf 536870912 805306368 2952790016 = Some (m', h') /\
    elf_regions demo_ep m' h' [].
Proof.
  destruct (elf_header_init_correct demo_buf 536870912 805306368 2952790016)
    as (m' & h' & H1 & H2 & _); [vm_compute; discriminate|done|lia..|].
  exists m', h'. split; [exact H1|exact H2].
Defined.

(** C39.  The section table has 201 places and starts four sections full: the
    header of the 198th region is written over the first program header,
    that of the banner, whose type then is the offset of a name. *)
Theorem elf_sections_overrun m h e :
  elf_safe m h 197 -> entry_ok e -> 1 < strtable_idx h ->
  exists m' h', md_add_elf_header m h e = Some (m', h') /\
    sec_ptr h 201 = seg_ptr h 0 /\ ld m' (seg_ptr h' 0) 4 = strtable_idx h /\
    ld m' (seg_ptr h' 0) 4 <> PT_LOAD.
Proof.
  intros [Hnav Hsh Hph Hi Ho Hn] He Hlt. pose proof (eo_name _ He) as Hlen.
  unfold MAX_NAME_LENGTH in Hlen.
  destruct (md_add_elf_header_added m h e 201 198 Hnav He) as (m' & h' & Hadd & Had); [lia..|].
  exists m', h'. split; [exact Hadd|]. split; [elf_layout; lia|].
  assert (ld m' (seg_ptr h' 0) 4 = strtable_idx h) as Hld.
  { pose proof (sa_name _ _ _ (ad_sec _ _ _ _ _ _ _ Had)) as Hs.
    transitivity (ld m' (sec_ptr h 201 + off_sh_name) 4); [|exact Hs].
    rewrite (ad_h _ _ _ _ _ _ _ Had). f_equal. elf_layout. simpl. lia. }
  split; [exact Hld|]. rewrite Hld. unfold PT_LOAD. lia.
Qed.

(** 197 regions of one-letter names would do; a list of them registered one by
    one is a header with all the fields [elf_safe] asks for. *)
Lemma demo_many n rs ep m h :
  elf_regions ep m h rs -> (length rs + n <= 197)%nat -> sizes rs + 4096 * Z.of_nat n < 1000000000 ->
  exists m' h', elf_regions ep m' h' (rs ++ replicate n demo_r1).
Proof.
  revert rs m h. induction n as [|n IH]; intros rs m h Hel Hlen Hsz.
  { exists m, h. by rewrite app_nil_r. }
  destruct (elf_regions_add ep m h rs demo_r1 Hel) as (m1 & h1 & _ & Hel1 & _);
    [apply demo_region_ok; set_solver|lia|simpl; lia|].
  destruct (IH (rs ++ [demo_r1]) m1 h1 Hel1) as (m' & h' & Hel').
  - rewrite length_app. simpl. lia.
  - rewrite sizes_app. unfold sizes at 2. simpl. lia.
  - exists m', h'. by rewrite <- app_assoc in Hel'.
Qed.

Lemma elf_sections_overrun_witness :
  exists m h m' h', md_add_elf_header m h demo_r2 = Some (m', h') /\ ld m' (seg_ptr h' 0) 4 <> PT_LOAD.
Proof.
  destruct (fill_header_ok demo_buf 536870912 805306368 2952790016)
    as (m0 & h0 & _ & H0 & _); [simpl; lia|done|lia..|].
  destruct (demo_many 197 [] _ m0 h0 H0) as (m & h & Hel); [simpl; lia|vm_compute; done|].
  pose proof (elf_regions_safe _ _ _ _ Hel) as Hsafe. rewrite app_nil_l, length_replicate in Hsafe.
  destruct (elf_sections_overrun m h demo_r2 (Hsafe ltac:(lia))) as (m' & h' & H1 & _ & _ & H2).
  - apply demo_region_ok; set_solver.
  - rewrite (er_idx _ _ _ _ _ (el_rep _ _ _ _ Hel)), names_len_app3.
    match goal with |- context [names_len ?l] => pose proof (names_len_nonneg l) end. lia.
  - exists m, h, m', h'. split; [exact H1|exact H2].
Defined.

(** ** Failed removals *)



(** ** Room left *)

(** With 200 regions registered the driver still announces room for one
    more, and refuses every valid region. *)
Theorem minidump_available_overstates alloc info s all e :
  unlocked s -> toc_state s all -> length all = 200%nat -> validate_region (Some e) = 0 ->
  msm_minidump_get_available_region info s = Some (1, s) /\
  msm_minidump_add_region alloc (Some e) s = Some (- ENOMEM, s).
Proof.
  intros Hu Hts Hlen Hv. split.
  - rewrite (available_region_ok info s all Hu Hts), Hlen. done.
  - assert ((registry_add e all).1 = - ENOMEM) as Heq.
    { unfold registry_add, CONFIG_MINIDUMP_MAX_ENTRIES. by rewrite Hv, Hlen. }
    rewrite (add_region_refused alloc s all e Hu Hts); [by rewrite Heq|]. rewrite Heq. unfold ENOMEM. lia.
Qed.

(** 200 regions with different names. *)
Definition demo_region (i : nat) : md_region :=
  MdRegion (String.append "r" (fmt_u (Z.of_nat i))) 0 4096 4096 64.

Lemma demo_regions_ok n : (n <= 1000)%nat -> Forall entry_ok (map demo_region (seq 0 n)).
Proof.
  intros Hn. apply Forall_forall. intros e He. apply in_map_iff in He as (i & <- & Hi).
  apply in_seq in Hi. pose proof (slen_fmt_u (Z.of_nat i) ltac:(lia)). split;
    cbn [demo_region md_name virt_addr phys_addr md_size]; [| |lia|lia|by split].
  - rewrite slen_app. change (slen "r") with 1. unfold MAX_NAME_LENGTH. lia.
  - change (no_nul (fmt_u (Z.of_nat i)) = true). apply no_nul_digits; done || lia.
Qed.

Lemma minidump_available_overstates_witness :
  exists s, toc_rep demo_ep s (map demo_region (seq 0 200)) [] /\
    msm_minidump_get_available_region 0 s = Some (1, s) /\
    msm_minidump_add_region true (Some demo_r1) s = Some (- ENOMEM, s).
Proof.
  destruct (demo_probed (map demo_region (seq 0 200))) as (s & Hs & _);
    [rewrite length_map, length_seq; lia|apply (bool_decide_unpack _); vm_compute; exact I|apply demo_regions_ok; lia|].
  exists s. split; [exact Hs|]. destruct Hs as (Hu & Hts & _).
  apply (minidump_available_overstates true 0 s (map demo_region (seq 0 200) ++ []) demo_r1 Hu Hts);
    [by rewrite app_nil_r, length_map, length_seq|reflexivity].
Defined.
