(* ===== verification/MdRmProps.v ===== *)
(** * Properties of the minidump driver in resource-manager mode *)

From S2P Require Import Prelude CMem CStr CText MdApi MdElf MdElfRep MdElfClear MdElfRegions.
From S2P Require Import MdElfInit MdElfUpdate MdElfRequests MdState MdToc MdRm MdDriver MdTocProofs.
From S2P Require Import MdDriverProofs MdProbe MdRmProofs MdRmSystem.

#[local] Open Scope string_scope.
#[local] Open Scope list_scope.
#[local] Open Scope Z_scope.

(** ** A concrete driver *)

Definition rm_buf : mem := Mem 1048576 1076464 (fun _ => 0).

Definition rm_ep : elf_params := ElfParams 536870912 805306368 2952790016.

Definition rm_pe : probe_env :=
  ProbeEnv true 100 1 true true true (inl 0) None (Some (rm_buf, 2147483648))
    536870912 805306368 2952790016.

Definition rm_r1 : md_region := MdRegion "kernel" 1 0xFFFF0000 0x80000000 4096.
Definition rm_r2 : md_region := MdRegion "log_buf" 2 0xFFFF8000 0x80001000 1024.
Definition rm_r3 : md_region := MdRegion "alias" 3 0xFFFFF000 0x80001000 1024.

(** Before the probe, with regions waiting. *)
Definition rm_pending (l : list md_region) : md_state :=
  set_num_regions (set_pending md_state_init l) (Z.of_nat (length l)).

Lemma rm_demo_probe_ok : rm_probe_ok rm_pe rm_ep rm_buf 2147483648.
Proof. by split. Qed.

Lemma rm_demo_region_ok e : e ∈ [rm_r1; rm_r2; rm_r3] -> rm_region_ok e.
Proof.
  intros H. repeat (apply elem_of_cons in H as [->|H];
    [split; [split; vm_compute; intuition discriminate|by vm_compute|
       apply (bool_decide_unpack _); vm_compute; exact I]|]).
  by apply elem_of_nil in H.
Qed.

Lemma rm_demo_wf e : e ∈ [rm_r1; rm_r2; rm_r3] -> region_wf e.
Proof. intros H. destruct (ro_ok _ (rm_demo_region_ok e H)) as [? ? ? ? []]. split; [done|lia..]. Qed.

Lemma rm_demo_pending l : (length l <= 201)%nat -> pending_state (rm_pending l).
Proof. intros Hl. split; try done. Qed.

(** ** Properties *)

(** C3.  In resource-manager mode the driver's state is, at every point of
    every interleaving of the calls of other drivers with the two halves of
    the worker's requests, the image of two lists - the registered regions,
    which have ELF headers, and those that wait for the worker - and every
    step is one of the moves of the specification: a new name is queued, the
    first waiting region is registered or dropped, a registered region is
    removed or moved, or nothing happens.  No call and no half of a request
    faults, deadlocks or finds the table corrupt, whatever the resource
    manager answers and however old the request is by then.  The calls are
    those that keep the promises of [rm_call_ok]: every descriptor is a C
    structure (a name without NUL, 64-bit numbers); a valid entry is only added
    while fewer than 197 regions are registered or wait, has at least one and
    less than 2^56 bytes, and does not have the name of one of the three
    fixed sections.  (The 198th region breaks the ELF header in this mode as
    in the other.) *)
Theorem rm_mode_refines ep x x' l :
  rm_inv ep x l -> rtc rm_step x x' ->
  exists l', rtc rm_abs l l' /\ rm_inv ep x' l' /\
    forall c, rm_call_ok c x'.1 -> exists x'', rm_exec c x' = Some x''.
Proof.
  intros Hinv Hsteps. revert l Hinv. induction Hsteps as [x|x y z [c x1 x2 Hc Hx] _ IH]; intros l Hinv.
  - exists l. split; [constructor|]. split; [done|]. intros c Hc.
    destruct (rm_exec_ok ep c x l Hinv Hc) as (x'' & _ & ? & _). eauto.
  - destruct (rm_exec_ok ep c x1 l Hinv Hc) as (x'' & l1 & Hx' & Hinv1 & Habs).
    rewrite Hx in Hx'. injection Hx' as <-. destruct (IH l1 Hinv1) as (l' & Hl' & Hrest).
    exists l'. split; [by eapply rtc_l|done].
Qed.

(** Two regions wait; a third is added while the first is being registered. *)
Lemma rm_mode_refines_witness :
  exists x x' l', rm_inv rm_ep x ([], [rm_r1; rm_r2]) /\ rtc rm_step x x' /\
    rtc rm_abs ([], [rm_r1; rm_r2]) l' /\ rm_inv rm_ep x' l'.
Proof.
  destruct (rm_probe_init rm_pe rm_ep rm_buf 2147483648 (rm_pending [rm_r1; rm_r2]) rm_demo_probe_ok)
    as (s & _ & Hrep & _).
  - apply rm_demo_pending. simpl. lia.
  - simpl. lia.
  - apply (bool_decide_unpack _). vm_compute. exact I.
  - repeat constructor; apply rm_demo_region_ok; set_solver.
  - assert (rm_inv rm_ep (s, None) ([], [rm_r1; rm_r2])) as Hinv by exact Hrep.
    destruct (rm_exec_ok rm_ep RmBegin (s, None) _ Hinv I) as (x1 & l1 & H1 & Hinv1 & _).
    destruct (rm_exec_ok rm_ep (RmEnd (RmAnswer 5 0)) x1 l1 Hinv1 I) as (x2 & l2 & H2 & _ & _).
    assert (rtc rm_step (s, None) x2) as Hsteps.
    { eapply rtc_l; [by apply (rm_step_call RmBegin)|].
      eapply rtc_l; [by apply (rm_step_call (RmEnd (RmAnswer 5 0)))|constructor]. }
    destruct (rm_mode_refines rm_ep (s, None) x2 _ Hinv Hsteps) as (l' & Hl' & Hx' & _).
    exists (s, None), x2, l'. split; [exact Hinv|]. split; [exact Hsteps|]. split; [exact Hl'|exact Hx'].
Defined.

(** C29.  The worker gets through any queue: after as many requests as wait,
    nothing is queued and no region waits. *)
Theorem rm_worker_drains ep s rs ps answers :
  rm_rep ep s None rs ps -> (length (rm_queue s) <= length answers)%nat ->
  exists s' rs', work_all answers s = Some s' /\ rm_rep ep s' None rs' [] /\ rm_queue s' = [].
Proof.
  intros Hrep Hlen. destruct (work_all_ok ep answers s rs ps Hrep) as (s' & rs' & ps' & Hw & Hrep' & Hq).
  assert (rm_queue s' = []) as Hq0 by (rewrite Hq; by apply drop_ge).
  pose proof (queue_empty_waiting _ _ _ _ Hrep' Hq0). subst ps'. by exists s', rs'.
Qed.



Lemma rm_worker_drains_witness :
  exists s s' rs', rm_rep rm_ep s None [] [rm_r1; rm_r2] /\
    work_all [RmAnswer 5 0; RmAnswer 6 0; RmAnswer 7 0] s = Some s' /\ rm_rep rm_ep s' None rs' [].
Proof.
  destruct (rm_probe_init rm_pe rm_ep rm_buf 2147483648 (rm_pending [rm_r1; rm_r2]) rm_demo_probe_ok)
    as (s & _ & Hrep & Hq).
  - apply rm_demo_pending. simpl. lia.
  - simpl. lia.
  - apply (bool_decide_unpack _). vm_compute. exact I.
  - repeat constructor; apply rm_demo_region_ok; set_solver.
  - destruct (rm_worker_drains rm_ep s [] [rm_r1; rm_r2] [RmAnswer 5 0; RmAnswer 6 0; RmAnswer 7 0] Hrep)
      as (s' & rs' & H1 & H2 & _).
    + rewrite Hq. simpl. lia.
    + exists s, s', rs'. split; [exact Hrep|]. split; [exact H1|exact H2].
Defined.

(** ** A request that comes too late *)

(** C40.  An update that is carried out when the region of its name is the first
    one that still waits (because the region it was queued for was removed and
    added again) registers that region with the resource manager, which gives
    it a slot; the region still waits, without an ELF header.  Its own request,
    next in the queue, registers it a second time, and the second slot
    replaces the first one in the table: no entry of the table holds the first
    slot, unless one did before, so that nothing can deregister it. *)
Theorem rm_late_update_registers_twice ep s t rs ps e e' q a1 a2 :
  rm_rep ep s None rs (e :: ps) -> minidump_rm_table s = Some t ->
  minidump_rm_wq t = MdRmRequest e' MINIDUMP_UPDATE :: MdRmRequest e MINIDUMP_ADD :: q ->
  md_name e' = md_name e ->
  0 <= ra_register a1 -> 0 <= ra_deregister a1 -> 0 <= ra_register a2 ->
  exists slot s1 s2 t2 s3 s4 t4,
    work_begin s = Some (Some (Updating e' (Z.of_nat (length rs)) slot), s1) /\
    work_end s1 (Updating e' (Z.of_nat (length rs)) slot) a1 = Some s2 /\
    minidump_rm_table s2 = Some t2 /\
    rm_entry t2 !! length rs = Some (MdRmRegion (md_name e) (ra_register a1)) /\
    rm_rep ep s2 None rs (e :: ps) /\
    work_begin s2 = Some (Some (Adding e (Z.of_nat (length rs))), s3) /\
    work_end s3 (Adding e (Z.of_nat (length rs))) a2 = Some s4 /\
    minidump_rm_table s4 = Some t4 /\
    rm_entry t4 = <[length rs := MdRmRegion (md_name e) (ra_register a2)]> (rm_entry t) /\
    rm_rep ep s4 None (rs ++ [e]) ps.
Proof.
  intros Hrep Ht Hq Hn Ha1 Hd1 Ha2.
  destruct (begin_update_eq ep s t rs ps e e' _ Hrep Ht Hq Hn) as (slot & s1 & Hb1 & Ht1).
  destruct (work_begin_ok ep s rs (e :: ps) Hrep) as (w & s1' & Hb1' & Hrep1 & _).
  rewrite Hb1 in Hb1'. simplify_eq.
  destruct (end_update_eq ep s1' _ rs ps e e' slot a1 Hrep1 Ht1 Hn Ha1 Hd1)
    as (s2 & Hd2 & Ht2 & Hrep2). cbn [minidump_rm_wq rm_entry] in Ht2. rewrite list_insert_insert_eq in Ht2.
  destruct (begin_add_eq ep s2 _ rs ps e q Hrep2 Ht2 eq_refl) as (s3 & Hb3 & Ht3).
  destruct (work_begin_ok ep s2 rs (e :: ps) Hrep2) as (w & s3' & Hb3' & Hrep3 & _).
  rewrite Hb3 in Hb3'. simplify_eq.
  destruct (end_add_eq ep s3' _ rs ps e a2 Hrep3 Ht3 Ha2) as (s4 & Hd4 & Ht4 & Hrep4).
  cbn [minidump_rm_wq rm_entry] in Ht4. rewrite list_insert_insert_eq in Ht4.
  eexists slot, s1', s2, _, s3', s4, _. split_and!; try done.
  cbn [rm_entry]. apply list_lookup_insert_eq. destruct Hrep as [_ _ _ (t' & Htab & _) _ _].
  pose proof (rt_table _ _ _ Htab) as Ht'. rewrite Ht in Ht'. simplify_eq.
  rewrite (rt_length _ _ _ Htab). pose proof (rt_room _ _ _ Htab) as Hroom.
  rewrite length_app in Hroom. lia.
Qed.

(** How a driver gets there: the calls and the worker's steps one after the
    other, with room for another region at each. *)
Fixpoint rm_run (cs : list rm_call) (x : rm_conf) : option rm_conf :=
  match cs with
  | [] => Some x
  | c :: cs =>
      let* _ := assert_c (num_regions x.1 <? 197) in
      let* x := rm_exec c x in rm_run cs x
  end.

Lemma rm_run_inv ep cs x x' l :
  rm_inv ep x l -> Forall (fun c => forall s, num_regions s < 197 -> rm_call_ok c s) cs ->
  rm_run cs x = Some x' -> exists l', rm_inv ep x' l'.
Proof.
  intros Hinv Hcs. revert x l Hinv. induction Hcs as [|c cs Hc _ IH]; intros x l Hinv Hrun; simpl in Hrun.
  { simplify_eq. by exists l. }
  destruct (Z.ltb_spec (num_regions x.1) 197) as [Hlt|]; [|done]. cbn [assert_c] in Hrun.
  destruct (rm_exec_ok ep c x l Hinv (Hc _ Hlt)) as (x1 & l1 & Hx1 & Hinv1 & _).
  rewrite Hx1 in Hrun. by apply (IH x1 l1).
Qed.

(** A removal and an update of the same region are queued; the region is
    removed and registered again before the update is carried out. *)
Definition late_update : list rm_call :=
  [RmRemove true (Some rm_r1); RmUpdate true 0 (Some rm_r1);
   RmBegin; RmEnd (RmAnswer 5 0); RmBegin; RmEnd (RmAnswer 0 0); RmAdd true (Some rm_r1)].

Definition late_from (probed : option (option Z * md_state)) : option rm_conf :=
  let* (_, s) := probed in rm_run late_update (s, None).

Lemma late_from_probed r s : late_from (Some (r, s)) = rm_run late_update (s, None).
Proof. reflexivity. Qed.

#[local] Abbreviation rm_late := (late_from (probe_init rm_pe (rm_pending [rm_r1]))).

Lemma rm_late_shape :
  option_map (fun x => (x.2, rm_queue x.1, num_regions x.1)) rm_late
  = Some (None, [MdRmRequest rm_r1 MINIDUMP_UPDATE; MdRmRequest rm_r1 MINIDUMP_ADD], 1).
Proof. vm_compute. reflexivity. Qed.

Lemma late_update_ok :
  Forall (fun c => forall s, num_regions s < 197 -> rm_call_ok c s) late_update.
Proof.
  assert (rm_region_ok rm_r1) as [_ Hsz Hnm] by (apply rm_demo_region_ok; by left).
  assert (region_wf rm_r1) as Hwf by (apply rm_demo_wf; by left).
  unfold late_update. repeat apply Forall_cons_2; try apply Forall_nil_2; intros s Hn; simpl; by split_and?.
Qed.

Lemma rm_late_rep : exists s, rm_late = Some (s, None) /\ rm_rep rm_ep s None [] [rm_r1].
Proof.
  pose proof rm_late_shape as Hsh. destruct rm_late as [[s w]|] eqn:Hl; [|done].
  cbn [option_map fst snd] in Hsh. injection Hsh as -> Hq Hn. exists s. split; [done|].
  destruct (rm_probe_init rm_pe rm_ep rm_buf 2147483648 (rm_pending [rm_r1]) rm_demo_probe_ok)
    as (s0 & Hp & Hrep & _).
  { apply rm_demo_pending. simpl. lia. }
  { simpl. lia. }
  { apply (bool_decide_unpack _). vm_compute. exact I. }
  { constructor; [apply rm_demo_region_ok; by left|constructor]. }
  rewrite Hp, late_from_probed in Hl.
  destruct (rm_run_inv rm_ep late_update (s0, None) (s, None) ([], [rm_r1]) Hrep) as ([rs ps] & Hinv);
    [exact late_update_ok|exact Hl|].
  cbv [rm_inv fst snd] in Hinv. pose proof Hinv as [_ _ _ (t & Htab & Hw & _) _ _].
  unfold rm_queue in Hq. rewrite (rt_table _ _ _ Htab) in Hq. rewrite Hq in Hw. cbn in Hw. subst ps.
  pose proof (rt_num _ _ _ Htab) as Hlen. rewrite Hn, length_app in Hlen. simpl in Hlen.
  destruct rs; [done|]. simpl in Hlen. lia.
Qed.

Lemma rm_late_update_registers_twice_witness :
  exists s slot s1 s2 s3 s4 t4, rm_late = Some (s, None) /\
    work_begin s = Some (Some (Updating rm_r1 0 slot), s1) /\
    work_end s1 (Updating rm_r1 0 slot) (RmAnswer 6 0) = Some s2 /\
    work_begin s2 = Some (Some (Adding rm_r1 0), s3) /\
    work_end s3 (Adding rm_r1 0) (RmAnswer 7 0) = Some s4 /\
    minidump_rm_table s4 = Some t4 /\ rm_rep rm_ep s4 None [rm_r1] [].
Proof.
  destruct rm_late_rep as (s & Hs & Hrep).
  pose proof rm_late_shape as Hsh. rewrite Hs in Hsh. cbn [option_map fst snd] in Hsh.
  destruct (minidump_rm_table s) as [t|] eqn:Ht; [|by unfold rm_queue in Hsh; rewrite Ht in Hsh].
  unfold rm_queue in Hsh. rewrite Ht in Hsh. injection Hsh as Hq _.
  destruct (rm_late_update_registers_twice rm_ep s t [] [] rm_r1 rm_r1 [] (RmAnswer 6 0) (RmAnswer 7 0)
    Hrep Ht Hq eq_refl) as (slot & s1 & s2 & t2 & s3 & s4 & t4 & H1 & H2 & _ & _ & _ & H3 & H4 & H5 & _ & H6);
    [done..|].
  exists s, slot, s1, s2, s3, s4, t4. split; [exact Hs|]. split_and!; [exact H1|exact H2|exact H3|exact H4|exact H5|exact H6].
Defined.
