(* ===== verification/MdLogProps.v ===== *)
(** * Properties of the log regions (minidump_log.c) *)

From stdpp Require Import gmap.
From S2P Require Import Prelude CMem CStr CText CPrint MdApi MdElf MdElfRep MdElfClear MdElfRegions.
From S2P Require Import MdElfInit MdElfUpdate MdState MdToc MdRm MdDriver MdTocProofs MdDriverProofs.
From S2P Require Import MdClient MdProbe MdDemo MdMemDump MdFtrace MdLogReg MdLogRegProofs MdModules.
From S2P Require Import MdStack MdStackProofs MdStackReg MdKmsg MdLogInit MdLogInitProofs.

#[local] Open Scope string_scope.
#[local] Open Scope list_scope.
#[local] Open Scope Z_scope.

(** ** The initialisation *)


(** The variables of the file as they are initialised. *)
Lemma log_init_ready {S} `{MdRegionApi S} cf an (a : S) :
  pstore_ok an -> stacks_quiet cf an -> 0 <= an_kmsg_register an -> log_ready cf an (log_init_state a) initial_size.
Proof. intros Hp Hq Hk. split; try done. split; intros []; by vm_compute. Qed.


(** All options, two CPUs, the probe on CPU 0; pstore with the records of the
    kernel log and user space, blocks for all buffers, no memory for the
    dumps. *)
Definition demo_config : log_config := LogConfig true true true true true true true true false.

Definition demo_answers : log_answers :=
  LogAnswers (fun _ => 7) (Some (Mem 1048576 1179648 (fun _ => 0), 2147483648)) 0 [0; 1]
    (OnCpu 0 (KTask 4096 8192 8192 16384 false 0) 8200) []
    (Some (PstoreNode None (Some (2684354560, 65536)) (Some 16384) (Some 0) None (Some 8192)))
    (Some (Mem 4194304 6291456 (fun _ => 0), 3221225472))
    (fun _ => (Some (Block 8388608 3489660928), Some (Block 8421376 3489693696))) 0 true true (fun _ => None) [].

Lemma demo_quiet : stacks_quiet demo_config demo_answers.
Proof. intros _. split; [done|]. split; [apply (bool_decide_unpack _); vm_compute; exact I|apply Forall_nil_2]. Qed.

Lemma demo_pstore : pstore_ok demo_answers.
Proof. intros n p [= <-] [= <-]. lia. Qed.


(** ** Modules *)

(** C21.  register_vmap_mem ends, and registers the memory in pieces that
    follow each other, cover it exactly and lie in one page each, with the
    physical address of that page: for memory that starts with a page the
    pieces are what is there. *)
Theorem register_vmap_mem_tiles {S} `{MdRegionApi S} page_phys junk name addr len (s : S) pend rs rest :
  let cs := chunks page_phys junk name addr len in
  0 <= addr -> 0 <= len -> addr + len < 18446744073709551616 ->
  api_rep s pend rs -> joinable rs (cs ++ rest) ->
  exists s', register_vmap_mem page_phys junk name addr len s = Some (0, s') /\
    api_rep s' pend (reg_all pend rs cs) /\ joinable (reg_all pend rs cs) rest /\
    sizes cs = len /\
    forall i c, cs !! i = Some c ->
      virt_addr c = addr + sizes (take i cs) /\ 0 < md_size c /\
      virt_addr c / PAGE_SIZE = (virt_addr c + md_size c - 1) / PAGE_SIZE /\
      phys_addr c = page_phys (virt_addr c).
Proof.
  intros cs Ha Hl Hw Hrep Hj.
  destruct (register_vmap_mem_ok page_phys junk name addr len pend rest s rs Ha Hl Hw Hrep Hj) as (s' & Hs & [Hr Hj' _]).
  exists s'. split; [exact Hs|]. split; [exact Hr|]. split; [exact Hj'|]. by apply chunks_tile.
Qed.

(** 10000 bytes from the middle of a page on: three pieces of a driver with two
    regions. *)
Definition demo_chunks : list md_region := chunks (fun a => a - a mod 4096) 0 "mod" 69632 10000.

Lemma demo_chunks_joinable : joinable [demo_r1; demo_r2] demo_chunks.
Proof.
  check_joinable.
Qed.

Lemma register_vmap_mem_tiles_witness : exists s, toc_client demo_ep s [] [demo_r1; demo_r2] /\
  exists s', @register_vmap_mem _ (toc_region_api true demo_ep) (fun a => a - a mod 4096) 0 "mod" 69632 10000 s = Some (0, s') /\
    toc_client demo_ep s' [] ([demo_r1; demo_r2] ++ demo_chunks) /\
    map md_name demo_chunks = ["0_mod"; "1_mod"; "2_mod"] /\ map md_size demo_chunks = [4096; 4096; 1808].
Proof.
  destruct demo_two_client as (s & Hs). exists s. split; [exact Hs|].
  destruct (@register_vmap_mem_tiles _ (toc_region_api true demo_ep) (fun a => a - a mod 4096) 0 "mod" 69632 10000 s []
    [demo_r1; demo_r2] []) as (s' & H1 & H2 & _); [lia|lia|lia|exact Hs|rewrite app_nil_r; apply demo_chunks_joinable|].
  exists s'. split; [exact H1|]. split; [|split; reflexivity].
  replace ([demo_r1; demo_r2] ++ demo_chunks) with (reg_all [] [demo_r1; demo_r2] demo_chunks) by (vm_compute; reflexivity).
  exact H2.
Defined.

(** The name of a piece has room for nine characters of the module's: of
    two modules that share them, the second one's data is not registered at
    all, as far as the first one's reaches, and the call returns 0 as ever. *)
Theorem register_vmap_mem_collides {S} `{MdRegionApi S} page_phys junk n1 n2 addr len (s : S) pend rs :
  0 <= addr -> 0 <= len -> addr + len < 18446744073709551616 ->
  api_rep s pend rs -> joinable rs (chunks page_phys junk n2 addr len) ->
  stake 9 n1 = stake 9 n2 -> page_count addr len <= 10 ->
  (forall i, 0 <= i < page_count addr len -> named (vmap_name i n1) (pend ++ rs) = true) ->
  exists s', register_vmap_mem page_phys junk n2 addr len s = Some (0, s') /\ api_rep s' pend rs.
Proof.
  intros Ha Hl Hw Hrep Hj Hn Hpc Hnm. rewrite <- (app_nil_r (chunks _ _ _ _ _)) in Hj.
  destruct (register_vmap_mem_ok page_phys junk n2 addr len pend [] s rs Ha Hl Hw Hrep Hj) as (s' & Hs & [Hr _ _]).
  exists s'. split; [exact Hs|]. rewrite reg_all_taken in Hr; [done|].
  apply list.Forall_forall. intros c Hc. apply list_elem_of_In, in_map_iff in Hc as (i & <- & Hi%in_seq).
  cbn [chunk md_name]. rewrite <- (vmap_name_collides _ n1 n2) by (done || lia). apply Hnm. lia.
Qed.

(** qcom_glink with one page was there first. *)
Lemma register_vmap_mem_collides_witness : exists s, toc_client demo_ep s [] [MdRegion "0_qcom_glin" 0 4096 4096 4096] /\
  exists s', @register_vmap_mem _ (toc_region_api true demo_ep) id 0 "qcom_glink_smem" 8192 4096 s = Some (0, s') /\
    toc_client demo_ep s' [] [MdRegion "0_qcom_glin" 0 4096 4096 4096].
Proof.
  set (r := MdRegion "0_qcom_glin" 0 4096 4096 4096).
  destruct (demo_probed [] ltac:(simpl; lia) ltac:(constructor) ltac:(constructor)) as (s0 & H0 & F0).
  destruct (demo_added s0 [] [] r H0) as (s & Hs & _);
    [split; vm_compute; intuition discriminate|done|simpl; lia|vm_compute; done|].
  assert (toc_client demo_ep s [] [r]) as Hc by (split; [exact Hs|apply (bool_decide_unpack _); vm_compute; exact I]).
  exists s. split; [exact Hc|].
  apply (@register_vmap_mem_collides _ (toc_region_api true demo_ep) id 0 "qcom_glink" "qcom_glink_smem" 8192 4096 s [] [r]).
  - lia.
  - lia.
  - lia.
  - exact Hc.
  - check_joinable.
  - reflexivity.
  - vm_compute. discriminate.
  - intros i Hi. assert (page_count 8192 4096 = 1) as Hpc by reflexivity. rewrite Hpc in Hi.
    replace i with 0 by lia. vm_compute. reflexivity.
Defined.

(** C22.  A module that goes live leaves one line in the module buffer, cut to
    the buffer - its name, its base, and for a key module that fits the
    sections of its data with their addresses - and the data of such a module
    is registered; other modules change no region. *)
Theorem md_module_notify_correct {S} `{MdRegionApi S} page_phys junk key_modules mdl (s : @modules_state S) t n pend rs rest :
  let k := length (pend ++ rs) in
  md_mod_info_seq_buf s = Some (seq_view n t) -> 0 < n -> md_modules_lock s = false -> mo_live mdl = true ->
  module_ok mdl -> (k <= 201)%nat -> api_rep (hp_api (mo_heap s)) pend rs ->
  joinable rs (module_chunks page_phys junk key_modules mdl k ++ rest) ->
  exists s', md_module_notify page_phys junk key_modules mdl s = Some (0, s') /\
    md_mod_info_seq_buf s' = Some (seq_view n (t +:+ String.concat "" (module_texts key_modules mdl k))) /\
    api_rep (hp_api (mo_heap s')) pend (reg_all pend rs (module_chunks page_phys junk key_modules mdl k)) /\
    md_modules_lock s' = false.
Proof.
  intros k Hb Hn Hl Hlive Hok Hlen Hrep Hj.
  destruct (md_module_notify_ok page_phys junk key_modules mdl s _ pend rs rest Hb Hl Hlive Hok Hlen Hrep Hj)
    as (api & Hs & [Hr _ _]).
  eexists. split; [exact Hs|]. rewrite seq_view_prints by done. split; [done|]. by split.
Qed.

Definition demo_module : kmodule := KModule "mod" 65536 4096 14096 (Some [(".text", 65600); (".data", 69640)]) true.

Definition demo_modules (s : md_state) : @modules_state md_state :=
  ModulesState (HeapState s []) (Some (seq_view 100 "")) false true.

Lemma md_module_notify_correct_witness : exists s, toc_client demo_ep s [] [demo_r1; demo_r2] /\
  exists s', @md_module_notify _ (toc_region_api true demo_ep) (fun a => a - a mod 4096) 0 ["mod"] demo_module (demo_modules s)
      = Some (0, s') /\
    md_mod_info_seq_buf s' = Some (seq_view 100 ("name: mod, base: 10000, .data: 11008" +:+ nl)) /\
    toc_client demo_ep (hp_api (mo_heap s')) [] ([demo_r1; demo_r2] ++ demo_chunks).
Proof.
  destruct demo_two_client as (s & Hs). exists s. split; [exact Hs|].
  destruct (@md_module_notify_correct _ (toc_region_api true demo_ep) (fun a => a - a mod 4096) 0 ["mod"] demo_module
    (demo_modules s) "" 100 [] [demo_r1; demo_r2] []) as (s' & H1 & H2 & H3 & _).
  - reflexivity.
  - lia.
  - reflexivity.
  - reflexivity.
  - split; vm_compute; intuition discriminate.
  - apply Nat.leb_le. reflexivity.
  - exact Hs.
  - change (joinable [demo_r1; demo_r2] (demo_chunks ++ [])). rewrite app_nil_r. apply demo_chunks_joinable.
  - exists s'. split; [exact H1|]. split; [rewrite H2; vm_compute; reflexivity|].
    replace ([demo_r1; demo_r2] ++ demo_chunks) with (reg_all [] [demo_r1; demo_r2] demo_chunks) by (vm_compute; reflexivity).
    exact H3.
Defined.

(** ** The trace buffer *)

(** C23.  With the zeroed buffer registered, an oops whose lines all come through
    the hook leaves the lines in the buffer, one after the other, started over
    from the beginning whenever the next line does not fit; lines longer than
    the buffer are dropped, and nothing is written outside. *)
Theorem trace_buffer_holds_recent junk {S} `{MdRegionApi S} m phys (a : S) pend rs lines :
  0 < m_lo m -> m_lo m + MD_FTRACE_BUF_SIZE <= m_hi m ->
  api_rep a pend rs -> joinable rs [MdRegion "KFTRACE" junk (m_lo m) phys MD_FTRACE_BUF_SIZE] ->
  exists s a', md_register_trace_buf junk (Some (m, phys)) (ftrace_init m) a = Some (s, a') /\
    exists s', trace_lines lines (snd (md_trace_oops_enter s)) = Some s' /\
      ring_ok s' m (recent lines) /\ md_ftrace_buf_addr s' = m_lo m /\
      bytes_at (ft_mem s') (m_lo m) (recent lines) /\
      mod_only (m_lo m) (m_lo m + MD_FTRACE_BUF_SIZE) m (ft_mem s').
Proof.
  intros Hlo Hhi Hrep Hj. unfold md_register_trace_buf.
  destruct (api_add_joined a pend rs _ [] Hrep Hj) as (a' & -> & _). cbv beta match. eexists _, a'. split; [reflexivity|].
  set (s0 := FtraceState m (m_lo m) 0 true true).
  assert (ring_ok s0 m []) as Hr0.
  { split; cbn; try lia; [apply mod_only_refl|done|intros i b Hb; by destruct i]. }
  destruct (trace_lines_ok lines s0 m [] Hr0 eq_refl eq_refl) as (s' & Hs & Hr & Ha).
  exists s'. split; [exact Hs|]. split; [exact Hr|]. split; [exact Ha|]. destruct Hr as [_ _ _ Hm _ _ Hb].
  rewrite Ha in *. split; [exact Hb|exact Hm].
Qed.

Definition demo_trace : mem := Mem 4194304 6291456 (fun _ => 0).

Lemma trace_buffer_holds_recent_witness : exists s, toc_client demo_ep s [] [demo_r1; demo_r2] /\
  exists t a', @md_register_trace_buf _ (toc_region_api true demo_ep) 0 (Some (demo_trace, 3221225472)) (ftrace_init demo_trace) s
      = Some (t, a') /\
    exists t', trace_lines [[65; 10]; [66; 10]] (snd (md_trace_oops_enter t)) = Some t' /\
      bytes_at (ft_mem t') 4194304 [65; 10; 66; 10].
Proof.
  destruct demo_two_client as (s & Hs). exists s. split; [exact Hs|].
  destruct (@trace_buffer_holds_recent 0 _ (toc_region_api true demo_ep) demo_trace 3221225472 s [] [demo_r1; demo_r2]
    [[65; 10]; [66; 10]]) as (t & a' & H1 & t' & H2 & _ & _ & H3 & _).
  - cbn. lia.
  - cbn. unfold MD_FTRACE_BUF_SIZE. lia.
  - exact Hs.
  - check_joinable.
  - exists t, a'. split; [exact H1|]. exists t'. split; [exact H2|exact H3].
Defined.

(** ** Stacks *)

(** C16.  After any sequence of context switches the four regions of each CPU
    are the pages of the stack of the task it switched to last, idle tasks
    aside; no other region has changed, and neither have the names. *)
Theorem context_switches_tracked {S} `{MdRegionApi S} vmalloc_phys virt_to_phys cpus (s : @stack_state S) rs
  (start : Z -> option ktask) l :
  stacks_inv cpus s rs ->
  Forall (fun t => tk_cpu t ∈ cpus /\ stack_addr_ok vmalloc_phys virt_to_phys true 4 (page_start (tk_stack t))) l ->
  (forall c, c ∈ cpus -> shows_task vmalloc_phys rs (stack_mdidx (md_stack_data s c)) (start c)) ->
  exists s' rs', run_switches vmalloc_phys virt_to_phys l s = Some s' /\ stacks_inv cpus s' rs' /\
    (forall c, c ∈ cpus -> shows_task vmalloc_phys rs' (stack_mdidx (md_stack_data s c)) (running c (start c) l)) /\
    map md_name rs' = map md_name rs /\
    (forall c, stack_mdidx (md_stack_data s' c) = stack_mdidx (md_stack_data s c)) /\
    (forall k, (forall c, c ∈ cpus -> Z.of_nat k ∉ stack_mdidx (md_stack_data s c)) -> rs' !! k = rs !! k).
Proof. apply run_switches_ok. Qed.

Definition demo_stack_state (s : md_state) : @stack_state md_state :=
  StackState s true false (fun _ => no_stack) (SuspendContext 0 no_stack no_region false).

Definition demo_me : on_cpu := OnCpu 0 (KTask 4096 65536 65536 16384 false 0) 65600.

(** The stacks of two CPUs behind a region, in the driver of the demo. *)
Lemma demo_stacks : exists s0 s rs, toc_client demo_ep s0 [] [demo_r1] /\
  @register_current_stack _ (toc_region_api true demo_ep) id id [0; 1] demo_me [] (demo_stack_state s0) = Some s /\
  @stacks_inv _ (toc_region_api true demo_ep) [0; 1] s rs /\
  map md_name rs = "kernel" :: map md_name (all_entries id (fun _ => no_stack) 65536 [0; 1]).
Proof.
  destruct (demo_probed [] ltac:(simpl; lia) ltac:(constructor) ltac:(constructor)) as (s1 & H1 & F1).
  destruct (demo_added s1 [] [] demo_r1 H1) as (s0 & H0 & F0);
    [apply demo_region_ok; set_solver|done|simpl; lia|vm_compute; done|].
  assert (toc_client demo_ep s0 [] [demo_r1]) as Hc by (split; [exact H0|apply (bool_decide_unpack _); vm_compute; exact I]).
  destruct (@register_current_stack_ok _ (toc_region_api true demo_ep) id id [0; 1] demo_me [] (demo_stack_state s0) [demo_r1] [])
    as (s & rs & Hs & Hinv & Hnm).
  - apply (bool_decide_unpack _). vm_compute. exact I.
  - reflexivity.
  - reflexivity.
  - exact Hc.
  - check_fresh.
  - rewrite app_nil_r. check_joinable.
  - change (@api_stable _ (toc_region_api true demo_ep) (sk_api (demo_stack_state s0))) with (first_removed_entry s0).
    rewrite F0, F1. vm_compute. discriminate.
  - apply Forall_nil_2.
  - exists s0, s, rs. split; [exact Hc|]. split; [exact Hs|]. split; [exact Hinv|exact Hnm].
Qed.

Definition demo_next (cpu sp : Z) : ktask := KTask 0 sp sp 16384 false cpu.

Lemma demo_switches_ok :
  Forall (fun t => tk_cpu t ∈ [0; 1] /\ stack_addr_ok id id true 4 (page_start (tk_stack t)))
    [demo_next 1 131072; demo_next 0 262144; demo_next 1 524288].
Proof.
  assert (forall c sp, c ∈ [0; 1] -> 0 < page_start sp < 1048576 ->
    tk_cpu (demo_next c sp) ∈ [0; 1] /\ stack_addr_ok id id true 4 (page_start (tk_stack (demo_next c sp)))) as Hok.
  { intros c sp Hc Hsp. split; [exact Hc|]. cbn [demo_next tk_stack]. unfold stack_addr_ok, PAGE_SIZE.
    split; [lia|]. split; [lia|]. intros i Hi. unfold sp_phys, id. lia. }
  repeat (apply Forall_cons_2; [apply Hok; [apply (bool_decide_unpack _); vm_compute; exact I|by vm_compute]|]). apply Forall_nil_2.
Qed.

(** CPU 1 switches twice, CPU 0 once. *)
Lemma context_switches_tracked_witness : exists s s' rs',
  @run_switches _ (toc_region_api true demo_ep) id id [demo_next 1 131072; demo_next 0 262144; demo_next 1 524288] s = Some s' /\
  @stacks_inv _ (toc_region_api true demo_ep) [0; 1] s' rs' /\
  shows id rs' (stack_mdidx (md_stack_data s 0)) 262144 /\ shows id rs' (stack_mdidx (md_stack_data s 1)) 524288.
Proof.
  destruct demo_stacks as (s0 & s & rs & _ & _ & Hinv & _).
  destruct (@context_switches_tracked _ (toc_region_api true demo_ep) id id [0; 1] s rs (fun _ => None)
    [demo_next 1 131072; demo_next 0 262144; demo_next 1 524288] Hinv) as (s' & rs' & H1 & H2 & H3 & _).
  - exact demo_switches_ok.
  - done.
  - exists s, s', rs'. split; [exact H1|]. split; [exact H2|].
    split; [apply (H3 0)|apply (H3 1)]; apply (bool_decide_unpack _); vm_compute; exact I.
Defined.

(** C15.  Initialised with stacks on a driver without regions, the module tracks
    them from the start: whatever else it registers, after any sequence of
    context switches the regions 1 + 4 i, ..., 4 + 4 i are the pages of the
    stack of the task that the i-th CPU switched to last; all regions keep
    their names, and those that belong to no CPU are as they were
    registered. *)
Theorem stacks_tracked_from_boot {S} `{MdRegionApi S} vmalloc_phys virt_to_phys phys_to_virt size_of_task cf an
  (s : @log_state S) m phys sizes l :
  let es := log_entries vmalloc_phys virt_to_phys phys_to_virt size_of_task cf an (ls_stack s) m phys
              (kmsg_dump_sz (ls_kmsg s)) sizes in
  let ncpus := length (an_cpus an) in
  CONFIG_QCOM_DYN_MINIDUMP_STACK cf = true -> an_kmsg an = Some (m, phys) -> log_ready cf an s sizes ->
  (forall c, c ∈ an_cpus an -> length (stack_mdr (md_stack_data (ls_stack s) c)) = 4%nat) ->
  api_rep (ls_api s) [] [] -> fresh [] [] es -> joinable [] es -> 1 + 4 * Z.of_nat ncpus <= api_stable (ls_api s) ->
  Forall (fun t => tk_cpu t ∈ an_cpus an /\ stack_addr_ok vmalloc_phys virt_to_phys true 4 (page_start (tk_stack t))) l ->
  exists s' k rs, msm_minidump_log_init vmalloc_phys virt_to_phys phys_to_virt size_of_task cf an s = Some (0, s') /\
    run_switches vmalloc_phys virt_to_phys l (set_sk_api (ls_stack s') (ls_api s')) = Some k /\
    api_rep (sk_api k) [] rs /\ map md_name rs = map md_name es /\
    (forall i c, an_cpus an !! i = Some c -> shows_task vmalloc_phys rs (numbers (1 + 4 * i) 4) (running c None l)) /\
    (forall n, (n = 0 \/ 1 + 4 * ncpus <= n)%nat -> rs !! n = es !! n).
Proof.
  intros es ncpus Hdyn Hk Hs Hl Hrep Hf Hj Hstable Hok.
  destruct (log_init_stacks vmalloc_phys virt_to_phys phys_to_virt size_of_task cf an s m phys sizes Hdyn Hk Hs Hl Hrep Hf Hj Hstable)
    as (s' & -> & Hidx & Hinv).
  destruct (run_switches_ok vmalloc_phys virt_to_phys (an_cpus an) l _ _ (fun _ => None) Hinv Hok)
    as (k & rs & Hrun & Hinv' & Hsh & Hnm & _ & Hoth); [done|].
  exists s', k, rs. split; [done|]. split; [exact Hrun|]. split; [apply Hinv'|]. split; [exact Hnm|]. split.
  - intros i c Hc. rewrite <- (Hidx i c Hc). apply Hsh. by eapply list_elem_of_lookup_2.
  - intros n Hn. apply Hoth. intros c Hc. apply list_elem_of_lookup in Hc as [i Hc].
    cbn [md_stack_data set_sk_api]. rewrite (Hidx i c Hc), elem_of_numbers.
    pose proof (lookup_lt_Some _ _ _ Hc). subst ncpus. lia.
Qed.

Lemma stacks_tracked_from_boot_witness : exists s0 s' k rs, toc_client demo_ep s0 [] [] /\
  @msm_minidump_log_init _ (toc_region_api true demo_ep) id id id 4096 demo_config demo_answers (log_init_state s0)
    = Some (0, s') /\
  @run_switches _ (toc_region_api true demo_ep) id id [demo_next 1 131072; demo_next 0 262144; demo_next 1 524288]
    (set_sk_api (ls_stack s') (ls_api s')) = Some k /\
  toc_client demo_ep (sk_api k) [] rs /\
  shows id rs [1; 2; 3; 4] 262144 /\ shows id rs [5; 6; 7; 8] 524288.
Proof.
  destruct (demo_probed [] ltac:(simpl; lia) ltac:(constructor) ltac:(constructor)) as (s0 & H0 & F0).
  assert (toc_client demo_ep s0 [] []) as Hc by (split; [exact H0|apply (bool_decide_unpack _); vm_compute; exact I]).
  exists s0. destruct (@stacks_tracked_from_boot _ (toc_region_api true demo_ep) id id id 4096 demo_config demo_answers
    (log_init_state s0) (Mem 1048576 1179648 (fun _ => 0)) 2147483648 initial_size
    [demo_next 1 131072; demo_next 0 262144; demo_next 1 524288]) as (s' & k & rs & H1 & H2 & H3 & _ & H4 & _).
  - reflexivity.
  - reflexivity.
  - apply (@log_init_ready _ (toc_region_api true demo_ep)); [exact demo_pstore|exact demo_quiet|cbn; lia].
  - reflexivity.
  - exact Hc.
  - check_fresh.
  - check_joinable.
  - change (1 + 4 * 2 <= first_removed_entry s0). rewrite F0. vm_compute. discriminate.
  - exact demo_switches_ok.
  - exists s', k, rs. split; [exact Hc|]. split; [exact H1|]. split; [exact H2|]. split; [exact H3|].
    split; [exact (H4 0%nat 0 eq_refl)|exact (H4 1%nat 1 eq_refl)].
Defined.

(** ** The kernel log *)

(** C24.  A dump of the kernel log starts with the reason and writes into the
    buffer only, as long as the size - a parameter that can be written at run
    time - is that of the buffer; a size smaller than the header becomes a
    negative one, so that the messages get all the memory behind the buffer. *)
Theorem md_kmsg_dump_bounded get why s :
  m_lo (kg_mem s) <= kmsg_buf s -> kmsg_buf s + kmsg_dump_sz s <= m_hi (kg_mem s) ->
  slen (kmsg_header why) <= INT_MAX_SIZE ->
  (writes_inside get -> slen (kmsg_header why) < kmsg_dump_sz s <= INT_MAX_SIZE ->
     exists s', md_kmsg_dump get why s = Some s' /\
       mod_only (kmsg_buf s) (kmsg_buf s + kmsg_dump_sz s) (kg_mem s) (kg_mem s') /\
       chars_at (kg_mem s') (kmsg_buf s) (kmsg_header why)) /\
  (0 <= kmsg_dump_sz s < slen (kmsg_header why) ->
     exists m, mod_only (kmsg_buf s) (kmsg_buf s + kmsg_dump_sz s) (kg_mem s) m /\
       md_kmsg_dump get why s
         = (let* (_, m) := get m (kmsg_buf s + slen (kmsg_header why))
                             (18446744073709551616 + kmsg_dump_sz s - slen (kmsg_header why)) in
            Some (KmsgState m (kmsg_buf s) (kmsg_dump_sz s) (kg_dumper s)))).
Proof.
  intros Hlo Hhi Hlen. split.
  - intros Hget Hsz. by apply md_kmsg_dump_ok.
  - intros Hsz. destruct (md_kmsg_dump_wraps get why s Hsz Hlen Hlo Hhi) as (m & Hm & Hmod). by exists m.
Qed.

(** A buffer of 64 bytes; messages that fill whatever there is with zeros. *)
Definition demo_get (m : mem) (a n : Z) : option (bool * mem) :=
  if in_range m a n then Some (true, with_bytes m (fun x => if (a <=? x) && (x <? a + n) then 0 else m_byte m x)) else None.

Lemma demo_get_inside : writes_inside demo_get.
Proof.
  intros m a n Hlo Hn Hhi. unfold demo_get, in_range. decide_tests. eexists true, _. split; [reflexivity|].
  split_and!; [done..|]. intros x Hx. unfold byte. cbn. by replace ((a <=? x) && (x <? a + n)) with false by lia.
Qed.

Definition demo_kmsg (size : Z) : kmsg_state := KmsgState (Mem 4096 4160 (fun _ => 1)) 4096 size true.

Lemma md_kmsg_dump_bounded_witness :
  (exists s', md_kmsg_dump demo_get "Panic" (demo_kmsg 64) = Some s' /\
     chars_at (kg_mem s') 4096 ("MiniDump: Panic" +:+ nl)) /\
  md_kmsg_dump demo_get "Panic" (demo_kmsg 8) = None.
Proof.
  split.
  - destruct (md_kmsg_dump_bounded demo_get "Panic" (demo_kmsg 64)) as [H _]; [cbn; lia|cbn; lia|by vm_compute|].
    destruct (H demo_get_inside) as (s' & H1 & _ & H2); [split; vm_compute; [reflexivity|discriminate]|].
    exists s'. split; [exact H1|exact H2].
  - destruct (md_kmsg_dump_bounded demo_get "Panic" (demo_kmsg 8)) as [_ H]; [cbn; lia|cbn; lia|by vm_compute|].
    destruct H as (m & (Hl & Hh & _) & ->); [split; vm_compute; [discriminate|reflexivity]|].
    unfold demo_get, in_range. rewrite <- Hh. cbn [m_hi demo_kmsg kg_mem kmsg_buf kmsg_dump_sz].
    change (slen (kmsg_header "Panic")) with 16.
    change (4096 + 16 + (18446744073709551616 + 8 - 16) <=? 4160) with false. by rewrite andb_false_r.
Defined.
