(* ===== verification/MdPanicProps.v ===== *)
(** * Properties of the panic handler (minidump_log.c, md_dump_process) *)

From stdpp Require Import gmap.
From S2P Require Import Prelude CMem CStr CText CPrint MdMemInfo MdMemDump MdPageOwner MdPageOwnerProofs MdSlabOwner.
From S2P Require Import MdDmaBuf MdDmaBufProofs MdRunqueue MdRunqueueProofs MdCpuContext MdPanic MdPanicProofs.

#[local] Open Scope string_scope.
#[local] Open Scope list_scope.
#[local] Open Scope Z_scope.

(** C7.  The first panic prints, into the buffers that are registered, the
    registers with the memory around them - of the panicking CPU, unless it
    printed them as it died, and of the stopped ones -, the run queues with
    the table of tasks, the memory statistics, the slab statistics unless
    somebody holds their mutex, and into the dumps that are on the owned pages
    that the filter selects, the dma-bufs and the processes' dma-bufs; memory
    outside the dumps is as it was.  A second call, whatever the kernel looks
    like then, changes nothing.

    This is for a panic in process context ([in_task]; elsewhere the dma-bufs
    are left out) of a kernel without CONFIG_SCHED_WALT, with the page owner
    dump and the two of dma-bufs on, in separate memory inside the reserved
    one, and with the slab owner dump off: that one may be written over its
    end.  The dma-buf dumps are empty and have room for their heading, nobody
    holds a reservation, and the first thread of each process is its leader
    and has files; the scheduler's queues and masks are those of a kernel
    ([panic_ok]).  The text of the page owner dump is for a filter that goes by the
    flags of the pages (0xF or without bit 0x1) and a dump nothing was
    written to before ([owner_fresh]); whatever the filter, only the dump is
    written. *)
Theorem md_dump_process_correct peek PAGE_OFFSET pages stacks ptr_text sym_text lru slab swapbacked MAX_ORDER
  stack_hash buf_hash files e s :
  let process := md_dump_process peek PAGE_OFFSET pages stacks ptr_text sym_text lru slab swapbacked MAX_ORDER
                   stack_hash buf_hash files in
  let info := pn_dma_info s in
  let procs := pn_dma_procs s in
  panic_ok pages MAX_ORDER files e s ->
  exists s', process e s = Some s' /\ (forall e', process e' s' = Some s') /\
    md_cntxt_seq_buf (pn_cntxt s') = option_map (fun b => seq_buf_prints b (context_lines peek PAGE_OFFSET e (pn_cntxt s)))
      (md_cntxt_seq_buf (pn_cntxt s)) /\ md_in_oops_handler (pn_cntxt s') = false /\
    md_runq_seq_buf s' = option_map (runq_text e) (md_runq_seq_buf s) /\
    md_meminfo_seq_buf s' =
      option_map (fun b => seq_buf_prints b (meminfo_lines (pv_mem_config e) (pv_stats e))) (md_meminfo_seq_buf s) /\
    md_slabinfo_seq_buf s' = option_map (fun b => seq_buf_prints b (slabinfo_text e)) (md_slabinfo_seq_buf s) /\
    (owner_fresh swapbacked s ->
       owner_dumped pages stacks ptr_text lru slab swapbacked MAX_ORDER e s (pn_mem s')) /\
    cstr_at (pn_mem s') (dump_addr info) (stake (Z.to_nat (dump_size info - 1)) (dma_info_text (pv_bufs e))) /\
    cstr_at (pn_mem s') (dump_addr procs)
      (stake (Z.to_nat (dump_size procs - 1)) (procs_text buf_hash files (pv_procs e))) /\
    (forall x, ~ ow_addr (pn_owner s) <= x < ow_addr (pn_owner s) + ow_size (pn_owner s) ->
       ~ dump_addr info <= x < dump_addr info + dump_size info ->
       ~ dump_addr procs <= x < dump_addr procs + dump_size procs -> byte (pn_mem s') x = byte (pn_mem s) x).
Proof.
  intros process info procs Hok. pose proof Hok as [[Ho Hd] _ _ _].
  destruct (md_dump_process_ok peek PAGE_OFFSET pages stacks ptr_text sym_text lru slab swapbacked MAX_ORDER
    stack_hash buf_hash files e s Hok) as (s' & Hp & Hc & Hdone & H').
  exists s'. split; [exact Hp|]. split.
  - intros e'. apply (md_dump_process_once _ _ _ _ _ _ _ _ _ _ _ _ _ _ _ _ Hp e' Ho). by left.
  - rewrite Hc. split; [done|]. split; [done|]. exact H'.
Qed.

(** CPU 1 panics while CPU 0 is stopped in user mode: one task, one dma-buf and
    one process with it. *)
Definition demo_panic_buf : dma_buf := DmaBuf 8192 2 3 1 "system" 78 None 2 0 None [] [].

Definition demo_panic_proc : process := Process "init" 1 (Some 1) [Thread (Some 1) true].

Definition demo_panic_files (n : Z) : fd_table := [Some demo_panic_buf].

Definition demo_panic_env : panic_env :=
  PanicEnv 1 (PtRegs false (repeat 0 31) 0 4096) [0]
    (RunqConfig false true 0x7f 0x402 0x80) [] [Task 4096 1 0 "init" 1 2 3 4 0 120 0 0]
    (MemConfig false false false false false 512 1000)
    (VmStats (SysInfo 1 2 3 4 5 6 7 8) (fun _ => 0) (fun _ => 0) 0 0 0 0 0) [] true
    0 4 [] true [demo_panic_buf] [demo_panic_proc].

Definition demo_panic_state : panic_state :=
  PanicState (CntxtState (Some (seq_buf_init 200)) (-1) (fun _ => PtRegs true (repeat 0 31) 0 0) false) 0
    (Some (RunqState (seq_buf_init 1000) 0)) None (Some (seq_buf_init 100))
    (Mem 1000 4000 (fun _ => 0)) (OwnerState (Mem 0 0 (fun _ => 0)) 1000 40 0xF 8 0 [])
    (SlabState (Mem 0 0 (fun _ => 0)) 0 0 0 0 0) (Dump 1100 500) (Dump 2000 400) (Held [] 0 0) ∅.

Definition demo_page (pfn : Z) : page_info := PageInfo true None true true true 7 0.

Lemma demo_panic_ok : panic_ok demo_page 2 demo_panic_files demo_panic_env demo_panic_state.
Proof.
  split; [by split|by split|split_and!; [by split|done|by constructor|done]|]. split.
  - split; [by split|done].
  - by split.
  - done.
  - split; [by split|]. split; [done|by vm_compute].
  - split; [done|]. apply Forall_cons_2; [split; [done|by intros ?%not_elem_of_nil]|by constructor].
  - split; [by split|done].
  - apply Forall_cons_2; [|by constructor]. split; [by eexists _, _, 1|by vm_compute].
  - split_and!; unfold apart; cbn; lia.
Qed.

Lemma md_dump_process_correct_witness :
  exists s', md_dump_process (fun _ => None) 65536 demo_page (fun _ => [16]) fmt_x fmt_x 1 2 3 2 (fun _ => 0) db_ino
      demo_panic_files demo_panic_env demo_panic_state = Some s' /\
    md_cntxt_seq_buf (pn_cntxt s')
      = Some (seq_buf_prints (seq_buf_init 200) ["PANIC CPU : 1" +:+ nl; nl +:+ "STOPPED CPU : 0" +:+ nl]) /\
    cstr_at (pn_mem s') 1000 ("0 7 1" +:+ nl +:+ "10" +:+ nl +:+ "1 7 0" +:+ nl +:+ "2 7 0" +:+ nl +:+ "3 7 0" +:+ nl) /\
    cstr_at (pn_mem s') 1100 (stake 499 (dma_info_text [demo_panic_buf])).
Proof.
  destruct (md_dump_process_correct (fun _ => None) 65536 demo_page (fun _ => [16]) fmt_x fmt_x 1 2 3 2 (fun _ => 0) db_ino
    demo_panic_files demo_panic_env demo_panic_state demo_panic_ok) as (s' & H1 & _ & H2 & _ & _ & _ & _ & H3 & H4 & _).
  exists s'. split; [exact H1|]. split; [rewrite H2; reflexivity|]. split; [|exact H4].
  destruct H3 as (p & (Hp1 & _ & Hp2) & H3).
  { split; [lia|split; [cbn; lia|by left]|reflexivity|reflexivity]. }
  assert (p = 0) as ->.
  { destruct (Z.eq_dec p 0) as [|Hne]; [done|]. cbn [pv_min_low_pfn demo_panic_env] in Hp1, Hp2.
    destruct (Hp2 0 ltac:(lia)) as [Hv _]. discriminate Hv. }
  exact H3.
Defined.

(** ** The run queues *)

(** C17.  The dump of the run queues - a recursion over the groups that counts
    the nesting in a variable of the file, and a walk over the bitmap of the
    real-time queue - prints the outline [runq_lines]: each group's members one
    level deeper, the first 200 nodes of a tree, the real-time tasks by
    priority, and a table with one row per task.  It always ends, with the
    variable at 0 again, and takes a letter for the state of every task.  This
    is the build without CONFIG_SCHED_WALT. *)
Theorem md_dump_runqueues_correct c cpus tasks n t :
  states_ok c -> CONFIG_SCHED_WALT c = false -> Forall cpu_ok cpus -> 0 < n ->
  md_dump_runqueues c cpus tasks (Some (RunqState (seq_view n t) 0))
    = Some (Some (RunqState (seq_view n (t +:+ String.concat "" (runq_lines c cpus tasks))) 0)).
Proof.
  intros Hc Hw Hok Hn. rewrite md_dump_runqueues_prints by done. by rewrite seq_view_prints.
Qed.

(** A CPU with a running task, a group of two tasks, one of them the running
    one, and a real-time task of priority 1. *)
Definition demo_task (addr pid : Z) : task := Task addr pid 0 "init" 1 2 3 4 0 120 0 0.

Definition demo_group : entity :=
  EGroup 2 (ETask (demo_task 4096 1)) ENone ENone ENone true [ETask (demo_task 8192 2)].

Definition demo_cpu : cpu_rq :=
  CpuRq 0 3 (demo_task 4096 1) (CfsRq 1 demo_group ENone ENone ENone false [])
    (RtRq 1 (false :: true :: repeat false 98) ([] :: [RtTask (demo_task 12288 3)] :: repeat [] 98)).

Lemma md_dump_runqueues_correct_witness :
  exists text, md_dump_runqueues (RunqConfig false true 0x7f 0x402 0x80) [demo_cpu] [] (Some (RunqState (seq_view 4096 "") 0))
      = Some (Some (RunqState (seq_view 4096 text) 0)) /\
    stake 278 text = String.concat nl
      ["CPU0 has 3 process, current is pid 1"; "CFS has 1 process"; " |--curr: 2 process is grouping";
       " |  |--[status: curr] pid: 1 preempt: 0"; " |  |--next : None(0)"; " |  |--last : None(0)";
       " |  |--skip : None(0)"; " |  |--[status: pend] pid: 2"; " |--next : None(0)"; " |--last : None(0)";
       " |--skip : None(0)"].
Proof.
  eexists. split.
  - apply md_dump_runqueues_correct; [by split|done| |done].
    apply Forall_cons_2; [|by constructor]. by split; [split|].
  - vm_compute. reflexivity.
Defined.
